(* ===== verification/_CoqProject ===== *)
-Q . S2P
Prelude.v
CString.v
Paths.v
Os.v
Examples.v
Platform.v
Fs.v
OsFacts.v
FsFacts.v
CopyWin.v
CopyFacts.v
CopySpec.v
Config.v
ConfigFacts.v
AtomicFacts.v
ConfigText.v
PlainFacts.v
ConfigSpec.v
FsTree.v
FsTreeFacts.v
Restore.v
RestoreFacts.v
RestoreSpec.v
Queue.v
QueueFacts.v
QueueSpec.v
AppState.v
Log.v
LogFacts.v
Clocks.v
App.v
WalkFacts.v
AppFacts.v
Demo.v
LifeFacts.v
SyncFacts.v
Workers.v
BackupFacts.v
MovesFacts.v
RecoverFacts.v
LogSpec.v
AppSpec.v
LifeSpec.v
BackupSpec.v
Snapshot.v
SnapshotFacts.v
PollFacts.v
PollSpec.v
MirrorSpec.v
ChangeSpec.v
Service.v
ServiceFacts.v
ServiceSpec.v
ServiceMac.v
Json.v
Status.v
Token.v
Web.v
RecoverSpec.v
TokenFacts.v
WebFacts.v
DemoWeb.v
WebSpec.v
SettingsSpec.v
Inotify.v
InotifyFacts.v
WatcherWin.v
InotifySpec.v
Strtod.v
Options.v
OptionsFacts.v
ServiceWin.v
ServiceWinSpec.v
Database.v
DatabaseFacts.v
DatabaseSpec.v
Dashboard.v
Cli.v
CliSpec.v
ServiceMacSpec.v
