(* ===== verification/Prelude.v ===== *)
(** * SySeBa: a verified model of the continuous backup service

    SySeBa (src/src/, C11) keeps a copy of a source directory in a backup directory.  A
    watcher sees what changes in the source and puts events in a queue; a pool of workers
    takes them, copies what was created or modified and moves the copy of what was deleted
    into a restore area, from which the user can bring it back.  A log thread writes what
    happened to a file and to a SQLite table, a Web UI and a command line show the state,
    list and restore items and change the configuration, and a systemd unit, a launchd
    property list or the Windows service manager starts the service.  This library models
    the Linux build of all of that, function by function, with the services of the other two
    systems and the Windows watcher, and proves what makes it correct.

    ** How the program is modelled

    A C string is the list of its bytes ([cstr], below); sizes and machine integers are [Z]
    with their wrap-around written out ([wrap32], [wrap64]); a function that may fail gives
    an option, a sum or, for an [int] that is 0 or -1, a boolean whose [true] is 0.
    Functions with effects are computations of the state monad [ST] of this file; a
    component's state is reached in a bigger one through a [Lens] ([zoom]).

    The host (Os.v) is a map from physical locations (the names on the way from the root,
    without links) to nodes, with [errno], the clocks and the locks, and a list of events
    for what the rest of the world does between two calls: a call that fails, a transfer
    that is short, a file that someone else edits, time that passes.  A theorem on a
    [quiet] host assumes that this list is empty; the others hold whatever it holds.
    Path resolution follows symbolic links, with the kernel's bound of 40.

    ** Files and source files

    - Prelude.v: [ST], lenses, lengths, the tactics and rewriting hints of the library.
    - CString.v, Strtod.v, Json.v: what the program uses of the C library ([strchr],
      [strtoul], [strtod], [snprintf] into a buffer, ...), of [double], and of cJSON.
    - Paths.v, Platform.v, Clocks.v (src/src/platform.c): lexical paths, [syseba_mkdirs],
      deadlines, disk usage, random bytes, the lock probe; the local time as text, clocks,
      sleeps.  Os.v, OsFacts.v: the host, and frame rules of its calls.
    - Fs.v, FsTree.v, Restore.v (src/src/fs.c): opening and copying a file, walking, copying,
      moving and removing a tree, unique names, the listing and the restoration of an item.
      Facts: FsFacts.v (faults), CopyFacts.v (quiet host), FsTreeFacts.v, WalkFacts.v,
      RestoreFacts.v, RecoverFacts.v, AtomicFacts.v.  Claims: CopySpec.v, RestoreSpec.v,
      RecoverSpec.v.  CopyWin.v: one attempt at a copy in the Windows build, with its promise.
    - Config.v (src/src/config.c): the INI file, its validation, and the containment functions.
      Facts: ConfigFacts.v, ConfigText.v, PlainFacts.v.  Claims: ConfigSpec.v.
    - Queue.v (src/src/queue.c): the linked list with its heap, the critical sections of every
      operation, and the step relation [queue_step] of its users.  QueueFacts.v, QueueSpec.v.
    - AppState.v (src/src/syseba_internal.h): [syseba_app_t] and the types it holds.
    - Log.v and the end of Database.v (src/src/log.c): emission of a record, the ring of recent
      lines, the tail of the file, the writer thread.  LogFacts.v, LogSpec.v.
    - Database.v (src/src/database.c): schema, migration, writer.  DatabaseFacts.v, DatabaseSpec.v.
    - App.v, Status.v (src/src/app.c): events, workers ([worker_step]: any number of workers,
      one event at a time), initial synchronization, lock, start and stop, status document.
      AppFacts.v, SyncFacts.v, LifeFacts.v.  Workers.v: any number of workers on any list of
      events, with what the events do as an invariant; its instances are BackupFacts.v
      (creations and modifications) and MovesFacts.v (those, and deletions of files).
      AppSpec.v, BackupSpec.v, LifeSpec.v.
    - Snapshot.v (src/src/watcher_poll.c, src/src/watcher.c): snapshots as hash tables, their
      comparison, the polling loop.  SnapshotFacts.v, PollFacts.v, PollSpec.v; MirrorSpec.v
      and ChangeSpec.v put a turn of the watcher and the workers together.
    - Inotify.v (src/src/watcher_linux.c): the table of watches, the decoding of the kernel's
      buffer, the handling of an event, the loop.  InotifyFacts.v, InotifySpec.v.
    - WatcherWin.v (src/src/watcher_windows.c): the buffer of [ReadDirectoryChangesW], the
      events of its records, the loop, and its promise.
    - Service.v (src/src/service_linux.c): the systemd unit.  ServiceFacts.v, ServiceSpec.v.
    - ServiceMac.v (src/src/service_macos.c): the property list.  ServiceMacSpec.v.
    - ServiceWin.v (src/src/service_windows.c): the command line, the installation, the states
      of the running service.  ServiceWinSpec.v.
    - Token.v, Web.v (src/src/web.c): the access token, and every HTTP handler.
      TokenFacts.v, WebFacts.v, WebSpec.v, SettingsSpec.v.
    - Options.v, Cli.v (src/src/cli.c, src/src/main.c): the parser and every command.
      OptionsFacts.v, CliSpec.v.
    - Dashboard.v (src/src/dashboard.c): the screen and its loop (definitions).
    - Examples.v, Demo.v, DemoWeb.v: concrete hosts and services for the witnesses, with
      boolean checks of the hypotheses.

    Definitions keep the names of the C functions; a loop or a block of a function that has
    its own definition is named after what it does.  The theorems whose comment begins with
    a number C1, C2, ... are the promises; every one with a hypothesis has a witness that
    applies it to a concrete input.

    ** What the theorems show

    - The backup (BackupSpec, AppSpec, LifeSpec): after an initial synchronization, however
      many workers take its events in whatever order, every file and directory of the source
      is in the backup and nothing else has changed, provided the host's [realpath] leaves
      [errno] alone; where it does not, as POSIX allows, the walk stops half way, and the
      theorems say when; what one event does; start is all or
      nothing; the lock excludes; and where two workers lose a copy.
    - Staying current (MirrorSpec, ChangeSpec): between two turns of the polling watcher the
      backup is up to date with the picture that the watcher holds, an invariant that a turn
      and the work of the workers keep: whatever files and directories were added and whatever
      files were modified or deleted, the backup
      has the new source and the restore area the deleted files, turn after turn, with other
      programs at work between the turns.  Two changes are left out, because the program does
      not handle them so: a file that becomes a directory or the reverse (PollSpec), and a
      directory that is deleted (its files may be scattered over two directories of the
      restore area, an example of ChangeSpec).  Others are assumed away: changes of the backup
      by other programs, taken names in the restore area, failing calls, several devices.
    - Coming back (RecoverSpec): what a deletion put into the restore area is restored with
      its bytes, mode and time, at its name or beside what has taken it.
    - Copies (CopySpec): no failure or short transfer leaves a torn file at a visible name;
      a quiet copy has the bytes, mode bits and time of its source.
    - Containment (ConfigSpec): what [syseba_safe_join] accepts is under its base for the
      kernel, unless a name holds a backslash, and a host shows what happens then; the
      configured directories are apart; a saved configuration loads as it is when no link is
      on the way to its paths, and an example shows a link that the saved file replaces.
    - Queue (QueueSpec): it refines a FIFO list and loses nothing.
    - Watchers (PollSpec, InotifySpec): a polling turn enqueues exactly the differences; the
      inotify table refines a finite map, covers the source where the kernel grants every
      watch, and its events reach the queue; a renamed directory is no longer reported.
    - Restoring (RestoreSpec), log (LogSpec), database (DatabaseSpec): pages are a partition,
      orders are orders, a refusal changes nothing; the tail; a migration is all or nothing;
      every line reaches the log file, whatever the database does.
    - Web UI (WebSpec, SettingsSpec): without the token nothing is learnt or changed; the
      constant-time comparison is equality; the token is strong and persists; a download
      sends the file; accepted settings are stored and ask for a restart when they differ.
    - Services and command line (ServiceSpec, ServiceMacSpec, ServiceWinSpec, CliSpec):
      systemd, launchd and the C runtime of Windows read what was written back, but for a
      program path with a dollar sign in the unit, and the parser reads it to what the service
      carries of its installation; an installation closes its handles;
      a Windows service reports its states in order; accepted options are in range; the
      restore browser ends.

    ** Fuel

    The recursive walk has [SYSEBA_PATH_MAX + 1] levels: every level adds at least two bytes
    to a path that must fit its buffer (RestoreSpec shows that the bound is never reached).  The
    transfer loops have the length of the file plus what pending edits may add
    ([copy_fuel_total]); symbolic links the 40 of the kernel; a directory probe the length of
    its path; the browser the length of its input plus one (CliSpec); a wait the slices of its
    time.  Services that run until they are stopped (the loops of the watchers, of the
    dashboard and of [syseba_cli_run]) take the list or number of turns as an argument and say
    whether they ended.

    ** What is a parameter

    Classes stand for code that is not of the program: [DirOrder] (the order of [readdir]),
    [Qsort], [Allocator] and [SnapshotMemory] (allocation), [LocalTime] with [LocalTimeLaws],
    [Strerror], [Host] (statvfs and /proc), [Environment], [Systemctl], [Systemd] with
    [SystemdLaws] (how it reads a unit), [Launchctl],
    [ServiceManager], [WindowsText] and [WindowsFiles], [Inotify] with [InotifyLaws], [Sqlite]
    with [SqliteLaws], [CJson] and [CJsonPrint], [Civetweb], [Assets].  [Clock], [IsoTime] and
    [LocalStamp] are the local time as text for the components; Clocks.v has their
    instances.  The laws state what inotify(7), sqlite.org and the manual of systemd document;
    concrete
    instances show that they can hold.  What a successful [realpath] leaves in [errno] is the
    field [os_realpath_errno] of the host, which no promise fixes.  The byte that
    [syseba_relative_path] reads beyond a path (ConfigSpec) is the parameter [unknown].

    ** What is not modelled

    The Windows branches of platform.c, config.c, app.c and cli.c, and those of fs.c but the
    copy of a file: what the two Windows files call of them is an argument of their models.
    Threads, mutexes and condition
    variables themselves: a critical section is one step.  The workers handle an event as one
    step, so that interleavings inside a copy are not covered (the copy's own theorem lets the
    host change between its calls).  The controls of a Windows service are handled one after
    the other while its command line runs.  third_party/ (CivetWeb, cJSON, SQLite), the Web page,
    packaging, scripts and tests.  Allocation failures are modelled in the queue, the snapshot
    and the watch table; elsewhere memory is always found. *)

From Stdlib Require Export ZArith Lia Ascii String List.
From stdpp Require Export base gmap list strings.
#[global] Set Default Goal Selector "!".

(** ** C strings and sizes

    A C string is the list of its bytes, without the terminating NUL. *)
Notation cstr := (list ascii).

Declare Scope syseba_scope.
Delimit Scope syseba_scope with syseba.
Open Scope syseba_scope.
Open Scope Z_scope.

(** A C string literal. *)
Definition str (s : string) : cstr := list_ascii_of_string s.
Arguments str _%_string_scope : simpl never.
Notation "'c!' s" := (str s%string) (at level 1, s at level 0) : syseba_scope.

(** The length of a list as an integer, the type C compares sizes at. *)
Definition zlen {A} (l : list A) : Z := Z.of_nat (length l).

Section ZLen.
Context {A : Type}.
Implicit Types l k : list A.

Lemma zlen_nil : zlen (@nil A) = 0.
Proof. reflexivity. Qed.
Lemma zlen_cons (x : A) l : zlen (x :: l) = 1 + zlen l.
Proof. unfold zlen. simpl. lia. Qed.
Lemma zlen_app l k : zlen (l ++ k) = zlen l + zlen k.
Proof. unfold zlen. rewrite length_app. lia. Qed.
Lemma zlen_nonneg l : 0 <= zlen l.
Proof. unfold zlen. lia. Qed.
Lemma zlen_0_inv l : zlen l = 0 -> l = [].
Proof. destruct l; [done|]. rewrite zlen_cons. pose proof (zlen_nonneg l). lia. Qed.
End ZLen.

Lemma zlen_map {A B} (f : A -> B) (l : list A) : zlen (map f l) = zlen l.
Proof. unfold zlen. by rewrite length_map. Qed.

Create HintDb zlen.
#[export] Hint Rewrite @zlen_nil @zlen_cons @zlen_app @zlen_map : zlen.

(** Close a goal on list lengths. *)
Ltac zlen_lia :=
  autorewrite with zlen in *;
  repeat match goal with
  | |- context [zlen ?l] =>
      lazymatch goal with
      | _ : 0 <= zlen l |- _ => fail
      | _ => pose proof (zlen_nonneg l)
      end
  | _ : context [zlen ?l] |- _ =>
      lazymatch goal with
      | _ : 0 <= zlen l |- _ => fail
      | _ => pose proof (zlen_nonneg l)
      end
  end; lia.

(** ** Boolean reflection *)

(** Turn the boolean comparisons of the hypotheses into propositions. *)
Ltac bool_hyps :=
  repeat match goal with
  | H : (_ && _) = true |- _ => apply andb_true_iff in H; destruct H
  | H : (_ || _) = false |- _ => apply orb_false_iff in H; destruct H
  | H : negb _ = true |- _ => apply negb_true_iff in H
  | H : negb _ = false |- _ => apply negb_false_iff in H
  | H : (_ <? _) = true |- _ => apply Z.ltb_lt in H
  | H : (_ <? _) = false |- _ => apply Z.ltb_ge in H
  | H : (_ <=? _) = true |- _ => apply Z.leb_le in H
  | H : (_ <=? _) = false |- _ => apply Z.leb_gt in H
  | H : (_ =? _) = true |- _ => apply Z.eqb_eq in H
  | H : (_ =? _) = false |- _ => apply Z.eqb_neq in H
  | H : bool_decide _ = true |- _ => apply bool_decide_eq_true in H
  | H : bool_decide _ = false |- _ => apply bool_decide_eq_false in H
  end.

(** Case analysis on the scrutinee of the first [if] of the goal. *)
Ltac case_if :=
  match goal with
  | |- context [if ?b then _ else _] =>
      lazymatch b with
      | context [if _ then _ else _] => fail
      | _ => let E := fresh "E" in destruct b eqn:E
      end
  end.

(** ** Machine integers *)

Definition U64_MAX : Z := 2 ^ 64 - 1.
Definition U32_MAX : Z := 2 ^ 32 - 1.
Definition wrap64 (x : Z) : Z := x mod 2 ^ 64.
Definition wrap32 (x : Z) : Z := x mod 2 ^ 32.

Lemma wrap64_small x : 0 <= x <= U64_MAX -> wrap64 x = x.
Proof. unfold wrap64, U64_MAX. intros. apply Z.mod_small. lia. Qed.
Lemma wrap64_range x : 0 <= wrap64 x <= U64_MAX.
Proof.
  unfold wrap64, U64_MAX. pose proof (Z.mod_pos_bound x (2 ^ 64)). lia.
Qed.

(** ** A state monad

    Code that reads and writes shared state is a function of the state. *)
Definition ST (S A : Type) : Type := S -> A * S.

Section StateMonad.
Context {S : Type}.

Definition ret {A} (a : A) : ST S A := fun s => (a, s).
Definition bind {A B} (m : ST S A) (k : A -> ST S B) : ST S B :=
  fun s => let '(a, s') := m s in k a s'.
Definition gets {A} (f : S -> A) : ST S A := fun s => (f s, s).
Definition modify (f : S -> S) : ST S unit := fun s => (tt, f s).

(** The state a computation ends in, and its value. *)
Definition exec {A} (m : ST S A) (s : S) : S := snd (m s).
Definition value {A} (m : ST S A) (s : S) : A := fst (m s).

(** A computation keeps a relation between the state before and after. *)
Definition keeps (R : S -> S -> Prop) {A} (m : ST S A) : Prop :=
  forall s, R s (exec m s).

Section Keeps.
Context (R : S -> S -> Prop) `{!PreOrder R}.

Lemma keeps_ret {A} (a : A) : keeps R (ret a).
Proof. intros s. unfold exec. simpl. reflexivity. Qed.

Lemma keeps_gets {A} (f : S -> A) : keeps R (gets f).
Proof. intros s. unfold exec. simpl. reflexivity. Qed.

Lemma keeps_bind {A B} (m : ST S A) (k : A -> ST S B) :
  keeps R m -> (forall a, keeps R (k a)) -> keeps R (bind m k).
Proof.
  intros Hm Hk s. unfold exec, bind in *. specialize (Hm s).
  unfold exec in Hm. destruct (m s) as [a s']. simpl in Hm.
  etransitivity; [exact Hm | apply Hk].
Qed.

Lemma keeps_if {A} (b : bool) (m1 m2 : ST S A) :
  keeps R m1 -> keeps R m2 -> keeps R (if b then m1 else m2).
Proof. destruct b; auto. Qed.

Lemma keeps_modify (f : S -> S) : (forall s, R s (f s)) -> keeps R (modify f).
Proof. intros H s. apply H. Qed.
End Keeps.

Lemma keeps_weaken (R R' : S -> S -> Prop) {A} (m : ST S A) :
  (forall s s', R s s' -> R' s s') -> keeps R m -> keeps R' m.
Proof. intros H Hm s. apply H, Hm. Qed.

(** Partial-correctness triples: from [P], the computation ends with [Q]. *)
Definition triple {A} (P : S -> Prop) (m : ST S A) (Q : A -> S -> Prop) : Prop :=
  forall s, P s -> Q (value m s) (exec m s).

Lemma triple_ret {A} (a : A) (Q : A -> S -> Prop) : triple (Q a) (ret a) Q.
Proof. intros s H. exact H. Qed.

Lemma triple_bind {A B} P (m : ST S A) (k : A -> ST S B) R Q :
  triple P m R -> (forall a, triple (R a) (k a) Q) -> triple P (bind m k) Q.
Proof.
  intros Hm Hk s HP. unfold value, exec, bind in *. specialize (Hm s HP).
  unfold value, exec in Hm. destruct (m s) as [a s']. simpl in Hm.
  apply (Hk a s' Hm).
Qed.

Lemma triple_conseq {A} (P P' : S -> Prop) (m : ST S A) (Q Q' : A -> S -> Prop) :
  (forall s, P s -> P' s) -> (forall a s, Q' a s -> Q a s) ->
  triple P' m Q' -> triple P m Q.
Proof. intros HP HQ Hm s H. apply HQ, Hm, HP, H. Qed.
End StateMonad.

Notation "'let*' x ':=' m 'in' k" := (bind m (fun x => k))
  (at level 200, x pattern, m at level 100, k at level 200,
   format "'[v' 'let*'  x  ':='  m  'in' '/' k ']'") : syseba_scope.
Notation "m ;;; k" := (bind m (fun _ => k))
  (at level 190, right associativity,
   format "'[v' m ';;;' '/' k ']'") : syseba_scope.

(** A component's state inside a larger one. *)
Class Lens (S T : Type) := {
  lget : S -> T;
  lset : T -> S -> S;
  lget_lset : forall t s, lget (lset t s) = t;
  lset_lget : forall s, lset (lget s) s = s;
  lset_lset : forall t t' s, lset t (lset t' s) = lset t s;
}.

#[export] Instance lens_id {S} : Lens S S.
Proof. refine {| lget s := s; lset t _ := t |}; done. Defined.

(** Run a computation on the component. *)
Definition zoom {S T A} `{L : Lens S T} (m : ST T A) : ST S A :=
  fun s => let '(a, t) := m (lget s) in (a, lset t s).

Lemma keeps_zoom {S T A} `{L : Lens S T} (R : T -> T -> Prop) (m : ST T A) :
  keeps R m -> keeps (fun s s' => R (lget s) (lget s')) (zoom m).
Proof.
  intros H s. unfold exec, zoom. specialize (H (lget s)). unfold exec in H.
  destruct (m (lget s)) as [a t]. simpl. by rewrite lget_lset.
Qed.

(** Running a computation one call at a time. *)
Section Run.
Context {S : Type}.

Lemma bind_run {A B} (m : ST S A) (k : A -> ST S B) s x s' : m s = (x, s') -> bind m k s = k x s'.
Proof. intros E. unfold bind. by rewrite E. Qed.

Lemma bind_unit {A} (m : ST S unit) (k : unit -> ST S A) s : bind m k s = k tt (exec m s).
Proof. unfold bind, exec. by destruct (m s) as [[] s']. Qed.
Lemma bind_gets {A B} (f : S -> B) (k : B -> ST S A) s : bind (gets f) k s = k (f s) s.
Proof. done. Qed.
Lemma exec_gets {A B} (f : S -> B) (k : B -> ST S A) s : exec (bind (gets f) k) s = exec (k (f s)) s.
Proof. done. Qed.
Lemma exec_bind {A B} (m : ST S A) (k : A -> ST S B) s :
  exec (bind m k) s = exec (k (value m s)) (exec m s).
Proof. unfold exec, value, bind. by destruct (m s). Qed.
Lemma exec_pair {A} (m : ST S A) s a s' : m s = (a, s') -> exec m s = s'.
Proof. unfold exec. by intros ->. Qed.
Lemma ret_exec {A} (m : ST S unit) (x : A) s : bind m (fun _ => ret x) s = (x, exec m s).
Proof. unfold bind, exec. by destruct (m s). Qed.
End Run.

Lemma zoom_same {S T A} `{L : Lens S T} (m : ST T A) s r : m (lget s) = (r, lget s) -> zoom m s = (r, s).
Proof. intros E. unfold zoom. rewrite E. by rewrite lset_lget. Qed.

Create HintDb keeps discriminated.
#[export] Hint Constants Opaque : keeps.
#[export] Hint Resolve keeps_ret keeps_gets : keeps.

(** Follow the structure of a computation in a [keeps] goal. *)
Ltac keeps_step :=
  match goal with
  | |- keeps _ (bind _ _) => apply keeps_bind; [ try typeclasses eauto | | intros ? ]
  | |- keeps _ (ret _) => apply keeps_ret; try typeclasses eauto
  | |- keeps _ (gets _) => apply keeps_gets; try typeclasses eauto
  | |- keeps _ (if ?b then _ else _) => let E := fresh "E" in destruct b eqn:E
  | |- keeps _ (match ?x with _ => _ end) => let E := fresh "E" in destruct x eqn:E
  | |- keeps _ _ => progress (eauto with keeps typeclass_instances)
  end.
Ltac keeps_auto := repeat keeps_step.
