(* ===== verification/CString.v ===== *)
(** * The C library's string functions

    The functions of <string.h>, <ctype.h>, <stdlib.h> and <stdio.h> that the
    program calls, over strings as lists of bytes: character classes, searches,
    comparisons, tokenisation ([strtok_r]), [strtoul] with its end pointer and
    range error, decimal output, and [snprintf] into a buffer of a given size. *)

From S2P Require Import Prelude.

(** ** Characters *)

Definition code (c : ascii) : Z := Z.of_N (N_of_ascii c).
Definition chr (z : Z) : ascii := ascii_of_N (Z.to_N z).

Definition SLASH : ascii := "/"%char.
Definition BACKSLASH : ascii := "\"%char.
Definition NEWLINE : ascii := "010"%char.
Definition RETURN : ascii := "013"%char.

Lemma code_range c : 0 <= code c < 256.
Proof. unfold code. pose proof (N_ascii_bounded c). lia. Qed.

Lemma chr_code c : chr (code c) = c.
Proof. unfold chr, code. rewrite N2Z.id. apply ascii_N_embedding. Qed.

Lemma code_chr z : 0 <= z < 256 -> code (chr z) = z.
Proof. intros. unfold code, chr. rewrite N_ascii_embedding; lia. Qed.

Lemma code_inj a b : code a = code b -> a = b.
Proof. intros H. by rewrite <- (chr_code a), H, chr_code. Qed.

Definition ceq (a b : ascii) : bool := Ascii.eqb a b.

Lemma ceq_true a b : ceq a b = true <-> a = b.
Proof. apply Ascii.eqb_eq. Qed.
Lemma ceq_false a b : ceq a b = false <-> a <> b.
Proof. apply Ascii.eqb_neq. Qed.
Lemma ceq_refl a : ceq a a = true.
Proof. apply Ascii.eqb_refl. Qed.

Definition isspace (c : ascii) : bool :=
  ((9 <=? code c) && (code c <=? 13)) || (code c =? 32).
Definition isdigit (c : ascii) : bool := (48 <=? code c) && (code c <=? 57).
Definition tolower (c : ascii) : ascii :=
  if (65 <=? code c) && (code c <=? 90) then chr (code c + 32) else c.

(** ** Searches *)

(** [strchr]: the text before and after the first occurrence. *)
Fixpoint strchr (c : ascii) (s : cstr) : option (cstr * cstr) :=
  match s with
  | [] => None
  | x :: r =>
      if ceq x c then Some ([], r)
      else match strchr c r with
           | Some (a, b) => Some (x :: a, b)
           | None => None
           end
  end.

(** [strrchr]: the text before and after the last occurrence. *)
Fixpoint strrchr (c : ascii) (s : cstr) : option (cstr * cstr) :=
  match s with
  | [] => None
  | x :: r =>
      match strrchr c r with
      | Some (a, b) => Some (x :: a, b)
      | None => if ceq x c then Some ([], r) else None
      end
  end.

(** [strpbrk s set != NULL]. *)
Definition has_any (set s : cstr) : bool := existsb (fun x => existsb (ceq x) set) s.

Fixpoint drop_while (p : ascii -> bool) (s : cstr) : cstr :=
  match s with
  | [] => []
  | x :: r => if p x then drop_while p r else s
  end.

Definition starts_with (prefix s : cstr) : bool :=
  bool_decide (take (length prefix) s = prefix).

Definition streq (a b : cstr) : bool := bool_decide (a = b).

Lemma streq_true a b : streq a b = true <-> a = b.
Proof. apply bool_decide_eq_true. Qed.
Lemma streq_false a b : streq a b = false <-> a <> b.
Proof. apply bool_decide_eq_false. Qed.
Lemma streq_refl a : streq a a = true.
Proof. by apply streq_true. Qed.

(** ** Comparisons *)

(** [strcmp] and [strcasecmp]: the difference of the first bytes that differ,
    the terminating NUL included. *)
Fixpoint strcmp (a b : cstr) : Z :=
  match a, b with
  | [], [] => 0
  | [], y :: _ => - code y
  | x :: _, [] => code x
  | x :: a', y :: b' =>
      if code x =? code y then if code x =? 0 then 0 else strcmp a' b'
      else code x - code y
  end.

Definition strcasecmp (a b : cstr) : Z := strcmp (map tolower a) (map tolower b).

Definition strcaseeq (a b : cstr) : bool := strcasecmp a b =? 0.

(** ** Splitting *)

(** The fields of a string separated by a character, the empty ones kept. *)
Fixpoint split_on (c : ascii) (s : cstr) : list cstr :=
  match s with
  | [] => [[]]
  | x :: r =>
      if ceq x c then [] :: split_on c r
      else match split_on c r with
           | f :: fs => (x :: f) :: fs
           | [] => [[x]]
           end
  end.

Definition nonempty (s : cstr) : bool := match s with [] => false | _ => true end.

(** The tokens [strtok_r] returns one after the other. *)
Definition strtok_all (c : ascii) (s : cstr) : list cstr :=
  List.filter nonempty (split_on c s).

(** The concatenation of the components, each preceded by the separator. *)
Fixpoint join_with (c : ascii) (l : list cstr) : cstr :=
  match l with
  | [] => []
  | f :: fs => c :: f ++ join_with c fs
  end.

(** ** Numbers *)

Definition digit_char (d : Z) : ascii := chr (48 + d).

(** Decimal output of a non-negative number ([%u], [%llu]). *)
Fixpoint dec_fuel (fuel : nat) (n : Z) : cstr :=
  match fuel with
  | O => []
  | S f => if n <? 10 then [digit_char n]
           else dec_fuel f (n / 10) ++ [digit_char (n mod 10)]
  end.
Definition dec (n : Z) : cstr := dec_fuel (S (Z.to_nat (Z.log2 n))) n.

(** [%02llu]. *)
Definition dec2 (n : Z) : cstr := if n <? 10 then c!"0" ++ dec n else dec n.

Definition digit_val (c : ascii) : Z := code c - 48.
Definition digits_val (s : cstr) : Z :=
  fold_left (fun a c => 10 * a + digit_val c) s 0.

Fixpoint span (p : ascii -> bool) (s : cstr) : cstr * cstr :=
  match s with
  | [] => ([], [])
  | x :: r => if p x then let '(a, b) := span p r in (x :: a, b) else ([], s)
  end.

(** [strtoul] base 10 on a 64-bit [unsigned long]: the value, the text at the
    end pointer ([None] when no digit was consumed, that is [end == value]), and
    whether [errno] is set to [ERANGE].  A minus sign negates modulo 2^64. *)
Record parsed_ulong := ParsedUlong {
  pu_value : Z;
  pu_end : option cstr;
  pu_erange : bool;
}.

Definition strtoul (s : cstr) : parsed_ulong :=
  let s1 := drop_while isspace s in
  let '(negative, s2) :=
    match s1 with
    | c :: r => if ceq c "-"%char then (true, r)
                else if ceq c "+"%char then (false, r) else (false, s1)
    | [] => (false, s1)
    end in
  let '(digits, rest) := span isdigit s2 in
  match digits with
  | [] => ParsedUlong 0 None false
  | _ =>
      let v := digits_val digits in
      if U64_MAX <? v then ParsedUlong U64_MAX (Some rest) true
      else ParsedUlong (if negative then wrap64 (- v) else v) (Some rest) false
  end.

(** [snprintf(buffer, size, "%s", s)]: what the buffer holds, and whether the
    return value is below [size]. *)
Definition truncate (size : Z) (s : cstr) : cstr := take (Z.to_nat (size - 1)) s.
Definition fits (size : Z) (s : cstr) : bool := zlen s <? size.

(** ** Properties *)

Lemma truncate_fits size s : fits size s = true -> truncate size s = s.
Proof.
  unfold fits, truncate, zlen. intros H. bool_hyps.
  apply take_ge. lia.
Qed.

Lemma starts_with_true p s : starts_with p s = true <-> p `prefix_of` s.
Proof.
  unfold starts_with. rewrite bool_decide_eq_true. split.
  - intros <-. apply prefix_take.
  - intros [k ->]. by rewrite take_app_length.
Qed.

Lemma strchr_Some c s a b :
  strchr c s = Some (a, b) -> s = a ++ c :: b /\ c ∉ a.
Proof.
  revert a b. induction s as [|x s IH]; intros a b; simpl; [done|].
  destruct (ceq x c) eqn:E.
  - intros [= <- <-]. apply ceq_true in E as ->. split; [done|]. set_solver.
  - destruct (strchr c s) as [[a' b']|]; [|done]. intros [= <- <-].
    destruct (IH _ _ eq_refl) as [-> Hn]. apply ceq_false in E. set_solver.
Qed.

Lemma strchr_None c s : strchr c s = None <-> c ∉ s.
Proof.
  induction s as [|x s IH]; simpl; [set_solver|].
  destruct (ceq x c) eqn:E.
  - apply ceq_true in E as ->. set_solver.
  - apply ceq_false in E. rewrite not_elem_of_cons, <- IH.
    destruct (strchr c s) as [[? ?]|]; naive_solver.
Qed.

Lemma strrchr_None c s : strrchr c s = None <-> c ∉ s.
Proof.
  induction s as [|x s IH]; simpl; [set_solver|].
  rewrite not_elem_of_cons, <- IH. clear IH.
  destruct (strrchr c s) as [[? ?]|]; [naive_solver|].
  destruct (ceq x c) eqn:E; [apply ceq_true in E as -> | apply ceq_false in E];
    naive_solver.
Qed.

Lemma strrchr_Some c s a b :
  strrchr c s = Some (a, b) -> s = a ++ c :: b /\ c ∉ b.
Proof.
  revert a b. induction s as [|x s IH]; intros a b; simpl; [done|].
  destruct (strrchr c s) as [[a' b']|] eqn:E.
  - intros [= <- <-]. destruct (IH _ _ eq_refl) as [-> Hn]. done.
  - destruct (ceq x c) eqn:Ex; [|done]. intros [= <- <-].
    apply ceq_true in Ex as ->. split; [done|].
    by apply strrchr_None.
Qed.

Lemma strrchr_app c a b : c ∉ b -> strrchr c (a ++ c :: b) = Some (a, b).
Proof.
  intros Hb. induction a as [|x a IH]; simpl.
  - apply strrchr_None in Hb as ->. by rewrite ceq_refl.
  - by rewrite IH.
Qed.

Lemma strchr_app c a b : c ∉ a -> strchr c (a ++ c :: b) = Some (a, b).
Proof.
  induction a as [|x a IH]; intros Ha; simpl.
  - by rewrite ceq_refl.
  - assert (ceq x c = false) as -> by (apply ceq_false; set_solver).
    rewrite IH; [done|]. set_solver.
Qed.

Lemma has_any_false set s : has_any set s = false <-> forall x, x ∈ s -> x ∉ set.
Proof.
  unfold has_any. rewrite <- not_true_iff_false, existsb_exists. split.
  - intros H x Hx Hs. apply H. exists x. rewrite <- list_elem_of_In. split; [done|].
    apply existsb_exists. exists x. rewrite <- list_elem_of_In.
    split; [done|]. apply ceq_refl.
  - intros H (x & Hx & Hs). apply existsb_exists in Hs as (y & Hy & E).
    apply ceq_true in E as <-. rewrite <- list_elem_of_In in Hx, Hy. by eapply H.
Qed.

Lemma drop_while_suffix p s : drop_while p s `suffix_of` s.
Proof.
  induction s as [|x s IH]; simpl; [done|]. destruct (p x); [|done].
  by apply suffix_cons_r.
Qed.

Lemma drop_while_head p s x r : drop_while p s = x :: r -> p x = false.
Proof.
  induction s as [|y s IH]; simpl; [done|]. destruct (p y) eqn:E; [done|].
  intros [= -> ->]. done.
Qed.

Lemma drop_while_id p x r : p x = false -> drop_while p (x :: r) = x :: r.
Proof. simpl. by intros ->. Qed.

(** *** Splitting and joining *)

Lemma split_on_nonempty c s : split_on c s <> [].
Proof. destruct s; simpl; [done|]. destruct (ceq a c); [done|].
  by destruct (split_on c s). Qed.

Lemma split_on_clean c s f : f ∈ split_on c s -> c ∉ f.
Proof.
  revert f. induction s as [|x s IH]; intros f; simpl.
  - intros ->%list_elem_of_singleton. apply not_elem_of_nil.
  - destruct (ceq x c) eqn:E.
    + intros [->|Hf]%elem_of_cons; [apply not_elem_of_nil|auto].
    + apply ceq_false in E. destruct (split_on c s) as [|g gs].
      * intros ->%list_elem_of_singleton. by apply not_elem_of_cons; split;
          [|apply not_elem_of_nil].
      * intros [->|Hf]%elem_of_cons.
        -- apply not_elem_of_cons. split; [done|]. apply IH. constructor.
        -- apply IH. by constructor.
Qed.

Lemma split_on_subset c s f x : f ∈ split_on c s -> x ∈ f -> x ∈ s.
Proof.
  revert f. induction s as [|y s IH]; intros f; simpl.
  - intros ->%list_elem_of_singleton Hx. done.
  - destruct (ceq y c).
    + intros [->|Hf]%elem_of_cons Hx; [by apply not_elem_of_nil in Hx|].
      apply elem_of_cons. right. by apply (IH f).
    + destruct (split_on c s) as [|g gs].
      * intros ->%list_elem_of_singleton ->%list_elem_of_singleton. constructor.
      * intros [->|Hf]%elem_of_cons Hx.
        -- apply elem_of_cons in Hx as [->|Hx]; [constructor|].
           apply elem_of_cons. right. apply (IH g); [constructor|done].
        -- apply elem_of_cons. right. apply (IH f); [by constructor|done].
Qed.

Lemma split_on_app c a s : c ∉ a -> split_on c (a ++ c :: s) = a :: split_on c s.
Proof.
  induction a as [|x a IH]; intros Ha; simpl.
  - by rewrite ceq_refl.
  - assert (ceq x c = false) as -> by (apply ceq_false; set_solver).
    rewrite IH; [done|]. set_solver.
Qed.

Lemma split_on_single c a : c ∉ a -> split_on c a = [a].
Proof.
  induction a as [|x a IH]; intros Ha; simpl; [done|].
  assert (ceq x c = false) as -> by (apply ceq_false; set_solver).
  rewrite IH; [done|]. set_solver.
Qed.

(** A component: not empty and without the separator. *)
Definition component (c : ascii) (f : cstr) : Prop := f <> [] /\ c ∉ f.

Lemma strtok_all_components c s : Forall (component c) (strtok_all c s).
Proof.
  apply Forall_forall. intros f Hf. unfold strtok_all in Hf.
  rewrite list_elem_of_In, filter_In in Hf.
  destruct Hf as [Hf Hn]. rewrite <- list_elem_of_In in Hf.
  split; [by destruct f | by eapply split_on_clean].
Qed.

Lemma strtok_all_subset c s f x : f ∈ strtok_all c s -> x ∈ f -> x ∈ s.
Proof.
  intros Hf. unfold strtok_all in Hf. rewrite list_elem_of_In, filter_In in Hf.
  destruct Hf as [Hf _]. rewrite <- list_elem_of_In in Hf.
  by eapply split_on_subset.
Qed.

Lemma split_on_join_tail c f fs :
  c ∉ f -> Forall (component c) fs -> split_on c (f ++ join_with c fs) = f :: fs.
Proof.
  intros Hf Hfs. revert f Hf. induction Hfs as [|g gs [Hg1 Hg2] Hgs IH]; intros f Hf.
  - simpl. rewrite app_nil_r. by apply split_on_single.
  - cbn [join_with]. rewrite split_on_app by done. by rewrite IH.
Qed.

(** Splitting the joined components gives them back. *)
Lemma strtok_all_join c fs :
  Forall (component c) fs -> strtok_all c (join_with c fs) = fs.
Proof.
  intros H. unfold strtok_all.
  assert (List.filter nonempty (split_on c ([] ++ join_with c fs)) = fs) as G; [|done].
  rewrite split_on_join_tail by (done || set_solver). simpl.
  induction H as [|f fs [Hf _] _ IH]; simpl; [done|].
  destruct f; [done|]. simpl. by rewrite IH.
Qed.

Lemma join_with_app c a b : join_with c (a ++ b) = join_with c a ++ join_with c b.
Proof. induction a; simpl; [done|]. by rewrite IHa, app_assoc. Qed.

(** *** Numbers *)

Lemma digit_char_val d : 0 <= d < 10 -> digit_val (digit_char d) = d.
Proof. intros. unfold digit_val, digit_char. rewrite code_chr; lia. Qed.

Lemma digit_char_isdigit d : 0 <= d < 10 -> isdigit (digit_char d) = true.
Proof.
  intros. unfold isdigit, digit_char. rewrite code_chr by lia.
  apply andb_true_iff. split; apply Z.leb_le; lia.
Qed.

Lemma digits_val_snoc s c : digits_val (s ++ [c]) = 10 * digits_val s + digit_val c.
Proof. unfold digits_val. by rewrite fold_left_app. Qed.

Lemma dec_fuel_value fuel n :
  0 <= n < 2 ^ Z.of_nat fuel -> (0 < fuel)%nat -> digits_val (dec_fuel fuel n) = n.
Proof.
  revert n. induction fuel as [|fuel IH]; intros n Hn Hf; [lia|]. simpl.
  destruct (n <? 10) eqn:E; bool_hyps.
  - unfold digits_val. simpl. rewrite digit_char_val; lia.
  - rewrite digits_val_snoc, digit_char_val by (apply Z.mod_pos_bound; lia).
    destruct fuel as [|fuel]; [simpl in Hn; lia|].
    rewrite Nat2Z.inj_succ, Z.pow_succ_r in Hn by lia.
    rewrite IH; [pose proof (Z.div_mod n 10); lia| |lia].
    split; [apply Z.div_pos; lia|]. apply Z.div_lt_upper_bound; lia.
Qed.

Lemma dec_fuel_digits fuel n :
  0 <= n -> Forall (fun c => isdigit c = true) (dec_fuel fuel n).
Proof.
  revert n. induction fuel as [|fuel IH]; intros n Hn; simpl; [constructor|].
  destruct (n <? 10) eqn:E; bool_hyps.
  - constructor; [|constructor]. apply digit_char_isdigit. lia.
  - apply Forall_app. split; [apply IH, Z.div_pos; lia|].
    constructor; [|constructor]. apply digit_char_isdigit, Z.mod_pos_bound. lia.
Qed.

Lemma dec_digits n : 0 <= n -> Forall (fun c => isdigit c = true) (dec n).
Proof. apply dec_fuel_digits. Qed.

Lemma dec_value n : 0 <= n -> digits_val (dec n) = n.
Proof.
  intros H. apply dec_fuel_value; [|lia]. split; [done|].
  rewrite Nat2Z.inj_succ, Z2Nat.id by apply Z.log2_nonneg.
  destruct (Z.eq_dec n 0) as [->|]; [done|].
  pose proof (Z.log2_spec n). lia.
Qed.

Lemma dec_fuel_length fuel n j :
  0 <= n < 10 ^ Z.of_nat (S j) -> (length (dec_fuel fuel n) <= S j)%nat.
Proof.
  revert n j. induction fuel as [|fuel IH]; intros n j Hn; [simpl; lia|]. cbn [dec_fuel].
  destruct (n <? 10) eqn:E; [simpl; lia|]. bool_hyps. destruct j as [|j].
  { change (10 ^ Z.of_nat 1) with 10 in Hn. lia. }
  rewrite length_app. simpl. assert (length (dec_fuel fuel (n / 10)) <= S j)%nat; [|lia].
  apply IH. split; [apply Z.div_pos; lia|]. apply Z.div_lt_upper_bound; [lia|].
  rewrite (Nat2Z.inj_succ (S j)), Z.pow_succ_r in Hn by lia. lia.
Qed.

Lemma dec_wrap64_length n : zlen (dec (wrap64 n)) <= 20.
Proof.
  assert (length (dec (wrap64 n)) <= 20)%nat; [|unfold zlen; lia].
  apply dec_fuel_length. pose proof (wrap64_range n). unfold U64_MAX in *. lia.
Qed.

Lemma dec_nonempty n : dec n <> [].
Proof.
  unfold dec. simpl. destruct (n <? 10); [done|].
  by destruct (dec_fuel _ (n / 10)).
Qed.

Lemma dec_inj a b : 0 <= a -> 0 <= b -> dec a = dec b -> a = b.
Proof. intros Ha Hb H. rewrite <- (dec_value a), <- (dec_value b) by done. by rewrite H. Qed.

Lemma span_all p s : Forall (fun c => p c = true) s -> span p s = (s, []).
Proof. induction 1 as [|x s Hx Hs IH]; simpl; [done|]. by rewrite Hx, IH. Qed.

Lemma span_app p s r :
  Forall (fun c => p c = true) s ->
  (forall x r', r = x :: r' -> p x = false) -> span p (s ++ r) = (s, r).
Proof.
  intros Hs Hr. induction Hs as [|x s Hx Hs IH]; simpl.
  - destruct r as [|x r]; simpl; [done|]. by rewrite (Hr x r eq_refl).
  - by rewrite Hx, IH.
Qed.

Lemma span_spec p s a b :
  span p s = (a, b) -> s = a ++ b /\ Forall (fun c => p c = true) a.
Proof.
  revert a b. induction s as [|x s IH]; intros a b; simpl.
  - intros [= <- <-]. done.
  - destruct (p x) eqn:E.
    + destruct (span p s) as [a' b'] eqn:Es. intros [= <- <-].
      destruct (IH _ _ eq_refl) as [-> H]. split; [done|]. by constructor.
    + intros [= <- <-]. done.
Qed.

Lemma isdigit_not_space c : isdigit c = true -> isspace c = false.
Proof.
  unfold isdigit, isspace. intros H. bool_hyps.
  apply orb_false_iff. split; [apply andb_false_iff; right; apply Z.leb_gt; lia|].
  apply Z.eqb_neq. lia.
Qed.

Lemma isdigit_not_sign c :
  isdigit c = true -> ceq c "-"%char = false /\ ceq c "+"%char = false.
Proof.
  unfold isdigit. intros H. bool_hyps.
  split; apply ceq_false; intros ->; vm_compute in H, H0; congruence.
Qed.

(** Reading back what [%u] printed. *)
Lemma strtoul_dec n :
  0 <= n <= U64_MAX -> strtoul (dec n) = ParsedUlong n (Some []) false.
Proof.
  intros Hn. pose proof (dec_digits n ltac:(lia)) as Hd.
  pose proof (dec_nonempty n) as Hne. pose proof (dec_value n ltac:(lia)) as Hv.
  unfold strtoul. destruct (dec n) as [|c r]; [done|].
  pose proof (Forall_inv Hd) as Hc. simpl in Hc.
  rewrite drop_while_id by (by apply isdigit_not_space).
  destruct (isdigit_not_sign c Hc) as [-> ->]. rewrite span_all by done.
  rewrite Hv. destruct (U64_MAX <? n) eqn:E; bool_hyps; [lia|done].
Qed.

(** The value is always a 64-bit unsigned integer. *)
Lemma digits_val_nonneg s : Forall (fun c => isdigit c = true) s -> 0 <= digits_val s.
Proof.
  intros H. induction s as [|c s IH] using rev_ind; [done|].
  apply Forall_app in H as [Hs Hc]. rewrite digits_val_snoc.
  apply Forall_inv in Hc. simpl in Hc. unfold isdigit in Hc. bool_hyps.
  specialize (IH Hs). unfold digit_val. lia.
Qed.

Lemma strtoul_range s : 0 <= pu_value (strtoul s) <= U64_MAX.
Proof.
  unfold strtoul.
  destruct (match drop_while isspace s with [] => _ | _ => _ end) as [neg s2].
  destruct (span isdigit s2) as [ds rest] eqn:E.
  apply span_spec in E as [_ Hd]. pose proof (digits_val_nonneg ds Hd).
  destruct ds as [|d ds]; [simpl; unfold U64_MAX; lia|].
  destruct (U64_MAX <? _) eqn:Eo; bool_hyps; simpl; [unfold U64_MAX; lia|].
  destruct neg; [apply wrap64_range | lia].
Qed.

(** [strcmp] is zero exactly on equal strings. *)
Lemma strcmp_refl a : strcmp a a = 0.
Proof. induction a; simpl; [done|]. rewrite Z.eqb_refl. by destruct (_ =? 0). Qed.

(** C strings hold no NUL byte. *)
Definition no_nul (s : cstr) : Prop := Forall (fun c => code c <> 0) s.

Lemma strcmp_eq a b : no_nul a -> no_nul b -> strcmp a b = 0 <-> a = b.
Proof.
  intros Ha Hb. split; [|intros ->; apply strcmp_refl].
  revert b Hb. induction Ha as [|x a Hx Ha IH]; intros [|y b] Hb; simpl.
  - done.
  - inversion Hb; subst. lia.
  - intros. lia.
  - inversion Hb; subst. destruct (code x =? code y) eqn:E; bool_hyps; [|lia].
    apply Z.eqb_neq in Hx as ->. intros H. apply code_inj in E as ->. f_equal. auto.
Qed.
