(* ===== verification/Paths.v ===== *)
(** * Lexical path functions (src/src/platform.c)

    [syseba_normalize_separators], [syseba_path_real] and [syseba_parent_dir] on
    a POSIX host.  They do not look at the file system; the current directory is
    an argument ([None] when [getcwd] fails). *)

From S2P Require Import Prelude CString.

Definition SYSEBA_PATH_MAX : Z := 4096.

Definition syseba_normalize_separators (path : cstr) : cstr :=
  map (fun c => if ceq c BACKSLASH then SLASH else c) path.

(** The [absolute] buffer: the path itself, or the current directory and it. *)
Definition path_absolute (cwd : option cstr) (path : cstr) : option cstr :=
  if match path with c :: _ => ceq c SLASH | [] => false end then
    if fits SYSEBA_PATH_MAX path then Some path else None
  else
    match cwd with
    | None => None
    | Some absolute =>
        let used := zlen absolute in
        if fits (SYSEBA_PATH_MAX - used) (SLASH :: path)
        then Some (absolute ++ SLASH :: path) else None
    end.

(** One turn of the token loop on the array of parts. *)
Definition path_step (parts : list cstr) (token : cstr) : list cstr :=
  if streq token (c!".") || negb (nonempty token) then parts
  else if streq token (c!"..") then
    match parts with [] => parts | _ => removelast parts end
  else parts ++ [token].

Definition ends_with_sep (out : cstr) : bool :=
  match last out with Some c => ceq c SLASH | None => true end.

(** The output loop: append every part, with a separator where needed. *)
Fixpoint path_emit (size : Z) (output : cstr) (parts : list cstr) : option cstr :=
  match parts with
  | [] => Some output
  | part :: rest =>
      let used := zlen output in
      let needs_separator := negb (ends_with_sep output) in
      if size <? used + (if needs_separator then 1 else 0) + zlen part + 1 then None
      else path_emit size
             (output ++ (if needs_separator then [SLASH] else []) ++ part) rest
  end.

Definition syseba_path_real (cwd : option cstr) (path : cstr) (size : Z) : option cstr :=
  match path_absolute cwd path with
  | None => None
  | Some absolute =>
      let normalized := syseba_normalize_separators absolute in
      let parts := fold_left path_step (strtok_all SLASH (drop 1 normalized)) [] in
      if size <=? 1 then None else path_emit size [SLASH] parts
  end.

Definition syseba_parent_dir (path : cstr) (size : Z) : option cstr :=
  match strrchr SLASH path with
  | None => if fits size (c!".") then Some (c!".") else None
  | Some ([], _) => if fits size [SLASH] then Some [SLASH] else None
  | Some (before, _) => if size <? zlen before + 1 then None else Some before
  end.

(** ** Canonical paths *)

(** A name that [syseba_path_real] keeps as it is. *)
Definition path_name (f : cstr) : Prop :=
  component SLASH f /\ BACKSLASH ∉ f /\ f <> c!"." /\ f <> c!"..".

(** The absolute path of a list of names. *)
Definition render (names : list cstr) : cstr :=
  match names with [] => [SLASH] | _ => join_with SLASH names end.

Definition canonical (p : cstr) : Prop :=
  exists names, Forall path_name names /\ p = render names.

Section Lemmas.
Implicit Types (p out f : cstr) (names : list cstr).

Lemma path_name_component names :
  Forall path_name names -> Forall (component SLASH) names.
Proof. intros H. eapply Forall_impl; [exact H|]. by intros f [? _]. Qed.

Lemma normalize_no_backslash p : BACKSLASH ∉ syseba_normalize_separators p.
Proof.
  unfold syseba_normalize_separators. rewrite list_elem_of_In, in_map_iff.
  intros (c & Hc & _). destruct (ceq c BACKSLASH) eqn:E; [done|].
  apply ceq_false in E. done.
Qed.

Lemma normalize_id p : BACKSLASH ∉ p -> syseba_normalize_separators p = p.
Proof.
  intros H. unfold syseba_normalize_separators. induction p as [|c p IH]; [done|].
  rewrite not_elem_of_cons in H. destruct H as [Hc Hp]. simpl.
  rewrite IH by done.
  destruct (ceq c BACKSLASH) eqn:E; [|done]. apply ceq_true in E. congruence.
Qed.

Lemma path_step_names parts token :
  Forall path_name parts -> component SLASH token -> BACKSLASH ∉ token ->
  Forall path_name (path_step parts token).
Proof.
  intros Hp Ht Hb. unfold path_step.
  destruct (streq token (c!".")) eqn:E1; [exact Hp|].
  destruct (nonempty token) eqn:E2; [|exact Hp]. simpl.
  destruct (streq token (c!"..")) eqn:E3.
  - destruct parts; [exact Hp|]. rewrite removelast_firstn_len.
    by apply Forall_take.
  - apply streq_false in E1, E3. apply Forall_app_2; [done|].
    constructor; [|constructor]. done.
Qed.

Lemma path_steps_names tokens parts :
  Forall path_name parts -> Forall (component SLASH) tokens ->
  Forall (fun t => BACKSLASH ∉ t) tokens ->
  Forall path_name (fold_left path_step tokens parts).
Proof.
  intros Hp Ht Hb. revert parts Hp.
  induction Ht as [|t ts Ht _ IH]; intros parts Hp; [done|].
  inversion Hb; subst. simpl. apply IH; [done|]. by apply path_step_names.
Qed.

Lemma path_steps_id names parts :
  Forall path_name names -> fold_left path_step names parts = parts ++ names.
Proof.
  intros H. revert parts. induction H as [|f fs Hf _ IH]; intros parts.
  - by rewrite app_nil_r.
  - destruct Hf as ([Hne _] & _ & Hd & Hdd). simpl.
    assert (path_step parts f = parts ++ [f]) as ->.
    { unfold path_step. apply streq_false in Hd, Hdd. rewrite Hd, Hdd.
      by destruct f. }
    rewrite IH. by rewrite <- app_assoc.
Qed.

Lemma ends_with_sep_snoc out c : ends_with_sep (out ++ [c]) = ceq c SLASH.
Proof. unfold ends_with_sep. by rewrite last_snoc. Qed.

Lemma ends_with_sep_part out f : component SLASH f -> ends_with_sep (out ++ f) = false.
Proof.
  intros [Hne Hs]. destruct f as [|x f] using rev_ind; [done|]. clear IHf.
  rewrite app_assoc, ends_with_sep_snoc. apply ceq_false.
  rewrite not_elem_of_app, list_elem_of_singleton in Hs. naive_solver.
Qed.

(** The output loop after a part: the closed form. *)
Lemma path_emit_spec size out names :
  ends_with_sep out = false -> Forall (component SLASH) names ->
  path_emit size out names =
    if (zlen (out ++ join_with SLASH names) + 1 <=? size)
       || bool_decide (names = [])
    then Some (out ++ join_with SLASH names) else None.
Proof.
  intros Ho Hn. revert out Ho.
  induction Hn as [|f fs Hf Hfs IH]; intros out Ho.
  - cbn [path_emit join_with]. rewrite app_nil_r, bool_decide_true by done.
    by rewrite orb_true_r.
  - cbn [path_emit]. rewrite Ho. cbn [negb].
    rewrite (bool_decide_false (f :: fs = [])), orb_false_r by done.
    rewrite IH by (rewrite app_assoc; by apply ends_with_sep_part).
    cbn [join_with]. replace ((out ++ [SLASH] ++ f) ++ join_with SLASH fs)
      with (out ++ SLASH :: f ++ join_with SLASH fs)
      by (by rewrite <- !app_assoc).
    destruct (size <? _) eqn:E; bool_hyps.
    + destruct (_ <=? size) eqn:E2; bool_hyps; [|done]. exfalso.
      zlen_lia.
    + destruct (_ <=? size) eqn:E2; bool_hyps; [done|]. simpl.
      destruct fs; [|done]. exfalso. cbn [join_with] in *. zlen_lia.
Qed.

Lemma path_emit_root size names :
  1 < size -> Forall (component SLASH) names ->
  path_emit size [SLASH] names =
    if zlen (render names) + 1 <=? size then Some (render names) else None.
Proof.
  intros Hs Hn. destruct Hn as [|f fs Hf Hfs].
  - simpl. destruct (_ <=? size) eqn:E; [done|]. bool_hyps. zlen_lia.
  - cbn [path_emit]. change (ends_with_sep [SLASH]) with true. cbn [negb].
    rewrite path_emit_spec; [|by apply ends_with_sep_part|done].
    cbn [render join_with].
    replace (([SLASH] ++ [] ++ f) ++ join_with SLASH fs)
      with (SLASH :: f ++ join_with SLASH fs) by done.
    destruct (size <? _) eqn:E; bool_hyps.
    + destruct (_ <=? size) eqn:E2; bool_hyps; [|done]. exfalso. zlen_lia.
    + destruct (_ <=? size) eqn:E2; bool_hyps; [done|]. simpl.
      destruct fs; [|done]. exfalso. cbn [join_with] in *. zlen_lia.
Qed.

Lemma strtok_all_cons_sep c s : strtok_all c (c :: s) = strtok_all c s.
Proof. unfold strtok_all. simpl. by rewrite ceq_refl. Qed.

Lemma strtok_drop_render names :
  Forall path_name names -> strtok_all SLASH (drop 1 (render names)) = names.
Proof.
  intros H%path_name_component. destruct names as [|f fs]; [done|].
  rewrite <- strtok_all_cons_sep. exact (strtok_all_join SLASH (f :: fs) H).
Qed.

Lemma render_head names : exists r, render names = SLASH :: r.
Proof. destruct names; simpl; eauto. Qed.

Lemma join_no_backslash names :
  Forall path_name names -> BACKSLASH ∉ join_with SLASH names.
Proof.
  induction 1 as [|f fs (_ & Hb & _) _ IH]; simpl; [apply not_elem_of_nil|].
  rewrite not_elem_of_cons, not_elem_of_app. done.
Qed.

Lemma render_no_backslash names : Forall path_name names -> BACKSLASH ∉ render names.
Proof.
  intros H. destruct names; [by apply not_elem_of_cons; split;
    [|apply not_elem_of_nil] | by apply join_no_backslash].
Qed.

Lemma render_app_cons names f :
  names <> [] -> render (names ++ [f]) = render names ++ SLASH :: f.
Proof.
  intros Hn. destruct names as [|g gs]; [done|]. simpl.
  rewrite join_with_app. simpl. by rewrite app_nil_r, <- app_assoc.
Qed.

Lemma render_inj n1 n2 :
  Forall path_name n1 -> Forall path_name n2 -> render n1 = render n2 -> n1 = n2.
Proof.
  intros H1 H2 E. rewrite <- (strtok_drop_render n1), <- (strtok_drop_render n2) by done.
  by rewrite E.
Qed.

Lemma parts_are_names absolute :
  Forall path_name
    (fold_left path_step
       (strtok_all SLASH (drop 1 (syseba_normalize_separators absolute))) []).
Proof.
  apply path_steps_names; [done|apply strtok_all_components|].
  apply Forall_forall. intros t Ht Hb.
  apply (normalize_no_backslash absolute).
  pose proof (strtok_all_subset _ _ _ _ Ht Hb) as H.
  rewrite <- (take_drop 1 (syseba_normalize_separators absolute)).
  apply elem_of_app. by right.
Qed.

(** Whatever [syseba_path_real] returns is canonical and fits the buffer. *)
Lemma path_real_canonical cwd p size out :
  syseba_path_real cwd p size = Some out -> canonical out /\ zlen out + 1 <= size.
Proof.
  unfold syseba_path_real. destruct (path_absolute cwd p) as [absolute|]; [|done].
  destruct (size <=? 1) eqn:E; [done|]. bool_hyps.
  pose proof (parts_are_names absolute) as Hn.
  rewrite path_emit_root by (done || by apply path_name_component).
  destruct (_ <=? size) eqn:E2; [|done]. bool_hyps. intros [= <-].
  split; [|done]. eexists. split; [exact Hn|done].
Qed.

(** A canonical path is its own normal form. *)
Lemma path_real_id cwd names size :
  Forall path_name names -> zlen (render names) < SYSEBA_PATH_MAX ->
  zlen (render names) + 1 <= size ->
  syseba_path_real cwd (render names) size = Some (render names).
Proof.
  intros Hn Hl Hs. unfold syseba_path_real, path_absolute.
  destruct (render_head names) as [r Hr].
  assert (match render names with c :: _ => ceq c SLASH | [] => false end = true)
    as -> by (by rewrite Hr).
  assert (fits SYSEBA_PATH_MAX (render names) = true) as -> by (by apply Z.ltb_lt).
  rewrite normalize_id by (by apply render_no_backslash).
  rewrite strtok_drop_render, path_steps_id by done. simpl app.
  assert (1 <= zlen (render names)) by (rewrite Hr; zlen_lia).
  destruct (size <=? 1) eqn:E; bool_hyps; [lia|].
  rewrite path_emit_root by (lia || by apply path_name_component).
  destruct (_ <=? size) eqn:E2; bool_hyps; [done|lia].
Qed.

(** The parent of a canonical path. *)
Lemma parent_dir_render names f size :
  path_name f -> zlen (render (names ++ [f])) < size ->
  syseba_parent_dir (render (names ++ [f])) size = Some (render names).
Proof.
  intros ([_ Hf] & _) Hs. unfold syseba_parent_dir.
  destruct names as [|g gs].
  - simpl. rewrite app_nil_r. cbn [render join_with app] in Hs.
    assert (strrchr SLASH f = None) as -> by (by apply strrchr_None).
    simpl. unfold fits.
    destruct (_ <? size) eqn:E; bool_hyps; [done|]. exfalso. zlen_lia.
  - rewrite render_app_cons in * by done. rewrite strrchr_app by done.
    destruct (render_head (g :: gs)) as [r Hr]. rewrite Hr in *.
    destruct (size <? _) eqn:E; bool_hyps; [exfalso; zlen_lia|done].
Qed.

Lemma parent_dir_root size : 1 < size -> syseba_parent_dir [SLASH] size = Some [SLASH].
Proof.
  intros H. unfold syseba_parent_dir. simpl. unfold fits.
  destruct (_ <? size) eqn:E; bool_hyps; [done|]. exfalso. zlen_lia.
Qed.

(** The number of tokens of a string: the [parts] array of half a path's bytes
    is never overrun. *)
Lemma strtok_all_length c s : 2 * zlen (strtok_all c s) <= zlen s + 1.
Proof.
  remember (length s) as n eqn:En. assert (length s <= n)%nat as Hn by lia. clear En.
  revert s Hn. induction n as [|n IH]; intros s Hn.
  { destruct s; simpl in *; [|lia]. vm_compute. done. }
  destruct (strchr c s) as [[a b]|] eqn:E.
  - apply strchr_Some in E as [-> Ha]. unfold strtok_all. rewrite split_on_app by done.
    rewrite length_app in Hn. simpl in Hn.
    specialize (IH b ltac:(lia)). unfold strtok_all in IH. simpl.
    destruct a as [|x a]; simpl; zlen_lia.
  - apply strchr_None in E. unfold strtok_all. rewrite split_on_single by done.
    destruct s; simpl; zlen_lia.
Qed.

Lemma path_steps_length tokens parts :
  zlen (fold_left path_step tokens parts) <= zlen parts + zlen tokens.
Proof.
  revert parts. induction tokens as [|t ts IH]; intros parts; simpl; [zlen_lia|].
  etransitivity; [apply IH|].
  assert (zlen (path_step parts t) <= zlen parts + 1); [|zlen_lia].
  unfold path_step. repeat case_if; try zlen_lia.
  rewrite removelast_firstn_len. unfold zlen. rewrite length_firstn. lia.
Qed.
End Lemmas.
