(* ===== verification/Os.v ===== *)
(** * The host: file system, errno, clocks and interference

    The POSIX calls the program makes, as computations over a host state [os].
    A file system maps the physical location of a file (the list of the names on
    the way from the root, without symbolic links) to its node.  [errno] is part
    of the state and, as in POSIX, a successful call leaves it as it was.

    What the rest of the world does between two calls is a list of events: a call
    may fail with any error ([EvFault], which covers permissions, full disks,
    signals, files that another process removed), may transfer fewer bytes than
    asked ([EvShort]), a regular file may be rewritten in place ([EvEdit]) and
    time may pass ([EvTick]).  An empty list is a quiet host. *)

From S2P Require Import Prelude CString Paths.

Inductive errno : Type :=
  | E_OK | ENOENT | EEXIST | ENOTDIR | EISDIR | ENOTEMPTY | EINVAL | ELOOP | EXDEV
  | EACCES | EPERM | EIO | ENOSPC | EINTR | EAGAIN | ENAMETOOLONG | EROFS | EBUSY
  | EMFILE | ENOMEM.
#[export] Instance errno_eq_dec : EqDecision errno.
Proof. solve_decision. Defined.

(** A physical location. *)
Notation ppath := (list cstr).

Record meta := Meta {
  m_mode : Z;
  m_atime : Z;
  m_mtime : Z;
  m_dev : Z;
  m_ino : Z;
}.
#[export] Instance meta_eq_dec : EqDecision meta.
Proof. solve_decision. Defined.

Inductive node : Type :=
  | NReg (m : meta) (data : cstr)
  | NDir (m : meta)
  | NLnk (m : meta) (target : cstr)
  | NOther (m : meta).
#[export] Instance node_eq_dec : EqDecision node.
Proof. solve_decision. Defined.

Notation fsmap := (gmap ppath node).

Definition node_meta (n : node) : meta :=
  match n with NReg m _ | NDir m | NLnk m _ | NOther m => m end.
Definition is_dir (n : node) : bool := match n with NDir _ => true | _ => false end.
Definition is_reg (n : node) : bool := match n with NReg _ _ => true | _ => false end.
Definition is_lnk (n : node) : bool := match n with NLnk _ _ => true | _ => false end.
Definition node_size (n : node) : Z := match n with NReg _ d => zlen d | _ => 0 end.

Inductive os_event : Type :=
  | EvFault (e : errno)
  | EvShort (n : Z)
  | EvEdit (k : ppath) (data : cstr) (mtime : Z)
  | EvTick (ns : Z)
  | EvNone.

Record os := Os {
  os_fs : fsmap;
  os_errno : errno;
  os_cwd : cstr;
  os_mono : Z;
  os_time : Z;
  os_pid : Z;
  os_ino : Z;
  os_env : list os_event;
  os_locks : list ppath;
  os_realpath_errno : option errno;
}.

Definition with_fs (fs : fsmap) (s : os) : os :=
  Os fs (os_errno s) (os_cwd s) (os_mono s) (os_time s) (os_pid s) (os_ino s)
     (os_env s) (os_locks s) (os_realpath_errno s).
Definition with_errno (e : errno) (s : os) : os :=
  Os (os_fs s) e (os_cwd s) (os_mono s) (os_time s) (os_pid s) (os_ino s)
     (os_env s) (os_locks s) (os_realpath_errno s).
Definition with_mono (t : Z) (s : os) : os :=
  Os (os_fs s) (os_errno s) (os_cwd s) t (os_time s) (os_pid s) (os_ino s)
     (os_env s) (os_locks s) (os_realpath_errno s).
Definition with_ino (i : Z) (s : os) : os :=
  Os (os_fs s) (os_errno s) (os_cwd s) (os_mono s) (os_time s) (os_pid s) i
     (os_env s) (os_locks s) (os_realpath_errno s).
Definition with_env (env : list os_event) (s : os) : os :=
  Os (os_fs s) (os_errno s) (os_cwd s) (os_mono s) (os_time s) (os_pid s) (os_ino s)
     env (os_locks s) (os_realpath_errno s).
Definition with_locks (l : list ppath) (s : os) : os :=
  Os (os_fs s) (os_errno s) (os_cwd s) (os_mono s) (os_time s) (os_pid s) (os_ino s)
     (os_env s) l (os_realpath_errno s).

Definition quiet (s : os) : Prop := os_env s = [].

(** ** Name resolution *)

(** The components the kernel walks: empty ones and "." are skipped. *)
Definition kcomps (p : cstr) : list cstr :=
  List.filter (fun c => nonempty c && negb (streq c (c!"."))) (split_on SLASH p).

Definition absolute (p : cstr) : bool :=
  match p with c :: _ => ceq c SLASH | [] => false end.

Definition root_meta : meta := Meta 493 0 0 0 0.

Definition node_at (fs : fsmap) (k : ppath) : option node :=
  match k with
  | [] => Some (default (NDir root_meta) (fs !! k))
  | _ => fs !! k
  end.

Definition is_dir_at (fs : fsmap) (k : ppath) : bool :=
  match k with
  | [] => true
  | _ => match fs !! k with Some n => is_dir n | None => false end
  end.

Inductive lookup_result : Type :=
  | Found (k : ppath)
  | Missing (k : ppath)
  | LErr (e : errno).

(** Walk the components from [cur]; [Missing k] when only the last name does not
    exist.  At most [links] symbolic links are followed. *)
Fixpoint namei (links : nat) (fs : fsmap) (follow : bool) :
    ppath -> list cstr -> lookup_result :=
  fix go (cur : ppath) (comps : list cstr) {struct comps} : lookup_result :=
    match comps with
    | [] => Found cur
    | c :: rest =>
        if negb (is_dir_at fs cur) then LErr ENOTDIR
        else if streq c (c!"..") then go (removelast cur) rest
        else
          let k := cur ++ [c] in
          match fs !! k with
          | None => match rest with [] => Missing k | _ => LErr ENOENT end
          | Some (NLnk _ target) =>
              if negb follow && match rest with [] => true | _ => false end
              then Found k
              else match links with
                   | O => LErr ELOOP
                   | S l => namei l fs follow
                              (if absolute target then [] else cur)
                              (kcomps target ++ rest)
                   end
          | Some _ => go k rest
          end
    end.

Definition MAXSYMLINKS : nat := 40.

Definition resolve (s : os) (follow : bool) (p : cstr) : lookup_result :=
  match p with
  | [] => LErr ENOENT
  | _ => namei MAXSYMLINKS (os_fs s) follow
           (if absolute p then [] else kcomps (os_cwd s)) (kcomps p)
  end.

(** ** The calls *)

(** Let the environment act before a call. *)
Definition edit_node (fs : fsmap) (k : ppath) (data : cstr) (mtime : Z) : fsmap :=
  match fs !! k with
  | Some (NReg m _) =>
      <[k := NReg (Meta (m_mode m) (m_atime m) mtime (m_dev m) (m_ino m)) data]> fs
  | _ => fs
  end.

Fixpoint settle_loop (env : list os_event) (s : os) : option os_event * os :=
  match env with
  | [] => (None, with_env [] s)
  | EvEdit k data mtime :: r =>
      settle_loop r (with_fs (edit_node (os_fs s) k data mtime) s)
  | EvTick ns :: r => settle_loop r (with_mono (os_mono s + Z.abs ns) s)
  | ev :: r => (Some ev, with_env r s)
  end.
Definition settle (s : os) : option os_event * os := settle_loop (os_env s) s.

(** A call: the environment acts, then the call fails with its error or has its
    effect.  A failure sets [errno]; a success does not touch it. *)
Definition syscall {A} (fail : A) (body : option Z -> os -> errno + (A * os)) :
    ST os A :=
  fun s0 =>
    let '(ev, s) := settle s0 in
    match ev with
    | Some (EvFault e) => (fail, with_errno e s)
    | _ =>
        let limit := match ev with Some (EvShort n) => Some n | _ => None end in
        match body limit s with
        | inl e => (fail, with_errno e s)
        | inr r => r
        end
    end.

Definition set_errno (e : errno) : ST os unit := modify (with_errno e).
Definition get_errno : ST os errno := gets os_errno.

Definition not_found (r : lookup_result) : errno :=
  match r with LErr e => e | _ => ENOENT end.

Definition sys_lstat (p : cstr) : ST os (option node) :=
  syscall None (fun _ s =>
    match resolve s false p with
    | Found k => inr (node_at (os_fs s) k, s)
    | r => inl (not_found r)
    end).

Definition sys_access (p : cstr) : ST os bool :=
  syscall false (fun _ s =>
    match resolve s true p with
    | Found _ => inr (true, s)
    | r => inl (not_found r)
    end).

(** [realpath] may leave any value in [errno] when it succeeds. *)
Definition sys_realpath (p : cstr) : ST os (option cstr) :=
  syscall None (fun _ s =>
    match resolve s true p with
    | Found k =>
        inr (Some (render k),
             match os_realpath_errno s with Some e => with_errno e s | None => s end)
    | r => inl (not_found r)
    end).

Definition sys_getcwd : ST os (option cstr) :=
  syscall None (fun _ s =>
    if fits SYSEBA_PATH_MAX (os_cwd s) then inr (Some (os_cwd s), s) else inl EINVAL).

Definition dev_of_dir (fs : fsmap) (k : ppath) : Z :=
  match node_at fs k with Some n => m_dev (node_meta n) | None => 0 end.

Definition new_meta (s : os) (mode : Z) (k : ppath) : meta :=
  Meta (Z.land mode 511) (os_mono s) (os_mono s)
       (dev_of_dir (os_fs s) (removelast k)) (os_ino s).

Definition sys_mkdir (p : cstr) (mode : Z) : ST os bool :=
  syscall false (fun _ s =>
    match resolve s false p with
    | Missing k =>
        inr (true, with_ino (os_ino s + 1)
                     (with_fs (<[k := NDir (new_meta s mode k)]> (os_fs s)) s))
    | Found _ => inl EEXIST
    | LErr e => inl e
    end).

Definition sys_unlink (p : cstr) : ST os bool :=
  syscall false (fun _ s =>
    match resolve s false p with
    | Found k =>
        match node_at (os_fs s) k with
        | Some (NDir _) => inl EISDIR
        | _ => inr (true, with_fs (delete k (os_fs s)) s)
        end
    | r => inl (not_found r)
    end).

(** What is left of [k] under [d]. *)
Fixpoint strip_prefix (d k : ppath) : option ppath :=
  match d, k with
  | [], _ => Some k
  | x :: d', y :: k' => if streq x y then strip_prefix d' k' else None
  | _ :: _, [] => None
  end.

(** The names of a directory's entries. *)
Definition children (fs : fsmap) (d : ppath) : list cstr :=
  omap (fun kn => match strip_prefix d (fst kn) with Some [c] => Some c | _ => None end)
       (map_to_list fs).

Definition sys_rmdir (p : cstr) : ST os bool :=
  syscall false (fun _ s =>
    match resolve s false p with
    | Found [] => inl EBUSY
    | Found k =>
        match node_at (os_fs s) k with
        | Some (NDir _) =>
            match children (os_fs s) k with
            | [] => inr (true, with_fs (delete k (os_fs s)) s)
            | _ => inl ENOTEMPTY
            end
        | _ => inl ENOTDIR
        end
    | r => inl (not_found r)
    end).

(** Exchange two subtrees' locations. *)
Definition swap_prefix (a b k : ppath) : ppath :=
  match strip_prefix a k with
  | Some r => b ++ r
  | None => match strip_prefix b k with Some r => a ++ r | None => k end
  end.
Definition under (d k : ppath) : bool :=
  match strip_prefix d k with Some _ => true | None => false end.
Definition move_tree (a b : ppath) (fs : fsmap) : fsmap :=
  kmap (swap_prefix a b) (filter (fun kn => under b (fst kn) = false) fs).

Definition sys_rename (old new : cstr) : ST os bool :=
  syscall false (fun _ s =>
    let fs := os_fs s in
    match resolve s false old with
    | Found ko =>
        match resolve s false new with
        | LErr e => inl e
        | Found kn | Missing kn =>
            if bool_decide (ko = []) || bool_decide (kn = []) then inl EBUSY
            else if negb (dev_of_dir fs (removelast ko) =? dev_of_dir fs (removelast kn))
            then inl EXDEV
            else if bool_decide (ko = kn) then inr (true, s)
            else
              match fs !! ko with
              | None => inl ENOENT
              | Some (NDir _) =>
                  if under ko kn then inl EINVAL
                  else match fs !! kn with
                       | None => inr (true, with_fs (move_tree ko kn fs) s)
                       | Some (NDir _) =>
                           match children fs kn with
                           | [] => inr (true, with_fs (move_tree ko kn fs) s)
                           | _ => inl ENOTEMPTY
                           end
                       | Some _ => inl ENOTDIR
                       end
              | Some n =>
                  match fs !! kn with
                  | Some (NDir _) => inl EISDIR
                  | _ => inr (true, with_fs (<[kn := n]> (delete ko fs)) s)
                  end
              end
        end
    | r => inl (not_found r)
    end).

(** [opendir] and the [readdir] loop.  POSIX leaves the order of the entries
    open: a permutation of them is a parameter. *)
Class DirOrder := {
  dir_order : list cstr -> list cstr;
  dir_order_perm : forall l, Permutation (dir_order l) l;
}.

Definition sys_readdir `{DirOrder} (p : cstr) : ST os (option (list cstr)) :=
  syscall None (fun _ s =>
    match resolve s true p with
    | Found k =>
        if is_dir_at (os_fs s) k
        then inr (Some (dir_order ((c!".") :: (c!"..") :: children (os_fs s) k)), s)
        else inl ENOTDIR
    | r => inl (not_found r)
    end).

(** Open files are known by their location. *)
Definition sys_open_read (p : cstr) : ST os (option ppath) :=
  syscall None (fun _ s =>
    match resolve s false p with
    | Found k =>
        match node_at (os_fs s) k with
        | Some (NLnk _ _) => inl ELOOP
        | _ => inr (Some k, s)
        end
    | r => inl (not_found r)
    end).

Definition create_file (s : os) (k : ppath) (mode : Z) : os :=
  with_ino (os_ino s + 1) (with_fs (<[k := NReg (new_meta s mode k) []]> (os_fs s)) s).

(** [O_WRONLY | O_CREAT | O_EXCL]. *)
Definition sys_open_excl (p : cstr) (mode : Z) : ST os (option ppath) :=
  syscall None (fun _ s =>
    match resolve s false p with
    | Missing k => inr (Some k, create_file s k mode)
    | Found _ => inl EEXIST
    | LErr e => inl e
    end).

(** [O_CREAT | O_NOFOLLOW] with write access. *)
Definition sys_open_creat (p : cstr) (mode : Z) : ST os (option ppath) :=
  syscall None (fun _ s =>
    match resolve s false p with
    | Missing k => inr (Some k, create_file s k mode)
    | Found k =>
        match node_at (os_fs s) k with
        | Some (NLnk _ _) => inl ELOOP
        | Some (NDir _) => inl EISDIR
        | _ => inr (Some k, s)
        end
    | LErr e => inl e
    end).

Definition sys_fstat (k : ppath) : ST os (option node) :=
  syscall None (fun _ s =>
    match node_at (os_fs s) k with Some n => inr (Some n, s) | None => inl EIO end).

Definition take_upto (n : Z) (l : cstr) : cstr :=
  if zlen l <=? n then l else take (Z.to_nat n) l.

(** [read]: at most [n] bytes at the offset; nothing only at the end. *)
Definition sys_read (k : ppath) (off n : Z) : ST os (option cstr) :=
  syscall None (fun limit s =>
    match os_fs s !! k with
    | Some (NReg _ data) =>
        let m := match limit with Some l => Z.min n (Z.max 1 l) | None => n end in
        inr (Some (take_upto m (drop (Z.to_nat off) data)), s)
    | _ => inl EIO
    end).

(** Replace the bytes at an offset. *)
Definition splice (off : Z) (chunk data : cstr) : cstr :=
  take (Z.to_nat off) data ++ chunk ++ drop (Z.to_nat off + length chunk) data.

(** [write]: the number of bytes written. *)
Definition sys_write (k : ppath) (off : Z) (bytes : cstr) : ST os (option Z) :=
  syscall None (fun limit s =>
    match os_fs s !! k with
    | Some (NReg m data) =>
        let chunk := match limit with
                     | Some l => take_upto (Z.max 0 l) bytes
                     | None => bytes
                     end in
        inr (Some (zlen chunk),
             with_fs (<[k := NReg (Meta (m_mode m) (m_atime m) (os_mono s)
                                        (m_dev m) (m_ino m))
                                  (splice off chunk data)]> (os_fs s)) s)
    | _ => inl EIO
    end).

Definition update_meta (f : meta -> meta) (n : node) : node :=
  match n with
  | NReg m d => NReg (f m) d
  | NDir m => NDir (f m)
  | NLnk m t => NLnk (f m) t
  | NOther m => NOther (f m)
  end.

Definition sys_set_meta (k : ppath) (f : meta -> meta) : ST os bool :=
  syscall false (fun _ s =>
    match os_fs s !! k with
    | Some n => inr (true, with_fs (<[k := update_meta f n]> (os_fs s)) s)
    | None => inl EIO
    end).
Definition sys_futimens (k : ppath) (atime mtime : Z) : ST os bool :=
  sys_set_meta k (fun m => Meta (m_mode m) atime mtime (m_dev m) (m_ino m)).
Definition sys_fchmod (k : ppath) (mode : Z) : ST os bool :=
  sys_set_meta k (fun m => Meta mode (m_atime m) (m_mtime m) (m_dev m) (m_ino m)).

Definition sys_ftruncate (k : ppath) : ST os bool :=
  syscall false (fun _ s =>
    match os_fs s !! k with
    | Some (NReg m _) => inr (true, with_fs (<[k := NReg m []]> (os_fs s)) s)
    | _ => inl EINVAL
    end).

Definition sys_chmod (p : cstr) (mode : Z) : ST os bool :=
  syscall false (fun _ s =>
    match resolve s true p with
    | Found k =>
        match os_fs s !! k with
        | Some n =>
            inr (true, with_fs (<[k := update_meta (fun m =>
                   Meta mode (m_atime m) (m_mtime m) (m_dev m) (m_ino m)) n]> (os_fs s)) s)
        | None => inl EPERM
        end
    | r => inl (not_found r)
    end).

(** [fsync], [fflush] and the like: they may only fail. *)
Definition sys_sync : ST os bool := syscall false (fun _ s => inr (true, s)).

(** [flock(LOCK_EX | LOCK_NB)] of an open file description. *)
Definition sys_flock (k : ppath) : ST os bool :=
  syscall false (fun _ s =>
    if bool_decide (k ∈ os_locks s) then inl EAGAIN
    else inr (true, with_locks (k :: os_locks s) s)).
Definition sys_unlock (k : ppath) : ST os unit :=
  modify (fun s => with_locks (List.filter (fun j => negb (bool_decide (j = k))) (os_locks s)) s).

Definition sys_monotonic : ST os Z := gets os_mono.
Definition sys_getpid : ST os Z := gets os_pid.
Definition sys_sleep_ms (ms : Z) : ST os unit :=
  modify (fun s => with_mono (os_mono s + ms * 1000000) s).

(** ** Quiet hosts *)

Lemma settle_quiet s : quiet s -> settle s = (None, s).
Proof. unfold settle, quiet. intros H. destruct s. simpl in *. subst. done. Qed.

Lemma syscall_quiet {A} (fail : A) body s :
  quiet s ->
  syscall fail body s =
    match body None s with inl e => (fail, with_errno e s) | inr r => r end.
Proof. intros H. unfold syscall. by rewrite settle_quiet. Qed.

(** ** Buffered reading

    The text an input stream still delivers, and whether a read error follows it
    ([ferror]) instead of the end of the file. *)
Record stream := Stream {
  sm_data : cstr;
  sm_failed : bool;
}.

Definition sys_stream (k : ppath) : ST os stream :=
  syscall (Stream [] true) (fun limit s =>
    match os_fs s !! k with
    | Some (NReg _ data) =>
        inr (match limit with
             | Some n => Stream (take_upto n data) true
             | None => Stream data false
             end, s)
    | _ => inl EIO
    end).

(** The bytes up to a newline and that newline, at most [n] of them. *)
Fixpoint take_line (n : nat) (s : cstr) : cstr * cstr :=
  match n, s with
  | O, _ => ([], s)
  | _, [] => ([], [])
  | S n', c :: r =>
      if ceq c NEWLINE then ([c], r)
      else let '(a, b) := take_line n' r in (c :: a, b)
  end.

(** The C string that a buffer holds. *)
Definition NUL : ascii := "000"%char.
Fixpoint until_nul (s : cstr) : cstr :=
  match s with
  | [] => []
  | c :: r => if ceq c NUL then [] else c :: until_nul r
  end.

(** [fgets(line, size, file)]: the string in the buffer and what remains. *)
Definition fgets (size : Z) (f : stream) : option (cstr * stream) :=
  let '(line, rest) := take_line (Z.to_nat (size - 1)) (sm_data f) in
  match line with
  | [] => None
  | _ =>
      if sm_failed f && (zlen line <? size - 1) && match rest with [] => true | _ => false end
         && negb (ceq (List.last line NUL) NEWLINE)
      then None
      else Some (until_nul line, Stream rest (sm_failed f))
  end.

(** [getc(file) == EOF]. *)
Definition feof_next (f : stream) : bool :=
  match sm_data f with [] => true | _ => false end.
