(* ===== verification/Examples.v ===== *)
(** * A concrete host

    A small file system, and concrete instances of what the program takes from
    outside, on which the witnesses of the theorems are evaluated. *)

From Stdlib Require Import Sorting.Sorted.
From S2P Require Import Prelude CString Paths Os.

Definition example_meta : meta := Meta 420 1 2 0 1.

(** /data, /backup and /restore, with a file in each. *)
Definition example_fs : fsmap := list_to_map
  [ ([c!"data"], NDir root_meta);
    ([c!"data"; c!"notes.txt"], NReg example_meta (c!"hello"));
    ([c!"backup"], NDir root_meta);
    ([c!"backup"; c!"old.txt"], NReg example_meta (c!"old"));
    ([c!"restore"], NDir root_meta);
    ([c!"restore"; c!"old.txt"], NReg example_meta (c!"older"));
    ([c!"restore"; c!"photos"], NDir root_meta);
    ([c!"restore"; c!"photos"; c!"a.jpg"], NReg example_meta (c!"pixels")) ].

Definition example_host (env : list os_event) : os :=
  Os example_fs E_OK (c!"/") 1000 0 7 10 env [] None.

(** A property of every key of a concrete file system. *)
Definition check_keys (P : ppath -> node -> bool) (fs : fsmap) : bool :=
  forallb (fun kn => P (fst kn) (snd kn)) (map_to_list fs).

Lemma check_keys_spec P fs :
  check_keys P fs = true -> forall k n, fs !! k = Some n -> P k n = true.
Proof.
  unfold check_keys. rewrite forallb_forall. intros H k n Hk.
  apply (H (k, n)). apply list_elem_of_In. by apply elem_of_map_to_list.
Qed.

Definition path_name_b (f : cstr) : bool :=
  nonempty f && negb (existsb (ceq SLASH) f) && negb (existsb (ceq BACKSLASH) f)
  && negb (streq f (c!".")) && negb (streq f (c!"..")).

Lemma path_name_b_spec f : path_name_b f = true -> path_name f.
Proof.
  unfold path_name_b. intros H. bool_hyps.
  assert (forall c, existsb (ceq c) f = false -> c ∉ f) as Hc.
  { intros c E Hin. apply list_elem_of_In in Hin.
    assert (existsb (ceq c) f = true); [|congruence].
    apply existsb_exists. exists c. split; [done|apply ceq_refl]. }
  repeat match goal with E : streq _ _ = false |- _ => apply streq_false in E end.
  split; [split; [by destruct f|auto]|]. split_and!; auto.
Qed.

Lemma names_b_spec names : forallb path_name_b names = true -> Forall path_name names.
Proof.
  rewrite forallb_forall, Forall_forall. intros H f Hf. apply path_name_b_spec, H.
  by apply list_elem_of_In.
Qed.

(** Entries in the order the map lists them. *)
#[export] Instance example_order : DirOrder.
Proof. refine {| dir_order l := l |}. done. Defined.

(** Every prefix of a location. *)
Definition check_prefixes (P : ppath -> bool) (names : ppath) : bool :=
  forallb (fun i => P (take i names)) (seq 0 (S (length names))).

Lemma check_prefixes_spec P names a b :
  check_prefixes P names = true -> names = a ++ b -> P a = true.
Proof.
  unfold check_prefixes. rewrite forallb_forall. intros H ->. specialize (H (length a)).
  rewrite take_app_length in H. apply H. apply in_seq. rewrite length_app. lia.
Qed.

(** A number for every allocation: one more than every block in use. *)
Definition fresh_block {D} (h : gmap positive D) : option positive :=
  Some (map_fold (fun p _ m => Pos.max (Pos.succ p) m) 1%positive h).

Lemma fresh_block_free {D} (h : gmap positive D) p : fresh_block h = Some p -> h !! p = None.
Proof.
  intros [= <-]. set (P (b : positive) (m : gmap positive D) := forall j, is_Some (m !! j) -> (j < b)%positive).
  assert (P (map_fold (fun p _ m => Pos.max (Pos.succ p) m) 1%positive h) h) as Hp.
  { apply (map_fold_weak_ind P).
    - intros j [x Hx]. by rewrite lookup_empty in Hx.
    - intros i x m b Hi IH j Hj. destruct (decide (i = j)) as [->|Hne]; [lia|].
      rewrite lookup_insert_ne in Hj by done. specialize (IH j Hj). lia. }
  destruct (h !! _) eqn:E; [|done]. specialize (Hp _ ltac:(by eexists)). lia.
Qed.
