(* ===== verification/Platform.v ===== *)
(** * Host services (src/src/platform.c)

    Directory creation, the deadline of a timed wait, disk usage, random bytes and
    the lock probe.  An [int] that is 0 or -1 is a boolean: [true] is 0. *)

From S2P Require Import Prelude CString Paths Os.

(** ** [syseba_mkdirs] *)

(** [while (length > 1 && current[length - 1] == SEP) current[--length] = 0] *)
Fixpoint drop_seps (reversed : cstr) : cstr :=
  match reversed with
  | c :: ((_ :: _) as r) => if ceq c SLASH then drop_seps r else reversed
  | _ => reversed
  end.
Definition strip_trailing_seps (p : cstr) : cstr := rev (drop_seps (rev p)).

(** The text before every separator after the first byte. *)
Fixpoint sep_prefixes (before s : cstr) : list cstr :=
  match s with
  | [] => []
  | c :: r => (if ceq c SLASH then [before] else []) ++ sep_prefixes (before ++ [c]) r
  end.

(** Create the directories in order; one that exists is not an error. *)
Fixpoint mkdir_each (paths : list cstr) (mode : Z) : ST os bool :=
  match paths with
  | [] => ret true
  | p :: rest =>
      let* ok := sys_mkdir p mode in
      let* e := get_errno in
      if negb ok && negb (bool_decide (e = EEXIST)) then ret false
      else mkdir_each rest mode
  end.

(** The calls of [mkdir], in order. *)
Definition mkdirs_targets (path : cstr) : list cstr :=
  let current := strip_trailing_seps (syseba_normalize_separators path) in
  match current with
  | [] => []
  | c :: r => sep_prefixes [c] r ++ [current]
  end.

Definition syseba_mkdirs (path : cstr) (mode : Z) : ST os bool :=
  if negb (nonempty path) then ret true
  else if negb (fits SYSEBA_PATH_MAX path) then
    set_errno ENAMETOOLONG ;;; ret false
  else mkdir_each (mkdirs_targets path) mode.

(** ** Timed waits *)

(** The absolute deadline [syseba_cond_timedwait] computes from the wall clock. *)
Definition timedwait_deadline (tv_sec tv_nsec timeout_ms : Z) : Z * Z :=
  let sec := tv_sec + timeout_ms / 1000 in
  let nsec := tv_nsec + timeout_ms mod 1000 * 1000000 in
  if 1000000000 <=? nsec then (sec + 1, nsec - 1000000000) else (sec, nsec).

(** ** Disk usage *)

Record syseba_disk_usage_t := DiskUsage {
  du_exists : bool;
  du_total : Z;
  du_used : Z;
  du_free_bytes : Z;
}.

(** [statvfs] answers with block counts and the fragment size. *)
Definition syseba_disk_usage (statvfs : option (Z * Z * Z)) : option syseba_disk_usage_t :=
  match statvfs with
  | None => None
  | Some (f_blocks, f_bavail, f_frsize) =>
      let total := wrap64 (f_blocks * f_frsize) in
      let free := wrap64 (f_bavail * f_frsize) in
      Some (DiskUsage true total (if free <=? total then total - free else 0) free)
  end.

(** ** Random bytes *)

(** What [read] answers for [/dev/urandom]: some bytes, or an error. *)
Inductive random_read : Type :=
  | RandomBytes (data : cstr)
  | RandomError (e : errno).

(** The device: an error of [open], or the answers of [read] in order, which are at the end
    of the file after the last. *)
Inductive random_device : Type :=
  | RandomRefused (e : errno)
  | RandomOpened (reads : list random_read).

(** [while (offset < size)]: the bytes that are missing; [read] gives no more than it is
    asked for. *)
Fixpoint random_loop (reads : list random_read) (missing : Z) : ST os (option cstr) :=
  if missing <=? 0 then ret (Some [])
  else
    match reads with
    | [] => ret None
    | RandomError e :: reads' =>
        set_errno e ;;;
        if bool_decide (e = EINTR) then random_loop reads' missing else ret None
    | RandomBytes data :: reads' =>
        let data := take (Z.to_nat missing) data in
        match data with
        | [] => ret None
        | _ =>
            let* rest := random_loop reads' (missing - zlen data) in
            ret (option_map (app data) rest)
        end
    end.

Definition syseba_random_bytes (device : random_device) (size : Z) : ST os (option (list Z)) :=
  match device with
  | RandomRefused e => set_errno e ;;; ret None
  | RandomOpened reads =>
      let* data := random_loop reads size in
      ret (option_map (map code) data)
  end.

(** ** [syseba_path_real] on the host *)

Definition syseba_path_real_os (path : cstr) (size : Z) : ST os (option cstr) :=
  if absolute path then ret (syseba_path_real None path size)
  else
    let* cwd := sys_getcwd in
    ret (syseba_path_real cwd path size).

(** ** The lock probe *)

Definition syseba_lock_is_held (path : cstr) : ST os bool :=
  let* opened := sys_open_read path in
  match opened with
  | None => ret false
  | Some k =>
      let* locked := sys_flock k in
      if locked then sys_unlock k ;;; ret false
      else
        let* e := get_errno in
        ret (bool_decide (e = EAGAIN))
  end.

(** ** Properties *)

Section Lemmas.
(** The deadline is the clock plus the timeout, in normal form. *)
Lemma timedwait_deadline_ns sec nsec ms :
  0 <= nsec < 1000000000 -> 0 <= ms ->
  let '(s', n') := timedwait_deadline sec nsec ms in
  s' * 1000000000 + n' = sec * 1000000000 + nsec + ms * 1000000 /\
  0 <= n' < 1000000000.
Proof.
  intros Hn Hm. unfold timedwait_deadline.
  pose proof (Z.div_mod ms 1000 ltac:(lia)).
  pose proof (Z.mod_pos_bound ms 1000 ltac:(lia)).
  destruct (_ <=? _) eqn:E; bool_hyps; lia.
Qed.

Lemma random_loop_length reads missing s data s' :
  random_loop reads missing s = (Some data, s') -> zlen data = Z.max 0 missing.
Proof.
  revert missing s data s'. induction reads as [|[piece|e] reads IH]; intros missing s data s'; cbn [random_loop].
  - destruct (missing <=? 0) eqn:E; [|done]. bool_hyps. intros [= <- _]. zlen_lia.
  - destruct (missing <=? 0) eqn:E; [bool_hyps; intros [= <- _]; zlen_lia|]. bool_hyps.
    set (part := take _ piece). assert (zlen part <= missing) as Hp.
    { unfold part, zlen. rewrite length_take. lia. }
    destruct part as [|c part]; [done|]. unfold bind.
    destruct (random_loop reads _ s) as [[rest|] s1] eqn:El; [|done]. intros [= <- _].
    apply IH in El. autorewrite with zlen in *. pose proof (zlen_nonneg part). lia.
  - destruct (missing <=? 0) eqn:E; [bool_hyps; intros [= <- _]; zlen_lia|].
    rewrite bind_unit. case_bool_decide; [apply IH|done].
Qed.

(** A success gives as many bytes as were asked for. *)
Lemma random_bytes_full device size s random s' :
  0 <= size -> syseba_random_bytes device size s = (Some random, s') ->
  zlen random = size /\ Forall (fun n => 0 <= n < 256) random.
Proof.
  intros Hz. destruct device as [e|reads]; cbn [syseba_random_bytes]; [done|]. unfold bind.
  destruct (random_loop reads size s) as [[data|] s1] eqn:E; [|done]. intros [= <- _].
  apply random_loop_length in E. rewrite zlen_map. split; [lia|].
  apply Forall_forall. intros n (c & -> & _)%list_elem_of_fmap. apply code_range.
Qed.

(** Answers that give enough bytes in the end, with nothing worse than interruptions. *)
Definition gives (size : Z) (reads : list random_read) : Prop :=
  Forall (fun r => match r with RandomBytes d => d <> [] | RandomError e => e = EINTR end) reads /\
  size <= zlen (flat_map (fun r => match r with RandomBytes d => d | RandomError _ => [] end) reads).

Lemma random_loop_success reads missing s :
  gives missing reads -> exists data s', random_loop reads missing s = (Some data, s').
Proof.
  intros [Hr Hm]. revert Hm. revert missing s. induction Hr as [|[piece|e] reads Hx _ IH]; intros missing s; cbn [random_loop flat_map].
  - intros Hm. autorewrite with zlen in Hm. rewrite (proj2 (Z.leb_le _ _) Hm). by do 2 eexists.
  - intros Hm. destruct (missing <=? 0) eqn:E; [by do 2 eexists|]. bool_hyps.
    set (part := take _ piece). assert (part <> []) as Hne by (unfold part; destruct piece, (Z.to_nat missing) eqn:?; [done..|lia|done]).
    destruct (decide (zlen piece < missing)) as [Hlt|Hge].
    + assert (part = piece) as Ep by (unfold part; apply take_ge; unfold zlen in *; lia).
      destruct (IH (missing - zlen part) s) as (rest & s' & El); [rewrite Ep; zlen_lia|].
      destruct part; [done|]. unfold bind. rewrite El. by do 2 eexists.
    + assert (zlen part = missing) as Ep by (unfold part, zlen in *; rewrite length_take; lia).
      destruct part; [done|]. unfold bind. rewrite Ep, Z.sub_diag. destruct reads; by do 2 eexists.
  - intros Hm. destruct (missing <=? 0); [by do 2 eexists|]. rewrite bind_unit, bool_decide_true by done. by apply IH.
Qed.

Lemma random_bytes_succeed reads size s :
  gives size reads -> exists random s', syseba_random_bytes (RandomOpened reads) size s = (Some random, s').
Proof.
  intros Hg. destruct (random_loop_success reads size s Hg) as (data & s' & E).
  cbn [syseba_random_bytes]. rewrite (bind_run _ _ _ _ _ E). by do 2 eexists.
Qed.

(** Nothing but [errno] changes. *)
Lemma random_loop_errno reads missing s : exists e, exec (random_loop reads missing) s = with_errno e s.
Proof.
  assert (s = with_errno (os_errno s) s) as Hs by (by destruct s).
  revert missing s Hs. induction reads as [|[piece|e] reads IH]; intros missing s Hs; cbn [random_loop];
    (destruct (missing <=? 0); [by exists (os_errno s)|]); [by exists (os_errno s)| |].
  - destruct (take _ piece); [by exists (os_errno s)|]. rewrite exec_bind. change (exec (ret _) ?t) with t. by apply IH.
  - rewrite exec_bind. change (exec (set_errno e) s) with (with_errno e s). case_bool_decide; [|by exists e].
    destruct (IH missing (with_errno e s) eq_refl) as [e' ->]. by exists e'.
Qed.

Lemma random_bytes_errno device size s : exists e, exec (syseba_random_bytes device size) s = with_errno e s.
Proof.
  destruct device as [e|reads]; cbn [syseba_random_bytes]; rewrite exec_bind; [by exists e|].
  change (exec (ret _) ?t) with t. apply random_loop_errno.
Qed.

Lemma sep_prefixes_app before a b :
  sep_prefixes before (a ++ b) = sep_prefixes before a ++ sep_prefixes (before ++ a) b.
Proof.
  revert before. induction a as [|c a IH]; intros before; simpl.
  - by rewrite app_nil_r.
  - rewrite IH. rewrite <- !app_assoc. done.
Qed.

Lemma sep_prefixes_clean before a : SLASH ∉ a -> sep_prefixes before a = [].
Proof.
  revert before. induction a as [|c a IH]; intros before Ha; simpl; [done|].
  rewrite not_elem_of_cons in Ha. destruct Ha as [Hc Ha].
  assert (ceq c SLASH = false) as -> by (by apply ceq_false). by apply IH.
Qed.

(** The targets for a canonical path are its ancestors below the root, and it. *)
Fixpoint inits (prefix rest : ppath) : list ppath :=
  match rest with
  | [] => []
  | x :: r => (prefix ++ [x]) :: inits (prefix ++ [x]) r
  end.

Lemma strip_trailing_render names :
  Forall path_name names -> strip_trailing_seps (render names) = render names.
Proof.
  intros H. unfold strip_trailing_seps. destruct names as [|f fs] using rev_ind; [done|].
  clear IHfs. apply Forall_app in H as [_ H]. apply Forall_inv in H.
  destruct H as ([Hne Hs] & _). destruct f as [|c g] using rev_ind; [done|]. clear IHg.
  assert (exists p, render (fs ++ [g ++ [c]]) = p ++ [c]) as [p ->].
  { destruct fs as [|h hs].
    - simpl. rewrite app_nil_r. by exists (SLASH :: g).
    - rewrite render_app_cons by done. exists (render (h :: hs) ++ SLASH :: g).
      by rewrite <- app_assoc. }
  rewrite rev_app_distr. simpl.
  assert (ceq c SLASH = false) as ->.
  { apply ceq_false. rewrite not_elem_of_app, list_elem_of_singleton in Hs. naive_solver. }
  destruct (rev p) as [|y q] eqn:E; simpl.
  - by rewrite <- (rev_involutive p), E.
  - by rewrite <- (rev_involutive p), E.
Qed.

Lemma sep_prefixes_join names prefix :
  Forall path_name names -> prefix <> [] ->
  sep_prefixes (render prefix) (join_with SLASH names) ++ [render (prefix ++ names)]
  = render prefix :: map render (inits prefix names).
Proof.
  intros H. revert prefix. induction H as [|f fs Hf Hfs IH]; intros prefix Hp.
  - simpl. by rewrite app_nil_r.
  - cbn [join_with sep_prefixes]. rewrite ceq_refl.
    rewrite sep_prefixes_app.
    destruct Hf as ([_ Hs] & _). rewrite sep_prefixes_clean by done. simpl app at 2.
    rewrite <- (app_assoc (render prefix)). simpl app at 3.
    rewrite <- render_app_cons by done.
    replace (prefix ++ f :: fs) with ((prefix ++ [f]) ++ fs) by (by rewrite <- app_assoc).
    simpl. f_equal. apply IH. by destruct prefix.
Qed.

Lemma mkdirs_targets_render f fs :
  Forall path_name (f :: fs) ->
  mkdirs_targets (render (f :: fs)) = map render (inits [] (f :: fs)).
Proof.
  intros H. unfold mkdirs_targets.
  rewrite normalize_id by (by apply render_no_backslash).
  rewrite strip_trailing_render by done.
  pose proof (Forall_inv H) as ([Hne Hs] & _). apply Forall_inv_tail in H.
  pose proof (sep_prefixes_join fs [f] H ltac:(done)) as E.
  cbn [render join_with] in E |- *. rewrite app_nil_r in E.
  rewrite sep_prefixes_app, sep_prefixes_clean by done. simpl app at 1.
  cbn [inits app map]. simpl render. rewrite app_nil_r. exact E.
Qed.
End Lemmas.
