(* ===== verification/Fs.v ===== *)
(** * File operations (src/src/fs.c, first part)

    Queries on one path, the three ways a regular file is opened, and the copy of
    a file: [syseba_copy_file_once_posix], [syseba_atomic_replace] and the retry
    loop [syseba_copy_file].  Properties are in FsFacts. *)

From S2P Require Import Prelude CString Paths Os Platform.

(** ** Queries *)

Definition syseba_fs_exists (path : cstr) : ST os bool :=
  let* value := sys_lstat path in
  ret match value with Some _ => true | None => false end.

Definition syseba_fs_is_directory (path : cstr) : ST os bool :=
  let* value := sys_lstat path in
  ret match value with Some n => is_dir n | None => false end.

Definition syseba_fs_is_regular (path : cstr) : ST os bool :=
  let* value := sys_lstat path in
  ret match value with Some n => is_reg n | None => false end.

(** The three output parameters of [syseba_fs_stat]. *)
Record stat_result := StatResult {
  st_size : Z;
  st_mtime_ns : Z;
  st_directory : bool;
}.

Definition syseba_fs_stat (path : cstr) : ST os (option stat_result) :=
  let* value := sys_lstat path in
  match value with
  | None => ret None
  | Some n =>
      if is_lnk n then set_errno ELOOP ;;; ret None
      else ret (Some (StatResult (if is_dir n then 0 else node_size n)
                                 (m_mtime (node_meta n)) (is_dir n)))
  end.

(** ** Opening *)

(** The descriptor of a regular file, and its size. *)
Definition syseba_open_regular_read (path : cstr) : ST os (option (ppath * Z)) :=
  let* descriptor := sys_open_read path in
  match descriptor with
  | None => ret None
  | Some k =>
      let* information := sys_fstat k in
      match information with
      | Some (NReg m data) =>
          let* file := sys_sync in
          if file then ret (Some (k, zlen data)) else ret None
      | _ => set_errno EINVAL ;;; ret None
      end
  end.

Definition syseba_open_regular_append (path : cstr) (mode : Z) : ST os (option ppath) :=
  let* descriptor := sys_open_creat path mode in
  match descriptor with
  | None => ret None
  | Some k =>
      let* information := sys_fstat k in
      match information with
      | Some (NReg _ _) =>
          let* file := sys_sync in
          if file then ret (Some k) else ret None
      | _ => set_errno EINVAL ;;; ret None
      end
  end.

Definition syseba_open_exclusive_write (path : cstr) (mode : Z) : ST os (option ppath) :=
  let* descriptor := sys_open_excl path mode in
  match descriptor with
  | None => ret None
  | Some k =>
      let* file := sys_sync in
      if file then ret (Some k)
      else sys_unlink path ;;; ret None
  end.

(** ** Copying one file *)

Definition syseba_prepare_destination (destination : cstr) : ST os bool :=
  match syseba_parent_dir destination SYSEBA_PATH_MAX with
  | None => set_errno ENAMETOOLONG ;;; ret false
  | Some parent => syseba_mkdirs parent 488 (* 0750 *)
  end.

(** What the transfer loops end with: the number of bytes copied, or failure.
    [OutOfFuel] is not an outcome of the code; FsFacts shows it never happens. *)
Inductive transfer : Type :=
  | Copied (n : Z)
  | TransferFailed
  | OutOfFuel.

(** [while (written < read_count)]: write the chunk at the end of the output. *)
Fixpoint write_chunk (fuel : nat) (output : ppath) (chunk : cstr) (copied : Z) :
    ST os transfer :=
  match fuel with
  | O => ret OutOfFuel
  | S fuel' =>
      match chunk with
      | [] => ret (Copied copied)
      | _ =>
          let* write_count := sys_write output copied chunk in
          match write_count with
          | None =>
              let* e := get_errno in
              if bool_decide (e = EINTR) then write_chunk fuel' output chunk copied
              else ret TransferFailed
          | Some n =>
              if n <=? 0 then ret TransferFailed
              else write_chunk fuel' output (drop (Z.to_nat n) chunk) (copied + n)
          end
      end
  end.

Definition COPY_BUFFER : Z := 1024 * 1024.

(** [for (;;)]: read a buffer, write it. *)
Fixpoint copy_loop (fuel : nat) (input output : ppath) (position copied : Z) :
    ST os transfer :=
  match fuel with
  | O => ret OutOfFuel
  | S fuel' =>
      let* chunk := sys_read input position COPY_BUFFER in
      match chunk with
      | None =>
          let* e := get_errno in
          if bool_decide (e = EINTR) then copy_loop fuel' input output position copied
          else ret TransferFailed
      | Some [] => ret (Copied copied)
      | Some bytes =>
          let* written := write_chunk fuel' output bytes copied in
          match written with
          | Copied copied' =>
              copy_loop fuel' input output (position + zlen bytes) copied'
          | other => ret other
          end
      end
  end.

(** Enough turns for the file as it is and as any pending edit may make it. *)
Definition edit_bytes (ev : os_event) : nat :=
  match ev with EvEdit _ data _ => S (length data) | _ => 1%nat end.
Definition copy_fuel (input : ppath) (s : os) : nat :=
  (3 + match os_fs s !! input with Some (NReg _ data) => length data | _ => 0 end
     + list_sum (map edit_bytes (os_env s)))%nat.

(** The same file, with the same size and modification time. *)
Definition source_unchanged (first final : node) (copied : Z) : bool :=
  let m := node_meta first in
  let f := node_meta final in
  (m_dev m =? m_dev f) && (m_ino m =? m_ino f) &&
  (node_size first =? node_size final) && (copied =? node_size first) &&
  (m_mtime m =? m_mtime f).

(** After both descriptors are open: transfer, check that the source did not
    change, copy the times and the mode, flush. *)
Definition copy_contents (input output : ppath) (source_stat : node) : ST os bool :=
  let* fuel := gets (copy_fuel input) in
  let* moved := copy_loop fuel input output 0 0 in
  match moved with
  | Copied copied =>
      let* final_stat := sys_fstat input in
      match final_stat with
      | None => set_errno EAGAIN ;;; ret false
      | Some final =>
          if negb (source_unchanged source_stat final copied)
          then set_errno EAGAIN ;;; ret false
          else
            let m := node_meta source_stat in
            sys_futimens output (m_atime m) (m_mtime m) ;;;
            (let* mode_set := sys_fchmod output (Z.land (m_mode m) 511) in
             if negb mode_set then ret false
             else sys_sync)
      end
  | _ => ret false
  end.

Definition syseba_copy_file_once_posix (source destination : cstr) : ST os bool :=
  let* result :=
    (let* input := sys_open_read source in
     match input with
     | None => ret false
     | Some input =>
         let* source_stat := sys_fstat input in
         match source_stat with
         | Some (NReg m data) =>
             let* prepared := syseba_prepare_destination destination in
             if negb prepared then ret false
             else
               let* output := sys_open_excl destination (Z.land (m_mode m) 511) in
               match output with
               | None => ret false
               | Some output => copy_contents input output (NReg m data)
               end
         | _ => ret false
         end
     end) in
  if result then ret true
  else
    let* saved := get_errno in
    sys_unlink destination ;;;
    set_errno saved ;;;
    ret false.

(** ** Replacing a file *)

(** [open(parent, O_RDONLY | O_DIRECTORY)]. *)
Definition sys_open_dir (p : cstr) : ST os (option ppath) :=
  syscall None (fun _ s =>
    match resolve s true p with
    | Found k => if is_dir_at (os_fs s) k then inr (Some k, s) else inl ENOTDIR
    | r => inl (not_found r)
    end).

Definition syseba_sync_parent_directory (path : cstr) : ST os bool :=
  match syseba_parent_dir path SYSEBA_PATH_MAX with
  | None => set_errno ENAMETOOLONG ;;; ret false
  | Some parent =>
      let* descriptor := sys_open_dir parent in
      match descriptor with
      | None => ret false
      | Some _ =>
          let* result := sys_sync in
          let* e := get_errno in
          ret (result || bool_decide (e = EINVAL) || bool_decide (e = EROFS))
      end
  end.

Definition syseba_atomic_replace (temporary destination : cstr) : ST os bool :=
  let* renamed := sys_rename temporary destination in
  if negb renamed then ret false
  else syseba_sync_parent_directory destination.

(** ** The retry loop *)

Definition temp_marker : cstr := c!".syseba-tmp.".

Definition temporary_name (destination : cstr) (pid mono attempt : Z) : cstr :=
  destination ++ temp_marker ++ dec (wrap64 pid) ++ c!"." ++ dec (wrap64 mono) ++ c!"."
    ++ dec attempt.

Fixpoint copy_attempts (left : nat) (source destination : cstr)
    (attempt attempts : Z) : ST os bool :=
  match left with
  | O => ret false
  | S left' =>
      let* pid := sys_getpid in
      let* mono := sys_monotonic in
      let temporary := temporary_name destination pid mono attempt in
      if negb (fits SYSEBA_PATH_MAX temporary) then
        set_errno ENAMETOOLONG ;;; ret false
      else
        let* regular := syseba_fs_is_regular source in
        if negb regular then set_errno ENOENT ;;; ret false
        else
          let* result :=
            (let* once := syseba_copy_file_once_posix source temporary in
             if once then syseba_atomic_replace temporary destination
             else ret false) in
          if result then ret true
          else
            let* saved := get_errno in
            sys_unlink temporary ;;;
            set_errno saved ;;;
            (if attempt + 1 <? attempts
             then sys_sleep_ms (wrap32 (250 * (attempt + 1))) else ret tt) ;;;
            copy_attempts left' source destination (attempt + 1) attempts
  end.

Definition syseba_copy_file (source destination : cstr) (attempts : Z) : ST os bool :=
  let* prepared := syseba_prepare_destination destination in
  if negb prepared then ret false
  else
    let attempts := if attempts =? 0 then 1 else attempts in
    copy_attempts (Z.to_nat attempts) source destination 0 attempts.
