(* ===== verification/OsFacts.v ===== *)
(** * Facts about the host

    Name resolution (which key a path names, what creating or rewriting a file
    changes), and the frame rules of the calls: for a relation between file
    systems, what each call has to show to keep it. *)

From S2P Require Import Prelude CString Paths Os.

(** ** Components *)

Lemma kcomps_render names : Forall path_name names -> kcomps (render names) = names.
Proof.
  intros H. assert (kcomps (join_with SLASH names) = names) as G.
  { unfold kcomps. pose proof (path_name_component _ H) as Hc.
    assert (split_on SLASH ([] ++ join_with SLASH names) = [] :: names) as E.
    { apply split_on_join_tail; [apply not_elem_of_nil|done]. }
    simpl app in E. rewrite E. simpl. clear E Hc.
    induction H as [|f fs ([Hne _] & _ & Hd & _) _ IH]; simpl; [done|].
    rewrite IH. apply streq_false in Hd. rewrite Hd. by destruct f. }
  destruct names; [done|exact G].
Qed.

Lemma absolute_render names : absolute (render names) = true.
Proof. destruct (render_head names) as [r ->]. done. Qed.

Lemma resolve_render s follow names :
  Forall path_name names ->
  resolve s follow (render names) = namei MAXSYMLINKS (os_fs s) follow [] names.
Proof.
  intros H. unfold resolve. rewrite absolute_render, kcomps_render by done.
  destruct (render_head names) as [r ->]. done.
Qed.

(** ** Resolution *)

Lemma namei_cons l fs follow cur c rest :
  namei l fs follow cur (c :: rest) =
    if negb (is_dir_at fs cur) then LErr ENOTDIR
    else if streq c (c!"..") then namei l fs follow (removelast cur) rest
    else
      let k := cur ++ [c] in
      match fs !! k with
      | None => match rest with [] => Missing k | _ => LErr ENOENT end
      | Some (NLnk _ target) =>
          if negb follow && match rest with [] => true | _ => false end then Found k
          else match l with
               | O => LErr ELOOP
               | S l' => namei l' fs follow (if absolute target then [] else cur)
                           (kcomps target ++ rest)
               end
      | Some _ => namei l fs follow k rest
      end.
Proof. destruct l; reflexivity. Qed.

Lemma namei_nil l fs follow cur : namei l fs follow cur [] = Found cur.
Proof. destruct l; reflexivity. Qed.

(** Induction over the links followed, then over the components. *)
Lemma namei_ind (P : nat -> ppath -> list cstr -> Prop) :
  (forall l cur comps,
     (forall l' cur' comps', (l' < l)%nat -> P l' cur' comps') ->
     (forall cur' comps', (length comps' < length comps)%nat -> P l cur' comps') ->
     P l cur comps) ->
  forall l cur comps, P l cur comps.
Proof.
  intros H l. induction l as [l IHl] using lt_wf_ind. intros cur comps.
  remember (length comps) as n eqn:En. revert cur comps En.
  induction n as [n IHn] using lt_wf_ind. intros cur comps ->.
  apply H; [auto|]. intros cur' comps' Hlt. by apply (IHn (length comps')).
Qed.

Ltac namei_induction l cur comps :=
  revert l cur comps;
  match goal with |- forall l cur comps, @?Q l cur comps => apply (namei_ind Q) end;
  cbv beta;
  intros l cur comps IHl IHc.

(** Split a [namei] hypothesis on its first component. *)
Ltac namei_cases H :=
  rewrite namei_cons in H;
  let Ed := fresh "Ed" in
  destruct (is_dir_at _ _) eqn:Ed in H; cbn [negb] in H; [|discriminate H];
  let Eu := fresh "Eu" in
  destruct (streq _ _) eqn:Eu in H.

Lemma namei_missing l fs follow cur comps k :
  namei l fs follow cur comps = Missing k ->
  fs !! k = None /\ k <> [] /\ is_dir_at fs (removelast k) = true.
Proof.
  namei_induction l cur comps.
  intros H. destruct comps as [|c rest]; [by rewrite namei_nil in H|].
  namei_cases H; [by eapply IHc; [|exact H]; simpl; lia|]. cbn zeta in H.
  destruct (fs !! (cur ++ [c])) as [[m d|m|m t|m]|] eqn:E.
  1, 2, 4: by eapply IHc; [|exact H]; simpl; lia.
  - destruct (negb follow && _); [done|]. destruct l; [done|].
    by eapply IHl; [|exact H]; lia.
  - destruct rest; [|done]. injection H as <-.
    rewrite removelast_last. split; [done|]. split; [by destruct cur|done].
Qed.

(** Without following it, the last name of the path is the last of the key. *)
Lemma namei_last l fs cur comps x :
  x <> c!".." ->
  match namei l fs false cur (comps ++ [x]) with
  | Found k | Missing k => last k = Some x
  | LErr _ => True
  end.
Proof.
  intros Hx.
  namei_induction l cur comps.
  destruct comps as [|c rest].
  - simpl app. rewrite namei_cons. destruct (is_dir_at fs cur); cbn [negb]; [|done].
    apply streq_false in Hx as ->. cbn zeta.
    destruct (fs !! (cur ++ [x])) as [[m d|m|m t|m]|]; simpl;
      rewrite ?namei_nil; by rewrite last_snoc.
  - simpl app. rewrite namei_cons. destruct (is_dir_at fs cur); cbn [negb]; [|done].
    destruct (streq c (c!"..")); [by apply IHc; simpl; lia|]. cbn zeta.
    destruct (fs !! (cur ++ [c])) as [[m d|m|m t|m]|].
    1, 2, 4: by apply IHc; simpl; lia.
    + assert (match rest ++ [x] with [] => true | _ => false end = false) as ->
        by (by destruct rest).
      cbn [negb andb]. destruct l; [done|]. rewrite app_assoc. apply IHl. lia.
    + by destruct rest.
Qed.

(** Two file systems with the same directories and links resolve alike. *)
Definition shape (n : option node) : option node :=
  match n with
  | Some (NReg _ _) | Some (NOther _) => Some (NOther root_meta)
  | Some (NDir _) => Some (NDir root_meta)
  | Some (NLnk _ t) => Some (NLnk root_meta t)
  | None => None
  end.
Definition same_shape (fs fs' : fsmap) : Prop := forall k, shape (fs !! k) = shape (fs' !! k).

#[export] Instance same_shape_equiv : Equivalence same_shape.
Proof.
  split; [by intros ? ?|by intros ? ? H k|]. intros ? ? ? H1 H2 k. by rewrite H1.
Qed.

Lemma same_shape_insert fs k n n' :
  fs !! k = Some n -> shape (Some n) = shape (Some n') -> same_shape fs (<[k := n']> fs).
Proof.
  intros H E j. destruct (decide (k = j)) as [->|Hn].
  - by rewrite lookup_insert_eq, H.
  - by rewrite lookup_insert_ne.
Qed.

Lemma same_shape_dir fs fs' k : same_shape fs fs' -> is_dir_at fs k = is_dir_at fs' k.
Proof.
  intros H. unfold is_dir_at. destruct k as [|x k]; [done|].
  specialize (H (x :: k)).
  destruct (fs !! (x :: k)) as [[]|], (fs' !! (x :: k)) as [[]|]; simpl in *; congruence.
Qed.

Lemma namei_shape fs fs' follow l cur comps :
  same_shape fs fs' -> namei l fs follow cur comps = namei l fs' follow cur comps.
Proof.
  intros Hs.
  namei_induction l cur comps.
  destruct comps as [|c rest]; [by rewrite !namei_nil|].
  rewrite !namei_cons, (same_shape_dir fs fs') by done.
  destruct (is_dir_at fs' cur); cbn [negb]; [|done].
  destruct (streq c (c!"..")); [apply IHc; simpl; lia|]. cbn zeta.
  pose proof (Hs (cur ++ [c])) as Hk.
  destruct (fs !! (cur ++ [c])) as [[]|], (fs' !! (cur ++ [c])) as [[]|];
    simpl in Hk; try discriminate Hk; try (apply IHc; simpl; lia); [|done].
  injection Hk as ->. destruct (negb follow && _); [done|].
  destruct l; [done|]. apply IHl. lia.
Qed.

(** The path of a name that does not exist resolves to it once it is created. *)
Lemma namei_create l fs follow cur comps k n :
  namei l fs follow cur comps = Missing k -> is_lnk n = false ->
  namei l (<[k := n]> fs) follow cur comps = Found k.
Proof.
  intros H Hn. pose proof (namei_missing _ _ _ _ _ _ H) as (Hk & Hne & _).
  revert H. namei_induction l cur comps.
  intros H. destruct comps as [|c rest]; [by rewrite namei_nil in H|].
  rewrite namei_cons.
  assert (forall j, is_dir_at fs j = true -> is_dir_at (<[k := n]> fs) j = true) as Hdir.
  { intros [|x j]; [done|]. unfold is_dir_at. destruct (decide (k = x :: j)) as [->|].
    - by rewrite Hk.
    - by rewrite lookup_insert_ne. }
  namei_cases H; rewrite (Hdir cur) by done; rewrite Eu; cbn [negb].
  { apply IHc; [simpl; lia|done]. }
  cbn zeta in H |- *.
  destruct (decide (k = cur ++ [c])) as [->|Hkc].
  - rewrite lookup_insert_eq. rewrite Hk in H. destruct rest; [|done].
    destruct n; [..|done|]; rewrite ?namei_nil; done.
  - rewrite lookup_insert_ne by done.
    destruct (fs !! (cur ++ [c])) as [[m d|m|m t|m]|] eqn:E.
    1, 2, 4: by apply IHc; [simpl; lia|].
    + destruct (negb follow && _); [done|]. destruct l; [done|]. by apply IHl; [lia|].
    + by destruct rest; [injection H as <-|].
Qed.

(** A path all of whose ancestors are directories names its own location. *)
Definition dirs_below (fs : fsmap) (p names : ppath) : Prop :=
  forall a b c, names = a ++ c :: b -> is_dir_at fs (p ++ a) = true.

Lemma dirs_below_cons fs p c names :
  dirs_below fs p (c :: names) -> is_dir_at fs p = true /\ dirs_below fs (p ++ [c]) names.
Proof.
  intros H. split.
  - specialize (H [] names c eq_refl). by rewrite app_nil_r in H.
  - intros a b x ->. specialize (H (c :: a) b x eq_refl). by rewrite <- app_assoc.
Qed.

Lemma dirs_below_mono fs fs' p names :
  (forall k, is_dir_at fs k = true -> is_dir_at fs' k = true) ->
  dirs_below fs p names -> dirs_below fs' p names.
Proof. intros H Hd a b c E. eapply H, Hd, E. Qed.

Lemma is_dir_at_snoc fs p c :
  is_dir_at fs (p ++ [c]) = true -> exists m, fs !! (p ++ [c]) = Some (NDir m).
Proof.
  unfold is_dir_at. destruct (p ++ [c]) as [|x y] eqn:E; [by destruct p|].
  destruct (fs !! (x :: y)) as [[]|]; try done. eauto.
Qed.

Lemma namei_plain l fs follow p names :
  Forall path_name names -> dirs_below fs p names ->
  namei l fs follow p names =
    match fs !! (p ++ names) with
    | Some (NLnk _ target) =>
        match names with [] => Found p | _ =>
          if follow then
            match l with
            | O => LErr ELOOP
            | S l' => namei l' fs follow
                        (if absolute target then [] else p ++ removelast names)
                        (kcomps target ++ [])
            end
          else Found (p ++ names)
        end
    | Some _ => Found (p ++ names)
    | None => match names with [] => Found p | _ => Missing (p ++ names) end
    end.
Proof.
  intros Hn. revert p. induction Hn as [|c names Hc Hn IH]; intros p Hd.
  - rewrite namei_nil, app_nil_r. by destruct (fs !! p) as [[]|].
  - apply dirs_below_cons in Hd as [Hp Hd]. rewrite namei_cons, Hp. cbn [negb].
    destruct Hc as (_ & _ & _ & Hdd). apply streq_false in Hdd. rewrite Hdd. cbn zeta.
    destruct names as [|c' names].
    + destruct (fs !! (p ++ [c])) as [[]|]; rewrite ?namei_nil; try done.
      destruct follow; cbn [negb andb removelast]; [|done]. by rewrite (app_nil_r p).
    + pose proof (dirs_below_cons _ _ _ _ Hd) as [Hpc _].
      destruct (is_dir_at_snoc _ _ _ Hpc) as [m Hm]. rewrite Hm, (IH (p ++ [c])) by done.
      replace ((p ++ [c]) ++ c' :: names) with (p ++ c :: c' :: names)
        by (by rewrite <- app_assoc).
      replace ((p ++ [c]) ++ removelast (c' :: names))
        with (p ++ removelast (c :: c' :: names)) by (by rewrite <- app_assoc).
      done.
Qed.

(** ** Frames

    [fs_rel Q]: the pending events only get consumed and, if none of them rewrites
    a file, the file systems before and after are related by [Q]. *)

Definition no_edit (ev : os_event) : Prop :=
  match ev with EvEdit _ _ _ => False | _ => True end.
Definition unedited (s : os) : Prop := Forall no_edit (os_env s).

Definition fs_rel (Q : fsmap -> fsmap -> Prop) (s s' : os) : Prop :=
  os_env s' `suffix_of` os_env s /\ (unedited s -> Q (os_fs s) (os_fs s')).

Lemma unedited_suffix s s' : os_env s' `suffix_of` os_env s -> unedited s -> unedited s'.
Proof. intros [l E] H. unfold unedited in *. rewrite E in H. by apply Forall_app in H as [_ H]. Qed.

Lemma quiet_unedited s : quiet s -> unedited s.
Proof. unfold quiet, unedited. by intros ->. Qed.

Lemma quiet_suffix s s' : os_env s' `suffix_of` os_env s -> quiet s -> quiet s'.
Proof. unfold quiet. intros [k Hk] E. rewrite E in Hk. symmetry in Hk. by apply app_eq_nil in Hk as [_ ?]. Qed.

#[export] Instance fs_rel_preorder Q `{!PreOrder Q} : PreOrder (fs_rel Q).
Proof.
  split.
  - intros s. split; [done|]. reflexivity.
  - intros s1 s2 s3 [E1 H1] [E2 H2]. split; [by etransitivity|].
    intros Hu. etransitivity; [by apply H1|]. apply H2. by eapply unedited_suffix.
Qed.

Lemma fs_rel_same Q `{!PreOrder Q} s s' :
  os_fs s' = os_fs s -> os_env s' = os_env s -> fs_rel Q s s'.
Proof. intros Hf He. split; [by rewrite He|]. by rewrite Hf. Qed.

Section Frames.
Context (Q : fsmap -> fsmap -> Prop) `{!PreOrder Q}.

Lemma settle_loop_spec env s :
  os_env (snd (settle_loop env s)) `suffix_of` env /\
  (Forall no_edit env -> os_fs (snd (settle_loop env s)) = os_fs s).
Proof.
  revert s. induction env as [|ev env IH]; intros s; simpl; [done|].
  destruct ev; simpl.
  - split; [by apply suffix_cons_r|done].
  - split; [by apply suffix_cons_r|done].
  - destruct (IH (with_fs (edit_node (os_fs s) k data mtime) s)) as [H1 _].
    split; [by apply suffix_cons_r|]. intros H. by apply Forall_inv in H.
  - destruct (IH (with_mono (os_mono s + Z.abs ns) s)) as [H1 H2].
    split; [by apply suffix_cons_r|]. intros H. apply Forall_inv_tail in H.
    by rewrite H2.
  - split; [by apply suffix_cons_r|done].
Qed.

Lemma keeps_settle s : fs_rel Q s (snd (settle s)).
Proof.
  destruct (settle_loop_spec (os_env s) s) as [H1 H2]. split; [done|].
  intros Hu. unfold settle. by rewrite H2.
Qed.

(** The rule for a call: its effect keeps the relation. *)
Lemma keeps_syscall {A} (fail : A) body :
  (forall limit s a s', body limit s = inr (a, s') -> fs_rel Q s s') ->
  keeps (fs_rel Q) (syscall fail body).
Proof.
  intros H s0. unfold exec, syscall. pose proof (keeps_settle s0) as Hs.
  destruct (settle s0) as [ev s]. simpl in Hs.
  assert (forall e, fs_rel Q s0 (with_errno e s)) as He.
  { intros e. etransitivity; [exact Hs|]. by apply fs_rel_same. }
  destruct ev as [[]|]; simpl; try apply He;
    (destruct (body _ s) as [e|[a s']] eqn:E; simpl;
      [apply He | etransitivity; [exact Hs | by eapply H]]).
Qed.

Ltac reader :=
  apply keeps_syscall;
  let limit := fresh in let s := fresh in let a := fresh in let s' := fresh in
  let E := fresh in
  intros limit s a s' E; repeat (case_match; try discriminate E);
  injection E as <- <-; by apply fs_rel_same.

Lemma keeps_set_errno e : keeps (fs_rel Q) (set_errno e).
Proof. intros s. by apply fs_rel_same. Qed.
Lemma keeps_get_errno : keeps (fs_rel Q) get_errno.
Proof. intros s. by apply fs_rel_same. Qed.
Lemma keeps_lstat p : keeps (fs_rel Q) (sys_lstat p).
Proof. reader. Qed.
Lemma keeps_access p : keeps (fs_rel Q) (sys_access p).
Proof. reader. Qed.
Lemma keeps_realpath p : keeps (fs_rel Q) (sys_realpath p).
Proof. reader. Qed.
Lemma keeps_getcwd : keeps (fs_rel Q) sys_getcwd.
Proof. reader. Qed.
Lemma keeps_readdir `{DirOrder} p : keeps (fs_rel Q) (sys_readdir p).
Proof. reader. Qed.
Lemma keeps_open_read p : keeps (fs_rel Q) (sys_open_read p).
Proof. reader. Qed.
Lemma keeps_fstat k : keeps (fs_rel Q) (sys_fstat k).
Proof. reader. Qed.
Lemma keeps_read k off n : keeps (fs_rel Q) (sys_read k off n).
Proof. reader. Qed.
Lemma keeps_sync : keeps (fs_rel Q) sys_sync.
Proof. reader. Qed.
Lemma keeps_flock k : keeps (fs_rel Q) (sys_flock k).
Proof. reader. Qed.
Lemma keeps_unlock k : keeps (fs_rel Q) (sys_unlock k).
Proof. intros s. by apply fs_rel_same. Qed.
Lemma keeps_monotonic : keeps (fs_rel Q) sys_monotonic.
Proof. intros s. by apply fs_rel_same. Qed.
Lemma keeps_getpid : keeps (fs_rel Q) sys_getpid.
Proof. intros s. by apply fs_rel_same. Qed.
Lemma keeps_sleep ms : keeps (fs_rel Q) (sys_sleep_ms ms).
Proof. intros s. by apply fs_rel_same. Qed.

(** The calls that write: what they do to the file system has to be in [Q]. *)
Lemma fs_rel_write s s' :
  os_env s' = os_env s -> (unedited s -> Q (os_fs s) (os_fs s')) -> fs_rel Q s s'.
Proof. intros He Hq. split; [by rewrite He|done]. Qed.

Lemma keeps_mkdir p mode :
  (forall fs k m, fs !! k = None -> Q fs (<[k := NDir m]> fs)) ->
  keeps (fs_rel Q) (sys_mkdir p mode).
Proof.
  intros HQ. apply keeps_syscall. intros limit s a s' H.
  destruct (resolve s false p) eqn:E; try discriminate H. injection H as <- <-.
  apply fs_rel_write; [done|]. intros _. apply HQ. unfold resolve in E.
  destruct p; [done|]. by apply namei_missing in E as [E _].
Qed.

Lemma keeps_open_excl p mode :
  (forall s k m, resolve s false p = Missing k -> os_fs s !! k = None ->
     Q (os_fs s) (<[k := NReg m []]> (os_fs s))) ->
  keeps (fs_rel Q) (sys_open_excl p mode).
Proof.
  intros HQ. apply keeps_syscall. intros limit s a s' H.
  destruct (resolve s false p) eqn:E; try discriminate H. injection H as <- <-.
  apply fs_rel_write; [done|]. intros _. apply HQ; [done|]. unfold resolve in E.
  destruct p; [done|]. by apply namei_missing in E as [E _].
Qed.

Lemma keeps_unlink p :
  (forall s k, resolve s false p = Found k -> Q (os_fs s) (delete k (os_fs s))) ->
  keeps (fs_rel Q) (sys_unlink p).
Proof.
  intros HQ. apply keeps_syscall. intros limit s a s' H.
  destruct (resolve s false p) eqn:E; try discriminate H.
  apply fs_rel_write; [by repeat (case_match; try discriminate H); injection H as <- <-|].
  intros _. specialize (HQ s k E).
  by repeat (case_match; try discriminate H); injection H as <- <-.
Qed.

Lemma keeps_set_meta k f :
  (forall fs n, fs !! k = Some n -> Q fs (<[k := update_meta f n]> fs)) ->
  keeps (fs_rel Q) (sys_set_meta k f).
Proof.
  intros HQ. apply keeps_syscall. intros limit s a s' H.
  destruct (os_fs s !! k) eqn:E; [|discriminate H]. injection H as <- <-.
  apply fs_rel_write; [done|]. intros _. by apply HQ.
Qed.

Lemma keeps_write k off bytes :
  (forall fs m m' d d', fs !! k = Some (NReg m d) ->
     Q fs (<[k := NReg m' d']> fs)) ->
  keeps (fs_rel Q) (sys_write k off bytes).
Proof.
  intros HQ. apply keeps_syscall. intros limit s a s' H.
  destruct (os_fs s !! k) as [[]|] eqn:E; try discriminate H. injection H as <- <-.
  apply fs_rel_write; [done|]. intros _. by eapply HQ.
Qed.
End Frames.

#[export] Hint Resolve keeps_set_errno keeps_get_errno keeps_lstat keeps_access
  keeps_realpath keeps_getcwd keeps_readdir keeps_open_read keeps_fstat keeps_read
  keeps_sync keeps_flock keeps_unlock keeps_monotonic keeps_getpid keeps_sleep : keeps.

(** ** What a call can do when no file is rewritten under it *)

Lemma settle_loop_unedited env s :
  Forall no_edit env ->
  Forall no_edit (os_env (snd (settle_loop env s))) /\
  os_fs (snd (settle_loop env s)) = os_fs s /\
  os_cwd (snd (settle_loop env s)) = os_cwd s.
Proof.
  revert s. induction env as [|ev env IH]; intros s H; simpl; [done|].
  pose proof (Forall_inv H) as He. apply Forall_inv_tail in H.
  destruct ev; simpl; try done.
  destruct (IH (with_mono (os_mono s + Z.abs ns) s) H) as (H1 & H2 & H3).
  by rewrite H2, H3.
Qed.

Lemma syscall_cases {A} (fail : A) body s :
  unedited s ->
  exists s1, unedited s1 /\ os_fs s1 = os_fs s /\ os_cwd s1 = os_cwd s /\
    ((exists e, syscall fail body s = (fail, with_errno e s1)) \/
     (exists limit, syscall fail body s =
        match body limit s1 with inl e => (fail, with_errno e s1) | inr r => r end)).
Proof.
  intros Hu. destruct (settle_loop_unedited _ s Hu) as (H1 & H2 & H3).
  exists (snd (settle s)). unfold settle at 1 2 3. split; [exact H1|].
  split; [done|]. split; [done|]. unfold syscall.
  destruct (settle s) as [[[]|] s1]; simpl; eauto.
Qed.

Lemma syscall_inv {A} (fail : A) body s r s' :
  syscall fail body s = (r, s') -> unedited s ->
  exists s1, unedited s1 /\ os_fs s1 = os_fs s /\ os_cwd s1 = os_cwd s /\
    ((exists e, r = fail /\ s' = with_errno e s1) \/
     (exists limit, body limit s1 = inr (r, s'))).
Proof.
  intros H Hu. destruct (syscall_cases fail body s Hu) as (s1 & ? & ? & ? & Hc).
  exists s1. split; [done|]. split; [done|]. split; [done|].
  destruct Hc as [[e E]|[limit E]]; rewrite E in H; [left; injection H as <- <-; eauto|].
  destruct (body limit s1) as [e|[a s2]] eqn:Eb; injection H as <- <-; [left; eauto|].
  right. by exists limit.
Qed.

Lemma resolve_congr s s' follow p :
  os_fs s' = os_fs s -> os_cwd s' = os_cwd s -> resolve s' follow p = resolve s follow p.
Proof. intros Hf Hc. unfold resolve. by rewrite Hf, Hc. Qed.

(** The last component of a path with a suffix that has no separator. *)
Lemma split_on_snoc c a b :
  c ∉ b -> exists fs f, split_on c (a ++ b) = fs ++ [f ++ b] /\ c ∉ f.
Proof.
  intros Hb. induction a as [|x a IH]; simpl.
  - exists [], []. rewrite split_on_single by done. split; [done|apply not_elem_of_nil].
  - destruct IH as (fs & f & -> & Hf). destruct (ceq x c) eqn:E.
    + by exists ([] :: fs), f.
    + apply ceq_false in E. destruct fs as [|g fs]; simpl.
      * exists [], (x :: f). split; [done|]. by apply not_elem_of_cons.
      * by exists ((x :: g) :: fs), f.
Qed.

Lemma kcomps_suffix p b :
  SLASH ∉ b -> (2 < length b)%nat ->
  exists cs f, kcomps (p ++ b) = cs ++ [f ++ b] /\ f ++ b <> c!"..".
Proof.
  intros Hb Hl. destruct (split_on_snoc SLASH p b Hb) as (fs & f & E & _).
  assert (forall x : cstr, (length x <= 2)%nat -> f ++ b <> x) as Hne.
  { intros x Hx <-. rewrite length_app in Hx. lia. }
  exists (List.filter (fun c => nonempty c && negb (streq c (c!"."))) fs), f.
  split; [|apply Hne; vm_compute; lia].
  unfold kcomps. rewrite E, List.filter_app. f_equal. simpl.
  assert (streq (f ++ b) (c!".") = false) as ->
    by (apply streq_false, Hne; vm_compute; lia).
  destruct (f ++ b) eqn:Ef; [|done]. by destruct (Hne [] ltac:(simpl; lia)).
Qed.

Lemma resolve_last s p cs x :
  p <> [] -> kcomps p = cs ++ [x] -> x <> c!".." ->
  match resolve s false p with
  | Found k | Missing k => last k = Some x
  | LErr _ => True
  end.
Proof.
  intros Hp Hk Hx. unfold resolve. destruct p; [done|]. rewrite Hk. by apply namei_last.
Qed.

(** ** Value-dependent frames *)

Definition any_fs (fs fs' : fsmap) : Prop := True.
#[export] Instance any_fs_preorder : PreOrder any_fs.
Proof. by split. Qed.

Lemma keeps_any Q {A} (m : ST os A) : keeps (fs_rel Q) m -> keeps (fs_rel any_fs) m.
Proof. apply keeps_weaken. intros s s' [H _]. by split. Qed.

(** When what follows is only right for the value that the first part returns. *)
Lemma keeps_bind_value Q `{!PreOrder Q} {A B} (m : ST os A) (k : A -> ST os B) :
  keeps (fs_rel Q) m -> (forall a, keeps (fs_rel any_fs) (k a)) ->
  (forall s a s', unedited s -> unedited s' -> m s = (a, s') ->
     Q (os_fs s') (os_fs (exec (k a) s'))) ->
  keeps (fs_rel Q) (bind m k).
Proof.
  intros Hm Hk Hv s. specialize (Hm s). unfold exec, bind in *.
  destruct (m s) as [a s'] eqn:E. simpl in Hm. destruct Hm as [Hs Hq].
  specialize (Hk a s') as [Hs' _]. unfold exec in *.
  split; [by etransitivity|]. intros Hu. etransitivity; [by apply Hq|].
  apply (Hv s a s'); [done| |done]. by eapply unedited_suffix.
Qed.

Lemma keeps_rename_any old new : keeps (fs_rel any_fs) (sys_rename old new).
Proof.
  apply keeps_syscall; [typeclasses eauto|]. intros limit s a s' H. split; [|done].
  cbv beta zeta in H. repeat (case_match; try discriminate H); by injection H as <- <-.
Qed.
Lemma keeps_unlink_any p : keeps (fs_rel any_fs) (sys_unlink p).
Proof. by apply keeps_unlink; [typeclasses eauto|]. Qed.
Lemma keeps_write_any k off b : keeps (fs_rel any_fs) (sys_write k off b).
Proof. by apply keeps_write; [typeclasses eauto|]. Qed.
Lemma keeps_set_meta_any k f : keeps (fs_rel any_fs) (sys_set_meta k f).
Proof. by apply keeps_set_meta; [typeclasses eauto|]. Qed.
Lemma keeps_mkdir_any p m : keeps (fs_rel any_fs) (sys_mkdir p m).
Proof. by apply keeps_mkdir; [typeclasses eauto|]. Qed.
Lemma keeps_open_excl_any p m : keeps (fs_rel any_fs) (sys_open_excl p m).
Proof. by apply keeps_open_excl; [typeclasses eauto|]. Qed.

#[export] Hint Resolve keeps_rename_any keeps_unlink_any keeps_write_any
  keeps_set_meta_any keeps_mkdir_any keeps_open_excl_any any_fs_preorder : keeps.

Lemma open_excl_missing p mode s k s' :
  sys_open_excl p mode s = (Some k, s') -> exists t, resolve t false p = Missing k.
Proof.
  unfold sys_open_excl, syscall. destruct (settle s) as [ev t]. intros H.
  destruct (resolve t false p) eqn:E; destruct ev as [[]|]; simplify_eq; eauto.
Qed.
