(* ===== verification/FsFacts.v ===== *)
(** * Correctness of the file copy

    For any failures and short transfers, a copy never leaves a torn file at a
    visible name and never disturbs a file other than its destination; its loops
    always end; on a quiet host it produces the source's contents, mode and
    modification time. *)

From S2P Require Import Prelude CString Paths Os OsFacts Platform Fs.

(** ** Temporary names *)

Definition temp_name (f : cstr) : Prop := exists a b, f = a ++ temp_marker ++ b.
Definition temp_key (k : ppath) : Prop := exists f, last k = Some f /\ temp_name f.

(** Every complete file of [fs'] under a visible name has the contents of a
    visible file of [fs], and a visible file of [fs] is still there unless it has
    the destination's name [d], where there is then a regular file. *)
Definition no_tear (d : cstr) (fs fs' : fsmap) : Prop :=
  (forall k m c, fs' !! k = Some (NReg m c) -> ~ temp_key k ->
     exists k0 m0, fs !! k0 = Some (NReg m0 c) /\ ~ temp_key k0) /\
  (forall k n, fs !! k = Some n -> ~ temp_key k ->
     fs' !! k = Some n \/
     (last k = Some d /\ exists m c, fs' !! k = Some (NReg m c))).

#[export] Instance no_tear_preorder d : PreOrder (no_tear d).
Proof.
  split.
  - intros fs. split; eauto.
  - intros fs1 fs2 fs3 [A1 B1] [A2 B2]. split.
    + intros k m c H Ht. destruct (A2 _ _ _ H Ht) as (k0 & m0 & H0 & Ht0). eauto.
    + intros k n H Ht. destruct (B1 _ _ H Ht) as [H1|[Hd (m & c & H1)]].
      * destruct (B2 _ _ H1 Ht) as [|]; eauto.
      * destruct (B2 _ _ H1 Ht) as [|[]]; right; eauto.
Qed.

(** Inserting a node that is no visible file where there was none. *)
Lemma no_tear_insert d fs k n :
  fs !! k = None \/ temp_key k -> temp_key k \/ is_reg n = false ->
  no_tear d fs (<[k := n]> fs).
Proof.
  intros Hk Hn. split.
  - intros j m c H Ht. destruct (decide (k = j)) as [->|Hj].
    + rewrite lookup_insert_eq in H. injection H as ->. by destruct Hn.
    + rewrite lookup_insert_ne in H by done. eauto.
  - intros j nd H Ht. left. destruct (decide (k = j)) as [->|Hj].
    + destruct Hk as [Hk|Hk]; [congruence|done].
    + by rewrite lookup_insert_ne.
Qed.

Lemma no_tear_delete d fs k : temp_key k -> no_tear d fs (delete k fs).
Proof.
  intros Hk. split.
  - intros j m c H Ht. apply lookup_delete_Some in H as [_ H]. eauto.
  - intros j n H Ht. left. rewrite lookup_delete_ne; [done|]. by intros ->.
Qed.

Section Temporary.
Context (d : cstr) (temporary : cstr) (cs : list cstr) (x : cstr).
Context (Hcomps : kcomps temporary = cs ++ [x]) (Hx : x <> c!"..").
Context (Htemp : temp_name x).

Lemma temporary_key s k :
  resolve s false temporary = Found k \/ resolve s false temporary = Missing k ->
  temp_key k.
Proof.
  intros H. exists x. split; [|done].
  assert (temporary <> []) as Hne by (intros ->; by destruct cs).
  pose proof (resolve_last s temporary cs x Hne Hcomps Hx) as R.
  by destruct H as [E|E]; rewrite E in R.
Qed.

Lemma tear_mkdir p mode : keeps (fs_rel (no_tear d)) (sys_mkdir p mode).
Proof.
  apply keeps_mkdir; [typeclasses eauto|]. intros fs k m H.
  apply no_tear_insert; auto.
Qed.

Lemma tear_mkdir_each ps mode : keeps (fs_rel (no_tear d)) (mkdir_each ps mode).
Proof.
  induction ps as [|p ps IH]; cbn [mkdir_each]; [keeps_auto|].
  keeps_step; [apply tear_mkdir|]. keeps_auto.
Qed.

Lemma tear_prepare p : keeps (fs_rel (no_tear d)) (syseba_prepare_destination p).
Proof.
  unfold syseba_prepare_destination, syseba_mkdirs.
  keeps_auto; apply tear_mkdir_each.
Qed.

Lemma tear_unlink : keeps (fs_rel (no_tear d)) (sys_unlink temporary).
Proof.
  apply keeps_unlink; [typeclasses eauto|]. intros s k H.
  apply no_tear_delete. apply (temporary_key s). by left.
Qed.

Lemma tear_open_excl mode : keeps (fs_rel (no_tear d)) (sys_open_excl temporary mode).
Proof.
  apply keeps_open_excl; [typeclasses eauto|]. intros s k m H1 H2.
  pose proof (temporary_key s k (or_intror H1)). apply no_tear_insert; auto.
Qed.

Lemma tear_write k off bytes :
  temp_key k -> keeps (fs_rel (no_tear d)) (sys_write k off bytes).
Proof. intros Hk. apply keeps_write; [typeclasses eauto|]. intros. apply no_tear_insert; auto. Qed.

Lemma tear_set_meta k f :
  temp_key k -> keeps (fs_rel (no_tear d)) (sys_set_meta k f).
Proof. intros Hk. apply keeps_set_meta; [typeclasses eauto|]. intros. apply no_tear_insert; auto. Qed.

Lemma tear_write_chunk fuel k chunk copied :
  temp_key k -> keeps (fs_rel (no_tear d)) (write_chunk fuel k chunk copied).
Proof.
  intros Hk. revert chunk copied.
  induction fuel as [|fuel IH]; intros chunk copied; cbn [write_chunk]; [keeps_auto|].
  destruct chunk; [keeps_auto|]. keeps_step; [by apply tear_write|].
  keeps_auto; apply IH.
Qed.

Lemma tear_copy_loop fuel i k pos copied :
  temp_key k -> keeps (fs_rel (no_tear d)) (copy_loop fuel i k pos copied).
Proof.
  intros Hk. revert pos copied.
  induction fuel as [|fuel IH]; intros pos copied; cbn [copy_loop]; [keeps_auto|].
  keeps_step; [keeps_auto|]. destruct a as [[|b bs]|].
  - keeps_auto.
  - keeps_step; [by apply tear_write_chunk|]. destruct a; keeps_auto; apply IH.
  - keeps_auto; apply IH.
Qed.

Lemma tear_copy_contents i k st :
  temp_key k -> keeps (fs_rel (no_tear d)) (copy_contents i k st).
Proof.
  intros Hk. unfold copy_contents. keeps_step; [keeps_auto|].
  keeps_step; [by apply tear_copy_loop|]. destruct a0; [|keeps_auto..].
  keeps_step; [keeps_auto|]. destruct a0; [|keeps_auto].
  destruct (negb _); [keeps_auto|].
  keeps_step; [by apply tear_set_meta|]. keeps_step; [by apply tear_set_meta|].
  keeps_auto.
Qed.
End Temporary.

(** ** The transfer

    While a copy runs, the file system is the initial one with a growing prefix of
    the source in the output. *)
Definition copying (fs0 : fsmap) (cwd : cstr) (output : ppath) (w : cstr) (s : os) : Prop :=
  unedited s /\ os_cwd s = cwd /\ exists m, os_fs s = <[output := NReg m w]> fs0.

Lemma take_upto_prefix n l : take (length (take_upto n l)) l = take_upto n l.
Proof.
  unfold take_upto. destruct (zlen l <=? n); [by apply take_ge|].
  rewrite length_take. destruct (Nat.le_ge_cases (Z.to_nat n) (length l)).
  - by rewrite Nat.min_l.
  - rewrite Nat.min_r by done. by rewrite !take_ge by lia.
Qed.

Lemma take_upto_length n l : (length (take_upto n l) <= length l)%nat.
Proof. rewrite <- take_upto_prefix, length_take. lia. Qed.

Lemma take_upto_nil n l : 1 <= n -> take_upto n l = [] -> l = [].
Proof.
  unfold take_upto. intros Hn. destruct (zlen l <=? n); [done|].
  destruct l; [done|]. destruct (Z.to_nat n) eqn:E; [lia|done].
Qed.

Lemma splice_end w chunk : splice (zlen w) chunk w = w ++ chunk.
Proof.
  unfold splice, zlen. rewrite Nat2Z.id, take_ge by done.
  rewrite drop_ge by lia. by rewrite app_nil_r.
Qed.

(** What a call made during the copy starts from. *)
Lemma copying_settled fs0 cwd out w s s1 :
  copying fs0 cwd out w s -> unedited s1 -> os_fs s1 = os_fs s -> os_cwd s1 = os_cwd s ->
  copying fs0 cwd out w s1.
Proof. intros (Hu & Hc & m & Hf) H1 H2 H3. split; [done|]. rewrite H3, H2. eauto. Qed.

Lemma copying_errno fs0 cwd out w s e :
  copying fs0 cwd out w s -> copying fs0 cwd out w (with_errno e s).
Proof. done. Qed.

(** The two ways a call made during the copy can end. *)
Ltac copying_call H Hc :=
  apply syscall_inv in H; [|apply Hc];
  let s1 := fresh "s1" in let Hu := fresh "Hu" in let Hf := fresh "Hf" in
  let Hcwd := fresh "Hcwd" in let e := fresh "e" in let limit := fresh "limit" in
  destruct H as (s1 & Hu & Hf & Hcwd & H);
  pose proof (copying_settled _ _ _ _ _ _ Hc Hu Hf Hcwd) as Hc1;
  destruct H as [(e & -> & ->)|[limit H]].

Lemma sys_write_spec fs0 cwd out w bytes s r s' :
  copying fs0 cwd out w s -> sys_write out (zlen w) bytes s = (r, s') ->
  match r with
  | None => copying fs0 cwd out w s'
  | Some n => copying fs0 cwd out (w ++ take (Z.to_nat n) bytes) s' /\ 0 <= n <= zlen bytes
  end.
Proof.
  intros Hc H. copying_call H Hc.
  - done.
  - destruct Hc1 as (Hu1 & Hcwd1 & m & Hf1). rewrite Hf1, lookup_insert_eq in H.
    injection H as <- <-.
    set (chunk := match limit with Some l => take_upto (Z.max 0 l) bytes | None => bytes end).
    assert (take (length chunk) bytes = chunk) as Hp.
    { unfold chunk. destruct limit; [apply take_upto_prefix|by apply take_ge]. }
    assert (zlen chunk <= zlen bytes) as Hl.
    { rewrite <- Hp. unfold zlen. rewrite length_take. lia. }
    split; [|pose proof (zlen_nonneg chunk); lia].
    split; [exact Hu1|]. split; [exact Hcwd1|]. eexists.
    rewrite splice_end. unfold zlen at 1. rewrite Nat2Z.id, Hp.
    cbn [os_fs with_fs]. rewrite insert_insert_eq. reflexivity.
Qed.

Lemma sys_read_spec fs0 cwd out w inp m d pos n s r s' :
  copying fs0 cwd out w s -> inp <> out -> fs0 !! inp = Some (NReg m d) -> 1 <= n ->
  sys_read inp pos n s = (r, s') ->
  copying fs0 cwd out w s' /\
  match r with
  | None => True
  | Some bytes =>
      let rest := drop (Z.to_nat pos) d in
      take (length bytes) rest = bytes /\ (bytes = [] -> rest = [])
  end.
Proof.
  intros Hc Hne Hi Hn H. copying_call H Hc.
  - done.
  - destruct Hc1 as (Hu1 & Hcwd1 & m1 & Hf1).
    rewrite Hf1, lookup_insert_ne, Hi in H by done. injection H as <- <-.
    split; [split; [done|]; eauto|]. cbn zeta. split; [apply take_upto_prefix|].
    apply take_upto_nil. destruct limit; lia.
Qed.

Lemma write_chunk_spec fs0 cwd out fuel chunk w s c s' :
  copying fs0 cwd out w s -> write_chunk fuel out chunk (zlen w) s = (Copied c, s') ->
  copying fs0 cwd out (w ++ chunk) s' /\ c = zlen (w ++ chunk).
Proof.
  revert chunk w s. induction fuel as [|fuel IH]; intros chunk w s Hc H; [done|].
  cbn [write_chunk] in H. destruct chunk as [|b bs].
  { injection H as <- <-. by rewrite app_nil_r. }
  unfold bind in H. destruct (sys_write out (zlen w) (b :: bs) s) as [r s1] eqn:E.
  apply (sys_write_spec _ _ _ _ _ _ _ _ Hc) in E. destruct r as [n|].
  - destruct E as [E Hn]. destruct (n <=? 0) eqn:En; [done|]. bool_hyps.
    assert (zlen w + n = zlen (w ++ take (Z.to_nat n) (b :: bs))) as Hz.
    { rewrite zlen_app. unfold zlen in *. rewrite length_take. lia. }
    rewrite Hz in H. apply (IH _ _ _) in H; [|exact E].
    by rewrite <- !app_assoc, take_drop in H.
  - simpl in H. destruct (bool_decide _); [|done]. by apply IH in H.
Qed.

Lemma copy_loop_spec fs0 cwd out inp m d fuel pos s c s' :
  inp <> out -> fs0 !! inp = Some (NReg m d) -> (pos <= length d)%nat ->
  copying fs0 cwd out (take pos d) s ->
  copy_loop fuel inp out (Z.of_nat pos) (Z.of_nat pos) s = (Copied c, s') ->
  copying fs0 cwd out d s' /\ c = zlen d.
Proof.
  intros Hne Hi. revert pos s. induction fuel as [|fuel IH]; intros pos s Hp Hc H; [done|].
  cbn [copy_loop] in H. unfold bind in H.
  destruct (sys_read inp (Z.of_nat pos) COPY_BUFFER s) as [r s1] eqn:E.
  assert (1 <= COPY_BUFFER) as Hb by (by vm_compute).
  apply (sys_read_spec _ _ _ _ _ _ _ _ _ _ _ _ Hc Hne Hi Hb) in E.
  destruct E as [Hc1 Hr]. rewrite Nat2Z.id in Hr. cbn zeta in Hr.
  assert (zlen (take pos d) = Z.of_nat pos) as Hz
    by (unfold zlen; rewrite length_take; lia).
  destruct r as [[|b bs]|].
  - injection H as <- <-. destruct Hr as [_ Hr]. specialize (Hr eq_refl).
    assert (take pos d = d) as Ht.
    { rewrite <- (take_drop pos d) at 2. by rewrite Hr, app_nil_r. }
    rewrite Ht in *. done.
  - destruct (write_chunk fuel out (b :: bs) (Z.of_nat pos) s1) as [w s2] eqn:Ew.
    destruct w as [c2| |]; [|done..].
    rewrite <- Hz in Ew. apply (write_chunk_spec fs0 cwd) in Ew; [|done].
    destruct Ew as [Hc2 ->]. destruct Hr as [Hr _].
    assert (take pos d ++ b :: bs = take (pos + length (b :: bs)) d) as Ht.
    { rewrite <- Hr at 1. by rewrite take_take_drop. }
    assert (length (b :: bs) <= length d - pos)%nat as Hl.
    { rewrite <- Hr at 1. rewrite length_take, length_drop. lia. }
    rewrite Ht in Hc2, H.
    replace (zlen (take (pos + length (b :: bs)) d))
      with (Z.of_nat (pos + length (b :: bs))) in H
      by (unfold zlen; rewrite length_take; lia).
    replace (Z.of_nat pos + zlen (b :: bs))
      with (Z.of_nat (pos + length (b :: bs))) in H by (unfold zlen; lia).
    apply IH in H; [done|lia|done].
  - simpl in H. destruct (bool_decide _); [|done]. by apply IH in H.
Qed.

Lemma sys_set_meta_spec fs0 cwd out w f s r s' :
  copying fs0 cwd out w s -> sys_set_meta out f s = (r, s') -> copying fs0 cwd out w s'.
Proof.
  intros Hc H. copying_call H Hc.
  - done.
  - destruct Hc1 as (Hu1 & Hcwd1 & m & Hf1). rewrite Hf1, lookup_insert_eq in H.
    injection H as <- <-. split; [done|]. split; [done|]. eexists.
    cbn [os_fs with_fs]. rewrite insert_insert_eq. reflexivity.
Qed.

(** A call that changes nothing. *)
Lemma sys_reader_spec {A} fs0 cwd out w (fail : A) body s r s' :
  (forall limit s1 a s2, body limit s1 = inr (a, s2) ->
     os_fs s2 = os_fs s1 /\ os_cwd s2 = os_cwd s1 /\ os_env s2 = os_env s1) ->
  copying fs0 cwd out w s -> syscall fail body s = (r, s') -> copying fs0 cwd out w s'.
Proof.
  intros Hb Hc H. copying_call H Hc.
  - done.
  - destruct (Hb _ _ _ _ H) as (E1 & E2 & E3).
    eapply copying_settled; [exact Hc1| |done|done].
    unfold unedited. rewrite E3. apply Hu.
Qed.

Lemma copy_contents_spec fs0 cwd out inp m d s s' :
  inp <> out -> fs0 !! inp = Some (NReg m d) -> copying fs0 cwd out [] s ->
  copy_contents inp out (NReg m d) s = (true, s') -> copying fs0 cwd out d s'.
Proof.
  intros Hne Hi Hc H. unfold copy_contents, bind at 1, gets in H.
  generalize dependent (copy_fuel inp s). intros fuel H. unfold bind at 1 in H.
  destruct (copy_loop fuel inp out 0 0 s) as [mv s1] eqn:E.
  destruct mv as [c| |]; [|done..].
  apply (copy_loop_spec fs0 cwd out inp m d fuel 0) in E; [|done|done|lia|done].
  destruct E as [Hc1 _]. unfold bind at 1 in H.
  destruct (sys_fstat inp s1) as [fin s2] eqn:E2.
  assert (copying fs0 cwd out d s2) as Hc2.
  { eapply sys_reader_spec; [|exact Hc1|exact E2].
    intros limit t a t' Hb. cbv beta in Hb.
    destruct (node_at (os_fs t) inp); [|done]. by injection Hb as <- <-. }
  destruct fin as [fin|]; [|done]. destruct (negb _); [done|].
  unfold bind at 1 in H. destruct (sys_futimens _ _ _ s2) as [r3 s3] eqn:E3.
  apply (sys_set_meta_spec _ _ _ _ _ _ _ _ Hc2) in E3 as Hc3.
  unfold bind in H. destruct (sys_fchmod _ _ s3) as [r4 s4] eqn:E4.
  apply (sys_set_meta_spec _ _ _ _ _ _ _ _ Hc3) in E4 as Hc4.
  destruct r4; [|done]. simpl in H.
  eapply sys_reader_spec; [|exact Hc4|exact H].
  intros limit t a t' Hb. by injection Hb as <- <-.
Qed.

(** ** Making directories *)

(** What exists stays, and what is new is a directory. *)
Definition grows (fs fs' : fsmap) : Prop :=
  (forall k n, fs !! k = Some n -> fs' !! k = Some n) /\
  (forall k n, fs' !! k = Some n -> fs !! k = Some n \/ exists m, n = NDir m).

#[export] Instance grows_preorder : PreOrder grows.
Proof.
  split; [split; eauto|]. intros fs1 fs2 fs3 [A1 B1] [A2 B2]. split; [auto|].
  intros k n H. destruct (B2 _ _ H) as [H2|]; [|eauto]. by apply B1.
Qed.

Lemma grows_mkdir fs k m : fs !! k = None -> grows fs (<[k := NDir m]> fs).
Proof.
  intros Hk. split; intros j n H; destruct (decide (k = j)) as [->|Hj].
  - congruence.
  - by rewrite lookup_insert_ne.
  - rewrite lookup_insert_eq in H. injection H as <-. eauto.
  - rewrite lookup_insert_ne in H by done. eauto.
Qed.

Lemma mkdirs_grows p mode : keeps (fs_rel grows) (syseba_mkdirs p mode).
Proof.
  unfold syseba_mkdirs. destruct (negb (nonempty p)); [keeps_auto|].
  destruct (negb (fits _ p)); [keeps_auto|].
  induction (mkdirs_targets p) as [|q qs IH]; cbn [mkdir_each]; [keeps_auto|].
  keeps_step; [|keeps_auto]. apply keeps_mkdir; [typeclasses eauto|]. apply grows_mkdir.
Qed.

Lemma prepare_keeps_grows p : keeps (fs_rel grows) (syseba_prepare_destination p).
Proof.
  unfold syseba_prepare_destination. destruct (syseba_parent_dir _ _); [|keeps_auto].
  apply mkdirs_grows.
Qed.

Lemma prepare_grows p s r s' :
  syseba_prepare_destination p s = (r, s') ->
  os_env s' `suffix_of` os_env s /\ (unedited s -> grows (os_fs s) (os_fs s')).
Proof.
  intros H. pose proof (prepare_keeps_grows p s) as K. unfold exec in K. by rewrite H in K.
Qed.

(** ** One attempt *)

Section Attempt.
Context (source temporary : cstr).
Context (ss ts : list cstr) (xs xt : cstr).
Context (Hsource : kcomps source = ss ++ [xs]) (Hxs : xs <> c!"..") (Hns : ~ temp_name xs).
Context (Htemp : kcomps temporary = ts ++ [xt]) (Hxt : xt <> c!"..") (Hnt : temp_name xt).

(** What a successful attempt leaves under the temporary name. *)
Definition complete_copy (s : os) : Prop :=
  unedited s /\ exists ki mi kt mt c,
    os_fs s !! ki = Some (NReg mi c) /\ ~ temp_key ki /\
    resolve s false temporary = Found kt /\ os_fs s !! kt = Some (NReg mt c).

Lemma source_key s k : resolve s false source = Found k -> ~ temp_key k.
Proof.
  intros E (f & Hf & Ht). assert (source <> []) as Hne by (intros ->; by destruct ss).
  pose proof (resolve_last s source ss xs Hne Hsource Hxs) as R. rewrite E in R.
  rewrite R in Hf. by injection Hf as <-.
Qed.

Lemma copying_complete s3 kt ki mi c s :
  unedited s3 -> resolve s3 false temporary = Missing kt ->
  os_fs s3 !! ki = Some (NReg mi c) -> ~ temp_key ki ->
  copying (os_fs s3) (os_cwd s3) kt c s -> complete_copy s.
Proof.
  intros Hu Hr Hk Hnk (Hus & Hcwd & m & Hf). split; [done|].
  pose proof (temporary_key temporary ts xt Htemp Hxt Hnt s3 kt (or_intror Hr)) as Htk.
  exists ki, mi, kt, m, c. rewrite Hf, lookup_insert_ne by (by intros ->).
  rewrite lookup_insert_eq. split_and!; [done..| |done].
  unfold resolve in *. destruct temporary; [done|]. rewrite Hcwd, Hf.
  by apply namei_create.
Qed.

Lemma once_body_complete s s' :
  unedited s -> syseba_copy_file_once_posix source temporary s = (true, s') ->
  complete_copy s'.
Proof.
  intros Hu H. unfold syseba_copy_file_once_posix, bind at 1 in H.
  match type of H with (let '(a, s') := ?m ?s in _) = _ =>
    destruct (m s) as [result sb] eqn:E end.
  destruct result; [|by repeat (unfold bind in H; simpl in H; case_match)].
  injection H as ->. unfold bind at 1 in E.
  destruct (sys_open_read source s) as [input s1] eqn:E1.
  destruct input as [ki|]; [|done].
  assert (~ temp_key ki /\ unedited s1) as [Hki Hu1].
  { apply syscall_inv in E1; [|done].
    destruct E1 as (t & Ht & Hf & Hc & [(e & ? & ?)|[l E1]]); [done|].
    destruct (resolve t false source) eqn:Er; try done.
    assert (ki = k /\ s1 = t) as [-> ->].
    { by destruct (node_at (os_fs t) k) as [[]|]; simplify_eq. }
    split; [by eapply source_key|done]. }
  unfold bind at 1 in E. destruct (sys_fstat ki s1) as [st s2] eqn:E2.
  destruct st as [[mi c|m|m t|m]|]; try done.
  assert (os_fs s2 !! ki = Some (NReg mi c) /\ unedited s2) as [Hf2 Hu2].
  { apply syscall_inv in E2; [|done].
    destruct E2 as (t & Ht & Hf & Hc & [(e & ? & ?)|[l E2]]); [done|].
    destruct ki as [|x y]; simpl in E2.
    - by destruct (os_fs t !! []) as [[]|] eqn:Er; simpl in E2; simplify_eq.
    - by destruct (os_fs t !! (x :: y)) eqn:Er; simplify_eq. }
  unfold bind at 1 in E. destruct (syseba_prepare_destination temporary s2) as [pr s3] eqn:E3.
  destruct pr; [|done]. simpl in E.
  destruct (prepare_grows _ _ _ _ E3) as [Hs3 Hg3]. specialize (Hg3 Hu2).
  pose proof (unedited_suffix _ _ Hs3 Hu2) as Hu3. apply Hg3 in Hf2.
  unfold bind at 1 in E.
  destruct (sys_open_excl temporary _ s3) as [out s4] eqn:E4. destruct out as [kt|]; [|done].
  apply syscall_inv in E4; [|done].
  destruct E4 as (t & Ht & Hf & Hc & [(e & ? & ?)|[l E4]]); [done|].
  destruct (resolve t false temporary) eqn:Er; try done. injection E4 as -> <-.
  eapply (copying_complete t kt ki mi c); [done|done|by rewrite Hf|done|].
  eapply copy_contents_spec; [| | |exact E].
  - intros ->. apply Hki. by eapply (temporary_key temporary ts xt Htemp Hxt Hnt t); right.
  - by rewrite Hf.
  - split; [exact Ht|]. split; [done|]. eexists. reflexivity.
Qed.
End Attempt.

(** ** The whole copy *)

Lemma write_chunk_any fuel k chunk copied : keeps (fs_rel any_fs) (write_chunk fuel k chunk copied).
Proof.
  revert chunk copied. induction fuel as [|fuel IH]; intros chunk copied;
    cbn [write_chunk]; keeps_auto; apply IH.
Qed.
Lemma copy_loop_any fuel i o pos copied : keeps (fs_rel any_fs) (copy_loop fuel i o pos copied).
Proof.
  revert pos copied. induction fuel as [|fuel IH]; intros pos copied;
    cbn [copy_loop]; [keeps_auto|].
  keeps_auto; try apply IH; apply write_chunk_any.
Qed.
#[export] Hint Resolve write_chunk_any copy_loop_any : keeps.
Lemma copy_contents_any i o st : keeps (fs_rel any_fs) (copy_contents i o st).
Proof. unfold copy_contents, sys_futimens, sys_fchmod. keeps_auto. Qed.
Lemma prepare_any p : keeps (fs_rel any_fs) (syseba_prepare_destination p).
Proof. eapply keeps_any, prepare_keeps_grows. Qed.
#[export] Hint Resolve copy_contents_any prepare_any : keeps.
Lemma copy_once_any s t : keeps (fs_rel any_fs) (syseba_copy_file_once_posix s t).
Proof. unfold syseba_copy_file_once_posix. keeps_auto. Qed.
Lemma open_dir_keeps Q `{!PreOrder Q} p : keeps (fs_rel Q) (sys_open_dir p).
Proof.
  apply keeps_syscall; [typeclasses eauto|]. intros limit s a s' H.
  repeat (case_match; try discriminate H). injection H as <- <-. reflexivity.
Qed.
#[export] Hint Resolve copy_once_any open_dir_keeps : keeps.
Lemma sync_parent_keeps Q `{!PreOrder Q} p :
  keeps (fs_rel Q) (syseba_sync_parent_directory p).
Proof. unfold syseba_sync_parent_directory. keeps_auto. Qed.
#[export] Hint Resolve sync_parent_keeps : keeps.
Lemma atomic_replace_any t p : keeps (fs_rel any_fs) (syseba_atomic_replace t p).
Proof. unfold syseba_atomic_replace. keeps_auto. Qed.
#[export] Hint Resolve atomic_replace_any : keeps.
Lemma exists_keeps Q `{!PreOrder Q} p : keeps (fs_rel Q) (syseba_fs_exists p).
Proof. unfold syseba_fs_exists. keeps_auto. Qed.
Lemma is_directory_keeps Q `{!PreOrder Q} p : keeps (fs_rel Q) (syseba_fs_is_directory p).
Proof. unfold syseba_fs_is_directory. keeps_auto. Qed.
Lemma is_regular_keeps Q `{!PreOrder Q} p : keeps (fs_rel Q) (syseba_fs_is_regular p).
Proof. unfold syseba_fs_is_regular. keeps_auto. Qed.
Lemma fs_stat_keeps Q `{!PreOrder Q} p : keeps (fs_rel Q) (syseba_fs_stat p).
Proof. unfold syseba_fs_stat. keeps_auto. Qed.
#[export] Hint Resolve exists_keeps is_directory_keeps is_regular_keeps fs_stat_keeps : keeps.

Section NoTear.
Context (source destination d : cstr) (ss ds : list cstr) (xs : cstr).
Context (Hsource : kcomps source = ss ++ [xs]) (Hxs : xs <> c!"..") (Hns : ~ temp_name xs).
Context (Hdest : kcomps destination = ds ++ [d]) (Hd : d <> c!"..").

Lemma tear_once temporary ts xt :
  kcomps temporary = ts ++ [xt] -> xt <> c!".." -> temp_name xt ->
  keeps (fs_rel (no_tear d)) (syseba_copy_file_once_posix source temporary).
Proof.
  intros Ht Hxt Hnt. unfold syseba_copy_file_once_posix.
  pose proof (tear_unlink d temporary ts xt Ht Hxt Hnt).
  apply keeps_bind; [typeclasses eauto| |intros []; keeps_auto].
  apply keeps_bind; [typeclasses eauto|auto with keeps typeclass_instances|].
  intros [ki|]; [|keeps_auto].
  apply keeps_bind; [typeclasses eauto|auto with keeps typeclass_instances|].
  intros [[m data|m|m t|m]|]; [|keeps_auto..].
  apply keeps_bind; [typeclasses eauto|apply tear_prepare|].
  intros []; cbn [negb]; [|keeps_auto].
  apply keeps_bind_value; [typeclasses eauto| | |].
    + by apply (tear_open_excl d temporary ts xt).
    + intros []; auto with keeps typeclass_instances.
    + intros s [kt|] s' _ Hu E; [|reflexivity].
      apply open_excl_missing in E as [t E].
      apply (tear_copy_contents d ki kt (NReg m data)); [|done].
      eapply (temporary_key temporary ts xt); eauto.
Qed.

Lemma tear_replace temporary ts xt s :
  kcomps temporary = ts ++ [xt] -> xt <> c!".." -> temp_name xt ->
  complete_copy temporary s ->
  no_tear d (os_fs s) (os_fs (exec (syseba_atomic_replace temporary destination) s)).
Proof.
  intros Ht Hxt Hnt (Hu & ki & mi & kt & mt & c & Hki & Hnk & Hr & Hkt).
  unfold syseba_atomic_replace, exec, bind.
  destruct (sys_rename temporary destination s) as [r s1] eqn:E.
  assert (no_tear d (os_fs s) (os_fs s1) /\ unedited s1) as [Hq Hu1].
  { apply syscall_inv in E; [|done].
    destruct E as (t & Hut & Hf & Hc & [(e & ? & ->)|[l E]]).
    { split; [|done]. simpl. by rewrite Hf. }
    cbv beta zeta in E. rewrite (resolve_congr s t false temporary), Hr in E by done.
    pose proof (temporary_key temporary ts xt Ht Hxt Hnt s kt (or_introl Hr)) as Htk.
    assert (destination <> []) as Hde by (intros ->; by destruct ds).
    pose proof (resolve_last t destination ds d Hde Hdest Hd) as Hl.
    assert (forall kn, last kn = Some d -> no_tear d (os_fs s)
              (<[kn := NReg mt c]> (delete kt (os_fs s)))) as Hmove.
    { intros kn Hkn. split.
      - intros k m c' H Hn. destruct (decide (kn = k)) as [->|Hne].
        + rewrite lookup_insert_eq in H. injection H as <- <-. eauto.
        + rewrite lookup_insert_ne in H by done.
          apply lookup_delete_Some in H as [_ H]. eauto.
      - intros k n H Hn. destruct (decide (kn = k)) as [->|Hne].
        + right. rewrite lookup_insert_eq. eauto.
        + left. rewrite lookup_insert_ne, lookup_delete_ne; [done| |done].
          by intros ->. }
    rewrite Hf, Hkt in E.
    destruct (resolve t false destination) as [kn|kn|e]; [| |done];
      repeat (case_match; try discriminate E); injection E as <- <-;
      cbn [os_fs with_fs]; rewrite ?Hf; (split; [|done]); try reflexivity;
      by apply Hmove. }
  destruct r; simpl; [|exact Hq]. etransitivity; [exact Hq|].
  by apply (sync_parent_keeps (no_tear d) destination s1).
Qed.

Lemma temporary_name_comps pid mono attempt :
  0 <= attempt ->
  exists ts xt, kcomps (temporary_name destination pid mono attempt) = ts ++ [xt] /\
    xt <> c!".." /\ temp_name xt.
Proof.
  intros Ha. unfold temporary_name.
  set (b := temp_marker ++ dec (wrap64 pid) ++ c!"." ++ dec (wrap64 mono) ++ c!"."
            ++ dec attempt).
  pose proof (wrap64_range pid). pose proof (wrap64_range mono).
  assert (forall n, 0 <= n -> SLASH ∉ dec n) as Hdec.
  { intros n Hn Hin. pose proof (dec_digits n Hn) as Hd'.
    rewrite Forall_forall in Hd'. by specialize (Hd' _ Hin). }
  assert (SLASH ∉ b) as Hb.
  { unfold b. rewrite !not_elem_of_app. split_and!; try (apply Hdec; lia);
      apply strchr_None; by vm_compute. }
  destruct (kcomps_suffix destination b Hb) as (cs & f & E & Hne).
  { unfold b. rewrite length_app. change (length temp_marker) with 12%nat. lia. }
  exists cs, (f ++ b). split; [done|]. split; [done|]. eexists f, _. reflexivity.
Qed.

Lemma tear_attempt temporary ts xt :
  kcomps temporary = ts ++ [xt] -> xt <> c!".." -> temp_name xt ->
  keeps (fs_rel (no_tear d))
    (let* once := syseba_copy_file_once_posix source temporary in
     if once then syseba_atomic_replace temporary destination else ret false).
Proof.
  intros Ht Hxt Hnt. apply keeps_bind_value; [typeclasses eauto|by eapply tear_once| |].
  - intros []; auto with keeps typeclass_instances.
  - intros s [] s' Hu Hu' E; [|reflexivity]. eapply tear_replace; [done..|].
    by apply (once_body_complete source temporary ss ts xs xt) with s.
Qed.

Lemma tear_attempts left attempt attempts :
  0 <= attempt ->
  keeps (fs_rel (no_tear d)) (copy_attempts left source destination attempt attempts).
Proof.
  revert attempt. induction left as [|left IH]; intros attempt Ha; cbn [copy_attempts].
  { keeps_auto. }
  keeps_step; [keeps_auto|]. keeps_step; [keeps_auto|]. cbn zeta.
  destruct (temporary_name_comps a a0 attempt Ha) as (ts & xt & Ht & Hxt & Hnt).
  destruct (negb _); [keeps_auto|]. keeps_step; [keeps_auto|].
  destruct (negb _); [keeps_auto|].
  keeps_step; [by eapply tear_attempt|]. destruct a2; [keeps_auto|].
  keeps_step; [keeps_auto|]. keeps_step; [by eapply tear_unlink|].
  keeps_step; [keeps_auto|]. keeps_step; [keeps_auto|]. apply IH. lia.
Qed.

Lemma tear_copy_file attempts :
  keeps (fs_rel (no_tear d)) (syseba_copy_file source destination attempts).
Proof.
  unfold syseba_copy_file. keeps_step; [apply tear_prepare|].
  destruct (negb _); [keeps_auto|]. by apply tear_attempts.
Qed.
End NoTear.

(** ** The transfer ends

    Whatever happens around it: every turn of the loops uses up pending events, or
    bytes that the source still has. *)

Section Fuel.
Context (inp out : ppath) (Hne : inp <> out).

Definition env_left (s : os) : nat := list_sum (map edit_bytes (os_env s)).
Definition bytes_left (pos : nat) (s : os) : nat :=
  match os_fs s !! inp with Some (NReg _ data) => length data - pos | _ => 0 end%nat.

Lemma bytes_left_le pos s s' :
  os_fs s' !! inp = os_fs s !! inp -> bytes_left pos s' = bytes_left pos s.
Proof. unfold bytes_left. by intros ->. Qed.

Lemma edit_left pos fs k data mtime s :
  (bytes_left pos (with_fs (edit_node fs k data mtime) s)
   <= bytes_left pos (with_fs fs s) + length data)%nat.
Proof.
  unfold bytes_left, edit_node. cbn [os_fs with_fs].
  destruct (fs !! k) as [[m d|m|m t|m]|] eqn:E; try lia.
  destruct (decide (k = inp)) as [->|Hk].
  - rewrite lookup_insert_eq. lia.
  - rewrite lookup_insert_ne by done. lia.
Qed.

Lemma env_settle env s :
  let '(ev, s') := settle_loop env s in
  (env_left s' + match ev with Some _ => 1 | None => 0 end
   <= list_sum (map edit_bytes env))%nat.
Proof.
  revert s. induction env as [|ev env IH]; intros s.
  { unfold env_left. simpl. lia. }
  destruct ev as [e|n|k data mtime|ns|]; cbn [settle_loop].
  1, 2, 5: unfold env_left; simpl; lia.
  1: specialize (IH (with_fs (edit_node (os_fs s) k data mtime) s)).
  2: specialize (IH (with_mono (os_mono s + Z.abs ns) s)).
  all: destruct (settle_loop env _) as [ev s']; simpl in *; lia.
Qed.

Lemma settle_left pos env s :
  let '(ev, s') := settle_loop env s in
  (env_left s' + bytes_left pos s' + match ev with Some _ => 1 | None => 0 end
   <= list_sum (map edit_bytes env) + bytes_left pos s)%nat.
Proof.
  revert s. induction env as [|ev env IH]; intros s.
  { unfold env_left, bytes_left. simpl. lia. }
  destruct ev as [e|n|k data mtime|ns|]; cbn [settle_loop].
  1, 2, 5: unfold env_left, bytes_left; simpl; lia.
  - specialize (IH (with_fs (edit_node (os_fs s) k data mtime) s)).
    destruct (settle_loop env _) as [ev s']. pose proof (edit_left pos (os_fs s) k data mtime s).
    replace (with_fs (os_fs s) s) with s in * by (by destruct s). simpl in *. lia.
  - specialize (IH (with_mono (os_mono s + Z.abs ns) s)).
    destruct (settle_loop env _) as [ev s'].
    rewrite (bytes_left_le pos s (with_mono (os_mono s + Z.abs ns) s)) in IH by done.
    simpl in *. lia.
Qed.

Lemma sys_read_left pos s r s' :
  sys_read inp (Z.of_nat pos) COPY_BUFFER s = (r, s') ->
  match r with
  | Some bytes =>
      (env_left s' + bytes_left pos s' <= env_left s + bytes_left pos s /\
       length bytes <= bytes_left pos s')%nat
  | None =>
      os_errno s' = EINTR ->
      (env_left s' + bytes_left pos s' < env_left s + bytes_left pos s)%nat
  end.
Proof.
  unfold sys_read, syscall, settle. pose proof (settle_left pos (os_env s) s) as Hl.
  fold (env_left s) in Hl. destruct (settle_loop (os_env s) s) as [ev s1]. rewrite Nat2Z.id.
  assert (forall e, env_left (with_errno e s1) = env_left s1) as He by done.
  assert (forall e, bytes_left pos (with_errno e s1) = bytes_left pos s1) as Hb by done.
  assert (forall m d n, os_fs s1 !! inp = Some (NReg m d) ->
    length (take_upto n (drop pos d)) <= bytes_left pos s1)%nat as Ht.
  { intros m d n Hd. unfold bytes_left. rewrite Hd.
    etransitivity; [apply take_upto_length|]. by rewrite length_drop. }
  destruct ev as [[e|n|k d t|ns|]|]; intros H.
  1: injection H as <- <-; intros _; rewrite He, Hb; lia.
  all: destruct (os_fs s1 !! inp) as [[m d'|m|m t'|m]|] eqn:Ef; injection H as <- <-;
    try done; (split; [lia|by eapply Ht]).
Qed.

Lemma sys_write_left pos off bytes s r s' :
  sys_write out off bytes s = (r, s') ->
  (env_left s' + bytes_left pos s' <= env_left s + bytes_left pos s)%nat /\
  (r = None -> os_errno s' = EINTR -> (env_left s' < env_left s)%nat) /\
  (env_left s' <= env_left s)%nat.
Proof.
  unfold sys_write, syscall, settle. pose proof (settle_left pos (os_env s) s) as Hl.
  pose proof (env_settle (os_env s) s) as Hv.
  fold (env_left s) in Hl, Hv. destruct (settle_loop (os_env s) s) as [ev s1].
  assert (forall e, env_left (with_errno e s1) = env_left s1) as He by done.
  assert (forall e, bytes_left pos (with_errno e s1) = bytes_left pos s1) as Hb by done.
  assert (forall n, bytes_left pos (with_fs (<[out := n]> (os_fs s1)) s1) = bytes_left pos s1)
    as Hw by (intros n; apply bytes_left_le; simpl; by rewrite lookup_insert_ne).
  destruct ev as [[e|n|k d t|ns|]|]; intros H.
  1: injection H as <- <-; rewrite He, Hb; split_and!; [lia|intros; lia|lia].
  all: destruct (os_fs s1 !! out) as [[m d'|m|m t'|m]|] eqn:Ef; injection H as <- <-;
    rewrite ?He, ?Hb, ?Hw; split_and!; try (intros; discriminate); try lia;
    unfold env_left in *; simpl; lia.
Qed.

Lemma write_chunk_total pos fuel chunk copied s r s' :
  (length chunk + env_left s < fuel)%nat -> write_chunk fuel out chunk copied s = (r, s') ->
  r <> OutOfFuel /\ (env_left s' + bytes_left pos s' <= env_left s + bytes_left pos s)%nat /\
  (env_left s' <= env_left s)%nat.
Proof.
  revert chunk copied s. induction fuel as [|fuel IH]; intros chunk copied s Hf H; [lia|].
  cbn [write_chunk] in H. destruct chunk as [|b bs]; [injection H as <- <-; auto|].
  unfold bind in H. destruct (sys_write out copied (b :: bs) s) as [w s1] eqn:E.
  pose proof (sys_write_left pos _ _ _ _ _ E) as (Hl & Hi & Hv). destruct w as [n|].
  - destruct (n <=? 0) eqn:En; [injection H as <- <-; auto|]. bool_hyps.
    apply IH in H as (H1 & H2 & H3); [split_and!; [done|lia..]|]. rewrite length_drop. simpl in *. lia.
  - simpl in H. destruct (bool_decide _) eqn:Ee; bool_hyps; [|injection H as <- <-; auto].
    specialize (Hi eq_refl Ee). apply IH in H as (H1 & H2 & H3); [split_and!; [done|lia..]|lia].
Qed.

Lemma copy_loop_total fuel pos copied s :
  (env_left s + bytes_left pos s + 2 <= fuel)%nat ->
  value (copy_loop fuel inp out (Z.of_nat pos) copied) s <> OutOfFuel.
Proof.
  revert pos copied s. induction fuel as [|fuel IH]; intros pos copied s Hf; [lia|].
  cbn [copy_loop]. unfold value, bind.
  destruct (sys_read inp (Z.of_nat pos) COPY_BUFFER s) as [r s1] eqn:E.
  apply sys_read_left in E. destruct r as [[|b bs]|]; [done|..].
  - destruct E as [E1 E2].
    destruct (write_chunk fuel out (b :: bs) copied s1) as [w s2] eqn:Ew.
    apply (write_chunk_total pos) in Ew as (Hw & Hl & Hv); [|lia].
    destruct w as [c| |]; [|done..].
    replace (Z.of_nat pos + zlen (b :: bs)) with (Z.of_nat (pos + length (b :: bs)))
      by (unfold zlen; lia).
    apply IH. unfold bytes_left in *. simpl length in *.
    destruct (os_fs s2 !! inp) as [[]|]; lia.
  - simpl. destruct (bool_decide _) eqn:Ee; bool_hyps; [|done].
    specialize (E Ee). apply IH. lia.
Qed.

Lemma copy_fuel_total s :
  value (copy_loop (copy_fuel inp s) inp out 0 0) s <> OutOfFuel.
Proof.
  apply (copy_loop_total _ 0). unfold copy_fuel, env_left, bytes_left.
  destruct (os_fs s !! inp) as [[]|]; lia.
Qed.
End Fuel.
