(* ===== verification/CopyWin.v ===== *)
(** * Copying a file on Windows (src/src/fs.c)

    One attempt at a copy in the Windows build: the calls of the system are parameters, the
    rest is the code's.  The promise is at the end: a success has copied the whole file, a
    failure leaves nothing at the destination, not even a file that was there before. *)

From S2P Require Import Prelude CString Paths Os.

(** ** Errors *)

Definition ERROR_FILE_NOT_FOUND : Z := 2.
Definition ERROR_PATH_NOT_FOUND : Z := 3.
Definition ERROR_ACCESS_DENIED : Z := 5.
Definition ERROR_SHARING_VIOLATION : Z := 32.
Definition ERROR_FILE_EXISTS : Z := 80.
Definition ERROR_ALREADY_EXISTS : Z := 183.

(** The [errno] that is set for an error of the system. *)
Definition syseba_windows_copy_error (error : Z) : errno :=
  if (error =? ERROR_FILE_NOT_FOUND) || (error =? ERROR_PATH_NOT_FOUND) then ENOENT
  else if (error =? ERROR_ACCESS_DENIED) || (error =? ERROR_SHARING_VIOLATION) then EACCES
  else if (error =? ERROR_FILE_EXISTS) || (error =? ERROR_ALREADY_EXISTS) then EEXIST
  else EIO.

(** ** What the system answers *)

Definition FILE_ATTRIBUTE_DIRECTORY : Z := 16.
Definition FILE_ATTRIBUTE_REPARSE_POINT : Z := 1024.

(** [BY_HANDLE_FILE_INFORMATION], as far as it is compared; the two halves of a number are
    one. *)
Record file_information := FileInformation {
  fi_attributes : Z;
  fi_volume : Z;
  fi_index : Z;
  fi_size : Z;
  fi_last_write : Z;
}.

(** The answers for the input, in order: an error, or a result.  A read gives bytes, and
    nothing at the end of the file, as it does after the last answer; a write takes some of
    the bytes, and all of them after the last answer.  [ca_last_error] is what
    [GetLastError] says when no call has failed. *)
Record copy_answers := CopyAnswers {
  ca_open : option Z;
  ca_initial : Z + file_information;
  ca_create : option Z;
  ca_reads : list (Z + cstr);
  ca_writes : list (Z + Z);
  ca_final : option file_information;
  ca_set_time : option Z;
  ca_flush : option Z;
  ca_last_error : Z;
}.

(** The files at the destinations, and [errno]. *)
Record copy_state := CopyState {
  cs_files : gmap cstr cstr;
  cs_errno : errno;
}.

Definition BUFFER_SIZE : Z := 1024 * 1024.

(** [while (written < read_count)]: what was written, and the answers that are left or an
    error. *)
Fixpoint write_loop (last_error : Z) (data : cstr) (writes : list (Z + Z)) : cstr * (Z + list (Z + Z)) :=
  match data, writes with
  | [], _ => ([], inr writes)
  | _, [] => (data, inr [])
  | _, inl error :: _ => ([], inl error)
  | _, inr chunk :: writes' =>
      if chunk <=? 0 then ([], inl last_error)
      else
        let '(rest, end_) := write_loop last_error (drop (Z.to_nat chunk) data) writes' in
        (take (Z.to_nat chunk) data ++ rest, end_)
  end.

(** [for (;;)]: the bytes in the output, and an error if there was one. *)
Fixpoint transfer_loop (last_error : Z) (reads : list (Z + cstr)) (writes : list (Z + Z)) : cstr * option Z :=
  match reads with
  | [] => ([], None)
  | inl error :: _ => ([], Some error)
  | inr data :: reads' =>
      match take (Z.to_nat BUFFER_SIZE) data with
      | [] => ([], None)
      | data =>
          let '(written, end_) := write_loop last_error data writes in
          match end_ with
          | inl error => (written, Some error)
          | inr writes' =>
              let '(rest, failed) := transfer_loop last_error reads' writes' in
              (written ++ rest, failed)
          end
      end
  end.

(** Whether the file that was read is still the one that was opened, and read in full. *)
Definition unchanged_input (initial : file_information) (final : option file_information) (copied : Z) : bool :=
  match final with
  | None => false
  | Some final =>
      (fi_volume initial =? fi_volume final) && (fi_index initial =? fi_index final)
      && (fi_size initial =? fi_size final) && (fi_last_write initial =? fi_last_write final)
      && (copied =? fi_size initial)
  end.

Definition put_file (destination data : cstr) : ST copy_state unit :=
  modify (fun s => CopyState (<[destination := data]> (cs_files s)) (cs_errno s)).
Definition copy_errno (e : errno) : ST copy_state unit := modify (fun s => CopyState (cs_files s) e).

(** The attempt up to [cleanup]. *)
Definition windows_copy_body (answers : copy_answers) (destination : cstr) : ST copy_state bool :=
  let fail error := copy_errno (syseba_windows_copy_error error) ;;; ret false in
  match ca_open answers, ca_initial answers with
  | Some error, _ | None, inl error => fail error
  | None, inr initial =>
      if negb (Z.land (fi_attributes initial) (Z.lor FILE_ATTRIBUTE_DIRECTORY FILE_ATTRIBUTE_REPARSE_POINT) =? 0)
      then fail (ca_last_error answers)
      else
        let* files := gets cs_files in
        match (match files !! destination with Some _ => Some ERROR_FILE_EXISTS | None => ca_create answers end) with
        | Some error => fail error
        | None =>
            let '(data, failed) := transfer_loop (ca_last_error answers) (ca_reads answers) (ca_writes answers) in
            put_file destination data ;;;
            match failed with
            | Some error => fail error
            | None =>
                if negb (unchanged_input initial (ca_final answers) (zlen data)) then
                  copy_errno EAGAIN ;;; ret false
                else
                  match ca_set_time answers, ca_flush answers with
                  | Some error, _ | None, Some error => fail error
                  | None, None => ret true
                  end
            end
        end
  end.

(** A failure deletes the destination. *)
Definition syseba_copy_file_once_windows (answers : copy_answers) (destination : cstr) : ST copy_state bool :=
  let* result := windows_copy_body answers destination in
  if result then ret true
  else
    modify (fun s => CopyState (delete destination (cs_files s)) (cs_errno s)) ;;;
    ret false.

(** ** What a copy leaves *)

Lemma write_loop_all last_error data writes writes' written :
  write_loop last_error data writes = (written, inr writes') -> written = data.
Proof.
  revert data written. induction writes as [|[error|chunk] writes IH]; intros data written; destruct data as [|c data];
    cbn [write_loop]; try (by intros [= <- _]); try done.
  destruct (chunk <=? 0); [done|]. destruct (write_loop _ (drop _ _) writes) as [rest end_] eqn:E.
  intros [= <- ->]. apply IH in E as ->. apply take_drop.
Qed.

(** The bytes that the reads give, up to the end of the file. *)
Fixpoint bytes_read (reads : list (Z + cstr)) : cstr :=
  match reads with
  | [] | inl _ :: _ => []
  | inr data :: reads' =>
      match take (Z.to_nat BUFFER_SIZE) data with
      | [] => []
      | data => data ++ bytes_read reads'
      end
  end.

Lemma transfer_loop_all last_error reads : forall writes data,
  transfer_loop last_error reads writes = (data, None) -> data = bytes_read reads.
Proof.
  induction reads as [|[error|piece] reads IH]; intros writes data; cbn [transfer_loop bytes_read];
    [by intros [= <-]|done|].
  destruct (take _ piece) as [|c part]; [by intros [= <-]|].
  destruct (write_loop _ (c :: part) writes) as [written [error|writes']] eqn:Ew; [done|].
  destruct (transfer_loop _ reads writes') as [rest failed] eqn:Et. intros [= <- ->].
  apply write_loop_all in Ew as ->. by apply IH in Et as ->.
Qed.

(** A copy never touches another name.  A success has made the destination, which was not
    there, with every byte that the reads gave, as many as the file has by its size, and the
    file did not change in between; a failure leaves no destination. *)
Theorem windows_copy_whole answers destination s result s' :
  syseba_copy_file_once_windows answers destination s = (result, s') ->
  (forall k, k <> destination -> cs_files s' !! k = cs_files s !! k) /\
  if result then
    cs_files s !! destination = None /\
    cs_files s' !! destination = Some (bytes_read (ca_reads answers)) /\
    exists initial final, ca_initial answers = inr initial /\ ca_final answers = Some final /\
      zlen (bytes_read (ca_reads answers)) = fi_size initial /\ fi_size final = fi_size initial /\
      fi_last_write final = fi_last_write initial
  else cs_files s' !! destination = None.
Proof.
  unfold syseba_copy_file_once_windows, bind at 1. destruct (windows_copy_body answers destination s) as [ok s1] eqn:E.
  assert (forall k, k <> destination -> cs_files s1 !! k = cs_files s !! k) as Hk.
  { intros k Hk. revert E. unfold windows_copy_body.
    destruct (ca_open answers); [by intros [= _ <-]|]. destruct (ca_initial answers) as [error|initial]; [by intros [= _ <-]|].
    destruct (negb _); [by intros [= _ <-]|]. rewrite bind_gets.
    destruct (match cs_files s !! destination with Some _ => _ | None => _ end); [by intros [= _ <-]|].
    destruct (transfer_loop _ _ _) as [data failed]. unfold bind at 1.
    assert (cs_files (exec (put_file destination data) s) !! k = cs_files s !! k) as Hp by (cbn; by rewrite lookup_insert_ne).
    unfold put_file, modify in *. cbn in Hp.
    destruct failed; [by intros [= _ <-]|]. destruct (negb _); [by intros [= _ <-]|].
    destruct (ca_set_time answers), (ca_flush answers); by intros [= _ <-]. }
  destruct ok; intros [= <- <-]; cbn [cs_files].
  2: { split; [|apply lookup_delete_eq]. intros k Hne. by rewrite lookup_delete_ne, Hk. }
  split; [done|]. revert E. unfold windows_copy_body.
  destruct (ca_open answers); [done|]. destruct (ca_initial answers) as [error|initial]; [done|].
  destruct (negb _); [done|]. rewrite bind_gets.
  destruct (cs_files s !! destination) eqn:Ed; [done|]. destruct (ca_create answers); [done|].
  destruct (transfer_loop _ _ _) as [data failed] eqn:Et. unfold bind at 1. cbn.
  destruct failed; [done|]. apply transfer_loop_all in Et as ->.
  unfold unchanged_input. destruct (ca_final answers) as [final|]; [|done].
  destruct (negb _) eqn:Eu; [done|]. bool_hyps.
  destruct (ca_set_time answers), (ca_flush answers); try done. intros [= <-]. cbn.
  split; [done|]. split; [apply lookup_insert_eq|]. exists initial, final. by split_and!.
Qed.

(** A failed creation deletes the file that was in its way. *)
Example collision_deletes :
  let answers := CopyAnswers None (inr (FileInformation 0 1 2 3 4)) None [] [] None None None 0 in
  let s := CopyState {[ c!"taken" := c!"data" ]} E_OK in
  syseba_copy_file_once_windows answers (c!"taken") s = (false, CopyState ∅ EEXIST).
Proof. vm_compute. reflexivity. Qed.
