(* ===== verification/CopyFacts.v ===== *)
(** * The copy on a quiet host

    When nothing interferes, [syseba_copy_file] makes the missing directories and
    leaves at the destination the source's bytes, permission bits and modification
    time; no temporary file remains and no other file changes. *)

From S2P Require Import Prelude CString Paths Os OsFacts Platform Fs FsFacts.

(** ** Directory chains *)

(** Every prefix of the location is a directory. *)
Definition dir_chain (fs : fsmap) (names : ppath) : Prop :=
  forall a b, names = a ++ b -> is_dir_at fs a = true.

(** Every prefix is a directory or does not exist. *)
Definition creatable (fs : fsmap) (names : ppath) : Prop :=
  forall a b, names = a ++ b -> is_dir_at fs a = true \/ fs !! a = None.

(** Only the file system, [errno] and the inode counter changed. *)
Definition same_host (s s' : os) : Prop :=
  os_env s' = os_env s /\ os_cwd s' = os_cwd s /\ os_mono s' = os_mono s /\
  os_pid s' = os_pid s /\ os_time s' = os_time s.
#[export] Instance same_host_preorder : PreOrder same_host.
Proof.
  split; [by intros s|]. intros s1 s2 s3 (?&?&?&?&?) (?&?&?&?&?).
  split_and!; by etransitivity.
Qed.

Lemma same_host_quiet s s' : same_host s s' -> quiet s -> quiet s'.
Proof. unfold quiet. intros (-> & _). done. Qed.

Lemma dir_chain_nil fs : dir_chain fs [].
Proof. intros a b E. symmetry in E. by apply app_eq_nil in E as [-> _]. Qed.

Lemma dir_chain_snoc fs p x :
  dir_chain fs p -> is_dir_at fs (p ++ [x]) = true -> dir_chain fs (p ++ [x]).
Proof.
  intros Hp Hx a b E. destruct b as [|y b _] using rev_ind.
  - by rewrite app_nil_r in E; subst.
  - rewrite app_assoc in E. apply app_inj_tail in E as [E _]. by eapply Hp.
Qed.

Lemma dir_chain_below fs p x : dir_chain fs p -> dirs_below fs [] (p ++ [x]).
Proof.
  intros Hp a b c E. simpl. destruct b as [|y b _] using rev_ind.
  - apply app_inj_tail in E as [-> _]. apply (Hp a []). by rewrite app_nil_r.
  - assert (p ++ [x] = (a ++ c :: b) ++ [y]) as E' by (by rewrite E, <- app_assoc).
    apply app_inj_tail in E' as [-> _]. by eapply Hp.
Qed.

Lemma dir_chain_grows fs fs' p : grows fs fs' -> dir_chain fs p -> dir_chain fs' p.
Proof.
  intros [G _] H a b E. specialize (H a b E). unfold is_dir_at in *.
  destruct a as [|x a]; [done|]. destruct (fs !! (x :: a)) as [n|] eqn:En; [|done].
  by rewrite (G _ _ En).
Qed.

(** Resolution of a path whose directory is there. *)
Lemma resolve_chain s p x :
  Forall path_name (p ++ [x]) -> dir_chain (os_fs s) p ->
  resolve s false (render (p ++ [x])) =
    match os_fs s !! (p ++ [x]) with
    | Some _ => Found (p ++ [x])
    | None => Missing (p ++ [x])
    end.
Proof.
  intros Hn Hd. rewrite resolve_render, namei_plain by (done || by apply dir_chain_below).
  simpl app at 1. destruct (os_fs s !! (p ++ [x])) as [[]|]; try done; by destruct p.
Qed.

Lemma node_at_snoc fs p x : node_at fs (p ++ [x]) = fs !! (p ++ [x]).
Proof. unfold node_at. destruct (p ++ [x]) eqn:E; [by destruct p|done]. Qed.

(** ** Making the directories *)

Lemma mkdir_each_quiet mode p rest s :
  quiet s -> Forall path_name (p ++ rest) -> dir_chain (os_fs s) p ->
  creatable (os_fs s) (p ++ rest) ->
  exists s', mkdir_each (map render (inits p rest)) mode s = (true, s') /\
    same_host s s' /\ grows (os_fs s) (os_fs s') /\ dir_chain (os_fs s') (p ++ rest) /\
    (forall k, os_fs s !! k = None -> os_fs s' !! k <> None ->
       k <> [] /\ exists b, p ++ rest = k ++ b).
Proof.
  revert p s. induction rest as [|x rest IH]; intros p s Hq Hn Hd Hc.
  { exists s. rewrite app_nil_r. split_and!; try done. }
  cbn [inits map mkdir_each].
  replace (p ++ x :: rest) with ((p ++ [x]) ++ rest) in * by (by rewrite <- app_assoc).
  assert (Forall path_name (p ++ [x])) as Hnx by (by apply Forall_app in Hn as [? _]).
  assert (exists ok s1, sys_mkdir (render (p ++ [x])) mode s = (ok, s1) /\
    (ok = true \/ os_errno s1 = EEXIST) /\ same_host s s1 /\ grows (os_fs s) (os_fs s1) /\
    is_dir_at (os_fs s1) (p ++ [x]) = true /\
    (forall k, os_fs s1 !! k = os_fs s !! k \/ k = p ++ [x])) as
    (ok & s1 & E & Hok & Hs1 & Hg1 & Hd1 & Hk1).
  { unfold sys_mkdir. rewrite syscall_quiet, resolve_chain by done.
    destruct (Hc (p ++ [x]) rest eq_refl) as [Hx|Hx].
    - apply is_dir_at_snoc in Hx as Hx'. destruct Hx' as [m Hm]. rewrite Hm.
      do 2 eexists. split; [reflexivity|]. split_and!; auto; done.
    - rewrite Hx. do 2 eexists. split; [reflexivity|].
      split_and!; auto; try done; cbn [os_fs with_fs with_ino].
      + by apply grows_mkdir.
      + unfold is_dir_at. destruct (p ++ [x]) eqn:Ep; [done|]. by rewrite lookup_insert_eq.
      + intros k. destruct (decide (k = p ++ [x])); [auto|]. by rewrite lookup_insert_ne; auto. }
  destruct (IH (p ++ [x]) s1) as (s2 & E2 & Hs2 & Hg2 & Hd2 & Hk2).
  - by eapply same_host_quiet.
  - done.
  - apply dir_chain_snoc; [|done]. by eapply dir_chain_grows.
  - intros a b Ea. destruct (Hk1 a) as [Ha| ->]; [|auto].
    destruct (Hc a b Ea) as [H|H]; [left|right; by rewrite Ha].
    unfold is_dir_at in *. destruct a; [done|]. by rewrite Ha.
  - exists s2. unfold bind. rewrite E. simpl.
    assert (negb ok && negb (bool_decide (os_errno s1 = EEXIST)) = false) as ->.
    { destruct Hok as [-> | ->]; [done|]. by rewrite andb_false_r. }
    split; [done|]. split; [by etransitivity|]. split; [by etransitivity|]. split; [done|].
    intros k H0 H2. destruct (Hk1 k) as [Hk| ->]; [|split; [by destruct p|by exists rest]].
    apply Hk2; [by rewrite Hk|done].
Qed.

Lemma mkdirs_quiet mode p s :
  quiet s -> Forall path_name p -> zlen (render p) < SYSEBA_PATH_MAX -> creatable (os_fs s) p ->
  exists s', syseba_mkdirs (render p) mode s = (true, s') /\
    same_host s s' /\ grows (os_fs s) (os_fs s') /\ dir_chain (os_fs s') p /\
    (forall k, os_fs s !! k = None -> os_fs s' !! k <> None -> k <> [] /\ exists b, p = k ++ b).
Proof.
  intros Hq Hp Hl Hc. unfold syseba_mkdirs.
  assert (fits SYSEBA_PATH_MAX (render p) = true) as -> by (by apply Z.ltb_lt).
  destruct (render_head p) as [r Hr].
  assert (nonempty (render p) = true) as -> by (by rewrite Hr). cbn [negb].
  destruct p as [|x p].
  - assert (mkdirs_targets (render []) = [[SLASH]]) as -> by done.
    exists (with_errno EEXIST s). cbn [mkdir_each]. unfold bind, sys_mkdir.
    rewrite syscall_quiet by done. split; [reflexivity|].
    split_and!; try done; apply dir_chain_nil.
  - rewrite mkdirs_targets_render by done.
    destruct (mkdir_each_quiet mode [] (x :: p) s) as (s' & H); try done.
    + apply dir_chain_nil.
    + by exists s'.
Qed.

(** The entries of the directory itself are as they were. *)
Lemma made_same_entry s s' p y :
  grows (os_fs s) (os_fs s') ->
  (forall k, os_fs s !! k = None -> os_fs s' !! k <> None -> k <> [] /\ exists b, p = k ++ b) ->
  os_fs s' !! (p ++ [y]) = os_fs s !! (p ++ [y]).
Proof.
  intros Hg Hnew. destruct (os_fs s !! (p ++ [y])) as [n|] eqn:E; [by apply Hg|].
  destruct (os_fs s' !! (p ++ [y])) as [n|] eqn:E'; [|done].
  destruct (Hnew (p ++ [y])) as [_ (b & Eb)]; [done|by rewrite E'|].
  apply (f_equal length) in Eb. rewrite !length_app in Eb. cbn in Eb. lia.
Qed.

Lemma made_only_new_dirs s s' p k :
  grows (os_fs s) (os_fs s') ->
  (forall k, os_fs s !! k = None -> os_fs s' !! k <> None -> k <> [] /\ exists b, p = k ++ b) ->
  os_fs s' !! k = os_fs s !! k \/
  (os_fs s !! k = None /\ (exists b, p = k ++ b) /\ exists mk, os_fs s' !! k = Some (NDir mk)).
Proof.
  intros [Hg Hd] Hnew. destruct (os_fs s !! k) as [n|] eqn:E; [left; by apply Hg|].
  destruct (os_fs s' !! k) as [n|] eqn:E'; [|by left]. right. split; [done|].
  split; [apply Hnew; congruence|]. destruct (Hd _ _ E') as [?|[mk ->]]; [congruence|by eexists].
Qed.

(** The destination's directory, made where it is missing. *)
Lemma prepare_quiet pd d s :
  quiet s -> Forall path_name (pd ++ [d]) -> zlen (render (pd ++ [d])) < SYSEBA_PATH_MAX ->
  creatable (os_fs s) pd ->
  exists s', syseba_prepare_destination (render (pd ++ [d])) s = (true, s') /\
    same_host s s' /\ grows (os_fs s) (os_fs s') /\ dir_chain (os_fs s') pd /\
    (forall k, os_fs s !! k = None -> os_fs s' !! k <> None ->
       k <> [] /\ exists b, pd = k ++ b).
Proof.
  intros Hq Hn Hl Hc. unfold syseba_prepare_destination.
  pose proof Hn as Hn'. apply Forall_app in Hn' as [Hp Hd]. apply Forall_inv in Hd.
  rewrite parent_dir_render by done. apply mkdirs_quiet; try done.
  destruct pd as [|x pd]; [done|]. rewrite render_app_cons in Hl by done. zlen_lia.
Qed.

(** ** The transfer *)

(** The output file, with the device and inode it was created with. *)
Definition output_is (fs0 : fsmap) (out : ppath) (m0 : meta) (w : cstr) (s s' : os) : Prop :=
  same_host s s' /\ exists m, os_fs s' = <[out := NReg m w]> fs0 /\
    m_dev m = m_dev m0 /\ m_ino m = m_ino m0.

Lemma write_chunk_quiet fs0 out m0 w chunk fuel s s0 :
  quiet s0 -> output_is fs0 out m0 w s0 s ->
  exists s', write_chunk (S (S fuel)) out chunk (zlen w) s = (Copied (zlen (w ++ chunk)), s') /\
    output_is fs0 out m0 (w ++ chunk) s0 s'.
Proof.
  intros Hq (Hs & m & Hf & Hm). cbn [write_chunk]. destruct chunk as [|b bs].
  { exists s. rewrite app_nil_r. split; [done|]. split; [done|]. by exists m. }
  unfold bind, sys_write. rewrite syscall_quiet by (by eapply same_host_quiet).
  rewrite Hf, lookup_insert_eq. rewrite splice_end.
  assert (0 < zlen (b :: bs)) by zlen_lia.
  assert ((zlen (b :: bs) <=? 0) = false) as -> by (apply Z.leb_gt; lia).
  assert (drop (Z.to_nat (zlen (b :: bs))) (b :: bs) = []) as ->
    by (apply drop_ge; unfold zlen; lia).
  eexists. split; [by rewrite zlen_app|]. split; [done|].
  eexists. cbn [os_fs with_fs]. rewrite insert_insert_eq. split; [reflexivity|done].
Qed.

Lemma copy_loop_quiet fs0 inp out m d m0 fuel pos s s0 :
  quiet s0 -> inp <> out -> fs0 !! inp = Some (NReg m d) -> (pos <= length d)%nat ->
  (length d - pos + 3 <= fuel)%nat -> output_is fs0 out m0 (take pos d) s0 s ->
  exists s', copy_loop fuel inp out (Z.of_nat pos) (Z.of_nat pos) s = (Copied (zlen d), s') /\
    output_is fs0 out m0 d s0 s'.
Proof.
  intros Hq Hne Hi. revert pos s.
  induction fuel as [|fuel IH]; intros pos s Hp Hfu (Hs & mo & Hf & Hm); [lia|].
  cbn [copy_loop]. unfold bind, sys_read at 1.
  rewrite syscall_quiet by (by eapply same_host_quiet).
  rewrite Hf, lookup_insert_ne, Hi, Nat2Z.id by done.
  assert (zlen (take pos d) = Z.of_nat pos) as Hz by (unfold zlen; rewrite length_take; lia).
  pose proof (take_upto_prefix COPY_BUFFER (drop pos d)) as Ht.
  pose proof (take_upto_length COPY_BUFFER (drop pos d)) as Hl. rewrite length_drop in Hl.
  destruct (take_upto COPY_BUFFER (drop pos d)) as [|b bs] eqn:E.
  - apply take_upto_nil in E; [|by vm_compute].
    assert (take pos d = d) as Hd.
    { rewrite <- (take_drop pos d) at 2. by rewrite E, app_nil_r. }
    exists s. rewrite <- Hz, Hd. split; [done|]. split; [done|]. exists mo. by rewrite Hd in Hf.
  - destruct fuel as [|fuel]; [simpl in *; lia|].
    destruct fuel as [|fuel]; [simpl in *; lia|].
    destruct (write_chunk_quiet fs0 out m0 (take pos d) (b :: bs) fuel s s0 Hq) as (s1 & E1 & H1).
    { split; [done|]. by exists mo. }
    rewrite Hz in E1. rewrite E1.
    assert (take pos d ++ b :: bs = take (pos + length (b :: bs)) d) as Hd.
    { rewrite <- Ht at 1. by rewrite take_take_drop. }
    rewrite Hd in H1 |- *.
    replace (zlen (take (pos + length (b :: bs)) d)) with (Z.of_nat (pos + length (b :: bs)))
      by (unfold zlen; rewrite length_take; lia).
    replace (Z.of_nat pos + zlen (b :: bs))
      with (Z.of_nat (pos + length (b :: bs))) by (unfold zlen; lia).
    apply IH; [lia| |done]. simpl in *. lia.
Qed.

(** The mode and the times of a finished copy. *)
Definition copied_meta (m m' : meta) : Prop :=
  m_mode m' = Z.land (m_mode m) 511 /\ m_mtime m' = m_mtime m.

Lemma set_meta_quiet k f s n :
  quiet s -> os_fs s !! k = Some n ->
  sys_set_meta k f s = (true, with_fs (<[k := update_meta f n]> (os_fs s)) s).
Proof. intros Hq Hn. unfold sys_set_meta. by rewrite syscall_quiet, Hn. Qed.

Lemma copy_contents_quiet inp out m d m0 s :
  quiet s -> inp <> out -> os_fs s !! inp = Some (NReg m d) -> inp <> [] ->
  os_fs s !! out = Some (NReg m0 []) ->
  exists s' m', copy_contents inp out (NReg m d) s = (true, s') /\ same_host s s' /\
    os_fs s' = <[out := NReg m' d]> (os_fs s) /\ copied_meta m m'.
Proof.
  intros Hq Hne Hi Hroot Ho. unfold copy_contents, bind at 1, gets.
  destruct (copy_loop_quiet (os_fs s) inp out m d m0 (copy_fuel inp s) 0 s s)
    as (s1 & E1 & Hs1 & m1 & Hf1 & _); try done.
  - lia.
  - unfold copy_fuel. rewrite Hi. lia.
  - split; [done|]. exists m0. split; [|done]. by rewrite insert_id.
  - unfold bind at 1. change (Z.of_nat 0) with 0 in E1. rewrite E1.
    pose proof (same_host_quiet _ _ Hs1 Hq) as Hq1.
    unfold bind at 1, sys_fstat. rewrite syscall_quiet by done.
    assert (node_at (os_fs s1) inp = Some (NReg m d)) as ->.
    { rewrite Hf1. destruct inp; [done|]. unfold node_at. by rewrite lookup_insert_ne. }
    assert (source_unchanged (NReg m d) (NReg m d) (zlen d) = true) as ->.
    { unfold source_unchanged. cbn [node_meta node_size]. by rewrite !Z.eqb_refl. }
    cbn [negb]. unfold bind, sys_futimens, sys_fchmod.
    rewrite (set_meta_quiet out _ s1 (NReg m1 d)) by (done || by rewrite Hf1, lookup_insert_eq).
    erewrite set_meta_quiet; [|done|by cbn [os_fs with_fs]; rewrite lookup_insert_eq].
    cbn [negb]. unfold sys_sync. rewrite syscall_quiet by done.
    do 2 eexists. split; [reflexivity|]. split; [done|].
    cbn [os_fs with_fs update_meta]. rewrite Hf1, !insert_insert_eq.
    split; [reflexivity|]. done.
Qed.

(** ** One attempt and the replacement *)

Section Quiet.
Context (source : cstr) (ks : ppath) (m : meta) (c : cstr).
Context (pd : ppath) (d t : cstr).
Context (Hd : Forall path_name (pd ++ [d])) (Ht : Forall path_name (pd ++ [t])).
Context (Hroot : ks <> []).

Definition finds_source (s : os) : Prop :=
  resolve s false source = Found ks /\ os_fs s !! ks = Some (NReg m c).

Lemma once_quiet s :
  quiet s -> finds_source s -> dir_chain (os_fs s) pd ->
  zlen (render (pd ++ [t])) < SYSEBA_PATH_MAX ->
  os_fs s !! (pd ++ [t]) = None ->
  exists s' m', syseba_copy_file_once_posix source (render (pd ++ [t])) s = (true, s') /\
    same_host s s' /\ os_fs s' = <[pd ++ [t] := NReg m' c]> (os_fs s) /\ copied_meta m m'.
Proof.
  intros Hq [Hr Hk] Hc Hl Hf. unfold syseba_copy_file_once_posix, bind at 1 2.
  unfold sys_open_read. rewrite syscall_quiet, Hr by done.
  assert (node_at (os_fs s) ks = Some (NReg m c)) as Hat by (by destruct ks).
  rewrite Hat. unfold bind at 1, sys_fstat. rewrite syscall_quiet, Hat by done.
  unfold bind at 1.
  destruct (prepare_quiet pd t s) as (s1 & -> & Hs1 & Hg & Hc1 & Hnew); try done.
  { intros a b E. left. by eapply Hc. }
  assert (os_fs s1 = os_fs s) as Hsame.
  { apply map_eq. intros k. destruct (os_fs s !! k) as [n|] eqn:E; [by apply Hg|].
    destruct (os_fs s1 !! k) as [n|] eqn:E1; [|done].
    destruct (Hnew k E) as (Hk0 & b & Hb); [congruence|].
    pose proof (Hc k b Hb) as Hk1. unfold is_dir_at in Hk1. destruct k; [done|].
    by rewrite E in Hk1. }
  rewrite <- Hsame in Hf.
  cbn [negb]. pose proof (same_host_quiet _ _ Hs1 Hq) as Hq1.
  unfold bind at 1, sys_open_excl. rewrite syscall_quiet, resolve_chain, Hf by done.
  set (s2 := create_file s1 (pd ++ [t]) _).
  destruct (copy_contents_quiet ks (pd ++ [t]) m c
              (new_meta s1 (Z.land (m_mode m) 511) (pd ++ [t])) s2)
    as (s3 & m' & E3 & Hs3 & Hf3 & Hm'); try done.
  - intros ->. congruence.
  - unfold s2, create_file. cbn [os_fs with_fs with_ino].
    rewrite lookup_insert_ne by (intros E; congruence). apply Hg. done.
  - unfold s2, create_file. cbn [os_fs with_fs with_ino]. by rewrite lookup_insert_eq.
  - rewrite E3. exists s3, m'. split; [done|].
    split; [by etransitivity; [exact Hs1|]|]. split; [|done].
    rewrite Hf3. unfold s2, create_file. cbn [os_fs with_fs with_ino].
    by rewrite insert_insert_eq, Hsame.
Qed.

Lemma resolve_dir s p :
  Forall path_name p -> dir_chain (os_fs s) p -> resolve s true (render p) = Found p.
Proof.
  intros Hn Hp. destruct p as [|x q _] using rev_ind; [done|].
  rewrite resolve_render, namei_plain by (done || (apply dir_chain_below; intros a b ->;
    apply (Hp a (b ++ [x])); by rewrite app_assoc)).
  assert (is_dir_at (os_fs s) (q ++ [x]) = true) as H
    by (apply (Hp _ []); by rewrite app_nil_r).
  apply is_dir_at_snoc in H as [mm Hm]. rewrite app_nil_l, Hm. done.
Qed.

Lemma replace_quiet s m' :
  quiet s -> dir_chain (os_fs s) pd -> t <> d ->
  zlen (render (pd ++ [d])) < SYSEBA_PATH_MAX ->
  os_fs s !! (pd ++ [t]) = Some (NReg m' c) ->
  (forall mm, os_fs s !! (pd ++ [d]) <> Some (NDir mm)) ->
  exists s', syseba_atomic_replace (render (pd ++ [t])) (render (pd ++ [d])) s = (true, s') /\
    same_host s s' /\
    os_fs s' = <[pd ++ [d] := NReg m' c]> (delete (pd ++ [t]) (os_fs s)).
Proof.
  intros Hq Hc Htd Hl Hf Hnd. unfold syseba_atomic_replace, bind, sys_rename.
  rewrite syscall_quiet by done. cbv zeta. rewrite !resolve_chain, Hf by done.
  set (s1 := with_fs (<[pd ++ [d] := NReg m' c]> (delete (pd ++ [t]) (os_fs s))) s).
  assert (exists s2, syseba_sync_parent_directory (render (pd ++ [d])) s1 = (true, s2) /\
    same_host s1 s2 /\ os_fs s2 = os_fs s1) as (s2 & E & Hs2 & Hf2).
  { unfold syseba_sync_parent_directory.
    pose proof Hd as Hd'. apply Forall_app in Hd' as [Hp Hd']. apply Forall_inv in Hd'.
    rewrite parent_dir_render by done. unfold bind, sys_open_dir.
    assert (dir_chain (os_fs s1) pd) as Hc1.
    { intros a b Ea. pose proof (Hc a b Ea) as H. unfold is_dir_at in *.
      destruct a as [|y a]; [done|]. unfold s1. cbn [os_fs with_fs].
      assert (forall z, y :: a <> pd ++ [z]) as Hne.
      { intros z Ez. rewrite Ez in Ea. rewrite Ea in Ez. apply (f_equal length) in Ea.
        rewrite !length_app in Ea. simpl in Ea. lia. }
      by rewrite lookup_insert_ne, lookup_delete_ne by (intros Ez; by eapply Hne). }
    rewrite syscall_quiet, resolve_dir, (Hc1 pd []) by (done || by rewrite app_nil_r).
    unfold sys_sync. rewrite syscall_quiet by done. by exists s1. }
  destruct (os_fs s !! (pd ++ [d])) as [[]|] eqn:Ed; try (exfalso; by eapply Hnd);
    rewrite ?Hf, ?Ed, !removelast_last, Z.eqb_refl, (bool_decide_false (pd ++ [t] = [])),
      (bool_decide_false (pd ++ [d] = [])), (bool_decide_false (pd ++ [t] = pd ++ [d]))
      by ((by destruct pd) || (intros E'; simplify_list_eq));
    cbn [orb negb]; (exists s2; split; [exact E|]; split; [exact Hs2|exact Hf2]).
Qed.
End Quiet.

(** ** The whole copy *)

Definition temp_suffix (s : os) (attempt : Z) : cstr :=
  temp_marker ++ dec (wrap64 (os_pid s)) ++ c!"." ++ dec (wrap64 (os_mono s)) ++ c!"."
    ++ dec attempt.

Lemma temp_suffix_clean s attempt :
  0 <= attempt -> SLASH ∉ temp_suffix s attempt /\ BACKSLASH ∉ temp_suffix s attempt.
Proof.
  intros Ha. unfold temp_suffix.
  pose proof (wrap64_range (os_pid s)). pose proof (wrap64_range (os_mono s)).
  assert (forall n ch, isdigit ch = false -> 0 <= n -> ch ∉ dec n) as Hdec.
  { intros n ch Hch Hn Hin. pose proof (dec_digits n Hn) as Hd.
    rewrite Forall_forall in Hd. specialize (Hd _ Hin). congruence. }
  rewrite !not_elem_of_app.
  split_and!; try (apply Hdec; [done|lia]); apply strchr_None; by vm_compute.
Qed.

Lemma temp_suffix_fresh s attempt d : d ++ temp_suffix s attempt <> d.
Proof.
  intros E. apply (f_equal length) in E. unfold temp_suffix in E.
  rewrite !length_app in E. change (length temp_marker) with 12%nat in E. lia.
Qed.

Lemma render_snoc_app p d x : render (p ++ [d]) ++ x = render (p ++ [d ++ x]).
Proof.
  destruct p as [|y p].
  - simpl. by rewrite !app_nil_r.
  - rewrite !render_app_cons by done. by rewrite <- app_assoc.
Qed.

Lemma path_name_app d x :
  path_name d -> SLASH ∉ x -> BACKSLASH ∉ x -> (2 < length x)%nat -> path_name (d ++ x).
Proof.
  intros ([Hne Hs] & Hb & _) Hx Hbx Hl.
  split; [split; [by destruct d|by apply not_elem_of_app]|].
  split; [by apply not_elem_of_app|].
  split; intros E; apply (f_equal length) in E; rewrite length_app in E; simpl in E; lia.
Qed.

Section Whole.
Context (ps : ppath) (x : cstr) (m : meta) (c : cstr) (pd : ppath) (d : cstr).
Context (Hs : Forall path_name (ps ++ [x])) (Hd : Forall path_name (pd ++ [d])).

(** What the directories made on the way leave alone. *)
Definition only_new_dirs (s s' : os) (k : ppath) : Prop :=
  os_fs s' !! k = os_fs s !! k \/
  (os_fs s !! k = None /\ (exists b, pd = k ++ b) /\ exists mk, os_fs s' !! k = Some (NDir mk)).

(** What a whole copy leaves on a quiet host. *)
Lemma copy_file_runs attempts s :
  quiet s -> dir_chain (os_fs s) ps -> os_fs s !! (ps ++ [x]) = Some (NReg m c) ->
  creatable (os_fs s) pd -> (forall mm, os_fs s !! (pd ++ [d]) <> Some (NDir mm)) ->
  zlen (render (pd ++ [d]) ++ temp_suffix s 0) < SYSEBA_PATH_MAX ->
  os_fs s !! (pd ++ [d ++ temp_suffix s 0]) = None -> 0 <= attempts ->
  exists s' m',
    syseba_copy_file (render (ps ++ [x])) (render (pd ++ [d])) attempts s = (true, s') /\
    os_fs s' !! (pd ++ [d]) = Some (NReg m' c) /\ copied_meta m m' /\
    (forall k, k <> pd ++ [d] -> only_new_dirs s s' k) /\ same_host s s' /\ dir_chain (os_fs s') pd.
Proof.
  intros Hq Hcs Hsrc Hcd Hnd Hlt Hfree Ha. unfold syseba_copy_file, bind at 1.
  destruct (prepare_quiet pd d s Hq Hd) as (s1 & -> & Hs1 & Hg & Hc1 & Hnew); [zlen_lia|done|].
  cbn [negb]. pose proof (same_host_quiet _ _ Hs1 Hq) as Hq1.
  assert (0 < (if attempts =? 0 then 1 else attempts)) as Hatt
    by (destruct (attempts =? 0) eqn:E; bool_hyps; lia).
  generalize dependent (if attempts =? 0 then 1 else attempts). clear attempts Ha.
  intros attempts Hatt. destruct (Z.to_nat attempts) as [|left] eqn:El; [lia|]. clear El.
  cbn [copy_attempts]. unfold bind at 1 2, sys_getpid, sys_monotonic, gets at 1 2.
  cbn beta iota zeta.
  destruct (Hs1) as (_ & _ & Hmono & Hpid & _).
  assert (temporary_name (render (pd ++ [d])) (os_pid s1) (os_mono s1) 0
          = render (pd ++ [d ++ temp_suffix s 0])) as ->.
  { unfold temporary_name. rewrite Hmono, Hpid. by rewrite <- render_snoc_app. }
  assert (Forall path_name (pd ++ [d ++ temp_suffix s 0])) as Ht.
  { apply Forall_app in Hd as [? H]. apply Forall_inv in H. apply Forall_app_2; [done|].
    constructor; [|constructor]. destruct (temp_suffix_clean s 0 ltac:(lia)).
    apply path_name_app; try done. unfold temp_suffix. rewrite length_app.
    change (length temp_marker) with 12%nat. lia. }
  rewrite render_snoc_app in Hlt.
  assert (fits SYSEBA_PATH_MAX (render (pd ++ [d ++ temp_suffix s 0])) = true) as ->
    by (by apply Z.ltb_lt).
  cbn [negb].
  assert (finds_source (render (ps ++ [x])) (ps ++ [x]) m c s1) as Hfs.
  { assert (os_fs s1 !! (ps ++ [x]) = Some (NReg m c)) as Hx by (by apply Hg).
    split; [|done]. rewrite resolve_chain, Hx; [done..|]. by eapply dir_chain_grows. }
  unfold bind at 1, syseba_fs_is_regular, bind at 1, sys_lstat.
  rewrite syscall_quiet by done. destruct Hfs as [Hr Hx]. rewrite Hr.
  rewrite node_at_snoc, Hx. cbn [is_reg ret negb].
  assert (forall n, os_fs s1 !! (pd ++ [n]) = os_fs s !! (pd ++ [n])) as Hold.
  { intros n. by apply made_same_entry. }
  destruct (once_quiet (render (ps ++ [x])) (ps ++ [x]) m c pd (d ++ temp_suffix s 0) Ht)
    with (s := s1) as (s2 & m' & E2 & Hs2 & Hf2 & Hm2);
    [by destruct ps|done|done|done|done|by rewrite Hold|].
  unfold bind at 1 2. unfold ret at 1. rewrite E2.
  destruct (replace_quiet c pd d (d ++ temp_suffix s 0) Hd Ht s2 m')
    as (s3 & -> & Hs3 & Hf3).
  - by eapply same_host_quiet.
  - intros a b E. pose proof (Hc1 a b E) as Ha. unfold is_dir_at in *.
    destruct a as [|y a]; [done|]. rewrite Hf2, lookup_insert_ne; [done|].
    intros Ey. apply (f_equal length) in Ey, E. rewrite !length_app in *. simpl in *. lia.
  - intros E. by apply temp_suffix_fresh in E.
  - rewrite <- render_snoc_app in Hlt. zlen_lia.
  - by rewrite Hf2, lookup_insert_eq.
  - intros mm. rewrite Hf2, lookup_insert_ne, Hold; [apply Hnd|].
    intros E. simplify_list_eq. by eapply temp_suffix_fresh.
  - assert (os_fs s3 = <[pd ++ [d] := NReg m' c]> (os_fs s1)) as Hf.
    { rewrite Hf3, Hf2, delete_insert_eq. by rewrite delete_id by (by rewrite Hold). }
    assert (dir_chain (os_fs s3) pd) as Hc3.
    { intros a b E. pose proof (Hc1 a b E) as Ha'. unfold is_dir_at in *.
      destruct a as [|y a]; [done|]. rewrite Hf, lookup_insert_ne; [done|].
      intros Ey. apply (f_equal length) in Ey, E. rewrite !length_app in *. simpl in *. lia. }
    exists s3, m'. rewrite Hf, lookup_insert_eq.
    split_and!; [done..| |by do 2 (etransitivity; [eassumption|])|by rewrite <- Hf].
    intros k Hk. unfold only_new_dirs. rewrite Hf, lookup_insert_ne by done.
    by apply made_only_new_dirs.
Qed.

Lemma copy_file_quiet attempts s :
  quiet s -> dir_chain (os_fs s) ps -> os_fs s !! (ps ++ [x]) = Some (NReg m c) ->
  creatable (os_fs s) pd -> (forall mm, os_fs s !! (pd ++ [d]) <> Some (NDir mm)) ->
  zlen (render (pd ++ [d]) ++ temp_suffix s 0) < SYSEBA_PATH_MAX ->
  os_fs s !! (pd ++ [d ++ temp_suffix s 0]) = None -> 0 <= attempts ->
  exists s' m',
    syseba_copy_file (render (ps ++ [x])) (render (pd ++ [d])) attempts s = (true, s') /\
    os_fs s' !! (pd ++ [d]) = Some (NReg m' c) /\ copied_meta m m' /\
    (forall k, k <> pd ++ [d] -> only_new_dirs s s' k).
Proof.
  intros. destruct (copy_file_runs attempts s) as (s' & m' & E & Hf & Hm & Hk & _); [done..|].
  by exists s', m'.
Qed.
End Whole.
