(* ===== verification/CopySpec.v ===== *)
(** * The promises of the file copy *)

From S2P Require Import Prelude CString Paths Os OsFacts Platform Fs FsFacts CopyFacts Examples.

Lemma short_not_temp x : (length x < 12)%nat -> ~ temp_name x.
Proof.
  intros Hl (a & b & E). apply (f_equal length) in E. rewrite !length_app in E.
  change (length temp_marker) with 12%nat in E. lia.
Qed.

Lemma kcomps_render_snoc p x : Forall path_name (p ++ [x]) -> kcomps (render (p ++ [x])) = p ++ [x].
Proof. apply kcomps_render. Qed.

Lemma last_not_dotdot p x : Forall path_name (p ++ [x]) -> x <> c!"..".
Proof. intros H. apply Forall_app in H as [_ H]. apply Forall_inv in H. apply H. Qed.

(** C4: whatever calls fail or transfer less than asked, and at whatever point the
    copy is given up, no file with a visible name (one without the temporary mark)
    ever has contents that no visible file had before, and every visible file
    outside the destination's name is as it was. *)
Theorem copy_file_never_tears ps x pd d attempts s :
  Forall path_name (ps ++ [x]) -> Forall path_name (pd ++ [d]) -> ~ temp_name x ->
  unedited s ->
  no_tear d (os_fs s)
    (os_fs (exec (syseba_copy_file (render (ps ++ [x])) (render (pd ++ [d])) attempts) s)).
Proof.
  intros Hs Hd Hx Hu.
  pose proof (tear_copy_file (render (ps ++ [x])) (render (pd ++ [d])) d ps pd x) as H.
  apply (H ltac:(by apply kcomps_render) (last_not_dotdot _ _ Hs) Hx ltac:(by apply kcomps_render)
           (last_not_dotdot _ _ Hd) attempts s), Hu.
Qed.

(** A copy of /data/notes.txt to /backup/notes.txt with a short write and a full
    disk. *)
Example copy_file_never_tears_witness :
  no_tear (c!"notes.txt") example_fs
    (os_fs (exec (syseba_copy_file (render ([c!"data"] ++ [c!"notes.txt"]))
                    (render ([c!"backup"] ++ [c!"notes.txt"])) 4)
              (example_host (repeat EvNone 12 ++ [EvShort 2; EvFault ENOSPC])))).
Proof.
  apply (copy_file_never_tears [c!"data"] (c!"notes.txt") [c!"backup"] (c!"notes.txt") 4
           (example_host (repeat EvNone 12 ++ [EvShort 2; EvFault ENOSPC]))).
  - apply names_b_spec. reflexivity.
  - apply names_b_spec. reflexivity.
  - apply short_not_temp. vm_compute. lia.
  - repeat constructor.
Defined.

(** C13: on a quiet host, the copy of a regular file succeeds; the destination then
    holds the source's bytes, permission bits and modification time; every other
    file is as it was, apart from the directories made for the destination. *)
Theorem copy_file_copies ps x m c pd d attempts s :
  Forall path_name (ps ++ [x]) -> Forall path_name (pd ++ [d]) ->
  quiet s -> dir_chain (os_fs s) ps -> os_fs s !! (ps ++ [x]) = Some (NReg m c) ->
  creatable (os_fs s) pd -> (forall mm, os_fs s !! (pd ++ [d]) <> Some (NDir mm)) ->
  zlen (render (pd ++ [d]) ++ temp_suffix s 0) < SYSEBA_PATH_MAX ->
  os_fs s !! (pd ++ [d ++ temp_suffix s 0]) = None -> 0 <= attempts ->
  exists s' m',
    syseba_copy_file (render (ps ++ [x])) (render (pd ++ [d])) attempts s = (true, s') /\
    os_fs s' !! (pd ++ [d]) = Some (NReg m' c) /\ copied_meta m m' /\
    (forall k, k <> pd ++ [d] -> only_new_dirs pd s s' k).
Proof. intros. by apply copy_file_quiet. Qed.

Lemma one_prefix {A} (x : A) a b : [x] = a ++ b -> a = [] \/ a = [x].
Proof. destruct a as [|y [|z a]]; intros E; simplify_eq/=; auto. Qed.

Lemma dir_chain_one fs x : is_dir_at fs [x] = true -> dir_chain fs [x].
Proof. intros H a b E. by apply one_prefix in E as [-> | ->]. Qed.

Example copy_file_copies_witness :
  exists s' m',
    syseba_copy_file (render ([c!"data"] ++ [c!"notes.txt"]))
      (render ([c!"backup"; c!"new"] ++ [c!"notes.txt"])) 4 (example_host []) = (true, s') /\
    os_fs s' !! ([c!"backup"; c!"new"] ++ [c!"notes.txt"]) = Some (NReg m' (c!"hello")) /\
    copied_meta example_meta m' /\
    (forall k, k <> [c!"backup"; c!"new"] ++ [c!"notes.txt"] ->
       only_new_dirs [c!"backup"; c!"new"] (example_host []) s' k).
Proof.
  apply (copy_file_copies [c!"data"] (c!"notes.txt") example_meta (c!"hello")
           [c!"backup"; c!"new"] (c!"notes.txt") 4 (example_host [])).
  - apply names_b_spec. reflexivity.
  - apply names_b_spec. reflexivity.
  - reflexivity.
  - by apply dir_chain_one.
  - vm_compute. reflexivity.
  - intros a b E. destruct a as [|y a]; [by left|]. injection E as <- E.
    apply one_prefix in E as [-> | ->]; [by left|]. by right.
  - intros mm. by vm_compute.
  - vm_compute. reflexivity.
  - vm_compute. reflexivity.
  - lia.
Defined.

(** The transfer loops always end: with the fuel of the model, which counts the
    bytes of the source and of every pending change to it, the copy never runs out
    of turns, whatever fails, is interrupted or is rewritten meanwhile. *)
Theorem copy_loop_terminates input output s :
  input <> output ->
  value (copy_loop (copy_fuel input s) input output 0 0) s <> OutOfFuel.
Proof. intros H. by apply copy_fuel_total. Qed.

Example copy_loop_terminates_witness :
  value (copy_loop (copy_fuel [c!"data"; c!"notes.txt"]
                      (example_host [EvFault EINTR; EvShort 2; EvShort 1]))
           [c!"data"; c!"notes.txt"] [c!"backup"; c!"old.txt"] 0 0)
    (example_host [EvFault EINTR; EvShort 2; EvShort 1]) <> OutOfFuel.
Proof. by apply copy_loop_terminates. Defined.

(** C35: what [syseba_path_real] returns is an absolute path of proper names that fits
    the caller's buffer, and it is its own normal form. *)
Theorem path_real_canonical_form cwd p size out :
  syseba_path_real cwd p size = Some out ->
  (exists names, Forall path_name names /\ out = render names) /\ zlen out + 1 <= size /\
  (size <= SYSEBA_PATH_MAX -> syseba_path_real cwd out size = Some out).
Proof.
  intros H. apply path_real_canonical in H as [(names & Hn & ->) Hs].
  split; [by exists names|]. split; [done|]. intros Hm. apply path_real_id; [done|lia|done].
Qed.

Example path_real_canonical_form_witness :
  (exists names, Forall path_name names /\ (c!"/srv/data") = render names) /\
  zlen (c!"/srv/data") + 1 <= 64 /\
  (64 <= SYSEBA_PATH_MAX ->
   syseba_path_real (Some (c!"/srv/tmp")) (c!"/srv/data") 64 = Some (c!"/srv/data")).
Proof.
  apply (path_real_canonical_form (Some (c!"/srv/tmp")) (c!".././data//x/..") 64).
  vm_compute. reflexivity.
Defined.
