(* ===== verification/Config.v ===== *)
(** * Configuration and path containment (src/src/config.c)

    The INI reader and writer, the validation of a configuration, and the three
    functions the rest of the program trusts for containment:
    [syseba_path_is_within], [syseba_safe_join] and [syseba_relative_path].

    A function that fills an [error] buffer returns the result code with the
    message before it is cut to the caller's buffer. *)

From S2P Require Import Prelude CString Paths Os Platform Fs.

Inductive syseba_result_t : Type :=
  | SYSEBA_OK
  | SYSEBA_ERR
  | SYSEBA_ERR_INVALID
  | SYSEBA_ERR_NOT_FOUND
  | SYSEBA_ERR_EXISTS
  | SYSEBA_ERR_PERMISSION
  | SYSEBA_ERR_BUSY
  | SYSEBA_ERR_CANCELLED.
#[export] Instance syseba_result_eq_dec : EqDecision syseba_result_t.
Proof. solve_decision. Defined.

Definition SYSEBA_MAX_THREADS : Z := 64.

Record syseba_config_t := Config {
  cfg_source : cstr;
  cfg_backup : cstr;
  cfg_restore : cstr;
  cfg_log_file : cstr;
  cfg_config_path : cstr;
  cfg_threads : Z;
}.

(** The text of an [errno], from the C library. *)
Class Strerror := strerror : errno -> cstr.

Notation failure := (prod syseba_result_t cstr).

(** ** Containment *)

(** [while (!syseba_fs_exists(probe)) probe = parent(probe)]: [None] is -1. *)
Fixpoint probe_existing (fuel : nat) (probe : cstr) : ST os (option cstr) :=
  match fuel with
  | O => ret None
  | S fuel' =>
      let* exists_ := syseba_fs_exists probe in
      if exists_ then ret (Some probe)
      else match syseba_parent_dir probe SYSEBA_PATH_MAX with
           | None => ret None
           | Some parent =>
               if streq parent probe then ret None
               else probe_existing fuel' (truncate SYSEBA_PATH_MAX parent)
           end
  end.

Definition syseba_path_resolve_links (path : cstr) (output_size : Z) : ST os (option cstr) :=
  let* real := syseba_path_real_os path SYSEBA_PATH_MAX in
  match real with
  | None => ret None
  | Some normalized =>
      if negb (fits SYSEBA_PATH_MAX normalized) then ret None
      else
        let* probe := probe_existing (S (length normalized)) normalized in
        match probe with
        | None => ret None
        | Some probe =>
            let* resolved := sys_realpath probe in
            match resolved with
            | None => ret None
            | Some resolved =>
                let suffix := drop (length probe) normalized in
                let output := resolved ++ suffix in
                if negb (fits output_size output) then ret None
                else syseba_path_real_os output output_size
            end
        end
  end.

(** The comparison of two resolved paths. *)
Definition within_text (base candidate : cstr) : bool :=
  starts_with base candidate &&
  ((match last base with Some c => ceq c SLASH | None => false end) ||
   match drop (length base) candidate with
   | [] => true
   | c :: _ => ceq c SLASH
   end).

Definition syseba_path_is_within (base candidate : cstr) : ST os bool :=
  let* normalized_base := syseba_path_resolve_links base SYSEBA_PATH_MAX in
  match normalized_base with
  | None => ret false
  | Some normalized_base =>
      let* normalized_candidate := syseba_path_resolve_links candidate SYSEBA_PATH_MAX in
      match normalized_candidate with
      | None => ret false
      | Some normalized_candidate => ret (within_text normalized_base normalized_candidate)
      end
  end.

Definition is_separator (c : ascii) : bool := ceq c SLASH || ceq c BACKSLASH.

Definition syseba_safe_join (base : cstr) (relative : option cstr) (size : Z) :
    ST os (option cstr) :=
  let cursor := drop_while is_separator (default [] relative) in
  let combined := base ++ SLASH :: cursor in
  if negb (fits SYSEBA_PATH_MAX combined) then ret None
  else
    let* output := syseba_path_real_os combined size in
    match output with
    | None => ret None
    | Some output =>
        let* within := syseba_path_is_within base output in
        ret (if within then Some output else None)
    end.

(** The pointer [normalized_path + base_length]: past the terminator of the
    buffer ([None]) when the path is shorter than the base. *)
Definition offset (n : nat) (s : cstr) : option cstr :=
  if (n <=? length s)%nat then Some (drop n s) else None.

(** What [syseba_relative_path] returns: an error, a relative path, or the bytes
    found past the end of the path in its buffer, which the model does not know. *)
Inductive relative_result : Type :=
  | RelInvalid
  | RelPath (relative : cstr)
  | RelOutOfBounds.

Definition syseba_relative_path (base path : cstr) (size : Z) : ST os relative_result :=
  let* normalized_base := syseba_path_real_os base SYSEBA_PATH_MAX in
  match normalized_base with
  | None => ret RelInvalid
  | Some normalized_base =>
      let* normalized_path := syseba_path_real_os path SYSEBA_PATH_MAX in
      match normalized_path with
      | None => ret RelInvalid
      | Some normalized_path =>
          let* within := syseba_path_is_within normalized_base normalized_path in
          if negb within then ret RelInvalid
          else
            match offset (length normalized_base) normalized_path with
            | None => ret RelOutOfBounds
            | Some relative =>
                let relative := drop_while is_separator relative in
                if negb (fits size relative) then ret RelInvalid
                else ret (RelPath (syseba_normalize_separators relative))
            end
      end
  end.

(** ** Reading the INI file *)

Definition syseba_trim (value : cstr) : cstr :=
  rev (drop_while isspace (rev (drop_while isspace value))).

Definition line_breaks : cstr := [RETURN; NEWLINE].

(** [strpbrk(value, "\r\n") != NULL]. *)
Definition has_line_break (value : cstr) : bool := has_any line_breaks value.

Definition SYSEBA_DEFAULT_CONFIG : cstr := c!"/etc/syseba/syseba.conf".
Definition SYSEBA_LEGACY_CONFIG : cstr := c!"/opt/syseba/syseba.conf".
Definition SYSEBA_DEFAULT_LOG : cstr := c!"/var/log/syseba/syseba.log".

(** The local variables of the parser. *)
Record parser := Parser {
  ps_source : cstr;
  ps_backup : cstr;
  ps_restore : cstr;
  ps_log_file : cstr;
  ps_threads : Z;
  ps_settings : bool;
  ps_found_settings : bool;
}.

Definition parser_init : parser :=
  Parser (c!"/dati") (c!"/backup") (c!"/restore") SYSEBA_DEFAULT_LOG 4 false false.

Definition at_line (message : cstr) (line_number : Z) : failure :=
  (SYSEBA_ERR_INVALID, message ++ dec line_number).

Definition threads_message : cstr :=
  (c!"threads must be an integer between 1 and ") ++ dec SYSEBA_MAX_THREADS.

(** The [threads] setting. *)
Definition parse_threads (value : cstr) : option Z :=
  let parsed := strtoul value in
  match pu_end parsed with
  | None => None
  | Some rest =>
      if pu_erange parsed || nonempty (syseba_trim rest)
         || (pu_value parsed <? 1) || (SYSEBA_MAX_THREADS <? pu_value parsed)
      then None else Some (pu_value parsed)
  end.

(** One [key = value] line of the [SETTINGS] section. *)
Definition config_setting (p : parser) (key value : cstr) (line_number : Z) :
    failure + parser :=
  let copy (set : cstr -> parser) :=
    if fits SYSEBA_PATH_MAX value then inr (set value)
    else inl (at_line (c!"Value too long at line ") line_number) in
  let 'Parser source backup restore log_file threads settings found := p in
  if strcaseeq key (c!"source") then
    copy (fun v => Parser v backup restore log_file threads settings found)
  else if strcaseeq key (c!"backup") then
    copy (fun v => Parser source v restore log_file threads settings found)
  else if strcaseeq key (c!"restore") then
    copy (fun v => Parser source backup v log_file threads settings found)
  else if strcaseeq key (c!"log") then
    copy (fun v => Parser source backup restore v threads settings found)
  else if strcaseeq key (c!"threads") then
    match parse_threads value with
    | None => inl (SYSEBA_ERR_INVALID, threads_message)
    | Some parsed => inr (Parser source backup restore log_file parsed settings found)
    end
  else inr p.

Definition with_settings (p : parser) (settings : bool) : parser :=
  Parser (ps_source p) (ps_backup p) (ps_restore p) (ps_log_file p) (ps_threads p)
         settings (ps_found_settings p || settings).

Definition BOM : cstr := [chr 239; chr 187; chr 191].
Definition skip_bom (line_number : Z) (line : cstr) : cstr :=
  if (line_number =? 1) && starts_with BOM line then drop 3 line else line.

(** The body of the loop, after the line is read. *)
Definition config_line (p : parser) (line : cstr) (line_number : Z) : failure + parser :=
  let trimmed := syseba_trim (skip_bom line_number line) in
  match trimmed with
  | [] => inr p
  | c :: rest =>
      if ceq c "#"%char || ceq c ";"%char then inr p
      else if ceq c "["%char then
        match strchr "]"%char trimmed with
        | None => inl (at_line (c!"Malformed section at line ") line_number)
        | Some (section, _) =>
            inr (with_settings p (strcaseeq (drop 1 section) (c!"SETTINGS")))
        end
      else if negb (ps_settings p) then inr p
      else
        match strchr "="%char trimmed with
        | None => inl (at_line (c!"Malformed setting at line ") line_number)
        | Some (key, value) =>
            config_setting p (syseba_trim key) (syseba_trim value) line_number
        end
  end.

Definition LINE_SIZE : Z := SYSEBA_PATH_MAX + 128.

(** [while (fgets(line, sizeof(line), file) != NULL)]. *)
Fixpoint config_lines (fuel : nat) (p : parser) (file : stream) (line_number : Z) :
    failure + parser :=
  match fuel with
  | O => inr p
  | S fuel' =>
      match fgets LINE_SIZE file with
      | None =>
          if sm_failed file then inl (SYSEBA_ERR, c!"Unable to read configuration")
          else inr p
      | Some (line, file') =>
          let line_number := line_number + 1 in
          if negb (existsb (ceq NEWLINE) line) && (zlen line =? LINE_SIZE - 1)
             && negb (feof_next file')
          then inl (SYSEBA_ERR_INVALID,
                    (c!"Configuration line ") ++ dec line_number ++ c!" is too long")
          else
            match config_line p line line_number with
            | inl e => inl e
            | inr p' => config_lines fuel' p' file' line_number
            end
      end
  end.

(** Every turn reads at least one byte. *)
Definition config_parse (file : stream) : failure + parser :=
  match config_lines (S (length (sm_data file))) parser_init file 0 with
  | inl e => inl e
  | inr p =>
      if negb (ps_found_settings p)
      then inl (SYSEBA_ERR_INVALID, c!"Missing [SETTINGS] section")
      else if negb (nonempty (ps_source p)) || negb (nonempty (ps_backup p))
              || negb (nonempty (ps_restore p)) || negb (nonempty (ps_log_file p))
      then inl (SYSEBA_ERR_INVALID, c!"source, backup, restore and log cannot be empty")
      else inr p
  end.

Definition syseba_resolve_config_path (base value : cstr) (size : Z) : ST os (option cstr) :=
  if absolute value then syseba_path_real_os value size
  else
    let combined := base ++ SLASH :: value in
    if negb (fits SYSEBA_PATH_MAX combined) then ret None
    else syseba_path_real_os combined size.

(** ** Validation *)

Definition config_values (config : syseba_config_t) : list cstr :=
  [cfg_source config; cfg_backup config; cfg_restore config; cfg_log_file config;
   cfg_config_path config].

(** [a || b] of calls: the second is made only when the first is false. *)
Definition or_else (a b : ST os bool) : ST os bool :=
  let* x := a in if x then ret true else b.

Definition syseba_config_validate (config : syseba_config_t) : ST os (option failure) :=
  let source := cfg_source config in
  let backup := cfg_backup config in
  let restore := cfg_restore config in
  if existsb has_line_break (config_values config) then
    ret (Some (SYSEBA_ERR_INVALID, c!"Configuration paths cannot contain line breaks"))
  else
    let* directory := syseba_fs_is_directory source in
    if negb directory then
      ret (Some (SYSEBA_ERR_NOT_FOUND,
                 (c!"source does not exist or is not a directory: ") ++ source))
    else if streq source backup || streq source restore || streq backup restore then
      ret (Some (SYSEBA_ERR_INVALID,
                 c!"source, backup and restore must be different directories"))
    else
      let* nested :=
        or_else (syseba_path_is_within source backup)
          (or_else (syseba_path_is_within backup source)
            (or_else (syseba_path_is_within source restore)
              (or_else (syseba_path_is_within restore source)
                (or_else (syseba_path_is_within backup restore)
                         (syseba_path_is_within restore backup))))) in
      if nested then
        ret (Some (SYSEBA_ERR_INVALID,
                   c!"source, backup and restore cannot contain one another"))
      else
        let* log_inside := syseba_path_is_within source (cfg_log_file config) in
        if log_inside then
          ret (Some (SYSEBA_ERR_INVALID, c!"log file cannot be inside source"))
        else if (cfg_threads config <? 1) || (SYSEBA_MAX_THREADS <? cfg_threads config) then
          ret (Some (SYSEBA_ERR_INVALID,
                     (c!"threads must be between 1 and ") ++ dec SYSEBA_MAX_THREADS))
        else ret None.

(** Resolve the four paths of a configuration; stop at the first failure. *)
Definition resolve_paths (base source backup restore log_file : cstr) :
    ST os (option (cstr * cstr * cstr * cstr)) :=
  let* s := syseba_resolve_config_path base source SYSEBA_PATH_MAX in
  match s with None => ret None | Some s =>
  let* b := syseba_resolve_config_path base backup SYSEBA_PATH_MAX in
  match b with None => ret None | Some b =>
  let* r := syseba_resolve_config_path base restore SYSEBA_PATH_MAX in
  match r with None => ret None | Some r =>
  let* l := syseba_resolve_config_path base log_file SYSEBA_PATH_MAX in
  match l with None => ret None | Some l => ret (Some (s, b, r, l))
  end end end end.

Definition validated (config : syseba_config_t) : ST os (failure + syseba_config_t) :=
  let* result := syseba_config_validate config in
  ret match result with Some e => inl e | None => inr config end.

Definition syseba_config_load `{Strerror} (path : cstr) :
    ST os (failure + syseba_config_t) :=
  let* config_path := syseba_path_real_os path SYSEBA_PATH_MAX in
  match config_path with
  | None => ret (inl (SYSEBA_ERR_INVALID, (c!"Invalid configuration path: ") ++ path))
  | Some config_path =>
      match syseba_parent_dir config_path SYSEBA_PATH_MAX with
      | None => ret (inl (SYSEBA_ERR_INVALID, (c!"Invalid configuration path: ") ++ path))
      | Some base =>
          let* opened := syseba_open_regular_read config_path in
          match opened with
          | None =>
              let* e := get_errno in
              ret (inl (SYSEBA_ERR_NOT_FOUND,
                        (c!"Unable to open configuration ") ++ config_path ++ c!": "
                          ++ strerror e))
          | Some (k, _) =>
              let* file := sys_stream k in
              match config_parse file with
              | inl e => ret (inl e)
              | inr p =>
                  let* paths := resolve_paths base (ps_source p) (ps_backup p)
                                  (ps_restore p) (ps_log_file p) in
                  match paths with
                  | None =>
                      ret (inl (SYSEBA_ERR_INVALID,
                                c!"A configured path is invalid or too long"))
                  | Some (source, backup, restore, log_file) =>
                      validated (Config source backup restore log_file config_path
                                        (ps_threads p))
                  end
              end
          end
      end
  end.

Definition syseba_config_normalize (config : syseba_config_t) :
    ST os (failure + syseba_config_t) :=
  let invalid := inl (SYSEBA_ERR_INVALID, c!"A configuration path is invalid or too long") in
  if negb (nonempty (cfg_config_path config))
     || has_line_break (cfg_config_path config) || has_line_break (cfg_source config)
     || has_line_break (cfg_backup config) || has_line_break (cfg_restore config)
     || has_line_break (cfg_log_file config)
  then ret invalid
  else
    let* config_path := syseba_path_real_os (cfg_config_path config) SYSEBA_PATH_MAX in
    match config_path with
    | None => ret invalid
    | Some config_path =>
        match syseba_parent_dir config_path SYSEBA_PATH_MAX with
        | None => ret invalid
        | Some base =>
            let* paths := resolve_paths base (cfg_source config) (cfg_backup config)
                            (cfg_restore config) (cfg_log_file config) in
            match paths with
            | None => ret invalid
            | Some (source, backup, restore, log_file) =>
                validated (Config source backup restore log_file config_path
                                  (cfg_threads config))
            end
        end
    end.

(** ** Writing the INI file *)

Definition nl : cstr := [NEWLINE].

Definition config_text (config : syseba_config_t) : cstr :=
  (c!"# SySeBa configuration") ++ nl ++ (c!"[SETTINGS]") ++ nl ++
  (c!"source = ") ++ cfg_source config ++ nl ++
  (c!"backup = ") ++ cfg_backup config ++ nl ++
  (c!"restore = ") ++ cfg_restore config ++ nl ++
  (c!"log = ") ++ cfg_log_file config ++ nl ++
  (c!"threads = ") ++ dec (cfg_threads config) ++ nl.

(** [fprintf], [fflush], [fsync] and [fclose] of a file opened for this: [true]
    when all succeed. *)
Fixpoint write_all (fuel : nat) (k : ppath) (off : Z) (text : cstr) : ST os bool :=
  match fuel with
  | O => ret false
  | S fuel' =>
      match text with
      | [] => ret true
      | _ =>
          let* n := sys_write k off text in
          match n with
          | None => ret false
          | Some n => if n <=? 0 then ret false
                      else write_all fuel' k (off + n) (drop (Z.to_nat n) text)
          end
      end
  end.

Definition write_file (k : ppath) (text : cstr) : ST os bool :=
  let* written := write_all (S (length text)) k 0 text in
  let* flushed := (if written then sys_sync else ret false) in
  let* closed := sys_sync in
  ret (flushed && closed).

Definition config_temporary (config_path : cstr) (mono : Z) : cstr :=
  config_path ++ (c!".tmp.") ++ dec (wrap64 mono).

Definition syseba_config_save `{Strerror} (config : syseba_config_t) :
    ST os (option failure) :=
  let* normalized := syseba_config_normalize config in
  match normalized with
  | inl e => ret (Some e)
  | inr normalized =>
      let unprepared := Some (SYSEBA_ERR, c!"Unable to prepare configuration file") in
      match syseba_parent_dir (cfg_config_path normalized) SYSEBA_PATH_MAX with
      | None => ret unprepared
      | Some parent =>
          let* made := syseba_mkdirs parent 488 in
          if negb made then ret unprepared
          else
            let* mono := sys_monotonic in
            let temporary := config_temporary (cfg_config_path normalized) mono in
            if negb (fits SYSEBA_PATH_MAX temporary) then ret unprepared
            else
              let* file := syseba_open_exclusive_write temporary 416 in
              match file with
              | None =>
                  let* e := get_errno in
                  ret (Some (SYSEBA_ERR_PERMISSION,
                             (c!"Unable to write configuration: ") ++ strerror e))
              | Some k =>
                  let* written := write_file k (config_text normalized) in
                  if negb written then
                    sys_unlink temporary ;;;
                    ret (Some (SYSEBA_ERR, c!"Unable to flush configuration"))
                  else
                    sys_chmod temporary 416 ;;;
                    (let* replaced :=
                       syseba_atomic_replace temporary (cfg_config_path normalized) in
                     if replaced then ret None
                     else
                       sys_unlink temporary ;;;
                       (let* e := get_errno in
                        ret (Some (SYSEBA_ERR,
                               (c!"Unable to replace configuration: ") ++ strerror e))))
              end
      end
  end.

(** ** Finding the file *)

Definition syseba_config_candidate (path : option cstr) (size : Z) : ST os (option cstr) :=
  match path with
  | None => ret None
  | Some [] => ret None
  | Some path =>
      let* readable := sys_access path in
      if readable then syseba_path_real_os path size else ret None
  end.

Fixpoint first_candidate (paths : list (option cstr)) (size : Z) : ST os (option cstr) :=
  match paths with
  | [] => set_errno ENOENT ;;; ret None
  | p :: rest =>
      let* found := syseba_config_candidate p size in
      match found with Some out => ret (Some out) | None => first_candidate rest size end
  end.

(** [environment] is [getenv("SYSEBA_CONFIG")]. *)
Definition syseba_config_find (environment requested : option cstr) (size : Z) :
    ST os (option cstr) :=
  match requested with
  | Some (c :: r) => syseba_config_candidate (Some (c :: r)) size
  | _ =>
      first_candidate
        [environment; Some SYSEBA_DEFAULT_CONFIG; Some SYSEBA_LEGACY_CONFIG;
         Some (c!"syseba.conf")] size
  end.
