(* ===== verification/ConfigFacts.v ===== *)
(** * Containment

    [syseba_path_is_within] compares resolved paths, and on resolved paths the
    comparison of the texts is the prefix order of the names: what
    [syseba_safe_join] accepts lies, for the kernel, under the base. *)

From S2P Require Import Prelude CString Paths Os OsFacts Platform Fs FsFacts CopyFacts Config.

(** ** Texts and names *)

Lemma split_on_app_sep c a b : split_on c (a ++ c :: b) = split_on c a ++ split_on c b.
Proof.
  induction a as [|x a IH]; simpl.
  - by rewrite ceq_refl.
  - destruct (ceq x c); [by rewrite IH|]. rewrite IH.
    pose proof (split_on_nonempty c a). by destruct (split_on c a).
Qed.

Lemma strtok_all_app_sep c a b : strtok_all c (a ++ c :: b) = strtok_all c a ++ strtok_all c b.
Proof. unfold strtok_all. by rewrite split_on_app_sep, List.filter_app. Qed.

Lemma strtok_render names :
  Forall path_name names -> strtok_all SLASH (render names) = names.
Proof.
  intros H. destruct (render_head names) as [r Hr]. rewrite Hr.
  rewrite strtok_all_cons_sep. rewrite <- (strtok_drop_render names) by done.
  by rewrite Hr.
Qed.

Lemma render_last_sep names :
  Forall path_name names -> last (render names) = Some SLASH -> names = [].
Proof.
  intros Hn Hl. destruct names as [|f fs _] using rev_ind; [done|]. exfalso.
  apply Forall_app in Hn as [_ Hf]. apply Forall_inv in Hf. destruct Hf as (Hc & _).
  assert (exists out, render (fs ++ [f]) = out ++ f) as [out E].
  { destruct fs as [|g gs]; [exists [SLASH]; simpl; by rewrite app_nil_r|].
    rewrite render_app_cons by done. exists (render (g :: gs) ++ [SLASH]).
    by rewrite <- app_assoc. }
  pose proof (ends_with_sep_part out f Hc) as He. unfold ends_with_sep in He.
  rewrite <- E, Hl in He. by rewrite ceq_refl in He.
Qed.

Lemma render_app_join a b : a <> [] -> render (a ++ b) = render a ++ join_with SLASH b.
Proof. intros H. destruct a; [done|]. simpl. by rewrite join_with_app, app_assoc. Qed.

(** The text comparison is the prefix order on names. *)
Lemma within_text_spec b c :
  Forall path_name b -> Forall path_name c ->
  within_text (render b) (render c) = true <-> b `prefix_of` c.
Proof.
  intros Hb Hc. unfold within_text. rewrite andb_true_iff, starts_with_true. split.
  - intros [Hp Ht].
    destruct (last (render b)) as [z|] eqn:El; simpl in Ht.
    + destruct (ceq z SLASH) eqn:Ez.
      { apply ceq_true in Ez as ->. apply render_last_sep in El as ->; [|done].
        apply prefix_nil. }
      simpl in Ht. destruct Hp as [rest E]. rewrite E, drop_app_length in Ht.
      rewrite <- (strtok_render b), <- (strtok_render c), E by done.
      destruct rest as [|x r]; [by rewrite app_nil_r|].
      apply ceq_true in Ht as ->. rewrite strtok_all_app_sep. by apply prefix_app_r.
    + apply last_None in El. destruct (render_head b) as [r Hr]. congruence.
  - intros [r ->]. destruct b as [|x b].
    + cbn [app render last]. rewrite ceq_refl, orb_true_l.
      destruct (render_head r) as [z ->]. split; [by exists z|done].
    + rewrite render_app_join by done. split.
      * by apply prefix_app_r.
      * apply orb_true_iff. right. rewrite drop_app_length. by destruct r.
Qed.

(** ** What the kernel finds *)

(** Every name on the file system is one that the program keeps as it is: it takes a
    backslash for a separator, so no name has one (see [backslash_leaves_base] of ConfigSpec
    for what happens otherwise). *)
Definition names_ok (fs : fsmap) : Prop :=
  forall k n, fs !! k = Some n -> Forall path_name k.

Lemma Forall_removelast {A} (P : A -> Prop) l : Forall P l -> Forall P (removelast l).
Proof. intros H. rewrite removelast_firstn_len. by apply Forall_take. Qed.

Lemma namei_names l fs follow cur comps k :
  names_ok fs -> Forall path_name cur -> namei l fs follow cur comps = Found k ->
  Forall path_name k.
Proof.
  intros Hfs. namei_induction l cur comps. intros Hc H.
  destruct comps as [|c rest]; [rewrite namei_nil in H; by injection H as <-|].
  namei_cases H.
  { eapply IHc; [|by apply Forall_removelast|exact H]. simpl. lia. }
  cbn zeta in H. destruct (fs !! (cur ++ [c])) as [n|] eqn:E; [|by destruct rest].
  pose proof (Hfs _ _ E) as Hk.
  destruct n; try (by eapply IHc; [|exact Hk|exact H]; simpl; lia).
  destruct (negb follow && _); [by injection H as <-|]. destruct l as [|l]; [done|].
  eapply (IHl l); [lia| |exact H]. by destruct (absolute target).
Qed.

(** A path that resolves through its last link also resolves to that link. *)
Lemma namei_nofollow l fs cur comps k :
  namei l fs true cur comps = Found k -> exists k', namei l fs false cur comps = Found k'.
Proof.
  namei_induction l cur comps. intros H.
  destruct comps as [|c rest]; [rewrite namei_nil; eauto|].
  rewrite namei_cons. namei_cases H; rewrite Ed, Eu; cbn [negb].
  { apply IHc; [simpl; lia|done]. }
  cbn zeta in H |- *. destruct (fs !! (cur ++ [c])) as [n|] eqn:E; [|by destruct rest].
  destruct n; try (by apply IHc; [simpl; lia|]).
  destruct rest as [|x rest]; [by eexists|]. cbn [negb andb] in H |- *.
  destruct l as [|l]; [done|]. apply IHl; [lia|done].
Qed.

(** A missing last name lies in the directory that the rest of the path names. *)
Lemma namei_missing_parent l fs cur comps x k :
  x <> c!".." -> namei l fs false cur (comps ++ [x]) = Missing k ->
  exists kp, namei l fs true cur comps = Found kp /\ k = kp ++ [x].
Proof.
  intros Hx. apply streq_false in Hx. namei_induction l cur comps. intros H.
  destruct comps as [|c rest].
  - simpl app in H. namei_cases H; [congruence|]. cbn zeta in H.
    exists cur. rewrite namei_nil. split; [done|].
    destruct (fs !! (cur ++ [x])) as [n|]; [|by injection H as <-].
    destruct n; rewrite ?namei_nil in H; done.
  - simpl app in H. rewrite namei_cons. namei_cases H; rewrite Ed, Eu; cbn [negb].
    { apply IHc; [simpl; lia|done]. }
    cbn zeta in H |- *. destruct (fs !! (cur ++ [c])) as [n|] eqn:E; [|by destruct rest].
    destruct n; try (by apply IHc; [simpl; lia|]).
    assert (match rest ++ [x] with [] => true | _ => false end = false) as Hr
      by (by destruct rest).
    rewrite Hr, andb_false_r in H. cbn [negb andb].
    destruct l as [|l]; [done|]. apply IHl; [lia|]. by rewrite <- app_assoc.
Qed.

(** ** Calls that only look *)

(** Everything but [errno] is as before. *)
Definition same_world (s s' : os) : Prop := same_host s s' /\ os_fs s' = os_fs s.
#[export] Instance same_world_preorder : PreOrder same_world.
Proof.
  split; [by intros s|]. intros s1 s2 s3 [H1 E1] [H2 E2].
  split; [by etransitivity|by rewrite E2].
Qed.

Lemma same_world_errno s e : same_world s (with_errno e s).
Proof. done. Qed.
Lemma same_world_quiet s s' : same_world s s' -> quiet s -> quiet s'.
Proof. intros [H _]. by apply same_host_quiet. Qed.
Lemma same_world_resolve s s' follow p :
  same_world s s' -> resolve s' follow p = resolve s follow p.
Proof. intros [(_ & Hc & _) Hf]. by apply resolve_congr. Qed.

Lemma lstat_quiet s p :
  quiet s ->
  exists s', sys_lstat p s =
    (match resolve s false p with Found k => node_at (os_fs s) k | _ => None end, s') /\
    same_world s s'.
Proof.
  intros Hq. unfold sys_lstat. rewrite syscall_quiet by done.
  destruct (resolve s false p); eexists; (split; [reflexivity|done]).
Qed.

Lemma realpath_quiet s p :
  quiet s ->
  exists s', sys_realpath p s =
    (match resolve s true p with Found k => Some (render k) | _ => None end, s') /\
    same_world s s'.
Proof.
  intros Hq. unfold sys_realpath. rewrite syscall_quiet by done.
  destruct (resolve s true p); eexists; (split; [reflexivity|]); try done.
  by destruct (os_realpath_errno s).
Qed.

Lemma path_real_os_absolute p size s :
  absolute p = true -> syseba_path_real_os p size s = (syseba_path_real None p size, s).
Proof. intros H. unfold syseba_path_real_os. by rewrite H. Qed.

(** The file system is a tree. *)
Definition tree_ok (fs : fsmap) : Prop :=
  forall k n, fs !! k = Some n -> k <> [] -> is_dir_at fs (removelast k) = true.

Lemma is_dir_node fs k : is_dir_at fs k = true -> is_Some (node_at fs k).
Proof. destruct k; simpl; [eauto|]. by destruct (fs !! (l :: k)); eauto. Qed.

Lemma namei_node l fs follow cur comps k :
  tree_ok fs -> is_Some (node_at fs cur) -> namei l fs follow cur comps = Found k ->
  is_Some (node_at fs k).
Proof.
  intros Ht. namei_induction l cur comps. intros Hc H.
  destruct comps as [|c rest]; [rewrite namei_nil in H; by injection H as <-|].
  namei_cases H.
  { eapply IHc; [|clear H|exact H]; [simpl; lia|]. apply is_dir_node.
    destruct cur as [|y cur]; [done|]. destruct Hc as [n Hn]. by eapply Ht. }
  cbn zeta in H. destruct (fs !! (cur ++ [c])) as [n|] eqn:E; [|by destruct rest].
  assert (is_Some (node_at fs (cur ++ [c]))) as Hk by (rewrite node_at_snoc; eauto).
  destruct n; try (by eapply IHc; [|exact Hk|exact H]; simpl; lia).
  destruct (negb follow && _); [by injection H as <-|]. destruct l as [|l]; [done|].
  eapply (IHl l); [lia| |exact H]. destruct (absolute target); [eauto|done].
Qed.

(** ** Resolving the links of a canonical path *)

Definition unseen (s : os) (names : ppath) : Prop :=
  forall k, resolve s false (render names) = Found k -> is_Some (node_at (os_fs s) k) -> False.

Lemma unseen_world s s' names : same_world s s' -> unseen s' names -> unseen s names.
Proof.
  intros Hw H k Hk. rewrite <- (same_world_resolve s s') in Hk by done.
  destruct Hw as [_ <-]. by apply H.
Qed.

Lemma probe_quiet fuel names s p s' :
  quiet s -> Forall path_name names -> zlen (render names) < SYSEBA_PATH_MAX ->
  probe_existing fuel (render names) s = (Some p, s') ->
  same_world s s' /\ exists pn sn, names = pn ++ sn /\ p = render pn /\
    (forall a b, sn = a ++ b -> a <> [] -> unseen s (pn ++ a)).
Proof.
  revert names s. induction fuel as [|fuel IH]; intros names s Hq Hn Hl H; [done|].
  cbn [probe_existing] in H. unfold bind, syseba_fs_exists, bind in H.
  destruct (lstat_quiet s (render names) Hq) as (s1 & E1 & Hw1). rewrite E1 in H.
  destruct (match resolve s false (render names) with Found k => node_at (os_fs s) k
    | _ => None end) as [n|] eqn:En.
  { injection H as <- <-. split; [done|]. exists names, []. rewrite app_nil_r.
    split_and!; [done..|]. intros a b E. symmetry in E. by apply app_eq_nil in E as [-> _]. }
  cbn [ret] in H. destruct names as [|x names _] using rev_ind.
  { rewrite parent_dir_root in H by (by vm_compute). by rewrite streq_refl in H. }
  pose proof Hn as Hx. apply Forall_app in Hx as [Hn' Hx]. apply Forall_inv in Hx.
  rewrite parent_dir_render in H by done.
  destruct (streq _ _) eqn:Es; [done|].
  assert (zlen (render names) < SYSEBA_PATH_MAX) as Hl'.
  { destruct names as [|y ns]; [by vm_compute|]. rewrite render_app_cons in Hl by done. zlen_lia. }
  rewrite truncate_fits in H by (by apply Z.ltb_lt).
  apply IH in H as (Hw2 & pn & sn & -> & -> & Hun); [|by eapply same_world_quiet|done|done].
  split; [by etransitivity|]. exists pn, (sn ++ [x]). rewrite app_assoc. split_and!; [done..|].
  intros a b E Ha. destruct b as [|y b _] using rev_ind.
  - rewrite app_nil_r in E. subst a. intros k Hk [n Hnode]. rewrite app_assoc in Hk. rewrite Hk in En.
    congruence.
  - rewrite app_assoc in E. apply app_inj_tail in E as [-> _].
    apply (unseen_world s s1); [done|]. by apply (Hun a b).
Qed.

Lemma path_real_value cwd p size out :
  absolute p = true -> syseba_path_real cwd p size = Some out ->
  out = render (fold_left path_step (strtok_all SLASH (syseba_normalize_separators p)) []).
Proof.
  intros Ha H. unfold syseba_path_real, path_absolute in H. unfold absolute in Ha.
  rewrite Ha in H. destruct (fits _ p); [|done]. destruct (size <=? 1) eqn:E; [done|]. bool_hyps.
  pose proof (parts_are_names p) as Hp.
  rewrite path_emit_root in H by (done || by apply path_name_component).
  destruct (_ <=? size); [|done]. injection H as <-. f_equal. f_equal.
  destruct p as [|c p]; [done|]. apply ceq_true in Ha as ->. simpl drop.
  cbn [syseba_normalize_separators map].
  change (if ceq SLASH BACKSLASH then SLASH else SLASH) with SLASH.
  by rewrite drop_0, strtok_all_cons_sep.
Qed.

Lemma strtok_join names :
  Forall path_name names -> strtok_all SLASH (join_with SLASH names) = names.
Proof. intros H. by apply strtok_all_join, path_name_component. Qed.

(** Joining names to a canonical path. *)
Lemma path_real_join cwd k sn size out :
  Forall path_name k -> Forall path_name sn ->
  syseba_path_real cwd (render k ++ join_with SLASH sn) size = Some out ->
  out = render (k ++ sn).
Proof.
  intros Hk Hs H. destruct k as [|x k].
  - apply path_real_value in H; [|done]. rewrite normalize_id in H.
    + cbn [render app] in H. rewrite strtok_all_cons_sep, strtok_join in H by done.
      by rewrite path_steps_id in H.
    + apply not_elem_of_app. split; [by apply (render_no_backslash [])|].
      by apply join_no_backslash.
  - rewrite <- render_app_join in H by done.
    assert (Forall path_name ((x :: k) ++ sn)) as Hn by (by apply Forall_app_2).
    apply path_real_value in H; [|apply absolute_render].
    rewrite normalize_id in H by (by apply render_no_backslash).
    by rewrite strtok_render, path_steps_id in H.
Qed.

Lemma path_real_join_some cwd k sn :
  Forall path_name k -> Forall path_name sn ->
  zlen (render k) + zlen (join_with SLASH sn) < SYSEBA_PATH_MAX ->
  syseba_path_real cwd (render k ++ join_with SLASH sn) SYSEBA_PATH_MAX = Some (render (k ++ sn)).
Proof.
  intros Hk Hs Hl. destruct k as [|x k].
  - unfold syseba_path_real, path_absolute. cbn [render app]. rewrite ceq_refl.
    assert (fits SYSEBA_PATH_MAX (SLASH :: join_with SLASH sn) = true) as ->.
    { apply Z.ltb_lt. cbn [render] in Hl. zlen_lia. }
    rewrite normalize_id.
    2: { apply not_elem_of_cons. split; [done|]. by apply join_no_backslash. }
    simpl drop. rewrite drop_0, strtok_join, path_steps_id by done. simpl app.
    change (SYSEBA_PATH_MAX <=? 1) with false. cbv match.
    rewrite path_emit_root by (done || by apply path_name_component).
    assert ((zlen (render sn) + 1 <=? SYSEBA_PATH_MAX) = true) as ->; [|done].
    apply Z.leb_le. destruct sn as [|y sn]; [done|]. cbn [render] in *. zlen_lia.
  - rewrite <- render_app_join by done. apply path_real_id.
    + by apply Forall_app_2.
    + rewrite render_app_join by done. zlen_lia.
    + rewrite render_app_join by done. zlen_lia.
Qed.

Lemma resolve_links_quiet names size s out s' :
  quiet s -> names_ok (os_fs s) -> Forall path_name names ->
  syseba_path_resolve_links (render names) size s = (Some out, s') ->
  same_world s s' /\ exists pn sn kp, names = pn ++ sn /\
    resolve s true (render pn) = Found kp /\ out = render (kp ++ sn) /\
    Forall path_name (kp ++ sn) /\
    (forall a b, sn = a ++ b -> a <> [] -> unseen s (pn ++ a)).
Proof.
  intros Hq Hfs Hn H. unfold syseba_path_resolve_links, bind in H.
  rewrite path_real_os_absolute in H by apply absolute_render.
  destruct (syseba_path_real None (render names) SYSEBA_PATH_MAX) as [norm|] eqn:En; [|done].
  apply path_real_value in En; [|apply absolute_render].
  rewrite normalize_id, strtok_render, path_steps_id in En
    by (done || by apply render_no_backslash).
  simpl in En. subst norm. destruct (fits _ _) eqn:Ef; [|done]. cbn [negb] in H.
  apply Z.ltb_lt in Ef.
  destruct (probe_existing _ _ _) as [[p|] s1] eqn:Ep; [|done].
  apply probe_quiet in Ep as (Hw1 & pn & sn & -> & -> & Hno); [|done..].
  destruct (realpath_quiet s1 (render pn)) as (s2 & E2 & Hw2);
    [by eapply same_world_quiet|]. rewrite E2 in H.
  rewrite (same_world_resolve s s1) in H by done.
  destruct (resolve s true (render pn)) as [kp| |] eqn:Er; [|done..].
  apply Forall_app in Hn as [Hpn Hsn].
  assert (Forall path_name kp) as Hkp.
  { rewrite resolve_render in Er by done. by eapply namei_names; [| |exact Er]. }
  destruct (fits size _) eqn:Ef2; [|done]. cbn [negb] in H.
  rewrite path_real_os_absolute in H.
  2: { destruct (render_head kp) as [r ->]. done. }
  injection H as Hout <-. split; [by etransitivity|].
  exists pn, sn, kp. split; [done|]. split; [done|].
  split; [|by split; [apply Forall_app_2|]].
  destruct pn as [|x pn].
  - assert (kp = []) as ->.
    { rewrite resolve_render, namei_nil in Er by done. by injection Er as <-. }
    destruct sn as [|y sn].
    + apply path_real_value in Hout; [|done]. rewrite Hout. done.
    + simpl in Hout. rewrite drop_0 in Hout. change (SLASH :: y ++ join_with SLASH sn)
        with (render [] ++ drop 1 (join_with SLASH (y :: sn))) in Hout.
      apply path_real_value in Hout; [|done].
      change (render [] ++ drop 1 (join_with SLASH (y :: sn))) with (render (y :: sn)) in Hout.
      rewrite normalize_id, strtok_render, path_steps_id in Hout
        by (done || by apply render_no_backslash). done.
  - rewrite render_app_join, drop_app_length in Hout by done.
    by apply path_real_join in Hout.
Qed.

(** ** [syseba_safe_join] *)

Lemma resolve_nofollow s names k :
  tree_ok (os_fs s) -> Forall path_name names -> resolve s true (render names) = Found k ->
  unseen s names -> False.
Proof.
  intros Ht Hn H Hu. rewrite resolve_render in H by done.
  apply namei_nofollow in H as [k' H]. apply (Hu k').
  - by rewrite resolve_render.
  - eapply namei_node; [done| |exact H]. by eexists.
Qed.

(** The resolved text of a path that the kernel finds, or whose last name it
    would create. *)
Lemma resolve_links_found names size s out s' k :
  quiet s -> names_ok (os_fs s) -> tree_ok (os_fs s) -> Forall path_name names ->
  syseba_path_resolve_links (render names) size s = (Some out, s') ->
  resolve s true (render names) = Found k \/ resolve s false (render names) = Missing k ->
  out = render k /\ Forall path_name k.
Proof.
  intros Hq Hfs Ht Hn H Hk.
  apply resolve_links_quiet in H as (Hw & pn & sn & kp & -> & Hr & -> & Hkp & Hun); [|done..].
  destruct Hk as [Hk|Hk].
  - destruct sn as [|x sn].
    + rewrite app_nil_r in *. rewrite Hr in Hk. by injection Hk as <-.
    + exfalso. eapply resolve_nofollow; [done|exact Hn|exact Hk|]. apply (Hun (x :: sn) []); [|done].
      by rewrite app_nil_r.
  - destruct sn as [|x sn _] using rev_ind.
    + exfalso. rewrite app_nil_r in *. rewrite resolve_render in Hr, Hk by done.
      apply namei_nofollow in Hr as [k' Hr]. congruence.
    + rewrite app_assoc in *. pose proof Hn as Hn'.
      apply Forall_app in Hn' as [Hps Hx]. apply Forall_inv in Hx. destruct Hx as (_ & _ & _ & Hx).
      rewrite resolve_render in Hk by done.
      apply namei_missing_parent in Hk as (kq & Hq' & ->); [|done].
      assert (sn = []) as ->.
      { destruct sn as [|y sn]; [done|]. exfalso.
        eapply resolve_nofollow; [done|exact Hps|by rewrite resolve_render|].
        by apply (Hun (y :: sn) [x]). }
      rewrite app_nil_r in *. rewrite resolve_render, Hq' in Hr by done.
      by injection Hr as <-.
Qed.

Lemma safe_join_within names relative size s out s' kb k :
  quiet s -> names_ok (os_fs s) -> tree_ok (os_fs s) -> Forall path_name names ->
  syseba_safe_join (render names) relative size s = (Some out, s') ->
  resolve s true (render names) = Found kb ->
  resolve s true out = Found k \/ resolve s false out = Missing k ->
  kb `prefix_of` k.
Proof.
  intros Hq Hfs Ht Hn H Hb Hk. unfold syseba_safe_join in H.
  destruct (fits _ _) eqn:Ef; [|done]. cbn [negb] in H. unfold bind at 1 in H.
  rewrite path_real_os_absolute in H.
  2: { destruct (render_head names) as [r ->]. done. }
  destruct (syseba_path_real None _ size) as [o|] eqn:Er; [|done].
  apply path_real_canonical in Er as [(on & Hon & ->) _].
  unfold bind at 1 in H. destruct (syseba_path_is_within _ _ s) as [w s1] eqn:Ew.
  destruct w; [|done]. cbn in H. injection H as <- _.
  unfold syseba_path_is_within, bind at 1 in Ew.
  destruct (syseba_path_resolve_links (render names) _ s) as [[nb|] s2] eqn:E1; [|done].
  pose proof (resolve_links_quiet _ _ _ _ _ Hq Hfs Hn E1) as [Hw _].
  apply (resolve_links_found _ _ _ _ _ kb) in E1 as [-> Hkb]; [|auto..].
  unfold bind in Ew. destruct (syseba_path_resolve_links (render on) _ s2) as [[nc|] s3] eqn:E2;
    [|done].
  rewrite <- !(same_world_resolve s s2) in Hk by done.
  apply (resolve_links_found _ _ _ _ _ k) in E2 as [-> Hkk];
    [| by eapply same_world_quiet | by destruct Hw as [_ ->] | by destruct Hw as [_ ->] | done..].
  injection Ew as Ew _. by apply within_text_spec in Ew.
Qed.

(** ** [syseba_path_is_within] on paths that exist *)

Lemma path_real_os_id names size s :
  Forall path_name names -> zlen (render names) < SYSEBA_PATH_MAX -> zlen (render names) + 1 <= size ->
  syseba_path_real_os (render names) size s = (Some (render names), s).
Proof.
  intros. rewrite path_real_os_absolute by apply absolute_render. by rewrite path_real_id.
Qed.

Lemma resolve_links_exists names s k :
  quiet s -> names_ok (os_fs s) -> tree_ok (os_fs s) -> Forall path_name names ->
  zlen (render names) < SYSEBA_PATH_MAX -> zlen (render k) < SYSEBA_PATH_MAX ->
  resolve s true (render names) = Found k ->
  exists s', syseba_path_resolve_links (render names) SYSEBA_PATH_MAX s = (Some (render k), s') /\
    same_world s s'.
Proof.
  intros Hq Hfs Ht Hn Hl Hlk Hr. unfold syseba_path_resolve_links, bind at 1.
  rewrite path_real_os_id by (done || lia).
  assert (fits SYSEBA_PATH_MAX (render names) = true) as -> by (by apply Z.ltb_lt).
  cbn [negb probe_existing]. unfold bind, syseba_fs_exists, bind.
  destruct (lstat_quiet s (render names) Hq) as (s1 & -> & Hw1).
  assert (exists k' n, resolve s false (render names) = Found k' /\
            node_at (os_fs s) k' = Some n) as (k' & n & -> & ->).
  { rewrite resolve_render in Hr by done. apply namei_nofollow in Hr as [k' Hk].
    exists k'. rewrite resolve_render by done.
    assert (is_Some (node_at (os_fs s) k')) as [n Hnode]
      by (eapply namei_node; [done| |exact Hk]; by eexists).
    eauto. }
  cbn [ret].
  destruct (realpath_quiet s1 (render names)) as (s2 & -> & Hw2); [by eapply same_world_quiet|].
  rewrite (same_world_resolve s s1), Hr by done.
  assert (Forall path_name k) as Hk.
  { rewrite resolve_render in Hr by done. by eapply namei_names; [| |exact Hr]. }
  rewrite drop_all, app_nil_r.
  assert (fits SYSEBA_PATH_MAX (render k) = true) as -> by (by apply Z.ltb_lt).
  cbn [negb]. rewrite path_real_os_id by (done || lia).
  exists s2. split; [done|]. by etransitivity.
Qed.

Lemma is_within_exists b c s kb kc :
  quiet s -> names_ok (os_fs s) -> tree_ok (os_fs s) ->
  Forall path_name b -> Forall path_name c ->
  zlen (render b) < SYSEBA_PATH_MAX -> zlen (render c) < SYSEBA_PATH_MAX ->
  zlen (render kb) < SYSEBA_PATH_MAX -> zlen (render kc) < SYSEBA_PATH_MAX ->
  resolve s true (render b) = Found kb -> resolve s true (render c) = Found kc ->
  exists s', syseba_path_is_within (render b) (render c) s = (bool_decide (kb `prefix_of` kc), s') /\
    same_world s s'.
Proof.
  intros Hq Hfs Ht Hb Hc Hlb Hlc Hlkb Hlkc Hrb Hrc. unfold syseba_path_is_within, bind.
  destruct (resolve_links_exists b s kb) as (s1 & -> & Hw1); [done..|].
  destruct (resolve_links_exists c s1 kc) as (s2 & -> & Hw2);
    [by eapply same_world_quiet|by destruct Hw1 as [_ ->]|by destruct Hw1 as [_ ->]|done..| |].
  { by rewrite (same_world_resolve s s1). }
  exists s2. split; [|by etransitivity]. f_equal.
  assert (Forall path_name kb /\ Forall path_name kc) as [Hkb Hkc].
  { rewrite resolve_render in Hrb, Hrc by done.
    split; [by eapply namei_names; [| |exact Hrb]|by eapply namei_names; [| |exact Hrc]]. }
  pose proof (within_text_spec kb kc Hkb Hkc) as Hw.
  destruct (within_text _ _) eqn:E, (bool_decide _) eqn:Ed; bool_hyps; naive_solver.
Qed.

(** ** What validation accepts *)

Definition valid_config (c : syseba_config_t) : Prop :=
  existsb has_line_break (config_values c) = false /\
  cfg_source c <> cfg_backup c /\ cfg_source c <> cfg_restore c /\
  cfg_backup c <> cfg_restore c /\ 1 <= cfg_threads c <= SYSEBA_MAX_THREADS.

Lemma validate_valid c s s' :
  syseba_config_validate c s = (None, s') -> valid_config c.
Proof.
  intros H. unfold syseba_config_validate in H.
  destruct (existsb _ _) eqn:E1; [done|]. unfold bind at 1 in H.
  destruct (syseba_fs_is_directory _ s) as [[] s1] eqn:E2; [|done]. cbn [negb] in H.
  destruct (_ || _) eqn:E3 in H; [done|]. unfold bind at 1 in H.
  destruct (or_else _ _ s1) as [[] s2] eqn:E4; [done|]. unfold bind at 1 in H.
  destruct (syseba_path_is_within _ _ s2) as [[] s3] eqn:E5; [done|].
  destruct (_ || _) eqn:E6 in H; [done|]. bool_hyps.
  repeat match goal with E : streq _ _ = false |- _ => apply streq_false in E end.
  split_and!; try done; lia.
Qed.

(** Three directories that exist. *)
Record dirs_exist (c : syseba_config_t) (s : os) (ks kb kr : ppath) := DirsExist {
  de_fs : names_ok (os_fs s) /\ tree_ok (os_fs s);
  de_names : exists sn bn rn, cfg_source c = render sn /\ cfg_backup c = render bn /\
    cfg_restore c = render rn /\ Forall path_name sn /\ Forall path_name bn /\
    Forall path_name rn;
  de_short : Forall (fun p => zlen p < SYSEBA_PATH_MAX)
    [cfg_source c; cfg_backup c; cfg_restore c; render ks; render kb; render kr];
  de_source : resolve s true (cfg_source c) = Found ks;
  de_backup : resolve s true (cfg_backup c) = Found kb;
  de_restore : resolve s true (cfg_restore c) = Found kr;
}.

Definition apart (k k' : ppath) : Prop := ~ k `prefix_of` k' /\ ~ k' `prefix_of` k.

(** Two directories that do not contain one another have no path in common. *)
Lemma apart_below a b p q : apart a b -> a ++ p `prefix_of` b ++ q -> False.
Proof.
  intros [H1 H2] Hp. assert (a `prefix_of` b ++ q) as Ha by (etransitivity; [by apply prefix_app_r|done]).
  destruct (prefix_weak_total a b (b ++ q)); [done|by apply prefix_app_r|done|done].
Qed.

(** One call of a chain of [||]. *)
Lemma or_else_false a b s s' :
  or_else a b s = (false, s') -> exists s1, a s = (false, s1) /\ b s1 = (false, s').
Proof. unfold or_else, bind. destruct (a s) as [[] s1]; [done|eauto]. Qed.

Lemma is_within_apart p q s s' kp kq :
  quiet s -> names_ok (os_fs s) -> tree_ok (os_fs s) ->
  (exists b, p = render b /\ Forall path_name b) -> (exists c, q = render c /\ Forall path_name c) ->
  Forall (fun p => zlen p < SYSEBA_PATH_MAX) [p; q; render kp; render kq] ->
  resolve s true p = Found kp -> resolve s true q = Found kq ->
  syseba_path_is_within p q s = (false, s') -> ~ kp `prefix_of` kq /\ same_world s s'.
Proof.
  intros Hq Hfs Ht (b & -> & Hb) (c & -> & Hc) Hl Hp Hqq H.
  rewrite !Forall_cons in Hl. destruct Hl as (?&?&?&?&_).
  destruct (is_within_exists b c s kp kq) as (s1 & E & Hw); [done..|].
  rewrite E in H. injection H as Hd <-. by bool_hyps.
Qed.

Lemma validate_apart c s s' ks kb kr :
  quiet s -> dirs_exist c s ks kb kr -> syseba_config_validate c s = (None, s') ->
  apart ks kb /\ apart ks kr /\ apart kb kr.
Proof.
  intros Hq [[Hfs Ht] (sn & bn & rn & Hs & Hb & Hr & Hsn & Hbn & Hrn) Hl H1 H2 H3] H.
  unfold syseba_config_validate in H.
  destruct (existsb _ _) eqn:E1; [done|]. unfold bind at 1 in H.
  destruct (syseba_fs_is_directory _ s) as [[] s1] eqn:E2; [|done]. cbn [negb] in H.
  assert (same_world s s1) as Hw.
  { unfold syseba_fs_is_directory, bind in E2.
    destruct (lstat_quiet s (cfg_source c) Hq) as (s2 & E & Hw). rewrite E in E2.
    by injection E2 as _ <-. }
  destruct (_ || _) eqn:E3 in H; [done|]. clear E3. unfold bind at 1 in H.
  destruct (or_else _ _ s1) as [[] s2] eqn:E4; [done|]. clear H.
  rewrite !Forall_cons in Hl. destruct Hl as (?&?&?&?&?&?&_).
  assert (forall s2 p q kp kq s3, same_world s s2 ->
    (exists b, p = render b /\ Forall path_name b) ->
    (exists c, q = render c /\ Forall path_name c) ->
    Forall (fun p => zlen p < SYSEBA_PATH_MAX) [p; q; render kp; render kq] ->
    resolve s true p = Found kp -> resolve s true q = Found kq ->
    syseba_path_is_within p q s2 = (false, s3) -> ~ kp `prefix_of` kq /\ same_world s s3)
    as Hstep.
  { intros s2' p q kp kq s3 Hw2 Hp Hqq HF Hkp Hkq E.
    rewrite <- (same_world_resolve s s2') in Hkp, Hkq by done.
    pose proof Hw2 as [_ Hfe].
    eapply (is_within_apart p q s2' s3 kp kq) in E as [? ?];
      [split; [done|by etransitivity]|by eapply same_world_quiet|by rewrite Hfe..|done|done|done|done|done]. }
  assert (exists b, cfg_source c = render b /\ Forall path_name b) as Gs by eauto.
  assert (exists b, cfg_backup c = render b /\ Forall path_name b) as Gb by eauto.
  assert (exists b, cfg_restore c = render b /\ Forall path_name b) as Gr by eauto.
  repeat match goal with
  | E : or_else _ _ _ = (false, _) |- _ =>
      apply or_else_false in E; destruct E as (? & ? & ?)
  end.
  repeat match goal with
  | Hw : same_world s ?a, E : syseba_path_is_within ?p ?q ?a = (false, ?b) |- _ =>
      lazymatch goal with
      | _ : same_world s b |- _ => fail
      | Hp : resolve s true p = Found ?kp, Hq : resolve s true q = Found ?kq |- _ =>
          let HF := fresh in
          assert (Forall (fun z => zlen z < SYSEBA_PATH_MAX) [p; q; render kp; render kq])
            as HF by (by rewrite !Forall_cons);
          destruct (Hstep a p q kp kq b Hw ltac:(assumption) ltac:(assumption) HF Hp Hq E)
      end
  end.
  unfold apart. by split_and!.
Qed.
