(* ===== verification/AtomicFacts.v ===== *)
(** * Files written at one go

    On a quiet host: a file is opened under a temporary name, written, given its
    permissions and renamed.  The configuration, the token and the service's unit are
    written this way. *)

From S2P Require Import Prelude CString Paths Os OsFacts Platform Fs FsFacts CopyFacts Config ConfigFacts.

Lemma resolve_file s follow p x m c :
  Forall path_name (p ++ [x]) -> dir_chain (os_fs s) p -> os_fs s !! (p ++ [x]) = Some (NReg m c) ->
  resolve s follow (render (p ++ [x])) = Found (p ++ [x]).
Proof.
  intros Hn Hd Hk. rewrite resolve_render, namei_plain by (done || by apply dir_chain_below).
  simpl app at 1. by rewrite Hk.
Qed.

Lemma open_read_quiet s p x m c :
  quiet s -> Forall path_name (p ++ [x]) -> dir_chain (os_fs s) p ->
  os_fs s !! (p ++ [x]) = Some (NReg m c) ->
  syseba_open_regular_read (render (p ++ [x])) s = (Some (p ++ [x], zlen c), s).
Proof.
  intros Hq Hn Hd Hk. unfold syseba_open_regular_read.
  assert (node_at (os_fs s) (p ++ [x]) = Some (NReg m c)) as Hnode by (by rewrite node_at_snoc).
  unfold bind at 1, sys_open_read.
  rewrite syscall_quiet, (resolve_file s false p x _ _ Hn Hd Hk), Hnode by done.
  unfold bind at 1, sys_fstat. rewrite syscall_quiet, Hnode by done.
  unfold bind at 1, sys_sync. by rewrite syscall_quiet.
Qed.

Lemma stream_quiet s k m c :
  quiet s -> os_fs s !! k = Some (NReg m c) -> sys_stream k s = (Stream c false, s).
Proof. intros Hq Hk. unfold sys_stream. by rewrite syscall_quiet, Hk. Qed.

Lemma open_exclusive_quiet s p x mode :
  quiet s -> Forall path_name (p ++ [x]) -> dir_chain (os_fs s) p -> os_fs s !! (p ++ [x]) = None ->
  syseba_open_exclusive_write (render (p ++ [x])) mode s
    = (Some (p ++ [x]), create_file s (p ++ [x]) mode).
Proof.
  intros Hq Hn Hd Hk. unfold syseba_open_exclusive_write, bind, sys_open_excl.
  rewrite syscall_quiet, resolve_chain, Hk by done. cbv beta iota zeta.
  unfold sys_sync. by rewrite syscall_quiet.
Qed.

Lemma write_all_quiet s k m w text :
  quiet s -> os_fs s !! k = Some (NReg m w) ->
  exists s' m', write_all (S (length text)) k (zlen w) text s = (true, s') /\ same_host s s' /\
    os_fs s' = <[k := NReg m' (w ++ text)]> (os_fs s) /\ m_mode m' = m_mode m.
Proof.
  intros Hq Hk. cbn [write_all]. destruct text as [|c text].
  { exists s, m. rewrite app_nil_r. by rewrite insert_id. }
  unfold bind at 1, sys_write. rewrite syscall_quiet, Hk by done. cbv beta iota zeta.
  assert (zlen (c :: text) <=? 0 = false) as -> by (apply Z.leb_gt; zlen_lia).
  assert (drop (Z.to_nat (zlen (c :: text))) (c :: text) = []) as ->
    by (apply drop_ge; unfold zlen; lia).
  eexists _, _. split; [cbn [write_all length]; reflexivity|].
  cbn [os_fs with_fs]. rewrite splice_end. done.
Qed.

Lemma write_file_quiet s k m text :
  quiet s -> os_fs s !! k = Some (NReg m []) ->
  exists s' m', write_file k text s = (true, s') /\ same_host s s' /\
    os_fs s' = <[k := NReg m' text]> (os_fs s) /\ m_mode m' = m_mode m.
Proof.
  intros Hq Hk. destruct (write_all_quiet s k m [] text Hq Hk) as (s' & m' & E & Hs & Hf & Hm).
  change (zlen (@nil ascii)) with 0 in E. exists s', m'. split; [|done].
  unfold write_file, bind. rewrite E. unfold sys_sync.
  assert (quiet s') as Hq' by (by eapply same_host_quiet). by rewrite !syscall_quiet.
Qed.

Lemma chmod_quiet s p x m c mode :
  quiet s -> Forall path_name (p ++ [x]) -> dir_chain (os_fs s) p ->
  os_fs s !! (p ++ [x]) = Some (NReg m c) ->
  exists m', sys_chmod (render (p ++ [x])) mode s
      = (true, with_fs (<[p ++ [x] := NReg m' c]> (os_fs s)) s) /\ m_mode m' = mode.
Proof.
  intros Hq Hn Hd Hk. unfold sys_chmod.
  rewrite syscall_quiet, (resolve_file s true p x m c), Hk by done. eexists. by split.
Qed.

(** The temporary name of these files. *)
Definition tmp_suffix (mono : Z) : cstr := (c!".tmp.") ++ dec (wrap64 mono).

Lemma tmp_suffix_name d mono : path_name d -> path_name (d ++ tmp_suffix mono).
Proof.
  intros Hd. apply path_name_app; [done| | |]; unfold tmp_suffix.
  1,2: rewrite not_elem_of_app; split; [by apply strchr_None; vm_compute|];
    intros Hin; pose proof (wrap64_range mono); pose proof (dec_digits (wrap64 mono) ltac:(lia)) as Hdig;
    rewrite Forall_forall in Hdig; specialize (Hdig _ Hin); by vm_compute in Hdig.
  rewrite length_app. change (length (c!".tmp.")) with 5%nat. lia.
Qed.

Lemma dir_chain_insert_file fs p x n : dir_chain fs p -> dir_chain (<[p ++ [x] := n]> fs) p.
Proof.
  intros Hd a b E. specialize (Hd a b E). unfold is_dir_at in *. destruct a as [|y a]; [done|].
  rewrite lookup_insert_ne; [done|]. intros Ek. rewrite E, <- app_assoc in Ek.
  apply (f_equal length) in Ek. rewrite !length_app in Ek. cbn in Ek. lia.
Qed.

Section Staged.
Context (p : ppath) (d : cstr).
Context (Hn : Forall path_name (p ++ [d])).

(** Opening, writing and the permissions: the temporary file is complete. *)
Lemma staged_quiet s mode mode' text :
  quiet s -> dir_chain (os_fs s) p ->
  let t := d ++ tmp_suffix (os_mono s) in
  os_fs s !! (p ++ [t]) = None ->
  exists s1 s2 s3 m,
    syseba_open_exclusive_write (render (p ++ [t])) mode s = (Some (p ++ [t]), s1) /\
    write_file (p ++ [t]) text s1 = (true, s2) /\
    sys_chmod (render (p ++ [t])) mode' s2 = (true, s3) /\
    same_host s s3 /\ os_fs s3 = <[p ++ [t] := NReg m text]> (os_fs s) /\ m_mode m = mode'.
Proof.
  intros Hq Hd t Hfree.
  assert (Forall path_name (p ++ [t])) as Hnt.
  { apply Forall_app in Hn as [Hp Hdn]. apply Forall_app. split; [done|]. constructor; [|constructor].
    apply tmp_suffix_name. by apply Forall_inv in Hdn. }
  set (s1 := create_file s (p ++ [t]) mode).
  assert (quiet s1) as Hq1 by done.
  destruct (write_file_quiet s1 (p ++ [t]) (new_meta s mode (p ++ [t])) text)
    as (s2 & m2 & E2 & Hs2 & Hf2 & _); [done|apply lookup_insert_eq|].
  assert (os_fs s2 = <[p ++ [t] := NReg m2 text]> (os_fs s)) as Hf2'.
  { rewrite Hf2. unfold s1, create_file. cbn [os_fs with_fs with_ino]. by rewrite insert_insert_eq. }
  destruct (chmod_quiet s2 p t m2 text mode') as (m3 & E3 & Hm3);
    [by eapply same_host_quiet|done|rewrite Hf2'; by apply dir_chain_insert_file|
     rewrite Hf2'; apply lookup_insert_eq|].
  exists s1, s2, (with_fs (<[p ++ [t] := NReg m3 text]> (os_fs s2)) s2), m3. split_and!.
  - by apply open_exclusive_quiet.
  - exact E2.
  - exact E3.
  - exact Hs2.
  - cbn [os_fs with_fs]. by rewrite Hf2', insert_insert_eq.
  - done.
Qed.

Lemma replace_staged s s3 m text :
  quiet s -> dir_chain (os_fs s) p -> let t := d ++ tmp_suffix (os_mono s) in
  same_host s s3 -> os_fs s3 = <[p ++ [t] := NReg m text]> (os_fs s) ->
  os_fs s !! (p ++ [t]) = None ->
  zlen (render (p ++ [d])) < SYSEBA_PATH_MAX ->
  (forall mm, os_fs s !! (p ++ [d]) <> Some (NDir mm)) ->
  exists s4, syseba_atomic_replace (render (p ++ [t])) (render (p ++ [d])) s3 = (true, s4) /\
    same_host s s4 /\ os_fs s4 = <[p ++ [d] := NReg m text]> (os_fs s).
Proof.
  intros Hq Hd t Hs3 Hf3 Hfree Hz Hnd.
  assert (t <> d) as Htd.
  { intros E. apply (f_equal length) in E. unfold t, tmp_suffix in E. rewrite !length_app in E.
    change (length (c!".tmp.")) with 5%nat in E. lia. }
  assert (p ++ [d] <> p ++ [t]) as Hne by (intros [_ E]%app_inj_tail; by rewrite E in Htd).
  assert (Forall path_name (p ++ [t])) as Hnt.
  { apply Forall_app in Hn as [Hp Hdn]. apply Forall_app. split; [done|]. constructor; [|constructor].
    apply tmp_suffix_name. by apply Forall_inv in Hdn. }
  destruct (replace_quiet text p d t Hn Hnt s3 m) as (s4 & E4 & Hs4 & Hf4).
  - by eapply same_host_quiet.
  - rewrite Hf3. by apply dir_chain_insert_file.
  - done.
  - done.
  - rewrite Hf3. apply lookup_insert_eq.
  - intros mm. rewrite Hf3, lookup_insert_ne by done. apply Hnd.
  - exists s4. split; [done|]. split; [by etransitivity|]. rewrite Hf4, Hf3.
    by rewrite delete_insert_id.
Qed.
End Staged.
