(* ===== verification/ConfigText.v ===== *)
(** * The configuration file

    What [syseba_config_save] writes, [syseba_config_load] reads back; every line
    is consumed; a loaded configuration is valid. *)

From S2P Require Import Prelude CString Paths Os OsFacts Platform Fs FsFacts CopyFacts Config ConfigFacts AtomicFacts.

(** ** Trimming *)

(** Text that [syseba_trim] keeps as it is. *)
Definition tidy (v : cstr) : Prop :=
  v <> [] /\ (forall c, head v = Some c -> isspace c = false) /\
  (forall c, last v = Some c -> isspace c = false).

Lemma drop_while_all p l s :
  Forall (fun c => p c = true) l -> drop_while p (l ++ s) = drop_while p s.
Proof. induction 1 as [|c l Hc _ IH]; simpl; [done|]. by rewrite Hc. Qed.

Lemma trim_pad l v r :
  Forall (fun c => isspace c = true) l -> Forall (fun c => isspace c = true) r -> tidy v ->
  syseba_trim (l ++ v ++ r) = v.
Proof.
  intros Hl Hr (Hne & Hh & Ht). unfold syseba_trim. rewrite drop_while_all by done.
  destruct v as [|c v]; [done|]. simpl app. rewrite drop_while_id by (by apply Hh).
  change (c :: v ++ r) with ((c :: v) ++ r).
  rewrite rev_app_distr, drop_while_all.
  2: { apply Forall_forall. intros x Hx. apply list_elem_of_In, in_rev, list_elem_of_In in Hx.
       rewrite Forall_forall in Hr. by apply Hr. }
  destruct (c :: v) as [|x w _] using rev_ind; [done|].
  rewrite rev_app_distr. simpl app. rewrite drop_while_id by (apply Ht; by rewrite last_snoc).
  change (x :: rev w) with ([x] ++ rev w). by rewrite rev_app_distr, rev_involutive.
Qed.

Lemma trim_tidy v : tidy v -> syseba_trim v = v.
Proof.
  intros H. pose proof (trim_pad [] v [] ltac:(constructor) ltac:(constructor) H) as E.
  by rewrite app_nil_r in E.
Qed.

(** ** Lines *)

Definition line_text (l : cstr) : Prop := NEWLINE ∉ l /\ NUL ∉ l.

Lemma take_line_spec n l rest :
  NEWLINE ∉ l -> (length l < n)%nat ->
  take_line n (l ++ NEWLINE :: rest) = (l ++ [NEWLINE], rest).
Proof.
  revert n. induction l as [|c l IH]; intros n Hl Hn; (destruct n as [|n]; [simpl in Hn; lia|]).
  - simpl. done.
  - apply not_elem_of_cons in Hl as [Hc Hl]. cbn [app take_line].
    assert (ceq c NEWLINE = false) as -> by (apply ceq_false; congruence).
    rewrite IH; [done..|simpl in Hn; lia].
Qed.

Lemma until_nul_id l : NUL ∉ l -> until_nul l = l.
Proof.
  induction l as [|c l IH]; [done|]. rewrite not_elem_of_cons. intros [Hc Hl]. simpl.
  assert (ceq c NUL = false) as -> by (apply ceq_false; congruence). by rewrite IH.
Qed.

Lemma fgets_line l rest failed :
  line_text l -> zlen l < LINE_SIZE - 1 ->
  fgets LINE_SIZE (Stream (l ++ NEWLINE :: rest) failed) =
    Some (l ++ [NEWLINE], Stream rest failed).
Proof.
  intros [Hn H0] Hl. unfold fgets. cbn [sm_data sm_failed].
  rewrite take_line_spec; [|done|unfold zlen in Hl; lia].
  assert (until_nul (l ++ [NEWLINE]) = l ++ [NEWLINE]) as ->.
  { apply until_nul_id. rewrite not_elem_of_app, list_elem_of_singleton. done. }
  assert (List.last (l ++ [NEWLINE]) NUL = NEWLINE) as -> by apply List.last_last.
  rewrite ceq_refl, andb_false_r. by destruct (l ++ [NEWLINE]) eqn:E; [destruct l|].
Qed.

Lemma config_lines_step fuel p l rest failed n :
  line_text l -> zlen l < LINE_SIZE - 1 ->
  config_lines (S fuel) p (Stream (l ++ NEWLINE :: rest) failed) n =
    match config_line p (l ++ [NEWLINE]) (n + 1) with
    | inl e => inl e
    | inr p' => config_lines fuel p' (Stream rest failed) (n + 1)
    end.
Proof.
  intros Ht Hl. cbn [config_lines]. rewrite fgets_line by done.
  assert (existsb (ceq NEWLINE) (l ++ [NEWLINE]) = true) as ->.
  { rewrite existsb_app. simpl. by rewrite orb_true_r. }
  done.
Qed.

(** A setting as [syseba_config_save] writes it. *)
Lemma config_line_setting p key value n :
  ps_settings p = true -> n <> 1 -> tidy value -> tidy key ->
  "="%char ∉ key -> (forall c, head key = Some c -> c ∉ [("#"%char); (";"%char); ("["%char)]) ->
  config_line p (key ++ (c!" = ") ++ value ++ [NEWLINE]) n = config_setting p key value n.
Proof.
  intros Hs Hn Hv Hk He Hc. unfold config_line.
  assert (skip_bom n (key ++ (c!" = ") ++ value ++ [NEWLINE])
          = [] ++ (key ++ (c!" = ") ++ value) ++ [NEWLINE]) as ->.
  { unfold skip_bom. assert ((n =? 1) = false) as -> by (by apply Z.eqb_neq).
    simpl. by rewrite <- !app_assoc. }
  rewrite trim_pad; [|constructor|by repeat constructor|].
  2: { destruct Hk as (Hk0 & Hk1 & _), Hv as (Hv0 & _ & Hv2). split; [by destruct key|].
       split; [by destruct key|]. intros c Hl. apply Hv2. rewrite <- Hl.
       destruct value as [|x v _] using rev_ind; [done|]. by rewrite !app_assoc, !last_snoc. }
  destruct Hk as (Hk0 & Hk1 & Hk2). destruct key as [|k key]; [done|]. cbn [app].
  specialize (Hc k eq_refl). rewrite !not_elem_of_cons in Hc. destruct Hc as (C1 & C2 & C3 & _).
  apply ceq_false in C1, C2, C3. rewrite C1, C2, C3, Hs. cbn [orb negb].
  replace (k :: key ++ (c!" = ") ++ value)
    with (((k :: key) ++ [" "%char]) ++ "="%char :: ([" "%char] ++ value))
    by (by rewrite <- app_assoc).
  rewrite strchr_app.
  2: { rewrite not_elem_of_app, list_elem_of_singleton. done. }
  pose proof (trim_pad [] (k :: key) [" "%char] ltac:(constructor) ltac:(by repeat constructor)
    (conj Hk0 (conj Hk1 Hk2))) as E1. simpl app in E1 at 1. simpl app at 1. rewrite E1.
  pose proof (trim_pad [" "%char] value [] ltac:(by repeat constructor) ltac:(constructor) Hv) as E2.
  rewrite app_nil_r in E2. rewrite E2. done.
Qed.

(** ** The round trip *)

(** A path that one line can hold. *)
Definition storable (v : cstr) : Prop :=
  tidy v /\ line_text v /\ fits SYSEBA_PATH_MAX v = true.

Record storable_config (c : syseba_config_t) := StorableConfig {
  sc_paths : Forall storable [cfg_source c; cfg_backup c; cfg_restore c; cfg_log_file c];
  sc_threads : 1 <= cfg_threads c <= SYSEBA_MAX_THREADS;
}.

Lemma dec_tidy n : 0 <= n -> tidy (dec n).
Proof.
  intros Hn. pose proof (dec_digits n Hn) as Hd. rewrite Forall_forall in Hd.
  split; [apply dec_nonempty|].
  split; intros c Hc; apply isdigit_not_space, Hd.
  - by apply head_Some_elem_of.
  - by apply last_Some_elem_of.
Qed.

Lemma dec_line n : 0 <= n -> line_text (dec n).
Proof.
  intros Hn. pose proof (dec_digits n Hn) as Hd. rewrite Forall_forall in Hd.
  split; intros Hin; by specialize (Hd _ Hin).
Qed.

Lemma dec_short n : 0 <= n < 100 -> zlen (dec n) <= 2.
Proof.
  intros Hn. unfold dec. cbn [dec_fuel]. destruct (n <? 10) eqn:E; [done|]. bool_hyps.
  rewrite zlen_app. change (zlen [digit_char (n mod 10)]) with 1.
  destruct (Z.to_nat (Z.log2 n)); [done|]. cbn [dec_fuel].
  assert ((n / 10 <? 10) = true) as -> by (apply Z.ltb_lt, Z.div_lt_upper_bound; lia). done.
Qed.

Lemma take_line_nil n : take_line n [] = ([], []).
Proof. by destruct n. Qed.

Lemma parse_threads_dec n :
  1 <= n <= SYSEBA_MAX_THREADS -> parse_threads (dec n) = Some n.
Proof.
  intros Hn. unfold parse_threads, SYSEBA_MAX_THREADS in *.
  rewrite strtoul_dec by (unfold U64_MAX; lia). cbn [pu_end pu_erange pu_value orb].
  change (nonempty (syseba_trim [])) with false. cbn [orb].
  assert ((n <? 1) = false) as -> by (apply Z.ltb_ge; lia).
  assert ((64 <? n) = false) as -> by (apply Z.ltb_ge; lia). done.
Qed.

Lemma parse_threads_range v n :
  parse_threads v = Some n -> 1 <= n <= SYSEBA_MAX_THREADS.
Proof.
  unfold parse_threads. destruct (pu_end _); [|done]. destruct (_ || _) eqn:E; [done|].
  intros [= <-]. bool_hyps. lia.
Qed.

(** A line of the file, with its number. *)
Lemma config_lines_setting fuel p key value rest n :
  ps_settings p = true -> n <> 0 -> tidy value -> line_text value ->
  zlen value < SYSEBA_PATH_MAX -> tidy key -> line_text key -> zlen key < 100 ->
  "="%char ∉ key -> (forall c, head key = Some c -> c ∉ [("#"%char); (";"%char); ("["%char)]) ->
  config_lines (S fuel) p (Stream ((key ++ (c!" = ") ++ value) ++ NEWLINE :: rest) false) n =
    match config_setting p key value (n + 1) with
    | inl e => inl e
    | inr p' => config_lines fuel p' (Stream rest false) (n + 1)
    end.
Proof.
  intros Hs Hn Hv [Hv1 Hv2] Hvl Hk [Hk1 Hk2] Hkl He Hc. rewrite config_lines_step.
  - rewrite <- !app_assoc. rewrite config_line_setting; [done..|lia|done|done|done|done].
  - split; rewrite !not_elem_of_app; (split; [done|]; split; [|done]);
      apply strchr_None; by vm_compute.
  - rewrite !zlen_app. change (zlen (c!" = ")) with 3. unfold LINE_SIZE, SYSEBA_PATH_MAX in *. lia.
Qed.

Ltac eval_keys :=
  repeat match goal with
  | |- context [strcaseeq ?a ?b] =>
      let r := eval vm_compute in (strcaseeq a b) in change (strcaseeq a b) with r
  end.

Ltac known_key :=
  first [ done | by vm_compute
        | by (split; [|split]; [done|intros ? [= <-]; done..])
        | by (split; apply strchr_None; vm_compute)
        | by (apply strchr_None; vm_compute)
        | by (intros ? [= <-]; rewrite !not_elem_of_cons; split_and!; try done; apply not_elem_of_nil) ].

Lemma config_parse_text c :
  storable_config c ->
  config_parse (Stream (config_text c) false) =
    inr (Parser (cfg_source c) (cfg_backup c) (cfg_restore c) (cfg_log_file c)
                (cfg_threads c) true true).
Proof.
  intros [Hp Ht]. rewrite !Forall_cons in Hp.
  destruct Hp as ((S1 & S2 & S3) & (B1 & B2 & B3) & (R1 & R2 & R3) & (L1 & L2 & L3) & _).
  unfold config_parse. cbn [sm_data].
  assert (exists f, S (length (config_text c)) = S (S (S (S (S (S (S (S f)))))))) as [fuel ->].
  { exists (length (config_text c) - 7)%nat. unfold config_text. rewrite !length_app.
    change (length (c!"# SySeBa configuration")) with 22%nat. lia. }
  assert (config_text c = (c!"# SySeBa configuration") ++ NEWLINE :: ((c!"[SETTINGS]") ++ NEWLINE ::
    (((c!"source") ++ (c!" = ") ++ cfg_source c) ++ NEWLINE ::
    (((c!"backup") ++ (c!" = ") ++ cfg_backup c) ++ NEWLINE ::
    (((c!"restore") ++ (c!" = ") ++ cfg_restore c) ++ NEWLINE ::
    (((c!"log") ++ (c!" = ") ++ cfg_log_file c) ++ NEWLINE ::
    (((c!"threads") ++ (c!" = ") ++ dec (cfg_threads c)) ++ NEWLINE :: []))))))) as ->.
  { unfold config_text, nl.
    change (c!"source = ") with ((c!"source") ++ (c!" = ")).
    change (c!"backup = ") with ((c!"backup") ++ (c!" = ")).
    change (c!"restore = ") with ((c!"restore") ++ (c!" = ")).
    change (c!"log = ") with ((c!"log") ++ (c!" = ")).
    change (c!"threads = ") with ((c!"threads") ++ (c!" = ")).
    rewrite <- !app_assoc. reflexivity. }
  rewrite config_lines_step by known_key.
  change (config_line parser_init ((c!"# SySeBa configuration") ++ [NEWLINE]) (0 + 1))
    with (@inr failure parser parser_init). cbv match.
  rewrite config_lines_step by known_key.
  change (config_line parser_init ((c!"[SETTINGS]") ++ [NEWLINE]) (0 + 1 + 1))
    with (@inr failure parser (with_settings parser_init true)). cbv match.
  change (with_settings parser_init true)
    with (Parser (c!"/dati") (c!"/backup") (c!"/restore") SYSEBA_DEFAULT_LOG 4 true true).
  pose proof (dec_tidy (cfg_threads c) ltac:(lia)) as D1.
  pose proof (dec_line (cfg_threads c) ltac:(lia)) as D2.
  pose proof (parse_threads_dec _ Ht) as D3.
  assert (zlen (dec (cfg_threads c)) < SYSEBA_PATH_MAX) as D4.
  { pose proof (dec_short (cfg_threads c)). unfold SYSEBA_MAX_THREADS, SYSEBA_PATH_MAX in *. lia. }
  do 5 (rewrite config_lines_setting by (known_key || (by apply Z.ltb_lt) || lia);
    unfold config_setting; eval_keys; rewrite ?S3, ?B3, ?R3, ?L3, ?D3; cbv beta match zeta).
  destruct S1 as [S1 _], B1 as [B1 _], R1 as [R1 _], L1 as [L1 _].
  assert (fgets LINE_SIZE (Stream [] false) = None) as Hend.
  { unfold fgets. by rewrite take_line_nil. }
  cbn [config_lines]. rewrite Hend.
  cbn [sm_failed negb ps_found_settings ps_source ps_backup ps_restore ps_log_file].
  by destruct (cfg_source c), (cfg_backup c), (cfg_restore c), (cfg_log_file c).
Qed.

(** ** Every line is read *)

Lemma take_line_app n s : fst (take_line n s) ++ snd (take_line n s) = s.
Proof.
  revert s. induction n as [|n IH]; intros [|c s]; simpl; [done..|].
  destruct (ceq c NEWLINE); [done|]. specialize (IH s).
  destruct (take_line n s) as [a b]. simpl in *. by rewrite IH.
Qed.

Lemma fgets_shrinks size f l f' :
  fgets size f = Some (l, f') -> (length (sm_data f') < length (sm_data f))%nat.
Proof.
  unfold fgets. pose proof (take_line_app (Z.to_nat (size - 1)) (sm_data f)) as H.
  destruct (take_line _ _) as [line rest]. simpl in H. destruct line as [|c line]; [done|].
  destruct (_ && _); [done|]. intros [= <- <-]. rewrite <- H. simpl. rewrite length_app. lia.
Qed.

(** More fuel than bytes changes nothing. *)
Lemma config_lines_fuel fuel p f n :
  (length (sm_data f) < fuel)%nat ->
  config_lines fuel p f n = config_lines (S (length (sm_data f))) p f n.
Proof.
  remember (length (sm_data f)) as len eqn:E. revert fuel p f n E.
  induction len as [len IH] using lt_wf_ind. intros fuel p f n E Hf.
  destruct fuel as [|fuel]; [lia|]. cbn [config_lines].
  destruct (fgets LINE_SIZE f) as [[line f']|] eqn:Eg; [|done].
  apply fgets_shrinks in Eg. destruct (_ && _); [done|].
  destruct (config_line p line (n + 1)) as [e|p']; [done|].
  rewrite (IH (length (sm_data f'))) by lia.
  rewrite (IH (length (sm_data f')) ltac:(lia) len) by lia. done.
Qed.

(** ** Loading *)

(** On a quiet host, a computation that only looks leaves the world as it is. *)
Definition calm (s s' : os) : Prop := quiet s -> same_world s s'.
#[export] Instance calm_preorder : PreOrder calm.
Proof.
  split; [by intros s Hq|]. intros s1 s2 s3 H1 H2 Hq. specialize (H1 Hq).
  etransitivity; [exact H1|]. apply H2. by eapply same_world_quiet.
Qed.

Lemma calm_syscall {A} (fail : A) body :
  (forall s a s', body None s = inr (a, s') -> same_world s s') ->
  keeps calm (syscall fail body).
Proof.
  intros H s Hq. unfold exec. rewrite syscall_quiet by done.
  destruct (body None s) as [e|[a s']] eqn:E; [done|]. by eapply H.
Qed.

Ltac calm_reader :=
  apply calm_syscall; intros s a s' E; repeat (case_match; try discriminate E);
  injection E as <- <-; done.

Lemma calm_lstat p : keeps calm (sys_lstat p).
Proof. calm_reader. Qed.
Lemma calm_realpath p : keeps calm (sys_realpath p).
Proof. calm_reader. Qed.
Lemma calm_getcwd : keeps calm sys_getcwd.
Proof. calm_reader. Qed.
Lemma calm_open_read p : keeps calm (sys_open_read p).
Proof. calm_reader. Qed.
Lemma calm_fstat k : keeps calm (sys_fstat k).
Proof. calm_reader. Qed.
Lemma calm_stream k : keeps calm (sys_stream k).
Proof. calm_reader. Qed.
Lemma calm_sync : keeps calm sys_sync.
Proof. calm_reader. Qed.
Lemma calm_access p : keeps calm (sys_access p).
Proof. calm_reader. Qed.
Lemma calm_set_errno e : keeps calm (set_errno e).
Proof. by intros s. Qed.
Lemma calm_get_errno : keeps calm get_errno.
Proof. by intros s. Qed.
#[export] Hint Resolve calm_lstat calm_realpath calm_getcwd calm_open_read calm_fstat
  calm_stream calm_sync calm_access calm_set_errno calm_get_errno : keeps.

Lemma calm_exists p : keeps calm (syseba_fs_exists p).
Proof. unfold syseba_fs_exists. keeps_auto. Qed.
Lemma calm_is_directory p : keeps calm (syseba_fs_is_directory p).
Proof. unfold syseba_fs_is_directory. keeps_auto. Qed.
Lemma calm_is_regular p : keeps calm (syseba_fs_is_regular p).
Proof. unfold syseba_fs_is_regular. keeps_auto. Qed.
Lemma calm_open_regular_read p : keeps calm (syseba_open_regular_read p).
Proof. unfold syseba_open_regular_read. keeps_auto. Qed.
Lemma calm_path_real p size : keeps calm (syseba_path_real_os p size).
Proof. unfold syseba_path_real_os. keeps_auto. Qed.
#[export] Hint Resolve calm_exists calm_is_directory calm_is_regular calm_open_regular_read
  calm_path_real : keeps.
Lemma calm_probe fuel p : keeps calm (probe_existing fuel p).
Proof. revert p. induction fuel as [|fuel IH]; intros p; cbn [probe_existing]; keeps_auto. Qed.
#[export] Hint Resolve calm_probe : keeps.
Lemma calm_resolve_links p size : keeps calm (syseba_path_resolve_links p size).
Proof. unfold syseba_path_resolve_links. keeps_auto. Qed.
#[export] Hint Resolve calm_resolve_links : keeps.
Lemma calm_is_within b c : keeps calm (syseba_path_is_within b c).
Proof. unfold syseba_path_is_within. keeps_auto. Qed.
#[export] Hint Resolve calm_is_within : keeps.
Lemma calm_safe_join b r size : keeps calm (syseba_safe_join b r size).
Proof. unfold syseba_safe_join. keeps_auto. Qed.
Lemma calm_relative_path b p size : keeps calm (syseba_relative_path b p size).
Proof. unfold syseba_relative_path. keeps_auto. Qed.
Lemma calm_resolve_config_path b v size : keeps calm (syseba_resolve_config_path b v size).
Proof. unfold syseba_resolve_config_path. keeps_auto. Qed.
#[export] Hint Resolve calm_safe_join calm_relative_path calm_resolve_config_path : keeps.
Lemma calm_resolve_paths base a b c d : keeps calm (resolve_paths base a b c d).
Proof. unfold resolve_paths. keeps_auto. Qed.
#[export] Hint Resolve calm_resolve_paths : keeps.

Lemma calm_run {A} (m : ST os A) s a s' :
  keeps calm m -> m s = (a, s') -> quiet s -> same_world s s' /\ quiet s'.
Proof.
  intros H E Hq. specialize (H s). unfold exec in H. rewrite E in H. specialize (H Hq).
  split; [exact H|]. by eapply same_world_quiet.
Qed.

Lemma path_real_os_canonical p size s out s' :
  syseba_path_real_os p size s = (Some out, s') -> canonical out.
Proof.
  unfold syseba_path_real_os, bind. destruct (absolute p).
  - intros [= H _]. by apply path_real_canonical in H as [? _].
  - destruct (sys_getcwd s) as [cwd s1]. intros [= H _].
    by apply path_real_canonical in H as [? _].
Qed.

(** The values of a computation made of [match ... None => ret None] steps. *)
Lemma resolve_paths_canonical base a b c d s x s' :
  resolve_paths base a b c d s = (Some x, s') ->
  let '(s, b, r, l) := x in canonical s /\ canonical b /\ canonical r /\ canonical l.
Proof.
  assert (forall v s o s', syseba_resolve_config_path base v SYSEBA_PATH_MAX s = (Some o, s') ->
            canonical o) as Hv.
  { unfold syseba_resolve_config_path. intros v t o t' H. destruct (absolute v).
    - by eapply path_real_os_canonical.
    - destruct (negb _); [done|]. by eapply path_real_os_canonical. }
  unfold resolve_paths, bind. intros H.
  destruct (syseba_resolve_config_path base a _ _) as [[s1|] ?] eqn:E1; [|done].
  destruct (syseba_resolve_config_path base b _ _) as [[s2|] ?] eqn:E2; [|done].
  destruct (syseba_resolve_config_path base c _ _) as [[s3|] ?] eqn:E3; [|done].
  destruct (syseba_resolve_config_path base d _ _) as [[s4|] ?] eqn:E4; [|done].
  injection H as <- _. split_and!; by eapply Hv.
Qed.

(** What a successful load has established. *)
Lemma config_load_spec `{Strerror} path s c s' :
  syseba_config_load path s = (inr c, s') ->
  Forall canonical (config_values c) /\ valid_config c /\
  exists s1, (quiet s -> same_world s s1) /\ syseba_config_validate c s1 = (None, s').
Proof.
  intros Hl. unfold syseba_config_load, bind at 1 in Hl.
  destruct (syseba_path_real_os path _ s) as [[cp|] s1] eqn:E1; [|done].
  destruct (syseba_parent_dir cp _) as [base|]; [|done]. unfold bind at 1 in Hl.
  destruct (syseba_open_regular_read cp s1) as [[[k z]|] s2] eqn:E2; [|done].
  unfold bind at 1 in Hl. destruct (sys_stream k s2) as [f s3] eqn:E3.
  destruct (config_parse f) as [e|p]; [done|]. unfold bind at 1 in Hl.
  destruct (resolve_paths _ _ _ _ _ s3) as [[[[[a b] r] l]|] s4] eqn:E4; [|done].
  unfold validated, bind in Hl.
  destruct (syseba_config_validate _ s4) as [[e|] s5] eqn:E5; [done|]. injection Hl as <- <-.
  apply path_real_os_canonical in E1 as Hcp. apply resolve_paths_canonical in E4 as Hx.
  destruct Hx as (?&?&?&?). split; [by repeat constructor|].
  split; [by eapply validate_valid|]. exists s4. split; [|done]. intros Hq.
  apply calm_run in E1 as [W1 Q1]; [|auto with keeps|done].
  apply calm_run in E2 as [W2 Q2]; [|auto with keeps|done].
  apply calm_run in E3 as [W3 Q3]; [|auto with keeps|done].
  apply calm_run in E4 as [W4 Q4]; [|auto with keeps|done].
  etransitivity; [exact W1|]. etransitivity; [exact W2|]. by etransitivity; [exact W3|].
Qed.

(** The directories of a loaded configuration do not contain one another. *)
Lemma config_load_apart `{Strerror} path s c s' ks kb kr :
  quiet s -> syseba_config_load path s = (inr c, s') -> dirs_exist c s ks kb kr ->
  apart ks kb /\ apart ks kr /\ apart kb kr.
Proof.
  intros Hq Hl [Hfs Hn Hs H1 H2 H3].
  apply config_load_spec in Hl as (_ & _ & s1 & Hw & Hv). specialize (Hw Hq).
  eapply (validate_apart c s1); [by eapply same_world_quiet| |exact Hv].
  constructor; [by destruct Hw as [_ ->]|exact Hn|exact Hs|..];
    by rewrite (same_world_resolve s s1).
Qed.

Lemma resolve_config_path_id base v s :
  canonical v -> fits SYSEBA_PATH_MAX v = true ->
  syseba_resolve_config_path base v SYSEBA_PATH_MAX s = (Some v, s).
Proof.
  intros (names & Hn & ->) Hf. apply Z.ltb_lt in Hf. unfold syseba_resolve_config_path.
  rewrite absolute_render. apply path_real_os_id; [done|done|lia].
Qed.

(** Loading the file that holds the text of a configuration is validating that
    configuration. *)
Lemma config_load_text `{Strerror} c d f k m s :
  quiet s -> storable_config c -> Forall canonical (config_values c) ->
  Forall path_name (d ++ [f]) -> zlen (render (d ++ [f])) < SYSEBA_PATH_MAX ->
  cfg_config_path c = render (d ++ [f]) ->
  resolve s false (cfg_config_path c) = Found k -> os_fs s !! k = Some (NReg m (config_text c)) ->
  k <> [] ->
  syseba_config_load (cfg_config_path c) s = validated c s.
Proof.
  intros Hq Hc Hv Hn Hl Hp Hr Hk Hk0. unfold syseba_config_load, bind at 1. rewrite Hp.
  rewrite path_real_os_id by (done || lia).
  pose proof Hn as Hf. apply Forall_app in Hf as [_ Hf]. apply Forall_inv in Hf.
  rewrite parent_dir_render by done. unfold bind at 1, syseba_open_regular_read, bind at 1.
  unfold sys_open_read. rewrite <- Hp. rewrite syscall_quiet, Hr by done.
  assert (node_at (os_fs s) k = Some (NReg m (config_text c))) as Hat by (by destruct k).
  rewrite Hat. unfold bind at 1, sys_fstat. rewrite syscall_quiet, Hat by done.
  unfold bind at 1, sys_sync. rewrite syscall_quiet by done. unfold ret at 1.
  unfold bind at 1, sys_stream. rewrite syscall_quiet, Hk by done.
  rewrite config_parse_text by done.
  cbn [ps_source ps_backup ps_restore ps_log_file ps_threads].
  destruct Hc as [Hs _]. unfold config_values in Hv. rewrite !Forall_cons in Hs, Hv.
  destruct Hs as ((_&_&S1)&(_&_&S2)&(_&_&S3)&(_&_&S4)&_), Hv as (?&?&?&?&_).
  unfold resolve_paths, bind.
  rewrite !resolve_config_path_id by done. unfold ret. by destruct c.
Qed.

(** ** Saving *)

Lemma validate_no_breaks c s :
  value (syseba_config_validate c) s = None -> existsb has_line_break (config_values c) = false.
Proof. unfold syseba_config_validate. by destruct (existsb _ _). Qed.

Lemma calm_validate c : keeps calm (syseba_config_validate c).
Proof. unfold syseba_config_validate, or_else. keeps_auto. Qed.
#[export] Hint Resolve calm_validate : keeps.

(** A configuration that is in its canonical form and valid is normalized to itself. *)
Lemma config_normalize_id c d f s :
  quiet s -> storable_config c -> Forall canonical (config_values c) ->
  Forall path_name (d ++ [f]) -> zlen (render (d ++ [f])) < SYSEBA_PATH_MAX ->
  cfg_config_path c = render (d ++ [f]) -> value (syseba_config_validate c) s = None ->
  exists s', syseba_config_normalize c s = (inr c, s') /\ same_world s s'.
Proof.
  intros Hq [Hs _] Hv Hn Hl Hp Hok. pose proof (validate_no_breaks _ _ Hok) as Hb.
  unfold config_values in Hb. cbn [existsb] in Hb. bool_hyps. unfold syseba_config_normalize.
  pose proof Hn as Hf. apply Forall_app in Hf as [_ Hf]. apply Forall_inv in Hf.
  assert (nonempty (cfg_config_path c) = true) as ->.
  { rewrite Hp. destruct (render_head (d ++ [f])) as [r ->]. done. }
  repeat match goal with E : has_line_break _ = false |- _ => rewrite E; clear E end. cbn [orb negb].
  unfold bind at 1. rewrite Hp, path_real_os_id by (done || lia). rewrite parent_dir_render by done.
  unfold config_values in Hv. rewrite !Forall_cons in Hs, Hv.
  destruct Hs as ((_&_&S1)&(_&_&S2)&(_&_&S3)&(_&_&S4)&_), Hv as (?&?&?&?&_).
  unfold resolve_paths, bind at 1 2 3 4 5. rewrite !resolve_config_path_id by done. unfold ret at 1.
  assert (Config (cfg_source c) (cfg_backup c) (cfg_restore c) (cfg_log_file c) (render (d ++ [f]))
    (cfg_threads c) = c) as -> by (rewrite <- Hp; by destruct c).
  unfold validated, bind, value in *. destruct (syseba_config_validate c s) as [r s'] eqn:E.
  cbn in Hok. subst r. exists s'. split; [done|].
  apply calm_run in E as [Hw _]; [done|auto with keeps|done].
Qed.

(** On a quiet host, a valid configuration is saved whole. *)
Lemma config_save_quiet `{Strerror} c d f s :
  quiet s -> storable_config c -> Forall canonical (config_values c) ->
  Forall path_name (d ++ [f]) -> cfg_config_path c = render (d ++ [f]) ->
  zlen (render (d ++ [f]) ++ tmp_suffix (os_mono s)) < SYSEBA_PATH_MAX ->
  creatable (os_fs s) d -> (forall mm, os_fs s !! (d ++ [f]) <> Some (NDir mm)) ->
  os_fs s !! (d ++ [f ++ tmp_suffix (os_mono s)]) = None ->
  value (syseba_config_validate c) s = None ->
  exists s' m, syseba_config_save c s = (None, s') /\ quiet s' /\ dir_chain (os_fs s') d /\
    os_fs s' !! (d ++ [f]) = Some (NReg m (config_text c)) /\ m_mode m = 416 /\
    forall k, k <> d ++ [f] -> only_new_dirs d s s' k.
Proof.
  intros Hq Hc Hv Hn Hp Hz Hcr Hnd Hfree Hok. rewrite zlen_app in Hz.
  pose proof (zlen_nonneg (tmp_suffix (os_mono s))).
  destruct (config_normalize_id c d f s) as (s1 & E1 & [Hh1 Hf1]); [done..|lia|done|done|].
  unfold syseba_config_save. rewrite (bind_run _ _ _ _ _ E1).
  pose proof Hn as Hd. apply Forall_app in Hd as [Hd Hfn]. apply Forall_inv in Hfn.
  rewrite Hp, parent_dir_render by (done || lia).
  assert (quiet s1) as Hq1 by (by eapply same_host_quiet).
  destruct (mkdirs_quiet 488 d s1) as (s2 & E2 & Hh2 & Hg & Hch & Hnew); [done|done| |by rewrite Hf1|].
  { destruct d; [done|]. rewrite render_app_cons in Hz by done. zlen_lia. }
  rewrite (bind_run _ _ _ _ _ E2). cbn [negb].
  assert (os_mono s2 = os_mono s) as Hm.
  { destruct Hh2 as (_ & _ & -> & _). apply Hh1. }
  rewrite (bind_run _ _ _ (os_mono s) s2) by (unfold sys_monotonic, gets; by rewrite Hm).
  unfold config_temporary. fold (tmp_suffix (os_mono s)).
  assert (fits SYSEBA_PATH_MAX (render (d ++ [f]) ++ tmp_suffix (os_mono s)) = true) as ->
    by (apply Z.ltb_lt; rewrite zlen_app; lia).
  cbn [negb]. rewrite render_snoc_app.
  assert (forall y, os_fs s2 !! (d ++ [y]) = os_fs s !! (d ++ [y])) as Hsame.
  { intros y. rewrite <- Hf1. by apply made_same_entry. }
  rewrite <- Hsame in Hfree. rewrite <- Hm in Hfree |- *.
  assert (quiet s2) as Hq2 by (by eapply same_host_quiet).
  destruct (staged_quiet d f Hn s2 416 416 (config_text c)) as (s3 & s4 & s5 & m & F1 & F2 & F3 & Hs5 & Hf5 & Hmode);
    [done|done|done|].
  rewrite (bind_run _ _ _ _ _ F1), (bind_run _ _ _ _ _ F2). cbn [negb].
  rewrite (bind_run _ _ _ _ _ F3).
  destruct (replace_staged d f Hn s2 s5 m (config_text c)) as (s6 & F6 & Hs6 & Hf6);
    [done|done|done|done|done|lia|intros mm; rewrite Hsame; apply Hnd|].
  rewrite (bind_run _ _ _ _ _ F6). exists s6, m. rewrite Hf6. split_and!; try done.
  - by eapply same_host_quiet.
  - by apply dir_chain_insert_file.
  - apply lookup_insert_eq.
  - intros k Hk. unfold only_new_dirs. rewrite Hf6, lookup_insert_ne, <- Hf1 by done.
    by apply made_only_new_dirs.
Qed.

(** ** Relative paths *)

(** A path under the base and the base have a relative path, and joining it to
    the base gives the path back. *)
Lemma relative_path_under base rel s :
  quiet s -> Forall path_name (base ++ rel) -> zlen (render (base ++ rel)) < SYSEBA_PATH_MAX ->
  value (syseba_path_is_within (render base) (render (base ++ rel))) s = true ->
  exists s', syseba_relative_path (render base) (render (base ++ rel)) SYSEBA_PATH_MAX s
    = (RelPath (drop 1 (join_with SLASH rel)), s') /\ same_world s s'.
Proof.
  intros Hq Hn Hl Hw. unfold syseba_relative_path, bind at 1.
  pose proof Hn as Hn'. apply Forall_app in Hn' as [Hb Hr].
  assert (zlen (render base) < SYSEBA_PATH_MAX) as Hlb.
  { destruct base as [|x base]; [by vm_compute|]. rewrite render_app_join in Hl by done. zlen_lia. }
  rewrite path_real_os_id by (done || lia). unfold bind at 1.
  rewrite path_real_os_id by (done || lia). unfold bind at 1. unfold value in Hw.
  destruct (syseba_path_is_within _ _ s) as [w s1] eqn:E. simpl in Hw. subst w.
  apply calm_run in E as [Hw _]; [|auto with keeps|done]. cbn [negb].
  assert (drop_while is_separator (join_with SLASH rel) = drop 1 (join_with SLASH rel)) as Hd.
  { destruct rel as [|x r]; [done|]. simpl. rewrite drop_0.
    apply Forall_inv in Hr. destruct Hr as ([Hx0 Hx1] & Hx2 & _). destruct x as [|c x]; [done|].
    simpl app. rewrite drop_while_id; [done|]. unfold is_separator.
    apply not_elem_of_cons in Hx1 as [Hx1 _]. apply not_elem_of_cons in Hx2 as [Hx2 _].
    apply orb_false_iff. split; apply ceq_false; congruence. }
  assert (exists t, offset (length (render base)) (render (base ++ rel)) = Some t /\
            drop_while is_separator t = drop 1 (join_with SLASH rel)) as (t & -> & ->).
  { unfold offset. destruct base as [|x base].
    - destruct rel as [|x r]; [by exists []|]. simpl. rewrite !drop_0.
      eexists. split; [reflexivity|]. pose proof Hd as Hd'. simpl in Hd'. by rewrite drop_0 in Hd'.
    - rewrite render_app_join, length_app by done.
      assert ((length (render (x :: base)) <=? length (render (x :: base))
                + length (join_with SLASH rel))%nat = true) as -> by (apply Nat.leb_le; lia).
      rewrite drop_app_length. by eexists. }
  assert (zlen (drop 1 (join_with SLASH rel)) < SYSEBA_PATH_MAX) as Hls.
  { assert (zlen (join_with SLASH rel) <= zlen (render (base ++ rel))).
    { destruct base; [destruct rel; [done|]; simpl; lia|]. rewrite render_app_join by done. zlen_lia. }
    unfold zlen in *. rewrite length_drop. lia. }
  assert (fits SYSEBA_PATH_MAX (drop 1 (join_with SLASH rel)) = true) as -> by (by apply Z.ltb_lt).
  cbn [negb]. exists s1. rewrite normalize_id; [done|].
  intros Hin. apply (join_no_backslash rel Hr).
  rewrite <- (take_drop 1 (join_with SLASH rel)). apply elem_of_app. by right.
Qed.

Lemma safe_join_relative base rel s :
  quiet s -> Forall path_name (base ++ rel) -> rel <> [] ->
  zlen (render base) + zlen (join_with SLASH rel) < SYSEBA_PATH_MAX ->
  value (syseba_path_is_within (render base) (render (base ++ rel))) s = true ->
  exists s', syseba_safe_join (render base) (Some (drop 1 (join_with SLASH rel)))
               SYSEBA_PATH_MAX s = (Some (render (base ++ rel)), s').
Proof.
  intros Hq Hn Hne Hl Hw. unfold syseba_safe_join.
  pose proof Hn as Hn'. apply Forall_app in Hn' as [Hb Hr].
  destruct rel as [|x r]; [done|]. cbn [join_with drop]. rewrite drop_0.
  change (default [] (Some (x ++ join_with SLASH r))) with (x ++ join_with SLASH r).
  assert (drop_while is_separator (x ++ join_with SLASH r) = x ++ join_with SLASH r) as ->.
  { pose proof (Forall_inv Hr) as ([Hx0 Hx1] & Hx2 & _). destruct x as [|c x]; [done|].
    simpl app. rewrite drop_while_id; [done|]. unfold is_separator.
    apply not_elem_of_cons in Hx1 as [Hx1 _]. apply not_elem_of_cons in Hx2 as [Hx2 _].
    apply orb_false_iff. split; apply ceq_false; congruence. }
  change (SLASH :: x ++ join_with SLASH r) with (join_with SLASH (x :: r)).
  assert (fits SYSEBA_PATH_MAX (render base ++ join_with SLASH (x :: r)) = true) as ->.
  { apply Z.ltb_lt. by rewrite zlen_app. }
  cbn [negb]. unfold bind at 1. rewrite path_real_os_absolute.
  2: { destruct (render_head base) as [z ->]. done. }
  rewrite path_real_join_some by done. unfold bind, value in *.
  destruct (syseba_path_is_within _ _ s) as [w s1]. simpl in Hw. subst w. by exists s1.
Qed.
