(* ===== verification/PlainFacts.v ===== *)
(** * Containment on paths without symbolic links

    On a quiet host, a path with no symbolic link on the way resolves to itself,
    whether it exists or not; containment is then the prefix order on the names,
    and an event's paths are its relative names under the three directories.  So a
    configuration whose paths have no link on the way stays valid when it is saved. *)

From S2P Require Import Prelude CString Paths Os OsFacts Platform Fs FsFacts CopyFacts Config ConfigFacts AtomicFacts ConfigText.

(** No prefix of the names is a symbolic link. *)
Definition no_links (fs : fsmap) (names : ppath) : Prop :=
  forall a b m t, names = a ++ b -> fs !! a <> Some (NLnk m t).

Lemma no_links_prefix fs a b : no_links fs (a ++ b) -> no_links fs a.
Proof. intros H c d m t ->. apply (H c (d ++ b)). by rewrite app_assoc. Qed.

Lemma tree_chain fs p x : tree_ok fs -> is_Some (fs !! (p ++ [x])) -> dir_chain fs p.
Proof.
  intros Ht. revert x. induction p as [|y p IH] using rev_ind; intros x [n Hn].
  - apply dir_chain_nil.
  - assert (is_dir_at fs (p ++ [y]) = true) as Hd.
    { pose proof (Ht _ _ Hn) as H. rewrite removelast_last in H. apply H. by destruct (p ++ [y]). }
    apply dir_chain_snoc; [|done]. apply is_dir_at_snoc in Hd as [m Hm]. eapply IH. eauto.
Qed.

Lemma namei_unlinked l fs follow p names k :
  Forall path_name names -> (forall a b m t, names = a ++ b -> fs !! (p ++ a) <> Some (NLnk m t)) ->
  namei l fs follow p names = Found k ->
  k = p ++ names /\ (names <> [] -> is_Some (fs !! k)).
Proof.
  intros Hn. revert p. induction Hn as [|c names (_ & _ & _ & Hdd) Hn IH]; intros p Hl H.
  - rewrite namei_nil in H. injection H as <-. by rewrite app_nil_r.
  - rewrite namei_cons in H. destruct (is_dir_at fs p); [|done]. cbn [negb] in H.
    apply streq_false in Hdd. rewrite Hdd in H. cbn zeta in H.
    assert (forall a b m t, names = a ++ b -> fs !! ((p ++ [c]) ++ a) <> Some (NLnk m t)) as Hl'.
    { intros a b m t ->. rewrite <- app_assoc. by apply (Hl (c :: a) b). }
    replace (p ++ c :: names) with ((p ++ [c]) ++ names) by (by rewrite <- app_assoc).
    destruct (fs !! (p ++ [c])) as [[]|] eqn:E.
    3: { exfalso. by eapply (Hl [c] names). }
    4: { by destruct names. }
    all: apply IH in H as [-> Hs]; [|done]; split; [done|]; intros _;
      destruct names as [|d ds]; [rewrite app_nil_r; eauto|by apply Hs].
Qed.

Lemma resolve_unlinked s follow names k :
  Forall path_name names -> no_links (os_fs s) names ->
  resolve s follow (render names) = Found k ->
  k = names /\ (names <> [] -> is_Some (os_fs s !! k)).
Proof.
  intros Hn Hl H. rewrite resolve_render in H by done.
  apply namei_unlinked in H; [done|done|]. intros a b m t. apply Hl.
Qed.

(** A path that exists is found where its names say. *)
Lemma resolve_present s follow names :
  Forall path_name names -> no_links (os_fs s) names -> tree_ok (os_fs s) ->
  is_Some (node_at (os_fs s) names) -> resolve s follow (render names) = Found names.
Proof.
  intros Hn Hl Ht Hs. rewrite resolve_render by done.
  destruct names as [|x p _] using rev_ind; [by rewrite namei_nil|].
  rewrite node_at_snoc in Hs.
  rewrite namei_plain by (try done; apply dir_chain_below; by eapply tree_chain).
  simpl app at 1. destruct Hs as [n Hs]. rewrite Hs. destruct n; try done; [].
  exfalso. by eapply (Hl (p ++ [x]) []); [by rewrite app_nil_r|].
Qed.

Lemma exists_plain s names :
  quiet s -> Forall path_name names -> no_links (os_fs s) names -> tree_ok (os_fs s) ->
  exists s', sys_lstat (render names) s = (node_at (os_fs s) names, s') /\ same_world s s'.
Proof.
  intros Hq Hn Hl Ht. destruct (lstat_quiet s (render names) Hq) as (s' & -> & Hw).
  exists s'. split; [|done]. f_equal.
  destruct (node_at (os_fs s) names) as [n|] eqn:E.
  - by rewrite resolve_present, E by (by eauto).
  - destruct (resolve s false (render names)) as [k| |] eqn:Er; [|done..].
    by apply resolve_unlinked in Er as [-> _].
Qed.

Lemma probe_plain fuel s names :
  quiet s -> Forall path_name names -> no_links (os_fs s) names -> tree_ok (os_fs s) ->
  zlen (render names) < SYSEBA_PATH_MAX -> (length names < fuel)%nat ->
  exists pn sn s', names = pn ++ sn /\
    probe_existing fuel (render names) s = (Some (render pn), s') /\ same_world s s' /\
    is_Some (node_at (os_fs s) pn).
Proof.
  revert names s. induction fuel as [|fuel IH]; intros names s Hq Hn Hl Ht Hz Hf; [lia|].
  cbn [probe_existing]. unfold bind, syseba_fs_exists, bind.
  destruct (exists_plain s names) as (s1 & -> & Hw1); [done..|].
  destruct (node_at (os_fs s) names) as [n|] eqn:En; cbn [ret].
  { exists names, [], s1. rewrite app_nil_r. split_and!; [done..|eauto]. }
  destruct names as [|x names _] using rev_ind; [by unfold node_at in En|].
  pose proof Hn as Hn'. apply Forall_app in Hn' as [Hn' Hx]. apply Forall_inv in Hx.
  rewrite parent_dir_render by done.
  assert (zlen (render names) < SYSEBA_PATH_MAX) as Hz'.
  { destruct names as [|y ns]; [by vm_compute|]. rewrite render_app_cons in Hz by done. zlen_lia. }
  destruct (streq (render names) (render (names ++ [x]))) eqn:Es.
  { apply streq_true in Es. exfalso. apply (f_equal (strtok_all SLASH)) in Es.
    rewrite !strtok_render in Es by done. apply (f_equal length) in Es.
    rewrite length_app in Es. simpl in Es. lia. }
  rewrite truncate_fits by (by apply Z.ltb_lt). pose proof Hw1 as [Hh1 Hf1].
  destruct (IH names s1) as (pn & sn & s2 & -> & E2 & Hw2 & Hnode).
  - by eapply same_host_quiet.
  - done.
  - rewrite Hf1. by eapply no_links_prefix.
  - by rewrite Hf1.
  - done.
  - rewrite length_app in Hf. simpl in Hf. lia.
  - exists pn, (sn ++ [x]), s2. rewrite app_assoc, E2. rewrite Hf1 in Hnode.
    split_and!; [done..| |done]. by etransitivity.
Qed.

Lemma names_shorter names : Forall path_name names -> (length names <= length (render names))%nat.
Proof.
  intros H. assert (length names <= length (join_with SLASH names))%nat.
  - clear H. induction names as [|y ys IH]; simpl; [lia|]. rewrite length_app. lia.
  - destruct names; simpl in *; lia.
Qed.

Lemma resolve_links_plain s names :
  quiet s -> Forall path_name names -> no_links (os_fs s) names -> tree_ok (os_fs s) ->
  zlen (render names) < SYSEBA_PATH_MAX ->
  exists s', syseba_path_resolve_links (render names) SYSEBA_PATH_MAX s
    = (Some (render names), s') /\ same_world s s'.
Proof.
  intros Hq Hn Hl Ht Hz. unfold syseba_path_resolve_links, bind at 1.
  rewrite path_real_os_id by (done || lia).
  assert (fits SYSEBA_PATH_MAX (render names) = true) as Hfit by (by apply Z.ltb_lt).
  rewrite Hfit. cbn [negb]. unfold bind at 1.
  destruct (probe_plain (S (length (render names))) s names) as (pn & sn & s1 & -> & -> & Hw1 & Hs);
    [done..| |].
  { pose proof (names_shorter _ Hn). lia. }
  pose proof Hn as Hn'. apply Forall_app in Hn' as [Hp Hsn]. unfold bind at 1.
  destruct (realpath_quiet s1 (render pn)) as (s2 & -> & Hw2); [by eapply same_world_quiet|].
  rewrite (same_world_resolve s s1), resolve_present by (done || by eapply no_links_prefix).
  assert (render pn ++ drop (length (render pn)) (render (pn ++ sn)) = render (pn ++ sn)) as ->.
  { destruct pn as [|x pn]; [|by rewrite render_app_join, drop_app_length].
    destruct sn; [done|]. simpl. by rewrite drop_0. }
  rewrite Hfit. cbn [negb]. rewrite path_real_os_id by (done || lia).
  exists s2. split; [done|]. by etransitivity.
Qed.

Lemma is_within_plain s b c :
  quiet s -> Forall path_name b -> Forall path_name c -> no_links (os_fs s) b ->
  no_links (os_fs s) c -> tree_ok (os_fs s) ->
  zlen (render b) < SYSEBA_PATH_MAX -> zlen (render c) < SYSEBA_PATH_MAX ->
  exists s', syseba_path_is_within (render b) (render c) s = (bool_decide (b `prefix_of` c), s') /\
    same_world s s'.
Proof.
  intros Hq Hb Hc Hlb Hlc Ht Hzb Hzc. unfold syseba_path_is_within, bind.
  destruct (resolve_links_plain s b) as (s1 & -> & Hw1); [done..|].
  destruct (resolve_links_plain s1 c) as (s2 & -> & Hw2);
    [by eapply same_world_quiet|done|by destruct Hw1 as [_ ->]|by destruct Hw1 as [_ ->]|done|].
  exists s2. split; [|by etransitivity]. f_equal.
  pose proof (within_text_spec b c Hb Hc) as Hw.
  destruct (within_text _ _) eqn:E, (bool_decide _) eqn:Ed; bool_hyps; naive_solver.
Qed.

(** ** Answers that do not depend on everything *)

#[export] Instance same_world_symmetric : Symmetric same_world.
Proof. intros s1 s2 [(?&?&?&?&?) ?]. by repeat split. Qed.

(** A relation on hosts that calls which only look do not disturb. *)
Class Coarse (R : os -> os -> Prop) : Prop :=
  coarse s1 s2 t1 t2 : same_world s1 t1 -> same_world s2 t2 -> R s1 s2 -> R t1 t2.

#[export] Instance coarse_same_world : Coarse same_world.
Proof. intros s1 s2 t1 t2 H1 H2 H. transitivity s1; [by symmetry|]. by transitivity s2. Qed.

(** The answer is the same on related hosts. *)
Definition steady (R : os -> os -> Prop) {A} (m : ST os A) : Prop :=
  forall s1 s2, quiet s1 -> quiet s2 -> R s1 s2 -> value m s1 = value m s2.

Lemma steady_ret R {A} (x : A) : steady R (ret x).
Proof. done. Qed.

Lemma steady_bind R `{!Coarse R} {A B} (m : ST os A) (k : A -> ST os B) :
  keeps calm m -> steady R m -> (forall x, steady R (k x)) -> steady R (bind m k).
Proof.
  intros Hc Hm Hk s1 s2 Hq1 Hq2 Hr. pose proof (Hm s1 s2 Hq1 Hq2 Hr) as Hv.
  unfold value, bind in *. destruct (m s1) as [x1 t1] eqn:E1, (m s2) as [x2 t2] eqn:E2. cbn in Hv. subst x2.
  destruct (calm_run _ _ _ _ Hc E1 Hq1) as [Hw1 Hqt1]. destruct (calm_run _ _ _ _ Hc E2 Hq2) as [Hw2 Hqt2].
  apply Hk; [done..|]. by eapply coarse.
Qed.

Create HintDb steady.
#[export] Hint Resolve steady_ret : steady.

Ltac steady_auto :=
  repeat first
    [ solve [auto with steady]
    | apply steady_bind; [apply _|solve [auto with keeps | keeps_auto]| |intros ?]
    | case_match ].

(** ** Validation without links *)

Definition dir_node (fs : fsmap) (k : ppath) : bool :=
  match node_at fs k with Some n => is_dir n | None => false end.

(** The four paths that validation looks at. *)
Definition checked_paths (c : syseba_config_t) : list cstr :=
  [cfg_source c; cfg_backup c; cfg_restore c; cfg_log_file c].

(** No link on the way to any of them. *)
Definition link_free (fs : fsmap) (c : syseba_config_t) : Prop :=
  forall v names, v ∈ checked_paths c -> Forall path_name names -> v = render names -> no_links fs names.

#[export] Hint Extern 1 (_ ∈ checked_paths _) => unfold checked_paths; set_solver : steady.

Section Validate.
Context (c : syseba_config_t) (sn : ppath) (Hsn : Forall path_name sn) (Hsource : cfg_source c = render sn).
Context (Hpaths : forall v, v ∈ checked_paths c -> canonical v /\ zlen v < SYSEBA_PATH_MAX).

(** A host where the source is a directory and no path has a link on the way. *)
Record sound (s : os) : Prop := Sound {
  so_tree : tree_ok (os_fs s);
  so_links : link_free (os_fs s) c;
  so_source : dir_node (os_fs s) sn = true;
}.
Definition both_sound (s1 s2 : os) : Prop := sound s1 /\ sound s2.

Lemma sound_world s t : same_world s t -> sound s -> sound t.
Proof. intros [_ E] []. constructor; by rewrite E. Qed.

#[export] Instance coarse_both_sound : Coarse both_sound.
Proof. intros s1 s2 t1 t2 H1 H2 [? ?]. split; by eapply sound_world. Qed.

Lemma sound_is_within s a b :
  quiet s -> sound s -> a ∈ checked_paths c -> b ∈ checked_paths c ->
  value (syseba_path_is_within a b) s = within_text a b.
Proof.
  intros Hq [Ht Hl _] Ha Hb. destruct (Hpaths a Ha) as [(an & Han & Ea) Hza].
  destruct (Hpaths b Hb) as [(bn & Hbn & Eb) Hzb].
  pose proof (Hl _ _ Ha Han Ea). pose proof (Hl _ _ Hb Hbn Eb). subst a b.
  destruct (is_within_plain s an bn) as (s' & E & _); [done..|]. unfold value. rewrite E. cbn.
  pose proof (within_text_spec an bn Han Hbn) as Hw.
  destruct (within_text _ _) eqn:E1, (bool_decide _) eqn:E2; bool_hyps; naive_solver.
Qed.

Lemma steady_is_within_sound a b :
  a ∈ checked_paths c -> b ∈ checked_paths c -> steady both_sound (syseba_path_is_within a b).
Proof. intros Ha Hb s1 s2 Hq1 Hq2 [H1 H2]. by rewrite !sound_is_within. Qed.

Lemma sound_is_directory s : quiet s -> sound s -> value (syseba_fs_is_directory (cfg_source c)) s = true.
Proof.
  intros Hq [Ht Hl Hd]. unfold value, syseba_fs_is_directory, bind. rewrite Hsource.
  destruct (exists_plain s sn) as (s' & E & _); [done..| |done|].
  { apply (Hl (cfg_source c)); [by left|done|done]. }
  rewrite E. exact Hd.
Qed.

Lemma steady_validate_sound : steady both_sound (syseba_config_validate c).
Proof.
  assert (steady both_sound (syseba_fs_is_directory (cfg_source c))) as Hd
    by (intros s1 s2 Hq1 Hq2 [H1 H2]; by rewrite !sound_is_directory).
  assert (forall a b, a ∈ checked_paths c -> b ∈ checked_paths c ->
    steady both_sound (syseba_path_is_within a b)) as Hw by apply steady_is_within_sound.
  unfold syseba_config_validate, or_else. steady_auto.
Qed.

(** What validation accepts has its source. *)
Lemma validate_sound s :
  quiet s -> tree_ok (os_fs s) -> link_free (os_fs s) c -> value (syseba_config_validate c) s = None -> sound s.
Proof.
  intros Hq Ht Hl Hv. constructor; [done|done|]. unfold syseba_config_validate in Hv.
  destruct (existsb _ _); [done|]. unfold value, bind at 1, syseba_fs_is_directory, bind at 1 in Hv.
  rewrite Hsource in Hv. destruct (exists_plain s sn) as (s' & E & _); [done..| |done|].
  { apply (Hl (cfg_source c)); [by left|done|done]. }
  rewrite E in Hv. unfold ret in Hv. change (match node_at (os_fs s) sn with Some n => is_dir n | None => false end)
    with (dir_node (os_fs s) sn) in Hv. by destruct (dir_node _ _).
Qed.

(** Directories on the way and the file itself leave it so. *)
Lemma sound_saved s s' d f m x :
  sound s -> (forall mm, os_fs s !! (d ++ [f]) <> Some (NDir mm)) -> dir_chain (os_fs s') d ->
  os_fs s' !! (d ++ [f]) = Some (NReg m x) -> (forall k, k <> d ++ [f] -> only_new_dirs d s s' k) ->
  sound s'.
Proof.
  intros [Ht Hl Hs] Hnd Hch Hf Hk.
  assert (forall k, is_dir_at (os_fs s) k = true -> is_dir_at (os_fs s') k = true) as Hdirs.
  { intros k Hd. unfold is_dir_at in *. destruct k as [|y k]; [done|].
    destruct (os_fs s !! (y :: k)) as [[]|] eqn:E; try done.
    destruct (decide (y :: k = d ++ [f])) as [Ek|Hne]; [rewrite Ek in E; by apply Hnd in E|].
    destruct (Hk _ Hne) as [->|(E' & _)]; [by rewrite E|congruence]. }
  assert (dir_node (os_fs s') sn = true) as Hs'.
  { unfold dir_node, node_at in *. destruct sn as [|y p].
    - destruct (Hk []) as [->|(_ & _ & mk & ->)]; [by destruct d|done|done].
    - specialize (Hdirs (y :: p)). unfold is_dir_at in Hdirs. by apply Hdirs. }
  constructor; [| |done].
  - intros k n Hn Hne. destruct (decide (k = d ++ [f])) as [->|Hkf].
    { rewrite removelast_last. apply (Hch d []). by rewrite app_nil_r. }
    destruct (Hk _ Hkf) as [E|(_ & (b & Ed) & _)]; [rewrite E in Hn; by eapply Hdirs, Ht|].
    apply (Hch _ ([List.last k []] ++ b)). rewrite Ed, app_assoc.
    by rewrite <- (app_removelast_last [] Hne).
  - intros v names Hv Hn Ev a b mm t Ea Hlnk. destruct (decide (a = d ++ [f])) as [->|Haf]; [congruence|].
    destruct (Hk _ Haf) as [E|(_ & _ & mk & E)]; [rewrite E in Hlnk; by eapply Hl|congruence].
Qed.
End Validate.

(** A valid configuration with no link on the way to its paths is valid on a host with its
    new file. *)
Lemma validate_saved c d f m x s s' :
  quiet s -> quiet s' -> tree_ok (os_fs s) -> link_free (os_fs s) c -> storable_config c ->
  Forall canonical (config_values c) -> value (syseba_config_validate c) s = None ->
  (forall mm, os_fs s !! (d ++ [f]) <> Some (NDir mm)) -> dir_chain (os_fs s') d ->
  os_fs s' !! (d ++ [f]) = Some (NReg m x) -> (forall k, k <> d ++ [f] -> only_new_dirs d s s' k) ->
  value (syseba_config_validate c) s' = None.
Proof.
  intros Hq Hq' Ht Hl [Hst _] Hcan Hv Hnd Hch Hf Hk.
  assert (forall v, v ∈ checked_paths c -> canonical v /\ zlen v < SYSEBA_PATH_MAX) as Hpaths.
  { intros v Hin. unfold config_values in Hcan. rewrite !Forall_cons in Hcan. rewrite Forall_forall in Hst.
    split; [unfold checked_paths in Hin; set_solver|]. apply Z.ltb_lt. by apply Hst. }
  destruct (Hpaths (cfg_source c)) as [(sn & Hsn & Es) _]; [by left|].
  pose proof (validate_sound c sn Hsn Es s Hq Ht Hl Hv) as Hs.
  rewrite <- Hv. symmetry. apply (steady_validate_sound c sn Hsn Es Hpaths); [done|done|].
  split; [done|]. by eapply sound_saved.
Qed.

(** It is then loaded as it is. *)
Lemma load_saved `{Strerror} c d f m s s' :
  quiet s -> quiet s' -> tree_ok (os_fs s) -> link_free (os_fs s) c -> storable_config c ->
  Forall canonical (config_values c) -> value (syseba_config_validate c) s = None ->
  Forall path_name (d ++ [f]) -> cfg_config_path c = render (d ++ [f]) ->
  zlen (render (d ++ [f])) < SYSEBA_PATH_MAX ->
  (forall mm, os_fs s !! (d ++ [f]) <> Some (NDir mm)) -> dir_chain (os_fs s') d ->
  os_fs s' !! (d ++ [f]) = Some (NReg m (config_text c)) ->
  (forall k, k <> d ++ [f] -> only_new_dirs d s s' k) ->
  exists t, syseba_config_load (cfg_config_path c) s' = (inr c, t) /\ same_world s' t.
Proof.
  intros Hq Hq' Ht Hl Hst Hcan Hv Hn Hp Hz Hnd Hch Hf Hk.
  assert (value (syseba_config_validate c) s' = None) as Hv' by (by apply (validate_saved c d f m (config_text c) s)).
  destruct (syseba_config_validate c s') as [r t] eqn:E. unfold value in Hv'. rewrite E in Hv'. cbn in Hv'. subst r.
  exists t. split; [|by eapply calm_run; [apply calm_validate|exact E|]].
  assert (resolve s' false (cfg_config_path c) = Found (d ++ [f])) as Hr
    by (rewrite Hp; by eapply resolve_file).
  rewrite (config_load_text c d f (d ++ [f]) m) by (done || by destruct d).
  unfold validated. by rewrite (bind_run _ _ _ _ _ E).
Qed.
