(* ===== verification/ConfigSpec.v ===== *)
(** * The promises of the configuration and containment functions *)

From S2P Require Import Prelude CString Paths Os OsFacts Platform Fs FsFacts CopyFacts Config ConfigFacts AtomicFacts ConfigText PlainFacts Examples.

Definition tree_ok_b (fs : fsmap) : bool :=
  check_keys (fun k _ => match k with [] => true | _ => is_dir_at fs (removelast k) end) fs.

Lemma tree_ok_b_spec fs : tree_ok_b fs = true -> tree_ok fs.
Proof.
  intros H k n Hk Hne. pose proof (check_keys_spec _ _ H k n Hk) as E. by destruct k.
Qed.

Lemma names_ok_b_spec fs : check_keys (fun k _ => forallb path_name_b k) fs = true -> names_ok fs.
Proof. intros H k n Hk. apply names_b_spec. by apply (check_keys_spec _ _ H k n). Qed.

(** The example host with a symbolic link out of /restore. *)
Definition linked_host : os :=
  with_fs (<[[c!"restore"; c!"out"] := NLnk root_meta (c!"/data")]> example_fs) (example_host []).

(** C5: what [syseba_safe_join] accepts stays inside the base for the kernel: if the
    joined path resolves, or would be created, at some location, that location lies
    under the location of the base, whatever ".." or symbolic links the request
    contains.  The names on the host have no backslash ([names_ok]): with one, see
    [backslash_leaves_base] below. *)
Theorem safe_join_contained names relative size s out s' kb k :
  quiet s -> names_ok (os_fs s) -> tree_ok (os_fs s) -> Forall path_name names ->
  syseba_safe_join (render names) relative size s = (Some out, s') ->
  resolve s true (render names) = Found kb ->
  resolve s true out = Found k \/ resolve s false out = Missing k ->
  kb `prefix_of` k.
Proof. apply safe_join_within. Qed.

Example safe_join_contained_witness :
  [c!"restore"] `prefix_of` [c!"restore"; c!"photos"; c!"b.jpg"].
Proof.
  eapply (safe_join_contained [c!"restore"] (Some (c!"/x/../photos/b.jpg")) SYSEBA_PATH_MAX
            linked_host (c!"/restore/photos/b.jpg")).
  - reflexivity.
  - apply names_ok_b_spec. by vm_compute.
  - apply tree_ok_b_spec. by vm_compute.
  - apply names_b_spec. reflexivity.
  - vm_compute. reflexivity.
  - vm_compute. reflexivity.
  - right. vm_compute. reflexivity.
Defined.

(** A link below the base leads to a directory outside with a backslash in its name. *)
Definition backslash_fs : fsmap := list_to_map
  [ ([c!"srv\a"], NDir root_meta); ([c!"srv"], NDir root_meta);
    ([c!"srv"; c!"a"], NDir root_meta); ([c!"srv"; c!"a"; c!"out"], NLnk root_meta (c!"/srv\a")) ].

(** C33: without the condition on the names, [syseba_safe_join] does not contain: there
    is a host, with a tree of files and no failing call, on which it accepts a path that the
    kernel finds outside the base.  The program changes the backslash in the text that
    [realpath] gives into a slash, and compares what it gets, the name of the base. *)
Theorem backslash_leaves_base :
  exists s names relative out kb k,
    quiet s /\ tree_ok (os_fs s) /\ Forall path_name names /\
    value (syseba_safe_join (render names) (Some relative) SYSEBA_PATH_MAX) s = Some out /\
    resolve s true (render names) = Found kb /\ resolve s true out = Found k /\ ~ kb `prefix_of` k.
Proof.
  exists (with_fs backslash_fs (example_host [])), [c!"srv"; c!"a"], (c!"out"), (c!"/srv/a/out"),
    [c!"srv"; c!"a"], [c!"srv\a"].
  split_and!; [reflexivity|apply tree_ok_b_spec; by vm_compute|by apply names_b_spec|by vm_compute..|].
  by intros [r [=]].
Qed.

(** On paths that exist, [syseba_path_is_within] decides whether the location of
    the candidate lies at or under the location of the base. *)
Theorem is_within_prefix b c s kb kc :
  quiet s -> names_ok (os_fs s) -> tree_ok (os_fs s) ->
  Forall path_name b -> Forall path_name c ->
  zlen (render b) < SYSEBA_PATH_MAX -> zlen (render c) < SYSEBA_PATH_MAX ->
  zlen (render kb) < SYSEBA_PATH_MAX -> zlen (render kc) < SYSEBA_PATH_MAX ->
  resolve s true (render b) = Found kb -> resolve s true (render c) = Found kc ->
  value (syseba_path_is_within (render b) (render c)) s = true <-> kb `prefix_of` kc.
Proof.
  intros. destruct (is_within_exists b c s kb kc) as (s' & E & _); [done..|].
  unfold value. rewrite E. apply bool_decide_eq_true.
Qed.

Example is_within_prefix_witness :
  value (syseba_path_is_within (render [c!"restore"]) (render [c!"restore"; c!"out"]))
    linked_host = true <-> [c!"restore"] `prefix_of` [c!"data"].
Proof.
  apply (is_within_prefix [c!"restore"] [c!"restore"; c!"out"] linked_host [c!"restore"] [c!"data"]);
    [reflexivity|apply names_ok_b_spec; by vm_compute|apply tree_ok_b_spec; by vm_compute|
     apply names_b_spec; reflexivity|apply names_b_spec; reflexivity|
     by vm_compute..].
Defined.

(** A configuration that [syseba_config_load] returns has canonical paths without
    line breaks, three different directories and between 1 and 64 threads. *)
Theorem config_load_valid `{Strerror} path s c s' :
  syseba_config_load path s = (inr c, s') ->
  Forall canonical (config_values c) /\
  existsb has_line_break (config_values c) = false /\
  cfg_source c <> cfg_backup c /\ cfg_source c <> cfg_restore c /\ cfg_backup c <> cfg_restore c /\
  1 <= cfg_threads c <= SYSEBA_MAX_THREADS.
Proof. intros E. apply config_load_spec in E as (Hc & Hv & _). by split. Qed.

Definition no_strerror : Strerror := fun _ => [].

Definition example_config : syseba_config_t :=
  Config (c!"/data") (c!"/backup") (c!"/restore") (c!"/syseba.log") (c!"/syseba.conf") 4.

(** The example host with a configuration file. *)
Definition config_host : os :=
  with_fs (<[[c!"syseba.conf"] := NReg example_meta (config_text example_config)]> example_fs)
    (example_host []).

Example config_load_valid_witness :
  Forall canonical (config_values example_config) /\
  existsb has_line_break (config_values example_config) = false /\
  cfg_source example_config <> cfg_backup example_config /\
  cfg_source example_config <> cfg_restore example_config /\
  cfg_backup example_config <> cfg_restore example_config /\
  1 <= cfg_threads example_config <= SYSEBA_MAX_THREADS.
Proof.
  eapply (@config_load_valid no_strerror (c!"syseba.conf") config_host). vm_compute. reflexivity.
Defined.

(** C14: the directories of a loaded configuration do not contain one another for the
    kernel, symbolic links included. *)
Theorem config_dirs_apart `{Strerror} path s c s' ks kb kr :
  quiet s -> syseba_config_load path s = (inr c, s') -> dirs_exist c s ks kb kr ->
  apart ks kb /\ apart ks kr /\ apart kb kr.
Proof. apply config_load_apart. Qed.

Example config_dirs_apart_witness :
  apart [c!"data"] [c!"backup"] /\ apart [c!"data"] [c!"restore"] /\
  apart [c!"backup"] [c!"restore"].
Proof.
  eapply (@config_dirs_apart no_strerror (c!"syseba.conf") config_host example_config).
  - reflexivity.
  - vm_compute. reflexivity.
  - constructor.
    + split; [apply names_ok_b_spec; by vm_compute|apply tree_ok_b_spec; by vm_compute].
    + exists [c!"data"], [c!"backup"], [c!"restore"].
      split_and!; try reflexivity; apply names_b_spec; reflexivity.
    + repeat constructor.
    + vm_compute. reflexivity.
    + vm_compute. reflexivity.
    + vm_compute. reflexivity.
Defined.

(** C22: on a quiet host, saving a valid configuration replaces its file, with the mode
    0640, and nothing else changes but missing directories on the way; loading that file
    gives the configuration back.  The paths of the configuration are in canonical form,
    neither end with blanks nor hold line breaks, and no symbolic link is on the way to the
    source, the backup, the restore area and the log: [saved_not_loaded] below shows a link
    that the file of the configuration replaces. *)
Theorem config_round_trip `{Strerror} c d f s :
  quiet s -> tree_ok (os_fs s) -> storable_config c -> Forall canonical (config_values c) ->
  link_free (os_fs s) c ->
  Forall path_name (d ++ [f]) -> cfg_config_path c = render (d ++ [f]) ->
  zlen (render (d ++ [f]) ++ tmp_suffix (os_mono s)) < SYSEBA_PATH_MAX ->
  creatable (os_fs s) d -> (forall mm, os_fs s !! (d ++ [f]) <> Some (NDir mm)) ->
  os_fs s !! (d ++ [f ++ tmp_suffix (os_mono s)]) = None ->
  value (syseba_config_validate c) s = None ->
  exists s' m t, syseba_config_save c s = (None, s') /\
    os_fs s' !! (d ++ [f]) = Some (NReg m (config_text c)) /\ m_mode m = 416 /\
    (forall k, k <> d ++ [f] -> only_new_dirs d s s' k) /\
    syseba_config_load (cfg_config_path c) s' = (inr c, t) /\ same_world s' t.
Proof.
  intros Hq Ht Hc Hv Hl Hn Hp Hz Hcr Hnd Hfree Hok.
  destruct (config_save_quiet c d f s) as (s' & m & E & Hq' & Hch & Hf & Hm & Hk); [done..|].
  rewrite zlen_app in Hz. pose proof (zlen_nonneg (tmp_suffix (os_mono s))).
  destruct (load_saved c d f m s s') as (t & El & Hw); try done; [lia|]. by exists s', m, t.
Qed.

Lemma storable_b v :
  nonempty v = true -> forallb (fun c => negb (ceq c NEWLINE) && negb (ceq c NUL)) v = true ->
  match head v, last v with Some a, Some b => negb (isspace a) && negb (isspace b) | _, _ => false end
    = true -> fits SYSEBA_PATH_MAX v = true -> storable v.
Proof.
  intros Hn Hc Hs Hf. split; [|split; [|done]].
  - split; [by destruct v|]. destruct (head v) as [a|] eqn:Eh, (last v) as [b|] eqn:El; try done.
    bool_hyps. split; intros ? [= <-]; done.
  - rewrite forallb_forall in Hc. split; intros Hin; apply list_elem_of_In in Hin;
      specialize (Hc _ Hin); by vm_compute in Hc.
Qed.

Lemma canonical_one x : path_name_b x = true -> canonical (render [x]).
Proof. intros H. exists [x]. split; [|done]. repeat constructor; by apply path_name_b_spec. Qed.

(** The configuration of the example, saved over its file. *)
Definition saved_host : os := exec (syseba_config_save (H := no_strerror) example_config) config_host.

Lemma no_link_at_all fs names : check_keys (fun _ n => negb (is_lnk n)) fs = true -> no_links fs names.
Proof.
  intros Hk a b m t _ Ha. by apply (check_keys_spec _ _ Hk) in Ha.
Qed.

Example config_round_trip_witness :
  exists s' m t, syseba_config_save (H := no_strerror) example_config config_host = (None, s') /\
    os_fs s' !! [c!"syseba.conf"] = Some (NReg m (config_text example_config)) /\ m_mode m = 416 /\
    (forall k, k <> [c!"syseba.conf"] -> only_new_dirs [] config_host s' k) /\
    syseba_config_load (H := no_strerror) (cfg_config_path example_config) s' = (inr example_config, t) /\
    same_world s' t.
Proof.
  apply (@config_round_trip no_strerror example_config [] (c!"syseba.conf") config_host).
  - reflexivity.
  - apply tree_ok_b_spec. by vm_compute.
  - constructor; [|by vm_compute]. repeat constructor; apply storable_b; reflexivity.
  - cbv [config_values]. rewrite !Forall_cons. split_and!; [..|by constructor].
    + by apply (canonical_one (c!"data")).
    + by apply (canonical_one (c!"backup")).
    + by apply (canonical_one (c!"restore")).
    + by apply (canonical_one (c!"syseba.log")).
    + by apply (canonical_one (c!"syseba.conf")).
  - intros v names _ _ _. apply no_link_at_all. by vm_compute.
  - apply names_b_spec. reflexivity.
  - reflexivity.
  - by vm_compute.
  - intros [|x a] b E; [by left|done].
  - intros mm. by vm_compute.
  - by vm_compute.
  - by vm_compute.
Defined.

Example config_saved_and_loaded :
  value (syseba_config_load (H := no_strerror) (c!"/syseba.conf")) saved_host = inr example_config.
Proof. by vm_compute. Qed.

(** The file of the configuration is a link, and the source is below it: the configuration is
    accepted and saved, the file takes the place of the link, and the source is gone. *)
Definition link_config : syseba_config_t :=
  Config (c!"/link/sub") (c!"/backup") (c!"/restore") (c!"/syseba.log") (c!"/link") 4.
Definition link_host : os :=
  with_fs (<[[c!"link"] := NLnk root_meta (c!"/data")]>
    (<[[c!"data"; c!"sub"] := NDir root_meta]> example_fs)) (example_host []).
Example saved_not_loaded :
  let '(r, s) := syseba_config_save (H := no_strerror) link_config link_host in
  r = None /\
  value (syseba_config_load (H := no_strerror) (c!"/link")) s
    = inl (SYSEBA_ERR_NOT_FOUND, c!"source does not exist or is not a directory: /link/sub").
Proof. by vm_compute. Qed.

(** For a path under the base, [syseba_relative_path] gives the rest of the path
    and [syseba_safe_join] of the base and that rest gives the path back. *)
Theorem relative_join_round_trip base rel s :
  quiet s -> Forall path_name (base ++ rel) -> rel <> [] ->
  zlen (render base) + zlen (join_with SLASH rel) < SYSEBA_PATH_MAX ->
  value (syseba_path_is_within (render base) (render (base ++ rel))) s = true ->
  exists relative,
    value (syseba_relative_path (render base) (render (base ++ rel)) SYSEBA_PATH_MAX) s
      = RelPath relative /\
    value (syseba_safe_join (render base) (Some relative) SYSEBA_PATH_MAX) s
      = Some (render (base ++ rel)).
Proof.
  intros Hq Hn Hne Hl Hw. exists (drop 1 (join_with SLASH rel)).
  assert (zlen (render (base ++ rel)) < SYSEBA_PATH_MAX) as Hlr.
  { destruct base as [|x b]; [|rewrite render_app_join by done; zlen_lia].
    destruct rel as [|y r]; [done|]. cbn [render app] in *. zlen_lia. }
  destruct (relative_path_under base rel s) as (s1 & E1 & _); [done..|].
  destruct (safe_join_relative base rel s) as (s2 & E2); [done..|].
  unfold value. by rewrite E1, E2.
Qed.

Example relative_join_round_trip_witness :
  exists relative,
    value (syseba_relative_path (render [c!"data"]) (render ([c!"data"] ++ [c!"a"; c!"b"]))
             SYSEBA_PATH_MAX) (example_host []) = RelPath relative /\
    value (syseba_safe_join (render [c!"data"]) (Some relative) SYSEBA_PATH_MAX) (example_host [])
      = Some (render ([c!"data"] ++ [c!"a"; c!"b"])).
Proof.
  apply (relative_join_round_trip [c!"data"] [c!"a"; c!"b"] (example_host [])).
  - reflexivity.
  - apply names_b_spec. reflexivity.
  - done.
  - by vm_compute.
  - vm_compute. reflexivity.
Defined.

(** C36: [syseba_relative_path] checks containment on resolved paths but cuts the
    unresolved text: when /mnt/source/files is a link to /d and the base is
    /mnt/source/files, the path /d is accepted as inside although it is shorter than
    the base, and the rest is read past the end of the path. *)
Theorem relative_path_out_of_bounds :
  exists s, quiet s /\
    value (syseba_relative_path (c!"/mnt/source/files") (c!"/d") SYSEBA_PATH_MAX) s
      = RelOutOfBounds.
Proof.
  exists (with_fs (list_to_map
    [ ([c!"d"], NDir root_meta); ([c!"mnt"], NDir root_meta);
      ([c!"mnt"; c!"source"], NDir root_meta);
      ([c!"mnt"; c!"source"; c!"files"], NLnk root_meta (c!"/d")) ]) (example_host [])).
  split; [reflexivity|]. vm_compute. reflexivity.
Qed.

(** The [threads] setting accepts the decimal numbers from 1 to 64 and nothing
    outside that range. *)
Theorem config_threads_range v n :
  (parse_threads v = Some n -> 1 <= n <= SYSEBA_MAX_THREADS) /\
  (v = dec n -> 1 <= n <= SYSEBA_MAX_THREADS -> parse_threads v = Some n).
Proof. split; [apply parse_threads_range|]. intros ->. apply parse_threads_dec. Qed.
