(* ===== verification/FsTree.v ===== *)
(** * Directory trees (src/src/fs.c, second part)

    The recursive walk, the copy, removal and move of a tree, and the unique names
    of restored items.  A callback works on a state that holds the host
    ([Lens S os]): the walk threads it. *)

From S2P Require Import Prelude CString Paths Os Platform Fs Config.

(** The end of the directory stream: [readdir] returns [NULL], and only an error
    touches [errno]. *)
Definition sys_readdir_end : ST os bool := sys_sync.

Definition walkable (n : node) : bool := is_dir n || is_reg n.

Section Walk.
Context {S : Type} `{!Lens S os} `{DirOrder}.
Context (callback : cstr -> bool -> ST S bool).

(** The loop on the entries of [root]; [descend] is the recursive call. *)
Fixpoint walk_entries (descend : cstr -> ST S bool) (root : cstr) (names : list cstr) :
    ST S bool :=
  match names with
  | [] =>
      zoom sys_readdir_end ;;;
      (let* saved := zoom get_errno in
       if bool_decide (saved = E_OK) then ret true
       else zoom (set_errno saved) ;;; ret false)
  | d_name :: rest =>
      if streq d_name (c!".") || streq d_name (c!"..") then walk_entries descend root rest
      else
        let path := root ++ SLASH :: d_name in
        if negb (fits SYSEBA_PATH_MAX path) then zoom (set_errno ENAMETOOLONG) ;;; ret false
        else
          let* value := zoom (sys_lstat path) in
          match value with
          | None =>
              let* e := zoom get_errno in
              if bool_decide (e = ENOENT) then walk_entries descend root rest else ret false
          | Some n =>
              if negb (walkable n) then walk_entries descend root rest
              else
                let* accepted := callback path (is_dir n) in
                if negb accepted then ret false
                else
                  let* inside := (if is_dir n then descend path else ret true) in
                  if inside then walk_entries descend root rest else ret false
          end
  end.

Fixpoint walk_internal (fuel : nat) (root : cstr) : ST S bool :=
  match fuel with
  | O => ret false
  | Datatypes.S fuel' =>
      let* directory_stream := zoom (sys_readdir root) in
      match directory_stream with
      | None => ret false
      | Some names =>
          zoom (set_errno E_OK) ;;;
          walk_entries (walk_internal fuel') root names
      end
  end.

(** Every level adds a separator to a path below [SYSEBA_PATH_MAX] bytes. *)
Definition walk_fuel : nat := Z.to_nat (SYSEBA_PATH_MAX + 1).
Definition syseba_walk_internal (root : cstr) : ST S bool := walk_internal walk_fuel root.

Definition syseba_walk_files (root : cstr) : ST S bool :=
  let* directory := zoom (syseba_fs_is_directory root) in
  if negb directory then zoom (set_errno ENOTDIR) ;;; ret false
  else syseba_walk_internal root.
End Walk.

Section Trees.
Context `{DirOrder}.

(** ** Copying a tree *)

(** The bytes past the end of a path buffer, where [syseba_relative_path] reads
    when the path is lexically outside its base, are not known. *)
Definition relative_text (unknown : cstr) (r : relative_result) : option cstr :=
  match r with
  | RelInvalid => None
  | RelPath t => Some t
  | RelOutOfBounds => Some unknown
  end.

Definition syseba_copy_tree_entry (unknown source destination : cstr) (overwrite : bool)
    (path : cstr) (directory : bool) : ST os bool :=
  let* relative := syseba_relative_path source path SYSEBA_PATH_MAX in
  let* target :=
    (match relative_text unknown relative with
     | None => ret None
     | Some relative => syseba_safe_join destination (Some relative) SYSEBA_PATH_MAX
     end) in
  match target with
  | None => set_errno EINVAL ;;; ret false
  | Some target =>
      if directory then syseba_mkdirs target 488
      else
        let* present := (if overwrite then ret false else syseba_fs_exists target) in
        if present then set_errno EEXIST ;;; ret false
        else syseba_copy_file path target 4
  end.

Definition syseba_copy_tree (unknown source destination : cstr) (overwrite : bool) :
    ST os bool :=
  let* directory := syseba_fs_is_directory source in
  if negb directory then set_errno ENOTDIR ;;; ret false
  else
    let* occupied :=
      (let* present := syseba_fs_exists destination in
       if present then
         let* directory := syseba_fs_is_directory destination in ret (negb directory)
       else ret false) in
    if occupied then set_errno EEXIST ;;; ret false
    else
      let* made := syseba_mkdirs destination 488 in
      if negb made then ret false
      else syseba_walk_files (syseba_copy_tree_entry unknown source destination overwrite)
             source.

(** ** Removing a tree *)

(** The paths the walk has collected, the last one first. *)
Definition collected : Type := list (cstr * bool).

Definition syseba_remove_collect (path : cstr) (directory : bool) :
    ST (collected * os) bool :=
  fun '(paths, s) => (true, ((path, directory) :: paths, s)).

#[local] Instance lens_collected : Lens (collected * os) os.
Proof.
  refine {| lget := snd; lset t s := (fst s, t) |}; [done| |done].
  by intros [].
Defined.

Fixpoint remove_each (paths : collected) : ST os bool :=
  match paths with
  | [] => ret true
  | (path, directory) :: rest =>
      let* removed := (if directory then sys_rmdir path else sys_unlink path) in
      if removed then remove_each rest else ret false
  end.

(** Run the walk with an empty list, and keep the host it ends with. *)
Definition collect_paths (path : cstr) : ST os (bool * collected) :=
  fun s => let '(result, (paths, s')) :=
             syseba_walk_files syseba_remove_collect path ([], s) in
           ((result, paths), s').

Definition syseba_remove_path (path : cstr) : ST os bool :=
  let* present := syseba_fs_exists path in
  if negb present then ret true
  else
    let* directory := syseba_fs_is_directory path in
    if negb directory then sys_unlink path
    else
      let* walked := collect_paths path in
      let '(result, paths) := walked in
      let* result := (if result then remove_each paths else ret false) in
      if result then sys_rmdir path else ret false.

(** ** Moving *)

Definition syseba_move_path (unknown source destination : cstr) : ST os bool :=
  let* prepared := syseba_prepare_destination destination in
  if negb prepared then ret false
  else
    let* renamed := sys_rename source destination in
    if renamed then ret true
    else
      let* e := get_errno in
      if negb (bool_decide (e = EXDEV)) then ret false
      else
        let* directory := syseba_fs_is_directory source in
        let* copied :=
          (if directory then syseba_copy_tree unknown source destination true
           else syseba_copy_file source destination 4) in
        if negb copied then ret false
        else syseba_remove_path source.
End Trees.

(** ** Unique names *)

(** The local time as [strftime("%Y%m%d-%H%M%S")] prints it. *)
Class LocalStamp := local_stamp : Z -> cstr.
Definition syseba_compact_stamp `{LocalStamp} : ST os cstr :=
  gets (fun s => truncate 32 (local_stamp (os_time s))).

(** The candidates from [counter] on: the first that does not exist. *)
Fixpoint first_free (left : nat) (candidate : Z -> cstr) (counter size : Z) :
    ST os (option cstr) :=
  match left with
  | O => set_errno EEXIST ;;; ret None
  | S left' =>
      let output := candidate counter in
      if negb (fits size output) then ret None
      else
        let* present := syseba_fs_exists output in
        if negb present then ret (Some output)
        else first_free left' candidate (counter + 1) size
  end.

Definition UNIQUE_TRIES : nat := Z.to_nat 100000.

Definition restore_candidate (path stamp : cstr) (counter : Z) : cstr :=
  path ++ (c!".") ++ stamp ++ (if counter =? 0 then [] else (c!".") ++ dec counter).

Definition syseba_unique_restore_path `{LocalStamp} (path : cstr) (size : Z) :
    ST os (option cstr) :=
  let* present := syseba_fs_exists path in
  if negb present then ret (if fits size path then Some path else None)
  else
    let* stamp := syseba_compact_stamp in
    first_free UNIQUE_TRIES (restore_candidate path stamp) 0 size.

(** The stem and the extension of the last name: a leading dot starts no
    extension. *)
Definition split_name (path : cstr) : cstr * cstr :=
  let name := match strrchr SLASH path with Some (_, n) => n | None => path end in
  match strrchr "."%char name with
  | Some ([], _) | None => (name, [])
  | Some (stem, rest) => (stem, "."%char :: rest)
  end.

Definition restored_candidate (parent stem extension stamp : cstr) (counter : Z) : cstr :=
  parent ++ SLASH :: stem ++ (c!".restored-") ++ stamp ++
    (if counter =? 0 then [] else (c!"-") ++ dec counter) ++ extension.

Definition syseba_unique_restored_path `{LocalStamp} (path : cstr) (size : Z) :
    ST os (option cstr) :=
  let* present := syseba_fs_exists path in
  if negb present then ret (if fits size path then Some path else None)
  else
    let '(stem, extension) := split_name path in
    match syseba_parent_dir path SYSEBA_PATH_MAX with
    | None => ret None
    | Some parent =>
        if (SYSEBA_PATH_MAX <? zlen stem + 1) || negb (fits SYSEBA_PATH_MAX extension)
        then ret None
        else
          let* stamp := syseba_compact_stamp in
          first_free UNIQUE_TRIES (restored_candidate parent stem extension stamp) 0 size
    end.
