(* ===== verification/FsTreeFacts.v ===== *)
(** * Properties of the tree operations

    The walk's fuel is enough; a copied tree reports failure after it has copied
    everything; the unique names are free names in the same directory. *)

From S2P Require Import Prelude CString Paths Os OsFacts Platform Fs FsFacts CopyFacts Config ConfigFacts ConfigText FsTree.

(** ** The walk ends *)

Section WalkFuel.
Context {S : Type} `{!Lens S os} `{DirOrder}.
Context (callback : cstr -> bool -> ST S bool).

Lemma bind_ext {A B} (m : ST S A) (k1 k2 : A -> ST S B) s :
  (forall a s', k1 a s' = k2 a s') -> bind m k1 s = bind m k2 s.
Proof. intros Hk. unfold bind. by destruct (m s). Qed.

Lemma walk_entries_ext d1 d2 root names s :
  (forall name t, fits SYSEBA_PATH_MAX (root ++ SLASH :: name) = true ->
     d1 (root ++ SLASH :: name) t = d2 (root ++ SLASH :: name) t) ->
  walk_entries callback d1 root names s = walk_entries callback d2 root names s.
Proof.
  intros Hd. revert s. induction names as [|name rest IH]; intros s; [done|].
  cbn [walk_entries]. destruct (_ || _); [apply IH|]. cbv zeta.
  destruct (fits _ _) eqn:Ef; [|done]. cbn [negb].
  apply bind_ext. intros [n|] s1.
  - destruct (negb _); [apply IH|]. apply bind_ext. intros a s2.
    destruct (negb a); [done|]. destruct (is_dir n).
    + unfold bind. rewrite (Hd name s2 Ef). destruct (d2 _ s2) as [[] s3]; [apply IH|done].
    + apply bind_ext. intros [] s3; [apply IH|done].
  - apply bind_ext. intros e s2. destruct (bool_decide _); [apply IH|done].
Qed.

Lemma walk_internal_fuel f1 f2 root s :
  SYSEBA_PATH_MAX - zlen root < Z.of_nat f1 -> SYSEBA_PATH_MAX - zlen root < Z.of_nat f2 ->
  (0 < f1)%nat -> (0 < f2)%nat ->
  walk_internal callback f1 root s = walk_internal callback f2 root s.
Proof.
  revert f2 root s. induction f1 as [|f1 IH]; intros f2 root s H1 H2 P1 P2; [lia|].
  destruct f2 as [|f2]; [lia|]. cbn [walk_internal].
  apply bind_ext. intros [names|] s1; [|done]. apply bind_ext. intros _ s2.
  apply walk_entries_ext. intros name t Hf. apply Z.ltb_lt in Hf.
  assert (zlen root + 1 <= zlen (root ++ SLASH :: name)) by zlen_lia.
  apply IH; lia.
Qed.
End WalkFuel.

(** ** Unique names *)

Lemma first_free_quiet left candidate counter size s out s' :
  quiet s -> first_free left candidate counter size s = (Some out, s') ->
  same_world s s' /\ fits size out = true /\
  (exists n, counter <= n < counter + Z.of_nat left /\ out = candidate n) /\
  (forall k, resolve s false out = Found k -> node_at (os_fs s) k = None).
Proof.
  revert counter s. induction left as [|left IH]; intros counter s Hq H; [done|].
  cbn [first_free] in H. cbv zeta in H. destruct (fits size (candidate counter)) eqn:Ef; [|done].
  cbn [negb] in H. unfold bind, syseba_fs_exists, bind in H.
  destruct (lstat_quiet s (candidate counter) Hq) as (s1 & E1 & Hw). rewrite E1 in H.
  destruct (match resolve s false (candidate counter) with Found k => node_at (os_fs s) k
    | _ => None end) as [n|] eqn:En; cbn in H.
  - apply IH in H as (Hw' & Hf & (n' & Hn & ->) & Hk); [|by eapply same_world_quiet].
    split; [by etransitivity|]. split; [done|]. split; [exists n'; split; [lia|done]|].
    intros k Hr. rewrite <- (same_world_resolve s s1) in Hr by done.
    destruct Hw as [_ <-]. by apply Hk.
  - injection H as <- <-. split; [done|]. split; [done|]. split; [exists counter; split; [lia|done]|].
    intros k Hr. by rewrite Hr in En.
Qed.

(** The restored item goes to a free name: the path itself, or the stem and the
    extension around a mark, in the same directory. *)
Lemma unique_restored_path_spec `{LocalStamp} path size s out s' :
  quiet s -> syseba_unique_restored_path path size s = (Some out, s') ->
  fits size out = true /\
  (forall k, resolve s false out = Found k -> node_at (os_fs s) k = None) /\
  (out = path \/
   exists parent stem extension stamp n, syseba_parent_dir path SYSEBA_PATH_MAX = Some parent /\
     split_name path = (stem, extension) /\ 0 <= n /\
     out = restored_candidate parent stem extension stamp n).
Proof.
  intros Hq Hu. unfold syseba_unique_restored_path, bind at 1, syseba_fs_exists, bind at 1 in Hu.
  destruct (lstat_quiet s path Hq) as (s1 & E1 & Hw). rewrite E1 in Hu.
  destruct (match resolve s false path with Found k => node_at (os_fs s) k
    | _ => None end) as [n|] eqn:En; cbn in Hu.
  - destruct (split_name path) as [stem extension] eqn:Es.
    destruct (syseba_parent_dir path _) as [parent|] eqn:Ep; [|done].
    destruct (_ || _); [done|]. unfold bind, syseba_compact_stamp, gets in Hu.
    apply first_free_quiet in Hu as (Hw' & Hf & (m & Hm & ->) & Hk);
      [|by eapply same_world_quiet].
    split; [done|]. split.
    + intros k Hr. rewrite <- (same_world_resolve s s1) in Hr by done.
      destruct Hw as [_ <-]. by apply Hk.
    + right. do 5 eexists. split; [done|]. split; [done|]. split; [|done]. lia.
  - destruct (fits size path) eqn:Ef; [|done]. injection Hu as <- <-. split; [done|].
    split; [|by left]. intros k Hr. by rewrite Hr in En.
Qed.

(** The name is the stem and the extension. *)
Lemma split_name_app path stem extension :
  split_name path = (stem, extension) ->
  (match strrchr SLASH path with Some (_, n) => n | None => path end) = stem ++ extension.
Proof.
  unfold split_name. set (name := match strrchr SLASH path with Some (_, n) => n | None => path end).
  destruct (strrchr "."%char name) as [[[|c a] b]|] eqn:E.
  - intros [= <- <-]. by rewrite app_nil_r.
  - intros [= <- <-]. apply strrchr_Some in E as [-> _]. done.
  - intros [= <- <-]. by rewrite app_nil_r.
Qed.
