(* ===== verification/Restore.v ===== *)
(** * Restoring (src/src/fs.c, third part)

    The listing of the restore area, sorted and cut into pages, and the restoration
    of one item with its three strategies. *)

From Stdlib Require Import Sorting.Sorted.
From S2P Require Import Prelude CString Paths Os Platform Fs Config FsTree.

Inductive syseba_restore_strategy_t : Type :=
  | SYSEBA_RESTORE_FAIL
  | SYSEBA_RESTORE_RENAME
  | SYSEBA_RESTORE_OVERWRITE.
#[export] Instance restore_strategy_eq_dec : EqDecision syseba_restore_strategy_t.
Proof. solve_decision. Defined.

Record syseba_restore_item_t := RestoreItem {
  ri_name : cstr;
  ri_path : cstr;
  ri_mtime : cstr;
  ri_size : Z;
  ri_is_directory : bool;
  ri_destination_exists : bool;
}.

Record syseba_restore_listing_t := RestoreListing {
  rl_items : list syseba_restore_item_t;
  rl_total : Z;
  rl_page : Z;
  rl_pages : Z;
  rl_page_size : Z;
  rl_has_previous : bool;
  rl_has_next : bool;
  rl_is_file : bool;
  rl_path : cstr;
}.

(** ** Filtering and ordering *)

(** [while (index < search_length && ...)]: the search text is here. *)
Fixpoint match_here (value search : cstr) : bool :=
  match search, value with
  | [], _ => true
  | _, [] => false
  | b :: search', a :: value' => ceq (tolower a) (tolower b) && match_here value' search'
  end.

Fixpoint contains_from (value search : cstr) : bool :=
  match value with
  | [] => false
  | _ :: rest => match_here value search || contains_from rest search
  end.

Definition syseba_contains_case_insensitive (value search : cstr) : bool :=
  negb (nonempty search) || contains_from value search.

Definition syseba_restore_item_compare_common (first second : syseba_restore_item_t) : Z :=
  if Bool.eqb (ri_is_directory first) (ri_is_directory second) then 0
  else if ri_is_directory first then -1 else 1.

Definition syseba_restore_compare_name_asc (first second : syseba_restore_item_t) : Z :=
  let common := syseba_restore_item_compare_common first second in
  if negb (common =? 0) then common else strcasecmp (ri_name first) (ri_name second).

Definition syseba_restore_compare_name_desc (first second : syseba_restore_item_t) : Z :=
  let common := syseba_restore_item_compare_common first second in
  if negb (common =? 0) then common else - syseba_restore_compare_name_asc first second.

Definition syseba_restore_compare_mtime_asc (first second : syseba_restore_item_t) : Z :=
  let common := syseba_restore_item_compare_common first second in
  if negb (common =? 0) then common else strcmp (ri_mtime first) (ri_mtime second).

Definition syseba_restore_compare_mtime_desc (first second : syseba_restore_item_t) : Z :=
  let common := syseba_restore_item_compare_common first second in
  if negb (common =? 0) then common else - strcmp (ri_mtime first) (ri_mtime second).

Definition syseba_restore_compare_size_asc (first second : syseba_restore_item_t) : Z :=
  let common := syseba_restore_item_compare_common first second in
  if negb (common =? 0) then common
  else if ri_size first =? ri_size second then syseba_restore_compare_name_asc first second
  else if ri_size first <? ri_size second then -1 else 1.

Definition syseba_restore_compare_size_desc (first second : syseba_restore_item_t) : Z :=
  let common := syseba_restore_item_compare_common first second in
  if negb (common =? 0) then common
  else if ri_size first =? ri_size second then syseba_restore_compare_name_asc first second
  else if ri_size second <? ri_size first then -1 else 1.

Definition restore_comparator (sort direction : cstr) :
    syseba_restore_item_t -> syseba_restore_item_t -> Z :=
  let desc := streq direction (c!"desc") in
  if streq sort (c!"mtime") then
    if desc then syseba_restore_compare_mtime_desc else syseba_restore_compare_mtime_asc
  else if streq sort (c!"size") then
    if desc then syseba_restore_compare_size_desc else syseba_restore_compare_size_asc
  else if desc then syseba_restore_compare_name_desc
  else syseba_restore_compare_name_asc.

(** [qsort] from the C library: a permutation in the order of the comparison, when
    the comparison is a consistent one.  Equal items come in any order. *)
Class Qsort := {
  qsort : forall {A : Type}, (A -> A -> Z) -> list A -> list A;
  qsort_perm : forall {A} (cmp : A -> A -> Z) l, Permutation (qsort cmp l) l;
  qsort_sorted : forall {A} (cmp : A -> A -> Z) l,
    (forall a b, cmp a b <= 0 \/ cmp b a <= 0) ->
    (forall a b c, cmp a b <= 0 -> cmp b c <= 0 -> cmp a c <= 0) ->
    StronglySorted (fun a b => cmp a b <= 0) (qsort cmp l);
}.

(** [syseba_iso_from_time]: the local time as [strftime] prints it. *)
Class IsoTime := iso_from_time : Z -> cstr.

(** ** Pages *)

Definition SYSEBA_DEFAULT_RESTORE_PAGE : Z := 100.
Definition SYSEBA_MAX_RESTORE_PAGE : Z := 250.

Definition effective_page_size (page_size : Z) : Z :=
  let page_size := if page_size =? 0 then SYSEBA_DEFAULT_RESTORE_PAGE else page_size in
  if SYSEBA_MAX_RESTORE_PAGE <? page_size then SYSEBA_MAX_RESTORE_PAGE else page_size.

Definition page_count (total page_size : Z) : Z :=
  let pages := wrap32 (wrap64 (total + page_size - 1) / page_size) in
  if pages =? 0 then 1 else pages.

Definition paginate (items : list syseba_restore_item_t) (page page_size : Z) (path : cstr) :
    syseba_restore_listing_t :=
  let total := zlen items in
  let pages := page_count total page_size in
  let page := if pages <? page then pages else page in
  let offset := (page - 1) * page_size in
  let available := if offset <? total then total - offset else 0 in
  let selected := if page_size <? available then page_size else available in
  RestoreListing (take (Z.to_nat selected) (drop (Z.to_nat offset) items))
    total page pages page_size (1 <? page) (page <? pages) false path.

(** ** Reading the directory *)

Section Listing.
Context `{DirOrder} `{IsoTime}.
(** The bytes past a path's end that [syseba_relative_path] may read. *)
Context (unknown : cstr).

Definition relative_or_empty (r : relative_result) : cstr :=
  default [] (relative_text unknown r).

Definition restore_read_item (config : syseba_config_t) (path d_name : cstr)
    (st : stat_result) : ST os syseba_restore_item_t :=
  let* relative := syseba_relative_path (cfg_restore config) path SYSEBA_PATH_MAX in
  let item_path := relative_or_empty relative in
  let* destination := syseba_safe_join (cfg_source config) (Some item_path) SYSEBA_PATH_MAX in
  let* exists_ :=
    (match destination with
     | None => ret false
     | Some destination => syseba_fs_exists destination
     end) in
  ret (RestoreItem d_name item_path
         (truncate 32 (iso_from_time (Z.quot (st_mtime_ns st) 1000000000)))
         (st_size st) (st_directory st) exists_).

Fixpoint restore_read_entries (config : syseba_config_t) (target search : cstr)
    (names : list cstr) (items : list syseba_restore_item_t) :
    ST os (option (list syseba_restore_item_t)) :=
  match names with
  | [] =>
      sys_readdir_end ;;;
      (let* saved := get_errno in
       if bool_decide (saved = E_OK) then ret (Some items)
       else set_errno saved ;;; ret None)
  | d_name :: rest =>
      if streq d_name (c!".") || streq d_name (c!"..")
         || negb (syseba_contains_case_insensitive d_name search)
      then restore_read_entries config target search rest items
      else
        let path := target ++ SLASH :: d_name in
        if negb (fits SYSEBA_PATH_MAX path)
        then restore_read_entries config target search rest items
        else
          let* st := syseba_fs_stat path in
          match st with
          | None => restore_read_entries config target search rest items
          | Some st =>
              let* item := restore_read_item config path d_name st in
              restore_read_entries config target search rest (items ++ [item])
          end
  end.

Definition syseba_restore_read_directory (config : syseba_config_t) (target search : cstr) :
    ST os (option (list syseba_restore_item_t)) :=
  let* stream := sys_readdir target in
  match stream with
  | None => ret None
  | Some names =>
      set_errno E_OK ;;;
      restore_read_entries config target search names []
  end.

Context `{Qsort} `{Strerror}.

Definition last_name (path : cstr) : cstr :=
  match strrchr SLASH path with Some (_, n) => n | None => path end.

(** A failure without a message leaves the caller's [error] buffer as it was. *)
Definition syseba_restore_list (config : syseba_config_t) (relative search : option cstr)
    (page page_size : Z) (sort direction : cstr) :
    ST os (failure + syseba_restore_listing_t) :=
  let page := if page =? 0 then 1 else page in
  let page_size := effective_page_size page_size in
  let* target := syseba_safe_join (cfg_restore config) relative SYSEBA_PATH_MAX in
  match target with
  | None => ret (inl (SYSEBA_ERR_INVALID, c!"Invalid restore path"))
  | Some target =>
      let* present := syseba_fs_exists target in
      if negb present then ret (inl (SYSEBA_ERR_NOT_FOUND, c!"Restore path not found"))
      else
        let* rel := syseba_relative_path (cfg_restore config) target SYSEBA_PATH_MAX in
        let listing_path := relative_or_empty rel in
        let* directory := syseba_fs_is_directory target in
        if negb directory then
          let* st := syseba_fs_stat target in
          match st with
          | None => ret (inl (SYSEBA_ERR, []))
          | Some st =>
              let item := RestoreItem (last_name target) listing_path
                            (truncate 32 (iso_from_time (Z.quot (st_mtime_ns st) 1000000000)))
                            (st_size st) false false in
              ret (inr (RestoreListing [item] 1 1 1 1 false false true listing_path))
          end
        else
          let* items := syseba_restore_read_directory config target (default [] search) in
          match items with
          | None =>
              let* e := get_errno in
              ret (inl (SYSEBA_ERR,
                        (c!"Unable to read restore directory: ") ++ strerror e))
          | Some items =>
              ret (inr (paginate (qsort (restore_comparator sort direction) items)
                                 page page_size listing_path))
          end
  end.
End Listing.

(** ** Restoring an item *)

(** What the application offers the restore operations: its host, the counter of
    restored items, and the log.  The host is not affected by the other two. *)
Class RestoreApp (S : Type) := {
  ra_host :: Lens S os;
  ra_config : S -> syseba_config_t;
  ra_restored : ST S unit;
  ra_log : cstr -> cstr -> ST S unit;
  ra_restored_host : forall s, lget (exec ra_restored s) = lget s;
  ra_log_host : forall a b s, lget (exec (ra_log a b) s) = lget s;
}.

Section Item.
Context {S : Type} `{RestoreApp S} `{DirOrder} `{LocalStamp} `{Strerror}.
Context (unknown : cstr).

(** The part before the copy: the source, whether it is a directory, and the
    target. *)
Definition restore_plan (config : syseba_config_t) (relative : option cstr)
    (strategy : syseba_restore_strategy_t) : ST os (failure + (cstr * bool * cstr)) :=
  let invalid := inl (SYSEBA_ERR_INVALID, c!"Invalid restore item path") in
  match relative with
  | None | Some [] => ret invalid
  | Some relative =>
      let* source := syseba_safe_join (cfg_restore config) (Some relative) SYSEBA_PATH_MAX in
      match source with None => ret invalid | Some source =>
      let* target := syseba_safe_join (cfg_source config) (Some relative) SYSEBA_PATH_MAX in
      match target with None => ret invalid | Some target =>
      let* present := syseba_fs_exists source in
      if negb present then ret (inl (SYSEBA_ERR_NOT_FOUND, c!"Restore item not found"))
      else
        let* source_directory := syseba_fs_is_directory source in
        let* destination_exists := syseba_fs_exists target in
        if destination_exists && bool_decide (strategy = SYSEBA_RESTORE_FAIL) then
          ret (inl (SYSEBA_ERR_EXISTS,
                    c!"Destination already exists; choose rename or overwrite"))
        else if destination_exists && bool_decide (strategy = SYSEBA_RESTORE_RENAME) then
          let* unique := syseba_unique_restored_path target SYSEBA_PATH_MAX in
          ret (match unique with
               | None => inl (SYSEBA_ERR, c!"Unable to create a unique name")
               | Some target => inr (source, source_directory, target)
               end)
        else if destination_exists then
          let* target_directory := syseba_fs_is_directory target in
          ret (if Bool.eqb source_directory target_directory
               then inr (source, source_directory, target)
               else inl (SYSEBA_ERR_EXISTS,
                    c!"Destination type differs from restore item; choose rename"))
        else ret (inr (source, source_directory, target))
      end end
  end.

Definition restore_copy (source target : cstr) (source_directory : bool)
    (strategy : syseba_restore_strategy_t) : ST os (option failure) :=
  let* copied :=
    (if source_directory
     then syseba_copy_tree unknown source target
            (bool_decide (strategy = SYSEBA_RESTORE_OVERWRITE))
     else syseba_copy_file source target 4) in
  if copied then ret None
  else
    let* e := get_errno in
    ret (Some (SYSEBA_ERR,
      (if source_directory then c!"Unable to restore directory: "
       else c!"Unable to restore file: ") ++ strerror e)).

(** The result code with the message, and the text of the destination. *)
Definition syseba_restore_item (relative : option cstr)
    (strategy : syseba_restore_strategy_t) (destination_size : Z) : ST S (failure + cstr) :=
  let* config := gets ra_config in
  let* plan := zoom (restore_plan config relative strategy) in
  match plan with
  | inl e => ret (inl e)
  | inr (source, source_directory, target) =>
      let* failed := zoom (restore_copy source target source_directory strategy) in
      match failed with
      | Some e => ret (inl e)
      | None =>
          ra_restored ;;;
          ra_log source target ;;;
          ret (if fits destination_size target then inr target else inl (SYSEBA_ERR, []))
      end
  end.
End Item.
