(* ===== verification/RestoreFacts.v ===== *)
(** * Properties of the restore operations

    The pages of a listing are a partition of the sorted items, the comparisons
    are consistent and put directories first, and a restoration that must not
    overwrite leaves the host as it was. *)

From Stdlib Require Import Sorting.Sorted.
From S2P Require Import Prelude CString Paths Os OsFacts Platform Fs FsFacts CopyFacts Config ConfigFacts ConfigText FsTree FsTreeFacts Restore.

(** ** Comparisons *)

Lemma strcmp_antisym a b : strcmp b a = - strcmp a b.
Proof.
  revert b. induction a as [|x a IH]; intros [|y b]; cbn [strcmp]; try lia.
  rewrite (Z.eqb_sym (code y) (code x)). destruct (code x =? code y) eqn:E; [|lia].
  bool_hyps. rewrite E. destruct (_ =? 0); [done|]. apply IH.
Qed.

Lemma strcmp_trans a b c : strcmp a b <= 0 -> strcmp b c <= 0 -> strcmp a c <= 0.
Proof.
  revert b c. induction a as [|x a IH]; intros [|y b] [|z c]; cbn [strcmp];
    repeat match goal with u : ascii |- _ =>
      lazymatch goal with _ : 0 <= code u < 256 |- _ => fail | _ => pose proof (code_range u) end
    end; try lia.
  all: repeat match goal with
    | |- context [if ?b then _ else _] => let E := fresh "E" in destruct b eqn:E
    end; bool_hyps; try lia.
  intros Hab Hbc. by apply (IH b).
Qed.

(** A comparison that [qsort] may be given. *)
Definition consistent {A} (cmp : A -> A -> Z) : Prop :=
  (forall a b, cmp a b <= 0 \/ cmp b a <= 0) /\
  (forall a b c, cmp a b <= 0 -> cmp b c <= 0 -> cmp a c <= 0).

(** Directories come first, then [f] decides. *)
Definition dirs_first (f : syseba_restore_item_t -> syseba_restore_item_t -> Z)
    (cmp : syseba_restore_item_t -> syseba_restore_item_t -> Z) : Prop :=
  forall a b, cmp a b =
    if Bool.eqb (ri_is_directory a) (ri_is_directory b) then f a b
    else if ri_is_directory a then -1 else 1.

Lemma dirs_first_consistent f cmp : dirs_first f cmp -> consistent f -> consistent cmp.
Proof.
  intros Hd [Ht Htr]. split.
  - intros a b. rewrite !Hd. destruct (ri_is_directory a), (ri_is_directory b); simpl; auto; lia.
  - intros a b c. rewrite !Hd.
    destruct (ri_is_directory a), (ri_is_directory b), (ri_is_directory c); simpl; try lia; apply Htr.
Qed.

Lemma consistent_flip {A} (cmp : A -> A -> Z) :
  consistent cmp -> consistent (fun a b => cmp b a).
Proof. intros [H1 H2]. split; [intros a b; destruct (H1 a b); auto|eauto]. Qed.

Lemma strcmp_consistent {A} (f : A -> cstr) : consistent (fun a b => strcmp (f a) (f b)).
Proof.
  split; [|intros a b c; apply strcmp_trans].
  intros a b. rewrite (strcmp_antisym (f a) (f b)). lia.
Qed.

Lemma consistent_ext {A} (c1 c2 : A -> A -> Z) :
  (forall a b, c1 a b = c2 a b) -> consistent c1 -> consistent c2.
Proof.
  intros E [H1 H2]. split; intros; rewrite <- !E in *; [apply H1|by eapply H2].
Qed.

(** Sizes first, and the names where they are equal. *)
Lemma size_consistent (g : Z -> Z) :
  (forall x y, g x = g y -> x = y) ->
  consistent (fun a b => if g (ri_size a) =? g (ri_size b) then strcasecmp (ri_name a) (ri_name b)
              else if g (ri_size a) <? g (ri_size b) then -1 else 1).
Proof.
  intros Hg. destruct (strcmp_consistent (fun i => map tolower (ri_name i))) as [H1 H2]. split.
  - intros a b. rewrite (Z.eqb_sym (g (ri_size b))).
    destruct (g (ri_size a) =? g (ri_size b)) eqn:E; [apply H1|].
    destruct (_ <? _) eqn:E1, (g (ri_size b) <? g (ri_size a)) eqn:E2; bool_hyps; lia.
  - intros a b c.
    destruct (g (ri_size a) =? g (ri_size b)) eqn:E1, (g (ri_size b) =? g (ri_size c)) eqn:E2,
      (g (ri_size a) =? g (ri_size c)) eqn:E3; try (by apply H2);
      destruct (g (ri_size a) <? g (ri_size b)) eqn:F1, (g (ri_size b) <? g (ri_size c)) eqn:F2,
        (g (ri_size a) <? g (ri_size c)) eqn:F3; bool_hyps; lia.
Qed.

Ltac by_directory :=
  let a := fresh "a" in let b := fresh "b" in
  intros a b;
  unfold syseba_restore_compare_name_desc, syseba_restore_compare_size_asc,
    syseba_restore_compare_size_desc, syseba_restore_compare_mtime_asc,
    syseba_restore_compare_mtime_desc, syseba_restore_compare_name_asc,
    syseba_restore_item_compare_common;
  destruct (ri_is_directory a), (ri_is_directory b); cbn [Bool.eqb negb Z.eqb]; try reflexivity.

(** Every order that the listing offers is a consistent one with the directories
    first. *)
Lemma restore_comparator_consistent sort direction :
  consistent (restore_comparator sort direction) /\
  exists f, dirs_first f (restore_comparator sort direction).
Proof.
  assert (forall f cmp, dirs_first f cmp -> consistent f ->
            consistent cmp /\ exists f, dirs_first f cmp) as Hc.
  { intros f cmp Hd Hf. split; [by eapply dirs_first_consistent|by exists f]. }
  unfold restore_comparator.
  destruct (streq sort _); [destruct (streq direction _)|
    destruct (streq sort _); [destruct (streq direction _)|destruct (streq direction _)]].
  - eapply (Hc (fun a b => strcmp (ri_mtime b) (ri_mtime a))).
    + by_directory; by rewrite <- strcmp_antisym.
    + apply (consistent_flip (fun a b => strcmp (ri_mtime a) (ri_mtime b))), strcmp_consistent.
  - eapply (Hc (fun a b => strcmp (ri_mtime a) (ri_mtime b))); [by_directory|apply strcmp_consistent].
  - eapply (Hc _); [|apply (size_consistent Z.opp); lia].
    by_directory; (destruct (ri_size a =? ri_size b) eqn:E1, (- ri_size a =? - ri_size b) eqn:E2;
      bool_hyps; try lia);
      destruct (ri_size b <? ri_size a) eqn:E3, (- ri_size a <? - ri_size b) eqn:E4; bool_hyps; lia.
  - eapply (Hc _); [|apply (size_consistent id); done]. by_directory.
  - eapply (Hc (fun a b => strcasecmp (ri_name b) (ri_name a))).
    + by_directory; unfold strcasecmp; by rewrite <- strcmp_antisym.
    + apply (consistent_flip (fun a b => strcasecmp (ri_name a) (ri_name b))).
      apply (strcmp_consistent (fun i => map tolower (ri_name i))).
  - eapply (Hc (fun a b => strcasecmp (ri_name a) (ri_name b))); [by_directory|].
    apply (strcmp_consistent (fun i => map tolower (ri_name i))).
Qed.

Lemma listing_sorted `{Qsort} sort direction items :
  Permutation (qsort (restore_comparator sort direction) items) items /\
  StronglySorted (fun a b => restore_comparator sort direction a b <= 0)
    (qsort (restore_comparator sort direction) items).
Proof.
  destruct (restore_comparator_consistent sort direction) as [[H1 H2] _].
  split; [apply qsort_perm|by apply qsort_sorted].
Qed.

(** In a sorted listing no file comes before a directory. *)
Lemma listing_dirs_first `{Qsort} sort direction items :
  StronglySorted (fun a b => ri_is_directory b = true -> ri_is_directory a = true)
    (qsort (restore_comparator sort direction) items).
Proof.
  destruct (listing_sorted sort direction items) as [_ Hs].
  destruct (restore_comparator_consistent sort direction) as [_ [f Hd]].
  induction Hs as [|x l Hl IH Hx]; [constructor|]. constructor; [done|].
  eapply Forall_impl; [exact Hx|]. intros y Hy. cbv beta in *. rewrite Hd in Hy.
  destruct (ri_is_directory x), (ri_is_directory y); simpl in *; (done || lia).
Qed.

(** ** Pages *)

Definition page_items (items : list syseba_restore_item_t) (page page_size : Z) :
    list syseba_restore_item_t := rl_items (paginate items page page_size []).

Lemma page_count_spec total page_size :
  0 <= total < 2 ^ 32 -> 1 <= page_size <= SYSEBA_MAX_RESTORE_PAGE ->
  1 <= page_count total page_size /\
  total <= page_count total page_size * page_size /\
  (page_count total page_size - 1) * page_size <= total.
Proof.
  intros Ht Hp. unfold page_count, SYSEBA_MAX_RESTORE_PAGE in *.
  rewrite wrap64_small by (unfold U64_MAX; lia).
  assert (0 <= (total + page_size - 1) / page_size <= total) as Hq.
  { split; [apply Z.div_pos; lia|]. destruct (Z.eq_dec total 0) as [->|Hn].
    - rewrite Z.div_small by lia. lia.
    - apply Z.div_le_upper_bound; [lia|]. nia. }
  pose proof (Z.div_mod (total + page_size - 1) page_size ltac:(lia)) as Hd.
  pose proof (Z.mod_pos_bound (total + page_size - 1) page_size ltac:(lia)) as Hm.
  unfold wrap32. rewrite Z.mod_small by lia.
  set (q := (total + page_size - 1) / page_size) in *.
  destruct (q =? 0) eqn:E; bool_hyps; nia.
Qed.

Lemma page_items_slice items page page_size :
  zlen items < 2 ^ 32 -> 1 <= page_size <= SYSEBA_MAX_RESTORE_PAGE ->
  1 <= page <= page_count (zlen items) page_size ->
  page_items items page page_size =
    take (Z.to_nat page_size) (drop (Z.to_nat ((page - 1) * page_size)) items).
Proof.
  intros Hl Hp Hpage. unfold page_items, paginate. cbn [rl_items].
  pose proof (zlen_nonneg items) as H0.
  assert ((page_count (zlen items) page_size <? page) = false) as -> by (apply Z.ltb_ge; lia).
  set (offset := (page - 1) * page_size). assert (0 <= offset) by (unfold offset; nia).
  destruct (offset <? zlen items) eqn:E1; bool_hyps.
  - destruct (page_size <? zlen items - offset) eqn:E2; bool_hyps; [done|].
    rewrite !take_ge; [done|unfold zlen in *; rewrite length_drop; lia..].
  - rewrite (drop_ge items) by (unfold zlen in *; lia). by rewrite !take_nil.
Qed.

(** One page after the other gives every item once, in order. *)
Lemma pages_partition items page_size :
  zlen items < 2 ^ 32 -> 1 <= page_size <= SYSEBA_MAX_RESTORE_PAGE ->
  concat (map (fun i => page_items items (Z.of_nat i) page_size)
              (seq 1 (Z.to_nat (page_count (zlen items) page_size)))) = items.
Proof.
  intros Hl Hp. pose proof (zlen_nonneg items) as H0.
  destruct (page_count_spec (zlen items) page_size ltac:(lia) Hp) as (H1 & H2 & H3).
  assert (forall n, Z.of_nat n <= page_count (zlen items) page_size ->
    concat (map (fun i => page_items items (Z.of_nat i) page_size) (seq 1 n))
    = take (Z.to_nat (Z.of_nat n * page_size)) items) as Hn.
  { induction n as [|n IH]; intros Hle; [done|].
    rewrite seq_S, map_app, concat_app, IH by lia. cbn [map concat]. rewrite app_nil_r.
    rewrite page_items_slice by lia.
    replace (Z.to_nat ((Z.of_nat (1 + n) - 1) * page_size)) with (Z.to_nat (Z.of_nat n * page_size))
      by (f_equal; lia).
    rewrite take_take_drop. f_equal. lia. }
  rewrite Hn by lia. rewrite Z2Nat.id by lia. apply take_ge. unfold zlen in *. lia.
Qed.

(** ** Restoring *)

(** The plan only looks at the host. *)
Lemma calm_fs_stat p : keeps calm (syseba_fs_stat p).
Proof. unfold syseba_fs_stat. keeps_auto. Qed.
Lemma calm_gets {A} (f : os -> A) : keeps calm (gets f).
Proof. apply keeps_gets. typeclasses eauto. Qed.
#[export] Hint Resolve calm_fs_stat : keeps.
Lemma calm_first_free left c n size : keeps calm (first_free left c n size).
Proof.
  revert n. induction left as [|left IH]; intros n; cbn [first_free]; keeps_auto; apply IH.
Qed.
#[export] Hint Resolve calm_first_free : keeps.
Lemma calm_unique_restored `{LocalStamp} p size : keeps calm (syseba_unique_restored_path p size).
Proof.
  unfold syseba_unique_restored_path, syseba_compact_stamp. keeps_step; [keeps_auto|].
  destruct (negb a); [keeps_auto|]. destruct (split_name p). keeps_auto.
Qed.
#[export] Hint Resolve calm_unique_restored : keeps.
Lemma calm_plan `{LocalStamp} c r st : keeps calm (restore_plan c r st).
Proof. unfold restore_plan. keeps_auto. Qed.

Section RestoreItem.
Context {S : Type} `{RestoreApp S} `{DirOrder} `{LocalStamp} `{Strerror}.
Context (unknown : cstr).

(** A strategy that must not overwrite refuses an existing destination, and
    nothing changes. *)
Lemma restore_fail_keeps relative size s source target s1 s2 :
  quiet (lget s) -> nonempty relative = true ->
  syseba_safe_join (cfg_restore (ra_config s)) (Some relative) SYSEBA_PATH_MAX (lget s)
    = (Some source, s1) ->
  syseba_safe_join (cfg_source (ra_config s)) (Some relative) SYSEBA_PATH_MAX s1
    = (Some target, s2) ->
  value (syseba_fs_exists source) s2 = true -> value (syseba_fs_exists target) s2 = true ->
  value (syseba_restore_item unknown (Some relative) SYSEBA_RESTORE_FAIL size) s =
    inl (SYSEBA_ERR_EXISTS, c!"Destination already exists; choose rename or overwrite") /\
  same_world (lget s) (lget (exec (syseba_restore_item unknown (Some relative)
                                     SYSEBA_RESTORE_FAIL size) s)).
Proof.
  intros Hq Hr E1 E2 X1 X2.
  destruct (restore_plan (ra_config s) (Some relative) SYSEBA_RESTORE_FAIL (lget s))
    as [plan t] eqn:Ep.
  assert (same_world (lget s) t) as Hw.
  { apply calm_run in Ep as [? _]; [done|apply calm_plan|done]. }
  assert (plan = inl (SYSEBA_ERR_EXISTS,
            c!"Destination already exists; choose rename or overwrite")) as ->.
  { unfold restore_plan in Ep. destruct relative as [|ch rel]; [done|].
    unfold bind at 1 in Ep. rewrite E1 in Ep. unfold bind at 1 in Ep. rewrite E2 in Ep.
    apply calm_run in E1 as [W1 Q1]; [|auto with keeps|done].
    apply calm_run in E2 as [W2 Q2]; [|auto with keeps|done].
    unfold bind at 1 in Ep. unfold value in X1, X2.
    destruct (syseba_fs_exists source s2) as [x s3] eqn:E3. simpl in X1. subst x.
    apply calm_run in E3 as [W3 Q3]; [|auto with keeps|done]. cbn [negb] in Ep.
    unfold bind at 1 in Ep.
    destruct (syseba_fs_is_directory source s3) as [x s4] eqn:E4.
    apply calm_run in E4 as [W4 Q4]; [|auto with keeps|done].
    unfold bind at 1 in Ep.
    assert (value (syseba_fs_exists target) s4 = true) as X4.
    { rewrite <- X2. unfold value, syseba_fs_exists, bind.
      destruct (lstat_quiet s2 target Q2) as (u & -> & _).
      destruct (lstat_quiet s4 target Q4) as (v & -> & _).
      rewrite (same_world_resolve s2 s4) by (by etransitivity).
      assert (os_fs s4 = os_fs s2) as -> by (destruct W3 as [_ <-]; by destruct W4 as [_ <-]).
      done. }
    unfold value in X4. destruct (syseba_fs_exists target s4) as [y s5]. simpl in X4. subst y.
    cbn [andb] in Ep. by injection Ep as <- _. }
  assert (syseba_restore_item unknown (Some relative) SYSEBA_RESTORE_FAIL size s =
    (inl (SYSEBA_ERR_EXISTS, c!"Destination already exists; choose rename or overwrite"),
     lset t s)) as E.
  { unfold syseba_restore_item, bind, gets, zoom. by rewrite Ep. }
  unfold value, exec. rewrite E. simpl. by rewrite lget_lset.
Qed.

(** Restoring a file never leaves a torn file, whatever interferes, and only its
    destination's name is replaced. *)
Lemma restore_file_no_tear source target strategy d ss ds xs :
  kcomps source = ss ++ [xs] -> xs <> c!".." -> ~ temp_name xs ->
  kcomps target = ds ++ [d] -> d <> c!".." ->
  keeps (fs_rel (no_tear d)) (restore_copy unknown source target false strategy).
Proof.
  intros. unfold restore_copy. keeps_step; [by eapply tear_copy_file|]. keeps_auto.
Qed.
End RestoreItem.
