(* ===== verification/RestoreSpec.v ===== *)
(** * The promises of the tree and restore operations *)

From Stdlib Require Import Sorting.Sorted.
From S2P Require Import Prelude CString Paths Os OsFacts Platform Fs FsFacts CopyFacts Config ConfigFacts ConfigText FsTree FsTreeFacts Restore RestoreFacts Examples.

(** C34: the recursive walk always ends: its paths grow at every level and are refused
    at 4096 bytes, so that no deeper recursion than the model's is ever reached,
    whatever the callback does to the tree. *)
Theorem walk_terminates {S} `{!Lens S os} `{DirOrder} (callback : cstr -> bool -> ST S bool)
    fuel root s :
  (walk_fuel <= fuel)%nat ->
  walk_internal callback fuel root s = syseba_walk_internal callback root s.
Proof.
  intros Hf. pose proof (zlen_nonneg root). unfold syseba_walk_internal, walk_fuel in *.
  unfold SYSEBA_PATH_MAX in *. apply walk_internal_fuel; unfold SYSEBA_PATH_MAX; lia.
Qed.

Example walk_terminates_witness :
  walk_internal (fun path directory => syseba_fs_exists path) 5000 (c!"/data") (example_host []) =
  syseba_walk_internal (fun path directory => syseba_fs_exists path) (c!"/data") (example_host []).
Proof. apply walk_terminates. apply Nat2Z.inj_le. by vm_compute. Defined.

(** A run: restoring a directory with one file copies the file and
    still returns -1: [syseba_mkdirs] leaves EEXIST in [errno], and the walk takes
    any [errno] at the end of a directory for a read error. *)
Example copy_tree_run :
  exists s', syseba_copy_tree [] (c!"/restore/photos") (c!"/data/photos") false (example_host [])
             = (false, s') /\
    os_errno s' = EEXIST /\
    exists m, os_fs s' !! [c!"data"; c!"photos"; c!"a.jpg"] = Some (NReg m (c!"pixels")).
Proof.
  eexists. split; [vm_compute; reflexivity|]. split; [reflexivity|].
  eexists. vm_compute. reflexivity.
Qed.

(** The name chosen for a restored item fits its buffer, does not exist, and is
    the requested path itself or the stem and extension of its last name around a
    mark, in the same directory. *)
Theorem unique_restored_free `{LocalStamp} path size s out s' :
  quiet s -> syseba_unique_restored_path path size s = (Some out, s') ->
  fits size out = true /\
  (forall k, resolve s false out = Found k -> node_at (os_fs s) k = None) /\
  (out = path \/
   exists parent stem extension stamp n, syseba_parent_dir path SYSEBA_PATH_MAX = Some parent /\
     split_name path = (stem, extension) /\ 0 <= n /\
     out = restored_candidate parent stem extension stamp n).
Proof. apply unique_restored_path_spec. Qed.

Definition example_stamp : LocalStamp := fun _ => c!"20240102-030405".

Example unique_restored_free_witness :
  fits 64 (c!"/restore/old.restored-20240102-030405.txt") = true /\
  (forall k, resolve (example_host []) false (c!"/restore/old.restored-20240102-030405.txt") = Found k ->
     node_at example_fs k = None) /\
  ((c!"/restore/old.restored-20240102-030405.txt") = (c!"/restore/old.txt") \/
   exists parent stem extension stamp n,
     syseba_parent_dir (c!"/restore/old.txt") SYSEBA_PATH_MAX = Some parent /\
     split_name (c!"/restore/old.txt") = (stem, extension) /\ 0 <= n /\
     (c!"/restore/old.restored-20240102-030405.txt")
       = restored_candidate parent stem extension stamp n).
Proof.
  eapply (@unique_restored_free example_stamp (c!"/restore/old.txt") 64 (example_host [])).
  - reflexivity.
  - vm_compute. reflexivity.
Defined.

(** The pages of a listing, one after the other, give every item exactly once, in
    the order of the listing, for every page size that the program uses. *)
Theorem pages_are_a_partition items page_size :
  zlen items < 2 ^ 32 -> 1 <= page_size <= SYSEBA_MAX_RESTORE_PAGE ->
  concat (map (fun i => rl_items (paginate items (Z.of_nat i) page_size []))
              (seq 1 (Z.to_nat (page_count (zlen items) page_size)))) = items.
Proof. apply pages_partition. Qed.

Definition example_item (name : cstr) : syseba_restore_item_t :=
  RestoreItem name name [] 1 false false.

Example pages_are_a_partition_witness :
  concat (map (fun i => rl_items (paginate (map example_item [c!"a"; c!"b"; c!"c"]) (Z.of_nat i) 2 []))
              (seq 1 (Z.to_nat (page_count 3 2)))) = map example_item [c!"a"; c!"b"; c!"c"].
Proof.
  apply (pages_are_a_partition (map example_item [c!"a"; c!"b"; c!"c"]) 2).
  - by vm_compute.
  - by vm_compute.
Defined.

(** Every order that a listing offers is a consistent one, so that the C library's
    sort gives a permutation of the items in that order; directories come before
    files. *)
Theorem listing_order `{Qsort} sort direction items :
  let sorted := qsort (restore_comparator sort direction) items in
  Permutation sorted items /\
  StronglySorted (fun a b => restore_comparator sort direction a b <= 0) sorted /\
  StronglySorted (fun a b => ri_is_directory b = true -> ri_is_directory a = true) sorted.
Proof.
  cbv zeta. destruct (listing_sorted sort direction items) as [H1 H2].
  split; [done|]. split; [done|]. apply listing_dirs_first.
Qed.

(** C32: with the strategy "fail", restoring over an existing destination returns
    SYSEBA_ERR_EXISTS and changes nothing on the host. *)
Theorem restore_fail_changes_nothing {S} `{RestoreApp S} `{DirOrder} `{LocalStamp} `{Strerror}
    unknown relative size s source target s1 s2 :
  quiet (lget s) -> nonempty relative = true ->
  syseba_safe_join (cfg_restore (ra_config s)) (Some relative) SYSEBA_PATH_MAX (lget s)
    = (Some source, s1) ->
  syseba_safe_join (cfg_source (ra_config s)) (Some relative) SYSEBA_PATH_MAX s1
    = (Some target, s2) ->
  value (syseba_fs_exists source) s2 = true -> value (syseba_fs_exists target) s2 = true ->
  value (syseba_restore_item unknown (Some relative) SYSEBA_RESTORE_FAIL size) s =
    inl (SYSEBA_ERR_EXISTS, c!"Destination already exists; choose rename or overwrite") /\
  same_world (lget s) (lget (exec (syseba_restore_item unknown (Some relative)
                                     SYSEBA_RESTORE_FAIL size) s)).
Proof. apply restore_fail_keeps. Qed.

(** A configuration, a counter and a host. *)
Definition example_lens : Lens (syseba_config_t * Z * os) os.
Proof. refine {| lget := snd; lset t s := (fst s, t) |}; [done|by intros []|done]. Defined.
Definition example_app : RestoreApp (syseba_config_t * Z * os).
Proof.
  refine {| ra_host := example_lens;
            ra_config s := fst (fst s);
            ra_restored := modify (fun s => ((fst (fst s), snd (fst s) + 1), snd s));
            ra_log _ _ := ret tt |}; done.
Defined.
Definition example_areas : syseba_config_t :=
  Config (c!"/data") (c!"/backup") (c!"/restore") (c!"/log") (c!"/syseba.conf") 4.
Definition example_no_strerror : Strerror := fun _ => [].

(** /data/notes.txt exists, and so does /restore/notes.txt. *)
Definition restore_host : os :=
  with_fs (<[[c!"restore"; c!"notes.txt"] := NReg example_meta (c!"older")]> example_fs)
    (example_host []).

Example restore_fail_changes_nothing_witness :
  let run := @syseba_restore_item _ example_app example_order example_stamp example_no_strerror []
               (Some (c!"notes.txt")) SYSEBA_RESTORE_FAIL 4096 in
  value run (example_areas, 0, restore_host) =
    inl (SYSEBA_ERR_EXISTS, c!"Destination already exists; choose rename or overwrite") /\
  same_world restore_host (snd (exec run (example_areas, 0, restore_host))).
Proof.
  eapply (@restore_fail_changes_nothing _ example_app example_order example_stamp
           example_no_strerror [] (c!"notes.txt") 4096 (example_areas, 0, restore_host)).
  - reflexivity.
  - reflexivity.
  - vm_compute. reflexivity.
  - vm_compute. reflexivity.
  - vm_compute. reflexivity.
  - vm_compute. reflexivity.
Defined.

(** Restoring a file, whatever calls fail, never leaves a torn file at a visible
    name, and only files with the destination's name are replaced. *)
Theorem restore_file_never_tears `{DirOrder} `{Strerror} unknown ps x pd d strategy s :
  Forall path_name (ps ++ [x]) -> Forall path_name (pd ++ [d]) -> ~ temp_name x -> unedited s ->
  no_tear d (os_fs s)
    (os_fs (exec (restore_copy unknown (render (ps ++ [x])) (render (pd ++ [d])) false strategy) s)).
Proof.
  intros Hs Hd Hx Hu. pose proof Hs as Hs'. pose proof Hd as Hd'.
  apply Forall_app in Hs' as [_ Hxn], Hd' as [_ Hdn].
  apply Forall_inv in Hxn as (_ & _ & _ & Hxd), Hdn as (_ & _ & _ & Hdd).
  apply (restore_file_no_tear unknown _ _ strategy d ps pd x);
    [by apply kcomps_render|done|done|by apply kcomps_render|done|done].
Qed.

Example restore_file_never_tears_witness :
  no_tear (c!"a.jpg") example_fs
    (os_fs (exec (@restore_copy example_order example_no_strerror []
                    (render ([c!"restore"; c!"photos"] ++ [c!"a.jpg"]))
                    (render ([c!"data"] ++ [c!"a.jpg"])) false SYSEBA_RESTORE_RENAME)
              (example_host (repeat EvNone 10 ++ [EvFault EIO])))).
Proof.
  apply (@restore_file_never_tears example_order example_no_strerror [] [c!"restore"; c!"photos"]
           (c!"a.jpg") [c!"data"] (c!"a.jpg") SYSEBA_RESTORE_RENAME
           (example_host (repeat EvNone 10 ++ [EvFault EIO]))).
  - apply names_b_spec. reflexivity.
  - apply names_b_spec. reflexivity.
  - intros (a & b & E). apply (f_equal length) in E. rewrite !length_app in E.
    change (length temp_marker) with 12%nat in E. simpl in E. lia.
  - repeat constructor.
Defined.
