(* ===== verification/Queue.v ===== *)
(** * The work queue (src/src/queue.c)

    The linked list with its head and tail pointers, the counter of unfinished
    tasks, and the critical sections of every operation.  A blocking call is the
    sequence of its critical sections: the test that the mutex protects, and what
    the call does when a wait ends. *)

From S2P Require Import Prelude Platform.

Section Queue.
Context {D : Type}.

Record syseba_queue_node_t := Node {
  qn_data : D;
  qn_next : option positive;
}.

Record syseba_queue_t := Queue {
  q_heap : gmap positive syseba_queue_node_t;
  q_head : option positive;
  q_tail : option positive;
  q_size : Z;
  q_unfinished : Z;
  q_closed : bool;
}.

Definition syseba_queue_init : syseba_queue_t := Queue ∅ None None 0 0 false.

Definition syseba_queue_close : ST syseba_queue_t unit :=
  modify (fun q => Queue (q_heap q) (q_head q) (q_tail q) (q_size q) (q_unfinished q) true).

(** [calloc] returns [node], a block that is not in use, or fails. *)
Definition syseba_queue_push (alloc : gmap positive syseba_queue_node_t -> option positive)
    (data : D) : ST syseba_queue_t bool :=
  fun q =>
    match alloc (q_heap q) with
    | None => (false, q)
    | Some node =>
        if q_closed q then (false, q)
        else
          let heap := <[node := Node data None]> (q_heap q) in
          let '(heap, head) :=
            match q_tail q with
            | None => (heap, Some node)
            | Some tail =>
                (alter (fun n => Node (qn_data n) (Some node)) tail heap, q_head q)
            end in
          (true, Queue heap head (Some node) (wrap64 (q_size q + 1))
                       (wrap64 (q_unfinished q + 1)) (q_closed q))
    end.

(** [while (queue->head == NULL && !queue->closed)]. *)
Definition pop_waits (q : syseba_queue_t) : bool :=
  match q_head q with None => negb (q_closed q) | Some _ => false end.

(** After the loop: unlink and free the first node. *)
Definition pop_take : ST syseba_queue_t (option D) :=
  fun q =>
    match q_head q with
    | None => (None, q)
    | Some node =>
        match q_heap q !! node with
        | None => (None, q)
        | Some n =>
            let tail := match qn_next n with None => None | Some _ => q_tail q end in
            (Some (qn_data n),
             Queue (delete node (q_heap q)) (qn_next n) tail (wrap64 (q_size q - 1))
                   (q_unfinished q) (q_closed q))
        end
    end.

(** One turn of [syseba_queue_pop] with the mutex held.  [wait] is what the
    condition wait returned when the queue had nothing: 0 to look again, anything
    else (a timeout or an error) to give up. *)
Inductive pop_step : Type :=
  | PopReturn (data : option D)
  | PopWait.

Definition syseba_queue_pop : ST syseba_queue_t pop_step :=
  fun q => if pop_waits q then (PopWait, q)
           else let '(data, q') := pop_take q in (PopReturn data, q').

(** The loop of [syseba_queue_pop]: [waits] are the results of the condition
    waits and what the other threads did to the queue meanwhile.  [None] when the
    call is still waiting at the end of the list. *)
Fixpoint pop_loop (waits : list (Z * (syseba_queue_t -> syseba_queue_t)))
    (q : syseba_queue_t) : option (option D) * syseba_queue_t :=
  match syseba_queue_pop q with
  | (PopReturn data, q') => (Some data, q')
  | (PopWait, q') =>
      match waits with
      | [] => (None, q')
      | (result, others) :: rest =>
          if result =? 0 then pop_loop rest (others q') else (Some None, others q')
      end
  end.

Definition syseba_queue_task_done : ST syseba_queue_t unit :=
  modify (fun q => Queue (q_heap q) (q_head q) (q_tail q) (q_size q)
                     (if 0 <? q_unfinished q then q_unfinished q - 1 else q_unfinished q)
                     (q_closed q)).

(** The loop of [syseba_queue_wait_empty]: [waits] are the clock before each
    test, the result of the wait, and what the others did. *)
Fixpoint wait_empty_loop (deadline : Z)
    (waits : list (Z * Z * (syseba_queue_t -> syseba_queue_t))) (q : syseba_queue_t) :
    option bool * syseba_queue_t :=
  if (0 <? q_unfinished q) && negb (q_closed q) then
    match waits with
    | [] => (None, q)
    | (now, result, others) :: rest =>
        if deadline <=? now then (Some (q_unfinished q =? 0), q)
        else if result <? 0 then
          let q' := others q in (Some (q_unfinished q' =? 0), q')
        else wait_empty_loop deadline rest (others q)
    end
  else (Some (q_unfinished q =? 0), q).

(** The timeout of one wait, in milliseconds. *)
Definition wait_remaining (deadline now : Z) : Z :=
  let remaining := wrap32 ((deadline - now) / 1000000) in
  if remaining =? 0 then 1 else remaining.

Definition syseba_queue_wait_empty (start timeout_ms : Z) :=
  wait_empty_loop (wrap64 (start + timeout_ms * 1000000)).

Definition syseba_queue_size (q : syseba_queue_t) : Z := q_size q.
Definition syseba_queue_is_closed (q : syseba_queue_t) : bool := q_closed q.

(** [syseba_queue_destroy]: the nodes in the order they are freed, and the queue
    after it.  [fuel] bounds the list. *)
Fixpoint destroy_nodes (fuel : nat) (heap : gmap positive syseba_queue_node_t)
    (node : option positive) : list D * gmap positive syseba_queue_node_t :=
  match fuel, node with
  | S fuel', Some p =>
      match heap !! p with
      | Some n =>
          let '(freed, heap') := destroy_nodes fuel' (delete p heap) (qn_next n) in
          (qn_data n :: freed, heap')
      | None => ([], heap)
      end
  | _, _ => ([], heap)
  end.

Definition syseba_queue_destroy : ST syseba_queue_t (list D) :=
  syseba_queue_close ;;;
  (fun q =>
     let '(freed, heap) := destroy_nodes (size (q_heap q)) (q_heap q) (q_head q) in
     (freed, Queue heap None None 0 0 (q_closed q))).

(** ** The specification: a list *)

(** The nodes from [p] on hold [l]; the last of them is [tail]. *)
Fixpoint chain (heap : gmap positive syseba_queue_node_t) (p : option positive)
    (ps : list positive) (l : list D) : Prop :=
  match ps, l with
  | [], [] => p = None
  | a :: ps', x :: l' =>
      p = Some a /\ exists next, heap !! a = Some (Node x next) /\ chain heap next ps' l'
  | _, _ => False
  end.

(** [q] is the list [l]: exactly its nodes are allocated, once each. *)
Definition represents (q : syseba_queue_t) (l : list D) : Prop :=
  exists ps, NoDup ps /\ chain (q_heap q) (q_head q) ps l /\ q_tail q = last ps /\
    dom (q_heap q) = list_to_set ps /\ q_size q = zlen l.
End Queue.
Arguments syseba_queue_t : clear implicits.
Arguments syseba_queue_node_t : clear implicits.

(** ** The queue among its users

    A state of the system: the queue, the tasks that workers hold, and the history
    of what was pushed and popped.  The steps are the critical sections of the
    callers. *)
Section System.
Context {D : Type}.

Record system := System {
  sy_queue : syseba_queue_t D;
  sy_held : list D;
  sy_pushed : list D;
  sy_popped : list D;
}.

Inductive queue_step : system -> system -> Prop :=
  | step_push alloc d q q' held pushed popped :
      syseba_queue_push alloc d q = (true, q') ->
      (forall p, alloc (q_heap q) = Some p -> q_heap q !! p = None) ->
      q_unfinished q < U64_MAX ->
      queue_step (System q held pushed popped) (System q' held (pushed ++ [d]) popped)
  | step_push_refused alloc d q q' held pushed popped :
      syseba_queue_push alloc d q = (false, q') ->
      queue_step (System q held pushed popped) (System q' held pushed popped)
  | step_pop d q q' held pushed popped :
      syseba_queue_pop q = (PopReturn (Some d), q') ->
      queue_step (System q held pushed popped) (System q' (d :: held) pushed (popped ++ [d]))
  | step_done d q held1 held2 pushed popped :
      queue_step (System q (held1 ++ d :: held2) pushed popped)
        (System (exec syseba_queue_task_done q) (held1 ++ held2) pushed popped)
  | step_close q held pushed popped :
      queue_step (System q held pushed popped)
        (System (exec syseba_queue_close q) held pushed popped).

Definition system_init : system := System syseba_queue_init [] [] [].
Definition reachable (s : system) : Prop := rtc queue_step system_init s.
End System.
Arguments system : clear implicits.
