(* ===== verification/QueueFacts.v ===== *)
(** * Properties of the work queue

    The pointer structure implements a list; the system of producers and workers
    loses and duplicates nothing; an empty wait means that every task is done. *)

From S2P Require Import Prelude Platform Queue.

Section Chain.
Context {D : Type}.
Implicit Types (h : gmap positive (syseba_queue_node_t D)) (ps : list positive) (l : list D).

Lemma chain_frame h h' p ps l :
  (forall a, a ∈ ps -> h' !! a = h !! a) -> chain h p ps l -> chain h' p ps l.
Proof.
  revert p l. induction ps as [|a ps IH]; intros p [|x l] Hf H; simpl in *; try done.
  destruct H as (-> & next & Ha & Hc). split; [done|]. exists next.
  rewrite Hf by set_solver. split; [done|]. apply IH; [|done]. intros b Hb. apply Hf. set_solver.
Qed.

Lemma chain_length h p ps l : chain h p ps l -> length ps = length l.
Proof.
  revert p l. induction ps as [|a ps IH]; intros p [|x l] H; simpl in *; try done.
  destruct H as (_ & next & _ & H). f_equal. by eapply IH.
Qed.

Lemma chain_dom h p ps l a : chain h p ps l -> a ∈ ps -> is_Some (h !! a).
Proof.
  revert p l. induction ps as [|b ps IH]; intros p [|x l] H Ha; simpl in *; try done.
  - by apply not_elem_of_nil in Ha.
  - destruct H as (_ & next & Hb & Hc). apply elem_of_cons in Ha as [->|Ha]; [by eexists|].
    by eapply IH.
Qed.

(** Append a fresh node after the last one. *)
Lemma chain_snoc h p ps l tail node d :
  NoDup ps -> node ∉ ps -> last ps = Some tail -> chain h p ps l ->
  chain (alter (fun n => Node (qn_data n) (Some node)) tail (<[node := Node d None]> h))
        p (ps ++ [node]) (l ++ [d]).
Proof.
  revert p l. induction ps as [|a ps IH]; intros p [|x l] Hnd Hn Hl H; simpl in *; try done.
  destruct H as (-> & next & Ha & Hc). split; [done|].
  apply NoDup_cons in Hnd as [Hna Hnd]. apply not_elem_of_cons in Hn as [Hne Hn].
  destruct ps as [|b ps].
  - injection Hl as ->. destruct l; [|done]. exists (Some node).
    rewrite lookup_alter_eq, lookup_insert_ne, Ha by done. split; [done|].
    split; [done|]. exists None.
    rewrite lookup_alter_ne, lookup_insert_eq by done. done.
  - assert (tail ∈ b :: ps) as Ht by (apply last_Some_elem_of; by rewrite <- Hl).
    exists next. rewrite lookup_alter_ne by (intros ->; done).
    rewrite lookup_insert_ne by done. split; [done|]. by apply IH.
Qed.
End Chain.

Section Refinement.
Context {D : Type}.
Implicit Types (q : syseba_queue_t D) (l : list D).

Lemma init_represents : represents (@syseba_queue_init D) [].
Proof. exists []. split_and!; try done. apply NoDup_nil_2. Qed.

Lemma close_represents q l : represents q l -> represents (exec syseba_queue_close q) l.
Proof. intros (ps & H). by exists ps. Qed.

Lemma task_done_represents q l : represents q l -> represents (exec syseba_queue_task_done q) l.
Proof. intros (ps & H). by exists ps. Qed.

Lemma push_represents alloc d q q' l :
  represents q l -> zlen l < U64_MAX ->
  (forall p, alloc (q_heap q) = Some p -> q_heap q !! p = None) ->
  syseba_queue_push alloc d q = (true, q') ->
  represents q' (l ++ [d]) /\ q_closed q = false /\ q_closed q' = false /\
  q_unfinished q' = wrap64 (q_unfinished q + 1).
Proof.
  intros (ps & Hnd & Hc & Ht & Hdom & Hs) Hz Ha H. unfold syseba_queue_push in H.
  destruct (alloc (q_heap q)) as [node|]; [|done]. specialize (Ha _ eq_refl).
  destruct (q_closed q) eqn:Ecl; [done|]. rewrite Ht in H.
  assert (node ∉ ps) as Hn.
  { intros Hin. destruct (chain_dom _ _ _ _ _ Hc Hin) as [? E]. congruence. }
  assert (forall h : gmap positive (syseba_queue_node_t D), dom h = {[node]} ∪ dom (q_heap q) ->
            dom h = list_to_set (ps ++ [node])) as Hd.
  { intros h ->. rewrite Hdom, list_to_set_app_L. set_solver. }
  assert (wrap64 (q_size q + 1) = zlen (l ++ [d])) as Hsz.
  { rewrite Hs, wrap64_small; [zlen_lia|]. pose proof (zlen_nonneg l). lia. }
  destruct (last ps) as [tail|] eqn:El; injection H as <-; (split; [|done]).
  - exists (ps ++ [node]). cbn [q_heap q_head q_tail q_size].
    split; [apply NoDup_app; split_and!; [done| |apply NoDup_singleton]|].
    { intros a Hin. apply not_elem_of_cons. split; [by intros ->|apply not_elem_of_nil]. }
    split; [by apply chain_snoc|]. split; [by rewrite last_snoc|]. split; [|done].
    apply Hd. by rewrite dom_alter_L, dom_insert_L.
  - apply last_None in El as ->. destruct l; [|done]. exists [node].
    cbn [q_heap q_head q_tail q_size]. split; [apply NoDup_singleton|].
    split; [|split; [done|split; [|done]]].
    + simpl. split; [done|]. exists None. by rewrite lookup_insert_eq.
    + apply (Hd _). by rewrite dom_insert_L.
Qed.

Lemma pop_represents q q' l r :
  represents q l -> zlen l <= U64_MAX -> syseba_queue_pop q = (r, q') ->
  match l with
  | [] => q' = q /\ r = if q_closed q then PopReturn None else PopWait
  | d :: l' => r = PopReturn (Some d) /\ represents q' l' /\ q_closed q' = q_closed q /\
               q_unfinished q' = q_unfinished q
  end.
Proof.
  intros (ps & Hnd & Hc & Ht & Hdom & Hs) Hz H.
  unfold syseba_queue_pop, pop_waits, pop_take in H.
  destruct ps as [|a ps], l as [|d l]; simpl in Hc; try done.
  - rewrite Hc in H. destruct (q_closed q); by injection H as <- <-.
  - destruct Hc as (Hh & next & Ha & Hc). rewrite Hh in H. simpl in H. rewrite Ha in H.
    simpl in H. injection H as <- <-. split; [done|]. split; [|done].
    apply NoDup_cons in Hnd as [Hna Hnd]. exists ps. cbn [q_heap q_head q_tail q_size].
    split; [done|]. split; [eapply chain_frame; [|done]; intros b Hb;
      rewrite lookup_delete_ne; [done|]; by intros ->|].
    split; [|split].
    + destruct ps as [|b ps]; simpl in Hc.
      * destruct l; [|done]. by subst next.
      * destruct l; [done|]. destruct Hc as [-> _]. by rewrite Ht.
    + rewrite dom_delete_L, Hdom, list_to_set_cons. apply set_eq. intros x.
      rewrite elem_of_difference, elem_of_union, !elem_of_singleton, elem_of_list_to_set.
      naive_solver.
    + rewrite Hs, wrap64_small; zlen_lia.
Qed.

Lemma destroy_frees h p ps l :
  NoDup ps -> chain h p ps l -> dom h = list_to_set ps ->
  destroy_nodes (size h) h p = (l, ∅).
Proof.
  revert h p l. induction ps as [|a ps IH]; intros h p [|x l] Hnd Hc Hd; simpl in Hc; try done.
  - subst p. apply dom_empty_inv_L in Hd as ->. done.
  - destruct Hc as (-> & next & Ha & Hc). apply NoDup_cons in Hnd as [Hna Hnd].
    rewrite <- (insert_delete_id h a (Node x next)) at 1 by done.
    rewrite map_size_insert_None by apply lookup_delete_eq. cbn [destroy_nodes].
    rewrite Ha. cbn [qn_next qn_data]. rewrite (IH _ _ l); [done|done| |].
    + eapply chain_frame; [|done]. intros b Hb. rewrite lookup_delete_ne; [done|]. by intros ->.
    + rewrite dom_delete_L, Hd, list_to_set_cons. apply set_eq. intros y.
      rewrite elem_of_difference, elem_of_union, !elem_of_singleton, elem_of_list_to_set.
      naive_solver.
Qed.

Lemma destroy_represents q l :
  represents q l ->
  exists q', syseba_queue_destroy q = (l, q') /\ represents q' [] /\ q_closed q' = true.
Proof.
  intros (ps & Hnd & Hc & Ht & Hdom & Hs). unfold syseba_queue_destroy, bind, modify.
  simpl. rewrite (destroy_frees _ _ ps l) by done. eexists. split; [reflexivity|].
  split; [|done]. exists []. split_and!; try done. apply NoDup_nil_2.
Qed.
End Refinement.

(** ** The system *)

Section SystemFacts.
Context {D : Type}.

(** Nothing is lost, duplicated or reordered, and the counter is the number of
    tasks that are queued or held. *)
Definition system_ok (s : system D) : Prop :=
  exists l, represents (sy_queue s) l /\ sy_pushed s = sy_popped s ++ l /\
    q_unfinished (sy_queue s) = zlen l + zlen (sy_held s) /\
    q_unfinished (sy_queue s) <= U64_MAX /\ (forall d, d ∈ sy_held s -> d ∈ sy_popped s).

Lemma step_ok s s' : queue_step s s' -> system_ok s -> system_ok s'.
Proof.
  intros Hstep (l & Hr & Hh & Hu & Hm & Hsub).
  destruct Hstep as [alloc d q q' held pushed popped Hp Ha Hlt
                    |alloc d q q' held pushed popped Hp
                    |d q q' held pushed popped Hp
                    |d q held1 held2 pushed popped
                    |q held pushed popped]; simpl in *.
  - pose proof (zlen_nonneg held). pose proof (zlen_nonneg l).
    apply (push_represents _ _ _ _ l) in Hp as (Hr' & _ & _ & Hu'); [|done|lia|done].
    exists (l ++ [d]). split; [done|]. simpl. rewrite Hh, Hu', wrap64_small by lia.
    rewrite app_assoc. split; [done|]. split; [rewrite Hu, zlen_app; change (zlen [d]) with 1; lia|]. split; [lia|done].
  - assert (q' = q) as ->.
    { unfold syseba_queue_push in Hp. destruct (alloc _); [|by injection Hp].
      destruct (q_closed q); [by injection Hp|]. by destruct (q_tail q). }
    exists l. done.
  - pose proof (zlen_nonneg held). pose proof (zlen_nonneg l).
    apply (pop_represents _ _ l) in Hp; [|done|lia]. destruct l as [|x l].
    { destruct Hp as [_ Hp]. by destruct (q_closed q). }
    destruct Hp as ([= <-] & Hr' & _ & Hu'). exists l. simpl.
    rewrite Hh, <- app_assoc. split; [done|]. split; [done|].
    split; [rewrite Hu', Hu; zlen_lia|]. split; [lia|]. set_solver.
  - exists l. simpl. split; [by apply task_done_represents|]. split; [done|].
    assert ((0 <? q_unfinished q) = true) as ->.
    { apply Z.ltb_lt. rewrite Hu. zlen_lia. }
    split; [rewrite Hu; zlen_lia|]. split; [lia|]. set_solver.
  - exists l. simpl. split; [by apply close_represents|]. done.
Qed.

Lemma reachable_ok s : reachable s -> system_ok s.
Proof.
  intros H. unfold reachable in H.
  assert (system_ok (@system_init D)) as H0.
  { exists []. split; [apply init_represents|]. split_and!; try done. }
  induction H; [done|]. apply IHrtc. by eapply step_ok.
Qed.

(** A wait that found nothing unfinished: every pushed task was popped and is
    done. *)
Lemma wait_empty_result deadline waits (q q' : syseba_queue_t D) b :
  wait_empty_loop deadline waits q = (Some b, q') -> b = (q_unfinished q' =? 0).
Proof.
  revert q. induction waits as [|[[now r] f] waits IH]; intros q H; cbn [wait_empty_loop] in H;
    (destruct (_ && _); [|by injection H as <- <-]); [done|].
  destruct (deadline <=? now); [by injection H as <- <-|].
  destruct (r <? 0); [by injection H as <- <-|]. by eapply IH.
Qed.

Lemma unfinished_zero q (held pushed popped : list D) :
  reachable (System q held pushed popped) -> q_unfinished q = 0 ->
  held = [] /\ popped = pushed.
Proof.
  intros Hr H0. apply reachable_ok in Hr as (l & _ & Hh & Hu & _). simpl in *.
  assert (zlen l = 0 /\ zlen held = 0) as [Hl Hd]
    by (pose proof (zlen_nonneg l); pose proof (zlen_nonneg held); lia).
  apply zlen_0_inv in Hl as ->, Hd as ->. by rewrite app_nil_r in Hh.
Qed.
End SystemFacts.
