(* ===== verification/QueueSpec.v ===== *)
(** * The promises of the work queue *)

From S2P Require Import Prelude Platform Queue QueueFacts.

(** C15: the linked list implements a FIFO list: a push appends, a pop returns and
    frees the first node, an empty queue waits while it is open and returns NULL
    once it is closed, and destroying the queue frees exactly what it holds. *)
Theorem queue_refines_list {D} (q : syseba_queue_t D) l :
  represents q l -> zlen l < U64_MAX ->
  (forall alloc d q', (forall p, alloc (q_heap q) = Some p -> q_heap q !! p = None) ->
     syseba_queue_push alloc d q = (true, q') -> represents q' (l ++ [d])) /\
  (match l with
   | [] => syseba_queue_pop q = (if q_closed q then PopReturn None else PopWait, q)
   | d :: l' => exists q', syseba_queue_pop q = (PopReturn (Some d), q') /\ represents q' l'
   end) /\
  (exists q', syseba_queue_destroy q = (l, q') /\ represents q' []).
Proof.
  intros Hr Hz. split; [|split].
  - intros alloc d q' Ha Hp. by apply (push_represents _ _ _ _ l) in Hp as [? _].
  - destruct (syseba_queue_pop q) as [r q'] eqn:E.
    apply (pop_represents _ _ l) in E; [|done|lia]. destruct l as [|d l].
    + by destruct E as [-> ->].
    + destruct E as (-> & Hr' & _). by exists q'.
  - destruct (destroy_represents _ _ Hr) as (q' & E & H & _). by exists q'.
Qed.

Definition two_items : syseba_queue_t Z :=
  Queue (<[1%positive := Node 5 (Some 2%positive)]> {[2%positive := Node 6 None]})
        (Some 1%positive) (Some 2%positive) 2 2 false.

Lemma two_items_represents : represents two_items [5; 6].
Proof.
  exists [1%positive; 2%positive]. split_and!; try reflexivity.
  - apply NoDup_cons. split; [|apply NoDup_singleton].
    intros H. by apply list_elem_of_singleton in H.
  - simpl. split; [done|]. eexists. split; [reflexivity|]. split; [done|].
    exists None. split; [reflexivity|done].
Qed.

Example queue_refines_list_witness :
  exists q', syseba_queue_pop two_items = (PopReturn (Some 5), q') /\ represents q' [6].
Proof.
  exact (proj1 (proj2 (queue_refines_list two_items [5; 6] two_items_represents eq_refl))).
Defined.

(** C16: in every state the producers and workers can reach, what was pushed is what
    was popped followed by what is queued, in order, and the counter of unfinished
    tasks is the number of queued and held ones. *)
Theorem queue_loses_nothing {D} (q : syseba_queue_t D) held pushed popped :
  reachable (System q held pushed popped) ->
  exists l, represents q l /\ pushed = popped ++ l /\ q_unfinished q = zlen l + zlen held.
Proof.
  intros H. apply reachable_ok in H as (l & Hr & Hh & Hu & _). by exists l.
Qed.

(** Two items pushed, one popped and still in work. *)
Definition first_block (h : gmap positive (syseba_queue_node_t Z)) : option positive :=
  Some (fresh (dom h)).
Definition pushed_once : syseba_queue_t Z := exec (syseba_queue_push first_block 5) syseba_queue_init.
Definition pushed_twice : syseba_queue_t Z := exec (syseba_queue_push first_block 6) pushed_once.
Definition popped_once : syseba_queue_t Z := exec syseba_queue_pop pushed_twice.

Lemma first_block_free (h : gmap positive (syseba_queue_node_t Z)) p : first_block h = Some p -> h !! p = None.
Proof. intros [= <-]. apply not_elem_of_dom, is_fresh. Qed.

Example queue_loses_nothing_witness :
  exists l, represents popped_once l /\ [5; 6] = [5] ++ l /\ q_unfinished popped_once = zlen l + zlen [5].
Proof.
  apply queue_loses_nothing.
  eapply rtc_l; [apply (step_push first_block 5 _ pushed_once); [by vm_compute|apply first_block_free|by vm_compute]|].
  eapply rtc_l; [apply (step_push first_block 6 _ pushed_twice); [by vm_compute|apply first_block_free|by vm_compute]|].
  eapply rtc_l; [apply (step_pop 5 _ popped_once); by vm_compute|]. apply rtc_refl.
Defined.

(** When [syseba_queue_wait_empty] returns true, every pushed task has been
    popped and is done: no worker is still in the middle of one. *)
Theorem wait_empty_means_done {D} start timeout_ms waits (q q' : syseba_queue_t D) held pushed popped :
  syseba_queue_wait_empty start timeout_ms waits q = (Some true, q') ->
  reachable (System q' held pushed popped) ->
  held = [] /\ popped = pushed.
Proof.
  intros Hw Hr. eapply unfinished_zero; [exact Hr|].
  apply wait_empty_result in Hw. symmetry in Hw. by apply Z.eqb_eq in Hw.
Qed.
