(* ===== verification/AppState.v ===== *)
(** * The application's state (src/src/syseba_internal.h)

    [syseba_app_t] with the fields that the modelled components use, the counters,
    the events and the log records. *)

From Stdlib Require Import QArith_base.
From S2P Require Import Prelude CString Paths Os Config Queue.

Inductive syseba_event_kind_t : Type :=
  | SYSEBA_EVENT_CREATE
  | SYSEBA_EVENT_MODIFY
  | SYSEBA_EVENT_DELETE.
#[export] Instance event_kind_eq_dec : EqDecision syseba_event_kind_t.
Proof. solve_decision. Defined.

Record syseba_event_t := Event {
  ev_kind : syseba_event_kind_t;
  ev_path : cstr;
  ev_is_directory : bool;
  ev_initial_sync : bool;
  ev_observed_ns : Z;
}.

Inductive syseba_language_t : Type := SYSEBA_LANGUAGE_IT | SYSEBA_LANGUAGE_EN.

(** [syseba_tr]: the Italian or the English text. *)
Definition syseba_tr (language : syseba_language_t) (italian english : cstr) : cstr :=
  match language with SYSEBA_LANGUAGE_EN => english | SYSEBA_LANGUAGE_IT => italian end.

Record syseba_stats_t := Stats {
  queued_events : Z;
  copied : Z;
  updated : Z;
  deleted : Z;
  restored : Z;
  skipped : Z;
  errors : Z;
  initial_total : Z;
  initial_done : Z;
  initial_copied : Z;
  initial_skipped : Z;
  initial_running : bool;
}.
Definition stats_zero : syseba_stats_t := Stats 0 0 0 0 0 0 0 0 0 0 0 false.

(** The counters that are incremented one by one. *)
Inductive counter : Type :=
  | QUEUED_EVENTS | COPIED | UPDATED | DELETED | RESTORED | SKIPPED | ERRORS
  | INITIAL_DONE | INITIAL_COPIED | INITIAL_SKIPPED.
#[export] Instance counter_eq_dec : EqDecision counter.
Proof. solve_decision. Defined.

Definition increment (c : counter) (s : syseba_stats_t) : syseba_stats_t :=
  let d name x := if bool_decide (c = name) then wrap64 (x + 1) else x in
  Stats (d QUEUED_EVENTS (queued_events s)) (d COPIED (copied s)) (d UPDATED (updated s))
        (d DELETED (deleted s)) (d RESTORED (restored s)) (d SKIPPED (skipped s))
        (d ERRORS (errors s)) (initial_total s) (d INITIAL_DONE (initial_done s))
        (d INITIAL_COPIED (initial_copied s)) (d INITIAL_SKIPPED (initial_skipped s))
        (initial_running s).

Record syseba_log_record_t := LogRecord {
  lr_timestamp : cstr;
  lr_level : cstr;
  lr_operation : cstr;
  lr_message : cstr;
  lr_source_path : cstr;
  lr_target_path : cstr;
  lr_additional_info : cstr;
}.

(** A [double]. *)
Inductive double : Type :=
  | DNan
  | DInf (negative : bool)
  | DFin (q : Q).

Record syseba_options_t := Options {
  op_command : cstr;
  op_config_path : cstr;
  op_lock_path : cstr;
  op_db_path : cstr;
  op_token_path : cstr;
  op_web_host : cstr;
  op_web_port : Z;
  op_language : syseba_language_t;
  op_silent : bool;
  op_web : bool;
  op_web_only : bool;
  op_no_web_auth : bool;
  op_no_initial_sync : bool;
  op_output_json : bool;
  op_overwrite : bool;
  op_rename : bool;
  op_create_daemon : bool;
  op_console_refresh : double;
  op_lines : Z;
  op_path : cstr;
  op_search : cstr;
  op_page : Z;
  op_page_size : Z;
  op_sort : cstr;
  op_direction : cstr;
  op_explicit_token : cstr;
}.

(** The settings of [syseba_app_t] that [syseba_app_init] copies from the options. *)
Record app_options := AppOptions {
  ao_language : syseba_language_t;
  ao_lock_path : cstr;
  ao_db_path : cstr;
  ao_web_host : cstr;
  ao_web_port : Z;
  ao_web_enabled : bool;
  ao_web_only : bool;
  ao_no_initial_sync : bool;
  ao_silent : bool;
}.

(** What the web server keeps in [syseba_app_t]. *)
Record web_state := WebState {
  ws_token : cstr;
  ws_token_source : cstr;
  ws_auth_enabled : bool;
  ws_restart_required : bool;
}.

(** The progress of the initial synchronization. *)
Record initial_status := InitialStatus {
  is_state : cstr;
  is_started_at : cstr;
  is_completed_at : cstr;
  is_error : cstr;
}.

(** The last lines of the log: a ring of [recent_capacity] slots. *)
Record recent := Recent {
  recent_logs : list (option cstr);
  recent_count : Z;
  recent_next : Z;
}.

(** Which threads run; [th_workers] is the array of the workers, with its length,
    or NULL. *)
Record threads := Threads {
  th_workers : option Z;
  th_log : bool;
  th_initial : bool;
  th_watcher : bool;
  th_web : bool;
}.

Record syseba_app_t := App {
  app_config : syseba_config_t;
  app_options_ : app_options;
  app_stats : syseba_stats_t;
  app_initial : initial_status;
  app_recent : recent;
  app_last_event_at : cstr;
  app_event_queue : syseba_queue_t syseba_event_t;
  app_log_queue : syseba_queue_t syseba_log_record_t;
  app_threads : threads;
  app_running : bool;
  app_stop_requested : bool;
  app_started_ns : Z;
  app_started_at : cstr;
  app_web : web_state;
  app_lock_file : option ppath;
  app_stderr : list cstr;
  app_os : os;
}.

Definition with_stats (x : syseba_stats_t) (a : syseba_app_t) : syseba_app_t :=
  App (app_config a) (app_options_ a) x (app_initial a) (app_recent a) (app_last_event_at a)
      (app_event_queue a) (app_log_queue a) (app_threads a) (app_running a)
      (app_stop_requested a) (app_started_ns a) (app_started_at a) (app_web a) (app_lock_file a) (app_stderr a) (app_os a).
Definition with_initial (x : initial_status) (a : syseba_app_t) : syseba_app_t :=
  App (app_config a) (app_options_ a) (app_stats a) x (app_recent a) (app_last_event_at a)
      (app_event_queue a) (app_log_queue a) (app_threads a) (app_running a)
      (app_stop_requested a) (app_started_ns a) (app_started_at a) (app_web a) (app_lock_file a) (app_stderr a) (app_os a).
Definition with_recent (x : recent) (stamp : cstr) (a : syseba_app_t) : syseba_app_t :=
  App (app_config a) (app_options_ a) (app_stats a) (app_initial a) x stamp
      (app_event_queue a) (app_log_queue a) (app_threads a) (app_running a)
      (app_stop_requested a) (app_started_ns a) (app_started_at a) (app_web a) (app_lock_file a) (app_stderr a) (app_os a).
Definition with_event_queue (x : syseba_queue_t syseba_event_t) (a : syseba_app_t) :
    syseba_app_t :=
  App (app_config a) (app_options_ a) (app_stats a) (app_initial a) (app_recent a)
      (app_last_event_at a) x (app_log_queue a) (app_threads a) (app_running a)
      (app_stop_requested a) (app_started_ns a) (app_started_at a) (app_web a) (app_lock_file a) (app_stderr a) (app_os a).
Definition with_log_queue (x : syseba_queue_t syseba_log_record_t) (a : syseba_app_t) :
    syseba_app_t :=
  App (app_config a) (app_options_ a) (app_stats a) (app_initial a) (app_recent a)
      (app_last_event_at a) (app_event_queue a) x (app_threads a) (app_running a)
      (app_stop_requested a) (app_started_ns a) (app_started_at a) (app_web a) (app_lock_file a) (app_stderr a) (app_os a).
Definition with_threads (x : threads) (a : syseba_app_t) : syseba_app_t :=
  App (app_config a) (app_options_ a) (app_stats a) (app_initial a) (app_recent a)
      (app_last_event_at a) (app_event_queue a) (app_log_queue a) x (app_running a)
      (app_stop_requested a) (app_started_ns a) (app_started_at a) (app_web a) (app_lock_file a) (app_stderr a) (app_os a).
Definition with_running (x : bool) (a : syseba_app_t) : syseba_app_t :=
  App (app_config a) (app_options_ a) (app_stats a) (app_initial a) (app_recent a)
      (app_last_event_at a) (app_event_queue a) (app_log_queue a) (app_threads a) x
      (app_stop_requested a) (app_started_ns a) (app_started_at a) (app_web a) (app_lock_file a) (app_stderr a) (app_os a).
Definition with_stopping (x : bool) (a : syseba_app_t) : syseba_app_t :=
  App (app_config a) (app_options_ a) (app_stats a) (app_initial a) (app_recent a)
      (app_last_event_at a) (app_event_queue a) (app_log_queue a) (app_threads a)
      (app_running a) x (app_started_ns a) (app_started_at a) (app_web a) (app_lock_file a) (app_stderr a) (app_os a).
Definition with_started (x : Z) (at_ : cstr) (a : syseba_app_t) : syseba_app_t :=
  App (app_config a) (app_options_ a) (app_stats a) (app_initial a) (app_recent a)
      (app_last_event_at a) (app_event_queue a) (app_log_queue a) (app_threads a)
      (app_running a) (app_stop_requested a) x at_ (app_web a) (app_lock_file a)
      (app_stderr a) (app_os a).
Definition with_web (x : web_state) (a : syseba_app_t) : syseba_app_t :=
  App (app_config a) (app_options_ a) (app_stats a) (app_initial a) (app_recent a)
      (app_last_event_at a) (app_event_queue a) (app_log_queue a) (app_threads a)
      (app_running a) (app_stop_requested a) (app_started_ns a) (app_started_at a) x
      (app_lock_file a) (app_stderr a) (app_os a).
Definition with_lock_file (x : option ppath) (a : syseba_app_t) : syseba_app_t :=
  App (app_config a) (app_options_ a) (app_stats a) (app_initial a) (app_recent a)
      (app_last_event_at a) (app_event_queue a) (app_log_queue a) (app_threads a)
      (app_running a) (app_stop_requested a) (app_started_ns a) (app_started_at a) (app_web a) x (app_stderr a) (app_os a).
Definition with_stderr (x : list cstr) (a : syseba_app_t) : syseba_app_t :=
  App (app_config a) (app_options_ a) (app_stats a) (app_initial a) (app_recent a)
      (app_last_event_at a) (app_event_queue a) (app_log_queue a) (app_threads a)
      (app_running a) (app_stop_requested a) (app_started_ns a) (app_started_at a) (app_web a) (app_lock_file a) x (app_os a).
Definition with_os (x : os) (a : syseba_app_t) : syseba_app_t :=
  App (app_config a) (app_options_ a) (app_stats a) (app_initial a) (app_recent a)
      (app_last_event_at a) (app_event_queue a) (app_log_queue a) (app_threads a)
      (app_running a) (app_stop_requested a) (app_started_ns a) (app_started_at a) (app_web a) (app_lock_file a)
      (app_stderr a) x.

(** The components of the state. *)
#[export] Instance lens_os : Lens syseba_app_t os.
Proof. refine {| lget := app_os; lset := with_os |}; [done|by intros []|done]. Defined.

#[export] Instance lens_event_queue : Lens syseba_app_t (syseba_queue_t syseba_event_t).
Proof. refine {| lget := app_event_queue; lset := with_event_queue |}; [done|by intros []|done]. Defined.

#[export] Instance lens_log_queue : Lens syseba_app_t (syseba_queue_t syseba_log_record_t).
Proof. refine {| lget := app_log_queue; lset := with_log_queue |}; [done|by intros []|done]. Defined.

Definition syseba_app_is_stopping : ST syseba_app_t bool := gets app_stop_requested.
Definition syseba_app_set_stopping : ST syseba_app_t unit := modify (with_stopping true).

Definition syseba_stats_increment (c : counter) : ST syseba_app_t unit :=
  modify (fun a => with_stats (increment c (app_stats a)) a).

Definition language_of (a : syseba_app_t) : syseba_language_t := ao_language (app_options_ a).
