(* ===== verification/Log.v ===== *)
(** * The log (src/src/log.c)

    The ring of recent lines, the emission of a record, and the tail of a log
    file. *)

From S2P Require Import Prelude CString Paths Os Platform Fs Config Queue AppState.

(** [syseba_timestamp_now] and [syseba_iso_now]: the local time as text. *)
Class Clock := {
  timestamp_now : Z -> cstr;
  iso_now : Z -> cstr;
}.

(** [calloc] in the queue: a block that is not in use. *)
Class Allocator (D : Type) := {
  alloc_node : gmap positive (syseba_queue_node_t D) -> option positive;
  alloc_node_free : forall h p, alloc_node h = Some p -> h !! p = None;
}.

Definition SYSEBA_RECENT_LOGS : Z := 500.
Definition SYSEBA_MESSAGE_MAX : Z := 2048.

(** ** Recent lines *)

Definition ring_capacity (r : recent) : Z := zlen (recent_logs r).

Definition ring_add (line : cstr) (r : recent) : recent :=
  let capacity := ring_capacity r in
  Recent (<[Z.to_nat (recent_next r) := Some line]> (recent_logs r))
         (if recent_count r <? capacity then recent_count r + 1 else recent_count r)
         ((recent_next r + 1) mod capacity).

(** The loop that reads the ring, the oldest line first: at most [limit] lines
    (the status document and the dashboard). *)
Definition recent_read (limit : Z) (r : recent) : list cstr :=
  let capacity := ring_capacity r in
  let first := (recent_next r + capacity - recent_count r) mod capacity in
  let start := if limit <? recent_count r then recent_count r - limit else 0 in
  omap (fun index =>
          match recent_logs r !! Z.to_nat ((first + Z.of_nat index) mod capacity) with
          | Some (Some line) => Some line
          | _ => None
          end)
       (seq (Z.to_nat start) (Z.to_nat (recent_count r - start))).

Section Emit.
Context `{Clock} `{!Allocator syseba_log_record_t}.

Definition syseba_recent_add (line : cstr) : ST syseba_app_t unit :=
  modify (fun a =>
    if ring_capacity (app_recent a) =? 0 then a
    else with_recent (ring_add line (app_recent a))
           (truncate 32 (iso_now (os_time (app_os a)))) a).

(** The line of a record, in the ring and in the file. *)
Definition record_line (r : syseba_log_record_t) : cstr :=
  truncate (SYSEBA_MESSAGE_MAX + 64)
    (lr_timestamp r ++ (c!" [") ++ lr_level r ++ (c!"] ") ++ lr_message r).

Definition make_record (now : Z) (level operation source target additional message : cstr) :
    syseba_log_record_t :=
  LogRecord (truncate 32 (timestamp_now now)) (truncate 16 level) (truncate 32 operation)
    (truncate SYSEBA_MESSAGE_MAX message) (truncate SYSEBA_PATH_MAX source)
    (truncate SYSEBA_PATH_MAX target) (truncate SYSEBA_MESSAGE_MAX additional).

(** [message] is what [vsnprintf] makes of the format and its arguments.  The record
    and the copy of its line are always allocated; the node of the queue may not be. *)
Definition syseba_log_emit (level operation source target additional message : cstr) :
    ST syseba_app_t unit :=
  let* now := gets (fun a => os_time (app_os a)) in
  let record := make_record now level operation source target additional message in
  syseba_recent_add (record_line record) ;;;
  (if streq (lr_level record) (c!"ERROR") then syseba_stats_increment ERRORS else ret tt) ;;;
  (let* pushed := zoom (syseba_queue_push alloc_node record) in
   if pushed then ret tt
   else modify (fun a => with_stderr (app_stderr a ++ [record_line record]) a)).

(** ** The writer thread

    One turn of [syseba_log_writer_main] on a record: the open file, if there still
    is one, gets the line, in as many writes as it takes; a failure closes it for good. *)
Definition log_writer_turn (file : option ppath) (record : syseba_log_record_t) :
    ST os (option ppath) :=
  match file with
  | None => ret None
  | Some k =>
      let* information := sys_fstat k in
      let size := match information with Some n => node_size n | None => 0 end in
      let line := record_line record ++ [NEWLINE] in
      let* written := write_all (S (length line)) k size line in
      let* flushed := (if written then sys_sync else ret false) in
      ret (if flushed then Some k else None)
  end.

(** [syseba_log_start]: the log's directory, then the thread. *)
Definition syseba_log_start (thread_created : bool) : ST syseba_app_t bool :=
  let* config := gets app_config in
  match syseba_parent_dir (cfg_log_file config) SYSEBA_PATH_MAX with
  | None => ret false
  | Some parent =>
      let* made := zoom (syseba_mkdirs parent 488) in
      if negb made then ret false
      else if negb thread_created then ret false
      else
        modify (fun a =>
          let t := app_threads a in
          with_threads (Threads (th_workers t) true (th_initial t) (th_watcher t) (th_web t)) a) ;;;
        ret true
  end.

(** [syseba_log_stop]: the writer drains its queue ([drained] is the queue it
    leaves) and ends. *)
Definition syseba_log_stop (drained : syseba_queue_t syseba_log_record_t ->
      syseba_queue_t syseba_log_record_t) : ST syseba_app_t unit :=
  let* started := gets (fun a => th_log (app_threads a)) in
  if negb started then ret tt
  else
    modify (fun a => with_log_queue (drained (app_log_queue a)) a) ;;;
    zoom (L := lens_log_queue) syseba_queue_close ;;;
    modify (fun a =>
      let t := app_threads a in
      with_threads (Threads (th_workers t) false (th_initial t) (th_watcher t) (th_web t)) a).
End Emit.

(** ** The tail of a file *)

(** [for (index = chunk - 1; index >= 0; index--)] on the buffer, the last byte
    first: the index after the newline where the tail starts, or the count. *)
Fixpoint scan_chunk (reversed : cstr) (lines newline_count : Z) : Z + Z :=
  match reversed with
  | [] => inr newline_count
  | c :: rest =>
      if ceq c NEWLINE then
        if lines <? newline_count + 1 then inl (zlen rest + 1)
        else scan_chunk rest lines (newline_count + 1)
      else scan_chunk rest lines newline_count
  end.

Definition TAIL_CHUNK : Z := 8192.

(** [while (position > 0 && newline_count <= lines)]: where the tail starts. *)
Fixpoint tail_position (fuel : nat) (data : cstr) (position lines newline_count : Z) : Z :=
  match fuel with
  | O => position
  | S fuel' =>
      if (0 <? position) && (newline_count <=? lines) then
        let chunk := if TAIL_CHUNK <? position then TAIL_CHUNK else position in
        let position := position - chunk in
        let buffer := take (Z.to_nat chunk) (drop (Z.to_nat position) data) in
        match scan_chunk (rev buffer) lines newline_count with
        | inl index => position + index
        | inr newline_count => tail_position fuel' data position lines newline_count
        end
      else position
  end.

(** [syseba_line_array_push]: without the line breaks at the end. *)
Definition is_line_break (c : ascii) : bool := ceq c RETURN || ceq c NEWLINE.
Definition syseba_line_array_push (lines : list cstr) (text : cstr) : list cstr :=
  lines ++ [rev (drop_while is_line_break (rev text))].

(** The loop that cuts the data at its newlines; empty lines are dropped. *)
Fixpoint tail_lines (pieces : list cstr) (result : list cstr) : list cstr :=
  match pieces with
  | [] => result
  | text :: rest =>
      tail_lines rest (if nonempty text then syseba_line_array_push result text else result)
  end.

(** The lines that [syseba_log_tail] makes of a file's bytes. *)
Definition log_tail_text (data : cstr) (lines : Z) : list cstr :=
  let end_ := zlen data in
  let position := tail_position (S (length data)) data end_ lines 0 in
  tail_lines (split_on NEWLINE (drop (Z.to_nat position) data)) [].

(** [None] is an error; the call returns NULL for that and for no lines at all. *)
Definition syseba_log_tail (path : cstr) (lines : Z) : ST os (option (list cstr)) :=
  let* opened := syseba_open_regular_read path in
  match opened with
  | None => ret None
  | Some (k, _) =>
      let* file := sys_stream k in
      if sm_failed file then ret None
      else ret (Some (log_tail_text (sm_data file) lines))
  end.
