(* ===== verification/LogFacts.v ===== *)
(** * Properties of the log

    The ring holds the last lines in order; the tail of a file, found by scanning
    it backwards in chunks, is its last lines. *)

From S2P Require Import Prelude CString Paths Os OsFacts Platform Fs FsFacts CopyFacts Config ConfigFacts ConfigText Queue AppState Log.

(** ** The ring *)

Definition ring_empty (capacity : nat) : recent := Recent (replicate capacity None) 0 0.

(** The ring after the lines [ls]: the last of them, each in its slot. *)
Record ring_of (capacity : nat) (ls : list cstr) (r : recent) := RingOf {
  ro_length : length (recent_logs r) = capacity;
  ro_count : recent_count r = Z.of_nat (Nat.min capacity (length ls));
  ro_next : recent_next r = Z.of_nat (length ls mod capacity);
  ro_lines : forall i line, ls !! i = Some line -> (length ls <= i + capacity)%nat ->
    recent_logs r !! (i mod capacity)%nat = Some (Some line);
}.

Lemma ring_of_empty capacity : capacity <> 0%nat -> ring_of capacity [] (ring_empty capacity).
Proof.
  intros Hc. constructor; simpl; try done.
  - apply length_replicate.
  - by rewrite Nat.min_0_r.
  - by rewrite Nat.Div0.mod_0_l.
Qed.

Lemma mod_apart n i j :
  n <> 0%nat -> (i < j)%nat -> (j < i + n)%nat -> (i mod n <> j mod n)%nat.
Proof.
  intros Hn Hij Hj E. pose proof (Nat.div_mod_eq i n) as Ei. pose proof (Nat.div_mod_eq j n) as Ej.
  rewrite E in Ei.
  assert (j - i = n * (j / n - i / n))%nat as Hd by nia.
  destruct (j / n - i / n)%nat; [lia|nia].
Qed.

Lemma ring_of_add capacity ls r line :
  capacity <> 0%nat -> ring_of capacity ls r -> ring_of capacity (ls ++ [line]) (ring_add line r).
Proof.
  intros Hc [Hl Hn Hx Hs]. unfold ring_add, ring_capacity, zlen. rewrite Hl, Hx, Nat2Z.id.
  assert (length ls mod capacity < capacity)%nat as Hm by (by apply Nat.mod_upper_bound).
  constructor; cbn [recent_logs recent_count recent_next].
  - by rewrite length_insert.
  - rewrite Hn, length_app. change (length [line]) with 1%nat.
    destruct (Z.of_nat (capacity `min` length ls) <? Z.of_nat capacity) eqn:E; bool_hyps; lia.
  - rewrite length_app. simpl.
    rewrite <- (Nat.Div0.add_mod_idemp_l (length ls) 1). by rewrite (Nat2Z.inj_mod (_ + 1)), Nat2Z.inj_add.
  - intros i l Hi Hlen. rewrite length_app in Hlen. simpl in Hlen.
    destruct (decide (i = length ls)) as [->|Hne].
    + rewrite lookup_app_r, Nat.sub_diag in Hi by lia. injection Hi as <-.
      apply list_lookup_insert_eq. by rewrite Hl.
    + assert (i < length ls)%nat as Hlt.
      { apply lookup_lt_Some in Hi. rewrite length_app in Hi. simpl in Hi. lia. }
      rewrite lookup_app_l in Hi by done.
      rewrite list_lookup_insert_ne; [apply Hs; [done|lia]|].
      apply not_eq_sym, mod_apart; [done|done|lia].
Qed.

Lemma ring_of_fold capacity ls :
  capacity <> 0%nat -> ring_of capacity ls (fold_left (fun r l => ring_add l r) ls (ring_empty capacity)).
Proof.
  intros Hc. induction ls as [|l ls IH] using rev_ind; [by apply ring_of_empty|].
  rewrite fold_left_app. simpl. by apply ring_of_add.
Qed.

(** The last [n] elements. *)
Definition lastn {A} (n : nat) (l : list A) : list A := drop (length l - n) l.

Lemma omap_seq_lookup {A} (f : nat -> option A) (l : list A) start n :
  (forall i, (i < n)%nat -> f (start + i)%nat = l !! i) -> length l = n ->
  omap f (seq start n) = l.
Proof.
  revert l start. induction n as [|n IH]; intros l start Hf Hl.
  - by destruct l.
  - destruct l as [|x l]; [done|]. simpl.
    pose proof (Hf 0%nat ltac:(lia)) as H0. rewrite Nat.add_0_r in H0. rewrite H0. simpl. f_equal.
    apply IH; [|by injection Hl]. intros i Hi. specialize (Hf (S i) ltac:(lia)).
    by rewrite <- Nat.add_succ_comm in Hf.
Qed.

Lemma recent_read_spec capacity ls r limit :
  capacity <> 0%nat -> ring_of capacity ls r -> 0 <= limit ->
  recent_read limit r = lastn (Nat.min capacity (Z.to_nat limit)) ls.
Proof.
  intros Hc [Hl Hn Hx Hs] Hlim. unfold recent_read, ring_capacity, zlen. rewrite Hl, Hn, Hx.
  set (count := Nat.min capacity (length ls)).
  set (start := if limit <? Z.of_nat count then Z.of_nat count - limit else 0).
  assert (Z.to_nat start = count - Z.to_nat limit)%nat as Hst.
  { unfold start. destruct (limit <? _) eqn:E; bool_hyps; lia. }
  assert (0 <= start <= Z.of_nat count) as Hsb.
  { unfold start. destruct (limit <? _) eqn:E; bool_hyps; lia. }
  assert (forall index, (index < count)%nat ->
    Z.to_nat (((Z.of_nat (length ls mod capacity) + Z.of_nat capacity - Z.of_nat count)
                 mod Z.of_nat capacity + Z.of_nat index) mod Z.of_nat capacity)
    = ((length ls - count + index) mod capacity)%nat) as Hslot.
  { intros index Hi. rewrite Z.add_mod_idemp_l by lia.
    rewrite Nat2Z.inj_mod.
    replace (Z.of_nat (length ls) mod Z.of_nat capacity + Z.of_nat capacity - Z.of_nat count
             + Z.of_nat index)
      with (Z.of_nat (length ls) mod Z.of_nat capacity
            + (Z.of_nat capacity - Z.of_nat count + Z.of_nat index)) by lia.
    rewrite Z.add_mod_idemp_l by lia.
    replace (Z.of_nat (length ls) + (Z.of_nat capacity - Z.of_nat count + Z.of_nat index))
      with (Z.of_nat (length ls - count + index) + 1 * Z.of_nat capacity) by lia.
    rewrite Z.mod_add by lia. rewrite <- Nat2Z.inj_mod. by rewrite Nat2Z.id. }
  apply omap_seq_lookup.
  - intros i Hi. rewrite Hslot by lia. unfold lastn. rewrite lookup_drop.
    replace (length ls - capacity `min` Z.to_nat limit + i)%nat
      with (length ls - count + (Z.to_nat start + i))%nat by lia.
    destruct (ls !! (length ls - count + (Z.to_nat start + i))%nat) as [line|] eqn:E.
    + by rewrite (Hs _ line) by (done || lia).
    + apply lookup_ge_None in E. lia.
  - unfold lastn. rewrite length_drop. lia.
Qed.

(** ** The tail *)

Lemma scan_chunk_app a b lines n :
  scan_chunk (a ++ b) lines n =
    match scan_chunk a lines n with
    | inl i => inl (zlen b + i)
    | inr n' => scan_chunk b lines n'
    end.
Proof.
  revert n. induction a as [|c a IH]; intros n; [done|]. cbn [app scan_chunk].
  destruct (ceq c NEWLINE); [|apply IH]. destruct (_ <? _); [|apply IH].
  f_equal. zlen_lia.
Qed.

Lemma scan_chunk_count a lines n n' :
  n <= lines -> scan_chunk a lines n = inr n' -> n' <= lines.
Proof.
  revert n. induction a as [|c a IH]; intros n Hn H; cbn [scan_chunk] in H.
  - by injection H as <-.
  - destruct (ceq c NEWLINE); [|by eapply IH].
    destruct (lines <? n + 1) eqn:E; [done|]. bool_hyps. eapply IH; [|exact H]. lia.
Qed.

(** The scan in chunks finds what one scan of the whole text finds. *)
Lemma tail_position_spec fuel data position lines n :
  (position < fuel)%nat -> (position <= length data)%nat -> n <= lines ->
  tail_position fuel data (Z.of_nat position) lines n =
    match scan_chunk (rev (take position data)) lines n with inl i => i | inr _ => 0 end.
Proof.
  revert position n. induction fuel as [|fuel IH]; intros position n Hf Hp Hn; [lia|].
  cbn [tail_position]. destruct (decide (position = 0%nat)) as [->|Hp0]; [done|].
  assert ((0 <? Z.of_nat position) && (n <=? lines) = true) as ->.
  { apply andb_true_iff. split; [apply Z.ltb_lt; lia|by apply Z.leb_le]. }
  set (chunk := if TAIL_CHUNK <? Z.of_nat position then TAIL_CHUNK else Z.of_nat position).
  assert (1 <= chunk <= Z.of_nat position) as Hc.
  { unfold chunk, TAIL_CHUNK in *. destruct (_ <? _) eqn:E; bool_hyps; unfold TAIL_CHUNK in *; lia. }
  set (before := (position - Z.to_nat chunk)%nat).
  replace (Z.of_nat position - chunk) with (Z.of_nat before) by (unfold before; lia).
  rewrite Nat2Z.id.
  assert (take position data = take before data ++ take (Z.to_nat chunk) (drop before data)) as ->.
  { rewrite take_take_drop. f_equal. unfold before. lia. }
  rewrite rev_app_distr, scan_chunk_app.
  assert (zlen (rev (take before data)) = Z.of_nat before) as Hz.
  { unfold zlen. rewrite length_rev, length_take. unfold before. lia. }
  destruct (scan_chunk (rev (take (Z.to_nat chunk) (drop before data))) lines n) as [i|n'] eqn:E.
  - by rewrite Hz.
  - apply IH; [unfold before; lia|unfold before; lia|by eapply scan_chunk_count].
Qed.

(** A file of lines. *)
Definition log_text (ls : list cstr) : cstr := concat (map (fun l => l ++ [NEWLINE]) ls).

Definition plain_line (l : cstr) : Prop :=
  l <> [] /\ NEWLINE ∉ l /\ (forall c, last l = Some c -> c <> RETURN).

Lemma log_text_app a b : log_text (a ++ b) = log_text a ++ log_text b.
Proof. unfold log_text. by rewrite map_app, concat_app. Qed.

Lemma scan_clean l rest lines n :
  NEWLINE ∉ l -> scan_chunk (l ++ rest) lines n = scan_chunk rest lines n.
Proof.
  induction l as [|c l IH]; [done|]. rewrite not_elem_of_cons. intros [Hc Hl].
  cbn [app scan_chunk]. assert (ceq c NEWLINE = false) as -> by (by apply ceq_false; congruence).
  by apply IH.
Qed.

Lemma not_elem_rev {A} (x : A) l : x ∉ l -> x ∉ rev l.
Proof. rewrite !list_elem_of_In. intros H Hin. by apply H, in_rev. Qed.

Lemma scan_log_text ls lines n :
  Forall plain_line ls -> n <= lines ->
  scan_chunk (rev (log_text ls)) lines n =
    if Z.of_nat (length ls) <=? lines - n then inr (n + Z.of_nat (length ls))
    else inl (zlen (log_text (take (length ls - Z.to_nat (lines - n)) ls))).
Proof.
  intros Hp. revert n. induction ls as [|l ls IH] using rev_ind; intros n Hn.
  { simpl. destruct (_ <=? _) eqn:E; bool_hyps; [f_equal; lia|lia]. }
  apply Forall_app in Hp as [Hp Hl]. apply Forall_inv in Hl. destruct Hl as (_ & Hnl & _).
  rewrite log_text_app. unfold log_text at 2. simpl map. simpl concat.
  rewrite app_nil_r, !rev_app_distr. simpl rev at 1. cbn [app scan_chunk].
  rewrite ceq_refl, length_app. change (length [l]) with 1%nat.
  destruct (lines <? n + 1) eqn:E; bool_hyps.
  - assert ((Z.of_nat (length ls + 1) <=? lines - n) = false) as -> by (apply Z.leb_gt; lia).
    f_equal. rewrite take_ge by (rewrite length_app; simpl; lia).
    rewrite log_text_app. unfold log_text at 3. simpl. rewrite app_nil_r.
    unfold zlen. rewrite !length_app, !length_rev. simpl. lia.
  - rewrite scan_clean by (by apply not_elem_rev). rewrite (IH Hp) by lia.
    destruct (Z.of_nat (length ls) <=? lines - (n + 1)) eqn:E1,
      (Z.of_nat (length ls + 1) <=? lines - n) eqn:E2; bool_hyps; try lia.
    + f_equal. lia.
    + rewrite take_app_le by lia. do 4 f_equal. lia.
Qed.

Lemma split_log_text ls :
  Forall plain_line ls -> split_on NEWLINE (log_text ls) = ls ++ [[]].
Proof.
  induction 1 as [|l ls (_ & Hl & _) _ IH]; [done|].
  unfold log_text in *. simpl. rewrite <- app_assoc. simpl. by rewrite split_on_app, IH.
Qed.

Lemma tail_lines_plain ls result :
  Forall plain_line ls -> tail_lines (ls ++ [[]]) result = result ++ ls.
Proof.
  intros H. revert result. induction H as [|l ls (Hne & Hnl & Hr) _ IH]; intros result.
  { simpl. by rewrite app_nil_r. }
  cbn [app tail_lines].
  assert (nonempty l = true) as -> by (by destruct l). rewrite IH. unfold syseba_line_array_push.
  rewrite <- app_assoc. f_equal. simpl. f_equal.
  destruct l as [|c l _] using rev_ind; [done|]. rewrite rev_app_distr. cbn [rev app].
  rewrite drop_while_id.
  - change (c :: rev l) with ([c] ++ rev l). by rewrite rev_app_distr, rev_involutive.
  - unfold is_line_break. apply orb_false_iff. split; apply ceq_false.
    + apply Hr. by rewrite last_snoc.
    + intros ->. apply Hnl. apply elem_of_app. right. by apply list_elem_of_singleton.
Qed.

Lemma tail_lines_app a b result :
  tail_lines (a ++ b) result = tail_lines b (tail_lines a result).
Proof. revert result. induction a as [|x a IH]; intros result; [done|]. apply IH. Qed.

(** The last [n] lines of a file of complete lines. *)
Lemma log_tail_lines ls n :
  Forall plain_line ls -> 0 <= n -> log_tail_text (log_text ls) n = lastn (Z.to_nat n) ls.
Proof.
  intros Hp Hn. unfold log_tail_text, zlen.
  rewrite tail_position_spec by lia. rewrite take_ge by lia. rewrite scan_log_text by done.
  rewrite !Z.sub_0_r. unfold lastn. destruct (_ <=? n) eqn:E; bool_hyps.
  - simpl Z.to_nat. rewrite drop_0, split_log_text, tail_lines_plain by done.
    replace (length ls - Z.to_nat n)%nat with 0%nat by lia. by rewrite drop_0.
  - set (k := (length ls - Z.to_nat n)%nat).
    assert (log_text ls = log_text (take k ls) ++ log_text (drop k ls)) as E1.
    { by rewrite <- log_text_app, take_drop. }
    rewrite E1. unfold zlen. rewrite Nat2Z.id, drop_app_length.
    assert (Forall plain_line (drop k ls)) as Hd by (by apply Forall_drop).
    by rewrite split_log_text, tail_lines_plain.
Qed.

(** The same for a file that ends in a line without a newline: that line comes
    after the last [n] complete ones. *)
Lemma log_tail_fragment ls l n :
  Forall plain_line ls -> plain_line l -> 0 <= n ->
  log_tail_text (log_text ls ++ l) n = lastn (Z.to_nat n) ls ++ [l].
Proof.
  intros Hp Hl Hn. unfold log_tail_text, zlen.
  rewrite tail_position_spec by lia. rewrite take_ge by lia. rewrite rev_app_distr.
  assert (NEWLINE ∉ rev l) as Hr by (apply not_elem_rev; apply Hl).
  rewrite scan_clean, scan_log_text by done. rewrite !Z.sub_0_r.
  assert (forall ks, Forall plain_line ks ->
    tail_lines (split_on NEWLINE (log_text ks ++ l)) [] = ks ++ [l]) as Hall.
  { intros ks Hk. pose proof (split_log_text (ks ++ [l])) as Hs. rewrite log_text_app in Hs.
    unfold log_text at 2 in Hs. simpl map in Hs. simpl concat in Hs. rewrite app_nil_r, app_assoc in Hs.
    change [NEWLINE] with (NEWLINE :: []) in Hs. rewrite split_on_app_sep in Hs.
    specialize (Hs ltac:(apply Forall_app; auto)). simpl in Hs. apply app_inj_tail in Hs as [-> _].
    assert (Forall plain_line (ks ++ [l])) as Hkl by (apply Forall_app; auto).
    clear -Hkl. revert Hkl. generalize (ks ++ [l]). intros js Hj.
    pose proof (tail_lines_plain js [] Hj) as E. rewrite tail_lines_app in E. exact E. }
  unfold lastn. destruct (_ <=? n) eqn:E; bool_hyps.
  - simpl Z.to_nat. rewrite drop_0, Hall by done.
    replace (length ls - Z.to_nat n)%nat with 0%nat by lia. by rewrite drop_0.
  - set (k := (length ls - Z.to_nat n)%nat).
    assert (log_text ls = log_text (take k ls) ++ log_text (drop k ls)) as E1.
    { by rewrite <- log_text_app, take_drop. }
    rewrite E1, <- app_assoc. unfold zlen. rewrite Nat2Z.id, drop_app_length.
    apply Hall. by apply Forall_drop.
Qed.

(** The call on a regular file. *)
Lemma log_tail_quiet path k m data n s :
  quiet s -> k <> [] -> resolve s false path = Found k -> os_fs s !! k = Some (NReg m data) ->
  exists s', syseba_log_tail path n s = (Some (log_tail_text data n), s') /\ same_world s s'.
Proof.
  intros Hq Hk0 Hr Hk. exists s. split; [|done].
  assert (node_at (os_fs s) k = Some (NReg m data)) as Hat by (by destruct k).
  unfold syseba_log_tail, bind at 1, syseba_open_regular_read, bind at 1, sys_open_read.
  rewrite syscall_quiet, Hr, Hat by done. unfold bind at 1, sys_fstat.
  rewrite syscall_quiet, Hat by done. unfold bind at 1, sys_sync.
  rewrite syscall_quiet by done. unfold ret at 1, bind at 1, sys_stream.
  by rewrite syscall_quiet, Hk by done.
Qed.

(** ** Emission *)

(** The counters without the errors. *)
Definition but_errors (s : syseba_stats_t) : syseba_stats_t :=
  Stats (queued_events s) (copied s) (updated s) (deleted s) (restored s) (skipped s) 0
        (initial_total s) (initial_done s) (initial_copied s) (initial_skipped s)
        (initial_running s).

(** Every part of the application but the log, its queue and the error counter
    is as it was. *)
Record only_log (a a' : syseba_app_t) : Prop := OnlyLog {
  ol_config : app_config a' = app_config a;
  ol_options : app_options_ a' = app_options_ a;
  ol_stats : but_errors (app_stats a') = but_errors (app_stats a);
  ol_initial : app_initial a' = app_initial a;
  ol_events : app_event_queue a' = app_event_queue a;
  ol_threads : app_threads a' = app_threads a;
  ol_running : app_running a' = app_running a;
  ol_stopping : app_stop_requested a' = app_stop_requested a;
  ol_started : app_started_ns a' = app_started_ns a;
  ol_lock : app_lock_file a' = app_lock_file a;
  ol_os : app_os a' = app_os a;
  ol_web : app_web a' = app_web a;
}.
#[export] Instance only_log_preorder : PreOrder only_log.
Proof.
  split; [done|]. intros a b c [] []. constructor; by etransitivity.
Qed.

Lemma keeps_zoom_log (m : ST (syseba_queue_t syseba_log_record_t) bool) :
  keeps only_log (zoom m).
Proof. intros a. unfold exec, zoom. by destruct (m _). Qed.

Lemma only_log_stderr x a : only_log a (with_stderr x a).
Proof. done. Qed.

Section Emission.
Context `{Clock} `{!Allocator syseba_log_record_t}.

Lemma only_log_recent line : keeps only_log (syseba_recent_add line).
Proof. apply keeps_modify. intros a. by case_if. Qed.

Lemma only_log_emit level operation source target additional message :
  keeps only_log (syseba_log_emit level operation source target additional message).
Proof.
  unfold syseba_log_emit. apply keeps_bind; [typeclasses eauto|apply keeps_gets; typeclasses eauto|].
  intros now. apply keeps_bind; [typeclasses eauto|apply only_log_recent|].
  intros []. apply keeps_bind; [typeclasses eauto| |].
  - apply keeps_if; [|apply keeps_ret; typeclasses eauto]. apply keeps_modify. intros a.
    by constructor.
  - intros []. apply keeps_bind; [typeclasses eauto|apply keeps_zoom_log|].
    intros []; [apply keeps_ret; typeclasses eauto|]. by apply keeps_modify.
Qed.

(** An error is counted; other records change no counter. *)
Lemma stats_emit level operation source target additional message a :
  app_stats (exec (syseba_log_emit level operation source target additional message) a) =
    if streq (truncate 16 level) (c!"ERROR") then increment ERRORS (app_stats a) else app_stats a.
Proof.
  unfold syseba_log_emit, exec, bind, gets, zoom, syseba_recent_add, modify. simpl.
  set (r := make_record _ _ _ _ _ _ _). change (lr_level r) with (truncate 16 level).
  destruct (ring_capacity _ =? 0), (streq (truncate 16 level) _); simpl;
    by destruct (syseba_queue_push _ _ _) as [[] q].
Qed.

(** The ring gets the record's line. *)
Lemma recent_emit level operation source target additional message a :
  ring_capacity (app_recent a) <> 0 ->
  app_recent (exec (syseba_log_emit level operation source target additional message) a) =
    ring_add (record_line (make_record (os_time (app_os a)) level operation source target
                             additional message)) (app_recent a).
Proof.
  intros Hc. unfold syseba_log_emit, exec, bind, gets, zoom, syseba_recent_add, modify. simpl.
  apply Z.eqb_neq in Hc. rewrite Hc. simpl. set (r := make_record _ _ _ _ _ _ _).
  destruct (streq (truncate 16 level) _); simpl; destruct (syseba_queue_push _ _ _) as [[] q]; done.
Qed.
End Emission.
