(* ===== verification/Clocks.v ===== *)
(** * Clocks, waits and the terminal (src/src/platform.c)

    The broken-down local time and the three formats that the program prints it in, the
    monotonic clock, the loop of a sleep, the result of a timed wait, and the size of the
    terminal.  The classes of the other components for the time as text have their instances
    here: they need [localtime_r] only. *)

From S2P Require Import Prelude CString Paths Os Platform Fs Config FsTree Restore Queue AppState Log.

(** ** The local time *)

(** [struct tm], as far as the formats use it. *)
Record tm := Tm {
  tm_year : Z;
  tm_mon : Z;
  tm_mday : Z;
  tm_hour : Z;
  tm_min : Z;
  tm_sec : Z;
}.

(** [localtime_r]: the local time depends on the time zone of the host; [None] when the
    year does not fit. *)
Class LocalTime := localtime_r : Z -> option tm.

Section LocalTime.
Context `{LocalTime}.

(** The structure is zeroed before. *)
Definition syseba_localtime (value : Z) : tm := default (Tm 0 0 0 0 0 0) (localtime_r value).
End LocalTime.

(** The conversions of [strftime] that the program uses. *)
Definition conversion (c : ascii) (t : tm) : cstr :=
  if ceq c (chr 89) then (* %Y *)
    (let year := tm_year t + 1900 in if year <? 0 then (c!"-") ++ dec (- year) else dec year)
  else if ceq c (chr 109) then dec2 (tm_mon t + 1) (* %m *)
  else if ceq c (chr 100) then dec2 (tm_mday t) (* %d *)
  else if ceq c (chr 72) then dec2 (tm_hour t) (* %H *)
  else if ceq c (chr 77) then dec2 (tm_min t) (* %M *)
  else if ceq c (chr 83) then dec2 (tm_sec t) (* %S *)
  else [].

Fixpoint strftime (format : cstr) (t : tm) : cstr :=
  match format with
  | [] => []
  | c :: rest =>
      match rest with
      | d :: rest' => if ceq c (chr 37) then conversion d t ++ strftime rest' t else c :: strftime rest t
      | [] => [c]
      end
  end.

Section Stamps.
Context `{LocalTime}.

Definition syseba_timestamp_now (now : Z) : cstr := strftime (c!"%Y-%m-%d %H:%M:%S") (syseba_localtime now).
Definition syseba_iso_from_time (value : Z) : cstr := strftime (c!"%Y-%m-%dT%H:%M:%S") (syseba_localtime value).
Definition syseba_iso_now (now : Z) : cstr := syseba_iso_from_time now.
Definition compact_stamp (now : Z) : cstr := strftime (c!"%Y%m%d-%H%M%S") (syseba_localtime now).

(** What the components ask of the time as text. *)
#[export] Instance clock_of_localtime : Clock :=
  {| timestamp_now := syseba_timestamp_now; iso_now := syseba_iso_now |}.
#[export] Instance iso_of_localtime : IsoTime := syseba_iso_from_time.
#[export] Instance stamp_of_localtime : LocalStamp := compact_stamp.
End Stamps.

(** A time that [localtime_r] gives, or the zeroed one. *)
Record tm_ok (t : tm) : Prop := TmOk {
  to_year : - 2 ^ 31 <= tm_year t < 2 ^ 31;
  to_mon : 0 <= tm_mon t < 12;
  to_mday : 0 <= tm_mday t < 32;
  to_hour : 0 <= tm_hour t < 24;
  to_min : 0 <= tm_min t < 60;
  to_sec : 0 <= tm_sec t < 61;
}.

Lemma dec2_two n : 0 <= n < 100 -> exists a b, dec2 n = [a; b] /\ isdigit a = true /\ isdigit b = true.
Proof.
  intros Hn. assert (n = Z.of_nat (Z.to_nat n)) as -> by lia.
  assert (Z.to_nat n < 100)%nat as Hlt by lia. revert Hlt. generalize (Z.to_nat n). clear.
  assert (forallb (fun k => match dec2 (Z.of_nat k) with
                            | [x; y] => isdigit x && isdigit y | _ => false end) (seq 0 100) = true) as Hall
    by (vm_compute; reflexivity).
  intros k Hk. pose proof (proj1 (forallb_forall _ _) Hall k (proj2 (in_seq _ _ _) (conj (Nat.le_0_l _) Hk))) as P.
  cbv beta in P. destruct (dec2 (Z.of_nat k)) as [|x [|y []]]; try done. apply andb_true_iff in P as [Hx Hy]. by exists x, y.
Qed.

(** The characters of a stamp. *)
Definition stamp_char (c : ascii) : bool := isdigit c || ceq c (chr 45) || ceq c (chr 58) || ceq c (chr 32) || ceq c (chr 84).

Lemma year_text t : tm_ok t ->
  zlen (conversion (chr 89) t) <= 11 /\ Forall (fun c => isdigit c || ceq c (chr 45) = true) (conversion (chr 89) t).
Proof.
  intros [Hy _ _ _ _ _]. unfold conversion. rewrite ceq_refl. cbv zeta.
  assert (forall n, 0 <= n <= 2 ^ 31 + 1900 ->
    zlen (dec n) <= 10 /\ Forall (fun c => isdigit c || ceq c (chr 45) = true) (dec n)) as Hdec.
  { intros n Hn. split.
    - assert (length (dec n) <= 10)%nat; [|unfold zlen; lia]. apply dec_fuel_length.
      change (10 ^ Z.of_nat 10) with 10000000000. lia.
    - eapply Forall_impl; [apply dec_digits; lia|]. by intros c ->. }
  destruct (_ <? 0) eqn:E; bool_hyps.
  - destruct (Hdec (- (tm_year t + 1900))) as [Hl Hc]; [lia|].
    split; [rewrite zlen_app; change (zlen (c!"-")) with 1; lia|by constructor].
  - destruct (Hdec (tm_year t + 1900)) as [Hl Hc]; [lia|]. split; [lia|done].
Qed.

(** The fields with two digits. *)
Lemma two_digits t c : tm_ok t -> c ∈ [chr 109; chr 100; chr 72; chr 77; chr 83] ->
  exists a b, conversion c t = [a; b] /\ isdigit a = true /\ isdigit b = true.
Proof.
  intros [_ ? ? ? ? ?] Hc. unfold conversion.
  repeat (apply elem_of_cons in Hc as [->|Hc]; [apply dec2_two; lia|]). by apply not_elem_of_nil in Hc.
Qed.

(** The three formats have the same shape. *)
Definition stamp (dash gap colon : cstr) (t : tm) : cstr :=
  conversion (chr 89) t ++ dash ++ conversion (chr 109) t ++ dash ++ conversion (chr 100) t ++ gap
  ++ conversion (chr 72) t ++ colon ++ conversion (chr 77) t ++ colon ++ conversion (chr 83) t.

Lemma formats t :
  strftime (c!"%Y-%m-%d %H:%M:%S") t = stamp (c!"-") (c!" ") (c!":") t /\
  strftime (c!"%Y-%m-%dT%H:%M:%S") t = stamp (c!"-") (c!"T") (c!":") t /\
  strftime (c!"%Y%m%d-%H%M%S") t = stamp [] (c!"-") [] t.
Proof.
  unfold stamp. rewrite <- (app_nil_r (conversion (chr 83) t)). split_and!; reflexivity.
Qed.

Definition separator (s : cstr) : Prop := zlen s <= 1 /\ Forall (fun c => stamp_char c = true) s.

(** A stamp fits its buffer of 32 bytes, and can be a part of a file name. *)
Lemma stamp_fits dash gap colon t :
  tm_ok t -> separator dash -> separator gap -> separator colon ->
  zlen (stamp dash gap colon t) < 32 /\ Forall (fun c => stamp_char c = true) (stamp dash gap colon t).
Proof.
  intros Ht [Ld Hd] [Lg Hg] [Lc Hc]. destruct (year_text t Ht) as [Ly Hy].
  assert (Forall (fun c => stamp_char c = true) (conversion (chr 89) t)) as Hy'.
  { eapply Forall_impl; [exact Hy|]. intros c Hx. unfold stamp_char. by rewrite Hx. }
  assert (forall c, c ∈ [chr 109; chr 100; chr 72; chr 77; chr 83] ->
    zlen (conversion c t) = 2 /\ Forall (fun c => stamp_char c = true) (conversion c t)) as Htwo.
  { intros c Hin. destruct (two_digits t c Ht Hin) as (a & b & -> & Ha & Hb). split; [done|].
    unfold stamp_char. repeat constructor; [by rewrite Ha|by rewrite Hb]. }
  pose proof (Htwo (chr 109) ltac:(set_solver)) as []. pose proof (Htwo (chr 100) ltac:(set_solver)) as [].
  pose proof (Htwo (chr 72) ltac:(set_solver)) as []. pose proof (Htwo (chr 77) ltac:(set_solver)) as [].
  pose proof (Htwo (chr 83) ltac:(set_solver)) as []. unfold stamp.
  split; [rewrite !zlen_app; lia|]. by repeat (apply Forall_app; split).
Qed.

(** In the years 1000 to 9999, stamps of different times differ. *)
Lemma dec2_inj a b : 0 <= a < 100 -> 0 <= b < 100 -> dec2 a = dec2 b -> a = b.
Proof.
  assert (forall n, 0 <= n < 100 -> digits_val (dec2 n) = n) as Hv.
  { intros n Hn. unfold dec2. destruct (n <? 10) eqn:E; bool_hyps; [|apply dec_value; lia].
    pose proof (dec_value n ltac:(lia)) as Hd. unfold digits_val in *. rewrite fold_left_app. cbn. exact Hd. }
  intros Ha Hb E. by rewrite <- (Hv a), <- (Hv b), E.
Qed.

Lemma dec_four n : 1000 <= n <= 9999 -> length (dec n) = 4%nat.
Proof.
  intros Hn. assert (length (dec n) <= 4)%nat as H1.
  { apply dec_fuel_length. change (10 ^ Z.of_nat 4) with 10000. lia. }
  assert (4 <= length (dec n))%nat as H2; [|lia].
  destruct (decide (4 <= length (dec n))%nat) as [|Hs]; [done|]. exfalso.
  pose proof (dec_value n ltac:(lia)) as Hv. pose proof (dec_digits n ltac:(lia)) as Hd.
  assert (forall c, isdigit c = true -> 0 <= digit_val c <= 9) as Hc.
  { intros c. unfold isdigit, digit_val. intros H. bool_hyps. lia. }
  destruct (dec n) as [|a [|b [|c [|]]]]; cbn in Hv, Hs; try lia.
  - inversion_clear Hd as [|? ? Ha]. apply Hc in Ha. lia.
  - inversion_clear Hd as [|? ? Ha Hd']. inversion_clear Hd' as [|? ? Hb]. apply Hc in Ha, Hb. lia.
  - inversion_clear Hd as [|? ? Ha Hd']. inversion_clear Hd' as [|? ? Hb Hd'']. inversion_clear Hd'' as [|? ? Hx].
    apply Hc in Ha, Hb, Hx. lia.
Qed.

Definition plain_year (t : tm) : Prop := 1000 <= tm_year t + 1900 <= 9999.

Lemma stamp_inj dash gap colon t1 t2 :
  tm_ok t1 -> tm_ok t2 -> plain_year t1 -> plain_year t2 ->
  stamp dash gap colon t1 = stamp dash gap colon t2 -> t1 = t2.
Proof.
  intros H1 H2 Y1 Y2. unfold stamp.
  assert (forall t, plain_year t -> conversion (chr 89) t = dec (tm_year t + 1900)) as Hy.
  { intros t Ht. unfold conversion, plain_year in *. rewrite ceq_refl. cbv zeta.
    destruct (_ <? 0) eqn:E; [bool_hyps; lia|done]. }
  assert (forall c, c ∈ [chr 109; chr 100; chr 72; chr 77; chr 83] ->
    length (conversion c t1) = length (conversion c t2)) as Hl.
  { intros c Hc. destruct (two_digits t1 c H1 Hc) as (? & ? & -> & _), (two_digits t2 c H2 Hc) as (? & ? & -> & _). done. }
  rewrite !Hy by done. intros E.
  apply app_inj_1 in E as [Ey E]; [|by rewrite !dec_four]. apply app_inv_head in E.
  apply app_inj_1 in E as [Em E]; [|apply Hl; set_solver]. apply app_inv_head in E.
  apply app_inj_1 in E as [Ed E]; [|apply Hl; set_solver]. apply app_inv_head in E.
  apply app_inj_1 in E as [Eh E]; [|apply Hl; set_solver]. apply app_inv_head in E.
  apply app_inj_1 in E as [Ei Es]; [|apply Hl; set_solver]. apply app_inv_head in Es.
  apply dec_inj in Ey; [|unfold plain_year in *; lia..].
  destruct t1, t2, H1, H2. unfold conversion in *. cbn in *.
  apply dec2_inj in Em; [|lia..]. apply dec2_inj in Ed, Eh, Ei, Es; [|lia..]. f_equal; lia.
Qed.

(** What [localtime_r] documents of its fields. *)
Class LocalTimeLaws `{LocalTime} : Prop :=
  localtime_ok : forall value t, localtime_r value = Some t -> tm_ok t.

Section Fit.
Context `{LocalTimeLaws}.

Lemma syseba_localtime_ok value : tm_ok (syseba_localtime value).
Proof.
  unfold syseba_localtime. destruct (localtime_r value) as [t|] eqn:E; [by eapply localtime_ok|].
  by constructor; cbn.
Qed.

Lemma separators : separator (c!"-") /\ separator (c!" ") /\ separator (c!":") /\ separator (c!"T") /\ separator [].
Proof. split_and!; (split; [by vm_compute|by repeat constructor]). Qed.

(** The buffers of 32 bytes cut nothing off. *)
Lemma stamps_whole now :
  truncate 32 (timestamp_now now) = timestamp_now now /\ truncate 32 (iso_now now) = iso_now now /\
  truncate 32 (iso_from_time now) = iso_from_time now /\ truncate 32 (local_stamp now) = local_stamp now.
Proof.
  pose proof separators as (Hd & Hg & Hc & Ht & Hn). pose proof (syseba_localtime_ok now) as Hok.
  destruct (formats (syseba_localtime now)) as (E1 & E2 & E3).
  assert (forall s, zlen s < 32 -> truncate 32 s = s) as Hw by (intros s Hs; apply truncate_fits; by apply Z.ltb_lt).
  change (timestamp_now now) with (syseba_timestamp_now now). change (iso_now now) with (syseba_iso_from_time now).
  change (iso_from_time now) with (syseba_iso_from_time now). change (local_stamp now) with (compact_stamp now).
  unfold syseba_timestamp_now, syseba_iso_from_time, compact_stamp. rewrite E1, E2, E3.
  split_and!; apply Hw; by apply stamp_fits.
Qed.

(** A stamp in a file name keeps it one name. *)
Lemma stamp_in_name now : SLASH ∉ local_stamp now /\ NUL ∉ local_stamp now.
Proof.
  pose proof separators as (Hd & _ & _ & _ & Hn).
  assert (Forall (fun c => stamp_char c = true) (local_stamp now)) as Hs.
  { change (local_stamp now) with (compact_stamp now). unfold compact_stamp.
    destruct (formats (syseba_localtime now)) as (_ & _ & ->). apply stamp_fits; [apply syseba_localtime_ok|done..]. }
  rewrite Forall_forall in Hs. split; intros Hin; by apply Hs in Hin.
Qed.
End Fit.

(** ** The monotonic clock *)

(** [clock_gettime] gives seconds and nanoseconds, or fails. *)
Definition syseba_monotonic_ns (clock_gettime : option (Z * Z)) : Z :=
  match clock_gettime with
  | None => 0
  | Some (tv_sec, tv_nsec) => wrap64 (wrap64 (wrap64 tv_sec * 1000000000) + wrap64 tv_nsec)
  end.

(** It is exact for 584 years. *)
Lemma monotonic_exact sec nsec :
  0 <= sec -> 0 <= nsec < 1000000000 -> sec * 1000000000 + nsec <= U64_MAX ->
  syseba_monotonic_ns (Some (sec, nsec)) = sec * 1000000000 + nsec.
Proof.
  intros Hs Hn Hm. cbn [syseba_monotonic_ns]. unfold U64_MAX in *.
  rewrite (wrap64_small sec), (wrap64_small nsec), (wrap64_small (sec * _)), wrap64_small by (unfold U64_MAX; lia). done.
Qed.

(** ** Sleeping *)

(** What [nanosleep] answers: it slept as long as was asked, or was interrupted with the
    rest of the time, or refused the request. *)
Inductive sleep_answer : Type :=
  | Slept
  | SleepInterrupted (tv_sec tv_nsec : Z)
  | SleepRefused (e : errno).

Definition nanoseconds (request : Z * Z) : Z := fst request * 1000000000 + snd request.

(** A call of [nanosleep] moves the monotonic clock by the time that it slept. *)
Definition nanosleep (answer : sleep_answer) (request : Z * Z) : ST os bool :=
  match answer with
  | Slept => modify (fun s => with_mono (os_mono s + nanoseconds request) s) ;;; ret true
  | SleepInterrupted sec nsec =>
      modify (fun s => with_mono (os_mono s + (nanoseconds request - nanoseconds (sec, nsec))) s) ;;;
      set_errno EINTR ;;; ret false
  | SleepRefused e => set_errno e ;;; ret false
  end.

(** [while (nanosleep(&requested, &requested) != 0 && errno == EINTR)]: the answers before
    the last; the last is [Slept]. *)
Fixpoint sleep_loop (answers : list sleep_answer) (requested : Z * Z) : ST os unit :=
  match answers with
  | [] => nanosleep Slept requested ;;; ret tt
  | answer :: answers' =>
      let* slept := nanosleep answer requested in
      if slept then ret tt
      else
        let* e := get_errno in
        if bool_decide (e = EINTR) then
          sleep_loop answers'
            (match answer with SleepInterrupted sec nsec => (sec, nsec) | _ => requested end)
        else ret tt
  end.

Definition syseba_sleep_ms (answers : list sleep_answer) (milliseconds : Z) : ST os unit :=
  sleep_loop answers (milliseconds / 1000, milliseconds mod 1000 * 1000000).

(** Whatever signals interrupt it, a sleep takes the time that was asked for: the host's
    [sys_sleep_ms], up to [errno]. *)
Lemma sleep_loop_total answers request s :
  Forall (fun answer => match answer with SleepRefused _ => False | _ => True end) answers ->
  exists e, exec (sleep_loop answers request) s = with_errno e (with_mono (os_mono s + nanoseconds request) s).
Proof.
  intros Ha. revert request s.
  assert (forall request s, exists e, exec (nanosleep Slept request ;;; ret tt) s
            = with_errno e (with_mono (os_mono s + nanoseconds request) s)) as Hlast.
  { intros request s. exists (os_errno s). by destruct s. }
  induction Ha as [|[|sec nsec|e] answers Hx _ IH]; intros request s; cbn [sleep_loop]; [apply Hlast| |  |done].
  - rewrite exec_bind. change (value (nanosleep Slept request) s) with true. cbv iota.
    destruct (Hlast request s) as [e E]. exists e. rewrite <- E, exec_bind. done.
  - rewrite exec_bind. change (value (nanosleep (SleepInterrupted sec nsec) request) s) with false. cbv iota.
    set (s1 := exec (nanosleep (SleepInterrupted sec nsec) request) s).
    rewrite exec_bind. change (value get_errno s1) with EINTR. change (exec get_errno s1) with s1.
    rewrite bool_decide_true by done. destruct (IH (sec, nsec) s1) as [e ->]. exists e.
    change (os_mono s1) with (os_mono s + (nanoseconds request - nanoseconds (sec, nsec))).
    rewrite <- Z.add_assoc, Z.sub_add. by destruct s.
Qed.

Lemma sleep_takes_its_time answers ms s :
  0 <= ms -> Forall (fun answer => match answer with SleepRefused _ => False | _ => True end) answers ->
  exists e, exec (syseba_sleep_ms answers ms) s = with_errno e (exec (sys_sleep_ms ms) s).
Proof.
  intros Hms Ha. destruct (sleep_loop_total answers (ms / 1000, ms mod 1000 * 1000000) s Ha) as [e E].
  exists e. unfold syseba_sleep_ms. rewrite E. unfold sys_sleep_ms, exec, modify. cbn [snd]. do 2 f_equal.
  unfold nanoseconds. cbn [fst snd]. pose proof (Z.div_mod ms 1000). lia.
Qed.

(** ** Timed waits *)

Definition ETIMEDOUT : Z := 110.

(** The result of a timed wait; [wait] is what [pthread_cond_timedwait] answers for a
    deadline. *)
Definition syseba_cond_timedwait (clock_gettime : option (Z * Z)) (wait : Z * Z -> Z) (timeout_ms : Z) : Z :=
  match clock_gettime with
  | None => -1
  | Some (tv_sec, tv_nsec) =>
      let result := wait (timedwait_deadline tv_sec tv_nsec timeout_ms) in
      if result =? 0 then 0 else if result =? ETIMEDOUT then 1 else -1
  end.

(** ** Processes and the terminal *)

(** [kill] answers with no error or one. *)
Definition syseba_process_exists (pid : Z) (kill : Z -> option errno) : bool :=
  if pid <=? 0 then false
  else match kill pid with None => true | Some e => bool_decide (e = EPERM) end.

(** [ioctl] answers with the columns and rows, or fails. *)
Definition syseba_terminal_width (winsize : option (Z * Z)) : Z :=
  match winsize with
  | Some (ws_col, _) => if 0 <? ws_col then ws_col else 100
  | None => 100
  end.
Definition syseba_terminal_height (winsize : option (Z * Z)) : Z :=
  match winsize with
  | Some (_, ws_row) => if 0 <? ws_row then ws_row else 30
  | None => 30
  end.

Definition syseba_last_error_string `{Strerror} (e : errno) (size : Z) : cstr := truncate size (strerror e).

(** ** An example: a host in UTC *)

(** The civil date of a number of days since 1970-01-01, in 400-year eras from 1 March. *)
Definition utc_tm (value : Z) : tm :=
  let days := value / 86400 in
  let seconds := value mod 86400 in
  let z := days + 719468 in
  let era := z / 146097 in
  let doe := z mod 146097 in
  let yoe := (doe - doe / 1460 + doe / 36524 - doe / 146096) / 365 in
  let doy := doe - (365 * yoe + yoe / 4 - yoe / 100) in
  let mp := (5 * doy + 2) / 153 in
  let month := if mp <? 10 then mp + 3 else mp - 9 in
  let year := yoe + era * 400 + (if month <=? 2 then 1 else 0) in
  Tm (year - 1900) (month - 1) (doy - (153 * mp + 2) / 5 + 1)
     (seconds / 3600) (seconds / 60 mod 60) (seconds mod 60).

Definition tm_ok_b (t : tm) : bool :=
  (- 2 ^ 31 <=? tm_year t) && (tm_year t <? 2 ^ 31) && (0 <=? tm_mon t) && (tm_mon t <? 12)
  && (0 <=? tm_mday t) && (tm_mday t <? 32) && (0 <=? tm_hour t) && (tm_hour t <? 24)
  && (0 <=? tm_min t) && (tm_min t <? 60) && (0 <=? tm_sec t) && (tm_sec t <? 61).

Definition utc : LocalTime := fun value => let t := utc_tm value in if tm_ok_b t then Some t else None.

Lemma utc_laws : @LocalTimeLaws utc.
Proof.
  intros value t. unfold localtime_r, utc. cbv zeta. destruct (tm_ok_b _) eqn:E; [|done]. intros [= <-].
  unfold tm_ok_b in E. bool_hyps. by constructor.
Qed.

Example utc_stamps :
  @timestamp_now (@clock_of_localtime utc) 1704164645 = c!"2024-01-02 03:04:05" /\
  @iso_from_time (@iso_of_localtime utc) 951782400 = c!"2000-02-29T00:00:00" /\
  @local_stamp (@stamp_of_localtime utc) (-1) = c!"19691231-235959".
Proof. split_and!; vm_compute; reflexivity. Qed.
