(* ===== verification/App.v ===== *)
(** * The application (src/src/app.c)

    The queue of file events, what a worker does with one, the initial
    synchronization, the lock, and the start and stop of the service. *)

From S2P Require Import Prelude CString Paths Os Platform Fs Config FsTree Restore Queue AppState Log.

Section App.
Context `{DirOrder} `{LocalStamp} `{Strerror} `{Clock}.
Context `{!Allocator syseba_event_t} `{!Allocator syseba_log_record_t}.
(** The bytes past a path's end that [syseba_relative_path] may read. *)
Context (unknown : cstr).

(** ** Comparing two files *)

Definition syseba_files_need_copy (source destination : cstr) : ST os bool :=
  let* s := syseba_fs_stat source in
  match s with
  | None => ret false
  | Some s =>
      let* d := syseba_fs_stat destination in
      match d with
      | None => ret true
      | Some d =>
          ret (negb (Bool.eqb (st_directory s) (st_directory d))
               || negb (st_size s =? st_size d) || negb (st_mtime_ns s =? st_mtime_ns d))
      end
  end.

(** ** The queue of events *)

Definition syseba_app_enqueue_internal (allocated : bool) (kind : syseba_event_kind_t)
    (path : cstr) (is_directory initial_sync : bool) : ST syseba_app_t syseba_result_t :=
  let* stopping := syseba_app_is_stopping in
  let* config := gets app_config in
  let* outside :=
    (if stopping then ret true
     else let* within := zoom (syseba_path_is_within (cfg_source config) path) in
          ret (negb within)) in
  if outside then ret SYSEBA_ERR_INVALID
  else if negb allocated then ret SYSEBA_ERR
  else
    let* observed_ns := zoom sys_monotonic in
    if negb (fits SYSEBA_PATH_MAX path) then ret SYSEBA_ERR_INVALID
    else
      let event := Event kind path is_directory initial_sync observed_ns in
      syseba_stats_increment QUEUED_EVENTS ;;;
      (let* pushed := zoom (syseba_queue_push alloc_node event) in
       ret (if pushed then SYSEBA_OK else SYSEBA_ERR)).

Definition syseba_app_enqueue (allocated : bool) (kind : syseba_event_kind_t) (path : cstr)
    (is_directory : bool) : ST syseba_app_t syseba_result_t :=
  syseba_app_enqueue_internal allocated kind path is_directory false.

Definition syseba_app_enqueue_initial (allocated : bool) (kind : syseba_event_kind_t)
    (path : cstr) (is_directory : bool) : ST syseba_app_t syseba_result_t :=
  syseba_app_enqueue_internal allocated kind path is_directory true.

(** ** Processing an event *)

Definition syseba_initial_progress (copied skipped : bool) : ST syseba_app_t unit :=
  syseba_stats_increment INITIAL_DONE ;;;
  (if copied then syseba_stats_increment INITIAL_COPIED else ret tt) ;;;
  (if skipped then syseba_stats_increment INITIAL_SKIPPED else ret tt).

(** [format: a -> b] *)
Definition arrow_message (title a b : cstr) : cstr := title ++ (c!": ") ++ a ++ (c!" -> ") ++ b.

(** What the handler has done when it reaches [completed]. *)
Record outcome := Outcome {
  oc_result : syseba_result_t;
  oc_copied : bool;
  oc_skipped : bool;
}.

Definition skip_event : ST syseba_app_t outcome :=
  syseba_stats_increment SKIPPED ;;; ret (Outcome SYSEBA_OK false true).

Definition process_directory (event : syseba_event_t) (backup : cstr) :
    ST syseba_app_t outcome :=
  let* made := zoom (syseba_mkdirs backup 488) in
  if negb made then ret (Outcome SYSEBA_ERR false false)
  else
    (if negb (ev_initial_sync event) then
       let* language := gets language_of in
       syseba_log_emit (c!"INFO") (c!"MKDIR") (ev_path event) backup []
         (syseba_tr language (c!"Directory creata") (c!"Directory created")
            ++ (c!": ") ++ backup)
     else ret tt) ;;;
    ret (Outcome SYSEBA_OK false false).

Definition process_file (event : syseba_event_t) (backup : cstr) : ST syseba_app_t outcome :=
  let* regular := zoom (syseba_fs_is_regular (ev_path event)) in
  if negb regular then skip_event
  else
    (if bool_decide (ev_kind event = SYSEBA_EVENT_MODIFY)
     then zoom (sys_sleep_ms 150) else ret tt) ;;;
    (let* needed := zoom (syseba_files_need_copy (ev_path event) backup) in
     if negb needed then skip_event
     else
       let* done_ := zoom (syseba_copy_file (ev_path event) backup 4) in
       if negb done_ then
         let* e := zoom get_errno in
         ret (Outcome (if bool_decide (e = ENOENT) then SYSEBA_ERR_NOT_FOUND else SYSEBA_ERR)
                      false false)
       else
         let create := bool_decide (ev_kind event = SYSEBA_EVENT_CREATE) in
         syseba_stats_increment (if create then COPIED else UPDATED) ;;;
         (let* language := gets language_of in
          syseba_log_emit (c!"INFO") (if create then c!"CREATE" else c!"MODIFY")
            (ev_path event) backup []
            (arrow_message
               (if create then syseba_tr language (c!"Creato") (c!"Created")
                else syseba_tr language (c!"Modificato") (c!"Modified"))
               (ev_path event) backup)) ;;;
         ret (Outcome SYSEBA_OK true false)).

Definition process_delete (event : syseba_event_t) (backup restore : cstr) :
    ST syseba_app_t outcome :=
  let* present := zoom (syseba_fs_exists backup) in
  if negb present then ret (Outcome SYSEBA_OK false false)
  else
    let* destination := zoom (syseba_unique_restore_path restore SYSEBA_PATH_MAX) in
    match destination with
    | None => ret (Outcome SYSEBA_ERR false false)
    | Some destination =>
        let* moved := zoom (syseba_move_path unknown backup destination) in
        if negb moved then ret (Outcome SYSEBA_ERR false false)
        else
          syseba_stats_increment DELETED ;;;
          (let* language := gets language_of in
           syseba_log_emit (c!"INFO") (c!"DELETE") backup destination []
             (syseba_tr language
                (c!"Eliminato dalla sorgente; backup spostato nel restore")
                (c!"Deleted from source; backup moved to restore")
              ++ (c!": ") ++ destination)) ;;;
          ret (Outcome SYSEBA_OK false false)
    end.

(** The paths of an event in the backup and in the restore area. *)
Definition event_paths (config : syseba_config_t) (path : cstr) : ST os (option (cstr * cstr)) :=
  let* relative := syseba_relative_path (cfg_source config) path SYSEBA_PATH_MAX in
  match relative_text unknown relative with None => ret None | Some relative =>
  let* backup := syseba_safe_join (cfg_backup config) (Some relative) SYSEBA_PATH_MAX in
  match backup with None => ret None | Some backup =>
  let* restore := syseba_safe_join (cfg_restore config) (Some relative) SYSEBA_PATH_MAX in
  match restore with None => ret None | Some restore => ret (Some (backup, restore))
  end end end.

Definition syseba_app_process_event (event : syseba_event_t) : ST syseba_app_t syseba_result_t :=
  let* config := gets app_config in
  let* paths := zoom (event_paths config (ev_path event)) in
  match paths with
  | None => ret SYSEBA_ERR_INVALID
  | Some (backup, restore) =>
      let* o :=
        (match ev_kind event with
         | SYSEBA_EVENT_DELETE => process_delete event backup restore
         | _ => if ev_is_directory event then process_directory event backup
                else process_file event backup
         end) in
      (if ev_initial_sync event && negb (ev_is_directory event)
       then syseba_initial_progress (oc_copied o) (oc_skipped o) else ret tt) ;;;
      ret (oc_result o)
  end.

(** ** The workers *)

(** The body of [syseba_worker_main] on an event that was popped. *)
Definition worker_turn (event : syseba_event_t) : ST syseba_app_t unit :=
  let* result := syseba_app_process_event event in
  (if bool_decide (result <> SYSEBA_OK)
      && negb (bool_decide (result = SYSEBA_ERR_NOT_FOUND)
               && bool_decide (ev_kind event <> SYSEBA_EVENT_DELETE))
   then
     let* e := zoom get_errno in
     let* language := gets language_of in
     syseba_log_emit (c!"ERROR") (c!"ERROR") (ev_path event) [] (strerror e)
       (syseba_tr language (c!"Errore durante l'operazione su") (c!"Error processing")
          ++ (c!" ") ++ ev_path event ++ (c!": ") ++ strerror e)
   else ret tt) ;;;
  zoom (L := lens_event_queue) syseba_queue_task_done.

(** The workers share the application: a step pops an event, or finishes the one
    that a worker holds. *)
Inductive worker_step : list syseba_event_t * syseba_app_t ->
    list syseba_event_t * syseba_app_t -> Prop :=
  | worker_pops held a event q :
      syseba_queue_pop (app_event_queue a) = (PopReturn (Some event), q) ->
      worker_step (held, a) (held ++ [event], with_event_queue q a)
  | worker_finishes before event after a :
      worker_step (before ++ event :: after, a) (before ++ after, exec (worker_turn event) a).

(** One worker alone: it finishes every event before it pops the next. *)
Fixpoint one_worker (fuel : nat) (a : syseba_app_t) : syseba_app_t :=
  match fuel with
  | O => a
  | S fuel' =>
      match syseba_queue_pop (app_event_queue a) with
      | (PopReturn (Some event), q) =>
          one_worker fuel' (exec (worker_turn event) (with_event_queue q a))
      | _ => a
      end
  end.

(** ** The initial synchronization *)

Record sync_context := SyncContext {
  sc_files : Z;
  sc_errors : Z;
}.

#[local] Instance lens_sync : Lens (sync_context * syseba_app_t) syseba_app_t.
Proof. refine {| lget := snd; lset t s := (fst s, t) |}; [done|by intros []|done]. Defined.
#[local] Instance lens_sync_os : Lens (sync_context * syseba_app_t) os.
Proof.
  refine {| lget s := app_os (snd s); lset t s := (fst s, with_os t (snd s)) |};
    [done|by intros [? []]|done].
Defined.

Definition count_file : ST (sync_context * syseba_app_t) unit :=
  modify (fun '(c, a) => (SyncContext (wrap64 (sc_files c + 1)) (sc_errors c), a)).
Definition count_error : ST (sync_context * syseba_app_t) unit :=
  modify (fun '(c, a) => (SyncContext (sc_files c) (sc_errors c + 1), a)).

Definition syseba_sync_walk (enqueue : bool) (path : cstr) (directory : bool) :
    ST (sync_context * syseba_app_t) bool :=
  let* stopping := zoom (L := lens_sync) syseba_app_is_stopping in
  if stopping then ret false
  else
    (if directory then ret tt else count_file) ;;;
    (if enqueue then
       let* result :=
         zoom (L := lens_sync) (syseba_app_enqueue_initial true SYSEBA_EVENT_CREATE path directory) in
       if bool_decide (result = SYSEBA_OK) then ret tt else count_error
     else ret tt) ;;;
    ret true.

Definition with_running_sync (running : bool) (total : option Z) (s : syseba_stats_t) :
    syseba_stats_t :=
  Stats (queued_events s) (copied s) (updated s) (deleted s) (restored s) (skipped s) (errors s)
        (default (initial_total s) total) (initial_done s) (initial_copied s) (initial_skipped s)
        running.
Definition stats_begin_sync (s : syseba_stats_t) : syseba_stats_t :=
  Stats (queued_events s) (copied s) (updated s) (deleted s) (restored s) (skipped s) (errors s)
        0 0 0 0 true.

(** The end of the synchronization: its state and the error text. *)
Definition finish_sync (stopping : bool) (error_count : Z) (s : initial_status) (now : cstr) :
    initial_status :=
  if stopping then InitialStatus (c!"stopped") (is_started_at s) now (is_error s)
  else if 0 <? error_count then
    InitialStatus (c!"completed_with_errors") (is_started_at s) now
      (dec error_count ++ c!" scan/enqueue errors")
  else InitialStatus (c!"completed") (is_started_at s) now (is_error s).

(** [workers] is what the workers do while the synchronization waits for the queue
    to become empty. *)
Definition syseba_app_initial_sync (workers : syseba_app_t -> syseba_app_t) :
    ST syseba_app_t syseba_result_t :=
  fun a0 =>
    if initial_running (app_stats a0) then (SYSEBA_ERR_BUSY, a0)
    else
      let now a := truncate 32 (iso_now (os_time (app_os a))) in
      let a1 := with_initial (InitialStatus (c!"running") (now a0) [] [])
                  (with_stats (stats_begin_sync (app_stats a0)) a0) in
      let source := cfg_source (app_config a1) in
      let walk enqueue c a := syseba_walk_files (syseba_sync_walk enqueue) source (c, a) in
      let '(ok, (c2, a2)) := walk false (SyncContext 0 0) a1 in
      let failed := negb ok && negb (app_stop_requested a2) in
      let c2 := if failed then SyncContext (sc_files c2) (sc_errors c2 + 1) else c2 in
      let a2 := with_stats (with_running_sync true (Some (sc_files c2)) (app_stats a2)) a2 in
      let a3 := exec (syseba_log_emit (c!"INFO") (c!"SYNC") source (cfg_backup (app_config a2)) []
                        (syseba_tr (language_of a2)
                           (c!"Sincronizzazione iniziale avviata; file trovati")
                           (c!"Initial synchronization started; files found")
                         ++ (c!": ") ++ dec (sc_files c2))) a2 in
      let '(c4, a4) :=
        (if app_stop_requested a3 then (SyncContext 0 (sc_errors c2), a3)
         else
           let '(ok, (c, a)) := walk true (SyncContext 0 (sc_errors c2)) a3 in
           ((if ok then c else SyncContext (sc_files c) (sc_errors c + 1)), a)) in
      let a5 := workers a4 in
      let a6 := with_initial (finish_sync (app_stop_requested a5) (sc_errors c4) (app_initial a5)
                                (now a5))
                  (with_stats (with_running_sync false None (app_stats a5)) a5) in
      let a7 := exec (syseba_log_emit (if 0 <? sc_errors c4 then c!"WARNING" else c!"INFO")
                        (c!"SYNC") source (cfg_backup (app_config a6))
                        (if 0 <? sc_errors c4 then is_error (app_initial a6) else [])
                        (syseba_tr (language_of a6) (c!"Sincronizzazione iniziale completata")
                           (c!"Initial synchronization completed"))) a6 in
      (if sc_errors c4 =? 0 then SYSEBA_OK else SYSEBA_ERR, a7).

(** ** The runtime paths and the lock *)

Fixpoint make_parents (files : list cstr) : ST os (option failure) :=
  match files with
  | [] => ret None
  | file :: rest =>
      let* made :=
        (match syseba_parent_dir file SYSEBA_PATH_MAX with
         | None => ret false
         | Some parent => syseba_mkdirs parent 488
         end) in
      if made then make_parents rest
      else
        let* e := get_errno in
        ret (Some (SYSEBA_ERR, (c!"Unable to create runtime directory for ") ++ file
                                 ++ (c!": ") ++ strerror e))
  end.

Definition syseba_prepare_runtime_paths (a : syseba_app_t) : ST os (option failure) :=
  let config := app_config a in
  let* made :=
    (let* backup := syseba_mkdirs (cfg_backup config) 488 in
     if backup then syseba_mkdirs (cfg_restore config) 488 else ret false) in
  if negb made then
    let* e := get_errno in
    ret (Some (SYSEBA_ERR, (c!"Unable to create backup/restore directory: ") ++ strerror e))
  else make_parents [cfg_log_file config; ao_db_path (app_options_ a); ao_lock_path (app_options_ a)].

(** The lock of [syseba_app_acquire_lock]; closing the descriptor gives it up. *)
Definition lock_file_of (lock_path : cstr) : ST os (failure + ppath) :=
  let* descriptor := sys_open_creat lock_path 416 in
  match descriptor with
  | None =>
      let* e := get_errno in
      ret (inl (SYSEBA_ERR_PERMISSION,
                (c!"Unable to open lock ") ++ lock_path ++ (c!": ") ++ strerror e))
  | Some k =>
      let* lock_stat := sys_fstat k in
      if negb match lock_stat with Some n => is_reg n | None => false end then
        ret (inl (SYSEBA_ERR_PERMISSION, (c!"Lock path is not a regular file: ") ++ lock_path))
      else
        let* locked := sys_flock k in
        if negb locked then
          let* pid := sys_read k 0 63 in
          let pid := default [] pid in
          ret (inl (SYSEBA_ERR_BUSY, (c!"SySeBa is already running")
                      ++ (if nonempty pid then (c!" with PID ") ++ until_nul pid else [])))
        else
          let* truncated := sys_ftruncate k in
          if negb truncated then sys_unlock k ;;; ret (inl (SYSEBA_ERR, []))
          else
            let* opened := sys_sync in
            if negb opened then sys_unlock k ;;; ret (inl (SYSEBA_ERR, []))
            else
              let* pid := sys_getpid in
              let* written := write_all (S (length (dec (wrap64 pid)) + 1)) k 0
                                (dec (wrap64 pid) ++ [NEWLINE]) in
              let* flushed := (if written then sys_sync else ret false) in
              if flushed then ret (inr k)
              else sys_unlock k ;;; ret (inl (SYSEBA_ERR, []))
  end.

Definition syseba_app_acquire_lock : ST syseba_app_t (option failure) :=
  let* lock_path := gets (fun a => ao_lock_path (app_options_ a)) in
  let* result := zoom (lock_file_of lock_path) in
  match result with
  | inl e => ret (Some e)
  | inr k => modify (with_lock_file (Some k)) ;;; ret None
  end.

Definition syseba_app_release_lock : ST syseba_app_t unit :=
  let* lock_file := gets app_lock_file in
  match lock_file with
  | None => ret tt
  | Some k => zoom (sys_unlock k) ;;; modify (with_lock_file None)
  end.

(** ** Initialization *)

Definition options_settings (options : syseba_options_t) : app_options :=
  AppOptions (op_language options) (op_lock_path options) (op_db_path options)
    (op_web_host options) (op_web_port options) (op_web options || op_web_only options)
    (op_web_only options) (op_no_initial_sync options) (op_silent options).

Definition syseba_app_init (config : syseba_config_t) (options : syseba_options_t) (host : os) :
    syseba_app_t :=
  let settings := options_settings options in
  App config settings stats_zero
    (InitialStatus
       (if ao_web_only settings then c!"not_available"
        else if ao_no_initial_sync settings then c!"skipped" else c!"pending") [] [] [])
    (Recent (replicate (Z.to_nat SYSEBA_RECENT_LOGS) None) 0 0) []
    syseba_queue_init syseba_queue_init (Threads None false false false false)
    false false 0 [] (WebState [] [] false false) None [] host.

(** ** Start and stop *)

(** What the services that the application starts answer: the error of the
    database, whether the log thread starts, whether the array of the workers is
    allocated and how many of them start, whether the watcher and the thread of the
    initial synchronization start, and the error of the web server. *)
Record start_answers := StartAnswers {
  sa_database : option cstr;
  sa_log_thread : bool;
  sa_pool : bool;
  sa_workers : Z;
  sa_watcher : bool;
  sa_initial_thread : bool;
  sa_web : option cstr;
}.

Definition set_threads (f : threads -> threads) : ST syseba_app_t unit :=
  modify (fun a => with_threads (f (app_threads a)) a).

(** [syseba_app_stop]: [drain] is what the workers do to the queue until it is
    empty or the wait times out, [drain_log] the same for the log writer. *)
Definition syseba_app_stop (drain : syseba_app_t -> syseba_app_t)
    (drain_log : syseba_queue_t syseba_log_record_t -> syseba_queue_t syseba_log_record_t) :
    ST syseba_app_t unit :=
  syseba_app_set_stopping ;;;
  set_threads (fun t => Threads (th_workers t) (th_log t) false false false) ;;;
  (let* workers := gets (fun a => th_workers (app_threads a)) in
   match workers with
   | Some _ =>
       modify drain ;;;
       zoom (L := lens_event_queue) syseba_queue_close ;;;
       set_threads (fun t => Threads None (th_log t) (th_initial t) (th_watcher t) (th_web t))
   | None => ret tt
   end) ;;;
  (let* logging := gets (fun a => th_log (app_threads a)) in
   if logging then
     let* language := gets language_of in
     syseba_log_emit (c!"INFO") (c!"STOP") [] [] []
       (syseba_tr language (c!"Arresto di SySeBa") (c!"SySeBa stopping")) ;;;
     syseba_log_stop drain_log
   else ret tt) ;;;
  modify (with_running false) ;;;
  syseba_app_release_lock.

(** The workers, the watcher and the thread of the initial synchronization. *)
Definition start_service (answers : start_answers) (a : syseba_app_t) :
    ST syseba_app_t (option cstr) :=
  if ao_web_only (app_options_ a) then ret None
  else if negb (sa_pool answers) then ret (Some (c!"Out of memory"))
  else
    let wanted := cfg_threads (app_config a) in
    let created := Z.min wanted (sa_workers answers) in
    set_threads (fun t =>
      Threads (Some created) (th_log t) (th_initial t) (th_watcher t) (th_web t)) ;;;
    (if created <? wanted then
       ret (Some ((c!"Unable to start worker ") ++ dec (created + 1)))
     else if negb (sa_watcher answers) then ret (Some (c!"Unable to start watcher"))
     else
       set_threads (fun t => Threads (th_workers t) (th_log t) (th_initial t) true (th_web t)) ;;;
       (if ao_no_initial_sync (app_options_ a) then ret None
        else if sa_initial_thread answers then
          set_threads (fun t => Threads (th_workers t) (th_log t) true (th_watcher t) (th_web t)) ;;;
          ret None
        else ret (Some (c!"Unable to start initial synchronization")))).

(** The web server, when it is enabled. *)
Definition start_web (answers : start_answers) (a : syseba_app_t) (failed : option cstr) :
    ST syseba_app_t (option cstr) :=
  match failed with
  | Some m => ret (Some m)
  | None =>
      if ao_web_enabled (app_options_ a) then
        match sa_web answers with
        | None =>
            set_threads (fun t =>
              Threads (th_workers t) (th_log t) (th_initial t) (th_watcher t) true) ;;;
            ret None
        | Some m => ret (Some m)
        end
      else ret None
  end.

Definition syseba_app_request_stop : ST syseba_app_t unit := syseba_app_set_stopping.

(** [syseba_app_start]: the error it reports, if any. *)
Definition syseba_app_start (answers : start_answers)
    (drain : syseba_app_t -> syseba_app_t)
    (drain_log : syseba_queue_t syseba_log_record_t -> syseba_queue_t syseba_log_record_t) :
    ST syseba_app_t (option failure) :=
  let stop := syseba_app_stop drain drain_log in
  let* a := gets id in
  let web_only := ao_web_only (app_options_ a) in
  let* prepared := zoom (syseba_prepare_runtime_paths a) in
  match prepared with Some (_, m) => ret (Some (SYSEBA_ERR, m)) | None =>
  let* locked := (if web_only then ret None else syseba_app_acquire_lock) in
  match locked with Some (_, m) => ret (Some (SYSEBA_ERR_BUSY, m)) | None =>
  let* logging :=
    (match sa_database answers with
     | None => syseba_log_start (sa_log_thread answers)
     | Some _ => ret false
     end) in
  if negb logging then
    syseba_app_release_lock ;;;
    ret (Some (SYSEBA_ERR,
               match sa_database answers with
               | None | Some [] => c!"Unable to initialize logging"
               | Some m => m
               end))
  else
    modify (fun a => with_started (wrap64 (os_mono (app_os a)))
                       (truncate 32 (iso_now (os_time (app_os a)))) a) ;;;
    modify (with_running (negb web_only)) ;;;
    (let* failed := start_service answers a in
     let* failed := start_web answers a failed in
     match failed with
     | Some m => stop ;;; ret (Some (SYSEBA_ERR, m))
     | None =>
         let* language := gets language_of in
         let* pid := zoom sys_getpid in
         syseba_log_emit (c!"INFO") (c!"START") (cfg_source (app_config a))
           (cfg_backup (app_config a)) []
           ((c!"SySeBa ") ++ syseba_tr language (c!"avviato") (c!"started") ++ (c!" (PID ")
              ++ dec (wrap64 pid) ++ (c!")")) ;;;
         ret None
     end)
  end end.

(** [syseba_format_uptime]. *)
Definition syseba_format_uptime (seconds : Z) : cstr :=
  let days := seconds / 86400 in
  let hours := seconds mod 86400 / 3600 in
  let minutes := seconds mod 3600 / 60 in
  let remaining := seconds mod 60 in
  (if 0 <? days then dec days ++ (c!"d ") else [])
    ++ dec2 hours ++ (c!":") ++ dec2 minutes ++ (c!":") ++ dec2 remaining.
End App.
