(* ===== verification/WalkFacts.v ===== *)
(** * What the walk visits

    On a quiet host the recursive walk calls its callback once for every file and
    directory under its root, and for nothing else. *)

From S2P Require Import Prelude CString Paths Os OsFacts Platform Fs FsFacts CopyFacts Config ConfigFacts ConfigText FsTree FsTreeFacts PlainFacts.

(** ** The entries of a directory *)

Lemma strip_prefix_app d r : strip_prefix d (d ++ r) = Some r.
Proof. induction d as [|x d IH]; [done|]. simpl. by rewrite streq_refl. Qed.

Lemma strip_prefix_Some d k r : strip_prefix d k = Some r -> k = d ++ r.
Proof.
  revert k. induction d as [|x d IH]; intros k H; simpl in H; [by injection H as ->|].
  destruct k as [|y k]; [done|]. destruct (streq x y) eqn:E; [|done].
  apply streq_true in E as ->. by rewrite (IH _ H).
Qed.

Lemma elem_of_children fs d c : c ∈ children fs d <-> is_Some (fs !! (d ++ [c])).
Proof.
  unfold children. rewrite list_elem_of_omap. split.
  - intros ([k n] & Hin & Hs). apply elem_of_map_to_list in Hin. cbn [fst] in Hs.
    destruct (strip_prefix d k) as [[|y [|]]|] eqn:E; try done. injection Hs as ->.
    apply strip_prefix_Some in E as ->. eauto.
  - intros [n Hn]. exists (d ++ [c], n). rewrite elem_of_map_to_list. cbn [fst].
    by rewrite strip_prefix_app.
Qed.

Lemma NoDup_omap {A B} (f : A -> option B) (l : list A) :
  (forall a a' b, f a = Some b -> f a' = Some b -> a = a') -> NoDup l -> NoDup (omap f l).
Proof.
  intros Hf. induction 1 as [|a l Ha Hl IH]; simpl; [constructor|].
  destruct (f a) as [b|] eqn:E; [|done]. apply NoDup_cons. split; [|done].
  rewrite list_elem_of_omap. intros (a' & Hin & E'). by rewrite (Hf _ _ _ E E') in Ha.
Qed.

Lemma omap_fst {A B C} (g : A -> option C) (l : list (A * B)) :
  omap (fun x => g (fst x)) l = omap g (fst <$> l).
Proof. induction l as [|x l IH]; [done|]. cbn. destruct (g (fst x)); by rewrite IH. Qed.

Lemma NoDup_children fs d : NoDup (children fs d).
Proof.
  unfold children.
  rewrite (omap_fst (fun k => match strip_prefix d k with Some [c] => Some c | _ => None end)).
  apply NoDup_omap; [|apply NoDup_fst_map_to_list].
  intros k k' c Hk Hk'.
  destruct (strip_prefix d k) as [[|y [|]]|] eqn:E; try done. injection Hk as ->.
  destruct (strip_prefix d k') as [[|y' [|]]|] eqn:E'; try done. injection Hk' as ->.
  apply strip_prefix_Some in E, E'. congruence.
Qed.

(** ** Calls on what exists change nothing *)

Lemma lstat_present s names :
  quiet s -> Forall path_name names -> no_links (os_fs s) names -> tree_ok (os_fs s) ->
  is_Some (node_at (os_fs s) names) -> sys_lstat (render names) s = (node_at (os_fs s) names, s).
Proof. intros. unfold sys_lstat. by rewrite syscall_quiet, resolve_present. Qed.

Lemma lstat_entry s p x n :
  quiet s -> Forall path_name (p ++ [x]) -> tree_ok (os_fs s) -> os_fs s !! (p ++ [x]) = Some n ->
  sys_lstat (render (p ++ [x])) s = (Some n, s).
Proof.
  intros Hq Hn Ht Hk. unfold sys_lstat.
  rewrite syscall_quiet, resolve_chain, Hk by (done || by eapply tree_chain). by rewrite node_at_snoc, Hk.
Qed.

Lemma dir_at_chain fs p : tree_ok fs -> is_dir_at fs p = true -> dir_chain fs p.
Proof.
  intros Ht Hd. destruct p as [|x p _] using rev_ind; [apply dir_chain_nil|].
  apply dir_chain_snoc; [|done]. eapply tree_chain; [done|].
  apply is_dir_at_snoc in Hd as [m Hm]. by eexists.
Qed.

Lemma is_dir_at_some fs k : k <> [] -> is_dir_at fs k = true -> exists m, fs !! k = Some (NDir m).
Proof. intros Hk Hd. destruct k as [|x k _] using rev_ind; [done|]. by apply is_dir_at_snoc. Qed.

(** Only a directory has something under it. *)
Lemma tree_inside fs k n c r :
  tree_ok fs -> fs !! k = Some n -> k <> [] -> is_Some (fs !! (k ++ c :: r)) -> is_dir n = true.
Proof.
  intros Ht Hk Hne Hs. destruct (exists_last (l := c :: r)) as (r' & z & E); [done|].
  rewrite E, app_assoc in Hs. apply tree_chain in Hs; [|done].
  assert (is_dir_at fs k = true) as Hd by (by eapply (Hs k r')).
  unfold is_dir_at in Hd. destruct k; [done|]. by rewrite Hk in Hd.
Qed.

Lemma tree_parent fs root c c' r :
  tree_ok fs -> is_Some (fs !! (root ++ c :: c' :: r)) -> is_dir_at fs (root ++ [c]) = true.
Proof.
  intros Ht Hk. replace (root ++ c :: c' :: r) with ((root ++ [c]) ++ c' :: r) in Hk by (by rewrite <- app_assoc).
  destruct (exists_last (l := c' :: r)) as (r' & z & E); [done|].
  rewrite E, app_assoc in Hk. apply tree_chain in Hk; [|done]. by eapply (Hk _ r').
Qed.

Lemma readdir_present `{DirOrder} s names :
  quiet s -> Forall path_name names -> no_links (os_fs s) names -> tree_ok (os_fs s) ->
  is_dir_at (os_fs s) names = true ->
  sys_readdir (render names) s
    = (Some (dir_order ((c!".") :: (c!"..") :: children (os_fs s) names)), s).
Proof.
  intros Hq Hn Hl Ht Hd. unfold sys_readdir.
  by rewrite syscall_quiet, resolve_present, Hd by (done || by apply is_dir_node).
Qed.

(** ** The walk *)

(** The names under a root: proper, not links on the way, and short. *)
Record walk_ok (fs : fsmap) (root : ppath) : Prop := WalkOk {
  wo_tree : tree_ok fs;
  wo_names : names_ok fs;
  wo_root : root <> [];
  wo_dir : is_dir_at fs root = true;
  wo_links : no_links fs root;
  wo_short : forall r, is_Some (fs !! (root ++ r)) -> zlen (render (root ++ r)) < SYSEBA_PATH_MAX;
}.

Lemma walk_root fs root : walk_ok fs root ->
  Forall path_name root /\ (exists m, fs !! root = Some (NDir m)) /\ is_Some (node_at fs root) /\
  zlen (render root) < SYSEBA_PATH_MAX.
Proof.
  intros [Ht Hn Hr Hd Hl Hs].
  assert (exists m, fs !! root = Some (NDir m)) as [m Hm].
  { unfold is_dir_at in Hd. destruct root; [done|]. destruct (fs !! _) as [[]|]; by eauto. }
  split_and!; [by eapply Hn|by eexists|by apply is_dir_node|].
  rewrite <- (app_nil_r root). apply Hs. rewrite app_nil_r. by eexists.
Qed.

(** The files and directories of [D]. *)
Definition found (fs : fsmap) (D : ppath -> Prop) (kd : ppath * bool) : Prop :=
  D (fst kd) /\ exists n, fs !! fst kd = Some n /\ walkable n = true /\ is_dir n = snd kd.

(** The list names files and directories of [D], each at most once, and all of them when
    the walk has come to its end. *)
Definition visited (fs : fsmap) (b : bool) (D : ppath -> Prop) (l : list (ppath * bool)) : Prop :=
  NoDup l /\ (forall kd, kd ∈ l -> found fs D kd) /\ (b = true -> forall kd, found fs D kd -> kd ∈ l).

(** The list names the files and directories of [D], each once. *)
Definition covers (fs : fsmap) (D : ppath -> Prop) (l : list (ppath * bool)) : Prop :=
  NoDup l /\
  forall k d, (k, d) ∈ l <-> D k /\ exists n, fs !! k = Some n /\ walkable n = true /\ is_dir n = d.

Lemma visited_covers fs D l : visited fs true D l <-> covers fs D l.
Proof.
  split.
  - intros (Hn & Hl & Hc). split; [done|]. intros k d. split; [by intros ?%Hl|]. intros H. by apply Hc.
  - intros [Hn Hl]. split_and!; [done|intros [k d] Hin; by apply Hl in Hin|].
    intros _ [k d] Hf. by apply Hl.
Qed.

Lemma visited_ext fs b D D' l :
  (forall k, is_Some (fs !! k) -> D k <-> D' k) -> visited fs b D l -> visited fs b D' l.
Proof.
  intros HD (Hn & Hl & Hc).
  assert (forall kd, found fs D kd <-> found fs D' kd) as Hf.
  { intros kd. split; intros [Hk (n & Hn' & Hw)]; (split; [apply HD; [by eexists|done]|by exists n]). }
  split_and!; [done|intros kd Hin; by apply Hf, Hl|]. intros Hb kd Hk. by apply Hc, Hf.
Qed.

Lemma visited_nil fs b D :
  (b = true -> forall k n, D k -> fs !! k = Some n -> walkable n = false) -> visited fs b D [].
Proof.
  intros HD. split_and!; [constructor|by intros kd ?%not_elem_of_nil|].
  intros Hb kd [Hk (n & Hf & Hw & _)]. rewrite (HD Hb _ _ Hk Hf) in Hw. done.
Qed.

(** A walk that stops in the second part has not seen everything either. *)
Lemma visited_app fs b D1 D2 l1 l2 :
  (forall k, D1 k -> D2 k -> False) -> visited fs true D1 l1 -> visited fs b D2 l2 ->
  visited fs b (fun k => D1 k \/ D2 k) (l1 ++ l2).
Proof.
  intros Hdis (N1 & L1 & C1) (N2 & L2 & C2). split_and!.
  - apply NoDup_app. split_and!; [done| |done]. intros kd H1 H2.
    apply L1 in H1 as [H1 _]. apply L2 in H2 as [H2 _]. by eapply Hdis.
  - intros kd Hin. apply elem_of_app in Hin as [Hin|Hin]; [apply L1 in Hin|apply L2 in Hin];
      destruct Hin; by split; [auto|].
  - intros Hb kd [[Hk|Hk] Hf]; apply elem_of_app; [left; by apply C1|right; by apply C2].
Qed.

Lemma visited_stop fs D D' l :
  (forall k, D k -> D' k) -> visited fs false D l -> visited fs false D' l.
Proof.
  intros HD (Hn & Hl & _). split_and!; [done| |done]. intros kd Hin. apply Hl in Hin as [Hk Hf].
  split; [by apply HD|done].
Qed.

Lemma visited_one fs k n :
  fs !! k = Some n -> walkable n = true -> visited fs true (fun j => j = k) [(k, is_dir n)].
Proof.
  intros Hk Hw. split_and!; [apply NoDup_singleton| |].
  - intros kd Hin. apply list_elem_of_singleton in Hin as ->. split; [done|by exists n].
  - intros _ [j d] [Hj (n' & Hk' & _ & Hd)]. cbn in Hj, Hk', Hd. subst j d.
    rewrite Hk in Hk'. injection Hk' as <-. by apply list_elem_of_singleton.
Qed.

(** A directory with files in it and no directory. *)
Definition leaf_with_files (fs : fsmap) (k : ppath) : Prop :=
  (exists c m x, fs !! (k ++ [c]) = Some (NReg m x)) /\
  forall c m, fs !! (k ++ [c]) <> Some (NDir m).

Section Visits.
Context {S : Type} `{!Lens S os} `{DirOrder}.
Context (callback : cstr -> bool -> ST S bool) (fs : fsmap) (base : ppath).
(** What the callback leaves in [errno]: nothing when [clean], an error when [dirty]. *)
Context (clean dirty : Prop).
(** [P l s]: the calls made so far are [l]. *)
Context (P : list (ppath * bool) -> S -> Prop).

Record good (s : S) : Prop := Good {
  gd_quiet : quiet (lget s);
  gd_fs : os_fs (lget s) = fs;
  gd_errno : clean -> os_errno (lget s) = E_OK;
}.

Context (P_errno : forall l s, P l s -> P l (lset (with_errno E_OK (lget s)) s)).
Context (P_call : forall l k n s, P l s -> good s -> Forall path_name k -> no_links fs k ->
  zlen (render k) < SYSEBA_PATH_MAX -> (exists c r, k = base ++ c :: r) -> fs !! k = Some n -> walkable n = true ->
  exists s', callback (render k) (is_dir n) s = (true, s') /\ P (l ++ [(k, is_dir n)]) s' /\ good s' /\
    (dirty -> os_errno (lget s') <> E_OK)).

Definition below (root j : ppath) : Prop := exists c r, j = root ++ c :: r.

Lemma walk_ok_below root c n :
  walk_ok fs root -> fs !! (root ++ [c]) = Some n ->
  Forall path_name (root ++ [c]) /\ (is_lnk n = false -> no_links fs (root ++ [c])) /\
  (is_dir n = true -> walk_ok fs (root ++ [c])).
Proof.
  intros [Ht Hn Hr Hd Hl Hs] Hc.
  assert (is_lnk n = false -> no_links fs (root ++ [c])) as Hlc.
  { intros Hnl a b m t E Ha. destruct b as [|y b _] using rev_ind.
    - rewrite app_nil_r in E. subst a. rewrite Hc in Ha. by injection Ha as ->.
    - rewrite app_assoc in E. apply app_inj_tail in E as [E _]. by eapply (Hl a b). }
  split; [by eapply Hn|]. split; [done|]. intros Hdn. destruct n; try done. constructor; try done.
  - by destruct root.
  - unfold is_dir_at. destruct (root ++ [c]) eqn:E; [by destruct root|]. by rewrite Hc.
  - by apply Hlc.
  - intros r. rewrite <- app_assoc. apply Hs.
Qed.

(** The directories that the walk has left behind in good order: with an [errno] that the
    callback sets, none of them ends with files. *)
Definition passed (D : ppath -> Prop) : Prop :=
  forall k, D k -> is_dir_at fs k = true -> ~ leaf_with_files fs k.

(** What a call on a directory does. *)
Definition walks (walk : cstr -> ST S bool) (root : ppath) : Prop :=
  forall l s, P l s -> quiet (lget s) -> os_fs (lget s) = fs ->
  exists s' l' b, walk (render root) s = (b, s') /\ P (l ++ l') s' /\ good s' /\
    visited fs b (below root) l' /\ (clean -> b = true) /\
    (dirty -> b = true -> passed (fun k => k = root \/ below root k)).

(** What is under one of the names of a directory. *)
Definition under (root : ppath) (names : list cstr) (k : ppath) : Prop :=
  exists c r, c ∈ names /\ k = root ++ c :: r.

(** The end of a directory without directories. *)
Definition plain_end (root : ppath) (names : list cstr) (s : S) : Prop :=
  (forall c m, c ∈ names -> fs !! (root ++ [c]) <> Some (NDir m)) ->
  os_errno (lget s) = E_OK /\ forall c m x, c ∈ names -> fs !! (root ++ [c]) <> Some (NReg m x).

Lemma under_cons root c names k :
  under root (c :: names) k <-> (exists r, k = root ++ c :: r) \/ under root names k.
Proof.
  split.
  - intros (c' & r & [->|Hc']%elem_of_cons & ->); [left; by exists r|right; by exists c', r].
  - intros [[r ->]|(c' & r & Hc' & ->)]; [exists c, r|exists c', r]; (split; [|done]); [by left|by right].
Qed.

Lemma visited_under b root c names l1 l2 :
  c ∉ names -> visited fs true (fun j => exists r, j = root ++ c :: r) l1 ->
  visited fs b (under root names) l2 -> visited fs b (under root (c :: names)) (l1 ++ l2).
Proof.
  intros Hc V1 V2. eapply visited_ext; [|eapply visited_app; [|exact V1|exact V2]].
  - intros k _. by rewrite under_cons.
  - intros k [r ->] (c' & r' & Hc' & E). by simplify_list_eq.
Qed.

(** A name that is not a directory of the walk adds nothing. *)
Lemma skip_entry b root c names l :
  walk_ok fs root -> c ∉ names -> (forall n, fs !! (root ++ [c]) = Some n -> walkable n = false) ->
  visited fs b (under root names) l -> visited fs b (under root (c :: names)) l.
Proof.
  intros Hw Hc Hn. apply (visited_under b root c names []); [done|]. apply visited_nil.
  intros _ k n [r ->] Hk. destruct r as [|c' r]; [by apply Hn|]. exfalso.
  assert (is_dir_at fs (root ++ [c]) = true) as Hd
    by (eapply tree_parent; [apply Hw|eexists; exact Hk]).
  apply is_dir_at_snoc in Hd as [m Hm]. by apply Hn in Hm.
Qed.

Lemma skip_passed root c names s :
  walk_ok fs root -> (forall n, fs !! (root ++ [c]) = Some n -> walkable n = false) ->
  passed (under root names) /\ plain_end root names s ->
  passed (under root (c :: names)) /\ plain_end root (c :: names) s.
Proof.
  intros Hw Hn [Hp He]. split.
  - intros k Hk Hd. apply under_cons in Hk as [[r ->]|Hk]; [|by apply Hp]. exfalso.
    assert (is_dir_at fs (root ++ [c]) = true) as Hdc.
    { eapply (dir_at_chain fs); [apply Hw|exact Hd|]. by rewrite <- app_assoc. }
    apply is_dir_at_snoc in Hdc as [m Hm]. by apply Hn in Hm.
  - intros Hno. destruct He as [He Hf]; [intros c' m Hc'; apply Hno; by right|]. split; [done|].
    intros c' m x [->|Hc']%elem_of_cons; [|by apply Hf]. intros E. by apply Hn in E.
Qed.

Lemma walk_entries_visits descend root names :
  walk_ok fs root -> base `prefix_of` root -> NoDup names ->
  (forall c, c ∈ names -> c = c!"." \/ c = c!".." \/ is_Some (fs !! (root ++ [c]))) ->
  (forall c, is_dir_at fs (root ++ [c]) = true -> walk_ok fs (root ++ [c]) ->
     walks descend (root ++ [c])) ->
  forall l s, P l s -> good s ->
  exists s' l' b, walk_entries callback descend (render root) names s = (b, s') /\
    P (l ++ l') s' /\ good s' /\ visited fs b (under root names) l' /\ (clean -> b = true) /\
    (dirty -> b = true -> passed (under root names) /\ plain_end root names s).
Proof.
  intros Hw Hbase Hnd Hin Hdesc. induction names as [|c names IH]; intros l s HP Hg.
  { exists s, [], (bool_decide (os_errno (lget s) = E_OK)). rewrite app_nil_r. cbn [walk_entries].
    split_and!; [|done|done| | |].
    - unfold bind. rewrite (zoom_same _ _ true).
      2: { unfold sys_readdir_end, sys_sync. rewrite syscall_quiet; [done|]. by destruct Hg. }
      rewrite (zoom_same _ _ (os_errno (lget s))) by done. destruct (bool_decide _); [done|].
      rewrite (zoom_same _ _ tt); [done|]. unfold set_errno, modify. f_equal. by destruct (lget s).
    - apply visited_nil. intros _ k n (c & r & Hc & _). by apply not_elem_of_nil in Hc.
    - intros Hcl. apply bool_decide_eq_true_2. by destruct Hg as [_ _ ?]; auto.
    - intros _ Hb%bool_decide_eq_true. split; [intros k (c & r & Hc & _); by apply not_elem_of_nil in Hc|].
      intros _. split; [done|]. by intros c m x Hc%not_elem_of_nil. }
  apply NoDup_cons in Hnd as [Hc Hnd].
  assert (forall c', c' ∈ names -> c' = c!"." \/ c' = c!".." \/ is_Some (fs !! (root ++ [c']))) as Hin'
    by (intros c' Hc'; apply Hin; by right).
  specialize (IH Hnd Hin'). cbn [walk_entries].
  destruct (streq c (c!".") || streq c (c!"..")) eqn:Edot.
  { destruct (IH l s HP Hg) as (s' & l' & b & E & HP' & Hg' & Hv & Hcl & Hdi).
    assert (forall n, fs !! (root ++ [c]) = Some n -> walkable n = false) as Hno.
    { intros n Hk. exfalso. pose proof (wo_names _ _ Hw _ _ Hk) as Hn. apply Forall_app in Hn as [_ Hn].
      apply Forall_inv in Hn as (_ & _ & Hd1 & Hd2). apply orb_true_iff in Edot.
      rewrite !streq_true in Edot. naive_solver. }
    exists s', l', b. split_and!; [done..|by apply skip_entry|done|].
    intros Hdirty Hb. apply skip_passed; [done|done|]. by apply Hdi. }
  apply orb_false_iff in Edot as [Ed1 Ed2]. apply streq_false in Ed1, Ed2.
  destruct (Hin c ltac:(by left)) as [?|[?|[n Hn]]]; [done..|].
  destruct (walk_ok_below root c n Hw Hn) as (Hnames & Hnl & Hwd). cbv zeta.
  rewrite <- render_app_cons by apply Hw.
  assert (zlen (render (root ++ [c])) < SYSEBA_PATH_MAX) as Hz by (apply Hw; by eexists).
  assert (fits SYSEBA_PATH_MAX (render (root ++ [c])) = true) as -> by (by apply Z.ltb_lt). cbn [negb].
  rewrite (bind_run _ _ _ (Some n) s).
  2: { apply zoom_same. destruct Hg as [Hq <- _]. by apply lstat_entry; [| |apply Hw|]. }
  destruct (walkable n) eqn:Ewalk; cbn [negb].
  2: { destruct (IH l s HP Hg) as (s' & l' & b & E & HP' & Hg' & Hv & Hcl & Hdi).
    assert (forall n', fs !! (root ++ [c]) = Some n' -> walkable n' = false) as Hno
      by (intros n'; rewrite Hn; by intros [= <-]).
    exists s', l', b. split_and!; [done..|by apply skip_entry|done|].
    intros Hdirty Hb. apply skip_passed; [done|done|]. by apply Hdi. }
  destruct (P_call l (root ++ [c]) n s HP Hg) as (s1 & E1 & HP1 & Hg1 & Hd1); try done.
  { apply Hnl. by destruct n. }
  { destruct Hbase as [b ->]. destruct b as [|y b]; [exists c, []; by rewrite app_nil_r|].
    exists y, (b ++ [c]). by rewrite <- app_assoc. }
  rewrite (bind_run _ _ _ _ _ E1). cbn [negb].
  pose proof (visited_one fs _ _ Hn Ewalk) as Hone.
  destruct (is_dir n) eqn:Ed.
  - destruct n as [|m| |]; try done. assert (is_dir_at fs (root ++ [c]) = true) as Hda.
    { unfold is_dir_at. destruct (root ++ [c]) eqn:Er; [by destruct root|]. by rewrite Hn. }
    destruct (Hdesc c) with (l := l ++ [(root ++ [c], true)]) (s := s1)
      as (s2 & l2 & b2 & E2 & HP2 & Hg2 & Hv2 & Hcl2 & Hdi2); [done|by apply Hwd|done|by apply Hg1..|].
    rewrite (bind_run _ _ _ _ _ E2). rewrite <- app_assoc in HP2.
    assert (visited fs b2 (fun j => exists r, j = root ++ c :: r) ((root ++ [c], true) :: l2)) as Hv2'.
    { eapply visited_ext; [|eapply (visited_app _ _ _ _ [_]); [|exact Hone|exact Hv2]].
      - intros k _. split.
        + intros [->|(c' & r & ->)]; [by exists []|]. exists (c' :: r). by rewrite <- app_assoc.
        + intros [[|c' r] ->]; [by left|right]. exists c', r. by rewrite <- app_assoc.
      - intros k -> (c' & r & E). rewrite <- (app_nil_r (root ++ [c])) in E at 1. by apply app_inv_head in E. }
    destruct b2.
    2: { exists s2, ((root ++ [c], true) :: l2), false. split_and!; [done|done|done| |done|done].
      eapply visited_stop; [|exact Hv2']. intros k Hk. apply under_cons. by left. }
    destruct (IH _ s2 HP2 Hg2) as (s3 & l3 & b3 & E3 & HP3 & Hg3 & Hv3 & Hcl3 & Hdi3).
    exists s3, (((root ++ [c], true) :: l2) ++ l3), b3. rewrite <- !app_assoc in HP3.
    split_and!; [done|done|done|by apply visited_under|done|].
    intros Hdirty Hb. destruct (Hdi3 Hdirty Hb) as [Hp3 _]. split.
    + intros k Hk. apply under_cons in Hk as [[r ->]|Hk]; [|by apply Hp3].
      apply (Hdi2 Hdirty); [done|]. destruct r as [|c' r]; [by left|right].
      exists c', r. by rewrite <- app_assoc.
    + intros Hno. by destruct (Hno c m); [left|].
  - rewrite (bind_run _ _ _ true s1) by done.
    destruct (IH _ s1 HP1 Hg1) as (s3 & l3 & b3 & E3 & HP3 & Hg3 & Hv3 & Hcl3 & Hdi3).
    assert (forall r, is_dir_at fs (root ++ c :: r) = true -> False) as Hnd'.
    { intros r Hd. assert (is_dir_at fs (root ++ [c]) = true) as Hdc.
      { eapply (dir_at_chain fs); [apply Hw|exact Hd|]. by rewrite <- app_assoc. }
      apply is_dir_at_snoc in Hdc as [m Hm]. rewrite Hn in Hm. by injection Hm as ->. }
    exists s3, ([(root ++ [c], false)] ++ l3), b3. rewrite app_assoc. split_and!; [done..| |done|].
    + apply visited_under; [done| |done]. eapply visited_ext; [|exact Hone]. intros k [nk Hk]. split.
      * intros ->. by exists [].
      * intros [[|c' r] ->]; [done|]. exfalso. apply (Hnd' []).
        eapply tree_parent; [apply Hw|eexists; exact Hk].
    + intros Hdirty Hb. destruct (Hdi3 Hdirty Hb) as [Hp3 He3]. split.
      * intros k Hk Hd. apply under_cons in Hk as [[r ->]|Hk]; [|by apply Hp3]. by apply Hnd' in Hd.
      * intros Hno. exfalso. apply (Hd1 Hdirty). apply He3. intros c' m' Hc'. apply Hno. by right.
Qed.

Lemma entries_nodup root : names_ok fs -> NoDup (dir_order ((c!".") :: (c!"..") :: children fs root)).
Proof.
  intros Hn. rewrite dir_order_perm.
  assert (forall c, c = c!"." \/ c = c!".." -> c ∉ children fs root) as Hdots.
  { intros c Hc Hin. apply elem_of_children in Hin as [n Hk]. apply Hn in Hk.
    apply Forall_app in Hk as [_ Hk]. apply Forall_inv in Hk as (_ & _ & ? & ?). naive_solver. }
  apply NoDup_cons. split; [|apply NoDup_cons; split; [|apply NoDup_children]].
  - apply not_elem_of_cons. split; [done|]. apply Hdots. by left.
  - apply Hdots. by right.
Qed.

Lemma walk_internal_visits fuel root :
  walk_ok fs root -> base `prefix_of` root ->
  SYSEBA_PATH_MAX - zlen (render root) < Z.of_nat fuel ->
  walks (walk_internal callback fuel) root.
Proof.
  revert root. induction fuel as [|fuel IH]; intros root Hw Hbase Hfuel l s HP Hq Hf.
  { destruct (walk_root _ _ Hw) as (_ & _ & _ & ?). lia. }
  cbn [walk_internal]. destruct (walk_root _ _ Hw) as (Hnames & _ & _ & _).
  set (names := dir_order ((c!".") :: (c!"..") :: children fs root)).
  rewrite (bind_run _ _ _ (Some names) s).
  2: { apply zoom_same. unfold names. rewrite <- Hf. apply readdir_present; rewrite ?Hf; try done; apply Hw. }
  set (s1 := lset (with_errno E_OK (lget s)) s).
  rewrite (bind_run _ _ _ tt s1) by done.
  assert (good s1) as Hg1 by (by constructor; unfold s1; rewrite lget_lset).
  assert (forall c, is_Some (fs !! (root ++ [c])) -> c ∈ names) as Hall.
  { intros c Hc. unfold names. rewrite dir_order_perm. do 2 right. by apply elem_of_children. }
  assert (forall c r, is_Some (fs !! (root ++ c :: r)) -> c ∈ names) as Hunder.
  { intros c r Hk. apply Hall. destruct r as [|c' r]; [done|].
    apply tree_parent, is_dir_at_snoc in Hk as [m Hm]; [by eexists|apply Hw]. }
  destruct (walk_entries_visits (walk_internal callback fuel) root names) with (l := l) (s := s1)
    as (s2 & l2 & b2 & E2 & HP2 & Hg2 & Hv2 & Hcl2 & Hdi2);
    [done|done|apply entries_nodup, Hw| | |by apply P_errno|done|].
  - intros c Hc. unfold names in Hc. rewrite dir_order_perm in Hc. apply elem_of_cons in Hc as [->|Hc]; [by left|].
    apply elem_of_cons in Hc as [->|Hc]; [by right; left|]. right. right. by apply elem_of_children.
  - intros c Hd Hwc. apply IH; [done|by apply prefix_app_r|].
    rewrite render_app_cons by apply Hw. zlen_lia.
  - exists s2, l2, b2. split_and!; [done..| |done|].
    + eapply visited_ext; [|exact Hv2]. intros k Hk. split.
      * intros (c & r & _ & ->). by exists c, r.
      * intros (c & r & ->). exists c, r. split; [|done]. by eapply Hunder.
    + intros Hdirty Hb. destruct (Hdi2 Hdirty Hb) as [Hp He]. intros k [->|(c & r & ->)] Hd.
      * intros [(c & m & x & Hc) Hno]. destruct He as [_ Hnf]; [intros c' m' _; apply Hno|].
        apply (Hnf c m x); [|done]. apply Hall. by eexists.
      * apply Hp; [|done]. exists c, r. split; [|done].
        apply is_dir_at_some in Hd as [m Hm]; [|by destruct root]. eapply Hunder. by eexists.
Qed.

(** The walk under the model's fuel. *)
Lemma walk_files_visits l s :
  walk_ok fs base -> P l s -> quiet (lget s) -> os_fs (lget s) = fs ->
  exists s' l' b, syseba_walk_files callback (render base) s = (b, s') /\ P (l ++ l') s' /\
    good s' /\ visited fs b (below base) l' /\ (clean -> b = true) /\
    (dirty -> b = true -> passed (fun k => k = base \/ below base k)).
Proof.
  intros Hw HP Hq Hf. unfold syseba_walk_files.
  destruct (walk_root _ _ Hw) as (Hnames & [m Hm] & Hs & _). pose proof (wo_root _ _ Hw) as Hne.
  rewrite (bind_run _ _ _ true s); cbn [negb].
  2: { apply zoom_same. unfold syseba_fs_is_directory, bind.
    rewrite lstat_present; rewrite ?Hf; [|done|done|by apply Hw|by apply Hw|done].
    unfold node_at. destruct base; [done|]. by rewrite Hm. }
  unfold syseba_walk_internal. apply walk_internal_visits; [done|done| |done|done|done].
  unfold walk_fuel. pose proof (zlen_nonneg (render base)). unfold SYSEBA_PATH_MAX. lia.
Qed.
End Visits.

(** With a callback that leaves [errno] alone the walk comes to its end. *)
Lemma walk_files_covers {S : Type} `{!Lens S os} `{DirOrder} (callback : cstr -> bool -> ST S bool)
    (fs : fsmap) (base : ppath) (P : list (ppath * bool) -> S -> Prop) s :
  (forall l s, P l s -> P l (lset (with_errno E_OK (lget s)) s)) ->
  (forall l k n s, P l s -> good fs True s -> Forall path_name k -> no_links fs k ->
    zlen (render k) < SYSEBA_PATH_MAX -> below base k -> fs !! k = Some n -> walkable n = true ->
    exists s', callback (render k) (is_dir n) s = (true, s') /\ P (l ++ [(k, is_dir n)]) s' /\ good fs True s') ->
  walk_ok fs base -> P [] s -> quiet (lget s) -> os_fs (lget s) = fs ->
  exists s' l, syseba_walk_files callback (render base) s = (true, s') /\ P l s' /\
    good fs True s' /\ covers fs (below base) l.
Proof.
  intros He Hc Hw HP Hq Hf.
  destruct (walk_files_visits callback fs base True False P He) with (l := @nil (ppath * bool)) (s := s)
    as (s' & l & b & E & HP' & Hg & Hv & Hcl & _); [|done..|].
  - intros l k n t HPt Hg Hk Hl Hz Hb Hn Hwn.
    destruct (Hc l k n t HPt Hg Hk Hl Hz Hb Hn Hwn) as (t' & E & HPt' & Hg'). by exists t'.
  - rewrite Hcl in E, Hv by done. exists s', l. split_and!; [done..|by apply visited_covers].
Qed.
