(* ===== verification/AppFacts.v ===== *)
(** * Properties of the application

    What one event does on a quiet host, that the log touches nothing else, and
    what start and stop leave behind. *)

From S2P Require Import Prelude CString Paths Os OsFacts Platform Fs FsFacts CopyFacts Config ConfigFacts ConfigText FsTree FsTreeFacts Restore RestoreFacts Queue QueueFacts AppState Log LogFacts App PlainFacts.

(** ** The paths of an event *)

(** A relative name under a directory: proper names, no symbolic link on the
    way, and short enough. *)
Record area (fs : fsmap) (b rel : ppath) : Prop := Area {
  ar_names : Forall path_name (b ++ rel);
  ar_links : no_links fs (b ++ rel);
  ar_short : zlen (render b) + zlen (join_with SLASH rel) + 64 < SYSEBA_PATH_MAX;
}.

Lemma area_length fs b rel : rel <> [] -> area fs b rel ->
  zlen (render (b ++ rel)) + 64 < SYSEBA_PATH_MAX.
Proof.
  intros Hr [_ _ Hs]. destruct b as [|x b].
  - destruct rel; [done|]. cbn [app render] in *. zlen_lia.
  - rewrite render_app_join by done. zlen_lia.
Qed.

Lemma area_world s s' b rel : same_world s s' -> area (os_fs s) b rel -> area (os_fs s') b rel.
Proof. by intros [_ ->]. Qed.

Lemma area_within s b rel :
  quiet s -> tree_ok (os_fs s) -> rel <> [] -> area (os_fs s) b rel ->
  value (syseba_path_is_within (render b) (render (b ++ rel))) s = true.
Proof.
  intros Hq Ht Hr Ha. pose proof (area_length _ _ _ Hr Ha). destruct Ha as [Hn Hl Hs].
  pose proof Hn as Hn'. apply Forall_app in Hn' as [Hb _].
  destruct (is_within_plain s b (b ++ rel)) as (s' & E & _);
    [done..|by eapply no_links_prefix|done|done|zlen_lia|lia|].
  unfold value. rewrite E. apply bool_decide_eq_true. by apply prefix_app_r.
Qed.

Lemma area_relative s b rel :
  quiet s -> tree_ok (os_fs s) -> rel <> [] -> area (os_fs s) b rel ->
  exists s', syseba_relative_path (render b) (render (b ++ rel)) SYSEBA_PATH_MAX s
    = (RelPath (drop 1 (join_with SLASH rel)), s') /\ same_world s s'.
Proof.
  intros Hq Ht Hr Ha. pose proof (area_length _ _ _ Hr Ha).
  apply relative_path_under; [done|by apply Ha|lia|by apply area_within].
Qed.

Lemma area_join s b rel :
  quiet s -> tree_ok (os_fs s) -> rel <> [] -> area (os_fs s) b rel ->
  exists s', syseba_safe_join (render b) (Some (drop 1 (join_with SLASH rel))) SYSEBA_PATH_MAX s
    = (Some (render (b ++ rel)), s') /\ same_world s s'.
Proof.
  intros Hq Ht Hr Ha.
  destruct (safe_join_relative b rel s) as [s' E];
    [done|by apply Ha|done|destruct Ha; lia|by apply area_within|].
  exists s'. split; [done|]. by apply calm_run in E as [Hw _]; [|auto with keeps|done].
Qed.

(** The configuration's three directories and a relative name. *)
Record areas (c : syseba_config_t) (fs : fsmap) (sn bn rn rel : ppath) : Prop := Areas {
  as_source : cfg_source c = render sn;
  as_backup : cfg_backup c = render bn;
  as_restore : cfg_restore c = render rn;
  as_tree : tree_ok fs;
  as_rel : rel <> [];
  as_in_source : area fs sn rel;
  as_in_backup : area fs bn rel;
  as_in_restore : area fs rn rel;
}.

Lemma event_paths_areas unknown c s sn bn rn rel :
  quiet s -> areas c (os_fs s) sn bn rn rel ->
  exists s', event_paths unknown c (render (sn ++ rel)) s
    = (Some (render (bn ++ rel), render (rn ++ rel)), s') /\ same_world s s'.
Proof.
  intros Hq [Es Eb Er Ht Hr Hs Hb Hn]. unfold event_paths. rewrite Es, Eb, Er. unfold bind at 1.
  destruct (area_relative s sn rel) as (s1 & -> & Hw1); [done..|]. cbn [relative_text].
  unfold bind at 1. pose proof (same_world_quiet _ _ Hw1 Hq).
  destruct (area_join s1 bn rel) as (s2 & -> & Hw2);
    [done|by destruct Hw1 as [_ ->]|done|by eapply area_world|].
  unfold bind at 1. pose proof (same_world_quiet _ _ Hw2 ltac:(done)).
  assert (same_world s s2) as Hw by (by etransitivity).
  destruct (area_join s2 rn rel) as (s3 & -> & Hw3);
    [done|by destruct Hw as [_ ->]|done|by eapply area_world|].
  exists s3. split; [done|]. by etransitivity.
Qed.

(** ** Comparing two files *)

(** A copy is needed: the destination is missing, or its size or time differs. *)
Definition outdated (m : meta) (c : cstr) (destination : option node) : bool :=
  match destination with
  | None => true
  | Some n => is_dir n || negb (zlen c =? node_size n) || negb (m_mtime m =? m_mtime (node_meta n))
  end.

Lemma files_need_copy_plain s src dst m c :
  quiet s -> tree_ok (os_fs s) -> Forall path_name src -> Forall path_name dst ->
  no_links (os_fs s) src -> no_links (os_fs s) dst -> os_fs s !! src = Some (NReg m c) ->
  src <> [] -> dst <> [] ->
  exists s', syseba_files_need_copy (render src) (render dst) s
    = (outdated m c (os_fs s !! dst), s') /\ same_world s s'.
Proof.
  intros Hq Ht Hsn Hdn Hsl Hdl Hsrc Hs0 Hd0. unfold syseba_files_need_copy, syseba_fs_stat, bind.
  destruct (exists_plain s src) as (s1 & -> & Hw1); [done..|].
  assert (node_at (os_fs s) src = Some (NReg m c)) as -> by (by destruct src).
  cbn [is_lnk ret]. pose proof Hw1 as [_ Hf1].
  destruct (exists_plain s1 dst) as (s2 & -> & Hw2);
    [by eapply same_world_quiet|done|by rewrite Hf1..|].
  assert (same_world s s2) as Hw by (by etransitivity). rewrite Hf1.
  assert (node_at (os_fs s) dst = os_fs s !! dst) as -> by (by destruct dst).
  destruct (os_fs s !! dst) as [n|] eqn:E; [|by exists s2].
  assert (is_lnk n = false) as ->.
  { destruct n; try done. exfalso. eapply (Hdl dst []); [by rewrite app_nil_r|done]. }
  cbn [ret st_directory st_size st_mtime_ns is_dir node_size node_meta]. exists s2. split; [|done].
  f_equal. destruct n; simpl; by rewrite ?orb_true_r.
Qed.

(** ** Running calls inside the application *)

Lemma zoom_os {A} (m : ST os A) a r s :
  m (app_os a) = (r, s) -> zoom (L := lens_os) m a = (r, with_os s a).
Proof. intros E. unfold zoom. simpl. by rewrite E. Qed.

(** What an event leaves behind in the application: its new host and counters,
    and whatever it logged. *)
Definition effect (a : syseba_app_t) (s : os) (x : syseba_stats_t) (a' : syseba_app_t) : Prop :=
  only_log (with_os s (with_stats x a)) a' /\ app_stats a' = x.

Lemma effect_os a s x a' : effect a s x a' -> app_os a' = s.
Proof. by intros [[] _]. Qed.
Lemma effect_config a s x a' : effect a s x a' -> app_config a' = app_config a.
Proof. by intros [[] _]. Qed.

Lemma effect_refl a s x : effect a s x (with_os s (with_stats x a)).
Proof. by split. Qed.

Lemma effect_count a s x c a' :
  effect a s x a' -> effect a s (increment c x) (exec (syseba_stats_increment c) a').
Proof.
  intros [[] Hx]. split; [|by rewrite <- Hx]. constructor; try done. simpl. by rewrite Hx.
Qed.

(** ** Moving a file on one device *)

(** Every node is on the device, and the root has no entry of its own. *)
Definition one_device (v : Z) (fs : fsmap) : Prop :=
  (forall k n, node_at fs k = Some n -> m_dev (node_meta n) = v) /\ fs !! [] = None.
Definition keeps_device (fs fs' : fsmap) : Prop := forall v, one_device v fs -> one_device v fs'.
#[export] Instance keeps_device_preorder : PreOrder keeps_device.
Proof. split; [by intros fs v|]. intros a b c H1 H2 v Hv. by apply H2, H1. Qed.

Lemma device_intro v fs fs' :
  one_device v fs -> fs' !! [] = None -> (forall k n, fs' !! k = Some n -> m_dev (node_meta n) = v) ->
  one_device v fs'.
Proof.
  intros [Hv Hr] Hr' Hn. split; [|done]. intros k n Hk. unfold node_at in Hk. destruct k as [|y k]; [|by eapply Hn].
  apply (Hv []). unfold node_at. by rewrite Hr, <- Hr'.
Qed.

Lemma device_node v fs k n : one_device v fs -> fs !! k = Some n -> m_dev (node_meta n) = v.
Proof. intros [Hv _] Hk. apply (Hv k). unfold node_at. destruct k; by rewrite Hk. Qed.

Lemma device_insert v fs k n :
  one_device v fs -> m_dev (node_meta n) = v -> k <> [] -> one_device v (<[k := n]> fs).
Proof.
  intros Hh Hn Hk. eapply device_intro; [done|by rewrite lookup_insert_ne; [apply Hh|]|].
  intros j nj [[_ <-]|[_ Hj]]%lookup_insert_Some; [done|by eapply device_node].
Qed.

Lemma device_delete v fs k : one_device v fs -> one_device v (delete k fs).
Proof.
  intros Hh. eapply device_intro; [done|by apply lookup_delete_None; right; apply Hh|].
  intros j nj [_ Hj]%lookup_delete_Some. by eapply device_node.
Qed.

(** A node that is there keeps its device. *)
Lemma device_update v fs k n n' :
  one_device v fs -> fs !! k = Some n -> m_dev (node_meta n') = m_dev (node_meta n) ->
  one_device v (<[k := n']> fs).
Proof.
  intros Hh Hk Hd. apply device_insert; [done| |].
  - rewrite Hd. by eapply device_node.
  - intros ->. destruct Hh as [_ Hr]. congruence.
Qed.

Lemma one_device_dir v fs k : one_device v fs -> is_dir_at fs k = true -> dev_of_dir fs k = v.
Proof. intros [Hv _] [n Hn]%is_dir_node. unfold dev_of_dir. rewrite Hn. by eapply Hv. Qed.

(** A node is created with the device of its directory. *)
Lemma device_create v fs k n :
  one_device v fs -> k <> [] -> is_dir_at fs (removelast k) = true ->
  m_dev (node_meta n) = dev_of_dir fs (removelast k) -> one_device v (<[k := n]> fs).
Proof. intros Hh Hk Hd Hn. apply device_insert; [done| |done]. rewrite Hn. by apply one_device_dir. Qed.

(** The nodes of a moved tree are nodes that were there. *)
Lemma device_move_tree v a b fs : a <> [] -> b <> [] -> one_device v fs -> one_device v (move_tree a b fs).
Proof.
  intros Ha Hb Hh.
  assert (forall k n, move_tree a b fs !! k = Some n -> exists j, fs !! j = Some n /\ (k = [] -> j = [])) as Hm.
  { intros k n Hk. unfold move_tree, kmap in Hk.
    apply elem_of_list_to_map_2, list_elem_of_fmap in Hk as ([j n'] & E & Hj). injection E as Ek ->.
    apply elem_of_map_to_list, map_lookup_filter_Some in Hj as [Hj _]. exists j. split; [done|]. intros ->.
    unfold swap_prefix in Ek. destruct (strip_prefix a j) as [r|]; [by destruct b|].
    destruct (strip_prefix b j) as [r|]; [by destruct a|done]. }
  eapply device_intro; [done| |intros k n (j & Hj & _)%Hm; by eapply device_node].
  destruct (move_tree a b fs !! []) as [n|] eqn:E; [|done].
  apply Hm in E as (j & Hj & Ej). rewrite Ej in Hj by done. destruct Hh as [_ Hr]. congruence.
Qed.

(** ** The calls that write *)

Lemma device_mkdir p mode : keeps (fs_rel keeps_device) (sys_mkdir p mode).
Proof.
  apply keeps_syscall; [typeclasses eauto|]. intros limit s a s' E.
  destruct (resolve s false p) as [|k|] eqn:Er; try discriminate E. injection E as <- <-.
  apply fs_rel_write; [done|]. intros _ v Hv. unfold resolve in Er. destruct p; [done|].
  apply namei_missing in Er as (_ & Hk & Hd). by apply device_create.
Qed.

Lemma device_open_excl p mode : keeps (fs_rel keeps_device) (sys_open_excl p mode).
Proof.
  apply keeps_syscall; [typeclasses eauto|]. intros limit s a s' E.
  destruct (resolve s false p) as [|k|] eqn:Er; try discriminate E. injection E as <- <-.
  apply fs_rel_write; [done|]. intros _ v Hv. unfold resolve in Er. destruct p; [done|].
  apply namei_missing in Er as (_ & Hk & Hd). by apply device_create.
Qed.

Lemma device_unlink p : keeps (fs_rel keeps_device) (sys_unlink p).
Proof. apply keeps_unlink; [typeclasses eauto|]. intros s k _ v Hv. by apply device_delete. Qed.

Lemma device_set_meta k f : (forall m, m_dev (f m) = m_dev m) -> keeps (fs_rel keeps_device) (sys_set_meta k f).
Proof.
  intros Hf. apply keeps_set_meta; [typeclasses eauto|]. intros fs n Hn v Hv.
  eapply device_update; [done|done|]. destruct n; cbn; auto.
Qed.

Lemma device_write k off bytes : keeps (fs_rel keeps_device) (sys_write k off bytes).
Proof.
  apply keeps_syscall; [typeclasses eauto|]. intros limit s a s' E.
  destruct (os_fs s !! k) as [[m d| | |]|] eqn:Ek; try discriminate E. injection E as <- <-.
  apply fs_rel_write; [done|]. intros _ v Hv. by eapply device_update.
Qed.

Lemma device_rename old new : keeps (fs_rel keeps_device) (sys_rename old new).
Proof.
  apply keeps_syscall; [typeclasses eauto|]. intros limit s a s' E.
  assert (s' = s \/ exists ko kn, ko <> [] /\ kn <> [] /\
    (s' = with_fs (move_tree ko kn (os_fs s)) s \/
     exists n, os_fs s !! ko = Some n /\ s' = with_fs (<[kn := n]> (delete ko (os_fs s))) s)) as Hs.
  { destruct (resolve s false old) as [ko| |]; try discriminate E.
    destruct (resolve s false new) as [kn|kn|]; try discriminate E;
      (destruct (bool_decide (ko = [])) eqn:Eo; [discriminate E|apply bool_decide_eq_false in Eo];
       destruct (bool_decide (kn = [])) eqn:En; [discriminate E|apply bool_decide_eq_false in En];
       cbn [orb] in E; cbv zeta in E;
       destruct (negb (_ =? _)); [discriminate E|]; destruct (bool_decide (ko = kn)); [injection E as _ <-; by left|];
       right; exists ko, kn; split; [done|]; split; [done|];
       destruct (os_fs s !! ko) as [[]|] eqn:Ek; try discriminate E;
       try (destruct (under ko kn); [discriminate E|]);
       destruct (os_fs s !! kn) as [[]|]; try discriminate E;
       try (destruct (children _ _); try discriminate E);
       injection E as _ <-; eauto). }
  destruct Hs as [->|(ko & kn & Ho & Hn & Hs)]; [reflexivity|].
  destruct Hs as [->|(n & Hk & ->)]; (apply fs_rel_write; [done|]); intros _ v Hv; cbn [os_fs with_fs].
  - by apply device_move_tree.
  - apply device_insert; [by apply device_delete|by eapply device_node|done].
Qed.
#[export] Hint Resolve device_mkdir device_open_excl device_unlink device_write device_rename : keeps.
#[export] Hint Extern 1 (keeps (fs_rel keeps_device) (sys_set_meta _ _)) => by apply device_set_meta : keeps.


Lemma device_mkdirs p mode : keeps (fs_rel keeps_device) (syseba_mkdirs p mode).
Proof.
  unfold syseba_mkdirs. destruct (negb (nonempty p)); [keeps_auto|]. destruct (negb (fits _ p)); [keeps_auto|].
  induction (mkdirs_targets p) as [|q qs IH]; cbn [mkdir_each]; keeps_auto.
Qed.
#[export] Hint Resolve device_mkdirs : keeps.
Lemma device_prepare p : keeps (fs_rel keeps_device) (syseba_prepare_destination p).
Proof. unfold syseba_prepare_destination. keeps_auto. Qed.
#[export] Hint Resolve device_prepare : keeps.

Lemma is_dir_at_grows fs fs' k : grows fs fs' -> is_dir_at fs k = true -> is_dir_at fs' k = true.
Proof.
  intros [G _] Hd. unfold is_dir_at in *. destruct k as [|x k]; [done|].
  destruct (fs !! (x :: k)) as [n|] eqn:En; [|done]. by rewrite (G _ _ En).
Qed.

(** The directories made on the way to [p] keep the tree. *)
Lemma tree_made fs fs' p :
  tree_ok fs -> grows fs fs' -> dir_chain fs' p ->
  (forall k, fs !! k = None -> fs' !! k <> None -> k <> [] /\ exists b, p = k ++ b) -> tree_ok fs'.
Proof.
  intros Ht Hg Hc Hnew k n Hk Hne. destruct (fs !! k) as [n0|] eqn:E.
  - eapply is_dir_at_grows; [done|]. by eapply Ht.
  - destruct (Hnew k E) as [_ [b ->]]; [by rewrite Hk|].
    destruct k as [|y k _] using rev_ind; [done|]. rewrite removelast_last.
    apply (Hc k ([y] ++ b)). by rewrite <- app_assoc.
Qed.

(** So does a file that moves into a directory. *)
Lemma tree_move fs k k' n :
  tree_ok fs -> fs !! k = Some n -> is_dir n = false -> fs !! k' = None ->
  is_dir_at fs (removelast k') = true -> tree_ok (<[k' := n]> (delete k fs)).
Proof.
  intros Ht Hk Hn Hk' Hd j nj Hj Hne.
  assert (forall p, is_dir_at fs p = true -> is_dir_at (<[k' := n]> (delete k fs)) p = true) as Hkeep.
  { intros p Hp. unfold is_dir_at in *. destruct p as [|x p]; [done|].
    rewrite lookup_insert_ne by (intros ->; by rewrite Hk' in Hp).
    rewrite lookup_delete_ne; [done|]. intros ->. rewrite Hk in Hp. congruence. }
  apply Hkeep. apply lookup_insert_Some in Hj as [[<- _]|[_ Hj]]; [done|].
  apply lookup_delete_Some in Hj as [_ Hj]. by eapply Ht.
Qed.

(** A file or a link moves under its new directory, which is made if needed. *)
Lemma move_path_quiet `{DirOrder} unknown s ps x pd d n v :
  quiet s -> tree_ok (os_fs s) -> one_device v (os_fs s) ->
  Forall path_name (ps ++ [x]) -> Forall path_name (pd ++ [d]) ->
  zlen (render (pd ++ [d])) < SYSEBA_PATH_MAX ->
  os_fs s !! (ps ++ [x]) = Some n -> is_dir n = false ->
  creatable (os_fs s) pd -> os_fs s !! (pd ++ [d]) = None ->
  exists s', syseba_move_path unknown (render (ps ++ [x])) (render (pd ++ [d])) s = (true, s') /\
    os_fs s' !! (pd ++ [d]) = Some n /\ os_fs s' !! (ps ++ [x]) = None /\
    (forall k, k <> ps ++ [x] -> k <> pd ++ [d] -> only_new_dirs pd s s' k) /\
    quiet s' /\ tree_ok (os_fs s') /\ one_device v (os_fs s').
Proof.
  intros Hq Ht Hv Hs Hd Hl Hn Hnd Hc Hfree. unfold syseba_move_path, bind at 1.
  pose proof (device_prepare (render (pd ++ [d])) s) as Hdev.
  destruct (prepare_quiet pd d s) as (s1 & E1 & Hh1 & Hg & Hc1 & Hnew); [done..|].
  unfold exec in Hdev. rewrite E1 in *. cbn [snd negb] in *.
  destruct Hdev as [_ Hdev]. specialize (Hdev (quiet_unedited _ Hq) v Hv).
  assert (dir_chain (os_fs s) ps) as Hps by (eapply tree_chain; [done|by eexists]).
  assert (dir_chain (os_fs s1) ps) as Hps1 by (by eapply dir_chain_grows).
  assert (os_fs s1 !! (ps ++ [x]) = Some n) as Hn1 by (by apply Hg).
  assert (os_fs s1 !! (pd ++ [d]) = None) as Hfree1.
  { destruct (os_fs s1 !! (pd ++ [d])) eqn:E; [|done].
    destruct (Hnew _ Hfree) as (_ & b & Eb); [congruence|].
    apply (f_equal length) in Eb. rewrite !length_app in Eb. simpl in Eb. lia. }
  assert (ps ++ [x] <> pd ++ [d]) as Hne by congruence.
  assert (sys_rename (render (ps ++ [x])) (render (pd ++ [d])) s1 =
    (true, with_fs (<[pd ++ [d] := n]> (delete (ps ++ [x]) (os_fs s1))) s1)) as Er.
  { unfold sys_rename. rewrite syscall_quiet by (by eapply same_host_quiet). cbv zeta.
    rewrite !resolve_chain, Hn1, Hfree1 by done.
    rewrite (bool_decide_false (ps ++ [x] = [])), (bool_decide_false (pd ++ [d] = [])),
      (bool_decide_false (ps ++ [x] = pd ++ [d])) by first [done | by destruct ps | by destruct pd].
    rewrite !removelast_last.
    rewrite !(one_device_dir v) by first [done | (apply (Hps1 _ []); by rewrite app_nil_r)
      | (apply (Hc1 _ []); by rewrite app_nil_r)].
    rewrite Z.eqb_refl. cbn [orb negb]. rewrite Hn1, Hfree1. by destruct n. }
  unfold bind. rewrite Er. eexists. split; [reflexivity|]. cbn [os_fs with_fs].
  rewrite lookup_insert_eq. split; [done|].
  rewrite lookup_insert_ne, lookup_delete_eq by done. split; [done|].
  split; [|split; [by eapply same_host_quiet|split]].
  2: { apply tree_move; [exact (tree_made _ _ pd Ht Hg Hc1 Hnew)|done..|]. rewrite removelast_last.
       apply (Hc1 pd []). by rewrite app_nil_r. }
  2: { apply device_insert; [by apply device_delete|by eapply device_node|by destruct pd]. }
  intros k Hk1 Hk2. unfold only_new_dirs. cbn [os_fs with_fs].
  rewrite lookup_insert_ne, lookup_delete_ne by done.
  destruct (os_fs s !! k) as [nk|] eqn:E; [left; by apply Hg|].
  destruct (os_fs s1 !! k) as [nk|] eqn:Ek; [|by left]. right. split; [done|].
  split; [by apply Hnew; congruence|]. destruct Hg as [_ Hg].
  destruct (Hg _ _ Ek) as [?|[mk ->]]; [congruence|eauto].
Qed.

Section Events.
Context `{DirOrder} `{LocalStamp} `{Strerror} `{Clock}.
Context `{!Allocator syseba_event_t} `{!Allocator syseba_log_record_t}.
Context (unknown : cstr).

Lemma effect_emit a s x a' level operation source target additional message :
  streq (truncate 16 level) (c!"ERROR") = false -> effect a s x a' ->
  effect a s x (exec (syseba_log_emit level operation source target additional message) a').
Proof.
  intros Hl [Ho Hx]. split.
  - etransitivity; [exact Ho|]. apply only_log_emit.
  - by rewrite stats_emit, Hl.
Qed.

(** The host when the handler compares the files. *)
Definition slept (ev : syseba_event_t) (s : os) : os :=
  if bool_decide (ev_kind ev = SYSEBA_EVENT_MODIFY) then exec (sys_sleep_ms 150) s else s.

Lemma slept_fs ev s : os_fs (slept ev s) = os_fs s.
Proof. unfold slept. by case_if. Qed.
Lemma slept_quiet ev s : quiet s -> quiet (slept ev s).
Proof. unfold slept, quiet. by case_if. Qed.

Lemma sleep_slept ev a :
  (if bool_decide (ev_kind ev = SYSEBA_EVENT_MODIFY) then zoom (sys_sleep_ms 150) else ret tt) a
  = (tt, with_os (slept ev (app_os a)) a).
Proof. unfold slept. case_if; [done|]. by destruct a. Qed.

Definition copy_counter (ev : syseba_event_t) : counter :=
  if bool_decide (ev_kind ev = SYSEBA_EVENT_CREATE) then COPIED else UPDATED.

Lemma temp_suffix_short s : zlen (temp_suffix s 0) <= 64.
Proof.
  unfold temp_suffix. rewrite !zlen_app. pose proof (dec_wrap64_length (os_pid s)).
  pose proof (dec_wrap64_length (os_mono s)).
  change (zlen temp_marker) with 12. change (zlen (c!".")) with 1. change (zlen (dec 0)) with 1. lia.
Qed.

(** A file in the source whose copy is outdated. *)
Record copyable (fs : fsmap) (sn bn r : ppath) (x : cstr) (m : meta) (c : cstr) : Prop := Copyable {
  cb_file : fs !! (sn ++ r ++ [x]) = Some (NReg m c);
  cb_dirs : creatable fs (bn ++ r);
  cb_outdated : outdated m c (fs !! (bn ++ r ++ [x])) = true;
  cb_no_dir : forall mm, fs !! (bn ++ r ++ [x]) <> Some (NDir mm);
  cb_no_temp : forall t, temp_name t -> fs !! ((bn ++ r) ++ [t]) = None;
}.

Lemma suffix_temp s d : temp_name (d ++ temp_suffix s 0).
Proof. unfold temp_suffix. by eexists _, _. Qed.

Lemma regular_plain s names m c :
  quiet s -> tree_ok (os_fs s) -> Forall path_name names -> no_links (os_fs s) names ->
  os_fs s !! names = Some (NReg m c) -> names <> [] ->
  exists s', syseba_fs_is_regular (render names) s = (true, s') /\ same_world s s'.
Proof.
  intros Hq Ht Hn Hl Hk Hne. unfold syseba_fs_is_regular, bind.
  destruct (exists_plain s names) as (s1 & -> & Hw); [done..|].
  exists s1. split; [|done]. assert (node_at (os_fs s) names = Some (NReg m c)) as -> by (by destruct names).
  done.
Qed.

Lemma process_file_copies ev a sn bn r x m c :
  let rel := r ++ [x] in
  quiet (app_os a) -> tree_ok (os_fs (app_os a)) -> ev_path ev = render (sn ++ rel) ->
  ev_kind ev <> SYSEBA_EVENT_DELETE ->
  area (os_fs (app_os a)) sn rel -> area (os_fs (app_os a)) bn rel ->
  copyable (os_fs (app_os a)) sn bn r x m c ->
  exists s' a' m',
    process_file ev (render (bn ++ rel)) a = (Outcome SYSEBA_OK true false, a') /\
    effect a s' (increment (copy_counter ev) (app_stats a)) a' /\
    os_fs s' !! (bn ++ rel) = Some (NReg m' c) /\ copied_meta m m' /\
    (forall k, k <> bn ++ rel -> only_new_dirs (bn ++ r) (app_os a) s' k) /\
    quiet s' /\ dir_chain (os_fs s') (bn ++ r).
Proof.
  intros rel Hq Ht Hp Hk Has Hab [Hf Hdirs Hout Hnd Htmp].
  assert (rel <> []) as Hrel by (by destruct r).
  pose proof (area_length _ _ _ Hrel Hab) as Hlen. destruct Has as [Hsn Hsl _], Hab as [Hbn Hbl _].
  assert (forall p : ppath, p ++ rel <> []) as Hne by (intros p; by destruct p, r).
  unfold process_file, bind at 1. rewrite Hp.
  destruct (regular_plain (app_os a) (sn ++ rel) m c) as (s1 & E1 & Hw1); [done..|].
  rewrite (zoom_os _ _ _ _ E1). cbn [negb]. unfold bind at 1. rewrite sleep_slept.
  assert (exists s2, syseba_files_need_copy (render (sn ++ rel)) (render (bn ++ rel))
            (slept ev s1) = (true, s2) /\ same_world (slept ev s1) s2) as (s2 & E2 & Hw2).
  { rewrite <- Hout. pose proof Hw1 as [_ Hf1].
    rewrite <- Hf1, <- (slept_fs ev). apply files_need_copy_plain; rewrite ?slept_fs, ?Hf1; try done.
    apply slept_quiet. by eapply same_world_quiet. }
  unfold bind at 1. erewrite zoom_os by exact E2. cbn [negb].
  pose proof Hw1 as [_ Hf1]. pose proof Hw2 as [_ Hf2]. rewrite slept_fs, Hf1 in Hf2.
  assert (quiet s2) as Hq2.
  { eapply same_world_quiet; [done|]. apply slept_quiet. by eapply same_world_quiet. }
  unfold rel in Hsn, Hbn, Hf |- *. rewrite !app_assoc in *.
  destruct (copy_file_runs (sn ++ r) x m c (bn ++ r) x Hsn Hbn 4 s2) as (s3 & m' & E3 & Hd & Hm & Hk3 & Hh3 & Hc3);
    rewrite ?Hf2; try done.
  - eapply tree_chain; [done|]. by eexists.
  - pose proof (temp_suffix_short s2). unfold rel in Hlen. rewrite app_assoc in Hlen. zlen_lia.
  - apply Htmp, suffix_temp.
  - unfold bind at 1. erewrite zoom_os by exact E3. cbn [negb].
    rewrite bind_unit. fold (copy_counter ev). rewrite bind_unit, exec_gets.
    do 3 eexists. split; [reflexivity|]. split; [|split; [exact Hd|]; split; [exact Hm|]; split; [|split; [by eapply same_host_quiet|done]]].
    + apply effect_emit; [done|]. apply effect_count. apply effect_refl.
    + intros k Hne2. destruct (Hk3 k Hne2) as [E|E]; unfold only_new_dirs; rewrite Hf2 in E; auto.
Qed.

(** An up-to-date copy is left alone. *)
Lemma process_file_skips ev a sn bn r x m c :
  let rel := r ++ [x] in
  quiet (app_os a) -> tree_ok (os_fs (app_os a)) -> ev_path ev = render (sn ++ rel) ->
  area (os_fs (app_os a)) sn rel -> area (os_fs (app_os a)) bn rel ->
  os_fs (app_os a) !! (sn ++ rel) = Some (NReg m c) ->
  outdated m c (os_fs (app_os a) !! (bn ++ rel)) = false ->
  exists s' a',
    process_file ev (render (bn ++ rel)) a = (Outcome SYSEBA_OK false true, a') /\
    effect a s' (increment SKIPPED (app_stats a)) a' /\ os_fs s' = os_fs (app_os a) /\
    quiet s'.
Proof.
  intros rel Hq Ht Hp [Hsn Hsl _] [Hbn Hbl _] Hf Hout.
  assert (forall p : ppath, p ++ rel <> []) as Hne by (intros p; by destruct p, r).
  unfold process_file, bind at 1. rewrite Hp.
  destruct (regular_plain (app_os a) (sn ++ rel) m c) as (s1 & E1 & Hw1); [done..|].
  rewrite (zoom_os _ _ _ _ E1). cbn [negb]. unfold bind at 1. rewrite sleep_slept.
  pose proof Hw1 as [_ Hf1].
  destruct (files_need_copy_plain (slept ev s1) (sn ++ rel) (bn ++ rel) m c) as (s2 & E2 & Hw2);
    rewrite ?slept_fs, ?Hf1; try done.
  { apply slept_quiet. by eapply same_world_quiet. }
  pose proof Hw2 as [_ Hf2]. rewrite slept_fs, Hf1 in *. rewrite Hout in E2.
  unfold bind at 1. erewrite zoom_os by exact E2. cbn [negb]. unfold skip_event. rewrite bind_unit.
  do 2 eexists. split; [reflexivity|]. split; [apply effect_count, effect_refl|]. split; [by rewrite Hf2|].
  eapply same_world_quiet; [exact Hw2|]. apply slept_quiet. by eapply same_world_quiet.
Qed.

(** The last name in the restore area: marked with the time when it is taken. *)
Definition restored_name (time : Z) (taken : option node) (x : cstr) : cstr :=
  match taken with
  | None => x
  | Some _ => x ++ (c!".") ++ truncate 32 (local_stamp time) ++ []
  end.

Lemma unique_restore_quiet s p x :
  let y := restored_name (os_time s) (os_fs s !! (p ++ [x])) x in
  quiet s -> tree_ok (os_fs s) -> Forall path_name (p ++ [x]) -> Forall path_name (p ++ [y]) ->
  no_links (os_fs s) (p ++ [x]) -> no_links (os_fs s) (p ++ [y]) ->
  zlen (render (p ++ [y])) < SYSEBA_PATH_MAX -> os_fs s !! (p ++ [y]) = None ->
  exists s', syseba_unique_restore_path (render (p ++ [x])) SYSEBA_PATH_MAX s
    = (Some (render (p ++ [y])), s') /\ same_world s s'.
Proof.
  intros y Hq Ht Hx Hy Hlx Hly Hz Hfree. unfold syseba_unique_restore_path, syseba_fs_exists, bind.
  destruct (exists_plain s (p ++ [x])) as (s1 & -> & Hw1); [done..|].
  rewrite node_at_snoc. assert (fits SYSEBA_PATH_MAX (render (p ++ [y])) = true) as Hfit by (by apply Z.ltb_lt).
  unfold y, restored_name in *. destruct (os_fs s !! (p ++ [x])) as [n|]; cbn [ret negb].
  2: { rewrite Hfit. by exists s1. }
  unfold syseba_compact_stamp, gets. assert (os_time s1 = os_time s) as -> by apply Hw1.
  destruct UNIQUE_TRIES as [|tries] eqn:Et; [unfold UNIQUE_TRIES in Et; lia|].
  cbn [first_free]. cbv zeta. unfold restore_candidate at 1 2 3. rewrite Z.eqb_refl.
  set (mark := (c!".") ++ truncate 32 (local_stamp (os_time s)) ++ []) in *.
  rewrite render_snoc_app, Hfit. cbn [negb]. unfold syseba_fs_exists, bind.
  pose proof Hw1 as [_ Hf1].
  destruct (exists_plain s1 (p ++ [x ++ mark])) as (s2 & -> & Hw2);
    rewrite ?Hf1; [by eapply same_world_quiet|done..|].
  rewrite node_at_snoc, Hfree. cbn [ret negb]. exists s2. split; [done|]. by etransitivity.
Qed.

Lemma process_delete_moves ev a bn rn r x n v :
  let rel := r ++ [x] in
  let y := restored_name (os_time (app_os a)) (os_fs (app_os a) !! (rn ++ rel)) x in
  quiet (app_os a) -> tree_ok (os_fs (app_os a)) -> one_device v (os_fs (app_os a)) ->
  area (os_fs (app_os a)) bn rel -> area (os_fs (app_os a)) rn rel ->
  area (os_fs (app_os a)) rn (r ++ [y]) -> creatable (os_fs (app_os a)) (rn ++ r) ->
  os_fs (app_os a) !! (bn ++ rel) = Some n -> is_dir n = false ->
  os_fs (app_os a) !! (rn ++ r ++ [y]) = None ->
  exists s' a',
    process_delete unknown ev (render (bn ++ rel)) (render (rn ++ rel)) a
      = (Outcome SYSEBA_OK false false, a') /\
    effect a s' (increment DELETED (app_stats a)) a' /\
    os_fs s' !! (rn ++ r ++ [y]) = Some n /\ os_fs s' !! (bn ++ rel) = None /\
    (forall k, k <> bn ++ rel -> k <> rn ++ r ++ [y] -> only_new_dirs (rn ++ r) (app_os a) s' k) /\
    quiet s' /\ tree_ok (os_fs s') /\ one_device v (os_fs s').
Proof.
  intros rel y Hq Ht Hv Hb Hr Hy Hc Hn Hnd Hfree.
  assert (r ++ [y] <> []) as Hrel by (by destruct r).
  pose proof (area_length _ _ _ Hrel Hy) as Hlen.
  destruct Hb as [Hbn Hbl _], Hr as [Hrn Hrl _], Hy as [Hyn Hyl _]. subst rel.
  assert (restored_name (os_time (app_os a)) (os_fs (app_os a) !! ((rn ++ r) ++ [x])) x = y) as Ey
    by (by rewrite <- app_assoc).
  clearbody y. rewrite !app_assoc in *. unfold process_delete, bind at 1, syseba_fs_exists, bind at 1.
  destruct (exists_plain (app_os a) ((bn ++ r) ++ [x])) as (s1 & E1 & Hw1); [done..|].
  erewrite zoom_os by (rewrite E1; reflexivity). rewrite node_at_snoc, Hn. cbn [negb].
  pose proof Hw1 as [Hh1 Hf1]. assert (os_time s1 = os_time (app_os a)) as Etime by apply Hh1.
  destruct (unique_restore_quiet s1 (rn ++ r) x) as (s2 & E2 & Hw2);
    rewrite ?Hf1, ?Etime, ?Ey; try done; [by eapply same_world_quiet|lia|].
  rewrite Hf1, Etime, Ey in E2.
  pose proof Hw2 as [_ Hf2]. rewrite Hf1 in Hf2.
  destruct (move_path_quiet unknown s2 (bn ++ r) x (rn ++ r) y n v) as (s3 & E3 & Hd & Hg & Hk & Hend);
    rewrite ?Hf2; try done; [eapply same_world_quiet; [done|]; by eapply same_world_quiet|zlen_lia|].
  cbn [ret]. unfold bind at 1. erewrite zoom_os by exact E2. unfold bind at 1.
  erewrite zoom_os by exact E3. cbn [negb]. rewrite bind_unit, bind_unit, exec_gets.
  do 2 eexists. split; [reflexivity|]. split; [|split; [exact Hd|]; split; [exact Hg|]; split; [|exact Hend]].
  - apply effect_emit; [done|]. apply effect_count, effect_refl.
  - intros k Hk1 Hk2. destruct (Hk k Hk1 Hk2) as [E|E]; unfold only_new_dirs; rewrite Hf2 in E; auto.
Qed.

(** ** The whole handler *)

(** The counters at [completed:]. *)
Definition progress (ev : syseba_event_t) (o : outcome) (x : syseba_stats_t) : syseba_stats_t :=
  if ev_initial_sync ev && negb (ev_is_directory ev) then
    let x := increment INITIAL_DONE x in
    let x := if oc_copied o then increment INITIAL_COPIED x else x in
    if oc_skipped o then increment INITIAL_SKIPPED x else x
  else x.

Lemma effect_progress a s x a' ev o :
  effect a s x a' ->
  effect a s (progress ev o x)
    (exec (if ev_initial_sync ev && negb (ev_is_directory ev)
           then syseba_initial_progress (oc_copied o) (oc_skipped o) else ret tt) a').
Proof.
  intros He. unfold progress. case_if; [|done]. unfold syseba_initial_progress.
  assert (forall (m k : ST syseba_app_t unit) t, exec (m ;;; k) t = exec k (exec m t)) as Hseq.
  { intros m k t. unfold exec, bind. by destruct (m t). }
  rewrite !Hseq. cbv zeta. apply (effect_count _ _ _ INITIAL_DONE) in He.
  destruct (oc_copied o), (oc_skipped o); eauto using effect_count.
Qed.

Definition event_handler (ev : syseba_event_t) (backup restore : cstr) : ST syseba_app_t outcome :=
  match ev_kind ev with
  | SYSEBA_EVENT_DELETE => process_delete unknown ev backup restore
  | _ => if ev_is_directory ev then process_directory ev backup else process_file ev backup
  end.

(** The handler runs on the host that the path computations leave; they change
    nothing but [errno]. *)
Lemma process_event_runs ev a sn bn rn rel :
  quiet (app_os a) -> areas (app_config a) (os_fs (app_os a)) sn bn rn rel ->
  ev_path ev = render (sn ++ rel) ->
  exists s1, same_world (app_os a) s1 /\ forall o a2 s x,
    event_handler ev (render (bn ++ rel)) (render (rn ++ rel)) (with_os s1 a) = (o, a2) ->
    effect (with_os s1 a) s x a2 ->
    exists a', syseba_app_process_event unknown ev a = (oc_result o, a') /\
      effect a s (progress ev o x) a'.
Proof.
  intros Hq Has Hp.
  destruct (event_paths_areas unknown (app_config a) (app_os a) sn bn rn rel)
    as (s1 & E1 & Hw1); [done..|].
  exists s1. split; [done|]. intros o a2 s x E He.
  unfold syseba_app_process_event. rewrite bind_gets, Hp. unfold bind at 1.
  erewrite zoom_os by exact E1. unfold bind at 1. unfold event_handler in E. rewrite E. rewrite bind_unit. eexists. split; [reflexivity|].
  by apply effect_progress.
Qed.

(** A created or modified file is copied. *)
Lemma process_event_copies ev a sn bn rn r x m c :
  let rel := r ++ [x] in
  quiet (app_os a) -> areas (app_config a) (os_fs (app_os a)) sn bn rn rel ->
  ev_path ev = render (sn ++ rel) -> ev_kind ev <> SYSEBA_EVENT_DELETE ->
  ev_is_directory ev = false -> copyable (os_fs (app_os a)) sn bn r x m c ->
  exists s' a' m',
    syseba_app_process_event unknown ev a = (SYSEBA_OK, a') /\
    effect a s' (progress ev (Outcome SYSEBA_OK true false)
                   (increment (copy_counter ev) (app_stats a))) a' /\
    os_fs s' !! (bn ++ rel) = Some (NReg m' c) /\ copied_meta m m' /\
    (forall k, k <> bn ++ rel -> only_new_dirs (bn ++ r) (app_os a) s' k) /\
    quiet s' /\ dir_chain (os_fs s') (bn ++ r).
Proof.
  intros rel Hq Has Hp Hk Hd Hc.
  destruct (process_event_runs ev a sn bn rn rel) as (s1 & Hw1 & Hrun); [done..|].
  pose proof Hw1 as [_ Hf1]. destruct Has as [_ _ _ Ht _ Hs Hb _].
  destruct (process_file_copies ev (with_os s1 a) sn bn r x m c)
    as (s' & a2 & m' & E & He & Hd' & Hm & Hk' & Hrest); simpl app_os; rewrite ?Hf1; try done.
  { by eapply same_world_quiet. }
  edestruct (Hrun (Outcome SYSEBA_OK true false)) as (a' & E' & He'); [|exact He|].
  { unfold event_handler. rewrite Hd. by destruct (ev_kind ev). }
  exists s', a', m'. split; [exact E'|]. split; [exact He'|]. split; [done|]. split; [done|].
  split; [|done]. intros k Hne. destruct (Hk' k Hne) as [Hx|Hx]; unfold only_new_dirs; simpl app_os in Hx;
    rewrite Hf1 in Hx; auto.
Qed.

(** A file whose size and time are those of its copy is skipped. *)
Lemma process_event_skips ev a sn bn rn r x m c :
  let rel := r ++ [x] in
  quiet (app_os a) -> areas (app_config a) (os_fs (app_os a)) sn bn rn rel ->
  ev_path ev = render (sn ++ rel) -> ev_kind ev <> SYSEBA_EVENT_DELETE ->
  ev_is_directory ev = false -> os_fs (app_os a) !! (sn ++ rel) = Some (NReg m c) ->
  outdated m c (os_fs (app_os a) !! (bn ++ rel)) = false ->
  exists s' a',
    syseba_app_process_event unknown ev a = (SYSEBA_OK, a') /\
    effect a s' (progress ev (Outcome SYSEBA_OK false true) (increment SKIPPED (app_stats a))) a' /\
    os_fs s' = os_fs (app_os a) /\ quiet s'.
Proof.
  intros rel Hq Has Hp Hk Hd Hf Ho.
  destruct (process_event_runs ev a sn bn rn rel) as (s1 & Hw1 & Hrun); [done..|].
  pose proof Hw1 as [_ Hf1]. destruct Has as [_ _ _ Ht _ Hs Hb _].
  destruct (process_file_skips ev (with_os s1 a) sn bn r x m c)
    as (s' & a2 & E & He & Hf' & Hq'); simpl app_os; rewrite ?Hf1; try done.
  { by eapply same_world_quiet. }
  edestruct (Hrun (Outcome SYSEBA_OK false true)) as (a' & E' & He'); [|exact He|].
  { unfold event_handler. rewrite Hd. by destruct (ev_kind ev). }
  exists s', a'. split; [exact E'|]. split; [exact He'|]. simpl app_os in Hf'. by rewrite Hf', Hf1.
Qed.

(** The directory of a created directory's event is made in the backup. *)
Lemma process_event_directory ev a sn bn rn rel :
  quiet (app_os a) -> areas (app_config a) (os_fs (app_os a)) sn bn rn rel ->
  ev_path ev = render (sn ++ rel) -> ev_kind ev <> SYSEBA_EVENT_DELETE ->
  ev_is_directory ev = true -> creatable (os_fs (app_os a)) (bn ++ rel) ->
  exists s' a',
    syseba_app_process_event unknown ev a = (SYSEBA_OK, a') /\
    effect a s' (app_stats a) a' /\ quiet s' /\ dir_chain (os_fs s') (bn ++ rel) /\
    (forall k, only_new_dirs (bn ++ rel) (app_os a) s' k).
Proof.
  intros Hq Has Hp Hk Hd Hc.
  destruct (process_event_runs ev a sn bn rn rel) as (s1 & Hw1 & Hrun); [done..|].
  pose proof Hw1 as [_ Hf1]. destruct Has as [_ _ _ Ht Hrel _ Hb _].
  pose proof (area_length _ _ _ Hrel Hb). destruct Hb as [Hbn _ _].
  destruct (mkdirs_quiet 488 (bn ++ rel) s1) as (s2 & E2 & Hh2 & Hg & Hch & Hnew);
    [by eapply same_world_quiet|done|lia|by rewrite Hf1|].
  assert (exists a2, process_directory ev (render (bn ++ rel)) (with_os s1 a)
            = (Outcome SYSEBA_OK false false, a2) /\ effect (with_os s1 a) s2 (app_stats a) a2)
    as (a2 & E & He).
  { unfold process_directory. unfold bind at 1. erewrite zoom_os by exact E2. cbn [negb].
    rewrite bind_unit. eexists. split; [reflexivity|].
    destruct (ev_initial_sync ev); cbn [negb]; [apply effect_refl|].
    rewrite exec_gets. apply effect_emit; [done|]. apply effect_refl. }
  edestruct (Hrun (Outcome SYSEBA_OK false false)) as (a' & E' & He'); [|exact He|].
  { unfold event_handler. rewrite Hd. by destruct (ev_kind ev). }
  exists s2, a'. unfold progress in He'. rewrite Hd, andb_false_r in He'.
  split_and!; [done..|eapply same_host_quiet; [done|by eapply same_world_quiet]|done|].
  intros k. unfold only_new_dirs. rewrite <- Hf1. by apply made_only_new_dirs.
Qed.

(** A deleted file's backup moves to the restore area. *)
Lemma process_event_deletes ev a sn bn rn r x n v :
  let rel := r ++ [x] in
  let y := restored_name (os_time (app_os a)) (os_fs (app_os a) !! (rn ++ rel)) x in
  quiet (app_os a) -> areas (app_config a) (os_fs (app_os a)) sn bn rn rel ->
  ev_path ev = render (sn ++ rel) -> ev_kind ev = SYSEBA_EVENT_DELETE ->
  one_device v (os_fs (app_os a)) -> area (os_fs (app_os a)) rn (r ++ [y]) ->
  creatable (os_fs (app_os a)) (rn ++ r) ->
  os_fs (app_os a) !! (bn ++ rel) = Some n -> is_dir n = false ->
  os_fs (app_os a) !! (rn ++ r ++ [y]) = None ->
  exists s' a',
    syseba_app_process_event unknown ev a = (SYSEBA_OK, a') /\
    effect a s' (progress ev (Outcome SYSEBA_OK false false) (increment DELETED (app_stats a))) a' /\
    os_fs s' !! (rn ++ r ++ [y]) = Some n /\ os_fs s' !! (bn ++ rel) = None /\
    (forall k, k <> bn ++ rel -> k <> rn ++ r ++ [y] -> only_new_dirs (rn ++ r) (app_os a) s' k) /\
    quiet s' /\ tree_ok (os_fs s') /\ one_device v (os_fs s').
Proof.
  intros rel y Hq Has Hp Hk Hv Hy Hc Hn Hnd Hfree.
  destruct (process_event_runs ev a sn bn rn rel) as (s1 & Hw1 & Hrun); [done..|].
  pose proof Hw1 as [Hh1 Hf1]. destruct Has as [_ _ _ Ht _ _ Hb Hr].
  assert (os_time s1 = os_time (app_os a)) as Etime by apply Hh1.
  destruct (process_delete_moves ev (with_os s1 a) bn rn r x n v)
    as (s' & a2 & E & He & Hd1 & Hd2 & Hd3 & Hend); simpl app_os; rewrite ?Hf1, ?Etime; try done.
  { by eapply same_world_quiet. }
  edestruct (Hrun (Outcome SYSEBA_OK false false)) as (a' & E' & He'); [|exact He|].
  { unfold event_handler. by rewrite Hk. }
  simpl app_os in *. rewrite Hf1, Etime in *.
  exists s', a'. split; [exact E'|]. split; [exact He'|]. split; [exact Hd1|]. split; [exact Hd2|].
  split; [|exact Hend]. intros k Hk1 Hk2. destruct (Hd3 k Hk1 Hk2) as [Hx|Hx]; unfold only_new_dirs; rewrite Hf1 in Hx; auto.
Qed.
End Events.

(** ** A copy, and an event *)

Lemma device_write_chunk fuel k chunk copied : keeps (fs_rel keeps_device) (write_chunk fuel k chunk copied).
Proof. revert chunk copied. induction fuel as [|fuel IH]; intros; cbn [write_chunk]; keeps_auto; apply IH. Qed.
#[export] Hint Resolve device_write_chunk : keeps.
Lemma device_copy_loop fuel i o pos copied : keeps (fs_rel keeps_device) (copy_loop fuel i o pos copied).
Proof. revert pos copied. induction fuel as [|fuel IH]; intros; cbn [copy_loop]; keeps_auto; apply IH. Qed.
#[export] Hint Resolve device_copy_loop : keeps.
Lemma device_copy_contents i o st : keeps (fs_rel keeps_device) (copy_contents i o st).
Proof. unfold copy_contents, sys_futimens, sys_fchmod. keeps_auto. Qed.
#[export] Hint Resolve device_copy_contents : keeps.
Lemma device_copy_once s t : keeps (fs_rel keeps_device) (syseba_copy_file_once_posix s t).
Proof. unfold syseba_copy_file_once_posix. keeps_auto. Qed.
Lemma device_replace t p : keeps (fs_rel keeps_device) (syseba_atomic_replace t p).
Proof. unfold syseba_atomic_replace. keeps_auto. Qed.
#[export] Hint Resolve device_copy_once device_replace : keeps.
Lemma device_copy_attempts n source destination attempt attempts :
  keeps (fs_rel keeps_device) (copy_attempts n source destination attempt attempts).
Proof. revert attempt. induction n as [|n IH]; intros; cbn [copy_attempts]; keeps_auto; apply IH. Qed.
#[export] Hint Resolve device_copy_attempts : keeps.
Lemma device_copy_file source destination attempts :
  keeps (fs_rel keeps_device) (syseba_copy_file source destination attempts).
Proof. unfold syseba_copy_file. keeps_auto. Qed.
#[export] Hint Resolve device_copy_file : keeps.
Lemma device_need_copy source destination : keeps (fs_rel keeps_device) (syseba_files_need_copy source destination).
Proof. unfold syseba_files_need_copy. keeps_auto. Qed.
#[export] Hint Resolve device_need_copy : keeps.

(** On a quiet host. *)
Definition device_kept (s s' : os) : Prop := quiet s -> quiet s' /\ keeps_device (os_fs s) (os_fs s').
Definition app_device_kept (a a' : syseba_app_t) : Prop := device_kept (app_os a) (app_os a').
#[export] Instance device_kept_preorder : PreOrder device_kept.
Proof.
  split; [intros s Hq; by split|]. intros s1 s2 s3 H1 H2 Hq.
  destruct (H1 Hq) as [Hq2 K1], (H2 Hq2) as [Hq3 K2]. split; [done|]. by etransitivity.
Qed.
#[export] Instance app_device_kept_preorder : PreOrder app_device_kept.
Proof. unfold app_device_kept. split; [by intros a|]. intros a b c. by etransitivity. Qed.

Lemma device_kept_rel {A} (m : ST os A) : keeps (fs_rel keeps_device) m -> keeps device_kept m.
Proof.
  intros Hm s Hq. destruct (Hm s) as [He Hf]. split; [by eapply quiet_suffix|]. by apply Hf, quiet_unedited.
Qed.
Lemma device_kept_calm {A} (m : ST os A) : keeps calm m -> keeps device_kept m.
Proof.
  intros Hm s Hq. destruct (Hm s Hq) as [Hh Hf]. split; [by eapply same_host_quiet|]. by rewrite Hf.
Qed.
Lemma device_kept_zoom {A} (m : ST os A) : keeps device_kept m -> keeps app_device_kept (zoom (L := lens_os) m).
Proof. exact (keeps_zoom (L := lens_os) device_kept m). Qed.

Section EventDevice.
Context `{DirOrder} `{LocalStamp} `{Strerror} `{Clock}.
Context `{!Allocator syseba_event_t} `{!Allocator syseba_log_record_t}.
Context (unknown : cstr).

Lemma device_emit level operation source target additional message :
  keeps app_device_kept (syseba_log_emit level operation source target additional message).
Proof.
  intros a. destruct (only_log_emit level operation source target additional message a) as [].
  unfold app_device_kept. rewrite ol_os. reflexivity.
Qed.
Lemma device_count c : keeps app_device_kept (syseba_stats_increment c).
Proof. intros a. by unfold app_device_kept. Qed.
Hint Resolve device_emit device_count : keeps.
Hint Extern 1 (keeps app_device_kept (zoom _)) =>
  apply device_kept_zoom; first [by apply device_kept_rel; eauto with keeps typeclass_instances
                                |by apply device_kept_calm; eauto with keeps typeclass_instances] : keeps.

Lemma device_event_paths config path : keeps calm (event_paths unknown config path).
Proof. unfold event_paths. keeps_auto. Qed.
Hint Resolve device_event_paths : keeps.

Lemma device_event ev :
  ev_kind ev <> SYSEBA_EVENT_DELETE -> keeps app_device_kept (syseba_app_process_event unknown ev).
Proof.
  intros Hk.
  unfold syseba_app_process_event, process_directory, process_file, skip_event, syseba_initial_progress.
  destruct (ev_kind ev); [| |done]; keeps_auto.
Qed.

Lemma device_task_done : keeps app_device_kept (zoom (L := lens_event_queue) syseba_queue_task_done).
Proof. intros a. by unfold app_device_kept. Qed.
Hint Resolve device_event device_task_done : keeps.

(** The turn of a worker, on anything but a deletion. *)
Lemma turn_keeps_device ev v a :
  ev_kind ev <> SYSEBA_EVENT_DELETE -> quiet (app_os a) -> one_device v (os_fs (app_os a)) ->
  one_device v (os_fs (app_os (exec (worker_turn unknown ev) a))).
Proof.
  intros Hk Hq Hv. assert (keeps app_device_kept (worker_turn unknown ev)) as Hkeep.
  { unfold worker_turn. keeps_auto. }
  by apply (Hkeep a Hq).
Qed.
End EventDevice.
