(* ===== verification/Demo.v ===== *)
(** * A concrete application

    The configuration, the options and the services on which the witnesses of the
    application's theorems are evaluated, and decision procedures for the
    hypotheses on its file system. *)

From Stdlib Require Import QArith_base.
From S2P Require Import Prelude CString Paths Os OsFacts Platform Fs FsFacts CopyFacts Config ConfigFacts ConfigText FsTree FsTreeFacts Restore RestoreFacts Queue QueueFacts AppState Log LogFacts App PlainFacts WalkFacts AppFacts Examples.

Definition no_links_b (fs : fsmap) (names : ppath) : bool :=
  check_prefixes (fun a => match fs !! a with Some (NLnk _ _) => false | _ => true end) names.

Lemma no_links_b_spec fs names : no_links_b fs names = true -> no_links fs names.
Proof.
  unfold no_links_b. intros H a b m t E Hk. pose proof (check_prefixes_spec _ _ _ _ H E) as P.
  cbv beta in P. by rewrite Hk in P.
Qed.

Definition creatable_b (fs : fsmap) (names : ppath) : bool :=
  check_prefixes (fun a => is_dir_at fs a || match fs !! a with None => true | _ => false end) names.

Lemma creatable_b_spec fs names : creatable_b fs names = true -> creatable fs names.
Proof.
  unfold creatable_b. intros H a b E. pose proof (check_prefixes_spec _ _ _ _ H E) as P. cbv beta in P.
  destruct (is_dir_at fs a); [by left|]. right. by destruct (fs !! a).
Qed.

Definition tree_b (fs : fsmap) : bool :=
  check_keys (fun k _ => match k with [] => true | _ => is_dir_at fs (removelast k) end) fs.

Lemma tree_b_spec fs : tree_b fs = true -> tree_ok fs.
Proof. intros H k n Hk Hne. pose proof (check_keys_spec _ _ H k n Hk) as E. by destruct k. Qed.

Definition area_b (fs : fsmap) (b rel : ppath) : bool :=
  forallb path_name_b (b ++ rel) && no_links_b fs (b ++ rel)
  && (zlen (render b) + zlen (join_with SLASH rel) + 64 <? SYSEBA_PATH_MAX).

Lemma area_b_spec fs b rel : area_b fs b rel = true -> area fs b rel.
Proof.
  intros H. unfold area_b in H. bool_hyps. constructor; [by apply names_b_spec| |done].
  by apply no_links_b_spec.
Qed.

(** Names too short for the mark of a temporary file. *)
Definition short_names_b (fs : fsmap) : bool :=
  check_keys (fun k _ => forallb (fun c => (length c <? 12)%nat) k) fs.

Lemma short_names_b_spec fs p t : short_names_b fs = true -> temp_name t -> fs !! (p ++ [t]) = None.
Proof.
  intros H (a & b & ->). destruct (fs !! _) as [n|] eqn:E; [|done].
  pose proof (check_keys_spec _ _ H _ _ E) as P. cbv beta in P. rewrite forallb_app in P.
  apply andb_true_iff in P as [_ P]. cbn [forallb] in P. rewrite andb_true_r in P.
  apply Nat.ltb_lt in P. rewrite !length_app in P. change (length temp_marker) with 12%nat in P. lia.
Qed.

Definition device_b (v : Z) (fs : fsmap) : bool :=
  check_keys (fun k n => match k with [] => false | _ => m_dev (node_meta n) =? v end) fs && (v =? 0).

Lemma device_b_spec v fs : device_b v fs = true -> one_device v fs.
Proof.
  unfold device_b. intros H. bool_hyps. subst v.
  pose proof (fun k n Hk => check_keys_spec _ _ H k n Hk) as P. cbv beta in P.
  assert (fs !! [] = None) as Hr.
  { destruct (fs !! []) as [n|] eqn:E; [|done]. by specialize (P _ _ E). }
  split; [|done]. intros k n Hk. destruct k as [|x k].
  - simpl in Hk. rewrite Hr in Hk. by injection Hk as <-.
  - specialize (P _ _ Hk). by apply Z.eqb_eq.
Qed.

Definition demo_config : syseba_config_t :=
  Config (c!"/data") (c!"/backup") (c!"/restore") (c!"/log/syseba.log") (c!"/syseba.conf") 4.
Definition options_with_lock (lock_path : cstr) : syseba_options_t :=
  Options (c!"run") (c!"/syseba.conf") lock_path (c!"/run/syseba.db") (c!"/run/token")
    (c!"127.0.0.1") 8765 SYSEBA_LANGUAGE_EN true false false false false false false false false
    (DFin 3) 100 [] [] 1 100 (c!"name") (c!"asc") [].
Definition demo_options : syseba_options_t := options_with_lock (c!"/run/syseba.lock").

#[export] Instance demo_stamp : LocalStamp := fun _ => c!"20240102-030405".
#[export] Instance demo_strerror : Strerror := fun _ => c!"error".
#[export] Instance demo_clock : Clock :=
  {| timestamp_now := fun _ => c!"2024-01-02 03:04:05"; iso_now := fun _ => c!"2024-01-02T03:04:05" |}.
#[export] Instance demo_alloc D : Allocator D :=
  {| alloc_node := fresh_block; alloc_node_free := fresh_block_free |}.

Definition demo_app (host : os) : syseba_app_t := syseba_app_init demo_config demo_options host.
Definition demo_event (kind : syseba_event_kind_t) (path : cstr) : syseba_event_t :=
  Event kind path false false 0.

Lemma demo_areas rel :
  rel <> [] -> area_b example_fs [c!"data"] rel = true -> area_b example_fs [c!"backup"] rel = true ->
  area_b example_fs [c!"restore"] rel = true ->
  areas demo_config example_fs [c!"data"] [c!"backup"] [c!"restore"] rel.
Proof.
  intros. constructor; try done; [|by apply area_b_spec..]. apply tree_b_spec. by vm_compute.
Qed.

Definition walk_b (fs : fsmap) (root : ppath) : bool :=
  tree_b fs && check_keys (fun k _ => forallb path_name_b k && (zlen (render k) <? SYSEBA_PATH_MAX)) fs
  && negb (bool_decide (root = [])) && is_dir_at fs root && no_links_b fs root.

Lemma walk_b_spec fs root : walk_b fs root = true -> walk_ok fs root.
Proof.
  unfold walk_b. intros H. apply andb_true_iff in H as [H Hl]. apply andb_true_iff in H as [H Hd].
  apply andb_true_iff in H as [H Hr]. apply andb_true_iff in H as [Ht Hk].
  pose proof (check_keys_spec _ _ Hk) as P. cbv beta in P. constructor.
  - by apply tree_b_spec.
  - intros k n E. apply P in E. apply andb_true_iff in E as [E _]. by apply names_b_spec.
  - by apply negb_true_iff, bool_decide_eq_false in Hr.
  - done.
  - by apply no_links_b_spec.
  - intros r [n E]. apply P in E. apply andb_true_iff in E as [_ E]. by apply Z.ltb_lt.
Qed.
