(* ===== verification/LifeFacts.v ===== *)
(** * Properties of the life cycle

    What enqueueing accepts, what start leaves behind when it fails, what stop
    always leaves behind, and the lock. *)

From S2P Require Import Prelude CString Paths Os OsFacts Platform Fs FsFacts CopyFacts Config ConfigFacts FsTree Restore Queue QueueFacts AppState Log LogFacts App PlainFacts WalkFacts AppFacts.

(** Name the state after a block that starts by reading the state [s]. *)
Ltac name_gets s t :=
  match goal with
  | |- context [exec (bind (gets ?f) ?k) s] => set (t := exec (bind (gets f) k) s)
  end.

Section Life.
Context `{DirOrder} `{LocalStamp} `{Strerror} `{Clock}.
Context `{!Allocator syseba_event_t} `{!Allocator syseba_log_record_t}.

(** ** The lock *)

Lemma unlock_free k s : k ∉ os_locks (exec (sys_unlock k) s).
Proof.
  simpl. intros Hin. apply list_elem_of_In, filter_In in Hin as [_ Hk].
  apply negb_true_iff, bool_decide_eq_false in Hk. done.
Qed.

Lemma unlock_others k j s : j <> k -> j ∈ os_locks (exec (sys_unlock k) s) <-> j ∈ os_locks s.
Proof.
  intros Hj. simpl. rewrite !list_elem_of_In, filter_In. split; [by intros []|].
  intros Hin. split; [done|]. by apply negb_true_iff, bool_decide_eq_false.
Qed.

(** The lock file of a process that runs: not even truncated. *)
Lemma lock_busy a k m pid :
  quiet (app_os a) -> resolve (app_os a) false (ao_lock_path (app_options_ a)) = Found k -> k <> [] ->
  os_fs (app_os a) !! k = Some (NReg m pid) -> k ∈ os_locks (app_os a) ->
  exists message a', syseba_app_acquire_lock a = (Some (SYSEBA_ERR_BUSY, message), a') /\
    os_fs (app_os a') = os_fs (app_os a) /\ app_lock_file a' = app_lock_file a /\
    os_locks (app_os a') = os_locks (app_os a).
Proof.
  intros Hq Hr Hk Hf Hl. set (s := app_os a) in *.
  assert (node_at (os_fs s) k = Some (NReg m pid)) as Hn by (by destruct k).
  assert (exists message, lock_file_of (ao_lock_path (app_options_ a)) s
    = (inl (SYSEBA_ERR_BUSY, message), with_errno EAGAIN s)) as [message E].
  { eexists. unfold lock_file_of.
    rewrite (bind_run _ _ _ (Some k) s) by (unfold sys_open_creat; by rewrite syscall_quiet, Hr, Hn).
    rewrite (bind_run _ _ _ (Some (NReg m pid)) s) by (unfold sys_fstat; by rewrite syscall_quiet, Hn).
    cbn [is_reg negb]. rewrite (bind_run _ _ _ false (with_errno EAGAIN s)).
    2: { unfold sys_flock. by rewrite syscall_quiet, bool_decide_true. }
    cbn [negb]. erewrite bind_run; [reflexivity|].
    unfold sys_read. rewrite syscall_quiet by done. cbn [os_fs with_errno]. rewrite Hf. reflexivity. }
  exists message, (with_os (with_errno EAGAIN s) a). split; [|done].
  unfold syseba_app_acquire_lock. rewrite bind_gets. by rewrite (bind_run _ _ _ _ _ (zoom_os _ _ _ _ E)).
Qed.

(** Nothing runs and the lock is given up. *)
Record stopped (a : syseba_app_t) : Prop := Stopped {
  sp_running : app_running a = false;
  sp_threads : app_threads a = Threads None false false false false;
  sp_lock : app_lock_file a = None;
}.

Lemma release_lock_spec a :
  let a' := exec syseba_app_release_lock a in
  app_lock_file a' = None /\ app_running a' = app_running a /\ app_threads a' = app_threads a /\
  app_stop_requested a' = app_stop_requested a /\
  forall k, app_lock_file a = Some k -> k ∉ os_locks (app_os a').
Proof.
  unfold syseba_app_release_lock. cbv zeta. rewrite exec_gets.
  destruct (app_lock_file a) as [k|] eqn:E.
  - rewrite exec_bind. split_and!; try done. intros j [= <-].
    change (k ∉ os_locks (exec (sys_unlock k) (app_os a))). apply unlock_free.
  - split_and!; [exact E|done..].
Qed.

(** ** Stop *)

(** What draining the queue may do: the workers neither start threads nor touch
    the lock. *)
Definition drains (drain : syseba_app_t -> syseba_app_t) : Prop :=
  forall a, app_threads (drain a) = app_threads a /\ app_lock_file (drain a) = app_lock_file a.

Lemma log_stop_spec drain a :
  let a' := exec (syseba_log_stop drain) a in
  let t := app_threads a in
  app_threads a' = Threads (th_workers t) false (th_initial t) (th_watcher t) (th_web t) /\
  app_lock_file a' = app_lock_file a /\ app_stop_requested a' = app_stop_requested a.
Proof.
  cbv zeta. unfold syseba_log_stop. rewrite exec_gets.
  destruct (th_log (app_threads a)) eqn:E; cbn [negb].
  - done.
  - split; [|done]. change (app_threads (exec (ret tt) a)) with (app_threads a).
    destruct (app_threads a). simpl in E |- *. by rewrite E.
Qed.

Lemma app_stop_spec drain drain_log a :
  drains drain ->
  let a' := exec (syseba_app_stop drain drain_log) a in
  stopped a' /\ forall k, app_lock_file a = Some k -> k ∉ os_locks (app_os a').
Proof.
  intros Hd. cbv zeta. unfold syseba_app_stop, set_threads. do 5 rewrite exec_bind.
  set (a1 := exec (modify _) (exec syseba_app_set_stopping a)).
  assert (app_threads a1 = Threads (th_workers (app_threads a)) (th_log (app_threads a))
            false false false) as Ht1 by done.
  assert (app_lock_file a1 = app_lock_file a) as Hl1 by done. clearbody a1.
  name_gets a1 a2.
  assert (app_lock_file a2 = app_lock_file a /\
    app_threads a2 = Threads None (th_log (app_threads a)) false false false) as [Hl2 Ht2].
  { unfold a2. rewrite exec_gets, Ht1. destruct (Hd a1) as [Hdt Hdl]. simpl.
    destruct (th_workers (app_threads a)) as [n|].
    - rewrite !exec_bind. change (app_lock_file (drain a1) = app_lock_file a /\
        Threads None (th_log (app_threads (drain a1))) (th_initial (app_threads (drain a1)))
          (th_watcher (app_threads (drain a1))) (th_web (app_threads (drain a1))) =
        Threads None (th_log (app_threads a)) false false false).
      by rewrite Hdl, Hdt, Ht1.
    - change (app_lock_file a1 = app_lock_file a /\
        app_threads a1 = Threads None (th_log (app_threads a)) false false false).
      by rewrite Hl1, Ht1. }
  clearbody a2. name_gets a2 a3.
  assert (app_lock_file a3 = app_lock_file a /\ app_threads a3 = Threads None false false false false)
    as [Hl3 Ht3].
  { unfold a3. rewrite exec_gets, Ht2. simpl th_log.
    destruct (th_log (app_threads a)); [|by split].
    rewrite exec_gets, exec_bind. set (a4 := exec (syseba_log_emit _ _ _ _ _ _) a2).
    assert (only_log a2 a4) as [] by apply only_log_emit.
    destruct (log_stop_spec drain_log a4) as (-> & -> & _).
    rewrite ol_lock, ol_threads, Ht2. done. }
  clearbody a3.
  destruct (release_lock_spec (exec (modify (with_running false)) a3)) as (R1 & R2 & R3 & _ & R4).
  split.
  - constructor; [by rewrite R2|by rewrite R3|done].
  - intros k Hk. apply R4. simpl. by rewrite Hl3.
Qed.

(** ** Start *)

Lemma zoom_os_run {A} (m : ST os A) a :
  exists r s, zoom (L := lens_os) m a = (r, with_os s a).
Proof. unfold zoom. simpl. destruct (m (app_os a)) as [r s]. by exists r, s. Qed.

Lemma acquire_lock_spec a :
  exists (r : failure + ppath) s, syseba_app_acquire_lock a =
    match r with inl e => (Some e, with_os s a) | inr k => (None, with_lock_file (Some k) (with_os s a)) end.
Proof.
  unfold syseba_app_acquire_lock. rewrite bind_gets. unfold bind at 1.
  destruct (zoom_os_run (lock_file_of (ao_lock_path (app_options_ a))) a) as ([e|k] & s & ->).
  - by exists (inl e), s.
  - by exists (inr k), s.
Qed.

Lemma log_start_spec created a :
  exists (r : bool) s, syseba_log_start created a =
    let t := app_threads a in
    (r, if r then with_threads (Threads (th_workers t) true (th_initial t) (th_watcher t) (th_web t))
                    (with_os s a) else with_os s a).
Proof.
  unfold syseba_log_start. rewrite bind_gets.
  assert (with_os (app_os a) a = a) as Ha by (by destruct a).
  destruct (syseba_parent_dir _ _) as [parent|].
  2: { exists false, (app_os a). by rewrite Ha. }
  unfold bind at 1. destruct (zoom_os_run (syseba_mkdirs parent 488) a) as ([] & s & ->); cbn [negb].
  - destruct created; [by exists true, s|by exists false, s].
  - by exists false, s.
Qed.

(** The threads of a service that runs. *)
Definition started_threads (a : syseba_app_t) : threads :=
  let web_only := ao_web_only (app_options_ a) in
  Threads (if web_only then None else Some (cfg_threads (app_config a))) true
    (negb web_only && negb (ao_no_initial_sync (app_options_ a))) (negb web_only)
    (ao_web_enabled (app_options_ a)).

(** What start leaves behind: nothing when it fails. *)
Definition start_result (a : syseba_app_t) (r : option failure) (a' : syseba_app_t) : Prop :=
  match r with
  | Some _ => stopped a'
  | None =>
      app_running a' = negb (ao_web_only (app_options_ a)) /\
      app_threads a' = started_threads a /\
      (is_Some (app_lock_file a') <-> ao_web_only (app_options_ a) = false)
  end.

(** A stage of the start: what holds of the fields it concerns. *)
Record stage (a0 a : syseba_app_t) (running : bool) (t : threads) : Prop := Stage {
  sg_options : app_options_ a = app_options_ a0;
  sg_config : app_config a = app_config a0;
  sg_lock : is_Some (app_lock_file a) <-> ao_web_only (app_options_ a0) = false;
  sg_running : app_running a = running;
  sg_threads : app_threads a = t;
}.


(** The stage of the locking. *)
Lemma start_lock_stage a s :
  stopped a ->
  exists lr a1, (if ao_web_only (app_options_ a) then ret None else syseba_app_acquire_lock) (with_os s a)
      = (lr, a1) /\
    match lr with
    | Some _ => stopped a1
    | None => stage a a1 false (Threads None false false false false)
    end.
Proof.
  intros [Hr Ht Hl]. destruct (ao_web_only (app_options_ a)) eqn:Ew.
  - do 2 eexists. split; [reflexivity|]. constructor; try done. simpl. rewrite Hl, Ew.
    by split; [intros []|].
  - destruct (acquire_lock_spec (with_os s a)) as ([e|k] & s2 & ->); do 2 eexists;
      (split; [reflexivity|]); constructor; try done.
Qed.

Lemma start_service_stage answers a a3 :
  let w := ao_web_only (app_options_ a) in
  stage a a3 (negb w) (Threads None true false false false) ->
  exists f a4 t, start_service answers a a3 = (f, a4) /\ stage a a4 (negb w) t /\
    (f = None -> t = Threads (if w then None else Some (cfg_threads (app_config a))) true
                       (negb w && negb (ao_no_initial_sync (app_options_ a))) (negb w) false).
Proof.
  intros w [? ? ? ? Ht3]. unfold start_service. fold w.
  destruct w; [do 3 eexists; by split_and!|]. cbv zeta.
  destruct (sa_pool answers); cbn [negb]; [|do 3 eexists; by split_and!].
  rewrite bind_unit. destruct (_ <? cfg_threads _) eqn:Ew.
  { do 3 eexists. split; [reflexivity|]. by split; [constructor|]. }
  bool_hyps. replace (Z.min (cfg_threads (app_config a)) (sa_workers answers))
    with (cfg_threads (app_config a)) by lia.
  destruct (sa_watcher answers); cbn [negb].
  2: { do 3 eexists. split; [reflexivity|]. split; [by constructor|]. by simpl. }
  rewrite bind_unit. destruct (ao_no_initial_sync _).
  { do 3 eexists. split; [reflexivity|]. split; [by constructor|]. simpl. by rewrite Ht3. }
  destruct (sa_initial_thread answers).
  - rewrite bind_unit. do 3 eexists. split; [reflexivity|]. split; [by constructor|].
    simpl. by rewrite Ht3.
  - do 3 eexists. split; [reflexivity|]. split; [by constructor|]. by simpl.
Qed.

Lemma start_web_stage answers a a4 t4 f :
  let w := ao_web_only (app_options_ a) in
  stage a a4 (negb w) t4 ->
  (f = None -> t4 = Threads (if w then None else Some (cfg_threads (app_config a))) true
                      (negb w && negb (ao_no_initial_sync (app_options_ a))) (negb w) false) ->
  exists g a5 t, start_web answers a f a4 = (g, a5) /\ stage a a5 (negb w) t /\
    (g = None -> t = started_threads a).
Proof.
  intros w H4 Hf4. unfold start_web. destruct f as [m|]; [do 3 eexists; by split_and!|].
  specialize (Hf4 eq_refl). subst t4. destruct H4 as [? ? ? ? Ht4]. unfold started_threads. fold w.
  destruct (ao_web_enabled _) eqn:Eweb; [destruct (sa_web answers) as [m|]|].
  - do 3 eexists. split; [reflexivity|]. by split; [constructor|].
  - rewrite bind_unit. do 3 eexists. split; [reflexivity|]. split; [by constructor|].
    simpl. by rewrite Ht4.
  - do 3 eexists. split; [reflexivity|]. by split; [constructor|].
Qed.

Lemma app_start_spec answers drain drain_log a r a' :
  drains drain -> stopped a ->
  syseba_app_start answers drain drain_log a = (r, a') -> start_result a r a'.
Proof.
  intros Hd Hs. unfold syseba_app_start. rewrite bind_gets. unfold id.
  unfold bind at 1. destruct (zoom_os_run (syseba_prepare_runtime_paths a) a) as ([[e m]|] & s & ->).
  { intros [= <- <-]. by destruct Hs. }
  destruct (start_lock_stage a s Hs) as (lr & a1 & E1 & H1'). rewrite (bind_run _ _ _ _ _ E1).
  destruct lr as [[e m]|]; [by intros [= <- <-]|]. destruct H1' as [? ? ? ? Ht1].
  assert (exists ok a2, (match sa_database answers with
    | None => syseba_log_start (sa_log_thread answers) | Some _ => ret false end) a1 = (ok, a2) /\ stage a a2 false (Threads None ok false false false))
    as (ok & a2 & E2 & Hs2).
  { destruct (sa_database answers) as [m|]; [do 2 eexists; by split|].
    destruct (log_start_spec (sa_log_thread answers) a1) as (ok & s2 & ->). do 2 eexists.
    split; [reflexivity|]. cbv zeta. rewrite Ht1. by destruct ok. }
  rewrite (bind_run _ _ _ _ _ E2). clear E2. destruct ok; cbn [negb].
  2: { rewrite bind_unit. intros [= <- <-]. destruct Hs2 as [].
       destruct (release_lock_spec a2) as (R1 & R2 & R3 & _). constructor; congruence. }
  rewrite bind_unit, bind_unit. set (a3 := exec (modify _) (exec _ a2)).
  assert (stage a a3 (negb (ao_web_only (app_options_ a))) (Threads None true false false false)) as H3
    by (by destruct Hs2).
  destruct (start_service_stage answers a a3) as (f & a4 & t4 & E4 & H4 & Hf4); [done..|].
  rewrite (bind_run _ _ _ _ _ E4).
  destruct (start_web_stage answers a a4 t4 f) as (g & a5 & t5 & E5 & H5 & Hf5); [done..|].
  rewrite (bind_run _ _ _ _ _ E5). destruct H5 as [? ? Hl5 Hr5 Ht5]. destruct g as [m|].
  - rewrite bind_unit. intros [= <- <-]. by apply app_stop_spec.
  - rewrite bind_gets, (bind_run _ _ _ (os_pid (app_os a5)) (with_os (app_os a5) a5)) by done.
    rewrite bind_unit. intros [= <- <-]. set (a6 := exec (syseba_log_emit _ _ _ _ _ _) _).
    assert (only_log a5 a6) as [] by (etransitivity; [|apply only_log_emit]; by destruct a5).
    unfold start_result. rewrite ol_lock, ol_threads, ol_running, Hr5, Ht5, Hf5 by done. done.
Qed.

(** ** Enqueueing *)

Lemma push_refused {D} alloc (d : D) q q' : syseba_queue_push alloc d q = (false, q') -> q' = q.
Proof.
  unfold syseba_queue_push. destruct (alloc _); [|by intros [= <-]].
  destruct (q_closed q); [by intros [= <-]|]. by destruct (q_tail q).
Qed.

Lemma enqueue_cases allocated kind path directory initial a r a' :
  syseba_app_enqueue_internal allocated kind path directory initial a = (r, a') ->
  (r <> SYSEBA_OK /\ app_event_queue a' = app_event_queue a) \/
  (r = SYSEBA_OK /\ app_stop_requested a = false /\
   value (syseba_path_is_within (cfg_source (app_config a)) path) (app_os a) = true /\
   fits SYSEBA_PATH_MAX path = true /\
   exists ns, syseba_queue_push alloc_node (Event kind path directory initial ns)
                (app_event_queue a) = (true, app_event_queue a')).
Proof.
  unfold syseba_app_enqueue_internal, syseba_app_is_stopping. rewrite !bind_gets.
  destruct (app_stop_requested a).
  { unfold bind at 1. unfold ret at 1. intros [= <- <-]. by left. }
  unfold bind at 1 2.
  destruct (syseba_path_is_within (cfg_source (app_config a)) path (app_os a)) as [w s] eqn:Ew.
  rewrite (zoom_os _ _ _ _ Ew). unfold value. rewrite Ew. simpl fst. unfold ret at 1.
  destruct w; cbn [negb]; [|intros [= <- <-]; by left].
  destruct allocated; cbn [negb]; [|intros [= <- <-]; by left].
  rewrite (bind_run _ _ _ (os_mono s) (with_os s a)) by done.
  destruct (fits _ _) eqn:Ef; cbn [negb]; [|intros [= <- <-]; by left].
  rewrite bind_unit. unfold bind, zoom. simpl.
  destruct (syseba_queue_push _ _ _) as [[] q] eqn:Eq; intros [= <- <-].
  - right. split_and!; try done. by exists (os_mono s).
  - left. split; [done|]. by apply push_refused in Eq as ->.
Qed.
End Life.
