(* ===== verification/SyncFacts.v ===== *)
(** * The initial synchronization

    On a quiet host it gives the workers one event for every file and directory of
    the source. *)

From S2P Require Import Prelude CString Paths Os OsFacts Platform Fs FsFacts CopyFacts Config ConfigFacts ConfigText FsTree FsTreeFacts Restore Queue QueueFacts AppState Log LogFacts App PlainFacts WalkFacts AppFacts LifeFacts.

(** ** Containment of what exists *)

(** A host after a successful [realpath]. *)
Definition touched (s : os) : os :=
  match os_realpath_errno s with Some e => with_errno e s | None => s end.

Lemma touched_twice s : touched (touched s) = touched s.
Proof. unfold touched. destruct (os_realpath_errno s) eqn:E; cbn; by rewrite E. Qed.

Lemma touched_world s : same_world s (touched s).
Proof. unfold touched. destruct (os_realpath_errno s); [apply same_world_errno|reflexivity]. Qed.

Lemma touched_realpath s : os_realpath_errno (touched s) = os_realpath_errno s.
Proof. unfold touched. by destruct (os_realpath_errno s) eqn:E. Qed.

Lemma touched_mono s : os_mono (touched s) = os_mono s.
Proof. unfold touched. by destruct (os_realpath_errno s). Qed.

Lemma realpath_present s names :
  quiet s -> Forall path_name names -> no_links (os_fs s) names ->
  tree_ok (os_fs s) -> is_Some (node_at (os_fs s) names) ->
  sys_realpath (render names) s = (Some (render names), touched s).
Proof. intros Hq. intros. unfold sys_realpath. by rewrite syscall_quiet, resolve_present. Qed.

Lemma resolve_links_present s names :
  quiet s -> Forall path_name names -> no_links (os_fs s) names ->
  tree_ok (os_fs s) -> is_Some (node_at (os_fs s) names) -> zlen (render names) < SYSEBA_PATH_MAX ->
  syseba_path_resolve_links (render names) SYSEBA_PATH_MAX s = (Some (render names), touched s).
Proof.
  intros Hq Hn Hl Ht Hs Hz. unfold syseba_path_resolve_links.
  rewrite (bind_run _ _ _ (Some (render names)) s) by (by apply path_real_os_id; [|done|lia]).
  assert (fits SYSEBA_PATH_MAX (render names) = true) as Hfit by (by apply Z.ltb_lt).
  rewrite Hfit. cbn [negb].
  rewrite (bind_run _ _ _ (Some (render names)) s).
  2: { cbn [probe_existing]. rewrite (bind_run _ _ _ true s); [done|].
    unfold syseba_fs_exists. rewrite (bind_run _ _ _ (node_at (os_fs s) names) s) by (by apply lstat_present).
    by destruct Hs as [n ->]. }
  rewrite (bind_run _ _ _ (Some (render names)) (touched s)) by (by apply realpath_present).
  rewrite drop_all, app_nil_r, Hfit. cbn [negb]. apply path_real_os_id; [done|done|lia].
Qed.

Lemma is_within_present s b c :
  quiet s -> tree_ok (os_fs s) ->
  (forall p, p = b \/ p = c -> Forall path_name p /\ no_links (os_fs s) p /\
     is_Some (node_at (os_fs s) p) /\ zlen (render p) < SYSEBA_PATH_MAX) ->
  syseba_path_is_within (render b) (render c) s = (bool_decide (b `prefix_of` c), touched s).
Proof.
  intros Hq Ht Hp. destruct (Hp b) as (Hb & Hlb & Hsb & Hzb); [by left|].
  destruct (Hp c) as (Hc & Hlc & Hsc & Hzc); [by right|]. unfold syseba_path_is_within.
  rewrite (bind_run _ _ _ (Some (render b)) (touched s)) by (by apply resolve_links_present).
  destruct (touched_world s) as [Hh Hf].
  rewrite (bind_run _ _ _ (Some (render c)) (touched s)).
  2: { rewrite <- touched_twice at 2. apply resolve_links_present; rewrite ?Hf; try done.
       eapply same_world_quiet; [apply touched_world|done]. }
  unfold ret. f_equal. pose proof (within_text_spec b c Hb Hc) as Hw.
  destruct (within_text _ _) eqn:E, (bool_decide _) eqn:Ed; bool_hyps; naive_solver.
Qed.

Section Sync.
Context `{DirOrder} `{LocalStamp} `{Strerror} `{Clock}.
Context `{!Allocator syseba_event_t} `{!Allocator syseba_log_record_t}.
Context (a0 : syseba_app_t) (sn : ppath) (fs : fsmap).
Context (Hsource : cfg_source (app_config a0) = render sn) (Hwalk : walk_ok fs sn).
Context (Halloc : forall h, @alloc_node syseba_event_t _ h <> None).

#[local] Existing Instance App.lens_sync.
#[local] Existing Instance App.lens_sync_os.

(** What the walks leave as it is. *)
Record unchanged (a : syseba_app_t) : Prop := Unchanged {
  un_config : app_config a = app_config a0;
  un_stopping : app_stop_requested a = false;
  un_realpath : os_realpath_errno (app_os a) = os_realpath_errno (app_os a0);
  un_mono : os_mono (app_os a) = os_mono (app_os a0);
}.

Definition sync_event (kd : ppath * bool) : syseba_event_t :=
  Event SYSEBA_EVENT_CREATE (render (fst kd)) (snd kd) true (os_mono (app_os a0)).

Definition files_of (l : list (ppath * bool)) : list (ppath * bool) :=
  List.filter (fun kd => negb (snd kd)) l.

(** The first walk counts. *)
Definition counted (total : syseba_stats_t) (q : syseba_queue_t syseba_event_t)
    (l : list (ppath * bool)) (s : sync_context * syseba_app_t) : Prop :=
  unchanged (snd s) /\ sc_files (fst s) = wrap64 (zlen (files_of l)) /\ sc_errors (fst s) = 0 /\
  app_stats (snd s) = total /\ app_event_queue (snd s) = q.

(** The second one enqueues. *)
Definition enqueued (total : Z) (l : list (ppath * bool)) (s : sync_context * syseba_app_t) : Prop :=
  unchanged (snd s) /\
  (initial_total (app_stats (snd s)) = total /\ initial_done (app_stats (snd s)) = 0) /\
  (zlen l <= U64_MAX -> sc_errors (fst s) = 0 /\
   q_closed (app_event_queue (snd s)) = false /\
   represents (app_event_queue (snd s)) (map sync_event l)).

(** What the containment test of the enqueuing leaves in [errno]. *)
Definition errno_kept : Prop := os_realpath_errno (app_os a0) = None.
Definition errno_lost : Prop := exists e, os_realpath_errno (app_os a0) = Some e /\ e <> E_OK.

Lemma wrap64_succ_count l kd :
  wrap64 (zlen (files_of (l ++ [kd]))) =
    if snd kd then wrap64 (zlen (files_of l)) else wrap64 (wrap64 (zlen (files_of l)) + 1).
Proof.
  unfold files_of. rewrite List.filter_app, zlen_app. simpl. destruct (snd kd); simpl.
  - by rewrite Z.add_0_r.
  - change (zlen [kd]) with 1. unfold wrap64. by rewrite Z.add_mod_idemp_l by lia.
Qed.

Lemma count_call total q l k n s :
  counted total q l s -> good fs True s ->
  exists s', syseba_sync_walk false (render k) (is_dir n) s = (true, s') /\
    counted total q (l ++ [(k, is_dir n)]) s' /\ good fs True s'.
Proof.
  destruct s as [c a]. intros (Hu & Hf & He & Ht & Hqe) Hg. cbn [fst snd] in *. unfold syseba_sync_walk.
  rewrite (bind_run _ _ _ false (c, a)).
  2: { unfold zoom. simpl. by rewrite (un_stopping _ Hu). }
  unfold counted. cbn [fst snd] in *. rewrite wrap64_succ_count, <- Hf. cbn [snd].
  destruct (is_dir n).
  - by exists (c, a).
  - exists (SyncContext (wrap64 (sc_files c + 1)) (sc_errors c), a). split; [done|].
    split; [by split_and!|]. by destruct Hg.
Qed.

Lemma enqueue_exact a k d n :
  unchanged a -> quiet (app_os a) -> os_fs (app_os a) = fs -> Forall path_name k -> no_links fs k ->
  zlen (render k) < SYSEBA_PATH_MAX -> sn `prefix_of` k -> k <> [] -> fs !! k = Some n ->
  syseba_app_enqueue_initial true SYSEBA_EVENT_CREATE (render k) d a =
    let '(pushed, q) := syseba_queue_push alloc_node (sync_event (k, d)) (app_event_queue a) in
    (if pushed then SYSEBA_OK else SYSEBA_ERR,
     with_event_queue q (with_stats (increment QUEUED_EVENTS (app_stats a))
       (with_os (touched (app_os a)) a))).
Proof.
  intros [Hc Hst Hre Hm] Hq Hf Hk Hl Hz Hp Hne Hn.
  destruct (walk_root _ _ Hwalk) as (Hsn & _ & Hss & Hsz).
  unfold syseba_app_enqueue_initial, syseba_app_enqueue_internal, syseba_app_is_stopping.
  rewrite !bind_gets, Hst, Hc, Hsource.
  set (a1 := with_os (touched (app_os a)) a).
  rewrite (bind_run _ _ _ false a1).
  2: { rewrite (bind_run _ _ _ true a1); [done|]. apply zoom_os.
    rewrite is_within_present; [by rewrite bool_decide_true|done|by rewrite Hf; apply Hwalk|].
    rewrite Hf. intros p [->| ->].
    - split_and!; try done. apply Hwalk.
    - split_and!; try done. unfold node_at. destruct k; [done|]. by eexists. }
  cbn [negb]. rewrite (bind_run _ _ _ (os_mono (app_os a1)) a1) by (by unfold a1; destruct a).
  assert (fits SYSEBA_PATH_MAX (render k) = true) as -> by (by apply Z.ltb_lt). cbn [negb].
  assert (os_mono (app_os a1) = os_mono (app_os a0)) as -> by (unfold a1; cbn; by rewrite touched_mono).
  rewrite bind_unit. unfold bind, zoom. simpl.
  by destruct (syseba_queue_push _ _ _) as [[] q].
Qed.

Lemma enqueue_call total l k n s :
  enqueued total l s -> good fs errno_kept s -> Forall path_name k -> no_links fs k ->
  zlen (render k) < SYSEBA_PATH_MAX -> (exists c r, k = sn ++ c :: r) -> fs !! k = Some n ->
  exists s', syseba_sync_walk true (render k) (is_dir n) s = (true, s') /\
    enqueued total (l ++ [(k, is_dir n)]) s' /\ good fs errno_kept s' /\
    (errno_lost -> os_errno (lget s') <> E_OK).
Proof.
  destruct s as [c a]. intros (Hu & Ht & Hr) Hg Hk Hl Hz (x & r & Ek) Hn. cbn [fst snd] in *.
  destruct Hg as [Hq Hf He]. cbn in Hq, Hf, He. unfold syseba_sync_walk.
  rewrite (bind_run _ _ _ false (c, a)).
  2: { unfold zoom. simpl. by rewrite (un_stopping _ Hu). }
  rewrite bind_unit. set (c1 := if is_dir n then c else SyncContext (wrap64 (sc_files c + 1)) (sc_errors c)).
  assert (exec (if is_dir n then ret tt else count_file) (c, a) = (c1, a)) as ->
    by (unfold c1; by destruct (is_dir n)).
  assert (sc_errors c1 = sc_errors c) as Ec by (unfold c1; by destruct (is_dir n)).
  pose proof (enqueue_exact a k (is_dir n) n Hu Hq Hf Hk Hl Hz) as E.
  specialize (E ltac:(rewrite Ek; by apply prefix_app_r)
                ltac:(rewrite Ek; by destruct sn) Hn).
  destruct (syseba_queue_push alloc_node (sync_event (k, is_dir n)) (app_event_queue a))
    as [pushed q] eqn:Ep.
  set (a1 := with_event_queue q (with_stats _ (with_os (touched (app_os a)) a))) in *.
  assert (unchanged a1) as Hu1.
  { destruct Hu. constructor; cbn; [done|done|by rewrite touched_realpath|by rewrite touched_mono]. }
  destruct (touched_world (app_os a)) as [_ Hfs].
  exists (if pushed then c1 else SyncContext (sc_files c1) (sc_errors c1 + 1), a1).
  split; [|split; [|split]].
  - set (c2 := if pushed then c1 else _). rewrite (bind_run _ _ _ tt (c2, a1)); [done|].
    rewrite (bind_run _ _ _ (if pushed then SYSEBA_OK else SYSEBA_ERR) (c1, a1)).
    + unfold c2. by destruct pushed.
    + unfold zoom. cbn [lget App.lens_sync snd]. rewrite E. by destruct pushed.
  - split; [done|]. split; [done|]. intros Hlen. cbn [fst snd].
    rewrite zlen_app in Hlen. change (zlen [(k, is_dir n)]) with 1 in Hlen.
    destruct Hr as (Her & Hcl & Hrep); [pose proof (zlen_nonneg l); lia|].
    assert (pushed = true) as ->.
    { unfold syseba_queue_push in Ep. destruct (alloc_node _) eqn:Ea; [|by apply Halloc in Ea].
      rewrite Hcl in Ep. destruct (q_tail _); by injection Ep as <- <-. }
    rewrite Ec. split; [done|].
    apply (push_represents _ _ _ _ (map sync_event l)) in Ep as (Hrep' & _ & Hcl' & _);
      [|done|rewrite zlen_map; lia|apply alloc_node_free].
    split; [done|]. by rewrite map_app.
  - constructor; cbn.
    + by eapply same_world_quiet; [apply touched_world|].
    + by rewrite Hfs.
    + intros Hk0. unfold touched. rewrite (un_realpath _ Hu), Hk0. by apply He.
  - intros (e & Ee & Hne). cbn. unfold touched. by rewrite (un_realpath _ Hu), Ee.
Qed.

Lemma visited_size b D l : visited fs b D l -> (length l <= size fs)%nat.
Proof.
  intros (Hn & Hc & _).
  assert (forall kd, kd ∈ l -> exists n, fs !! fst kd = Some n /\ is_dir n = snd kd) as Hl.
  { intros kd Hin. apply Hc in Hin as (_ & n & Hk & _ & Hd). by exists n. }
  assert (NoDup (map fst l)) as Hnk.
  { apply NoDup_fmap_2_strong; [|done]. intros [k d] [k' d'] Hi1 Hi2 Ek. simpl in Ek. subst k'.
    destruct (Hl _ Hi1) as (n & Hn1 & Hd1), (Hl _ Hi2) as (n' & Hn2 & Hd2). simpl in *. congruence. }
  rewrite <- (length_map fst l), <- size_dom, <- (size_list_to_set (C := gset ppath)) by done.
  apply subseteq_size. intros k Hk. apply elem_of_list_to_set, list_elem_of_In, in_map_iff in Hk as (kd & <- & Hin).
  apply list_elem_of_In, Hl in Hin as (n & Hk & _). apply elem_of_dom. by eexists.
Qed.

(** Starting the synchronization. *)
Context (Hu : unchanged a0) (Hg : quiet (app_os a0)) (Hfs : os_fs (app_os a0) = fs).
Context (Hidle : initial_running (app_stats a0) = false).
Context (Hempty : represents (app_event_queue a0) []) (Hopen : q_closed (app_event_queue a0) = false).
Context (Hsize : Z.of_nat (size fs) < U64_MAX).

Lemma count_walk c a :
  unchanged a -> quiet (app_os a) -> os_fs (app_os a) = fs -> sc_files c = 0 -> sc_errors c = 0 ->
  exists c' a' l, syseba_walk_files (syseba_sync_walk false) (render sn) (c, a) = (true, (c', a')) /\
    counted (app_stats a) (app_event_queue a) l (c', a') /\ good fs True (c', a') /\
    covers fs (below sn) l.
Proof.
  intros Hua Hqa Hfa Hc0 Hc1.
  destruct (walk_files_covers (syseba_sync_walk false) fs sn
              (counted (app_stats a) (app_event_queue a)) (c, a))
    as ([c' a'] & l & E & HP & Hg' & Hcov).
  - intros l [cc aa] (H1' & H2'). split; [by destruct H1'; constructor|done].
  - intros l k n s HP Hgs _ _ _ _ _ _. by apply count_call.
  - done.
  - by split_and!.
  - done.
  - done.
  - by exists c', a', l.
Qed.

Lemma enqueue_walk total c a :
  unchanged a -> quiet (app_os a) -> os_fs (app_os a) = fs -> sc_errors c = 0 ->
  initial_total (app_stats a) = total /\ initial_done (app_stats a) = 0 ->
  represents (app_event_queue a) [] -> q_closed (app_event_queue a) = false ->
  exists c' a' l ok, syseba_walk_files (syseba_sync_walk true) (render sn) (c, a) = (ok, (c', a')) /\
    unchanged a' /\ (initial_total (app_stats a') = total /\ initial_done (app_stats a') = 0) /\
    sc_errors c' = 0 /\ represents (app_event_queue a') (map sync_event l) /\
    visited fs ok (below sn) l /\ good fs errno_kept (c', a') /\ (errno_kept -> ok = true) /\
    (errno_lost -> ok = true -> passed fs (fun k => k = sn \/ below sn k)).
Proof.
  intros Hua Hqa Hfa Hc Ht Hr Hcl.
  destruct (walk_files_visits (syseba_sync_walk true) fs sn errno_kept errno_lost (enqueued total))
    with (l := @nil (ppath * bool)) (s := (c, a)) as ([c' a'] & l & ok & E & HP & Hg' & Hv & Hk & Hlost).
  - intros l [cc aa] (H1' & H2'). split; [by destruct H1'; constructor|done].
  - intros l k n s HP Hgs Hk Hl Hz Hb Hn _. by apply enqueue_call.
  - done.
  - split; [done|]. split; [done|]. intros _. by split_and!.
  - done.
  - done.
  - destruct HP as (Hu' & Ht' & Hrest). destruct Hrest as (He & _ & Hrep).
    { pose proof (visited_size _ _ _ Hv). unfold zlen. simpl. lia. }
    by exists c', a', l, ok.
Qed.

Lemma covers_perm D l1 l2 : covers fs D l1 -> covers fs D l2 -> Permutation l1 l2.
Proof. intros [N1 C1] [N2 C2]. apply NoDup_Permutation; [done|done|]. intros [k d]. by rewrite C1, C2. Qed.

Lemma visited_incl b D l all : visited fs b D l -> covers fs D all -> l ⊆ all.
Proof. intros (_ & Hl & _) [_ Hc] [k d] Hin. by apply Hc, (Hl (k, d)). Qed.

Lemma files_of_perm l1 l2 : Permutation l1 l2 -> zlen (files_of l1) = zlen (files_of l2).
Proof.
  unfold files_of, zlen. intros Hp. f_equal. induction Hp as [|x l1 l2 Hp IH|x y l|l1 l2 l3 Hp1 IH1 Hp2 IH2]; simpl.
  - done.
  - by destruct (negb (snd x)); simpl; rewrite IH.
  - by destruct (negb (snd x)), (negb (snd y)).
  - congruence.
Qed.

Lemma unchanged_log a a' : only_log a a' -> unchanged a -> unchanged a'.
Proof. intros [] []. constructor; congruence. Qed.

(** What the workers find when the walks are over, and what is left when they are done. *)
Lemma initial_sync_runs :
  exists a4 all l ok, covers fs (below sn) all /\ visited fs ok (below sn) l /\
    represents (app_event_queue a4) (map sync_event l) /\
    (initial_total (app_stats a4) = wrap64 (zlen (files_of all)) /\ initial_done (app_stats a4) = 0) /\
    (unchanged a4 /\ quiet (app_os a4) /\ os_fs (app_os a4) = fs) /\
    (errno_kept -> ok = true) /\
    (errno_lost -> ok = true -> passed fs (fun k => k = sn \/ below sn k)) /\
    forall workers, syseba_app_initial_sync workers a0 = syseba_app_initial_sync (fun _ => workers a4) a0 /\
      exists a, syseba_app_initial_sync workers a0 = (if ok then SYSEBA_OK else SYSEBA_ERR, a) /\
      app_os a = app_os (workers a4) /\
      but_errors (app_stats a) = but_errors (with_running_sync false None (app_stats (workers a4))) /\
      (app_stop_requested (workers a4) = false ->
       is_state (app_initial a) = if ok then c!"completed" else c!"completed_with_errors").
Proof.
  unfold syseba_app_initial_sync. rewrite Hidle. cbv zeta.
  set (a1 := with_initial _ _).
  assert (unchanged a1) as Hu1 by (by destruct Hu).
  destruct (count_walk (SyncContext 0 0) a1) as (c2 & a2 & l1 & E1 & HP & Hg2 & Hcov1); [done..|].
  destruct HP as (Hu2 & Hf2 & He2 & Hs2 & Hq2). cbn [fst snd] in *.
  change (app_config a1) with (app_config a0). rewrite Hsource, E1. cbn [negb andb].
  set (a2' := with_stats (with_running_sync true (Some (sc_files c2)) (app_stats a2)) a2).
  set (a3 := exec (syseba_log_emit _ _ _ _ _ _) a2').
  assert (only_log a2' a3) as Hlog by apply only_log_emit.
  assert (unchanged a3) as Hu3 by (eapply unchanged_log; [exact Hlog|]; by destruct Hu2).
  rewrite (un_stopping _ Hu3), He2.
  assert (initial_total (app_stats a3) = sc_files c2 /\ initial_done (app_stats a3) = 0) as Ht3.
  { destruct Hlog. pose proof (f_equal initial_total ol_stats) as H1'. pose proof (f_equal initial_done ol_stats) as H2'.
    split; [exact H1'|]. etransitivity; [exact H2'|]. unfold a2'. by rewrite Hs2. }
  assert (app_os a3 = app_os a2 /\ app_event_queue a3 = app_event_queue a0) as [Eos3 Eq3].
  { destruct Hlog. split; [by rewrite ol_os|]. by rewrite ol_events. }
  destruct (enqueue_walk (sc_files c2) (SyncContext 0 0) a3)
    as (c4 & a4 & l2 & ok & E2 & Hu4 & Ht4 & He4 & Hr4 & Hv2 & Hg4 & Hkept & Hlost);
    [done|by rewrite Eos3; apply Hg2|by rewrite Eos3; apply Hg2|done|done|by rewrite Eq3|by rewrite Eq3|].
  rewrite E2. exists a4, l1, l2, ok. split_and!; try done.
  - destruct Ht4 as [-> _]. by rewrite Hf2.
  - apply Ht4.
  - apply Hg4.
  - apply Hg4.
  - intros workers. destruct ok; cbn [sc_errors]; rewrite He4; (split; [done|]);
      (eexists; split; [reflexivity|]); set (a6 := with_initial _ _);
      set (a7 := exec (syseba_log_emit _ _ _ _ _ _) a6);
      assert (only_log a6 a7) as [] by apply only_log_emit;
      (split_and!; [exact ol_os|exact ol_stats|]); intros Hst;
      rewrite ol_initial; unfold a6, finish_sync; cbn; by rewrite Hst.
Qed.

Lemma initial_sync_gives :
  exists a4 all l ok, covers fs (below sn) all /\ visited fs ok (below sn) l /\
    represents (app_event_queue a4) (map sync_event l) /\
    initial_total (app_stats a4) = wrap64 (zlen (files_of all)) /\
    (errno_kept -> ok = true) /\
    (errno_lost -> ok = true -> passed fs (fun k => k = sn \/ below sn k)) /\
    forall workers, syseba_app_initial_sync workers a0 = syseba_app_initial_sync (fun _ => workers a4) a0 /\
      value (syseba_app_initial_sync workers) a0 = if ok then SYSEBA_OK else SYSEBA_ERR.
Proof.
  destruct initial_sync_runs as (a4 & all & l & ok & Hc & Hv & Hr & [Ht _] & _ & Hk & Hlo & Hw).
  exists a4, all, l, ok. split_and!; [done..|]. intros workers.
  destruct (Hw workers) as (E & a & Ea & _). split; [exact E|]. unfold value. by rewrite Ea.
Qed.
End Sync.
