(* ===== verification/Workers.v ===== *)
(** * The workers

    Any number of workers on a list of events: an invariant of the events that are done and
    of those that are not, which one worker's turn keeps, holds for all of them when the
    workers have finished, whatever the order in which they took and finished the events. *)

From S2P Require Import Prelude CString Paths Os Platform Fs Config FsTree Queue QueueFacts AppState Log App.

Section Workers.
Context `{DirOrder} `{LocalStamp} `{Strerror} `{Clock}.
Context `{!Allocator syseba_event_t} `{!Allocator syseba_log_record_t}.
Context (unknown : cstr).

(** Nothing is left in the queue. *)
Definition idle (a : syseba_app_t) : Prop :=
  forall event q, syseba_queue_pop (app_event_queue a) <> (PopReturn (Some event), q).

(** The workers, however many, have finished every event. *)
Definition finished (a a' : syseba_app_t) : Prop :=
  rtc (worker_step unknown) ([], a) ([], a') /\ idle a'.

(** What is known of the items that are done and of those that are not. *)
Context {I : Type} (event_of : I -> syseba_event_t) (inv : list I -> list I -> syseba_app_t -> Prop).
Context (Hperm : forall d d' t t' a, Permutation d d' -> Permutation t t' -> inv d t a -> inv d' t' a).
Context (Hqueue : forall d t a q, inv d t a -> inv d t (with_event_queue q a)).
Context (Hturn : forall d i t a, inv d (i :: t) a ->
  inv (i :: d) t (exec (worker_turn unknown (event_of i)) a) /\
  app_event_queue (exec (worker_turn unknown (event_of i)) a) = exec syseba_queue_task_done (app_event_queue a)).
Context (l : list I) (Hlen : zlen l <= U64_MAX) (closed : bool).

(** The items that are done, held by a worker, and queued. *)
Record in_progress (d h t : list I) (s : list syseba_event_t * syseba_app_t) : Prop := InProgress {
  ip_all : Permutation l (d ++ h ++ t);
  ip_held : fst s = map event_of h;
  ip_queued : represents (app_event_queue (snd s)) (map event_of t);
  ip_closed : q_closed (app_event_queue (snd s)) = closed;
  ip_inv : inv d (h ++ t) (snd s);
}.

Lemma queued_length u t : Permutation l (u ++ t) -> zlen (map event_of t) <= U64_MAX.
Proof. rewrite zlen_map. unfold zlen in *. intros Hp%Permutation_length. rewrite length_app in Hp. lia. Qed.

Lemma pop_progress d h t held a ev q :
  in_progress d h t (held, a) -> syseba_queue_pop (app_event_queue a) = (PopReturn (Some ev), q) ->
  exists i t', t = i :: t' /\ ev = event_of i /\
    in_progress d (h ++ [i]) t' (held ++ [ev], with_event_queue q a).
Proof.
  intros [Hp Hh Hq Hcl Hi] Hpop. cbn [fst snd] in *.
  apply (pop_represents _ _ (map event_of t)) in Hpop;
    [|done|apply (queued_length (d ++ h)); by rewrite <- app_assoc].
  destruct t as [|i t]; [by destruct (q_closed _), Hpop|].
  destruct Hpop as ([= ->] & Hr & Hcl' & _). exists i, t. split; [done|]. split; [done|].
  constructor; cbn [fst snd]; [by rewrite <- app_assoc|by rewrite Hh, map_app|done|by etransitivity|].
  apply Hqueue. by rewrite <- app_assoc.
Qed.

Lemma finish_progress d hb i ha t held a :
  in_progress d (hb ++ i :: ha) t (held, a) ->
  in_progress (i :: d) (hb ++ ha) t
    (map event_of hb ++ map event_of ha, exec (worker_turn unknown (event_of i)) a).
Proof.
  intros [Hp _ Hq Hcl Hi]. cbn [fst snd] in *.
  destruct (Hturn d i (hb ++ ha ++ t) a) as [Hi' Hq'].
  { eapply Hperm; [done| |exact Hi]. rewrite <- app_assoc. cbn [app]. by rewrite <- Permutation_middle. }
  constructor; cbn [fst snd].
  - rewrite Hp, <- !app_assoc. cbn [app]. rewrite <- Permutation_middle. cbn [app].
    by rewrite !Permutation_middle.
  - by rewrite map_app.
  - rewrite Hq'. by apply task_done_represents.
  - by rewrite Hq'.
  - by rewrite <- app_assoc.
Qed.

Lemma step_in_progress d h t s s' :
  in_progress d h t s -> worker_step unknown s s' -> exists d' h' t', in_progress d' h' t' s'.
Proof.
  intros Hip Hstep. destruct Hstep as [held a ev q Hpop|hb0 ev ha0 a].
  - destruct (pop_progress _ _ _ _ _ _ _ Hip Hpop) as (i & t' & -> & -> & Hip'). eauto.
  - pose proof (ip_held _ _ _ _ Hip) as Hh. cbn [fst] in Hh. symmetry in Hh.
    apply map_eq_app in Hh as (hb & hr & -> & <- & Hh).
    destruct hr as [|i ha]; [done|]. cbn [map] in Hh. injection Hh as <- <-.
    eexists _, _, _. by eapply finish_progress.
Qed.

Lemma steps_in_progress s s' :
  rtc (worker_step unknown) s s' -> forall d h t, in_progress d h t s -> exists d' h' t', in_progress d' h' t' s'.
Proof.
  induction 1 as [s|s s1 s2 Hs _ IH]; intros d h t Hip; [by exists d, h, t|].
  edestruct step_in_progress as (d' & h' & t' & Hip'); [exact Hip|exact Hs|]. by eapply IH.
Qed.

(** When the workers have finished, everything is done. *)
Lemma finished_inv a a' :
  in_progress [] [] l ([], a) -> finished a a' ->
  inv l [] a' /\ represents (app_event_queue a') [] /\ q_closed (app_event_queue a') = closed.
Proof.
  intros Hip [Hsteps Hidle].
  destruct (steps_in_progress _ _ Hsteps _ _ _ Hip) as (d & h & t & [Hp Hh Hq Hcl Hi]). cbn [fst snd] in *.
  assert (h = []) as -> by (by destruct h).
  assert (t = []) as ->.
  { destruct t as [|i t]; [done|]. exfalso. destruct (syseba_queue_pop (app_event_queue a')) as [r q] eqn:E.
    pose proof E as E'. apply (pop_represents _ _ (map event_of (i :: t))) in E'; [|done|].
    - destruct E' as (-> & _). by eapply Hidle.
    - by apply (queued_length d). }
  cbn [app] in Hp, Hi. rewrite app_nil_r in Hp. split_and!; [|done|done].
  eapply Hperm; [symmetry; exact Hp|done|exact Hi].
Qed.

(** One worker alone finishes. *)
Lemma one_worker_finishes fuel : forall d t a,
  in_progress d [] t ([], a) -> (length t <= fuel)%nat -> finished a (one_worker unknown fuel a).
Proof.
  assert (forall d a, in_progress d [] [] ([], a) -> idle a) as Hidle.
  { intros d a Hip ev q E. by destruct (pop_progress _ _ _ _ _ _ _ Hip E) as (? & ? & ? & _). }
  induction fuel as [|fuel IH]; intros d t a Hip Hf.
  { destruct t; [|cbn in Hf; lia]. split; [apply rtc_refl|by eapply Hidle]. }
  cbn [one_worker]. destruct (syseba_queue_pop (app_event_queue a)) as [r q] eqn:E. destruct t as [|i t].
  { pose proof (Hidle _ _ Hip) as Hi. unfold idle in Hi. rewrite E in Hi.
    assert (match r with PopReturn (Some ev) => one_worker unknown fuel
              (exec (worker_turn unknown ev) (with_event_queue q a)) | _ => a end = a) as ->.
    { destruct r as [[ev|]|]; [by destruct (Hi ev q)|done..]. }
    split; [apply rtc_refl|by eapply Hidle]. }
  pose proof E as E'. apply (pop_represents _ _ (map event_of (i :: t))) in E';
    [|apply Hip|apply (queued_length d), Hip].
  destruct E' as (-> & _).
  destruct (pop_progress _ _ _ _ _ _ _ Hip E) as (i' & t' & [= <- <-] & _ & Hip').
  apply (finish_progress d [] i []) in Hip'. cbn [map app] in Hip'.
  destruct (IH _ _ _ Hip') as [Hs Hi]; [cbn in Hf; lia|]. split; [|exact Hi].
  eapply rtc_l; [by apply (worker_pops unknown [] a (event_of i) q)|].
  eapply rtc_l; [by apply (worker_finishes unknown [] (event_of i) [])|exact Hs].
Qed.

(** Both, from the start. *)
Lemma workers_finish fuel a :
  represents (app_event_queue a) (map event_of l) -> q_closed (app_event_queue a) = closed -> inv [] l a ->
  (length l <= fuel)%nat ->
  finished a (one_worker unknown fuel a) /\
  forall a', finished a a' ->
    inv l [] a' /\ represents (app_event_queue a') [] /\ q_closed (app_event_queue a') = closed.
Proof.
  intros Hr Hc Hi Hf. assert (in_progress [] [] l ([], a)) as Hip by by constructor.
  split; [by eapply one_worker_finishes|]. intros a'. by apply finished_inv.
Qed.
End Workers.
