(* ===== verification/BackupFacts.v ===== *)
(** * The whole backup

    From the initial synchronization to the last event that the workers finish: on a
    quiet host, whatever the order in which any number of workers takes the events, the
    backup ends up with every file and directory of the source. *)

From S2P Require Import Prelude CString Paths Os OsFacts Platform Fs FsFacts CopyFacts Config ConfigFacts ConfigText FsTree FsTreeFacts Restore Queue QueueFacts AppState Log LogFacts App PlainFacts WalkFacts AppFacts LifeFacts SyncFacts Workers.

Lemma is_dir_at_intro fs k m : fs !! k = Some (NDir m) -> is_dir_at fs k = true.
Proof. intros Hk. unfold is_dir_at. destruct k; [done|]. by rewrite Hk. Qed.

Section Tree.
Context (sn bn rn : ppath) (fs0 : fsmap).

(** A file or directory under the source, by its name relative to it. *)
Definition entry (r : ppath) (n : node) : Prop :=
  r <> [] /\ fs0 !! (sn ++ r) = Some n /\ walkable n = true.

(** The source can be backed up: proper names that are short enough, no symbolic link
    on the way in the three areas, nothing of another kind in the place of a directory
    or a file, and no name with the mark of a temporary file. *)
Record backup_ready (c : syseba_config_t) : Prop := BackupReady {
  rd_source : cfg_source c = render sn;
  rd_backup : cfg_backup c = render bn;
  rd_restore : cfg_restore c = render rn;
  rd_walk : walk_ok fs0 sn;
  rd_apart : ~ sn `prefix_of` bn /\ ~ bn `prefix_of` sn;
  rd_area : forall r n b, entry r n -> b = sn \/ b = bn \/ b = rn -> area fs0 b r;
  rd_dirs : forall r, is_dir_at fs0 (sn ++ r) = true -> creatable fs0 (bn ++ r);
  rd_files : forall r m c mm, entry r (NReg m c) -> fs0 !! (bn ++ r) <> Some (NDir mm);
  rd_temp : forall r t n, temp_name t -> fs0 !! (bn ++ r ++ [t]) = None /\ ~ entry (r ++ [t]) n;
}.

(** The copy of a file of the source at its place in the backup. *)
Definition copy_at (fs : fsmap) (k : ppath) : Prop :=
  exists r m c m', entry r (NReg m c) /\ k = bn ++ r /\ fs !! k = Some (NReg m' c) /\ copied_meta m m'.

(** A directory that was made for a directory of the source. *)
Definition made_for (fs : fsmap) (k : ppath) : Prop :=
  fs0 !! k = None /\ (exists mk, fs !! k = Some (NDir mk)) /\
  exists r b, is_dir_at fs0 (sn ++ r) = true /\ bn ++ r = k ++ b.

(** What the events may have done so far. *)
Definition backed (fs : fsmap) : Prop :=
  forall k, fs !! k = fs0 !! k \/ copy_at fs k \/ made_for fs k.

(** An entry of the source that is in the backup, copied or up to date already. *)
Definition saved (fs : fsmap) (r : ppath) (n : node) : Prop :=
  match n with
  | NReg m c =>
      (exists m', fs !! (bn ++ r) = Some (NReg m' c) /\ copied_meta m m') \/
      (outdated m c (fs0 !! (bn ++ r)) = false /\ fs !! (bn ++ r) = fs0 !! (bn ++ r))
  | NDir _ => exists m', fs !! (bn ++ r) = Some (NDir m')
  | NLnk _ _ | NOther _ => True
  end.
Context (c : syseba_config_t) (Hready : backup_ready c).

Lemma source_tree : tree_ok fs0.
Proof. apply (rd_walk _ Hready). Qed.

Lemma source_dir_prefix r b : is_dir_at fs0 (sn ++ r ++ b) = true -> is_dir_at fs0 (sn ++ r) = true.
Proof. intros Hd. eapply (dir_at_chain _ _ source_tree Hd). by rewrite app_assoc. Qed.

Lemma source_nonempty r : sn ++ r <> [].
Proof. pose proof (wo_root _ _ (rd_walk _ Hready)). by destruct sn. Qed.

Lemma entry_not_dir r m x : entry r (NReg m x) -> is_dir_at fs0 (sn ++ r) = false.
Proof.
  intros (_ & Hn & _). destruct (is_dir_at fs0 (sn ++ r)) eqn:E; [|done].
  apply is_dir_at_some in E as [mm E]; [congruence|apply source_nonempty].
Qed.

Lemma entry_parent r x n : entry (r ++ [x]) n -> is_dir_at fs0 (sn ++ r) = true.
Proof.
  intros (_ & Hn & _). rewrite app_assoc in Hn.
  eapply (tree_chain fs0 (sn ++ r) x); [apply source_tree|by eexists|by rewrite app_nil_r].
Qed.

(** The areas of the source and of the backup have nothing in common. *)
Lemma areas_apart r : bn `prefix_of` sn ++ r \/ sn ++ r `prefix_of` bn -> False.
Proof.
  intros Hk. destruct (rd_apart _ Hready) as [H1 H2]. destruct Hk as [Hk|Hk].
  - destruct (prefix_weak_total bn sn (sn ++ r)) as [?|?]; [done|by apply prefix_app_r|done|done].
  - apply H1. etransitivity; [|exact Hk]. by apply prefix_app_r.
Qed.

Lemma backed_source fs r : backed fs -> fs !! (sn ++ r) = fs0 !! (sn ++ r).
Proof.
  intros Hb. destruct (Hb (sn ++ r)) as [E|[(r' & m & x & m' & _ & E & _)|(_ & _ & r' & b & _ & E)]]; [done| |].
  - exfalso. apply (areas_apart r). left. rewrite E. by apply prefix_app_r.
  - exfalso. assert (sn ++ r `prefix_of` bn ++ r') as Hp by (rewrite E; by apply prefix_app_r).
    apply (areas_apart r). apply or_comm. eapply prefix_weak_total; [exact Hp|by apply prefix_app_r].
Qed.

Lemma backed_links fs p : backed fs -> no_links fs0 p -> no_links fs p.
Proof.
  intros Hb Hl a b m x -> Ha. destruct (Hb a) as [E|[(r & m' & y & m2 & _ & _ & E & _)|(_ & [mk E] & _)]].
  - rewrite E in Ha. by eapply Hl.
  - congruence.
  - congruence.
Qed.

Lemma backed_creatable fs r : backed fs -> is_dir_at fs0 (sn ++ r) = true -> creatable fs (bn ++ r).
Proof.
  intros Hb Hd a b E. destruct (decide (a = [])) as [->|Ha]; [by left|].
  destruct (Hb a) as [Ea|[(r' & m & x & m' & He & -> & _)|(_ & [mk Ea] & _)]].
  - rewrite Ea. destruct (rd_dirs _ Hready r Hd a b E) as [Hx|Hx]; [|by right]. left.
    apply is_dir_at_some in Hx as [mm Hx]; [|done]. rewrite <- Ea in Hx. by eapply is_dir_at_intro.
  - exfalso. rewrite <- app_assoc in E. apply app_inv_head in E as ->.
    apply source_dir_prefix in Hd. pose proof (entry_not_dir _ _ _ He). congruence.
  - left. by eapply is_dir_at_intro.
Qed.

Lemma backed_not_dir fs r m x mm : backed fs -> entry r (NReg m x) -> fs !! (bn ++ r) <> Some (NDir mm).
Proof.
  intros Hb He E. destruct (Hb (bn ++ r)) as [Eb|[(r' & m1 & y & m2 & _ & _ & Eb & _)|(_ & _ & r' & b & Hd & Er)]].
  - rewrite Eb in E. by eapply rd_files.
  - congruence.
  - rewrite <- app_assoc in Er. apply app_inv_head in Er as ->. apply source_dir_prefix in Hd.
    pose proof (entry_not_dir _ _ _ He). congruence.
Qed.

Lemma backed_no_temp fs r x : backed fs -> temp_name x -> fs !! ((bn ++ r) ++ [x]) = None.
Proof.
  intros Hb Hx. rewrite <- app_assoc. pose proof (rd_temp _ Hready r x) as Ht.
  destruct (Hb (bn ++ r ++ [x])) as [->|[(r' & m & y & m' & He & E & _)|(_ & _ & r' & b & Hd & E)]].
  - apply (Ht (NDir root_meta)), Hx.
  - exfalso. apply app_inv_head in E. subst r'. by eapply Ht.
  - exfalso. rewrite <- app_assoc in E. apply app_inv_head in E as ->. apply source_dir_prefix in Hd.
    apply is_dir_at_some in Hd as [mm Hd]; [|apply source_nonempty].
    eapply (Ht (NDir mm)); [done|]. split; [by destruct r|done].
Qed.

(** ** What an event changes *)

(** New directories above [bn ++ q], and the copy of a file. *)
Definition event_changes (q : ppath) (s s' : os) : Prop :=
  forall k, only_new_dirs (bn ++ q) s s' k \/
    (copy_at (os_fs s') k /\ removelast k = bn ++ q /\ k <> [] /\ is_dir_at (os_fs s) k = false).

Lemma changes_backed q s s' :
  backed (os_fs s) -> is_dir_at fs0 (sn ++ q) = true -> event_changes q s s' -> backed (os_fs s').
Proof.
  intros Hb Hd Hc k. destruct (Hc k) as [[E|(E & [b Eb] & Em)]|[Hk _]]; [| |by right; left].
  - destruct (Hb k) as [H|[(r & m & x & m' & He & Ek & Ef & Hm)|(H & Hm & Hr)]].
    + left. by rewrite E.
    + right; left. exists r, m, x, m'. by rewrite E.
    + right; right. split; [done|]. by rewrite E.
  - destruct (Hb k) as [H|[(r & m & x & m' & He & Ek & Ef & Hm)|(H & [mk Hm] & Hr)]]; [|congruence..].
    right; right. split; [by rewrite <- H|]. split; [done|]. by exists q, b.
Qed.

Lemma changes_tree q s s' :
  tree_ok (os_fs s) -> dir_chain (os_fs s') (bn ++ q) -> event_changes q s s' -> tree_ok (os_fs s').
Proof.
  intros Ht Hch Hc k n Hk Hne. destruct (Hc k) as [[E|(E & [b Eb] & Em)]|(_ & -> & _)].
  - rewrite E in Hk. pose proof (Ht k n Hk Hne) as Hd.
    destruct (decide (removelast k = [])) as [->|Hr]; [done|].
    destruct (Hc (removelast k)) as [[E'|(E' & _)]|(_ & _ & _ & Hf)]; [| |congruence].
    + apply is_dir_at_some in Hd as [m Hd]; [|done]. rewrite <- E' in Hd. by eapply is_dir_at_intro.
    + apply is_dir_at_some in Hd as [m Hd]; [|done]. congruence.
  - destruct k as [|y k _] using rev_ind; [done|]. rewrite removelast_last. eapply Hch.
    rewrite Eb, <- app_assoc. done.
  - apply (Hch _ []). by rewrite app_nil_r.
Qed.

Lemma changes_saved q s s' r n :
  entry r n -> event_changes q s s' -> saved (os_fs s) r n -> saved (os_fs s') r n.
Proof.
  intros He Hc Hs. destruct (Hc (bn ++ r)) as [[E|(E & _)]|[(r' & m & x & m' & He' & Er & Ef & Hm) _]].
  - unfold saved. by rewrite E.
  - exfalso. unfold saved in Hs. destruct He as (_ & _ & Hw). destruct n; try done.
    + destruct Hs as [(m' & Hs & _)|[Ho Hs]]; [congruence|]. rewrite <- Hs, E in Ho. done.
    + destruct Hs as [m' Hs]. congruence.
  - apply app_inv_head in Er. subst r'. destruct He as (_ & Hn & _), He' as (_ & Hn' & _).
    rewrite Hn in Hn'. injection Hn' as ->. left. by exists m'.
Qed.
End Tree.

(** ** An event of a file or a directory that is there *)

Section Events.
Context `{DirOrder} `{LocalStamp} `{Strerror} `{Clock}.
Context `{!Allocator syseba_event_t} `{!Allocator syseba_log_record_t}.
Context (unknown : cstr) (a0 : syseba_app_t) (sn bn rn : ppath) (fs0 : fsmap).
Context (Hready : backup_ready sn bn rn fs0 (app_config a0)).

Record core (a : syseba_app_t) : Prop := Core {
  co_quiet : quiet (app_os a);
  co_tree : tree_ok (os_fs (app_os a));
  co_backed : backed sn bn fs0 (os_fs (app_os a));
  co_config : app_config a = app_config a0;
  co_stopping : app_stop_requested a = false;
}.

Lemma core_areas a r n : core a -> entry sn fs0 r n ->
  areas (app_config a) (os_fs (app_os a)) sn bn rn r.
Proof.
  intros [Hq Ht Hb Hc _] He. rewrite Hc.
  assert (forall b, b = sn \/ b = bn \/ b = rn -> area (os_fs (app_os a)) b r) as Ha.
  { intros b Hbb. destruct (rd_area _ _ _ _ _ Hready r n b He Hbb) as [H1' H2' H3'].
    constructor; [done| |done]. by eapply backed_links. }
  constructor; [apply Hready..|done|by destruct He| | |]; apply Ha; auto.
Qed.

(** The count of files that the initial synchronization is done with. *)
Definition counted (initial directory : bool) (n : Z) : Z :=
  if initial && negb directory then wrap64 (n + 1) else n.

(** What is left when an event was handled. *)
Record handled (initial : bool) (q : ppath) (r : ppath) (n : node) (a a' : syseba_app_t) : Prop := Handled {
  hd_changes : event_changes sn bn fs0 q (app_os a) (app_os a');
  hd_quiet : quiet (app_os a');
  hd_chain : dir_chain (os_fs (app_os a')) (bn ++ q) \/ os_fs (app_os a') = os_fs (app_os a);
  hd_saved : saved bn fs0 (os_fs (app_os a')) r n;
  hd_effect : exists x, effect a (app_os a') x a' /\
    initial_total x = initial_total (app_stats a) /\
    initial_done x = counted initial (is_dir n) (initial_done (app_stats a));
}.

Lemma same_changes q s s' : os_fs s' = os_fs s -> event_changes sn bn fs0 q s s'.
Proof. intros E k. left. left. by rewrite E. Qed.

Lemma file_event_handled ev a r m x :
  core a -> entry sn fs0 r (NReg m x) ->
  ev_path ev = render (sn ++ r) -> ev_kind ev <> SYSEBA_EVENT_DELETE -> ev_is_directory ev = false ->
  exists q a', is_dir_at fs0 (sn ++ q) = true /\
    syseba_app_process_event unknown ev a = (SYSEBA_OK, a') /\ handled (ev_initial_sync ev) q r (NReg m x) a a'.
Proof.
  intros Hco He Hp Hnd Hd. pose proof Hco as [Hq Ht Hb Hc _].
  pose proof (core_areas _ _ _ Hco He) as Has.
  assert (os_fs (app_os a) !! (sn ++ r) = Some (NReg m x)) as Hf.
  { rewrite (backed_source _ _ _ _ _ Hready) by done. apply He. }
  destruct r as [|y r _] using rev_ind; [by destruct He|].
  pose proof (entry_parent _ _ _ _ _ Hready _ _ _ He) as Hpar.
  exists r. destruct (outdated m x (os_fs (app_os a) !! (bn ++ r ++ [y]))) eqn:Eo.
  - destruct (process_event_copies unknown ev a sn bn rn r y m x)
      as (s' & a' & m' & E & Heff & Hf' & Hm & Hk' & Hq' & Hch); [done..| |].
    { constructor; [done|by eapply backed_creatable|done| |].
      - intros mm. by eapply backed_not_dir.
      - intros t. by eapply backed_no_temp. }
    exists a'. pose proof (effect_os _ _ _ _ Heff) as Eos. split_and!; [done..|]. rewrite <- Eos in *.
    constructor; [|done|by left|left; by exists m'|].
    + intros k. destruct (decide (k = bn ++ r ++ [y])) as [->|Hne]; [right|left; by apply Hk'].
      split; [by exists (r ++ [y]), m, x, m'|].
      assert (bn ++ r ++ [y] <> []) as Hne by (by destruct bn, r).
      split; [by rewrite app_assoc, removelast_last|]. split; [done|].
      destruct (is_dir_at (os_fs (app_os a)) (bn ++ r ++ [y])) eqn:Ed; [|done].
      apply is_dir_at_some in Ed as [mm Ed]; [|done]. by eapply backed_not_dir in Ed.
    + eexists. split; [exact Heff|]. unfold progress, counted. rewrite Hd.
      cbn [andb negb oc_copied oc_skipped is_dir]. unfold copy_counter.
      by destruct (ev_initial_sync ev), (ev_kind ev).
  - destruct (process_event_skips unknown ev a sn bn rn r y m x) as (s' & a' & E & Heff & Hf' & Hq'); [done..|].
    exists a'. pose proof (effect_os _ _ _ _ Heff) as Eos. split_and!; [done..|]. rewrite <- Eos in *.
    constructor; [by apply same_changes|done|by right| |].
    + unfold saved. rewrite Hf'.
      destruct (Hb (bn ++ r ++ [y])) as [Es|[(r' & m1 & x1 & m2 & He' & Er & Ef & Hm)|(_ & [mk Es] & _)]].
      * right. by rewrite <- Es.
      * apply app_inv_head in Er. subst r'. destruct He as (_ & Hn & _), He' as (_ & Hn' & _).
        rewrite Hn in Hn'. injection Hn' as -> ->. left. by exists m2.
      * by rewrite Es in Eo.
    + eexists. split; [exact Heff|]. unfold progress, counted. rewrite Hd. by destruct (ev_initial_sync ev).
Qed.

Lemma directory_event_handled ev a r m :
  core a -> entry sn fs0 r (NDir m) ->
  ev_path ev = render (sn ++ r) -> ev_kind ev <> SYSEBA_EVENT_DELETE -> ev_is_directory ev = true ->
  exists q a', is_dir_at fs0 (sn ++ q) = true /\
    syseba_app_process_event unknown ev a = (SYSEBA_OK, a') /\ handled (ev_initial_sync ev) q r (NDir m) a a'.
Proof.
  intros Hco He Hp Hk Hd. pose proof Hco as [Hq Ht Hb Hc _].
  pose proof (core_areas _ _ _ Hco He) as Has.
  assert (is_dir_at fs0 (sn ++ r) = true) as Hdir by (destruct He as (_ & Hn & _); by eapply is_dir_at_intro).
  destruct (process_event_directory unknown ev a sn bn rn r) as (s' & a' & E & Heff & Hq' & Hch & Hk');
    [done..|by eapply backed_creatable|].
  exists r, a'. pose proof (effect_os _ _ _ _ Heff) as Eos. split_and!; [done..|]. rewrite <- Eos in *.
  constructor; [|done|by left| |eexists; split; [exact Heff|]; unfold counted; by rewrite andb_false_r].
  - intros k. by left.
  - apply is_dir_at_some; [by destruct He, bn, r|]. apply (Hch _ []). by rewrite app_nil_r.
Qed.

(** ** The workers *)

(** The events, each for an entry of the source, of the initial synchronization or not. *)
Context {I : Type} (target : I -> ppath * bool) (event_of : I -> syseba_event_t) (initial : bool).
Context (Hevent : forall i, ev_path (event_of i) = render (fst (target i)) /\
  ev_is_directory (event_of i) = snd (target i) /\ ev_kind (event_of i) <> SYSEBA_EVENT_DELETE /\
  ev_initial_sync (event_of i) = initial).

Record turned (r : ppath) (n : node) (a a' : syseba_app_t) : Prop := Turned {
  tu_core : core a';
  tu_saved : saved bn fs0 (os_fs (app_os a')) r n;
  tu_keeps : forall r' n', entry sn fs0 r' n' -> saved bn fs0 (os_fs (app_os a)) r' n' ->
    saved bn fs0 (os_fs (app_os a')) r' n';
  tu_queue : app_event_queue a' = exec syseba_queue_task_done (app_event_queue a);
  tu_total : initial_total (app_stats a') = initial_total (app_stats a);
  tu_done : initial_done (app_stats a') = counted initial (is_dir n) (initial_done (app_stats a));
}.

Lemma turn_spec a i r n :
  core a -> entry sn fs0 r n -> target i = (sn ++ r, is_dir n) ->
  turned r n a (exec (worker_turn unknown (event_of i)) a).
Proof.
  intros Hco He Hi. destruct (Hevent i) as (Hp & Hd & Hk & Hin). rewrite Hi in Hp, Hd. cbn [fst snd] in *.
  assert (exists q a', is_dir_at fs0 (sn ++ q) = true /\
    syseba_app_process_event unknown (event_of i) a = (SYSEBA_OK, a') /\ handled initial q r n a a')
    as (q & a' & Hdq & E & [Hch Hq Hc Hs (x & [Hl Hx] & Ht & Hdn)]).
  { rewrite <- Hin. pose proof He as (_ & _ & Hw). destruct n; try done.
    - by eapply file_event_handled.
    - by eapply directory_event_handled. }
  assert (exec (worker_turn unknown (event_of i)) a
    = with_event_queue (exec syseba_queue_task_done (app_event_queue a')) a') as ->.
  { unfold worker_turn, exec at 1. rewrite (bind_run _ _ _ _ _ E). by rewrite bind_unit. }
  destruct Hl. pose proof Hco as [_ Htree Hb Hconf Hst]. constructor.
  - constructor; [done| | |by etransitivity|by etransitivity].
    + destruct Hc as [Hc|Hc]; [by eapply changes_tree|]. change (tree_ok (os_fs (app_os a'))). by rewrite Hc.
    + by eapply (changes_backed sn bn fs0 q).
  - done.
  - intros r' n' He' Hs'. eapply changes_saved; [exact He'|exact Hch|done].
  - change (exec syseba_queue_task_done (app_event_queue a') = exec syseba_queue_task_done (app_event_queue a)).
    by rewrite ol_events.
  - change (initial_total (app_stats a') = initial_total (app_stats a)). by rewrite Hx.
  - change (initial_done (app_stats a') = counted initial (is_dir n) (initial_done (app_stats a))). by rewrite Hx.
Qed.

(** What was in the backup at the start. *)
Context (kept : ppath -> node -> Prop) (total : Z).

(** The items that are done, and those that are not. *)
Record working (d t : list I) (a : syseba_app_t) : Prop := Working {
  wk_items : Forall (fun i => exists r n, entry sn fs0 r n /\ target i = (sn ++ r, is_dir n)) t;
  wk_core : core a;
  wk_saved : forall r n, entry sn fs0 r n -> (sn ++ r, is_dir n) ∈ map target d \/ kept r n ->
    saved bn fs0 (os_fs (app_os a)) r n;
  wk_total : initial_total (app_stats a) = total;
  wk_done : initial = true -> initial_done (app_stats a) = wrap64 (zlen (files_of (map target d)));
}.

Lemma working_perm d d' t t' a : Permutation d d' -> Permutation t t' -> working d t a -> working d' t' a.
Proof.
  intros Hd Ht [Hi Hc Hs Htot Hdn]. constructor; [by rewrite <- Ht|done| |done|].
  - intros r n He Hin. apply Hs; [done|]. by rewrite Hd.
  - intros Hini. rewrite Hdn by done. f_equal. apply files_of_perm. by rewrite Hd.
Qed.

Lemma working_queue d t a q : working d t a -> working d t (with_event_queue q a).
Proof. intros [Hi [] Hs Htot Hdn]. by constructor. Qed.

Lemma working_turn d i t a :
  working d (i :: t) a ->
  working (i :: d) t (exec (worker_turn unknown (event_of i)) a) /\
  app_event_queue (exec (worker_turn unknown (event_of i)) a) = exec syseba_queue_task_done (app_event_queue a).
Proof.
  intros [Hi Hc Hs Htot Hdn]. apply Forall_cons in Hi as [(r & n & He & Hi) Hrest].
  destruct (turn_spec a i r n Hc He Hi) as [Hc' Hsv Hk Hq' Ht' Hd']. split; [|done]. constructor.
  - done.
  - done.
  - intros r' n' He' Hin. cbn [map] in Hin. rewrite elem_of_cons in Hin.
    destruct Hin as [[Hin|Hin]|Hin]; [|by apply Hk, Hs; auto|by apply Hk, Hs; auto].
    rewrite Hi in Hin. injection Hin as E _. apply app_inv_head in E as ->.
    destruct He as (? & Hn & ?), He' as (? & Hn' & ?). rewrite Hn in Hn'. by injection Hn' as <-.
  - by rewrite Ht'.
  - intros Hini. rewrite Hd', Hdn by done. unfold counted. rewrite Hini. cbn [map andb].
    rewrite (files_of_perm (target i :: map target d) (map target d ++ [target i])) by apply Permutation_cons_append.
    rewrite wrap64_succ_count, Hi. cbn [snd]. by destruct (is_dir n).
Qed.

(** From an up-to-date start, every entry with an event is in the backup in the end, and so
    is what was kept. *)
Lemma workers_save l fuel a :
  (forall i, i ∈ l -> exists r n, entry sn fs0 r n /\ target i = (sn ++ r, is_dir n)) -> zlen l <= U64_MAX ->
  (length l <= fuel)%nat -> represents (app_event_queue a) (map event_of l) -> core a ->
  (forall r n, entry sn fs0 r n -> kept r n -> saved bn fs0 (os_fs (app_os a)) r n) ->
  initial_total (app_stats a) = total -> (initial = true -> initial_done (app_stats a) = 0) ->
  finished unknown a (one_worker unknown fuel a) /\
  forall a', finished unknown a a' ->
    working l [] a' /\ represents (app_event_queue a') [] /\
    q_closed (app_event_queue a') = q_closed (app_event_queue a).
Proof.
  intros Hl Hlen Hf Hr Hc Hk Ht Hd.
  apply (workers_finish unknown event_of working working_perm working_queue working_turn l Hlen); [done..| |done].
  constructor; [by apply Forall_forall|done| |done|].
  - intros r n He [Hin|Hin]; [by apply not_elem_of_nil in Hin|by apply Hk].
  - intros Hini. by rewrite Hd.
Qed.
End Events.
