(* ===== verification/MovesFacts.v ===== *)
(** * Moves and copies

    What any number of workers leave when the events are the deletions of files whose
    backup can be moved, and creations and modifications of entries of the source. The
    moves alone make a [base] of the host at the start; the copies are [backed] on it. *)

From S2P Require Import Prelude CString Paths Os OsFacts Platform Fs FsFacts CopyFacts Config ConfigFacts ConfigText FsTree FsTreeFacts Restore Queue QueueFacts AppState Log LogFacts App PlainFacts WalkFacts AppFacts LifeFacts SyncFacts Workers BackupFacts.

Section Removal.
Context (sn bn rn : ppath) (fs0 : fsmap) (a0 : syseba_app_t).
Context (Hsb : apart sn bn) (Hsr : apart sn rn) (Hbr : apart bn rn).

(** A backup that can be moved to its name in the restore area. *)
Record removable (r : ppath) : Prop := Removable {
  rm_file : exists n, fs0 !! (bn ++ r) = Some n /\ is_dir n = false;
  rm_free : fs0 !! (rn ++ r) = None;
  rm_dirs : creatable fs0 (rn ++ removelast r);
  rm_rel : r <> [];
  rm_area : forall b, b = sn \/ b = bn \/ b = rn -> area fs0 b r;
}.

(** The files that are gone from the source: none is above another, or above an entry. *)
Context (gone : ppath -> Prop) (Hrem : forall r, gone r -> removable r).
Context (Hanti : forall r r', gone r -> gone r' -> r `prefix_of` r' -> r = r').
Context (Hno : forall r b, gone r -> is_dir_at fs0 (sn ++ r ++ b) = false /\ forall n, ~ entry sn fs0 (r ++ b) n).

(** A directory that was made in the restore area. *)
Definition made_in_restore (fs : fsmap) (k : ppath) : Prop :=
  fs0 !! k = None /\ (exists mk, fs !! k = Some (NDir mk)) /\
  exists r b, gone r /\ rn ++ removelast r = k ++ b.

(** What the moves of the files [d] make of the file system, when those of [t] are left. *)
Record base (d t : list ppath) (fs : fsmap) : Prop := Base {
  bs_gone : Forall gone (d ++ t);
  bs_nodup : NoDup (d ++ t);
  bs_ready : backup_ready sn bn rn fs (app_config a0);
  bs_root : is_dir_at fs rn = true;
  bs_moved : forall r, r ∈ d -> fs !! (bn ++ r) = None /\ fs !! (rn ++ r) = fs0 !! (bn ++ r);
  bs_rest : forall k, (forall r, r ∈ d -> k <> bn ++ r /\ k <> rn ++ r) ->
    fs !! k = fs0 !! k \/ made_in_restore fs k;
}.

Lemma base_perm d d' t t' fs : Permutation d d' -> Permutation t t' -> base d t fs -> base d' t' fs.
Proof.
  intros Hd Ht [Hg Hn ? ? Hm Hr]. assert (Permutation (d ++ t) (d' ++ t')) as Hdt by by f_equiv.
  constructor; try done.
  - by rewrite <- Hdt.
  - by rewrite <- Hdt.
  - intros r Hin. apply Hm. by rewrite Hd.
  - intros k Hk. apply Hr. intros r Hin. apply Hk. by rewrite <- Hd.
Qed.

Lemma base_done d t fs r : base d t fs -> r ∈ d -> gone r.
Proof. intros [Hall%Forall_app _ _ _ _ _] Hin. destruct Hall as [Hall _]. rewrite Forall_forall in Hall. auto. Qed.

Lemma restore_nonempty : rn <> [].
Proof. intros ->. destruct Hbr as [_ Hp]. apply Hp. apply prefix_nil. Qed.

(** Nothing of the restore area is on the way to another area. *)
Lemma restore_apart b p k : apart b rn -> rn `prefix_of` k -> k `prefix_of` b ++ p -> False.
Proof.
  intros Ha Hk Hp. apply (apart_below rn b [] p); [by destruct Ha; split|].
  rewrite app_nil_r. by etransitivity.
Qed.

Lemma restore_not b p k : apart b rn -> rn `prefix_of` k -> k <> b ++ p.
Proof. intros Ha Hk ->. by eapply restore_apart. Qed.

(** Where a location stands, by what was there at the start. *)
Lemma base_cases d t fs k :
  base d t fs ->
  (exists r, r ∈ d /\ k = bn ++ r /\ fs !! k = None) \/
  (exists r, r ∈ d /\ k = rn ++ r /\ fs !! k = fs0 !! (bn ++ r)) \/
  fs !! k = fs0 !! k \/ made_in_restore fs k.
Proof.
  intros [_ _ _ _ Hm Hr].
  destruct (decide (Exists (fun r => k = bn ++ r \/ k = rn ++ r) d)) as [He|He].
  - apply Exists_exists in He as (r & Hin & [-> | ->]); destruct (Hm r Hin) as [H1' H2']; [left|right; left];
      by exists r.
  - right; right. apply Hr. intros r Hin. split; intros ->; apply He, Exists_exists; exists r; auto.
Qed.

(** The source is as it was. *)
Lemma base_source d t fs r : base d t fs -> fs !! (sn ++ r) = fs0 !! (sn ++ r).
Proof.
  intros Hb.
  destruct (base_cases _ _ _ (sn ++ r) Hb) as [(r' & _ & E & _)|[(r' & _ & E & _)|[E|(_ & _ & r' & b & _ & E)]]];
    [| |done|]; exfalso.
  - apply (apart_below sn bn r r'); [done|by rewrite E].
  - apply (apart_below sn rn r r'); [done|by rewrite E].
  - apply (apart_below sn rn r (removelast r')); [done|]. rewrite E. by apply prefix_app_r.
Qed.

(** So is what the backup has of an entry. *)
Lemma base_backup d t fs r n : base d t fs -> entry sn fs0 r n -> fs !! (bn ++ r) = fs0 !! (bn ++ r).
Proof.
  intros Hb He.
  destruct (base_cases _ _ _ (bn ++ r) Hb) as [(r' & Hin & E & _)|[(r' & _ & E & _)|[E|(_ & _ & r' & b & _ & E)]]];
    [| |done|]; exfalso.
  - apply app_inv_head in E as ->. destruct (Hno r' []) as [_ Hx]; [by eapply base_done|].
    rewrite app_nil_r in Hx. by eapply Hx.
  - apply (apart_below bn rn r r'); [done|by rewrite E].
  - apply (apart_below bn rn r (removelast r')); [done|]. rewrite E. by apply prefix_app_r.
Qed.

Lemma base_links d t fs p : base d t fs -> no_links fs0 p -> no_links fs p.
Proof.
  intros Hv Hl k b m x -> E.
  destruct (base_cases d t fs k Hv) as [(r & _ & _ & E')|[(r & Hin & _ & E')|[E'|(_ & [mk E'] & _)]]].
  - congruence.
  - rewrite E' in E. destruct (rm_area r (Hrem r (base_done _ _ _ _ Hv Hin)) bn ltac:(auto)) as [_ Hb _].
    apply (Hb (bn ++ r) [] m x); [by rewrite app_nil_r|done].
  - rewrite E' in E. by eapply Hl.
  - congruence.
Qed.

(** A file that is gone is not above another. *)
Lemma gone_not_above r r' b : gone r -> gone r' -> removelast r' <> r ++ b.
Proof.
  intros Hr Hr' E. pose proof (rm_rel _ (Hrem r' Hr')) as Hne.
  assert (r `prefix_of` r') as Hp.
  { destruct r' as [|x r' _] using rev_ind; [done|]. rewrite removelast_last in E. rewrite E.
    exists (b ++ [x]). by rewrite <- app_assoc. }
  pose proof (Hanti r r' Hr Hr' Hp) as ->. apply (f_equal length) in E.
  destruct r' as [|x r' _] using rev_ind; [done|]. rewrite removelast_last, !length_app in E. cbn in E. lia.
Qed.

Lemma base_before d t fs r :
  base d t fs -> r ∉ d -> gone r ->
  fs !! (bn ++ r) = fs0 !! (bn ++ r) /\ fs !! (rn ++ r) = None /\ creatable fs (rn ++ removelast r).
Proof.
  intros Hv Hr Hg. pose proof (Hrem r Hg) as [Hfile Hfree Hdirs _ _].
  assert (forall r', r' ∈ d -> gone r') as Hall by (intros r'; by apply (base_done d t fs)). split_and!.
  - destruct (base_cases d t fs (bn ++ r) Hv) as [(r' & Hin & E & _)|[(r' & _ & E & _)|[E|(E & _)]]]; [| |done|].
    + apply app_inv_head in E as ->. done.
    + symmetry in E. by eapply restore_not in E; [|done|by apply prefix_app_r].
    + destruct Hfile as (n & Hn & _). congruence.
  - destruct (base_cases d t fs (rn ++ r) Hv) as [(r' & _ & _ & E)|[(r' & Hin & E & _)|[E|(_ & _ & r' & b & Hg' & E)]]].
    + done.
    + apply app_inv_head in E as ->. done.
    + by rewrite E.
    + rewrite <- app_assoc in E. apply app_inv_head in E. by apply gone_not_above in E.
  - intros k b E. destruct (base_cases d t fs k Hv) as [(r' & _ & _ & E')|[(r' & Hin & -> & _)|[E'|(_ & [mk E'] & _)]]].
    + by right.
    + rewrite <- app_assoc in E. apply app_inv_head in E. by apply gone_not_above in E; [|apply Hall|].
    + destruct (Hdirs k b E) as [Hd|Hd]; [left|right; by rewrite E']. destruct k; [done|].
      unfold is_dir_at in *. by rewrite E'.
    + left. by eapply is_dir_at_intro.
Qed.

(** ** The host, when copies were made too *)

(** Nothing but the moves touches the restore area. *)
Lemma backed_restore fsb fs k : backed sn bn fsb fs -> rn `prefix_of` k -> fs !! k = fsb !! k.
Proof.
  intros Hb Hk. destruct (Hb k) as [E|[(r & m & x & m' & _ & E & _)|(_ & _ & r & b & _ & E)]]; [done| |]; exfalso.
  - by eapply restore_not.
  - eapply (restore_apart bn r k); [done..|]. rewrite E. by apply prefix_app_r.
Qed.

Lemma base_no_entry d t fsb r n : base d t fsb -> gone r -> ~ entry sn fsb r n.
Proof.
  intros Hb Hg (Hr & Hn & Hw). destruct (Hno r [] Hg) as [_ Hx]. rewrite app_nil_r in Hx.
  apply (Hx n). split_and!; [done| |done]. by rewrite <- (base_source d t fsb).
Qed.

(** The backup of a file that is gone is as the moves left it. *)
Lemma backed_gone d t fsb fs r : base d t fsb -> backed sn bn fsb fs -> gone r ->
  fs !! (bn ++ r) = fsb !! (bn ++ r).
Proof.
  intros Hbs Hb Hg.
  destruct (Hb (bn ++ r)) as [E|[(r' & m & x & m' & He & E & _)|(_ & _ & r' & b & Hd & E)]]; [done| |]; exfalso.
  - apply app_inv_head in E as <-. by eapply base_no_entry.
  - rewrite <- app_assoc in E. apply app_inv_head in E as ->. destruct (Hno r b Hg) as [Hx _].
    assert (is_dir_at fs0 (sn ++ r ++ b) = is_dir_at fsb (sn ++ r ++ b)) as E; [|congruence].
    unfold is_dir_at. pose proof (base_source d t fsb (r ++ b) Hbs) as Es. by rewrite Es.
Qed.

(** ** One more move *)

Section Move.
Context (d t : list ppath) (r : ppath) (fsb : fsmap) (s s' : os) (n : node).
Context (Hbase : base d (r :: t) fsb) (Hbacked : backed sn bn fsb (os_fs s)) (Htree : tree_ok (os_fs s')).
Context (Hold : fs0 !! (bn ++ r) = Some n) (Hnew : os_fs s' !! (rn ++ r) = Some n).
Context (Hfree : os_fs s' !! (bn ++ r) = None).
Context (Hrest : forall k, k <> bn ++ r -> k <> rn ++ r -> only_new_dirs (rn ++ removelast r) s s' k).

Lemma move_gone : gone r /\ r ∉ d.
Proof.
  split.
  - pose proof (bs_gone _ _ _ Hbase) as Hall. apply Forall_app in Hall as [_ Hall]. by apply Forall_inv in Hall.
  - pose proof (bs_nodup _ _ _ Hbase) as Hn. apply NoDup_app in Hn as (_ & Hx & _). intros Hin.
    apply (Hx r Hin). by left.
Qed.

Lemma move_before : fsb !! (bn ++ r) = Some n /\ is_dir n = false /\ fsb !! (rn ++ r) = None /\
  creatable fsb (rn ++ removelast r).
Proof.
  destruct move_gone as [Hg Hr]. destruct (base_before d (r :: t) fsb r Hbase Hr Hg) as (E & Hf & Hc).
  destruct (rm_file r (Hrem r Hg)) as (n' & Hn' & Hd). rewrite E. split_and!; try done; congruence.
Qed.

(** The host without the copies: the restore area as it is now, the rest as it was, but for
    the file that has moved. *)
Definition after_move : fsmap :=
  filter (fun kn => rn `prefix_of` fst kn) (os_fs s')
  ∪ filter (fun kn => ~ rn `prefix_of` fst kn) (delete (bn ++ r) fsb).

Lemma after_in k : rn `prefix_of` k -> after_move !! k = os_fs s' !! k.
Proof.
  intros Hk. unfold after_move. destruct (os_fs s' !! k) as [m|] eqn:E.
  - apply lookup_union_Some_l. by apply map_lookup_filter_Some.
  - apply lookup_union_None. split; apply map_lookup_filter_None; [by left|]. right. intros ? _ Hx. by apply Hx.
Qed.
Lemma after_out k : ~ rn `prefix_of` k -> after_move !! k = delete (bn ++ r) fsb !! k.
Proof.
  intros Hk. unfold after_move. rewrite lookup_union_r.
  - rewrite map_lookup_filter. destruct (_ !! k); [|done]. cbn. by rewrite option_guard_True.
  - apply map_lookup_filter_None. right. intros ? _ Hx. by apply Hk.
Qed.

(** Everywhere else there are only new directories. *)
Lemma after_other k : k <> bn ++ r -> k <> rn ++ r ->
  after_move !! k = fsb !! k \/
  (fsb !! k = None /\ (exists b, rn ++ removelast r = k ++ b) /\ exists mk, after_move !! k = Some (NDir mk)).
Proof.
  intros H1 H2. destruct (decide (rn `prefix_of` k)) as [Hk|Hk].
  - rewrite after_in by done. rewrite <- (backed_restore fsb (os_fs s)) by done. by apply Hrest.
  - left. rewrite after_out by done. by rewrite lookup_delete_ne.
Qed.
Lemma after_old : after_move !! (bn ++ r) = None.
Proof.
  rewrite after_out; [by apply lookup_delete_eq|]. intros Hk. by eapply restore_not.
Qed.
Lemma after_new : after_move !! (rn ++ r) = Some n.
Proof. rewrite after_in; [done|by apply prefix_app_r]. Qed.

Lemma after_area b p : apart b rn -> b ++ p <> bn ++ r -> after_move !! (b ++ p) = fsb !! (b ++ p).
Proof.
  intros Ha Hp. rewrite after_out; [by apply lookup_delete_ne|]. intros Hk. by eapply restore_not.
Qed.
Lemma after_source p : after_move !! (sn ++ p) = fsb !! (sn ++ p).
Proof.
  apply after_area; [done|]. intros E. apply (apart_below sn bn p r); [done|by rewrite E].
Qed.

Lemma after_dir p : is_dir_at fsb p = true -> is_dir_at after_move p = true.
Proof.
  intros Hd. destruct p as [|y p]; [done|]. apply is_dir_at_some in Hd as [m Hd]; [|done].
  destruct move_before as (E1 & Hn & E2 & _).
  destruct (after_other (y :: p)) as [E|(E & _)]; [| | |congruence].
  - intros E. rewrite E, E1 in Hd. by injection Hd as ->.
  - intros E. rewrite E, E2 in Hd. done.
  - rewrite Hd in E. by eapply is_dir_at_intro.
Qed.

Lemma after_some k m : after_move !! k = Some m ->
  fsb !! k = Some m \/ (k = rn ++ r /\ m = n) \/ ((exists mk, m = NDir mk) /\ exists b, rn ++ removelast r = k ++ b).
Proof.
  intros Hk. destruct (decide (k = bn ++ r)) as [->|H1]; [by rewrite after_old in Hk|].
  destruct (decide (k = rn ++ r)) as [->|H2]; [rewrite after_new in Hk; injection Hk as <-; auto|].
  destruct (after_other k H1 H2) as [E|(_ & Hb & mk & E)]; [left; congruence|]. right; right.
  split; [|done]. exists mk. congruence.
Qed.

Lemma after_tree : tree_ok after_move.
Proof.
  intros k m Hk Hne.
  assert (fsb !! k = Some m -> is_dir_at after_move (removelast k) = true) as Hb.
  { intros E. apply after_dir. by apply (wo_tree _ _ (rd_walk _ _ _ _ _ (bs_ready _ _ _ Hbase)) k m). }
  destruct (decide (rn `prefix_of` k)) as [[j ->]|Hout].
  - destruct j as [|x j _] using rev_ind.
    + rewrite app_nil_r in *. apply after_dir.
      destruct (is_dir_at_some _ _ restore_nonempty (bs_root _ _ _ Hbase)) as [mm Hmm].
      by apply (wo_tree _ _ (rd_walk _ _ _ _ _ (bs_ready _ _ _ Hbase)) rn (NDir mm)).
    + rewrite after_in in Hk by (by apply prefix_app_r). pose proof (Htree _ _ Hk Hne) as Hd.
      rewrite app_assoc, removelast_last in *. pose proof restore_nonempty as Hrn.
      assert (rn ++ j <> []) as Hj by (by destruct rn).
      destruct (is_dir_at_some _ _ Hj Hd) as [mm Hmm]. eapply is_dir_at_intro.
      rewrite after_in; [exact Hmm|by apply prefix_app_r].
  - apply Hb. rewrite after_out in Hk by done. by apply lookup_delete_Some in Hk as [_ Hk].
Qed.

Lemma after_names : names_ok after_move.
Proof.
  destruct move_gone as [Hg _]. destruct (rm_area r (Hrem r Hg) rn) as [Hn _ _]; [auto|].
  intros k m Hk. destruct (after_some k m Hk) as [E|[[-> _]|[_ [b E]]]].
  - by eapply (wo_names _ _ (rd_walk _ _ _ _ _ (bs_ready _ _ _ Hbase))).
  - done.
  - assert (Forall path_name (rn ++ removelast r)) as Hall.
    { apply Forall_app in Hn as [H1 H2]. apply Forall_app. split; [done|by apply Forall_removelast]. }
    rewrite E in Hall. by apply Forall_app in Hall as [Hall _].
Qed.

Lemma after_links p : no_links fsb p -> no_links after_move p.
Proof.
  intros Hl a b m x -> E. destruct move_gone as [Hg _].
  destruct (after_some a _ E) as [E'|[[_ En]|[[mk En] _]]]; [by eapply Hl| |done].
  destruct (rm_area r (Hrem r Hg) bn) as [_ Hb _]; [auto|].
  apply (Hb (bn ++ r) [] m x); [by rewrite app_nil_r|]. by rewrite Hold, En.
Qed.

Lemma after_entry p m : entry sn after_move p m <-> entry sn fsb p m.
Proof. unfold entry. by rewrite after_source. Qed.

Lemma after_source_dir p : is_dir_at after_move (sn ++ p) = is_dir_at fsb (sn ++ p).
Proof. unfold is_dir_at. by rewrite after_source. Qed.

Lemma after_backup p m : after_move !! (bn ++ p) = Some m -> fsb !! (bn ++ p) = Some m.
Proof.
  intros Hp. destruct (decide (bn ++ p = bn ++ r)) as [E|E]; [by rewrite E, after_old in Hp|].
  by rewrite after_area in Hp.
Qed.

Lemma after_ready : backup_ready sn bn rn after_move (app_config a0).
Proof.
  pose proof (bs_ready _ _ _ Hbase) as [H1 H2 H3 [Wt Wn Wr Wd Wl Ws] H5 Ha Hd Hf Ht]. constructor; try done.
  - constructor; [apply after_tree|apply after_names|done|by apply after_dir|by apply after_links|].
    intros p. rewrite after_source. apply Ws.
  - intros p m b He%after_entry Hb. destruct (Ha p m b He Hb) as [A1 A2 A3].
    constructor; [done|by apply after_links|done].
  - intros p Hp a b E. rewrite after_source_dir in Hp.
    destruct (Hd p Hp a b E) as [Hx|Hx]; [left; by apply after_dir|right].
    destruct (after_move !! a) as [m|] eqn:Em; [exfalso|done].
    destruct (decide (rn `prefix_of` a)) as [Hra|Hra].
    + eapply (restore_apart bn p a); [done..|]. rewrite E. by apply prefix_app_r.
    + rewrite after_out in Em by done. apply lookup_delete_Some in Em as [_ Em]. congruence.
  - intros p m x mm He%after_entry E%after_backup. by eapply Hf.
  - intros p x m Hx. destruct (Ht p x m Hx) as [T1 T2]. rewrite after_entry. split; [|done].
    destruct (after_move !! (bn ++ p ++ [x])) as [m'|] eqn:E; [|done]. apply after_backup in E. congruence.
Qed.

(** The base after the move. *)
Lemma base_moved : base (r :: d) t after_move.
Proof.
  destruct move_gone as [Hg Hr]. destruct move_before as (E1 & _ & E2 & _).
  pose proof Hbase as [Hall Hnd _ Hroot Hm _].
  constructor; [by rewrite <- app_comm_cons, Permutation_middle..|apply after_ready|by apply after_dir| |].
  - intros r' [->|Hin]%elem_of_cons; [split; [apply after_old|by rewrite after_new]|].
    destruct (Hm r' Hin) as [Hb' Hr']. assert (r' <> r) as Hne by congruence. split.
    + rewrite after_area; [done|done|]. intros E. by apply app_inv_head in E.
    + assert (exists m, fs0 !! (bn ++ r') = Some m) as [m Hm'].
      { destruct (rm_file r') as (m & Hm' & _); [by eapply Hrem, base_done|by exists m]. }
      destruct (after_other (rn ++ r')) as [E|(E & _)]; [| | |congruence].
      * by apply restore_not; [|apply prefix_app_r].
      * intros E. by apply app_inv_head in E.
      * congruence.
  - intros k Hk. destruct (Hk r) as [K1 K2]; [by left|].
    destruct (after_other k K1 K2) as [E|(E & [b Eb] & mk & Em)].
    + destruct (bs_rest _ _ _ Hbase k) as [E'|(E' & [mk Em] & Hx)]; [by intros r' Hin; apply Hk; right|left|right].
      * congruence.
      * split; [done|]. split; [exists mk; congruence|done].
    + right. split; [|split; [by exists mk|by exists r, b]].
      destruct (base_cases _ _ _ k Hbase) as [(r' & Hin & -> & _)|[(r' & Hin & -> & E')|[E'|(E' & _)]]].
      * exfalso. by destruct (Hk (r') ltac:(by right)).
      * exfalso. by destruct (Hk (r') ltac:(by right)).
      * congruence.
      * done.
Qed.

(** The host is that base, and the copies. *)
Lemma backed_moved : backed sn bn after_move (os_fs s').
Proof.
  destruct move_before as (E1 & _ & E2 & _). intros k.
  destruct (decide (rn `prefix_of` k)) as [Hk|Hk]; [left; by rewrite after_in|].
  destruct (decide (k = bn ++ r)) as [->|K1]; [left; by rewrite after_old|].
  assert (k <> rn ++ r) as K2 by (intros ->; apply Hk; by apply prefix_app_r).
  assert (after_move !! k = fsb !! k) as Ea by (rewrite after_out by done; by rewrite lookup_delete_ne).
  destruct (Hrest k K1 K2) as [E|(E & [b Eb] & mk & Em)].
  - destruct (Hbacked k) as [Eb|[(p & m & x & m' & He & -> & Ek & Hm)|(Ek & Hm & p & b & Hd & Ep)]].
    + left. congruence.
    + right; left. exists p, m, x, m'. rewrite after_entry, E. done.
    + right; right. unfold made_for. rewrite Ea, E. split_and!; [done..|].
      exists p, b. by rewrite after_source_dir.
  - destruct (Hbacked k) as [Ek|[(p & m & x & m' & He & -> & Ek & Hm)|(_ & [mk' Ek] & _)]]; [|congruence..].
    destruct (decide (k = [])) as [->|Hne].
    { right; right. rewrite Ek in E. split; [congruence|]. split; [by exists mk|]. exists [], bn.
      rewrite after_source_dir, app_nil_r. split; [apply (bs_ready _ _ _ Hbase)|by rewrite app_nil_r]. }
    exfalso. assert (k `prefix_of` rn) as [j Ej].
    { destruct (prefix_weak_total k rn (rn ++ removelast r)) as [Hp|Hp]; [by exists b|by apply prefix_app_r|done|by destruct Hk]. }
    pose proof (dir_at_chain fsb rn (wo_tree _ _ (rd_walk _ _ _ _ _ (bs_ready _ _ _ Hbase))) (bs_root _ _ _ Hbase)) as Hc.
    specialize (Hc k j Ej). apply is_dir_at_some in Hc as [mm Hc]; [congruence|done].
Qed.
End Move.

(** ** The workers, on any events *)

Section Mixed.
Context `{DirOrder} `{LocalStamp} `{Strerror} `{Clock}.
Context `{!Allocator syseba_event_t} `{!Allocator syseba_log_record_t}.
Context (unknown : cstr).

(** The events: the deletions of the files that are gone, and events of entries. *)
Context {I : Type} (delete_of : ppath -> syseba_event_t) (target : I -> ppath * bool) (change_of : I -> syseba_event_t).
Context (Hdelete : forall r, ev_path (delete_of r) = render (sn ++ r) /\ ev_kind (delete_of r) = SYSEBA_EVENT_DELETE).
Context (Hchange : forall i, ev_path (change_of i) = render (fst (target i)) /\
  ev_is_directory (change_of i) = snd (target i) /\ ev_kind (change_of i) <> SYSEBA_EVENT_DELETE /\
  ev_initial_sync (change_of i) = false).
Definition job_event (j : ppath + I) : syseba_event_t :=
  match j with inl r => delete_of r | inr i => change_of i end.
Definition deletions (l : list (ppath + I)) : list ppath :=
  flat_map (fun j => match j with inl r => [r] | inr _ => [] end) l.

(** What was in the backup at the start, and the device. *)
Context (kept : ppath -> node -> Prop) (v : Z).

(** The jobs that are done, and those that are not. *)
Record mixing (d t : list (ppath + I)) (a : syseba_app_t) : Prop := Mixing {
  mx_base : exists fsb, base (deletions d) (deletions t) fsb /\ core a0 sn bn fsb a;
  mx_entries : forall i, inr i ∈ t -> exists r n, entry sn fs0 r n /\ target i = (sn ++ r, is_dir n);
  mx_device : one_device v (os_fs (app_os a));
  mx_saved : forall r n, entry sn fs0 r n ->
    (exists i, inr i ∈ d /\ target i = (sn ++ r, is_dir n)) \/ kept r n -> saved bn fs0 (os_fs (app_os a)) r n;
}.

Lemma deletions_perm l l' : Permutation l l' -> Permutation (deletions l) (deletions l').
Proof. apply Permutation_flat_map. Qed.

Lemma deletions_elem l r : r ∈ deletions l <-> inl r ∈ l.
Proof.
  unfold deletions. rewrite !list_elem_of_In, in_flat_map. split.
  - intros ([r'|i] & Hin & Hr); [|done]. by destruct Hr as [->|[]].
  - intros Hin. exists (inl r). split; [done|by left].
Qed.

Lemma deletions_nodup l : NoDup l -> NoDup (deletions l).
Proof.
  induction 1 as [|[r|i] l Hj Hl IH]; [constructor|constructor; [|done]|done].
  rewrite <- deletions_elem in Hj. done.
Qed.

(** Before the first job. *)
Lemma mixing_start l a :
  backup_ready sn bn rn fs0 (app_config a0) -> is_dir_at fs0 rn = true -> os_fs (app_os a) = fs0 ->
  quiet (app_os a) -> app_config a = app_config a0 -> app_stop_requested a = false -> one_device v fs0 ->
  NoDup (deletions l) -> (forall r, inl r ∈ l -> gone r) ->
  (forall i, inr i ∈ l -> exists r n, entry sn fs0 r n /\ target i = (sn ++ r, is_dir n)) ->
  (forall r n, entry sn fs0 r n -> kept r n -> saved bn fs0 fs0 r n) ->
  mixing [] l a.
Proof.
  intros Hready Hroot Hfs Hq Hc Hs Hv Hnd Hg Hi Hk. constructor; rewrite ?Hfs; [|done..|].
  - exists fs0. split; [|constructor; rewrite ?Hfs; try done; [apply Hready|by left]].
    constructor; [|done..| |by left].
    + apply Forall_forall. intros r Hin%deletions_elem. by apply Hg.
    + intros r Hin. by apply not_elem_of_nil in Hin.
  - intros r n He [(i & Hin & _)|Hkept]; [by apply not_elem_of_nil in Hin|by apply Hk].
Qed.

Lemma mixing_perm d d' t t' a : Permutation d d' -> Permutation t t' -> mixing d t a -> mixing d' t' a.
Proof.
  intros Hd Ht [(fsb & Hb & Hc) He Hv Hs]. constructor; [|by setoid_rewrite <- Ht|done|by setoid_rewrite <- Hd].
  exists fsb. split; [|done]. by eapply base_perm; [apply deletions_perm|apply deletions_perm|].
Qed.

Lemma mixing_queue d t a q : mixing d t a -> mixing d t (with_event_queue q a).
Proof. intros [(fsb & Hb & []) He Hv Hs]. constructor; try done. exists fsb. by split; [|constructor]. Qed.

Lemma base_entry d t fsb r n : base d t fsb -> entry sn fsb r n <-> entry sn fs0 r n.
Proof. intros Hb. unfold entry. by rewrite (base_source d t). Qed.

Lemma base_saved d t fsb fs r n : base d t fsb -> entry sn fs0 r n -> saved bn fsb fs r n <-> saved bn fs0 fs r n.
Proof. intros Hb He. unfold saved. by rewrite (base_backup d t fsb r n). Qed.

(** A worker's turn on a change: more of the backup is up to date. *)
Lemma change_turn d i t a :
  mixing d (inr i :: t) a ->
  mixing (inr i :: d) t (exec (worker_turn unknown (change_of i)) a) /\
  app_event_queue (exec (worker_turn unknown (change_of i)) a) = exec syseba_queue_task_done (app_event_queue a).
Proof.
  intros [(fsb & Hb & Hc) He Hv Hs]. destruct (He i) as (r & n & Hen & Hi); [by left|].
  assert (entry sn fsb r n) as Hen' by (by eapply base_entry).
  destruct (turn_spec unknown a0 sn bn rn fsb (bs_ready _ _ _ Hb) target change_of false Hchange a i r n Hc Hen' Hi)
    as [Hc' Hsv Hk Hq _ _].
  split; [|done]. constructor; [by exists fsb| | |].
  - intros j Hj. apply He. by right.
  - apply turn_keeps_device; [apply Hchange|apply Hc|done].
  - intros r' n' He' Hin. assert (entry sn fsb r' n') as He2 by (by eapply base_entry).
    apply (base_saved _ _ _ _ _ _ Hb He'). destruct Hin as [(j & [Ej|Hj]%elem_of_cons & Hj')|Hin].
    + injection Ej as ->. rewrite Hi in Hj'. injection Hj' as E _. apply app_inv_head in E as <-.
      destruct Hen' as (_ & Hn & _), He2 as (_ & Hn' & _). rewrite Hn in Hn'. by injection Hn' as <-.
    + apply Hk; [done|]. apply (base_saved _ _ _ _ _ _ Hb He'). apply Hs; [done|]. left. by exists j.
    + apply Hk; [done|]. apply (base_saved _ _ _ _ _ _ Hb He'). apply Hs; auto.
Qed.

(** What a worker needs to move a backup. *)
Lemma gone_areas fsb d r t a b : base d t fsb -> core a0 sn bn fsb a -> gone r -> b = sn \/ b = bn \/ b = rn ->
  area (os_fs (app_os a)) b r.
Proof.
  intros Hb Hc Hg Hbb. destruct (rm_area r (Hrem r Hg) b Hbb) as [A1 A2 A3]. constructor; [done| |done].
  eapply backed_links; [apply Hc|]. by eapply base_links.
Qed.

Lemma gone_creatable fsb fs r : backed sn bn fsb fs -> creatable fsb (rn ++ removelast r) -> creatable fs (rn ++ removelast r).
Proof.
  intros Hb Hc k b E. destruct (Hb k) as [Ek|[(p & m & x & m' & _ & -> & _)|(_ & [mk Ek] & _)]].
  - destruct (Hc k b E) as [Hd|Hd]; [left|right; congruence]. destruct k; [done|].
    unfold is_dir_at in *. by rewrite Ek.
  - exfalso. apply (apart_below bn rn p (removelast r)); [done|]. rewrite E. by apply prefix_app_r.
  - left. by eapply is_dir_at_intro.
Qed.

(** What the move leaves of the copies. *)
Lemma moved_saved fs s s' r r' n' :
  os_fs s = fs -> gone r -> entry sn fs0 r' n' ->
  (forall k, k <> bn ++ r -> k <> rn ++ r -> only_new_dirs (rn ++ removelast r) s s' k) ->
  saved bn fs0 fs r' n' -> saved bn fs0 (os_fs s') r' n'.
Proof.
  intros <- Hg He Hrest. assert (os_fs s' !! (bn ++ r') = os_fs s !! (bn ++ r')) as E.
  { destruct (Hrest (bn ++ r')) as [E|(_ & [b E] & _)]; [| |done|].
    - intros E. apply app_inv_head in E as ->. destruct (Hno r [] Hg) as [_ Hx]. rewrite app_nil_r in Hx. by eapply Hx.
    - intros E. symmetry in E. by eapply restore_not in E; [|done|by apply prefix_app_r].
    - exfalso. apply (apart_below bn rn r' (removelast r)); [done|]. rewrite E. by apply prefix_app_r. }
  unfold saved. by rewrite E.
Qed.

(** The event of a deletion moves one more backup. *)
Lemma delete_event fsb d r t a :
  base d (r :: t) fsb -> core a0 sn bn fsb a -> one_device v (os_fs (app_os a)) ->
  exists n x a', fs0 !! (bn ++ r) = Some n /\
    syseba_app_process_event unknown (delete_of r) a = (SYSEBA_OK, a') /\ effect a (app_os a') x a' /\
    os_fs (app_os a') !! (rn ++ r) = Some n /\ os_fs (app_os a') !! (bn ++ r) = None /\
    (forall k, k <> bn ++ r -> k <> rn ++ r -> only_new_dirs (rn ++ removelast r) (app_os a) (app_os a') k) /\
    quiet (app_os a') /\ tree_ok (os_fs (app_os a')) /\ one_device v (os_fs (app_os a')).
Proof.
  intros Hb Hc Hv. pose proof Hc as [Hq Ht Hbk Hconf Hst].
  destruct (move_gone d t r fsb Hb) as [Hg Hr]. destruct (base_before _ _ fsb r Hb Hr Hg) as (Hbn & Hrn & Hdirs).
  pose proof (Hrem r Hg) as [(n & Hn & Hfile) _ _ Hne _].
  pose proof (fun b Hbb => gone_areas fsb _ r _ a b Hb Hc Hg Hbb) as Ha.
  pose proof (gone_creatable fsb _ r Hbk Hdirs) as Hdirs'.
  rewrite <- (backed_gone _ _ fsb (os_fs (app_os a)) r Hb Hbk Hg) in Hbn.
  rewrite <- (backed_restore fsb (os_fs (app_os a)) _ Hbk ltac:(by apply prefix_app_r)) in Hrn.
  destruct (Hdelete r) as [Hp Hk]. pose proof (bs_ready _ _ _ Hb) as Hready.
  assert (exists p x, r = p ++ [x] /\ removelast r = p) as (p & x & Er & Ep).
  { destruct r as [|x p _] using rev_ind; [done|]. exists p, x. by rewrite removelast_last. }
  destruct (process_event_deletes unknown (delete_of r) a sn bn rn p x n v)
    as (s' & a' & E & Heff & Hnew & Hold & Hrest & Hend);
    rewrite <- ?app_assoc, <- ?Er, ?Hrn; cbn [restored_name]; rewrite <- ?Er, <- ?Ep; try done.
  { rewrite Hconf. constructor; [apply Hready..|done|done| | |]; auto. }
  { auto. }
  { by rewrite Hbn. }
  rewrite <- Er in Hold, Hnew, Hrest. rewrite Hrn in Hnew, Hrest. cbn [restored_name] in Hnew, Hrest.
  rewrite <- Er in Hnew, Hrest. rewrite <- Ep in Hrest.
  pose proof (effect_os _ _ _ _ Heff) as <-. by eexists n, _, a'.
Qed.

(** A worker's turn on a deletion. *)
Lemma delete_turn d r t a :
  mixing d (inl r :: t) a ->
  mixing (inl r :: d) t (exec (worker_turn unknown (delete_of r)) a) /\
  app_event_queue (exec (worker_turn unknown (delete_of r)) a) = exec syseba_queue_task_done (app_event_queue a).
Proof.
  intros [(fsb & Hb & Hc) He Hv Hs]. cbn [deletions flat_map app] in Hb. fold (deletions t) in Hb.
  destruct (move_gone (deletions d) (deletions t) r fsb Hb) as [Hg _].
  destruct (delete_event fsb _ r _ a Hb Hc Hv) as (n & x & a' & Hn & E & [[] _] & Hnew & Hold & Hrest & Hq & Ht & Hdev).
  assert (exec (worker_turn unknown (delete_of r)) a
    = with_event_queue (exec syseba_queue_task_done (app_event_queue a')) a') as ->.
  { unfold worker_turn, exec at 1. rewrite (bind_run _ _ _ _ _ E). by rewrite bind_unit. }
  split; [|change (exec syseba_queue_task_done (app_event_queue a') = exec syseba_queue_task_done (app_event_queue a));
    f_equal; exact ol_events].
  pose proof Hc as [_ _ Hbk Hconf Hst]. apply mixing_queue. constructor.
  - exists (after_move r fsb (app_os a')). split.
    + by apply (base_moved _ _ r fsb (app_os a) (app_os a') n).
    + constructor; [done|done| |by etransitivity|by etransitivity].
      by apply (backed_moved _ _ r fsb (app_os a) (app_os a') n Hb).
  - intros i Hi. apply He. by right.
  - done.
  - intros r' n' He' Hin. eapply moved_saved; [reflexivity|exact Hg|done|exact Hrest|]. apply Hs; [done|].
    destruct Hin as [(i & [|Hi]%elem_of_cons & Hi')|Hin]; [done|left; by exists i|by right].
Qed.

(** Any number of workers, in any order. *)
Lemma workers_mixed l fuel a :
  zlen l <= U64_MAX -> (length l <= fuel)%nat -> represents (app_event_queue a) (map job_event l) ->
  mixing [] l a ->
  finished unknown a (one_worker unknown fuel a) /\
  forall a', finished unknown a a' ->
    mixing l [] a' /\ represents (app_event_queue a') [] /\
    q_closed (app_event_queue a') = q_closed (app_event_queue a).
Proof.
  intros Hlen Hf Hr Hi.
  apply (workers_finish unknown job_event mixing mixing_perm mixing_queue); try done.
  intros d [r|i] t b; [apply delete_turn|apply change_turn].
Qed.

(** What can be where no backup was moved away or in: what was there, a copy, or a new
    directory. *)
Definition as_left (fs : fsmap) (k : ppath) : Prop :=
  fs !! k = fs0 !! k \/ copy_at sn bn fs0 fs k \/ made_for sn bn fs0 fs k \/ made_in_restore fs k.

(** What is left when every job is done. *)
Lemma mixing_outcome l a :
  mixing l [] a ->
  quiet (app_os a) /\ app_config a = app_config a0 /\ app_stop_requested a = false /\
  (forall r, inl r ∈ l -> os_fs (app_os a) !! (bn ++ r) = None /\ os_fs (app_os a) !! (rn ++ r) = fs0 !! (bn ++ r)) /\
  (forall r, os_fs (app_os a) !! (sn ++ r) = fs0 !! (sn ++ r)) /\
  (forall k, (forall r, inl r ∈ l -> k <> bn ++ r /\ k <> rn ++ r) -> as_left (os_fs (app_os a)) k).
Proof.
  intros [(fsb & Hb & [Hq Ht Hbk Hc Hst]) _ _ _]. split_and!; [done..| | |].
  - intros r Hin%deletions_elem. destruct (bs_moved _ _ _ Hb r Hin) as [Hm1 Hm2].
    rewrite (backed_gone _ _ _ _ _ Hb Hbk), (backed_restore _ _ _ Hbk); [done|by apply prefix_app_r|].
    by eapply base_done.
  - intros r. rewrite (backed_source _ _ _ _ _ (bs_ready _ _ _ Hb)) by done. by eapply base_source.
  - intros k Hk. assert (fsb !! k = fs0 !! k \/ made_in_restore fsb k) as Hbase.
    { apply (bs_rest _ _ _ Hb). intros r Hin%deletions_elem. by apply Hk. }
    assert (forall p, is_dir_at fsb (sn ++ p) = is_dir_at fs0 (sn ++ p)) as Hd.
    { intros p. unfold is_dir_at. by rewrite (base_source _ _ _ p Hb). }
    destruct (Hbk k) as [E|[(p & m & x & m' & He & -> & Ek & Hm)|(Ek & Hm & p & b & Hp & Ep)]].
    + destruct Hbase as [E'|(E' & [mk Em] & Hx)]; [left; congruence|]. right; right; right.
      split; [done|]. split; [exists mk; congruence|done].
    + right; left. exists p, m, x, m'. split; [by apply (base_entry _ _ _ _ _ Hb)|done].
    + right; right; left. split; [|split; [done|exists p, b; by rewrite <- Hd]].
      destruct Hbase as [E'|(_ & [mk Em] & _)]; congruence.
Qed.
End Mixed.
End Removal.
