(* ===== verification/RecoverFacts.v ===== *)
(** * Restoring a file on a quiet host

    What [syseba_restore_item] does with a file of the restore area: the name it goes
    to under each strategy, and the copy it leaves there. *)

From S2P Require Import Prelude CString Paths Os OsFacts Platform Fs FsFacts CopyFacts Config ConfigFacts ConfigText FsTree FsTreeFacts Restore RestoreFacts AppState PlainFacts AppFacts.

(** ** The name beside a taken one *)

(** The stem and the extension around a mark with the time. *)
Definition beside_name `{LocalStamp} (time : Z) (x : cstr) : cstr :=
  let '(stem, extension) := split_name x in
  stem ++ (c!".restored-") ++ truncate 32 (local_stamp time) ++ [] ++ extension.

Lemma split_name_render p x : path_name x -> split_name (render (p ++ [x])) = split_name x.
Proof.
  intros ([_ Hs] & _). unfold split_name.
  assert (strrchr SLASH x = None) as -> by (by apply strrchr_None).
  assert (exists a, strrchr SLASH (render (p ++ [x])) = Some (a, x)) as [a ->]; [|done].
  destruct p as [|y p].
  - exists []. cbn [app render join_with]. rewrite app_nil_r. by apply (strrchr_app SLASH []).
  - exists (render (y :: p)). rewrite render_app_cons by done. by apply strrchr_app.
Qed.

Lemma split_name_length x stem extension :
  SLASH ∉ x -> split_name x = (stem, extension) -> zlen stem <= zlen x /\ zlen extension <= zlen x.
Proof.
  intros Hx E. apply split_name_app in E. apply strrchr_None in Hx. rewrite Hx in E. subst x.
  rewrite zlen_app. pose proof (zlen_nonneg stem). pose proof (zlen_nonneg extension). lia.
Qed.

Lemma zlen_last_render p x : Forall path_name (p ++ [x]) -> zlen x < zlen (render (p ++ [x])).
Proof.
  intros Hn. destruct p as [|y p]; [cbn [app render join_with]; zlen_lia|].
  rewrite render_app_cons by done. zlen_lia.
Qed.

Lemma unique_restored_quiet `{LocalStamp} s p x n :
  let y := beside_name (os_time s) x in
  quiet s -> tree_ok (os_fs s) -> p <> [] -> Forall path_name (p ++ [x]) -> Forall path_name (p ++ [y]) ->
  no_links (os_fs s) (p ++ [x]) -> no_links (os_fs s) (p ++ [y]) ->
  zlen (render (p ++ [x])) < SYSEBA_PATH_MAX -> zlen (render (p ++ [y])) < SYSEBA_PATH_MAX ->
  os_fs s !! (p ++ [x]) = Some n -> os_fs s !! (p ++ [y]) = None ->
  exists s', syseba_unique_restored_path (render (p ++ [x])) SYSEBA_PATH_MAX s
    = (Some (render (p ++ [y])), s') /\ same_world s s'.
Proof.
  intros y Hq Ht Hp Hx Hy Hlx Hly Hzx Hz Hn Hfree.
  unfold syseba_unique_restored_path, syseba_fs_exists, bind.
  destruct (exists_plain s (p ++ [x])) as (s1 & -> & Hw1); [done..|].
  rewrite node_at_snoc, Hn. cbn [ret negb].
  assert (path_name x) as Hxn by (apply Forall_app in Hx as [_ Hx]; by apply Forall_inv in Hx).
  rewrite split_name_render by done. unfold y, beside_name in *.
  destruct (split_name x) as [stem extension] eqn:Es.
  destruct (split_name_length x stem extension) as [Hstem Hext]; [by apply Hxn|done|].
  pose proof (zlen_last_render _ _ Hx) as Hlx'.
  rewrite parent_dir_render by done.
  assert ((SYSEBA_PATH_MAX <? zlen stem + 1) || negb (fits SYSEBA_PATH_MAX extension) = false) as ->.
  { apply orb_false_iff. split; [apply Z.ltb_ge; lia|]. apply negb_false_iff, Z.ltb_lt. lia. }
  unfold syseba_compact_stamp, gets. assert (os_time s1 = os_time s) as -> by apply Hw1.
  destruct UNIQUE_TRIES as [|tries] eqn:Et; [unfold UNIQUE_TRIES in Et; lia|].
  cbn [first_free]. cbv zeta. unfold restored_candidate at 1 2 3. rewrite Z.eqb_refl.
  set (name := stem ++ (c!".restored-") ++ truncate 32 (local_stamp (os_time s)) ++ [] ++ extension) in *.
  assert (render p ++ SLASH :: name = render (p ++ [name])) as -> by (by rewrite render_app_cons).
  assert (fits SYSEBA_PATH_MAX (render (p ++ [name])) = true) as -> by (by apply Z.ltb_lt).
  cbn [negb]. unfold syseba_fs_exists, bind. pose proof Hw1 as [_ Hf1].
  destruct (exists_plain s1 (p ++ [name])) as (s2 & -> & Hw2);
    rewrite ?Hf1; [by eapply same_world_quiet|done..|].
  rewrite node_at_snoc, Hfree. cbn [ret negb]. exists s2. split; [done|]. by etransitivity.
Qed.

(** ** The plan *)

(** The name, in the directory of the target, that a restored file goes to. *)
Definition restored_as `{LocalStamp} (strategy : syseba_restore_strategy_t) (time : Z)
    (taken : option node) (x : cstr) : option cstr :=
  match taken, strategy with
  | None, _ => Some x
  | Some _, SYSEBA_RESTORE_FAIL => None
  | Some _, SYSEBA_RESTORE_RENAME => Some (beside_name time x)
  | Some n, SYSEBA_RESTORE_OVERWRITE => if is_dir n then None else Some x
  end.

Section Plan.
Context `{LocalStamp} (config : syseba_config_t) (sn rn r : ppath) (x : cstr).
Context (Hsource : cfg_source config = render sn) (Hrestore : cfg_restore config = render rn).
Context (Hsn : sn ++ r <> []).

(** The relative path, as the listing shows it. *)
Definition item_path : cstr := drop 1 (join_with SLASH (r ++ [x])).

Lemma item_path_nonempty : Forall path_name (sn ++ r ++ [x]) -> exists c l, item_path = c :: l.
Proof.
  intros Hn. apply Forall_app in Hn as [_ Hn]. unfold item_path.
  destruct (r ++ [x]) as [|y l] eqn:E; [by destruct r|].
  pose proof (Forall_inv Hn) as ([Hy _] & _). cbn [join_with drop]. rewrite drop_0.
  destruct y as [|c y]; [done|]. by eexists _, _.
Qed.

Lemma restore_plan_quiet strategy s m c y :
  quiet s -> tree_ok (os_fs s) -> area (os_fs s) sn (r ++ [x]) -> area (os_fs s) rn (r ++ [x]) ->
  os_fs s !! (rn ++ r ++ [x]) = Some (NReg m c) ->
  restored_as strategy (os_time s) (os_fs s !! (sn ++ r ++ [x])) x = Some y ->
  area (os_fs s) sn (r ++ [y]) -> (y = beside_name (os_time s) x -> os_fs s !! (sn ++ r ++ [y]) = None) ->
  exists s', restore_plan config (Some item_path) strategy s =
      (inr (render (rn ++ r ++ [x]), false, render (sn ++ r ++ [y])), s') /\ same_world s s'.
Proof.
  intros Hq Ht Has Har Hf Hy Hay Hfree. assert (forall z, r ++ [z] <> []) as Hrel by (intros z; by destruct r).
  pose proof (area_length _ _ _ (Hrel _) Has) as Hls.
  unfold restore_plan. destruct (item_path_nonempty (ar_names _ _ _ Has)) as (c0 & l0 & Ei).
  rewrite Ei. rewrite <- Ei. clear c0 l0 Ei. unfold item_path. rewrite Hsource, Hrestore.
  destruct (area_join s rn (r ++ [x])) as (s1 & E1 & Hw1); [done..|]. unfold bind at 1. rewrite E1.
  pose proof (same_world_quiet _ _ Hw1 Hq) as Hq1. pose proof Hw1 as [_ Hf1].
  destruct (area_join s1 sn (r ++ [x])) as (s2 & E2 & Hw2); [done|by rewrite Hf1|done|by rewrite Hf1|].
  unfold bind at 1. rewrite E2. assert (same_world s s2) as Hw by (by etransitivity). clear E1 E2 Hw2.
  pose proof (same_world_quiet _ _ Hw Hq) as Hq2. pose proof Hw as [Hh2 Hf2].
  destruct (exists_plain s2 (rn ++ r ++ [x])) as (s3 & E3 & Hw3); [done|apply Har|by rewrite Hf2; apply Har|by rewrite Hf2|].
  unfold bind at 1, syseba_fs_exists at 1, bind at 1. rewrite E3, Hf2.
  assert (forall b (n : node), os_fs s !! (b ++ r ++ [x]) = Some n -> node_at (os_fs s) (b ++ r ++ [x]) = Some n) as Hat.
  { intros b n Hb. by destruct b, r. }
  rewrite (Hat _ _ Hf). cbn [ret negb].
  assert (same_world s s3) as Hws3 by (by etransitivity). pose proof Hws3 as [_ Hf3].
  destruct (exists_plain s3 (rn ++ r ++ [x])) as (s4 & E4 & Hw4);
    [by eapply same_world_quiet|apply Har|by rewrite Hf3; apply Har|by rewrite Hf3|].
  unfold bind at 1, syseba_fs_is_directory at 1, bind at 1. rewrite E4, Hf3, (Hat _ _ Hf). cbn [ret is_dir].
  assert (same_world s s4) as Hws4 by (by etransitivity). pose proof Hws4 as [Hh4 Hf4].
  pose proof (same_world_quiet _ _ Hws4 Hq) as Hq4.
  destruct (exists_plain s4 (sn ++ r ++ [x])) as (s5 & E5 & Hw5);
    [done|apply Has|by rewrite Hf4; apply Has|by rewrite Hf4|].
  unfold bind at 1, syseba_fs_exists at 1, bind at 1. rewrite E5, Hf4.
  assert (node_at (os_fs s) (sn ++ r ++ [x]) = os_fs s !! (sn ++ r ++ [x])) as -> by (by destruct sn, r).
  assert (same_world s s5) as Hws5 by (by etransitivity). pose proof Hws5 as [Hh5 Hf5].
  pose proof (same_world_quiet _ _ Hws5 Hq) as Hq5.
  destruct (os_fs s !! (sn ++ r ++ [x])) as [n|] eqn:En; cbn [ret andb].
  2: { cbn [restored_as] in Hy. injection Hy as <-. by exists s5. }
  destruct strategy; cbn [restored_as] in Hy; [done| |].
  - rewrite bool_decide_false, bool_decide_true by done. injection Hy as <-.
    pose proof (area_length _ _ _ (Hrel _) Hay) as Hly.
    assert (os_time s5 = os_time s) as Htime by apply Hh5.
    assert (forall z, sn ++ r ++ [z] = (sn ++ r) ++ [z]) as Hassoc by (intros z; by rewrite app_assoc).
    destruct (unique_restored_quiet s5 (sn ++ r) x n) as (s6 & E6 & Hw6);
      rewrite ?Htime, <- ?Hassoc, ?Hf5;
      try first [done | apply Has | apply Hay | apply Hfree; done | lia].
    unfold bind at 1. rewrite Hassoc, E6, <- Hassoc, Htime. exists s6. split; [done|]. by etransitivity.
  - rewrite !bool_decide_false by done. destruct (is_dir n) eqn:Edir; [done|]. injection Hy as <-.
    destruct (exists_plain s5 (sn ++ r ++ [x])) as (s6 & E6 & Hw6);
      [done|apply Has|by rewrite Hf5; apply Has|by rewrite Hf5|].
    unfold bind at 1, syseba_fs_is_directory, bind at 1. rewrite E6, Hf5, (Hat _ _ En). cbn [ret].
    rewrite Edir. exists s6. split; [done|]. by etransitivity.
Qed.
End Plan.

(** ** The whole operation *)

Section Item.
Context {S : Type} `{RestoreApp S} `{DirOrder} `{LocalStamp} `{Strerror}.
Context (unknown : cstr).

Lemma restore_copy_file s ps x pd y strategy m c :
  quiet s -> tree_ok (os_fs s) -> Forall path_name (ps ++ [x]) -> Forall path_name (pd ++ [y]) ->
  os_fs s !! (ps ++ [x]) = Some (NReg m c) -> creatable (os_fs s) pd ->
  (forall mm, os_fs s !! (pd ++ [y]) <> Some (NDir mm)) ->
  zlen (render (pd ++ [y])) + 64 < SYSEBA_PATH_MAX ->
  (forall t, temp_name t -> os_fs s !! (pd ++ [t]) = None) ->
  exists s' m', restore_copy unknown (render (ps ++ [x])) (render (pd ++ [y])) false strategy s = (None, s') /\
    os_fs s' !! (pd ++ [y]) = Some (NReg m' c) /\ copied_meta m m' /\ quiet s' /\
    forall k, k <> pd ++ [y] -> only_new_dirs pd s s' k.
Proof.
  intros Hq Ht Hx Hy Hf Hc Hd Hz Htemp.
  destruct (copy_file_runs ps x m c pd y Hx Hy 4 s) as (s' & m' & E & Hf' & Hm & Hk & Hh & _); try done.
  - eapply tree_chain; [done|by eexists].
  - pose proof (temp_suffix_short s). zlen_lia.
  - apply Htemp, suffix_temp.
  - exists s', m'. split; [|split_and!; try done; by eapply same_host_quiet].
    unfold restore_copy. by rewrite (bind_run _ _ _ _ _ E).
Qed.

(** A regular file of the restore area, and where it goes. *)
Record restorable (config : syseba_config_t) (s : os) (sn rn r : ppath) (x y : cstr)
    (strategy : syseba_restore_strategy_t) (m : meta) (c : cstr) : Prop := Restorable {
  rs_source : cfg_source config = render sn;
  rs_restore : cfg_restore config = render rn;
  rs_below : sn ++ r <> [];
  rs_tree : tree_ok (os_fs s);
  rs_in_source : area (os_fs s) sn (r ++ [x]);
  rs_in_restore : area (os_fs s) rn (r ++ [x]);
  rs_file : os_fs s !! (rn ++ r ++ [x]) = Some (NReg m c);
  rs_name : restored_as strategy (os_time s) (os_fs s !! (sn ++ r ++ [x])) x = Some y;
  rs_new : area (os_fs s) sn (r ++ [y]);
  rs_free : y = beside_name (os_time s) x -> os_fs s !! (sn ++ r ++ [y]) = None;
  rs_dirs : creatable (os_fs s) (sn ++ r);
  rs_temp : forall t, temp_name t -> os_fs s !! (sn ++ r ++ [t]) = None;
}.

Lemma restored_not_dir config s sn rn r x y strategy m c mm :
  restorable config s sn rn r x y strategy m c -> os_fs s !! (sn ++ r ++ [y]) <> Some (NDir mm).
Proof.
  intros [_ _ _ _ _ _ _ Hy _ Hfree _ _] E. unfold restored_as in Hy.
  destruct (os_fs s !! (sn ++ r ++ [x])) as [n|] eqn:En.
  - destruct strategy; [done| |].
    + injection Hy as <-. by rewrite Hfree in E.
    + destruct (is_dir n) eqn:Ed; [done|]. injection Hy as <-. rewrite En in E. by injection E as ->.
  - injection Hy as <-. congruence.
Qed.

Lemma restore_item_runs s sn rn r x y strategy m c size :
  quiet (lget s) -> restorable (ra_config s) (lget s) sn rn r x y strategy m c ->
  let target := render (sn ++ r ++ [y]) in
  exists t s' m',
    syseba_restore_item unknown (Some (item_path r x)) strategy size s =
      (if fits size target then inr target else inl (SYSEBA_ERR, []),
       exec (ra_log (render (rn ++ r ++ [x])) target) (exec ra_restored (lset s' s))) /\
    same_world (lget s) t /\
    os_fs s' !! (sn ++ r ++ [y]) = Some (NReg m' c) /\ copied_meta m m' /\ quiet s' /\
    (forall k, k <> sn ++ r ++ [y] -> only_new_dirs (sn ++ r) (lget s) s' k).
Proof.
  intros Hq Hr target. pose proof (fun mm => restored_not_dir _ _ _ _ _ _ _ _ _ _ mm Hr) as Hdir.
  destruct Hr as [Hs Hrs Hsn Ht Has Har Hf Hy Hay Hfree Hc Htemp].
  destruct (restore_plan_quiet (ra_config s) sn rn r x Hs Hrs Hsn strategy (lget s) m c y) as (t & Ep & Hw);
    [done..|]. pose proof Hw as [_ Hft].
  assert (r ++ [y] <> []) as Hrel by (by destruct r). pose proof (area_length _ _ _ Hrel Hay) as Hz.
  pose proof (ar_names _ _ _ Har) as Hxn. pose proof (ar_names _ _ _ Hay) as Hyn.
  destruct (restore_copy_file t (rn ++ r) x (sn ++ r) y strategy m c) as (s' & m' & Ec & Hf' & Hm & Hq' & Hk);
    rewrite ?Hft, <- ?app_assoc; try done; [by eapply same_world_quiet|intros u Hu; rewrite <- app_assoc; by apply Htemp|].
  rewrite <- !app_assoc in *. exists t, s', m'. split; [|split_and!; try done].
  - unfold syseba_restore_item. rewrite bind_gets. cbv beta. unfold target.
    erewrite bind_run by (unfold zoom; rewrite Ep; reflexivity). cbv beta iota.
    erewrite bind_run by (unfold zoom; rewrite lget_lset, Ec; reflexivity). cbv beta iota.
    rewrite !bind_unit, lset_lset. reflexivity.
  - intros k Hne. destruct (Hk k Hne) as [E|E]; unfold only_new_dirs; rewrite Hft in E; auto.
Qed.
End Item.
