(* ===== verification/LogSpec.v ===== *)
(** * The promises of the log *)

From S2P Require Import Prelude CString Paths Os OsFacts Platform Fs FsFacts CopyFacts Config ConfigFacts Queue AppState Log LogFacts App Examples Demo.

(** A record as its caller gives it. *)
Record emission := Emission {
  em_level : cstr;
  em_operation : cstr;
  em_source : cstr;
  em_target : cstr;
  em_additional : cstr;
  em_message : cstr;
}.

Section Claims.
Context `{Clock} `{!Allocator syseba_log_record_t}.

Definition emit (a : syseba_app_t) (e : emission) : syseba_app_t :=
  exec (syseba_log_emit (em_level e) (em_operation e) (em_source e) (em_target e)
          (em_additional e) (em_message e)) a.
Definition emission_line (now : Z) (e : emission) : cstr :=
  record_line (make_record now (em_level e) (em_operation e) (em_source e) (em_target e)
                 (em_additional e) (em_message e)).

Lemma emit_ring es a0 a :
  os_time (app_os a) = os_time (app_os a0) ->
  length (recent_logs (app_recent a)) <> 0%nat ->
  app_recent (fold_left emit es a) =
    fold_left (fun r l => ring_add l r) (map (emission_line (os_time (app_os a0))) es) (app_recent a).
Proof.
  revert a. induction es as [|e es IH]; intros a Ht Hc; [done|]. simpl.
  assert (only_log a (emit a e)) as [] by apply only_log_emit.
  assert (app_recent (emit a e) = ring_add (emission_line (os_time (app_os a0)) e) (app_recent a)) as Er.
  { unfold emit, emission_line. rewrite <- Ht. apply recent_emit. unfold ring_capacity, zlen. lia. }
  rewrite IH, Er; [done|congruence|]. rewrite Er. unfold ring_add. simpl. by rewrite length_insert.
Qed.

(** After any sequence of log calls on a new application,
    the ring gives back the last lines in order, at most as many as it holds (500) and
    as the reader asks for. *)
Theorem recent_shows_last_lines config options host es limit :
  0 <= limit ->
  recent_read limit (app_recent (fold_left emit es (syseba_app_init config options host))) =
    lastn (Nat.min 500 (Z.to_nat limit)) (map (emission_line (os_time host)) es).
Proof.
  intros Hl. rewrite (emit_ring es (syseba_app_init config options host)).
  2: done. 2: { cbn [app_recent recent_logs syseba_app_init]. by rewrite length_replicate. }
  cbn [app_recent syseba_app_init].
  apply recent_read_spec; [done| |done]. by apply (ring_of_fold 500).
Qed.

(** C37: [syseba_log_tail] of a log of complete lines gives its
    last [n] lines; when the file ends in a line without a newline, it gives that line
    after the last [n] complete ones, one more than was asked for. *)
Theorem tail_shows_last_lines path k m ls fragment n s :
  quiet s -> k <> [] -> resolve s false path = Found k ->
  os_fs s !! k = Some (NReg m (log_text ls ++ fragment)) ->
  Forall plain_line ls -> fragment = [] \/ plain_line fragment -> 0 <= n ->
  value (syseba_log_tail path n) s =
    Some (lastn (Z.to_nat n) ls ++ if nonempty fragment then [fragment] else []).
Proof.
  intros Hq Hk0 Hr Hk Hp Hf Hn.
  destruct (log_tail_quiet path k m (log_text ls ++ fragment) n s) as (s' & E & _); [done..|].
  unfold value. rewrite E. simpl. f_equal. destruct Hf as [->|Hf].
  - by rewrite !app_nil_r, log_tail_lines.
  - rewrite log_tail_fragment by done. destruct Hf as [Hf _]. by destruct fragment.
Qed.
End Claims.

Example recent_shows_last_lines_witness :
  recent_read 2 (app_recent (fold_left emit
      (map (Emission (c!"INFO") [] [] [] []) [c!"one"; c!"two"; c!"three"])
      (demo_app (example_host []))))
  = map (emission_line 0) (map (Emission (c!"INFO") [] [] [] []) [c!"two"; c!"three"]).
Proof. apply (recent_shows_last_lines demo_config demo_options (example_host [])
  (map (Emission (c!"INFO") [] [] [] []) [c!"one"; c!"two"; c!"three"]) 2). lia. Defined.

Definition logged_host : os :=
  with_fs (<[[c!"log.txt"] := NReg example_meta (log_text [c!"one"; c!"two"] ++ c!"thr")]> example_fs)
    (example_host []).

Lemma plain_line_b l :
  nonempty l && negb (existsb (ceq NEWLINE) l)
    && match last l with Some c => negb (ceq c RETURN) | None => false end = true -> plain_line l.
Proof.
  intros H. apply andb_true_iff in H as [H Hl]. apply andb_true_iff in H as [H Hn].
  split; [by destruct l|]. split.
  - intros Hin. apply list_elem_of_In in Hin. apply negb_true_iff in Hn.
    assert (existsb (ceq NEWLINE) l = true); [|congruence]. apply existsb_exists. exists NEWLINE.
    split; [done|apply ceq_refl].
  - intros c E. rewrite E in Hl. apply negb_true_iff, ceq_false in Hl. done.
Qed.

Example tail_shows_last_lines_witness :
  value (syseba_log_tail (c!"/log.txt") 1) logged_host = Some [c!"two"; c!"thr"].
Proof.
  apply (tail_shows_last_lines (c!"/log.txt") [c!"log.txt"] example_meta [c!"one"; c!"two"] (c!"thr") 1
           logged_host).
  - reflexivity.
  - done.
  - by vm_compute.
  - by vm_compute.
  - repeat constructor; by apply plain_line_b.
  - right. by apply plain_line_b.
  - done.
Defined.
