(* ===== verification/AppSpec.v ===== *)
(** * The promises of the application *)

From S2P Require Import Prelude CString Paths Os OsFacts Platform Fs FsFacts CopyFacts Config ConfigFacts ConfigText FsTree FsTreeFacts Restore RestoreFacts Queue QueueFacts AppState Log LogFacts App PlainFacts AppFacts Examples Demo.

Section Claims.
Context `{DirOrder} `{LocalStamp} `{Strerror} `{Clock}.
Context `{!Allocator syseba_event_t} `{!Allocator syseba_log_record_t}.
Context (unknown : cstr).

(** C6: on a quiet host, the event of a created or modified file
    whose copy is missing or differs in size or time leaves in the backup a file with
    the same bytes, mode and time, counts one copy (or update) and nothing else, and
    the file would not be copied again; no other file changes but the directories
    made for the backup. *)
Theorem event_copies_file ev a sn bn rn r x m c :
  quiet (app_os a) -> areas (app_config a) (os_fs (app_os a)) sn bn rn (r ++ [x]) ->
  ev_path ev = render (sn ++ r ++ [x]) -> ev_kind ev <> SYSEBA_EVENT_DELETE ->
  ev_is_directory ev = false -> copyable (os_fs (app_os a)) sn bn r x m c ->
  exists a' m',
    syseba_app_process_event unknown ev a = (SYSEBA_OK, a') /\
    os_fs (app_os a') !! (bn ++ r ++ [x]) = Some (NReg m' c) /\ copied_meta m m' /\
    outdated m c (os_fs (app_os a') !! (bn ++ r ++ [x])) = false /\
    app_stats a' = progress ev (Outcome SYSEBA_OK true false)
                     (increment (copy_counter ev) (app_stats a)) /\
    (forall k, k <> bn ++ r ++ [x] -> only_new_dirs (bn ++ r) (app_os a) (app_os a') k).
Proof.
  intros Hq Ha Hp Hk Hd Hc.
  destruct (process_event_copies unknown ev a sn bn rn r x m c) as (s' & a' & m' & E & He & Hf & Hm & Hk' & _);
    [done..|].
  exists a', m'. rewrite (effect_os _ _ _ _ He). split_and!; [done..| |by apply He|done].
  rewrite Hf. destruct Hm as [_ Hm]. simpl. by rewrite Hm, !Z.eqb_refl.
Qed.

(** A file whose copy has the same size and time is not read:
    the event is counted as skipped and the file system is as it was. *)
Theorem event_skips_fresh ev a sn bn rn r x m c :
  quiet (app_os a) -> areas (app_config a) (os_fs (app_os a)) sn bn rn (r ++ [x]) ->
  ev_path ev = render (sn ++ r ++ [x]) -> ev_kind ev <> SYSEBA_EVENT_DELETE ->
  ev_is_directory ev = false -> os_fs (app_os a) !! (sn ++ r ++ [x]) = Some (NReg m c) ->
  outdated m c (os_fs (app_os a) !! (bn ++ r ++ [x])) = false ->
  exists a',
    syseba_app_process_event unknown ev a = (SYSEBA_OK, a') /\
    os_fs (app_os a') = os_fs (app_os a) /\
    app_stats a' = progress ev (Outcome SYSEBA_OK false true) (increment SKIPPED (app_stats a)).
Proof.
  intros. destruct (process_event_skips unknown ev a sn bn rn r x m c) as (s' & a' & E & He & Hf & _); [done..|].
  exists a'. rewrite (effect_os _ _ _ _ He). split_and!; [done..|by apply He].
Qed.

(** C10: on a quiet host with one device, the event of a deleted
    file moves its backup, whole, to the same relative place of the restore area,
    under a name marked with the time when that place is taken; nothing already there
    is lost and nothing else changes but the directories made on the way. *)
Theorem delete_moves_backup ev a sn bn rn r x y n v :
  quiet (app_os a) -> areas (app_config a) (os_fs (app_os a)) sn bn rn (r ++ [x]) ->
  ev_path ev = render (sn ++ r ++ [x]) -> ev_kind ev = SYSEBA_EVENT_DELETE ->
  one_device v (os_fs (app_os a)) ->
  y = restored_name (os_time (app_os a)) (os_fs (app_os a) !! (rn ++ r ++ [x])) x ->
  area (os_fs (app_os a)) rn (r ++ [y]) -> creatable (os_fs (app_os a)) (rn ++ r) ->
  os_fs (app_os a) !! (bn ++ r ++ [x]) = Some n -> is_dir n = false ->
  os_fs (app_os a) !! (rn ++ r ++ [y]) = None ->
  exists a',
    syseba_app_process_event unknown ev a = (SYSEBA_OK, a') /\
    os_fs (app_os a') !! (rn ++ r ++ [y]) = Some n /\
    os_fs (app_os a') !! (bn ++ r ++ [x]) = None /\
    app_stats a' = progress ev (Outcome SYSEBA_OK false false) (increment DELETED (app_stats a)) /\
    (forall k, k <> bn ++ r ++ [x] -> k <> rn ++ r ++ [y] ->
       only_new_dirs (rn ++ r) (app_os a) (app_os a') k).
Proof.
  intros Hq Ha Hp Hk Hv -> Hy Hc Hn Hd Hf.
  destruct (process_event_deletes unknown ev a sn bn rn r x n v)
    as (s' & a' & E & He & Hf1 & Hf2 & Hf3 & _); [done..|].
  exists a'. rewrite (effect_os _ _ _ _ He). split_and!; [done..|by apply He|done].
Qed.
End Claims.

(** /data/notes.txt is created and is not in the backup. *)
Definition create_notes : syseba_event_t := demo_event SYSEBA_EVENT_CREATE (c!"/data/notes.txt").

Example event_copies_file_witness :
  exists a' m',
    syseba_app_process_event [] create_notes (demo_app (example_host [])) = (SYSEBA_OK, a') /\
    os_fs (app_os a') !! [c!"backup"; c!"notes.txt"] = Some (NReg m' (c!"hello")) /\
    copied_meta example_meta m' /\
    outdated example_meta (c!"hello") (os_fs (app_os a') !! [c!"backup"; c!"notes.txt"]) = false /\
    app_stats a' = increment COPIED stats_zero /\
    (forall k, k <> [c!"backup"; c!"notes.txt"] ->
       only_new_dirs [c!"backup"] (example_host []) (app_os a') k).
Proof.
  apply (event_copies_file [] create_notes (demo_app (example_host [])) [c!"data"] [c!"backup"]
           [c!"restore"] [] (c!"notes.txt") example_meta (c!"hello")).
  - reflexivity.
  - apply demo_areas; [done|by vm_compute..].
  - reflexivity.
  - done.
  - reflexivity.
  - constructor; [by vm_compute|apply creatable_b_spec; by vm_compute|by vm_compute| |].
    + intros mm. by vm_compute.
    + intros t. apply (short_names_b_spec example_fs [c!"backup"]). by vm_compute.
Defined.

(** The host after that: the copy has the size and the time of the file. *)
Definition copied_host : os :=
  with_fs (<[[c!"backup"; c!"notes.txt"] := NReg example_meta (c!"hallo")]> example_fs)
    (example_host []).

Example event_skips_fresh_witness :
  exists a',
    syseba_app_process_event [] create_notes (demo_app copied_host) = (SYSEBA_OK, a') /\
    os_fs (app_os a') = os_fs copied_host /\
    app_stats a' = increment SKIPPED stats_zero.
Proof.
  apply (event_skips_fresh [] create_notes (demo_app copied_host) [c!"data"] [c!"backup"]
           [c!"restore"] [] (c!"notes.txt") example_meta (c!"hello")).
  - reflexivity.
  - constructor; [reflexivity|reflexivity|reflexivity|apply tree_b_spec; by vm_compute|done
      |apply area_b_spec; by vm_compute..].
  - reflexivity.
  - done.
  - reflexivity.
  - by vm_compute.
  - by vm_compute.
Defined.

(** /data/old.txt was deleted; /restore/old.txt is taken. *)
Definition delete_old : syseba_event_t := demo_event SYSEBA_EVENT_DELETE (c!"/data/old.txt").

Example delete_moves_backup_witness :
  exists a',
    syseba_app_process_event [] delete_old (demo_app (example_host [])) = (SYSEBA_OK, a') /\
    os_fs (app_os a') !! [c!"restore"; c!"old.txt.20240102-030405"]
      = Some (NReg example_meta (c!"old")) /\
    os_fs (app_os a') !! [c!"backup"; c!"old.txt"] = None /\
    app_stats a' = increment DELETED stats_zero /\
    (forall k, k <> [c!"backup"; c!"old.txt"] -> k <> [c!"restore"; c!"old.txt.20240102-030405"] ->
       only_new_dirs [c!"restore"] (example_host []) (app_os a') k).
Proof.
  apply (delete_moves_backup [] delete_old (demo_app (example_host [])) [c!"data"] [c!"backup"]
           [c!"restore"] [] (c!"old.txt") (c!"old.txt.20240102-030405")
           (NReg example_meta (c!"old")) 0).
  - reflexivity.
  - apply demo_areas; [done|by vm_compute..].
  - reflexivity.
  - reflexivity.
  - apply device_b_spec. by vm_compute.
  - by vm_compute.
  - apply area_b_spec. by vm_compute.
  - apply creatable_b_spec. by vm_compute.
  - by vm_compute.
  - reflexivity.
  - by vm_compute.
Defined.
