(* ===== verification/LifeSpec.v ===== *)
(** * The promises of the service's life cycle *)

From S2P Require Import Prelude CString Paths Os OsFacts Platform Fs FsFacts CopyFacts Config ConfigFacts ConfigText FsTree FsTreeFacts Restore Queue QueueFacts AppState Log LogFacts App PlainFacts WalkFacts AppFacts LifeFacts SyncFacts Examples Demo.

Section Claims.
Context `{DirOrder} `{LocalStamp} `{Strerror} `{Clock}.
Context `{!Allocator syseba_event_t} `{!Allocator syseba_log_record_t}.

(** C7: on a quiet host, the initial synchronization counts every file below the
    source, symbolic links and special files apart, and gives the workers one CREATE event
    for each of the files and directories that its second walk reaches ([ok]: the walk came
    to its end).  When the host's [realpath] leaves [errno] alone, the second walk reaches
    everything and the synchronization ends well.  When a successful [realpath] sets
    [errno], which POSIX allows and glibc does for a path without links, the test that
    follows [readdir] takes the value for an error of the walk: as soon as one
    directory of the source holds files and no directory, the walk stops half way and the
    synchronization fails. *)
Theorem initial_sync_covers_source a0 sn fs :
  cfg_source (app_config a0) = render sn -> walk_ok fs sn ->
  (forall h, @alloc_node syseba_event_t _ h <> None) ->
  app_stop_requested a0 = false -> quiet (app_os a0) -> os_fs (app_os a0) = fs ->
  initial_running (app_stats a0) = false ->
  represents (app_event_queue a0) [] -> q_closed (app_event_queue a0) = false ->
  Z.of_nat (size fs) < U64_MAX ->
  exists a4 all l ok,
    (NoDup all /\ forall k d, (k, d) ∈ all <->
       below sn k /\ exists n, fs !! k = Some n /\ walkable n = true /\ is_dir n = d) /\
    initial_total (app_stats a4) = wrap64 (zlen (files_of all)) /\
    represents (app_event_queue a4) (map (sync_event a0) l) /\ NoDup l /\ l ⊆ all /\
    (ok = true -> Permutation l all) /\
    (os_realpath_errno (app_os a0) = None -> ok = true) /\
    (forall e k, os_realpath_errno (app_os a0) = Some e -> e <> E_OK ->
       k = sn \/ below sn k -> is_dir_at fs k = true -> leaf_with_files fs k -> ok = false) /\
    forall workers, syseba_app_initial_sync workers a0 = syseba_app_initial_sync (fun _ => workers a4) a0 /\
      value (syseba_app_initial_sync workers) a0 = if ok then SYSEBA_OK else SYSEBA_ERR.
Proof.
  intros. destruct (initial_sync_gives a0 sn fs)
    as (a4 & all & l & ok & Hc & Hv & Hr & Ht & Hk & Hlost & Hw); [done..|].
  exists a4, all, l, ok. split_and!; [apply Hc|apply Hc|done|done|apply Hv|eauto using visited_incl| |done| |done].
  - intros ->. eapply covers_perm; [by apply visited_covers|done].
  - intros e k He Hne Hk' Hd Hl. apply not_true_is_false. intros ->.
    eapply Hlost; [by exists e|done|exact Hk'|done|done].
Qed.

(** C19: the walk over the files of a directory takes whatever its callback leaves in
    [errno] for an error of its own: with any callback that succeeds, leaves the files as
    they are and leaves an error in [errno], on a quiet host, the walk fails as soon as one
    directory of the tree holds files and no directory, although every call on the way has
    succeeded; with a callback that leaves [errno] clear it succeeds on every such tree. *)
Theorem stale_errno_fails_walk {S : Type} `{!Lens S os} (callback : cstr -> bool -> ST S bool)
    (stale : bool) fs root s :
  walk_ok fs root -> quiet (lget s) -> os_fs (lget s) = fs ->
  (forall p d t, quiet (lget t) -> os_fs (lget t) = fs ->
     (stale = false -> os_errno (lget t) = E_OK) ->
     exists t', callback p d t = (true, t') /\ quiet (lget t') /\ os_fs (lget t') = fs /\
       if stale then os_errno (lget t') <> E_OK else os_errno (lget t') = E_OK) ->
  (exists k, (k = root \/ below root k) /\ is_dir_at fs k = true /\ leaf_with_files fs k) ->
  value (syseba_walk_files callback (render root)) s = negb stale.
Proof.
  intros Hw Hq Hf Hc (k & Hk & Hd & Hl).
  destruct (walk_files_visits callback fs root (stale = false) (stale = true) (fun _ _ => True))
    with (l := @nil (ppath * bool)) (s := s) as (s' & l & b & E & _ & _ & _ & Hclean & Hdirty); [done| |done..|].
  - intros l k' n t _ [Hqt Hft Het] _ _ _ _ _ _. destruct (Hc (render k') (is_dir n) t Hqt Hft Het) as (t' & Et & Hq' & Hf' & He').
    exists t'. split_and!; [done|done| |by intros ->]. constructor; [done|done|by intros ->].
  - unfold value. rewrite E. cbn [fst]. destruct stale; [|by apply Hclean].
    apply not_true_is_false. intros ->. by eapply Hdirty.
Qed.

(** C17: starting a stopped service either succeeds, with the
    lock, all the worker threads, the log writer, the watcher and what the options ask
    for, or fails and leaves nothing running and no lock held. *)
Theorem start_all_or_nothing answers drain drain_log a r a' :
  drains drain -> stopped a ->
  syseba_app_start answers drain drain_log a = (r, a') ->
  match r with
  | Some _ => stopped a'
  | None =>
      app_running a' = negb (ao_web_only (app_options_ a)) /\
      app_threads a' = started_threads a /\
      (is_Some (app_lock_file a') <-> ao_web_only (app_options_ a) = false)
  end.
Proof. intros. by eapply app_start_spec. Qed.

(** Whatever the state, after [syseba_app_stop] no thread runs, the
    service is not running and its lock is free for another process. *)
Theorem stop_stops drain drain_log a :
  drains drain ->
  let a' := exec (syseba_app_stop drain drain_log) a in
  stopped a' /\ forall k, app_lock_file a = Some k -> k ∉ os_locks (app_os a').
Proof. intros. by apply app_stop_spec. Qed.

(** An event enters the queue, at its end, only when the
    service is not stopping and its path is inside the source; otherwise the queue is
    as it was and the caller gets an error. *)
Theorem enqueue_only_within allocated kind path directory initial a r a' l :
  represents (app_event_queue a) l -> zlen l < U64_MAX ->
  syseba_app_enqueue_internal allocated kind path directory initial a = (r, a') ->
  (r <> SYSEBA_OK /\ represents (app_event_queue a') l) \/
  (r = SYSEBA_OK /\ app_stop_requested a = false /\
   value (syseba_path_is_within (cfg_source (app_config a)) path) (app_os a) = true /\
   exists ns, represents (app_event_queue a') (l ++ [Event kind path directory initial ns])).
Proof.
  intros Hr Hz E. apply enqueue_cases in E as [[Hn ->]|(-> & Hs & Hw & _ & ns & Hp)]; [by left|].
  right. split_and!; [done..|]. exists ns.
  by apply (push_represents _ _ _ _ l) in Hp as [? _]; [|done|done|apply alloc_node_free].
Qed.

(** While another process holds the lock, acquiring it fails as
    busy, and neither the PID file of the holder nor any other file changes. *)
Theorem lock_is_exclusive a k m pid :
  quiet (app_os a) -> resolve (app_os a) false (ao_lock_path (app_options_ a)) = Found k -> k <> [] ->
  os_fs (app_os a) !! k = Some (NReg m pid) -> k ∈ os_locks (app_os a) ->
  exists message a', syseba_app_acquire_lock a = (Some (SYSEBA_ERR_BUSY, message), a') /\
    os_fs (app_os a') = os_fs (app_os a) /\ app_lock_file a' = app_lock_file a /\
    os_locks (app_os a') = os_locks (app_os a).
Proof. apply lock_busy. Qed.
End Claims.

(** The example, on a host where a successful [realpath] sets [errno]. *)
Definition errno_app : syseba_app_t :=
  demo_app (Os example_fs E_OK (c!"/") 1000 0 7 10 [] [] (Some EINVAL)).

Example initial_sync_covers_source_witness :
  let a0 := errno_app in
  exists a4 all l ok,
    (NoDup all /\ forall k d, (k, d) ∈ all <->
       below [c!"data"] k /\ exists n, example_fs !! k = Some n /\ walkable n = true /\ is_dir n = d) /\
    initial_total (app_stats a4) = wrap64 (zlen (files_of all)) /\
    represents (app_event_queue a4) (map (sync_event a0) l) /\ NoDup l /\ l ⊆ all /\
    (ok = true -> Permutation l all) /\
    (os_realpath_errno (app_os a0) = None -> ok = true) /\
    (forall e k, os_realpath_errno (app_os a0) = Some e -> e <> E_OK ->
       k = [c!"data"] \/ below [c!"data"] k -> is_dir_at example_fs k = true ->
       leaf_with_files example_fs k -> ok = false) /\
    forall workers, syseba_app_initial_sync workers a0 = syseba_app_initial_sync (fun _ => workers a4) a0 /\
      value (syseba_app_initial_sync workers) a0 = if ok then SYSEBA_OK else SYSEBA_ERR.
Proof.
  apply (initial_sync_covers_source errno_app [c!"data"] example_fs).
  - reflexivity.
  - apply walk_b_spec. by vm_compute.
  - done.
  - reflexivity.
  - reflexivity.
  - reflexivity.
  - reflexivity.
  - apply init_represents.
  - reflexivity.
  - by vm_compute.
Defined.

(** A callback that looks for something that is not there. *)
Definition probing (path : cstr) (directory : bool) : ST os bool :=
  let* found := syseba_fs_exists (c!"/nothing") in ret (negb found).

Example stale_errno_fails_walk_witness :
  value (syseba_walk_files (S := os) probing (render [c!"data"])) (example_host []) = negb true.
Proof.
  apply (stale_errno_fails_walk probing true example_fs [c!"data"] (example_host [])).
  - apply walk_b_spec. by vm_compute.
  - done.
  - done.
  - intros p d t Hq Hf _. change (os_fs t = example_fs) in Hf. exists (with_errno ENOENT t). split_and!; [|done|done|done].
    unfold probing, syseba_fs_exists, bind, sys_lstat. rewrite syscall_quiet by done.
    assert (resolve t false (c!"/nothing") = Missing [c!"nothing"]) as ->
      by (unfold resolve; rewrite Hf; by vm_compute).
    done.
  - exists [c!"data"]. split_and!; [by left|by vm_compute|]. split.
    + exists (c!"notes.txt"), example_meta, (c!"hello"). by vm_compute.
    + intros c m Hc. assert (check_keys (fun k n => match k, n with [x; _], NDir _ => negb (streq x (c!"data")) | _, _ => true end) example_fs = true) as Hk by (by vm_compute).
      pose proof (check_keys_spec _ _ Hk _ _ Hc) as H. by vm_compute in H.
Defined.

(** Starting the example: everything answers. *)
Definition demo_answers : start_answers := StartAnswers None true true 4 true true None.
Definition no_drain : syseba_app_t -> syseba_app_t := id.
Definition demo_started : option failure * syseba_app_t :=
  syseba_app_start demo_answers no_drain id (demo_app (example_host [])).

Example start_all_or_nothing_witness :
  app_running (snd demo_started) = true /\
  app_threads (snd demo_started) = Threads (Some 4) true true true false /\
  (is_Some (app_lock_file (snd demo_started)) <-> false = false).
Proof.
  refine (start_all_or_nothing demo_answers no_drain id (demo_app (example_host [])) None
            (snd demo_started) _ _ _).
  - done.
  - by constructor.
  - by vm_compute.
Defined.

Example stop_stops_witness :
  stopped (exec (syseba_app_stop no_drain id) (snd demo_started)) /\
  forall k, app_lock_file (snd demo_started) = Some k ->
    k ∉ os_locks (app_os (exec (syseba_app_stop no_drain id) (snd demo_started))).
Proof. apply (stop_stops no_drain id (snd demo_started)). done. Defined.

(** A path outside the source is refused. *)
Example enqueue_only_within_witness :
  let e := syseba_app_enqueue true SYSEBA_EVENT_CREATE (c!"/restore/old.txt") false
             (demo_app (example_host [])) in
  (fst e <> SYSEBA_OK /\ represents (app_event_queue (snd e)) []) \/
  (fst e = SYSEBA_OK /\ false = false /\
   value (syseba_path_is_within (c!"/data") (c!"/restore/old.txt")) (example_host []) = true /\
   exists ns, represents (app_event_queue (snd e))
     [Event SYSEBA_EVENT_CREATE (c!"/restore/old.txt") false false ns]).
Proof.
  apply (enqueue_only_within true SYSEBA_EVENT_CREATE (c!"/restore/old.txt") false false
           (demo_app (example_host [])) _ _ []).
  - apply init_represents.
  - done.
  - apply surjective_pairing.
Defined.

(** The lock file of a running service. *)
Definition locked_host : os :=
  with_locks [[c!"lock"]]
    (with_fs (<[[c!"lock"] := NReg example_meta (c!"42")]> example_fs) (example_host [])).
Definition locked_options : syseba_options_t := options_with_lock (c!"/lock").

Example lock_is_exclusive_witness :
  let a := syseba_app_init demo_config locked_options locked_host in
  exists message a', syseba_app_acquire_lock a = (Some (SYSEBA_ERR_BUSY, message), a') /\
    os_fs (app_os a') = os_fs locked_host /\ app_lock_file a' = None /\
    os_locks (app_os a') = [[c!"lock"]].
Proof.
  apply (lock_is_exclusive (syseba_app_init demo_config locked_options locked_host) [c!"lock"]
           example_meta (c!"42")).
  - reflexivity.
  - by vm_compute.
  - done.
  - by vm_compute.
  - by left.
Defined.

(** ** Two workers *)

(** /data/notes.txt was deleted and created again: both events are queued. *)
Definition stale_host : os :=
  with_fs (<[[c!"backup"; c!"notes.txt"] := NReg example_meta (c!"old notes")]> example_fs)
    (example_host []).
Definition recreated : syseba_app_t :=
  exec (syseba_app_enqueue true SYSEBA_EVENT_DELETE (c!"/data/notes.txt") false ;;;
        syseba_app_enqueue true SYSEBA_EVENT_CREATE (c!"/data/notes.txt") false)
    (demo_app stale_host).

Definition delete_notes : syseba_event_t :=
  Event SYSEBA_EVENT_DELETE (c!"/data/notes.txt") false false 1000.
Definition create_notes : syseba_event_t :=
  Event SYSEBA_EVENT_CREATE (c!"/data/notes.txt") false false 1000.
Definition popped (a : syseba_app_t) : syseba_app_t :=
  with_event_queue (snd (syseba_queue_pop (app_event_queue a))) a.
Definition both_held : syseba_app_t := popped (popped recreated).

(** C21: with two workers, the events of a file that was deleted and
    created again may be handled in the other order: every event is done, the file is
    in the source, and it is not in the backup.  One worker alone leaves a copy of
    it. *)
Theorem workers_reorder :
  exists a', rtc (worker_step []) ([], recreated) ([], a') /\
    syseba_queue_pop (app_event_queue a') = (PopWait, app_event_queue a') /\
    q_unfinished (app_event_queue a') = 0 /\
    os_fs (app_os a') !! [c!"data"; c!"notes.txt"] = Some (NReg example_meta (c!"hello")) /\
    os_fs (app_os a') !! [c!"backup"; c!"notes.txt"] = None /\
    exists m, os_fs (app_os (one_worker [] 3 recreated)) !! [c!"backup"; c!"notes.txt"]
      = Some (NReg m (c!"hello")).
Proof.
  exists (exec (worker_turn [] delete_notes) (exec (worker_turn [] create_notes) both_held)).
  split.
  - eapply rtc_l; [apply (worker_pops [] [] recreated delete_notes); by vm_compute|].
    eapply rtc_l; [apply (worker_pops [] [delete_notes] _ create_notes); by vm_compute|].
    eapply rtc_l; [apply (worker_finishes [] [delete_notes] create_notes [])|].
    eapply rtc_l; [apply (worker_finishes [] [] delete_notes [])|]. apply rtc_refl.
  - split_and!; [by vm_compute..|]. eexists. vm_compute. reflexivity.
Qed.
