(* ===== verification/BackupSpec.v ===== *)
(** * The promise of the whole backup *)

From S2P Require Import Prelude CString Paths Os OsFacts Platform Fs FsFacts CopyFacts Config ConfigFacts ConfigText FsTree FsTreeFacts Restore Queue QueueFacts AppState Log LogFacts App PlainFacts WalkFacts AppFacts LifeFacts SyncFacts Workers BackupFacts Examples Demo.

Section Claims.
Context `{DirOrder} `{LocalStamp} `{Strerror} `{Clock}.
Context `{!Allocator syseba_event_t} `{!Allocator syseba_log_record_t}.

(** C1: on a quiet host, when the initial synchronization has walked
    the source and the workers, however many and in whatever order, have finished its
    events, the source is as it was, in the backup there are only copies of its files and
    directories where something has changed, and nothing else has changed but for new directories
    above the backup.  When the walk came to its end ([ok]) the synchronization ends as
    completed with its progress at the total, every directory of the source is in the
    backup, and every file, with the same bytes, mode bits and time (or as it was, when its
    size and time were those of the source).  The walk does come to its end when [realpath]
    leaves [errno] alone; where a successful [realpath] sets it, it does not, as soon as a
    directory of the source holds files and no directory, and the synchronization ends as
    completed with errors.  One worker alone does finish. *)
Theorem initial_backup_complete unknown a0 sn bn rn fs :
  backup_ready sn bn rn fs (app_config a0) ->
  (forall h, @alloc_node syseba_event_t _ h <> None) ->
  app_stop_requested a0 = false -> quiet (app_os a0) -> os_fs (app_os a0) = fs ->
  initial_running (app_stats a0) = false ->
  represents (app_event_queue a0) [] -> q_closed (app_event_queue a0) = false ->
  Z.of_nat (size fs) < U64_MAX ->
  exists a4 ok,
    (os_realpath_errno (app_os a0) = None -> ok = true) /\
    (forall e k, os_realpath_errno (app_os a0) = Some e -> e <> E_OK ->
       k = sn \/ below sn k -> is_dir_at fs k = true -> leaf_with_files fs k -> ok = false) /\
    (forall workers, syseba_app_initial_sync workers a0 = syseba_app_initial_sync (fun _ => workers a4) a0) /\
    finished unknown a4 (one_worker unknown (size fs) a4) /\
    forall a5, finished unknown a4 a5 ->
      exists a', syseba_app_initial_sync (fun _ => a5) a0 = (if ok then SYSEBA_OK else SYSEBA_ERR, a') /\
        is_state (app_initial a') = (if ok then c!"completed" else c!"completed_with_errors") /\
        (ok = true ->
           initial_done (app_stats a') = initial_total (app_stats a') /\
           forall r n, entry sn fs r n -> saved bn fs (os_fs (app_os a')) r n) /\
        (forall r, os_fs (app_os a') !! (sn ++ r) = fs !! (sn ++ r)) /\
        backed sn bn fs (os_fs (app_os a')).
Proof.
  intros Hready Halloc Hst Hq Hfs Hidle Hempty Hopen Hsize.
  destruct (initial_sync_runs a0 sn fs)
    as (a4 & all & l & ok & Hcov & Hv & Hr & [Ht Hd] & (Hu4 & Hq4 & Hfs4) & Hkept & Hlost & Hw);
    [apply Hready|apply Hready|done..|].
  pose proof (visited_size fs _ _ _ Hv) as Hsz.
  assert (zlen l <= U64_MAX) as Hlen by (unfold zlen; lia).
  assert (forall kd, ev_path (sync_event a0 kd) = render (fst kd) /\ ev_is_directory (sync_event a0 kd) = snd kd /\
    ev_kind (sync_event a0 kd) <> SYSEBA_EVENT_DELETE /\ ev_initial_sync (sync_event a0 kd) = true) as Hev
    by (by intros [k d]).
  assert (forall kd, kd ∈ l -> exists r n, entry sn fs r n /\ kd = (sn ++ r, is_dir n)) as Hl.
  { intros [k d] Hin. destruct Hv as (_ & Hc & _). apply Hc in Hin as ((x & r & Ek) & n & Hn & Hwn & Ed).
    cbn in *. subst k d. by exists (x :: r), n. }
  destruct (workers_save unknown a0 sn bn rn fs Hready id (sync_event a0) true Hev (fun _ _ => False)
              (initial_total (app_stats a4)) l (size fs) a4) as [Hone Hall]; [done..| | |done|done|].
  { constructor; [done| | |by apply Hu4..].
    - rewrite Hfs4. by eapply source_tree.
    - intros k. left. by rewrite Hfs4. }
  { by intros r n _ []. }
  exists a4, ok. split; [done|]. split.
  { intros e k He Hne Hk' Hdk Hlf. apply not_true_is_false. intros ->.
    eapply Hlost; [by exists e|done|exact Hk'|done|done]. }
  split; [intros workers; by destruct (Hw workers)|]. split; [exact Hone|].
  intros a5 Hf. destruct (Hall a5 Hf) as ([_ Hc5 Hs5 Ht5 Hd5] & _).
  destruct (Hw (fun _ => a5)) as (_ & a' & E & Eos & Est & Estate). exists a'.
  rewrite Eos. pose proof (f_equal initial_done Est) as H1'. pose proof (f_equal initial_total Est) as H2'.
  cbn in H1', H2'. split_and!; [done|apply Estate, Hc5| | |by apply Hc5].
  - intros ->. apply visited_covers in Hv. split.
    + rewrite H1', H2', Hd5 by done. rewrite map_id, Ht5, Ht. f_equal.
      apply files_of_perm. by eapply covers_perm.
    + intros r n Hent. apply Hs5; [done|]. left. rewrite map_id. apply Hv. destruct Hent as (Hne & Hn & Hwn).
      split; [|by exists n]. destruct r as [|x r]; [done|]. by exists x, r.
  - intros r. eapply backed_source; [done|apply Hc5].
Qed.
End Claims.

(** ** An example *)

Definition ready_b (fs : fsmap) (sn bn rn : ppath) : bool :=
  check_keys (fun k n =>
    match strip_prefix sn k with
    | None => true
    | Some r =>
        match n with
        | NDir _ =>
            match r with [] => true | _ => area_b fs sn r && area_b fs bn r && area_b fs rn r end
            && creatable_b fs (bn ++ r)
        | NReg _ _ =>
            area_b fs sn r && area_b fs bn r && area_b fs rn r
            && match fs !! (bn ++ r) with Some (NDir _) => false | _ => true end
        | _ => true
        end
    end) fs && short_names_b fs.

Lemma ready_b_spec c fs sn bn rn :
  ready_b fs sn bn rn = true -> cfg_source c = render sn -> cfg_backup c = render bn ->
  cfg_restore c = render rn -> walk_ok fs sn -> ~ sn `prefix_of` bn /\ ~ bn `prefix_of` sn ->
  backup_ready sn bn rn fs c.
Proof.
  intros [Hk Ht]%andb_true_iff ? ? ? Hwalk Hap. pose proof (fun r n => check_keys_spec _ _ Hk (sn ++ r) n) as P.
  cbv beta in P. setoid_rewrite strip_prefix_app in P. constructor; try done.
  - intros r n b (Hr & Hn & Hw) Hb. specialize (P _ _ Hn). apply area_b_spec.
    destruct n; try done; destruct r; try done; destruct Hb as [-> | [-> | ->]]; bool_hyps; done.
  - intros r Hd. apply is_dir_at_some in Hd as [m Hm]; [|pose proof (wo_root _ _ Hwalk); by destruct sn].
    specialize (P _ _ Hm). apply andb_true_iff in P as [_ P]. by apply creatable_b_spec.
  - intros r m x mm (_ & Hn & _) E. specialize (P _ _ Hn). cbv beta iota in P. rewrite E in P. by bool_hyps.
  - intros r t n Hx. split; [rewrite app_assoc; by apply short_names_b_spec|].
    intros (_ & Hn & _). rewrite app_assoc, (short_names_b_spec fs (sn ++ r) t) in Hn; done.
Qed.

(** A source with a directory, a file that was never copied, one that has changed, and one
    that is up to date. *)
Definition source_fs : fsmap := list_to_map
  [ ([c!"data"], NDir root_meta);
    ([c!"data"; c!"sub"], NDir root_meta);
    ([c!"data"; c!"sub"; c!"new.txt"], NReg example_meta (c!"new"));
    ([c!"data"; c!"changed.txt"], NReg example_meta (c!"longer"));
    ([c!"data"; c!"same.txt"], NReg example_meta (c!"same"));
    ([c!"backup"], NDir root_meta);
    ([c!"backup"; c!"changed.txt"], NReg example_meta (c!"short"));
    ([c!"backup"; c!"same.txt"], NReg example_meta (c!"same"));
    ([c!"restore"], NDir root_meta) ].
Definition source_host : os := Os source_fs E_OK (c!"/") 1000 0 7 10 [] [] None.

Example initial_backup_complete_witness :
  let a0 := demo_app source_host in
  exists a4 ok,
    (os_realpath_errno (app_os a0) = None -> ok = true) /\
    (forall e k, os_realpath_errno (app_os a0) = Some e -> e <> E_OK ->
       k = [c!"data"] \/ below [c!"data"] k -> is_dir_at source_fs k = true ->
       leaf_with_files source_fs k -> ok = false) /\
    (forall workers, syseba_app_initial_sync workers a0 = syseba_app_initial_sync (fun _ => workers a4) a0) /\
    finished [] a4 (one_worker [] (size source_fs) a4) /\
    forall a5, finished [] a4 a5 ->
      exists a', syseba_app_initial_sync (fun _ => a5) a0 = (if ok then SYSEBA_OK else SYSEBA_ERR, a') /\
        is_state (app_initial a') = (if ok then c!"completed" else c!"completed_with_errors") /\
        (ok = true ->
           initial_done (app_stats a') = initial_total (app_stats a') /\
           forall r n, entry [c!"data"] source_fs r n ->
             saved [c!"backup"] source_fs (os_fs (app_os a')) r n) /\
        (forall r, os_fs (app_os a') !! ([c!"data"] ++ r) = source_fs !! ([c!"data"] ++ r)) /\
        backed [c!"data"] [c!"backup"] source_fs (os_fs (app_os a')).
Proof.
  apply (initial_backup_complete [] (demo_app source_host) [c!"data"] [c!"backup"] [c!"restore"] source_fs).
  - apply ready_b_spec; [by vm_compute|reflexivity|reflexivity|reflexivity|apply walk_b_spec; by vm_compute|].
    by split; intros [k [=]].
  - done.
  - reflexivity.
  - reflexivity.
  - reflexivity.
  - reflexivity.
  - apply init_represents.
  - reflexivity.
  - by vm_compute.
Defined.

(** The same, run with one worker. *)
Example backup_run :
  let a := exec (syseba_app_initial_sync (one_worker [] 9)) (demo_app source_host) in
  (forall k, k ∈ [[c!"sub"; c!"new.txt"]; [c!"changed.txt"]; [c!"same.txt"]] ->
     exists m x, os_fs (app_os a) !! (c!"backup" :: k) = Some (NReg m x) /\
       source_fs !! (c!"data" :: k) = Some (NReg example_meta x)) /\
  is_state (app_initial a) = c!"completed" /\
  copied (app_stats a) = 2 /\ skipped (app_stats a) = 1 /\ initial_done (app_stats a) = 3.
Proof.
  split; [|by vm_compute]. intros k Hk.
  repeat (apply elem_of_cons in Hk as [->|Hk]; [do 2 eexists; split; vm_compute; reflexivity|]).
  by apply not_elem_of_nil in Hk.
Qed.

(** The same where a successful [realpath] leaves [EINVAL] behind: the walk stops, the changed
    file is not copied and the synchronization ends with an error. *)
Definition errno_host : os := Os source_fs E_OK (c!"/") 1000 0 7 10 [] [] (Some EINVAL).

Example backup_run_errno :
  let '(r, a) := syseba_app_initial_sync (one_worker [] 9) (demo_app errno_host) in
  r = SYSEBA_ERR /\ is_state (app_initial a) = c!"completed_with_errors" /\
  is_error (app_initial a) = c!"1 scan/enqueue errors" /\
  os_fs (app_os a) !! [c!"backup"; c!"changed.txt"] = source_fs !! [c!"backup"; c!"changed.txt"].
Proof. by vm_compute. Qed.
