(* ===== verification/Snapshot.v ===== *)
(** * The polling watcher (src/src/watcher_poll.c, src/src/watcher.c)

    A snapshot is a hash table of what the source holds; two of them are compared
    to find the changes since the last turn.  Lemmas are in SnapshotFacts. *)

From S2P Require Import Prelude CString Paths Os Platform Fs Config FsTree Queue AppState Log App.

(** ** The hash table *)

Record syseba_snapshot_entry_t := SnapshotEntry {
  se_path : cstr;
  se_size : Z;
  se_mtime_ns : Z;
  se_directory : bool;
  se_seen : bool;
}.

(** The chains of the buckets, the first entry first; [bucket_count] is their number. *)
Record syseba_snapshot_t := Snapshot {
  sn_buckets : list (list syseba_snapshot_entry_t);
  sn_size : Z;
}.
Definition bucket_count (s : syseba_snapshot_t) : Z := zlen (sn_buckets s).
Definition snapshot_zero : syseba_snapshot_t := Snapshot [] 0.
Definition SNAPSHOT_BUCKETS : Z := 4093.

Fixpoint hash_loop (hash : Z) (cursor : cstr) : Z :=
  match cursor with
  | [] => hash
  | c :: cursor' => hash_loop (wrap64 (Z.lxor hash (code c) * 1099511628211)) cursor'
  end.
Definition syseba_snapshot_hash (value : cstr) : Z := hash_loop 1469598103934665603 value.

Definition bucket_of (s : syseba_snapshot_t) (path : cstr) : nat :=
  Z.to_nat (syseba_snapshot_hash path mod bucket_count s).

Fixpoint chain_find (entries : list syseba_snapshot_entry_t) (path : cstr) :
    option syseba_snapshot_entry_t :=
  match entries with
  | [] => None
  | entry :: next => if streq (se_path entry) path then Some entry else chain_find next path
  end.

Definition syseba_snapshot_find (snapshot : syseba_snapshot_t) (path : cstr) :
    option syseba_snapshot_entry_t :=
  if bucket_count snapshot =? 0 then None
  else chain_find (default [] (sn_buckets snapshot !! bucket_of snapshot path)) path.

(** [old->seen = true] on the entry that [syseba_snapshot_find] returns. *)
Definition set_seen (entry : syseba_snapshot_entry_t) : syseba_snapshot_entry_t :=
  SnapshotEntry (se_path entry) (se_size entry) (se_mtime_ns entry) (se_directory entry) true.
Fixpoint chain_mark (entries : list syseba_snapshot_entry_t) (path : cstr) :
    list syseba_snapshot_entry_t :=
  match entries with
  | [] => []
  | entry :: next =>
      if streq (se_path entry) path then set_seen entry :: next
      else entry :: chain_mark next path
  end.
Definition mark_seen (snapshot : syseba_snapshot_t) (path : cstr) : syseba_snapshot_t :=
  Snapshot (alter (fun chain => chain_mark chain path) (bucket_of snapshot path)
              (sn_buckets snapshot)) (sn_size snapshot).

(** The entry is put in front of its chain. *)
Definition snapshot_add (snapshot : syseba_snapshot_t) (path : cstr) (size mtime_ns : Z)
    (directory : bool) : syseba_snapshot_t :=
  let entry := SnapshotEntry path size mtime_ns directory false in
  Snapshot (alter (cons entry) (bucket_of snapshot path) (sn_buckets snapshot))
           (wrap64 (sn_size snapshot + 1)).

Definition syseba_snapshot_destroy (snapshot : syseba_snapshot_t) : syseba_snapshot_t :=
  snapshot_zero.

(** ** Building a snapshot *)

(** What [calloc] and [syseba_strdup] find for the buckets and for the next entry. *)
Class SnapshotMemory := {
  buckets_allocated : bool;
  entry_allocated : syseba_snapshot_t -> bool;
}.

#[export] Instance lens_snapshot_os : Lens (syseba_snapshot_t * os) os.
Proof. refine {| lget := snd; lset t s := (fst s, t) |}; [done|by intros []|done]. Defined.

Section Build.
Context `{DirOrder} `{SnapshotMemory}.

Definition syseba_snapshot_insert (path : cstr) (size mtime_ns : Z) (directory : bool) :
    ST (syseba_snapshot_t * os) bool :=
  let* snapshot := gets fst in
  if negb (entry_allocated snapshot) then zoom (set_errno ENOMEM) ;;; ret false
  else
    modify (fun '(snapshot, s) => (snapshot_add snapshot path size mtime_ns directory, s)) ;;;
    ret true.

Definition syseba_snapshot_build_entry (path : cstr) (directory : bool) :
    ST (syseba_snapshot_t * os) bool :=
  let* information := zoom (syseba_fs_stat path) in
  match information with
  | None =>
      let* e := zoom get_errno in
      ret (bool_decide (e = ENOENT))
  | Some i => syseba_snapshot_insert path (st_size i) (st_mtime_ns i) directory
  end.

(** The result, and what the snapshot then holds. *)
Definition syseba_snapshot_build (root : cstr) : ST os (bool * syseba_snapshot_t) :=
  if negb buckets_allocated then
    set_errno ENOMEM ;;;
    ret (false, Snapshot [] 0)
  else
    fun s =>
      let empty := Snapshot (replicate (Z.to_nat SNAPSHOT_BUCKETS) []) 0 in
      let '(walked, (snapshot, s)) :=
        syseba_walk_files syseba_snapshot_build_entry root (empty, s) in
      ((walked, if walked then snapshot else syseba_snapshot_destroy snapshot), s).
End Build.

(** ** Comparing two snapshots *)

Section Watch.
Context `{DirOrder} `{SnapshotMemory} `{Strerror} `{Clock}.
Context `{!Allocator syseba_event_t} `{!Allocator syseba_log_record_t}.
(** Whether the event that [syseba_app_enqueue] makes is allocated. *)
Context (allocated : syseba_app_t -> bool).

Definition emit_change (kind : syseba_event_kind_t) (path : cstr) (directory : bool) :
    ST syseba_app_t unit :=
  let* allocated := gets allocated in
  syseba_app_enqueue allocated kind path directory ;;; ret tt.

(** One turn of the loop on the current entries. *)
Definition reconcile_entry (previous : syseba_snapshot_t) (entry : syseba_snapshot_entry_t) :
    ST syseba_app_t syseba_snapshot_t :=
  match syseba_snapshot_find previous (se_path entry) with
  | None =>
      emit_change SYSEBA_EVENT_CREATE (se_path entry) (se_directory entry) ;;; ret previous
  | Some old =>
      let previous := mark_seen previous (se_path entry) in
      (if negb (se_directory entry)
          && (negb (se_size entry =? se_size old) || negb (se_mtime_ns entry =? se_mtime_ns old))
       then emit_change SYSEBA_EVENT_MODIFY (se_path entry) false
       else ret tt) ;;;
      ret previous
  end.

Fixpoint reconcile_current (previous : syseba_snapshot_t)
    (entries : list syseba_snapshot_entry_t) : ST syseba_app_t syseba_snapshot_t :=
  match entries with
  | [] => ret previous
  | entry :: rest =>
      let* previous := reconcile_entry previous entry in
      reconcile_current previous rest
  end.

Fixpoint reconcile_previous (entries : list syseba_snapshot_entry_t) : ST syseba_app_t unit :=
  match entries with
  | [] => ret tt
  | entry :: rest =>
      (if negb (se_seen entry)
       then emit_change SYSEBA_EVENT_DELETE (se_path entry) (se_directory entry)
       else ret tt) ;;;
      reconcile_previous rest
  end.

(** The previous snapshot is left with its marks. *)
Definition syseba_snapshot_reconcile (previous current : syseba_snapshot_t) :
    ST syseba_app_t syseba_snapshot_t :=
  let* previous := reconcile_current previous (List.concat (sn_buckets current)) in
  reconcile_previous (List.concat (sn_buckets previous)) ;;;
  ret previous.

(** ** The thread *)

Definition poll_interval (configured_interval : option cstr) : Z :=
  match configured_interval with
  | None | Some [] => 2000
  | Some text =>
      let parsed := pu_value (strtoul text) in
      if (250 <=? parsed) && (parsed <=? 60000) then parsed else 2000
  end.

(** [others] is what the other threads do while this one sleeps; the argument is the
    time slept since the last scan. *)
Context (others : Z -> syseba_app_t -> syseba_app_t).

Fixpoint poll_sleep (fuel : nat) (interval_ms slept : Z) : ST syseba_app_t Z :=
  match fuel with
  | O => ret slept
  | S fuel' =>
      let* stopping := syseba_app_is_stopping in
      if negb stopping && (slept <? interval_ms) then
        let slice := if 200 <? interval_ms - slept then 200 else interval_ms - slept in
        zoom (sys_sleep_ms slice) ;;;
        modify (others slept) ;;;
        poll_sleep fuel' interval_ms (slept + slice)
      else ret slept
  end.

Definition watch_error (text : syseba_language_t -> cstr) : ST syseba_app_t unit :=
  let* source := gets (fun a => cfg_source (app_config a)) in
  let* e := zoom get_errno in
  let* language := gets language_of in
  syseba_log_emit (c!"ERROR") (c!"WATCH") source [] (strerror e)
    (text language ++ (c!": ") ++ strerror e).

(** A scan: the snapshot that the next one is compared with. *)
Definition poll_scan (previous : syseba_snapshot_t) : ST syseba_app_t syseba_snapshot_t :=
  let* source := gets (fun a => cfg_source (app_config a)) in
  let* built := zoom (syseba_snapshot_build source) in
  let '(ok, current) := built in
  if ok then
    syseba_snapshot_reconcile previous current ;;;
    ret current
  else
    watch_error (fun language =>
      syseba_tr language (c!"Scansione watcher fallita") (c!"Watcher scan failed")) ;;;
    ret previous.

Definition sleep_fuel (interval_ms : Z) : nat := S (Z.to_nat (interval_ms / 200 + 1)).

(** The turns of the loop, at most [turns] of them: a stop ends it. *)
Fixpoint poll_loop (turns : nat) (interval_ms : Z) (previous : syseba_snapshot_t) :
    ST syseba_app_t syseba_snapshot_t :=
  match turns with
  | O => ret previous
  | S turns' =>
      let* stopping := syseba_app_is_stopping in
      if stopping then ret (syseba_snapshot_destroy previous)
      else
        poll_sleep (sleep_fuel interval_ms) interval_ms 0 ;;;
        (let* stopping := syseba_app_is_stopping in
         let* previous := (if stopping then ret previous else poll_scan previous) in
         poll_loop turns' interval_ms previous)
  end.

Definition syseba_watcher_poll_main (configured_interval : option cstr) (turns : nat) :
    ST syseba_app_t unit :=
  let interval_ms := poll_interval configured_interval in
  let* source := gets (fun a => cfg_source (app_config a)) in
  let* built := zoom (syseba_snapshot_build source) in
  let '(ok, previous) := built in
  if negb ok then
    watch_error (fun language =>
      syseba_tr language (c!"Impossibile inizializzare il watcher polling")
        (c!"Unable to initialize polling watcher"))
  else
    (let* language := gets language_of in
     syseba_log_emit (c!"INFO") (c!"WATCH") source [] (c!"poll")
       (syseba_tr language (c!"Watcher polling attivo") (c!"Polling watcher active")
          ++ (c!" (") ++ dec interval_ms ++ (c!" ms)"))) ;;;
    poll_loop turns interval_ms previous ;;;
    ret tt.
End Watch.

(** ** Starting and stopping a watcher (src/src/watcher.c) *)

Inductive watcher_kind : Type := WatcherPoll | WatcherNative.

(** [SYSEBA_WATCHER=poll] forces the polling watcher; otherwise Linux has its own. *)
Definition watcher_mode (mode : option cstr) : watcher_kind :=
  match mode with
  | Some m => if streq m (c!"poll") then WatcherPoll else WatcherNative
  | None => WatcherNative
  end.

Definition syseba_watcher_start (mode : option cstr) (thread_created : bool) :
    ST syseba_app_t (option watcher_kind) :=
  if negb thread_created then ret None
  else
    set_threads (fun t => Threads (th_workers t) (th_log t) (th_initial t) true (th_web t)) ;;;
    ret (Some (watcher_mode mode)).

Definition syseba_watcher_stop : ST syseba_app_t unit :=
  let* started := gets (fun a => th_watcher (app_threads a)) in
  if negb started then ret tt
  else
    syseba_app_set_stopping ;;;
    set_threads (fun t => Threads (th_workers t) (th_log t) (th_initial t) false (th_web t)).
