(* ===== verification/SnapshotFacts.v ===== *)
(** * Properties of the polling watcher

    The hash table is the set of its entries, a scan of a quiet host gives exactly
    what the source holds, and comparing two scans enqueues exactly the
    differences. *)

From S2P Require Import Prelude CString Paths Os OsFacts Platform Fs FsFacts CopyFacts Config ConfigFacts ConfigText FsTree FsTreeFacts Restore Queue QueueFacts AppState Log LogFacts App PlainFacts WalkFacts AppFacts LifeFacts SyncFacts Snapshot.

(** ** The hash table *)

Definition entries (s : syseba_snapshot_t) : list syseba_snapshot_entry_t :=
  List.concat (sn_buckets s).

(** Every entry is in the bucket of its path, and no path has two entries. *)
Record table_ok (s : syseba_snapshot_t) : Prop := TableOk {
  tk_count : bucket_count s = SNAPSHOT_BUCKETS;
  tk_bucket : forall i chain e, sn_buckets s !! i = Some chain -> e ∈ chain ->
    i = bucket_of s (se_path e);
  tk_unique : NoDup (se_path <$> entries s);
}.

Lemma elem_of_entries s e : e ∈ entries s <-> exists i chain, sn_buckets s !! i = Some chain /\ e ∈ chain.
Proof.
  unfold entries. rewrite list_elem_of_In, in_concat. split.
  - intros (chain & Hc & He). apply list_elem_of_In, list_elem_of_lookup in Hc as [i Hi].
    exists i, chain. by rewrite list_elem_of_In.
  - intros (i & chain & Hi & He). exists chain. split; [|by apply list_elem_of_In].
    by apply list_elem_of_In, (list_elem_of_lookup_2 _ i).
Qed.

Lemma bucket_of_lookup s p :
  bucket_count s = SNAPSHOT_BUCKETS -> exists chain, sn_buckets s !! bucket_of s p = Some chain.
Proof.
  intros Hc. apply lookup_lt_is_Some. unfold bucket_of. rewrite Hc. unfold bucket_count, zlen in Hc.
  pose proof (Z.mod_pos_bound (syseba_snapshot_hash p) SNAPSHOT_BUCKETS eq_refl). lia.
Qed.

Lemma chain_find_Some chain p e :
  NoDup (se_path <$> chain) -> chain_find chain p = Some e <-> e ∈ chain /\ se_path e = p.
Proof.
  induction chain as [|x chain IH]; intros Hn; cbn [chain_find].
  - split; [done|]. by intros [?%not_elem_of_nil _].
  - rewrite fmap_cons in Hn. apply NoDup_cons in Hn as [Hx Hn]. rewrite elem_of_cons.
    destruct (streq (se_path x) p) eqn:E.
    + apply streq_true in E. split; [intros [= ->]; auto|]. intros [[->|He] Hp]; [done|].
      exfalso. apply Hx. rewrite E, <- Hp. by apply list_elem_of_fmap_2.
    + apply streq_false in E. rewrite IH by done. split; [intros []; auto|].
      intros [[->|He] Hp]; [done|]. done.
Qed.

Lemma chain_nodup s i chain :
  NoDup (se_path <$> entries s) -> sn_buckets s !! i = Some chain -> NoDup (se_path <$> chain).
Proof.
  unfold entries. intros Hn Hi. apply list_elem_of_split_length in Hi as (l1 & l2 & E & _).
  rewrite E, concat_app, fmap_app in Hn. cbn [List.concat] in Hn. rewrite fmap_app in Hn.
  apply NoDup_app in Hn as (_ & _ & Hn). by apply NoDup_app in Hn as (? & _).
Qed.

Lemma find_Some s p e :
  table_ok s -> syseba_snapshot_find s p = Some e <-> e ∈ entries s /\ se_path e = p.
Proof.
  intros [Hc Hb Hu]. unfold syseba_snapshot_find. rewrite Hc. cbn [Z.eqb].
  change (SNAPSHOT_BUCKETS =? 0) with false. cbn match.
  destruct (bucket_of_lookup s p Hc) as [chain Hch]. rewrite Hch. cbn [default].
  rewrite chain_find_Some by (by eapply chain_nodup). rewrite elem_of_entries. split.
  - intros [He Hp]. eauto.
  - intros [(i & chain' & Hi & He) <-]. pose proof (Hb _ _ _ Hi He) as ->.
    rewrite Hch in Hi. by injection Hi as ->.
Qed.

Lemma find_None s p :
  table_ok s -> syseba_snapshot_find s p = None <-> p ∉ (se_path <$> entries s).
Proof.
  intros Ht. split.
  - intros Hf (e & -> & He)%list_elem_of_fmap. destruct (find_Some s (se_path e) e Ht) as [_ H].
    rewrite H in Hf by done. done.
  - intros Hp. destruct (syseba_snapshot_find s p) as [e|] eqn:E; [|done].
    apply find_Some in E as [He <-]; [|done]. exfalso. by apply Hp, list_elem_of_fmap_2.
Qed.

(** ** Adding an entry *)

Lemma concat_alter {A} (f : list A -> list A) (bs : list (list A)) i c :
  bs !! i = Some c -> exists l1 l2, List.concat bs = l1 ++ c ++ l2 /\
    List.concat (alter f i bs) = l1 ++ f c ++ l2 /\
    (forall x, x ∈ l1 \/ x ∈ l2 -> exists j d, j <> i /\ bs !! j = Some d /\ x ∈ d).
Proof.
  intros Hi. apply list_elem_of_split_length in Hi as (l1 & l2 & -> & ->).
  exists (List.concat l1), (List.concat l2). rewrite concat_app. split; [done|]. split.
  - rewrite <- (Nat.add_0_r (length l1)), alter_app_r. rewrite concat_app. done.
  - intros x [Hx|Hx]; apply list_elem_of_In, in_concat in Hx as (d & Hd & Hx);
      apply list_elem_of_In, list_elem_of_lookup in Hd as [j Hj].
    + exists j, d. pose proof (lookup_lt_Some _ _ _ Hj). split; [lia|].
      split; [by rewrite lookup_app_l by lia|by apply list_elem_of_In].
    + exists (S (length l1 + j)), d. split; [lia|].
      split; [|by apply list_elem_of_In]. rewrite lookup_app_r by lia.
      by replace (S (length l1 + j) - length l1)%nat with (S j) by lia.
Qed.

Lemma bucket_count_alter f i bs n : bucket_count (Snapshot (alter f i bs) n) = zlen bs.
Proof. unfold bucket_count, zlen. cbn [sn_buckets]. by rewrite length_alter. Qed.

Lemma add_entries s p size mtime d :
  bucket_count s = SNAPSHOT_BUCKETS ->
  Permutation (entries (snapshot_add s p size mtime d))
    (SnapshotEntry p size mtime d false :: entries s).
Proof.
  intros Hc. destruct (bucket_of_lookup s p Hc) as [chain Hch].
  destruct (concat_alter (cons (SnapshotEntry p size mtime d false)) _ _ _ Hch) as (l1 & l2 & E1 & E2 & _).
  unfold entries, snapshot_add. cbn [sn_buckets]. rewrite E1, E2. cbn [app].
  by rewrite <- Permutation_middle.
Qed.

Lemma add_shape s p size mtime d :
  bucket_count s = SNAPSHOT_BUCKETS ->
  (forall i chain e, sn_buckets s !! i = Some chain -> e ∈ chain -> i = bucket_of s (se_path e)) ->
  let s' := snapshot_add s p size mtime d in
  bucket_count s' = SNAPSHOT_BUCKETS /\
  forall i chain e, sn_buckets s' !! i = Some chain -> e ∈ chain -> i = bucket_of s' (se_path e).
Proof.
  intros Hc Hb s'. assert (bucket_count s' = bucket_count s) as Hc' by apply bucket_count_alter.
  split; [by rewrite Hc'|]. intros i chain e Hi He. unfold bucket_of. rewrite Hc'.
  fold (bucket_of s (se_path e)). unfold s', snapshot_add in Hi. cbn [sn_buckets] in Hi.
  destruct (decide (i = bucket_of s p)) as [->|Hne].
  - rewrite list_lookup_alter_eq in Hi. destruct (sn_buckets s !! _) as [c|] eqn:Ec; [|done].
    injection Hi as <-. apply elem_of_cons in He as [->|He]; [done|]. by eapply Hb.
  - rewrite list_lookup_alter_ne in Hi by done. by eapply Hb.
Qed.

(** ** Marking an entry *)

Definition mark_if (p : cstr) (e : syseba_snapshot_entry_t) : syseba_snapshot_entry_t :=
  if streq (se_path e) p then set_seen e else e.

Lemma mark_if_path p e : se_path (mark_if p e) = se_path e.
Proof. unfold mark_if. by destruct (streq _ _). Qed.

Lemma map_mark_other p l : p ∉ (se_path <$> l) -> map (mark_if p) l = l.
Proof.
  induction l as [|e l IH]; intros Hp; [done|]. rewrite fmap_cons in Hp. apply not_elem_of_cons in Hp as [Hne Hp].
  cbn [map]. rewrite IH by done. unfold mark_if. by rewrite (proj2 (streq_false _ _)) by congruence.
Qed.

Lemma chain_mark_map chain p : NoDup (se_path <$> chain) -> chain_mark chain p = map (mark_if p) chain.
Proof.
  induction chain as [|e chain IH]; intros Hn; [done|]. rewrite fmap_cons in Hn. apply NoDup_cons in Hn as [He Hn].
  cbn [chain_mark map]. unfold mark_if at 1. destruct (streq (se_path e) p) eqn:E; [|by rewrite IH].
  apply streq_true in E. rewrite map_mark_other; [done|]. by rewrite <- E.
Qed.

Lemma mark_entries s p : table_ok s -> entries (mark_seen s p) = map (mark_if p) (entries s).
Proof.
  intros [Hc Hb Hu]. destruct (bucket_of_lookup s p Hc) as [chain Hch].
  destruct (concat_alter (fun c => chain_mark c p) _ _ _ Hch) as (l1 & l2 & E1 & E2 & Hother).
  unfold entries, mark_seen. cbn [sn_buckets]. rewrite E1, E2.
  rewrite chain_mark_map by (by eapply chain_nodup). rewrite !map_app.
  assert (forall e, e ∈ l1 \/ e ∈ l2 -> se_path e <> p) as Hne.
  { intros e He Hp. destruct (Hother e He) as (j & d & Hj & Hd & Hed). apply Hj. rewrite <- Hp. by eapply Hb. }
  rewrite (map_mark_other p l1), (map_mark_other p l2); [done| |].
  - intros (e & Hp & He)%list_elem_of_fmap. by eapply (Hne e); [right|].
  - intros (e & Hp & He)%list_elem_of_fmap. by eapply (Hne e); [left|].
Qed.

Lemma mark_ok s p : table_ok s -> table_ok (mark_seen s p).
Proof.
  intros Ht. pose proof Ht as [Hc Hb Hu].
  assert (bucket_count (mark_seen s p) = bucket_count s) as Hc' by apply bucket_count_alter.
  constructor; [by rewrite Hc'| |].
  - intros i chain e Hi He. unfold bucket_of. rewrite Hc'. fold (bucket_of s (se_path e)).
    unfold mark_seen in Hi. cbn [sn_buckets] in Hi.
    destruct (decide (i = bucket_of s p)) as [->|Hne].
    + rewrite list_lookup_alter_eq in Hi. destruct (sn_buckets s !! _) as [c|] eqn:Ec; [|done].
      injection Hi as <-. rewrite chain_mark_map in He by (by eapply chain_nodup).
      apply list_elem_of_In, in_map_iff in He as (e' & <- & He). rewrite mark_if_path.
      eapply Hb; [done|]. by apply list_elem_of_In.
    + rewrite list_lookup_alter_ne in Hi by done. by eapply Hb.
  - rewrite mark_entries by done. rewrite <- list_fmap_compose.
    rewrite (list_fmap_ext _ se_path); [done|]. intros i e _. apply mark_if_path.
Qed.

Lemma find_mark s p q :
  table_ok s -> syseba_snapshot_find (mark_seen s p) q = mark_if p <$> syseba_snapshot_find s q.
Proof.
  intros Ht. pose proof (mark_ok s p Ht) as Ht'.
  destruct (syseba_snapshot_find s q) as [e|] eqn:E; cbn.
  - apply find_Some in E as [He <-]; [|done]. apply find_Some; [done|]. rewrite mark_entries by done.
    split; [|apply mark_if_path]. by apply list_elem_of_fmap_2.
  - apply find_None in E; [|done]. apply find_None; [done|]. rewrite mark_entries by done.
    intros (e & -> & He)%list_elem_of_fmap. apply list_elem_of_In, in_map_iff in He as (e' & <- & He).
    apply E. rewrite mark_if_path. by apply list_elem_of_fmap_2, list_elem_of_In.
Qed.

Lemma mark_absent s p : table_ok s -> syseba_snapshot_find s p = None -> mark_seen s p = s.
Proof.
  intros Ht Hf. destruct (bucket_of_lookup s p) as [chain Hch]; [by apply Ht|].
  unfold mark_seen. destruct s as [bs n]. cbn [sn_buckets sn_size] in *. f_equal.
  apply list_eq. intros i. destruct (decide (i = bucket_of (Snapshot bs n) p)) as [->|Hne].
  - rewrite list_lookup_alter_eq, Hch. cbn. f_equal.
    rewrite chain_mark_map by (by eapply (chain_nodup (Snapshot bs n)); [apply Ht|]).
    apply map_mark_other. intros Hp. apply find_None in Hf; [|done]. apply Hf.
    apply list_elem_of_fmap in Hp as (e & -> & He). apply list_elem_of_fmap_2.
    apply elem_of_entries. by eexists _, _.
  - by rewrite list_lookup_alter_ne.
Qed.

(** ** The changes between two snapshots *)

Notation change := (syseba_event_kind_t * cstr * bool)%type.

Definition entry_change (previous : syseba_snapshot_t) (e : syseba_snapshot_entry_t) : list change :=
  match syseba_snapshot_find previous (se_path e) with
  | None => [(SYSEBA_EVENT_CREATE, se_path e, se_directory e)]
  | Some old =>
      if negb (se_directory e)
         && (negb (se_size e =? se_size old) || negb (se_mtime_ns e =? se_mtime_ns old))
      then [(SYSEBA_EVENT_MODIFY, se_path e, false)] else []
  end.

Definition entry_gone (e : syseba_snapshot_entry_t) : change :=
  (SYSEBA_EVENT_DELETE, se_path e, se_directory e).

Definition changes (previous current : syseba_snapshot_t) : list change :=
  flat_map (entry_change previous) (entries current)
  ++ map entry_gone (List.filter (fun e => negb (bool_decide (se_path e ∈ (se_path <$> entries current))))
                       (entries previous)).

Section Reconcile.
Context `{DirOrder} `{SnapshotMemory} `{Strerror} `{Clock}.
Context `{!Allocator syseba_event_t} `{!Allocator syseba_log_record_t}.
Context (allocated : syseba_app_t -> bool).

Fixpoint emit_all (l : list change) : ST syseba_app_t unit :=
  match l with
  | [] => ret tt
  | (kind, path, directory) :: rest => emit_change allocated kind path directory ;;; emit_all rest
  end.

Lemma emit_all_app l1 l2 a : exec (emit_all (l1 ++ l2)) a = exec (emit_all l2) (exec (emit_all l1) a).
Proof.
  revert a. induction l1 as [|[[k p] d] l1 IH]; intros a; [done|]. cbn [app emit_all].
  do 2 rewrite exec_bind. apply IH.
Qed.

Definition mark_all (s : syseba_snapshot_t) (es : list syseba_snapshot_entry_t) : syseba_snapshot_t :=
  fold_left (fun s e => mark_seen s (se_path e)) es s.

Lemma entry_change_mark s p e : table_ok s -> entry_change (mark_seen s p) e = entry_change s e.
Proof.
  intros Ht. unfold entry_change. rewrite find_mark by done.
  destruct (syseba_snapshot_find s (se_path e)) as [old|]; cbn; [|done]. unfold mark_if.
  by destruct (streq _ _).
Qed.

Lemma reconcile_entry_run previous e a :
  table_ok previous ->
  reconcile_entry allocated previous e a =
    (mark_seen previous (se_path e), exec (emit_all (entry_change previous e)) a).
Proof.
  intros Ht. unfold reconcile_entry, entry_change.
  destruct (syseba_snapshot_find previous (se_path e)) as [old|] eqn:E.
  - case_if; rewrite ret_exec; [|done]. cbn [emit_all]. by rewrite exec_bind.
  - rewrite ret_exec, mark_absent by done. cbn [emit_all]. by rewrite exec_bind.
Qed.

Lemma reconcile_current_run es previous a :
  table_ok previous ->
  reconcile_current allocated previous es a =
    (mark_all previous es, exec (emit_all (flat_map (entry_change previous) es)) a).
Proof.
  revert previous a. induction es as [|e es IH]; intros previous a Ht; [done|].
  cbn [reconcile_current flat_map]. rewrite (bind_run _ _ _ _ _ (reconcile_entry_run _ _ _ Ht)).
  rewrite IH by (by apply mark_ok). rewrite emit_all_app. f_equal. do 2 f_equal.
  clear IH. induction es as [|e' es IH]; [done|]. cbn [flat_map]. by rewrite IH, entry_change_mark.
Qed.

Lemma mark_all_entries es s :
  table_ok s -> table_ok (mark_all s es) /\
  entries (mark_all s es) =
    map (fun e => if bool_decide (se_path e ∈ (se_path <$> es)) then set_seen e else e) (entries s).
Proof.
  revert s. induction es as [|e es IH]; intros s Ht.
  - split; [done|]. rewrite <- map_id at 1. apply map_ext. intros e.
    rewrite bool_decide_false; [done|]. apply not_elem_of_nil.
  - destruct (IH (mark_seen s (se_path e))) as [Ht' E]; [by apply mark_ok|]. split; [done|].
    change (mark_all s (e :: es)) with (mark_all (mark_seen s (se_path e)) es).
    rewrite E, mark_entries by done. rewrite map_map. apply map_ext. intros x.
    rewrite mark_if_path, fmap_cons. unfold mark_if.
    destruct (streq (se_path x) (se_path e)) eqn:Es.
    + apply streq_true in Es. rewrite (bool_decide_true (_ ∈ _ :: _)) by (rewrite Es; left).
      by destruct (bool_decide _).
    + apply streq_false in Es. 
      rewrite (bool_decide_ext (_ ∈ _ :: _) (se_path x ∈ (se_path <$> es))); [done|].
      rewrite elem_of_cons. naive_solver.
Qed.

Lemma reconcile_previous_run es a :
  exec (reconcile_previous allocated es) a
    = exec (emit_all (map entry_gone (List.filter (fun e => negb (se_seen e)) es))) a.
Proof.
  revert a. induction es as [|e es IH]; intros a; [done|]. cbn [reconcile_previous List.filter].
  rewrite exec_bind, IH. destruct (se_seen e); cbn [negb]; [done|]. cbn [map emit_all entry_gone].
  by rewrite exec_bind.
Qed.

(** Comparing is enqueuing the changes, the previous entries unmarked at first. *)
Lemma reconcile_run previous current a :
  table_ok previous -> Forall (fun e => se_seen e = false) (entries previous) ->
  exec (syseba_snapshot_reconcile allocated previous current) a
    = exec (emit_all (changes previous current)) a.
Proof.
  intros Ht Hseen. unfold syseba_snapshot_reconcile, changes. rewrite emit_all_app. unfold exec at 1.
  rewrite (bind_run _ _ _ _ _ (reconcile_current_run _ _ _ Ht)), ret_exec. cbn [snd].
  rewrite reconcile_previous_run. fold (entries current).
  set (ps := mark_all previous (entries current)). change (List.concat (sn_buckets ps)) with (entries ps).
  unfold ps. destruct (mark_all_entries (entries current) previous Ht) as [_ ->]. do 3 f_equal.
  induction Hseen as [|e es He Hes IH]; [done|]. cbn [map List.filter].
  destruct (bool_decide _); cbn [negb set_seen se_seen]; [done|]. rewrite He. cbn [negb map]. by f_equal.
Qed.
End Reconcile.

(** The same, as a set. *)
Lemma elem_of_changes previous current kind p d :
  table_ok previous -> table_ok current ->
  (kind, p, d) ∈ changes previous current <->
  match kind with
  | SYSEBA_EVENT_CREATE =>
      p ∉ (se_path <$> entries previous) /\
      exists e, e ∈ entries current /\ se_path e = p /\ se_directory e = d
  | SYSEBA_EVENT_MODIFY =>
      d = false /\ exists e old, e ∈ entries current /\ old ∈ entries previous /\ se_path e = p /\
        se_path old = p /\ se_directory e = false /\
        ~ (se_size e = se_size old /\ se_mtime_ns e = se_mtime_ns old)
  | SYSEBA_EVENT_DELETE =>
      p ∉ (se_path <$> entries current) /\
      exists e, e ∈ entries previous /\ se_path e = p /\ se_directory e = d
  end.
Proof.
  intros Hp Hc. unfold changes. rewrite elem_of_app, !list_elem_of_In, in_flat_map, in_map_iff.
  split.
  - intros [(e & He & Hin)|(e & E & He)].
    + apply list_elem_of_In in He. unfold entry_change in Hin.
      destruct (syseba_snapshot_find previous (se_path e)) as [old|] eqn:Ef.
      * apply find_Some in Ef as [Hold Ep]; [|done].
        destruct (negb (se_directory e) && _) eqn:E in Hin; [|done].
        destruct Hin as [Hin|[]]. injection Hin as <- <- <-. split; [done|]. exists e, old.
        apply andb_true_iff in E as [E1 E2]. apply negb_true_iff in E1. split_and!; try done.
        intros [E3 E4]. by rewrite E3, E4, !Z.eqb_refl in E2.
      * destruct Hin as [Hin|[]]. injection Hin as <- <- <-. apply find_None in Ef; [|done]. eauto.
    + injection E as <- <- <-. apply filter_In in He as [He Hn]. bool_hyps.
      split; [done|]. exists e. split; [|done]. by apply list_elem_of_In.
  - destruct kind.
    + intros (Hn & e & He & <- & <-). left. exists e. split; [by apply list_elem_of_In|].
      unfold entry_change. rewrite (proj2 (find_None previous _ Hp)) by done. by left.
    + intros (-> & e & old & He & Hold & <- & Ep & Ed & Hne). left. exists e.
      split; [by apply list_elem_of_In|]. unfold entry_change.
      rewrite (proj2 (find_Some previous _ old Hp)) by done. rewrite Ed. cbn [negb andb].
      destruct (se_size e =? se_size old) eqn:E1; [|by left].
      destruct (se_mtime_ns e =? se_mtime_ns old) eqn:E2; [|by left].
      bool_hyps. by destruct Hne.
    + intros (Hn & e & He & <- & <-). right. exists e. split; [done|]. apply filter_In.
      split; [by apply list_elem_of_In|]. by rewrite bool_decide_false by done.
Qed.

Lemma changes_nodup previous current :
  table_ok previous -> table_ok current -> NoDup (changes previous current).
Proof.
  intros [_ _ Hp] [_ _ Hc]. unfold changes. apply NoDup_app. split_and!.
  - induction (entries current) as [|e es IH]; [constructor|]. rewrite fmap_cons in Hc.
    apply NoDup_cons in Hc as [He Hc]. cbn [flat_map]. apply NoDup_app. split_and!; [| |by apply IH].
    + unfold entry_change. destruct (syseba_snapshot_find _ _); [|apply NoDup_singleton].
      case_if; [apply NoDup_singleton|constructor].
    + intros x Hx Hin. assert (forall y, x ∈ entry_change previous y -> snd (fst x) = se_path y) as Hpath.
      { intros y Hy. unfold entry_change in Hy. destruct (syseba_snapshot_find _ _).
        - destruct (negb _ && _) in Hy; [by apply list_elem_of_singleton in Hy as ->|].
          by apply not_elem_of_nil in Hy.
        - by apply list_elem_of_singleton in Hy as ->. }
      apply list_elem_of_In, in_flat_map in Hin as (y & Hy & Hin). apply He.
      rewrite <- (Hpath e Hx). apply list_elem_of_In in Hin. rewrite (Hpath y Hin).
      by apply list_elem_of_fmap_2, list_elem_of_In.
  - intros x Hx Hin. apply list_elem_of_In, in_flat_map in Hx as (e & _ & Hx).
    apply list_elem_of_In, in_map_iff in Hin as (y & <- & _). unfold entry_change in Hx.
    destruct (syseba_snapshot_find _ _); [destruct (negb _ && _) in Hx; [|done]|]; by destruct Hx as [Hx|[]].
  - apply NoDup_fmap_2_strong.
    + intros x y Hx Hy E. injection E as E _.
      apply list_elem_of_In, filter_In in Hx as [Hx _], Hy as [Hy _].
      apply list_elem_of_In, list_elem_of_lookup in Hx as [i Hi], Hy as [j Hj].
      assert (i = j) as ->.
      { eapply NoDup_lookup; [exact Hp| |]; rewrite list_lookup_fmap; [by rewrite Hi|by rewrite Hj, E]. }
      congruence.
    + apply NoDup_ListNoDup, List.NoDup_filter, NoDup_ListNoDup. eapply NoDup_fmap_1. exact Hp.
Qed.
