(* ===== verification/PollFacts.v ===== *)
(** * Scans of a quiet host

    What a snapshot of the source holds, and what a scan enqueues. *)

From S2P Require Import Prelude CString Paths Os OsFacts Platform Fs FsFacts CopyFacts Config ConfigFacts ConfigText FsTree FsTreeFacts Restore Queue QueueFacts AppState Log LogFacts App PlainFacts WalkFacts AppFacts LifeFacts SyncFacts Snapshot SnapshotFacts.

(** ** Building *)

(** Nothing on the way to what a walk visits is a link. *)
Lemma walk_links fs root k n :
  walk_ok fs root -> below root k -> fs !! k = Some n -> is_lnk n = false -> no_links fs k.
Proof.
  intros Hw (c & r & ->) Hn Hl a b m t E Ha. destruct a as [|y a].
  { by eapply (wo_links _ _ Hw [] root). }
  destruct b as [|x b _] using rev_ind.
  - rewrite app_nil_r in E. rewrite <- E, Hn in Ha. by injection Ha as ->.
  - rewrite app_assoc in E. rewrite E in Hn.
    assert (dir_chain fs ((y :: a) ++ b)) as Hd by (eapply tree_chain; [apply Hw|by eexists]).
    specialize (Hd (y :: a) b eq_refl). unfold is_dir_at in Hd. by rewrite Ha in Hd.
Qed.

(** What [syseba_fs_stat] says of a file or a directory. *)
Definition stat_of (n : node) : Z * Z := (if is_dir n then 0 else node_size n, m_mtime (node_meta n)).
Definition entry_of (k : ppath) (n : node) : syseba_snapshot_entry_t :=
  SnapshotEntry (render k) (fst (stat_of n)) (snd (stat_of n)) (is_dir n) false.
Definition listed (fs : fsmap) (kd : ppath * bool) : list syseba_snapshot_entry_t :=
  match fs !! fst kd with Some n => [entry_of (fst kd) n] | None => [] end.

Lemma elem_of_listed fs l e :
  e ∈ flat_map (listed fs) l <->
  exists kd, (exists n, fs !! fst kd = Some n /\ e = entry_of (fst kd) n) /\ kd ∈ l.
Proof.
  rewrite list_elem_of_In, in_flat_map. split.
  - intros (kd & Hin & He). unfold listed in He. destruct (fs !! fst kd) as [n|] eqn:E; [|done].
    destruct He as [<-|[]]. exists kd. split; [by exists n|by apply list_elem_of_In].
  - intros (kd & (n & E & ->) & Hin). exists kd. split; [by apply list_elem_of_In|].
    unfold listed. rewrite E. by left.
Qed.

Lemma listed_paths fs l :
  (forall kd, kd ∈ l -> is_Some (fs !! fst kd)) ->
  se_path <$> flat_map (listed fs) l = map (fun kd => render (fst kd)) l.
Proof.
  induction l as [|kd l IH]; intros Hl; [done|]. cbn [flat_map map]. rewrite fmap_app, IH.
  - unfold listed. destruct (Hl kd) as [n ->]; [by left|]. done.
  - intros kd' Hin. apply Hl. by right.
Qed.

(** The snapshot holds the files and the directories under [root]. *)
Record pictures (fs : fsmap) (root : ppath) (s : syseba_snapshot_t) : Prop := Pictures {
  pc_table : table_ok s;
  pc_unseen : Forall (fun e => se_seen e = false) (entries s);
  pc_entries : forall e, e ∈ entries s <->
    exists k n, below root k /\ fs !! k = Some n /\ walkable n = true /\ e = entry_of k n;
}.

Section Build.
Context `{DirOrder} `{SnapshotMemory}.
Context (Hmemory : buckets_allocated = true /\ forall s, entry_allocated s = true).

Definition partly (fs : fsmap) (s0 : os) (l : list (ppath * bool)) (s : syseba_snapshot_t * os) : Prop :=
  same_host s0 (snd s) /\
  (bucket_count (fst s) = SNAPSHOT_BUCKETS /\
   forall i chain e, sn_buckets (fst s) !! i = Some chain -> e ∈ chain -> i = bucket_of (fst s) (se_path e)) /\
  Permutation (entries (fst s)) (flat_map (listed fs) l).

Lemma stat_present s names n :
  quiet s -> Forall path_name names -> no_links (os_fs s) names -> tree_ok (os_fs s) ->
  names <> [] -> os_fs s !! names = Some n -> walkable n = true ->
  syseba_fs_stat (render names) s
    = (Some (StatResult (fst (stat_of n)) (snd (stat_of n)) (is_dir n)), s).
Proof.
  intros Hq Hn Hl Ht Hne Hk Hw. assert (node_at (os_fs s) names = Some n) as Hnode by by destruct names.
  unfold syseba_fs_stat. rewrite (bind_run _ _ _ (Some n) s).
  - by destruct n.
  - rewrite lstat_present; [by rewrite Hnode|done..|by rewrite Hnode].
Qed.

Lemma build_entry_call fs s0 root l k n s :
  walk_ok fs root -> partly fs s0 l s -> good fs True s -> Forall path_name k -> no_links fs k ->
  (exists c r, k = root ++ c :: r) -> fs !! k = Some n -> walkable n = true ->
  exists s', syseba_snapshot_build_entry (render k) (is_dir n) s = (true, s') /\
    partly fs s0 (l ++ [(k, is_dir n)]) s' /\ good fs True s'.
Proof.
  destruct s as [snap s]. intros Hw (Hh & [Hc Hb] & Hp) [Hq Hf He] Hk Hl (x & r & Ek) Hn Hwn. cbn in Hq, Hf, He, Hc, Hp.
  assert (k <> []) as Hne by (rewrite Ek; by destruct root).
  unfold syseba_snapshot_build_entry.
  rewrite (bind_run _ _ _ (Some (StatResult (fst (stat_of n)) (snd (stat_of n)) (is_dir n))) (snap, s)).
  2: { apply zoom_same. cbn. apply stat_present; rewrite ?Hf; try done. apply Hw. }
  unfold syseba_snapshot_insert. rewrite bind_gets. destruct Hmemory as [_ ->]. cbn [negb].
  set (e := entry_of k n). exists (snapshot_add snap (render k) (fst (stat_of n)) (snd (stat_of n)) (is_dir n), s).
  split; [done|]. split; [split; [done|split]|by constructor].
  - by apply add_shape.
  - rewrite flat_map_app. cbn [flat_map fst listed]. unfold listed at 2. cbn [fst]. rewrite Hn, app_nil_r.
    cbn [fst]. rewrite add_entries by done. rewrite Hp. by rewrite <- Permutation_cons_append.
Qed.

Lemma build_pictures root fs s :
  walk_ok fs root -> quiet s -> os_fs s = fs ->
  exists snapshot s', syseba_snapshot_build (render root) s = ((true, snapshot), s') /\
    pictures fs root snapshot /\ same_world s s'.
Proof.
  intros Hw Hq Hf. unfold syseba_snapshot_build. pose proof Hmemory as [-> _]. cbn [negb].
  set (empty := Snapshot (replicate (Z.to_nat SNAPSHOT_BUCKETS) []) 0).
  destruct (walk_files_covers syseba_snapshot_build_entry fs root (partly fs s) (empty, s))
    as ([snap s'] & l & E & HP & [Hq' Hf' _] & Hcov).
  - intros l [sn t] HP. exact HP.
  - intros l k n t HP Hg Hk Hl Hz Hb Hn Hwn. by eapply build_entry_call.
  - done.
  - split; [done|split; [split|]].
    + unfold empty, bucket_count, zlen. cbn [fst sn_buckets]. by rewrite length_replicate.
    + intros i chain e Hi He. apply lookup_replicate in Hi as [-> _]. by apply not_elem_of_nil in He.
    + unfold empty, entries. cbn [fst sn_buckets flat_map].
      assert (forall m, List.concat (replicate m (@nil syseba_snapshot_entry_t)) = []) as ->; [|done].
      induction m; done.
  - done.
  - done.
  - rewrite E. destruct HP as (Hh & [Hc Hb] & Hp), Hcov as [Hnd Hcov]. cbn [fst] in *.
    exists snap, s'. split; [done|].
    assert (forall kd, kd ∈ l -> exists n, fs !! fst kd = Some n /\ is_dir n = snd kd) as Hl.
    { intros [k d] Hin. apply Hcov in Hin as (_ & n & Hk & _ & Hd). by exists n. }
    split; [|split; [exact Hh|cbn in Hf'; congruence]].
    constructor; [constructor; [done|done|]| |].
    + rewrite Hp, listed_paths by (intros kd Hkd; destruct (Hl kd Hkd) as (n & ? & _); by eexists).
        apply NoDup_fmap_2_strong; [|done]. intros [k d] [k' d'] Hi1 Hi2 Ek. cbn [fst] in Ek.
        destruct (Hl _ Hi1) as (n & Hn1 & Hd1), (Hl _ Hi2) as (n' & Hn2 & Hd2). cbn [fst snd] in *.
        assert (k = k') as <- by (by eapply render_inj; [eapply (wo_names _ _ Hw)|eapply (wo_names _ _ Hw)|]).
        congruence.
    + rewrite Hp. apply Forall_forall. intros e (kd & He & _)%elem_of_listed.
        by destruct He as (n & _ & ->).
    + intros e. rewrite Hp, elem_of_listed. split.
      * intros ([k d] & (n & Hn & ->) & Hin). apply Hcov in Hin as (Hb' & n' & Hn' & Hwn & _).
           cbn [fst] in *. rewrite Hn in Hn'. injection Hn' as <-. by exists k, n.
      * intros (k & n & Hb' & Hn & Hwn & ->). exists (k, is_dir n). split; [by exists n|].
           apply Hcov. split; [done|]. by exists n.
Qed.
End Build.

(** ** Enqueuing the changes *)

Section Scan.
Context `{DirOrder} `{SnapshotMemory} `{Strerror} `{Clock}.
Context `{!Allocator syseba_event_t} `{!Allocator syseba_log_record_t}.
Context (Halloc : forall h, @alloc_node syseba_event_t _ h <> None).
Context (a0 : syseba_app_t) (sn : ppath) (fs : fsmap).
Context (Hsource : cfg_source (app_config a0) = render sn) (Hwalk : walk_ok fs sn).

(** The application while its watcher enqueues. *)
Record watching (l : list syseba_event_t) (a : syseba_app_t) : Prop := Watching {
  wg_config : app_config a = app_config a0;
  wg_stopping : app_stop_requested a = false;
  wg_world : same_world (app_os a0) (app_os a);
  wg_queue : represents (app_event_queue a) l;
  wg_open : q_closed (app_event_queue a) = false;
}.
Context (Hquiet : quiet (app_os a0)) (Hfs : os_fs (app_os a0) = fs).

Lemma watching_world l a t : same_world (app_os a) t -> watching l a -> watching l (with_os t a).
Proof. intros Hw []. constructor; try done. cbn. by etransitivity. Qed.

Definition change_event (c : change) : syseba_event_t :=
  let '(kind, p, d) := c in Event kind p d false (os_mono (app_os a0)).

(** The paths that the watcher may enqueue. *)
Definition watched (p : cstr) : Prop :=
  exists k, p = render k /\ below sn k /\ Forall path_name k /\ no_links fs k /\
    zlen p < SYSEBA_PATH_MAX.

Lemma emit_watching l kind p d a :
  watching l a -> watched p -> zlen l < U64_MAX ->
  watching (l ++ [change_event (kind, p, d)]) (exec (emit_change (fun _ => true) kind p d) a).
Proof.
  intros [Hc Hs Hw Hr Ho] (k & -> & (c & r & Ek) & Hk & Hl & Hz) Hlen.
  destruct (walk_root _ _ Hwalk) as (Hsn & _ & _ & Hsz).
  pose proof Hw as [Hh Hf]. rewrite Hfs in Hf.
  destruct (is_within_plain (app_os a) sn k) as (s1 & E1 & Hw1);
    [by eapply same_world_quiet|done|done|rewrite Hf; apply Hwalk|by rewrite Hf|rewrite Hf; apply Hwalk|done|done|].
  rewrite bool_decide_true in E1 by (rewrite Ek; by apply prefix_app_r).
  unfold emit_change, syseba_app_enqueue, syseba_app_enqueue_internal, syseba_app_is_stopping.
  rewrite exec_bind. change (value (gets (fun _ => true)) a) with true.
  change (exec (gets (fun _ => true)) a) with a. rewrite exec_bind.
  unfold exec at 1. cbn [snd ret]. unfold exec. rewrite !bind_gets, Hs.
  rewrite (bind_run _ _ _ false (with_os s1 a)).
  2: { rewrite (bind_run _ _ _ true (with_os s1 a)); [done|]. rewrite Hc, Hsource.
    by apply zoom_os. }
  cbn [negb]. rewrite (bind_run _ _ _ (os_mono s1) (with_os s1 a)) by (by destruct s1).
  assert (fits SYSEBA_PATH_MAX (render k) = true) as -> by (by apply Z.ltb_lt). cbn [negb].
  assert (os_mono s1 = os_mono (app_os a0)) as Hm.
  { destruct Hw1 as [(_ & _ & -> & _) _]. by destruct Hh as (_ & _ & -> & _). }
  rewrite bind_unit, Hm. unfold bind, zoom. cbn.
  set (ev := Event _ _ _ _ _). change (change_event (kind, render k, d)) with ev.
  destruct (syseba_queue_push alloc_node ev (app_event_queue a)) as [pushed q] eqn:Ep.
  assert (pushed = true) as ->.
  { unfold syseba_queue_push in Ep. destruct (alloc_node _) eqn:Ea; [|by apply Halloc in Ea].
    rewrite Ho in Ep. destruct (q_tail _); by injection Ep as <- <-. }
  apply (push_represents _ _ _ _ l) in Ep as (Hr' & _ & Hcl' & _);
    [|done|done|apply alloc_node_free].
  constructor; cbn; [done|done|by etransitivity|exact Hr'|by rewrite Hcl'].
Qed.

Lemma emit_all_watching cs l a :
  watching l a -> (forall kind p d, (kind, p, d) ∈ cs -> watched p) -> zlen l + zlen cs <= U64_MAX ->
  watching (l ++ map change_event cs) (exec (emit_all (fun _ => true) cs) a).
Proof.
  revert l a. induction cs as [|[[kind p] d] cs IH]; intros l a Hw Hp Hz.
  - by rewrite app_nil_r.
  - cbn [emit_all map]. rewrite exec_bind, cons_middle, app_assoc. apply IH.
    + apply emit_watching; [done|eapply Hp; by left|]. zlen_lia.
    + intros k' p' d' Hin. eapply Hp. by right.
    + zlen_lia.
Qed.

(** ** A whole scan *)

(** What a scan reports between two states of the file system. *)
Definition holds_at (f : fsmap) (k : ppath) (d : bool) : Prop :=
  exists n, f !! k = Some n /\ walkable n = true /\ is_dir n = d.
Definition reported (fs1 fs2 : fsmap) (kind : syseba_event_kind_t) (k : ppath) (d : bool) : Prop :=
  match kind with
  | SYSEBA_EVENT_CREATE => holds_at fs2 k d /\ ~ exists d', holds_at fs1 k d'
  | SYSEBA_EVENT_MODIFY =>
      d = false /\ exists n1 n2, fs1 !! k = Some n1 /\ fs2 !! k = Some n2 /\
        walkable n1 = true /\ is_reg n2 = true /\ stat_of n1 <> stat_of n2
  | SYSEBA_EVENT_DELETE => holds_at fs1 k d /\ ~ exists d', holds_at fs2 k d'
  end.

Lemma pictures_path f s k :
  names_ok f -> Forall path_name k -> below sn k -> pictures f sn s ->
  render k ∈ (se_path <$> entries s) <-> exists d, holds_at f k d.
Proof.
  intros Hn Hk Hb Hp. rewrite list_elem_of_fmap. split.
  - intros (e & E & He). apply (pc_entries _ _ _ Hp) in He as (k' & n & Hb' & Hf & Hw & ->).
    apply render_inj in E as ->; [|done|by eapply Hn]. by exists (is_dir n), n.
  - intros (d & n & Hf & Hw & Hd). exists (entry_of k n). split; [done|].
    apply (pc_entries _ _ _ Hp). by exists k, n.
Qed.

Lemma pictures_size f s : pictures f sn s -> zlen (entries s) <= Z.of_nat (size f).
Proof.
  intros [[_ _ Hu] _ He]. unfold zlen. rewrite <- (length_fmap se_path), <- length_map_to_list.
  rewrite <- (length_map (fun kn => render (fst kn))).
  apply Nat2Z.inj_le, NoDup_incl_length; [by apply NoDup_ListNoDup|].
  intros p Hp. apply list_elem_of_In, list_elem_of_fmap in Hp as (e & -> & Hin).
  apply He in Hin as (k & n & _ & Hk & _ & ->). apply in_map_iff. exists (k, n). split; [done|].
  by apply list_elem_of_In, elem_of_map_to_list.
Qed.

Lemma changes_size s1 s2 : zlen (changes s1 s2) <= zlen (entries s1) + zlen (entries s2).
Proof.
  unfold changes, zlen. rewrite length_app, length_map.
  pose proof (List.filter_length_le (fun e => negb (bool_decide (se_path e ∈ (se_path <$> entries s2)))) (entries s1)).
  assert (length (flat_map (entry_change s1) (entries s2)) <= length (entries s2))%nat; [|lia].
  clear. induction (entries s2) as [|e es IH]; cbn; [lia|]. rewrite length_app.
  assert (length (entry_change s1 e) <= 1)%nat; [|lia]. unfold entry_change.
  destruct (syseba_snapshot_find _ _); [destruct (negb _ && _)|]; cbn; lia.
Qed.

Lemma changes_reported fs1 fs2 s1 s2 kind p d :
  names_ok fs1 -> names_ok fs2 -> pictures fs1 sn s1 -> pictures fs2 sn s2 ->
  (kind, p, d) ∈ changes s1 s2 <-> exists k, p = render k /\ below sn k /\ reported fs1 fs2 kind k d.
Proof.
  intros Hn1 Hn2 P1 P2. rewrite elem_of_changes by (apply P1 || apply P2). destruct kind.
  - split.
    + intros (Hp & e & He & <- & <-). apply (pc_entries _ _ _ P2) in He as (k & n & Hb & Hf & Hw & ->).
      exists k. split; [done|]. split; [done|]. split; [by exists n|].
      rewrite <- (pictures_path fs1 s1) by (done || by eapply Hn2). done.
    + intros (k & -> & Hb & (n & Hf & Hw & Hd) & Hn). split.
      * rewrite (pictures_path fs1 s1) by (done || by eapply Hn2). done.
      * exists (entry_of k n). split; [|done]. apply (pc_entries _ _ _ P2). by exists k, n.
  - split.
    + intros (-> & e & old & He & Hold & <- & Ep & Ed & Hne).
      apply (pc_entries _ _ _ P2) in He as (k & n & Hb & Hf & Hw & ->).
      apply (pc_entries _ _ _ P1) in Hold as (k' & n' & Hb' & Hf' & Hw' & ->).
      apply render_inj in Ep as ->; [|by eapply Hn1|by eapply Hn2].
      exists k. split; [done|]. split; [done|]. split; [done|]. exists n', n. split_and!; try done.
      * unfold walkable in Hw. cbn in Ed. by rewrite Ed in Hw.
      * intros E. apply Hne. unfold entry_of. cbn [se_size se_mtime_ns]. by rewrite E.
    + intros (k & -> & Hb & -> & n1 & n2 & Hf1 & Hf2 & Hw1 & Hr2 & Hne). split; [done|].
      exists (entry_of k n2), (entry_of k n1). split_and!; try done.
      * apply (pc_entries _ _ _ P2). exists k, n2. split_and!; try done. unfold walkable. by rewrite Hr2, orb_true_r.
      * apply (pc_entries _ _ _ P1). by exists k, n1.
      * by destruct n2.
      * intros [E1 E2]. apply Hne. unfold entry_of in E1, E2. cbn [se_size se_mtime_ns] in E1, E2. destruct (stat_of n1), (stat_of n2). cbn in *. congruence.
  - split.
    + intros (Hp & e & He & <- & <-). apply (pc_entries _ _ _ P1) in He as (k & n & Hb & Hf & Hw & ->).
      exists k. split; [done|]. split; [done|]. split; [by exists n|].
      rewrite <- (pictures_path fs2 s2) by (done || by eapply Hn1). done.
    + intros (k & -> & Hb & (n & Hf & Hw & Hd) & Hn). split.
      * rewrite (pictures_path fs2 s2) by (done || by eapply Hn1). done.
      * exists (entry_of k n). split; [|done]. apply (pc_entries _ _ _ P1). by exists k, n.
Qed.

Lemma poll_scan_reports fs1 previous l :
  watching l a0 -> walk_ok fs1 sn -> pictures fs1 sn previous ->
  buckets_allocated = true -> (forall s, entry_allocated s = true) ->
  (forall k d, holds_at fs1 k d -> below sn k -> no_links fs k) ->
  zlen l + Z.of_nat (size fs1) + Z.of_nat (size fs) <= U64_MAX ->
  exists current a', poll_scan (fun _ => true) previous a0 = (current, a') /\
    pictures fs sn current /\
    watching (l ++ map change_event (changes previous current)) a'.
Proof.
  intros Hw Hw1 P1 Hm1 Hm2 Hnl Hz.
  destruct (build_pictures (conj Hm1 Hm2) sn fs (app_os a0)) as (current & s' & E & P2 & Hws); [done..|].
  exists current. eexists. unfold poll_scan. rewrite bind_gets, Hsource.
  rewrite (bind_run _ _ _ (true, current) (with_os s' a0)).
  2: by apply zoom_os.
  cbn match. split_and!.
  - unfold bind, exec. destruct (syseba_snapshot_reconcile _ _ _ _) as [p a'] eqn:Er. cbn [ret].
    replace a' with (exec (syseba_snapshot_reconcile (fun _ => true) previous current) (with_os s' a0))
      by (unfold exec; by rewrite Er). reflexivity.
  - done.
  - pose proof (pictures_size _ _ P1). pose proof (pictures_size _ _ P2).
    pose proof (changes_size previous current).
    rewrite reconcile_run by apply P1. apply emit_all_watching; [| |lia].
    + destruct Hw as [? ? ? ? ?]. by constructor.
    + intros kind p d Hin. apply (changes_reported fs1 fs) in Hin as (k & -> & Hb & Hr);
        [|apply Hw1|apply Hwalk|done|done].
      assert (Forall path_name k /\ no_links fs k /\ zlen (render k) < SYSEBA_PATH_MAX) as (? & ? & ?);
        [|by exists k].
      assert (forall f, walk_ok f sn -> is_Some (f !! k) ->
                Forall path_name k /\ zlen (render k) < SYSEBA_PATH_MAX) as Hnames.
      { intros f Hwf Hs. pose proof Hs as [n Hfk]. destruct Hb as (c & r & ->).
        split; [by eapply (wo_names _ _ Hwf)|by apply Hwf]. }
      destruct kind; cbn in Hr.
      * destruct Hr as [(n & Hn & Hwn & _) _]. destruct (Hnames fs) as [? ?]; [done|by eexists|].
        split_and!; [done| |done]. eapply walk_links; [done..|by destruct n].
      * destruct Hr as (_ & n1 & n2 & _ & Hn & _ & Hr & _). destruct (Hnames fs) as [? ?]; [done|by eexists|].
        split_and!; [done| |done]. eapply walk_links; [done..|by destruct n2].
      * destruct Hr as [Hold _]. pose proof Hold as (n & Hn & _).
        destruct (Hnames fs1) as [? ?]; [done|by eexists|]. split_and!; [done|by eapply Hnl|done].
Qed.
End Scan.
