(* ===== verification/PollSpec.v ===== *)
(** * The promises of the polling watcher *)

From S2P Require Import Prelude CString Paths Os OsFacts Platform Fs FsFacts CopyFacts Config ConfigFacts ConfigText FsTree FsTreeFacts Restore Queue QueueFacts AppState Log LogFacts App PlainFacts WalkFacts AppFacts LifeFacts SyncFacts Examples Demo Snapshot SnapshotFacts PollFacts.

Section Claims.
Context `{DirOrder} `{SnapshotMemory} `{Strerror} `{Clock}.
Context `{!Allocator syseba_event_t} `{!Allocator syseba_log_record_t}.

(** C12: a turn of the polling watcher on a quiet host enqueues, after
    what the queue holds, exactly one event for every difference between the source when
    the previous snapshot was built and the source now: CREATE for what is new, MODIFY
    for a file whose size or time is not the recorded one, DELETE for what is gone.
    A file that became a directory is none of these.  The snapshot that it keeps is a
    picture of the source for the next turn. *)
Theorem poll_reports_changes a sn fs1 s1 fs2 l :
  (forall h, @alloc_node syseba_event_t _ h <> None) ->
  buckets_allocated = true -> (forall s, entry_allocated s = true) ->
  cfg_source (app_config a) = render sn -> app_stop_requested a = false ->
  represents (app_event_queue a) l -> q_closed (app_event_queue a) = false ->
  walk_ok fs1 sn -> quiet s1 -> os_fs s1 = fs1 ->
  walk_ok fs2 sn -> quiet (app_os a) -> os_fs (app_os a) = fs2 ->
  (forall k, is_Some (fs1 !! k) -> below sn k -> no_links fs2 k) ->
  zlen l + Z.of_nat (size fs1) + Z.of_nat (size fs2) <= U64_MAX ->
  exists previous current a' cs,
    value (syseba_snapshot_build (render sn)) s1 = (true, previous) /\
    poll_scan (fun _ => true) previous a = (current, a') /\
    represents (app_event_queue a') (l ++ map (change_event a) cs) /\ NoDup cs /\
    (forall kind p d, (kind, p, d) ∈ cs <->
       exists k, p = render k /\ below sn k /\ reported fs1 fs2 kind k d) /\
    pictures fs2 sn current.
Proof.
  intros Ha Hm1 Hm2 Hsrc Hst Hr Ho Hw1 Hq1 Hf1 Hw2 Hq2 Hf2 Hnl Hz.
  destruct (build_pictures (conj Hm1 Hm2) sn fs1 s1) as (previous & s' & E & P1 & _); [done..|].
  destruct (poll_scan_reports Ha a sn fs2 Hsrc Hw2 Hq2 Hf2 fs1 previous l)
    as (current & a' & Es & P2 & Hw); [done..| |done|].
  { intros k d (n & Hn & _). apply Hnl. by exists n. }
  exists previous, current, a', (changes previous current). split_and!; [|done| | | |done].
  - unfold value. by rewrite E.
  - apply Hw.
  - apply changes_nodup; [apply P1|apply P2].
  - intros kind p d. apply changes_reported; [apply Hw1|apply Hw2|done|done].
Qed.
End Claims.

(** ** Examples *)

#[export] Instance memory_ample : SnapshotMemory :=
  {| buckets_allocated := true; entry_allocated := fun _ => true |}.

(** The source later: a file is new and one is gone. *)
Definition later_fs : fsmap :=
  <[[c!"data"; c!"new"] := NReg example_meta (c!"1")]> (delete [c!"data"; c!"notes.txt"] example_fs).
Definition later_app (fs : fsmap) : syseba_app_t :=
  demo_app (Os fs E_OK (c!"/") 2000 0 7 20 [] [] None).

Example poll_reports_changes_witness :
  exists previous current a' cs,
    value (syseba_snapshot_build (render [c!"data"])) (example_host []) = (true, previous) /\
    poll_scan (fun _ => true) previous (later_app later_fs) = (current, a') /\
    represents (app_event_queue a') ([] ++ map (change_event (later_app later_fs)) cs) /\ NoDup cs /\
    (forall kind p d, (kind, p, d) ∈ cs <->
       exists k, p = render k /\ below [c!"data"] k /\ reported example_fs later_fs kind k d) /\
    pictures later_fs [c!"data"] current.
Proof.
  apply (poll_reports_changes (later_app later_fs) [c!"data"] example_fs (example_host []) later_fs []).
  - done.
  - done.
  - done.
  - reflexivity.
  - reflexivity.
  - apply init_represents.
  - reflexivity.
  - apply walk_b_spec. by vm_compute.
  - reflexivity.
  - reflexivity.
  - apply walk_b_spec. by vm_compute.
  - reflexivity.
  - reflexivity.
  - intros k [n Hn] _. apply no_links_b_spec.
    apply (check_keys_spec (fun k _ => no_links_b later_fs k) example_fs) with n; [by vm_compute|done].
  - by vm_compute.
Defined.

(** The source after [notes.txt] became a directory of that name. *)
Definition retyped_fs : fsmap := <[[c!"data"; c!"notes.txt"] := NDir root_meta]> example_fs.
Definition scan_after (fs : fsmap) : list change :=
  let previous := snd (value (syseba_snapshot_build (c!"/data")) (example_host [])) in
  let a := exec (poll_scan (fun _ => true) previous) (later_app fs) in
  map (fun event => (ev_kind event, ev_path event, ev_is_directory event))
      (value syseba_queue_destroy (app_event_queue a)).

(** The polling watcher finds a new file and a deleted one,
    but nothing when a file is replaced by an empty directory of the same name: the
    backup keeps the file and never gets the directory. *)
Theorem type_change_unseen :
  scan_after later_fs =
    [(SYSEBA_EVENT_CREATE, c!"/data/new", false); (SYSEBA_EVENT_DELETE, c!"/data/notes.txt", false)] /\
  scan_after retyped_fs = [].
Proof. split; vm_compute; reflexivity. Qed.
