(* ===== verification/MirrorSpec.v ===== *)
(** * The backup stays current

    A turn of the polling watcher followed by the work of the workers: from a backup that
    is up to date with what the previous snapshot pictures, to one that is up to date with
    the source as it is now. *)

From S2P Require Import Prelude CString Paths Os OsFacts Platform Fs FsFacts CopyFacts Config ConfigFacts ConfigText FsTree FsTreeFacts Restore Queue QueueFacts AppState Log LogFacts App PlainFacts WalkFacts AppFacts LifeFacts SyncFacts Workers BackupFacts Examples Demo BackupSpec Snapshot SnapshotFacts PollFacts PollSpec.

Lemma map_preimage {A B} (f : A -> B) (P : A -> Prop) l :
  (forall b, b ∈ l -> exists a, b = f a /\ P a) -> exists l', l = map f l' /\ Forall P l'.
Proof.
  induction l as [|b l IH]; intros Hl; [by exists []|].
  destruct (Hl b) as (x & -> & Hx); [by left|]. destruct IH as (l' & -> & Hl').
  { intros b Hin. apply Hl. by right. }
  exists (x :: l'). by split; [|constructor].
Qed.

(** ** A backup that is up to date *)

(** What the backup holds in the place of an entry is its copy, as far as sizes and times
    tell. *)
Definition fresh (bn : ppath) (fs : fsmap) (r : ppath) (n : node) : Prop :=
  match n with
  | NReg m x => outdated m x (fs !! (bn ++ r)) = false
  | NDir _ => exists m, fs !! (bn ++ r) = Some (NDir m)
  | NLnk _ _ | NOther _ => True
  end.

(** The backup in [fs] is up to date with the source in [fs1]. *)
Definition up_to_date (sn bn : ppath) (fs1 fs : fsmap) : Prop :=
  forall r n, entry sn fs1 r n -> fresh bn fs r n.

(** What the source held is still there, and of the same kind. *)
Definition grown (sn : ppath) (fs1 fs2 : fsmap) : Prop :=
  forall r n, entry sn fs1 r n -> exists n', entry sn fs2 r n' /\ is_dir n' = is_dir n.

Lemma fresh_saved bn fs r n : fresh bn fs r n -> saved bn fs fs r n.
Proof. destruct n; cbn; auto. Qed.

Lemma saved_fresh bn fs0 fs r n : saved bn fs0 fs r n -> fresh bn fs r n.
Proof.
  destruct n; cbn; try done. intros [(m' & -> & _ & Hm)|[Ho ->]]; [|done].
  cbn. rewrite Hm. by rewrite !Z.eqb_refl.
Qed.

(** Size and time decide whether a copy is needed. *)
Lemma same_stat_fresh bn fs r n n' :
  is_dir n' = is_dir n -> walkable n = true -> walkable n' = true -> (is_dir n = false -> stat_of n = stat_of n') ->
  fresh bn fs r n -> fresh bn fs r n'.
Proof.
  destruct n as [m x|m| |], n' as [m' x'|m'| |]; try done. intros _ _ _ Hs.
  unfold fresh, outdated. injection (Hs eq_refl) as -> ->. done.
Qed.

(** ** The events of a scan *)

Section Mirror.
Context (a : syseba_app_t) (sn : ppath).

(** A change that is no deletion: modified or new, where, and whether a directory. *)
Definition item : Type := bool * (ppath * bool).
Definition item_kind (i : item) : syseba_event_kind_t :=
  if fst i then SYSEBA_EVENT_MODIFY else SYSEBA_EVENT_CREATE.
Definition item_change (i : item) : change := (item_kind i, render (fst (snd i)), snd (snd i)).
Definition item_event (i : item) : syseba_event_t := change_event a (item_change i).

Lemma item_event_plain i :
  ev_path (item_event i) = render (fst (snd i)) /\ ev_is_directory (item_event i) = snd (snd i) /\
  ev_kind (item_event i) <> SYSEBA_EVENT_DELETE /\ ev_initial_sync (item_event i) = false.
Proof. by destruct i as [[] []]. Qed.

Lemma holds_at_entry fs r d :
  r <> [] -> holds_at fs (sn ++ r) d <-> exists n, entry sn fs r n /\ is_dir n = d.
Proof. intros Hr. split; intros (n & Hn); [exists n|exists n]; unfold entry in *; naive_solver. Qed.

Lemma below_suffix k : below sn k <-> exists r, r <> [] /\ k = sn ++ r.
Proof.
  split; [intros (x & r & ->); by exists (x :: r)|]. intros ([|x r] & Hr & ->); [done|]. by exists x, r.
Qed.

Lemma grown_items fs1 fs2 s1 s2 :
  names_ok fs1 -> names_ok fs2 -> pictures fs1 sn s1 -> pictures fs2 sn s2 -> grown sn fs1 fs2 ->
  exists l, changes s1 s2 = map item_change l /\
    (forall i, i ∈ l -> exists r n, entry sn fs2 r n /\ snd i = (sn ++ r, is_dir n)).
Proof.
  intros Hn1 Hn2 P1 P2 Hg.
  destruct (map_preimage item_change (fun i => exists r n, entry sn fs2 r n /\ snd i = (sn ++ r, is_dir n))
              (changes s1 s2)) as (l & E & Hl).
  - intros [[kind p] d] (k & -> & (r & Hr & ->)%below_suffix & Hrep)%(changes_reported sn fs1 fs2); [|done..].
    destruct kind; cbn in Hrep.
    + destruct Hrep as [(n & He & <-)%holds_at_entry _]; [|done]. exists (false, (sn ++ r, is_dir n)). eauto.
    + destruct Hrep as (-> & n1 & n2 & _ & Hn & _ & Hreg & _). exists (true, (sn ++ r, false)). split; [done|].
      exists r, n2. split; [|by destruct n2]. split_and!; [done..|]. unfold walkable. by rewrite Hreg, orb_true_r.
    + destruct Hrep as [(n & He & <-)%holds_at_entry Hno]; [|done]. exfalso. apply Hno.
      destruct (Hg r n He) as (n' & He' & _). exists (is_dir n'). apply holds_at_entry; [done|]. by exists n'.
  - exists l. split; [done|]. by apply Forall_forall.
Qed.

(** What was not reported was up to date before and still is. *)
Lemma changed_or_fresh bn fs1 fs2 s1 s2 fs r n :
  names_ok fs1 -> names_ok fs2 -> pictures fs1 sn s1 -> pictures fs2 sn s2 ->
  (forall n1, entry sn fs1 r n1 -> is_dir n = is_dir n1) ->
  up_to_date sn bn fs1 fs -> entry sn fs2 r n ->
  (exists i, item_change i ∈ changes s1 s2 /\ snd i = (sn ++ r, is_dir n)) \/ fresh bn fs r n.
Proof.
  intros Hn1 Hn2 P1 P2 Hk Hup He. pose proof He as (Hr & Hn & Hw).
  assert (forall b, reported fs1 fs2 (item_kind (b, (sn ++ r, is_dir n))) (sn ++ r) (is_dir n) ->
    exists i, item_change i ∈ changes s1 s2 /\ snd i = (sn ++ r, is_dir n)) as Hin.
  { intros b Hrep. exists (b, (sn ++ r, is_dir n)). split; [|done].
    apply (changes_reported sn fs1 fs2); [done..|]. exists (sn ++ r). split_and!; [done| |done].
    apply below_suffix. by exists r. }
  destruct (fs1 !! (sn ++ r)) as [n1|] eqn:E1; [destruct (walkable n1) eqn:Ew1|].
  - assert (entry sn fs1 r n1) as He1 by done. pose proof (Hk _ He1) as Hd.
    destruct (decide (is_dir n1 = false -> stat_of n1 = stat_of n)) as [Hs|Hs].
    + right. by eapply same_stat_fresh; [| |done|exact Hs|apply Hup].
    + left. apply (Hin true). destruct (is_dir n1) eqn:Ed1; [by destruct Hs|]. rewrite Hd.
      split; [done|]. exists n1, n. split_and!; try done; [by destruct n|]. intros Es. by apply Hs.
  - left. apply (Hin false). split; [by exists n|]. intros (d & n' & Hn' & Hw' & _). congruence.
  - left. apply (Hin false). split; [by exists n|]. intros (d & n' & Hn' & Hw' & _). congruence.
Qed.

(** An item is known by its change. *)
Lemma item_change_inj i j :
  Forall path_name (fst (snd i)) -> Forall path_name (fst (snd j)) -> item_change i = item_change j -> i = j.
Proof.
  destruct i as [[] [p d]], j as [[] [q d']]; cbn; intros Hp Hq E; try done; injection E as E ->;
    by rewrite (render_inj p q).
Qed.
End Mirror.

(** ** Between two turns *)

(** The watcher holds [previous], the picture of the source in [fs1]; the workers have
    nothing to do, and the backup is up to date with that picture. *)
Record settled (sn bn : ppath) (fs1 : fsmap) (previous : syseba_snapshot_t) (a : syseba_app_t) : Prop := Settled {
  sd_queue : represents (app_event_queue a) [];
  sd_open : q_closed (app_event_queue a) = false;
  sd_stopping : app_stop_requested a = false;
  sd_walk : walk_ok fs1 sn;
  sd_pictures : pictures fs1 sn previous;
  sd_current : up_to_date sn bn fs1 (os_fs (app_os a));
}.

(** Other programs may do what they want outside the backup. *)
Lemma settled_edit sn bn fs1 previous a s' :
  settled sn bn fs1 previous a -> (forall r, os_fs s' !! (bn ++ r) = os_fs (app_os a) !! (bn ++ r)) ->
  settled sn bn fs1 previous (with_os s' a).
Proof.
  intros [? ? ? ? ? Hup] Hs. constructor; try done. intros r n He. specialize (Hup r n He).
  unfold fresh in *. cbn. by rewrite Hs.
Qed.

Section Claims.
Context `{DirOrder} `{SnapshotMemory} `{LocalStamp} `{Strerror} `{Clock}.
Context `{!Allocator syseba_event_t} `{!Allocator syseba_log_record_t}.

(** Between two turns of the polling watcher the backup is up to date with the picture
    of the source that the watcher holds, and a turn keeps it so. On a quiet host, when
    files and directories were added and files were modified since the last turn, a scan
    and then the workers, however many and in whatever order, bring every file and
    directory that the source now has into the backup, the new and changed files with
    their bytes, mode bits and time; the source is as it was, in the rest of the file
    system there are only new directories above the backup, and the queue is empty and
    the watcher holds the picture of the new source. One worker alone does finish. *)
Theorem scan_keeps_backup_current unknown sn bn rn fs1 fs2 previous a :
  (forall h, @alloc_node syseba_event_t _ h <> None) ->
  buckets_allocated = true -> (forall s, entry_allocated s = true) ->
  settled sn bn fs1 previous a -> quiet (app_os a) -> os_fs (app_os a) = fs2 ->
  backup_ready sn bn rn fs2 (app_config a) -> grown sn fs1 fs2 ->
  Z.of_nat (size fs1) + Z.of_nat (size fs2) <= U64_MAX ->
  exists current a4,
    poll_scan (fun _ => true) previous a = (current, a4) /\
    finished unknown a4 (one_worker unknown (size fs1 + size fs2) a4) /\
    forall a5, finished unknown a4 a5 ->
      settled sn bn fs2 current a5 /\ quiet (app_os a5) /\
      (forall r n, entry sn fs2 r n -> saved bn fs2 (os_fs (app_os a5)) r n) /\
      (forall r, os_fs (app_os a5) !! (sn ++ r) = fs2 !! (sn ++ r)) /\
      backed sn bn fs2 (os_fs (app_os a5)).
Proof.
  intros Halloc Hm1 Hm2 [Hr Ho Hst Hw1 P1 Hup] Hq Hfs Hready Hg Hz.
  pose proof (rd_walk _ _ _ _ _ Hready) as Hw2.
  destruct (poll_scan_reports Halloc a sn fs2 (rd_source _ _ _ _ _ Hready) Hw2 Hq Hfs fs1 previous [])
    as (current & a4 & E & P2 & [Hc4 Hs4 Hh4 Hr4 Ho4]); [by constructor|done..| |done|].
  { intros k d Hh (r & Hne & ->)%below_suffix. apply holds_at_entry in Hh as (n & He & _); [|done].
    destruct (Hg _ _ He) as (n' & (_ & Hn' & Hw') & _). eapply walk_links; [done| |done|by destruct n'].
    apply below_suffix. by exists r. }
  exists current, a4. split; [done|].
  destruct (grown_items sn fs1 fs2 previous current) as (l & El & Hl); [apply Hw1|apply Hw2|done..|].
  pose proof (pictures_size sn _ _ P1) as Z1. pose proof (pictures_size sn _ _ P2) as Z2.
  pose proof (changes_size previous current) as Z3. rewrite El in Hr4, Z3. rewrite zlen_map in Z3.
  assert (zlen l <= U64_MAX) as Hlen by lia.
  assert (length l <= size fs1 + size fs2)%nat as Hfuel by (unfold zlen in *; lia).
  assert (os_fs (app_os a4) = fs2) as Hf4 by (destruct Hh4 as [_ ->]; done).
  destruct (workers_save unknown a sn bn rn fs2 Hready snd (item_event a) false (item_event_plain a) (fresh bn fs2)
              (initial_total (app_stats a4)) l (size fs1 + size fs2) a4) as [Hone Hfin]; [done..| | | |done|done|].
  { rewrite map_map in Hr4. exact Hr4. }
  { constructor; [by eapply same_world_quiet| | |done..]; rewrite Hf4; [apply Hw2|]. intros k. by left. }
  { intros r n _ Hin. rewrite Hf4. by apply fresh_saved. }
  split; [exact Hone|]. intros a5 Hf.
  destruct (Hfin a5 Hf) as ([_ [Hq5 Ht5 Hb5 Hc5 Hs5] Hsv _ _] & Hr5 & Ho5). rewrite Ho4 in Ho5.
  assert (forall r n, entry sn fs2 r n -> saved bn fs2 (os_fs (app_os a5)) r n) as Hall.
  { intros r n He. apply Hsv; [done|].
    destruct (changed_or_fresh sn bn fs1 fs2 previous current fs2 r n) as [(i & Hi & Ei)|Hfr];
      [apply Hw1|apply Hw2|done..| |by rewrite <- Hfs|done| |by right].
    { intros n1 He1. destruct (Hg _ _ He1) as (n2 & (_ & Hn2 & _) & Hd). destruct He as (_ & Hn & _). congruence. }
    left. rewrite <- Ei. rewrite El in Hi. apply list_elem_of_fmap in Hi as (j & E' & Hj).
    apply list_elem_of_fmap. exists j. split; [|done]. f_equal. destruct (Hl _ Hj) as (r' & n' & (_ & Hn' & _) & Ej).
    destruct He as (_ & Hn & _). apply item_change_inj in E'; [done|rewrite Ei|rewrite Ej]; by eapply (wo_names _ _ Hw2). }
  split_and!; [|done..| |done].
  - constructor; try done. intros r n He. eapply saved_fresh. by apply Hall.
  - intros r. by eapply backed_source.
Qed.
End Claims.

(** ** An example *)

Definition grown_b (sn : ppath) (fs1 fs2 : fsmap) : bool :=
  check_keys (fun k n =>
    match strip_prefix sn k with
    | Some (_ :: _) =>
        negb (walkable n)
        || match fs2 !! k with Some n' => walkable n' && eqb (is_dir n') (is_dir n) | None => false end
    | _ => true
    end) fs1.

Definition up_to_date_b (sn bn : ppath) (fs1 fs : fsmap) : bool :=
  check_keys (fun k n =>
    match strip_prefix sn k, n with
    | Some r, NReg m x => negb (outdated m x (fs !! (bn ++ r)))
    | Some (y :: r), NDir _ => match fs !! (bn ++ y :: r) with Some (NDir _) => true | _ => false end
    | _, _ => true
    end) fs1.

Lemma grown_b_spec sn fs1 fs2 : grown_b sn fs1 fs2 = true -> grown sn fs1 fs2.
Proof.
  intros Hk r n (Hr & Hn & Hw). pose proof (check_keys_spec _ _ Hk (sn ++ r) n Hn) as P. cbv beta in P.
  rewrite strip_prefix_app, Hw in P. destruct r as [|y r]; [done|]. cbn [negb orb] in P.
  destruct (fs2 !! (sn ++ y :: r)) as [n'|] eqn:E; [|done]. apply andb_true_iff in P as [Hw' Hd%eqb_prop].
  by exists n'.
Qed.

Lemma up_to_date_b_spec sn bn fs1 fs : up_to_date_b sn bn fs1 fs = true -> up_to_date sn bn fs1 fs.
Proof.
  intros Hk r n (Hr & Hn & Hw). pose proof (check_keys_spec _ _ Hk (sn ++ r) n Hn) as P. cbv beta in P.
  rewrite strip_prefix_app in P. destruct n; try done.
  - destruct r; [done|]. by apply negb_true_iff in P.
  - destruct r as [|y r]; [done|]. cbn. destruct (fs !! (bn ++ y :: r)) as [[]|]; try done. by eexists.
Qed.

(** The source before the file of the directory [sub] was written and another was changed. *)
Definition earlier_fs : fsmap := list_to_map
  [ ([c!"data"], NDir root_meta);
    ([c!"data"; c!"changed.txt"], NReg example_meta (c!"short"));
    ([c!"data"; c!"same.txt"], NReg example_meta (c!"same")) ].
Definition earlier_host : os := Os earlier_fs E_OK (c!"/") 1000 0 7 10 [] [] None.

Example scan_keeps_backup_current_witness :
  let a := demo_app source_host in
  exists previous,
    settled [c!"data"] [c!"backup"] earlier_fs previous a /\
    exists current a4,
      poll_scan (fun _ => true) previous a = (current, a4) /\
      finished [] a4 (one_worker [] (size earlier_fs + size source_fs) a4) /\
      forall a5, finished [] a4 a5 ->
        settled [c!"data"] [c!"backup"] source_fs current a5 /\ quiet (app_os a5) /\
        (forall r n, entry [c!"data"] source_fs r n ->
           saved [c!"backup"] source_fs (os_fs (app_os a5)) r n) /\
        (forall r, os_fs (app_os a5) !! ([c!"data"] ++ r) = source_fs !! ([c!"data"] ++ r)) /\
        backed [c!"data"] [c!"backup"] source_fs (os_fs (app_os a5)).
Proof.
  assert (walk_ok earlier_fs [c!"data"]) as Hw by (apply walk_b_spec; by vm_compute).
  assert (buckets_allocated = true /\ forall s, entry_allocated s = true) as Hm by done.
  destruct (build_pictures Hm [c!"data"] earlier_fs earlier_host Hw)
    as (previous & s' & _ & P & _); [done..|].
  assert (settled [c!"data"] [c!"backup"] earlier_fs previous (demo_app source_host)) as Hs.
  { constructor; [apply init_represents|done|done|done|done|]. apply up_to_date_b_spec. by vm_compute. }
  exists previous. split; [exact Hs|].
  apply (scan_keeps_backup_current [] [c!"data"] [c!"backup"] [c!"restore"] earlier_fs source_fs previous
           (demo_app source_host)).
  - done.
  - done.
  - done.
  - exact Hs.
  - done.
  - reflexivity.
  - apply ready_b_spec; [by vm_compute|reflexivity|reflexivity|reflexivity|apply walk_b_spec; by vm_compute|].
    by split; intros [k [=]].
  - apply grown_b_spec. by vm_compute.
  - by vm_compute.
Defined.
