(* ===== verification/ChangeSpec.v ===== *)
(** * Any change of the source

    A turn of the polling watcher followed by the work of the workers, when files and
    directories were added, files modified and files deleted since the last turn: the
    backup is up to date with the source again, and the backups of the deleted files are
    in the restore area. *)

From S2P Require Import Prelude CString Paths Os OsFacts Platform Fs FsFacts CopyFacts Config ConfigFacts ConfigText FsTree FsTreeFacts Restore Queue QueueFacts AppState Log LogFacts App PlainFacts WalkFacts AppFacts LifeFacts SyncFacts Workers BackupFacts MovesFacts Examples Demo BackupSpec Snapshot SnapshotFacts PollFacts PollSpec MirrorSpec.

Section Edited.
Context (sn : ppath) (fs1 fs2 : fsmap).

(** What the source had in [fs1] and has no longer in [fs2]. *)
Definition gone_from (r : ppath) : Prop :=
  (exists n, entry sn fs1 r n) /\ ~ exists n, entry sn fs2 r n.

(** What the source had is still there, and of the same kind, or it was a file and is gone. *)
Definition edited : Prop :=
  forall r n, entry sn fs1 r n ->
    (exists n', entry sn fs2 r n' /\ is_dir n' = is_dir n) \/ (is_dir n = false /\ gone_from r).

(** The restore area has room for the backup of what is gone. *)
Record room (bn rn r : ppath) : Prop := Room {
  ro_free : fs2 !! (rn ++ r) = None;
  ro_parents : creatable fs2 (rn ++ removelast r);
  ro_areas : forall b, b = sn \/ b = bn \/ b = rn -> area fs2 b r;
}.

Context (Hedited : edited) (Hw1 : walk_ok fs1 sn) (Hw2 : walk_ok fs2 sn).

Lemma gone_is_file r : gone_from r -> exists m x, entry sn fs1 r (NReg m x).
Proof.
  intros [[n He] Hno]. pose proof He as (_ & _ & Hw).
  destruct n as [m x|m| |]; [by exists m, x| |done..].
  destruct (Hedited _ _ He) as [(n' & He' & _)|[Hd _]]; [|done]. exfalso. apply Hno. by exists n'.
Qed.

Lemma kept_kind r n n1 : entry sn fs2 r n -> entry sn fs1 r n1 -> is_dir n = is_dir n1.
Proof.
  intros He He1. destruct (Hedited _ _ He1) as [(n' & (_ & Hn' & _) & Hd)|[_ [_ Hno]]].
  - destruct He as (_ & Hn & _). congruence.
  - exfalso. apply Hno. by exists n.
Qed.

(** A file has nothing below it. *)
Lemma gone_antichain r r' : gone_from r -> gone_from r' -> r `prefix_of` r' -> r = r'.
Proof.
  intros (m & x & Hr & Hn & _)%gone_is_file [[n' (_ & Hn' & _)] _] [b ->].
  destruct b as [|z b' _] using rev_ind; [by rewrite app_nil_r|]. rewrite !app_assoc in Hn'.
  assert (dir_chain fs1 ((sn ++ r) ++ b')) as Hd by (eapply tree_chain; [apply Hw1|by eexists]).
  specialize (Hd (sn ++ r) b' eq_refl). apply is_dir_at_some in Hd as [mm Hd]; [congruence|].
  by destruct sn, r.
Qed.

(** Nor has what is gone. *)
Lemma gone_no_dir r b : gone_from r -> is_dir_at fs2 (sn ++ r ++ b) = false.
Proof.
  intros [[n (Hr & _)] Hno]. destruct (is_dir_at fs2 (sn ++ r ++ b)) eqn:E; [exfalso|done].
  apply (dir_at_chain _ _ (wo_tree _ _ Hw2)) in E. specialize (E (sn ++ r) b ltac:(by rewrite app_assoc)).
  apply is_dir_at_some in E as [m E]; [|by destruct sn, r]. apply Hno. by exists (NDir m).
Qed.

Lemma gone_no_entry r b : gone_from r ->
  is_dir_at fs2 (sn ++ r ++ b) = false /\ forall n, ~ entry sn fs2 (r ++ b) n.
Proof.
  intros Hg. split; [by apply gone_no_dir|]. intros n He.
  destruct b as [|z b _] using rev_ind; [rewrite app_nil_r in He; destruct Hg as [_ Hno]; apply Hno; by exists n|].
  destruct He as (_ & Hn & _). rewrite !app_assoc in Hn.
  assert (dir_chain fs2 ((sn ++ r) ++ b)) as Hd by (eapply tree_chain; [apply Hw2|by eexists]).
  specialize (Hd _ [] ltac:(by rewrite app_nil_r)). rewrite <- app_assoc, gone_no_dir in Hd; done.
Qed.

(** What a backup that is up to date with the old source holds of a file that is gone. *)
Lemma gone_backup bn r : up_to_date sn bn fs1 fs2 -> gone_from r ->
  exists n, fs2 !! (bn ++ r) = Some n /\ is_dir n = false.
Proof.
  intros Hup (m & x & He)%gone_is_file. specialize (Hup _ _ He). cbn in Hup. unfold outdated in Hup.
  destruct (fs2 !! (bn ++ r)) as [n|]; [|done]. exists n. split; [done|].
  by apply orb_false_iff in Hup as [[? _]%orb_false_iff _].
Qed.

Lemma gone_removable bn rn r :
  up_to_date sn bn fs1 fs2 -> gone_from r -> room bn rn r -> removable sn bn rn fs2 r.
Proof.
  intros Hup Hg [Hf Hp Ha]. constructor; [by eapply gone_backup|done|done| |done].
  by destruct Hg as [[n (Hr & _)] _].
Qed.

(** No symbolic link is on the way to what the source had. *)
Lemma edited_links bn rn r n :
  (forall p, gone_from p -> room bn rn p) -> entry sn fs1 r n -> no_links fs2 (sn ++ r).
Proof.
  intros Hroom He. pose proof He as (Hr & _ & _). destruct (Hedited _ _ He) as [(n' & (_ & Hn' & Hw') & _)|[_ Hg]].
  - eapply walk_links; [done| |done|by destruct n']. apply below_suffix. by exists r.
  - apply (ro_areas _ _ _ (Hroom r Hg) sn). by left.
Qed.

(** ** The events of such a scan *)

Definition gone_change (r : ppath) : change := (SYSEBA_EVENT_DELETE, render (sn ++ r), false).
Definition job_change (j : ppath + item) : change :=
  match j with inl r => gone_change r | inr i => item_change i end.

(** What a job is about. *)
Definition job_ok (j : ppath + item) : Prop :=
  match j with
  | inl r => gone_from r
  | inr i => exists r n, entry sn fs2 r n /\ snd i = (sn ++ r, is_dir n)
  end.

Lemma edited_change s1 s2 c :
  pictures fs1 sn s1 -> pictures fs2 sn s2 -> c ∈ changes s1 s2 -> exists j, c = job_change j /\ job_ok j.
Proof.
  intros P1 P2. destruct c as [[kind p] d].
  intros (k & -> & (r & Hr & ->)%below_suffix & Hrep)%(changes_reported sn fs1 fs2);
    [|apply Hw1|apply Hw2|done..]. destruct kind; cbn in Hrep.
  - destruct Hrep as [(n & He & <-)%holds_at_entry _]; [|done]. exists (inr (false, (sn ++ r, is_dir n))).
    split; [done|]. by exists r, n.
  - destruct Hrep as (-> & n1 & n2 & _ & Hn & _ & Hreg & _). exists (inr (true, (sn ++ r, false))). split; [done|].
    exists r, n2. split; [|by destruct n2]. split_and!; [done..|]. unfold walkable. by rewrite Hreg, orb_true_r.
  - destruct Hrep as [(n & He & Hd)%holds_at_entry Hno]; [|done].
    assert (gone_from r) as Hg.
    { split; [by exists n|]. intros (n2 & He2). apply Hno. exists (is_dir n2).
      apply holds_at_entry; [done|]. by exists n2. }
    exists (inl r). split; [|done]. destruct (gone_is_file r Hg) as (m & x & _ & Hx & _).
    destruct He as (_ & He & _). rewrite Hx in He. injection He as <-. by subst d.
Qed.

Lemma gone_changed s1 s2 r :
  pictures fs1 sn s1 -> pictures fs2 sn s2 -> gone_from r -> gone_change r ∈ changes s1 s2.
Proof.
  intros P1 P2 Hg. destruct (gone_is_file r Hg) as (m & x & He).
  pose proof He as (Hr & _). apply (changes_reported sn fs1 fs2); [apply Hw1|apply Hw2|done..|].
  exists (sn ++ r). split; [done|]. split; [apply below_suffix; by exists r|].
  split; [apply holds_at_entry; [done|]; by exists (NReg m x)|].
  intros (d & (n2 & He2 & _)%holds_at_entry); [|done]. destruct Hg as [_ Hg]. apply Hg. by exists n2.
Qed.

Lemma job_names j : job_ok j ->
  Forall path_name (match j with inl r => sn ++ r | inr i => fst (snd i) end).
Proof.
  destruct j as [r|i]; cbn.
  - intros (m & x & _ & Hn & _)%gone_is_file. by eapply (wo_names _ _ Hw1).
  - intros (r & n & (_ & Hn & _) & ->). by eapply (wo_names _ _ Hw2).
Qed.

Lemma job_change_inj j j' : job_ok j -> job_ok j' -> job_change j = job_change j' -> j = j'.
Proof.
  intros Hj%job_names Hj'%job_names E. destruct j as [r|i], j' as [r'|i']; cbn in *.
  - injection E as E. apply render_inj in E; [|done..]. apply app_inv_head in E. by subst.
  - by destruct i' as [[] []].
  - by destruct i as [[] []].
  - f_equal. by apply item_change_inj.
Qed.

(** The jobs of the workers. *)
Lemma edited_jobs s1 s2 :
  pictures fs1 sn s1 -> pictures fs2 sn s2 ->
  exists l, changes s1 s2 = map job_change l /\ (forall j, j ∈ l -> job_ok j) /\ NoDup (deletions l) /\
    (forall j, job_ok j -> job_change j ∈ changes s1 s2 -> j ∈ l).
Proof.
  intros P1 P2. destruct (map_preimage job_change job_ok (changes s1 s2)) as (l & E & Hl).
  { intros c. by apply edited_change. }
  rewrite Forall_forall in Hl. exists l. split_and!; [done..| |].
  - assert (NoDup (changes s1 s2)) as Hd by (apply changes_nodup; [apply P1|apply P2]).
    rewrite E in Hd. apply deletions_nodup. by eapply NoDup_fmap_1.
  - intros j Hj Hin. rewrite E in Hin. apply list_elem_of_fmap in Hin as (j' & Ej & Hin).
    apply job_change_inj in Ej as ->; auto.
Qed.
End Edited.

Section Claims.
Context `{DirOrder} `{SnapshotMemory} `{LocalStamp} `{Strerror} `{Clock}.
Context `{!Allocator syseba_event_t} `{!Allocator syseba_log_record_t}.

Lemma job_events a sn l :
  map (change_event a) (map (job_change sn) l)
  = map (job_event (fun r => change_event a (gone_change sn r)) (item_event a)) l.
Proof. rewrite map_map. apply map_ext. by intros []. Qed.

(** Where the watcher finds no change, the backup is as it was. *)
Lemma nothing_else_changed sn bn fs1 fs2 s1 s2 (l : list (ppath + item)) r n :
  edited sn fs1 fs2 -> walk_ok fs1 sn -> walk_ok fs2 sn ->
  pictures fs1 sn s1 -> pictures fs2 sn s2 -> up_to_date sn bn fs1 fs2 ->
  (forall j, job_ok sn fs1 fs2 j -> job_change sn j ∈ changes s1 s2 -> j ∈ l) -> entry sn fs2 r n ->
  (exists i : item, inr i ∈ l /\ snd i = (sn ++ r, is_dir n)) \/ fresh bn fs2 r n.
Proof.
  intros Hed Hw1 Hw2 P1 P2 Hup Hl He.
  destruct (changed_or_fresh sn bn fs1 fs2 s1 s2 fs2 r n) as [(i & Hi & Ei)|Hf];
    [apply Hw1|apply Hw2|done..|by intros n1; apply (kept_kind sn fs1 fs2)|done|done| |by right].
  left. exists i. split; [|done]. apply Hl; [by exists r, n|done].
Qed.

(** A turn, with what the claims need of it. *)
Lemma scan_applies unknown sn bn rn fs1 fs2 previous v a :
  (forall h, @alloc_node syseba_event_t _ h <> None) ->
  buckets_allocated = true -> (forall s, entry_allocated s = true) ->
  settled sn bn fs1 previous a -> quiet (app_os a) -> os_fs (app_os a) = fs2 ->
  backup_ready sn bn rn fs2 (app_config a) -> apart sn rn -> apart bn rn ->
  is_dir_at fs2 rn = true -> one_device v fs2 ->
  edited sn fs1 fs2 -> (forall r, gone_from sn fs1 fs2 r -> room sn fs2 bn rn r) ->
  Z.of_nat (size fs1) + Z.of_nat (size fs2) <= U64_MAX ->
  exists current a4,
    poll_scan (fun _ => true) previous a = (current, a4) /\
    finished unknown a4 (one_worker unknown (size fs1 + size fs2) a4) /\
    forall a5, finished unknown a4 a5 ->
      settled sn bn fs2 current a5 /\ quiet (app_os a5) /\ app_config a5 = app_config a /\
      (forall r n, entry sn fs2 r n -> saved bn fs2 (os_fs (app_os a5)) r n) /\
      (forall r, gone_from sn fs1 fs2 r ->
         (exists n, fs2 !! (bn ++ r) = Some n /\ os_fs (app_os a5) !! (rn ++ r) = Some n) /\
         os_fs (app_os a5) !! (bn ++ r) = None) /\
      (forall r, os_fs (app_os a5) !! (sn ++ r) = fs2 !! (sn ++ r)) /\
      (forall k, (forall r, gone_from sn fs1 fs2 r -> k <> bn ++ r /\ k <> rn ++ r) ->
         as_left sn bn rn fs2 (gone_from sn fs1 fs2) (os_fs (app_os a5)) k).
Proof.
  intros Halloc Hm1 Hm2 [Hr Ho Hst Hw1 P1 Hup] Hq Hfs Hready Hsr Hbr Hroot Hdev Hed Hroom Hz.
  rewrite Hfs in Hup. pose proof (rd_walk _ _ _ _ _ Hready) as Hw2.
  destruct (poll_scan_reports Halloc a sn fs2 (rd_source _ _ _ _ _ Hready) Hw2 Hq Hfs fs1 previous [])
    as (current & a4 & E & P2 & [Hc4 Hs4 Hh4 Hr4 Ho4]); [by constructor|done..| |done|].
  { intros k d Hh (r & Hne & ->)%below_suffix. apply holds_at_entry in Hh as (n & He & _); [|done].
    by apply (edited_links sn fs1 fs2 Hed Hw2 bn rn r n). }
  exists current, a4. split; [done|].
  destruct (edited_jobs sn fs1 fs2 Hed Hw1 Hw2 previous current P1 P2) as (l & El & Hok & Hnd & Hin).
  pose proof (pictures_size sn _ _ P1) as Z1. pose proof (pictures_size sn _ _ P2) as Z2.
  pose proof (changes_size previous current) as Z3. rewrite El in Hr4, Z3. rewrite zlen_map in Z3.
  assert (zlen l <= U64_MAX) as Hlen by lia.
  assert (length l <= size fs1 + size fs2)%nat as Hfuel by (unfold zlen in *; lia).
  assert (os_fs (app_os a4) = fs2) as Hf4 by (destruct Hh4 as [_ ->]; done).
  cbn [app] in Hr4. rewrite job_events in Hr4.
  pose proof (gone_no_entry sn fs1 fs2 Hw1 Hw2) as Hno.
  destruct (workers_mixed sn bn rn fs2 a (rd_apart _ _ _ _ _ Hready) Hsr Hbr (gone_from sn fs1 fs2)
              (fun r Hg => gone_removable sn fs1 fs2 Hed bn rn r Hup Hg (Hroom r Hg))
              (gone_antichain sn fs1 fs2 Hed Hw1 Hw2) Hno unknown
              (fun r => change_event a (gone_change sn r)) snd (item_event a) (fun r => conj eq_refl eq_refl)
              (item_event_plain a) (fresh bn fs2) v l (size fs1 + size fs2) a4) as [Hone Hfin]; [done..| |].
  { apply mixing_start; rewrite ?Hf4; try done; [by eapply same_world_quiet|by intros r Hi; apply (Hok (inl r))|by intros i Hi; apply (Hok (inr i))|].
    intros r n _ Hf. by apply fresh_saved. }
  split; [exact Hone|]. intros a5 Hf. destruct (Hfin a5 Hf) as (Hmix & Hr5 & Ho5). rewrite Ho4 in Ho5.
  destruct (mixing_outcome sn bn rn fs2 a (rd_apart _ _ _ _ _ Hready) Hsr Hbr _ Hno snd _ v l a5 Hmix)
    as (Hq5 & Hc5 & Hs5 & Hmoved & Hsrc & Hrest).
  assert (forall r, inl r ∈ l <-> gone_from sn fs1 fs2 r) as Hgl.
  { intros r. split; [apply (Hok (inl r))|]. intros Hg. apply Hin; [done|].
    by apply (gone_changed sn fs1 fs2 Hed Hw1 Hw2). }
  assert (forall r n, entry sn fs2 r n -> saved bn fs2 (os_fs (app_os a5)) r n) as Hall.
  { intros r n He. apply (mx_saved _ _ _ _ _ _ _ _ _ _ _ _ Hmix r n He).
    by apply (nothing_else_changed sn bn fs1 fs2 previous current). }
  split_and!; [|done..| |done|].
  - constructor; try done. intros r n He. eapply saved_fresh. by apply Hall.
  - intros r Hg. destruct (Hmoved r) as [Hb Hr']; [by apply Hgl|]. split; [|done].
    destruct (gone_backup sn fs1 fs2 Hed bn r Hup Hg) as (n & Hn & _). exists n. split; [done|congruence].
  - intros k Hk. apply Hrest. intros r Hin'%Hgl. by apply Hk.
Qed.
(** C2: between two turns of the polling watcher the backup is up to
    date with the picture of the source that the watcher holds, and a turn keeps it so. On
    a quiet host, let files and directories have been added to the source, files modified
    and files deleted since the last turn; the restore area has room for the deleted files.
    A scan and then the workers, however many and in whatever order, bring every new or
    changed file and every new directory into the backup, the files with their bytes, mode
    bits and time, and move the backup of every deleted file, as it is, to its name in the
    restore area. The source is as it was, and every other location too but for the copies
    and for new directories above them and above the moved files. One worker alone does
    finish. *)
Theorem scan_applies_changes unknown sn bn rn fs1 fs2 previous v a :
  (forall h, @alloc_node syseba_event_t _ h <> None) ->
  buckets_allocated = true -> (forall s, entry_allocated s = true) ->
  settled sn bn fs1 previous a -> quiet (app_os a) -> os_fs (app_os a) = fs2 ->
  backup_ready sn bn rn fs2 (app_config a) -> apart sn rn -> apart bn rn ->
  is_dir_at fs2 rn = true -> one_device v fs2 ->
  edited sn fs1 fs2 -> (forall r, gone_from sn fs1 fs2 r -> room sn fs2 bn rn r) ->
  Z.of_nat (size fs1) + Z.of_nat (size fs2) <= U64_MAX ->
  exists current a4,
    poll_scan (fun _ => true) previous a = (current, a4) /\
    finished unknown a4 (one_worker unknown (size fs1 + size fs2) a4) /\
    forall a5, finished unknown a4 a5 ->
      settled sn bn fs2 current a5 /\ quiet (app_os a5) /\
      (forall r n, entry sn fs2 r n -> saved bn fs2 (os_fs (app_os a5)) r n) /\
      (forall r, gone_from sn fs1 fs2 r ->
         (exists n, fs2 !! (bn ++ r) = Some n /\ os_fs (app_os a5) !! (rn ++ r) = Some n) /\
         os_fs (app_os a5) !! (bn ++ r) = None) /\
      (forall r, os_fs (app_os a5) !! (sn ++ r) = fs2 !! (sn ++ r)) /\
      (forall k, (forall r, gone_from sn fs1 fs2 r -> k <> bn ++ r /\ k <> rn ++ r) ->
         as_left sn bn rn fs2 (gone_from sn fs1 fs2) (os_fs (app_os a5)) k).
Proof.
  intros. destruct (scan_applies unknown sn bn rn fs1 fs2 previous v a) as (current & a4 & E & Hone & Hfin); [done..|].
  exists current, a4. split_and!; [done..|]. intros a5 Hf. by destruct (Hfin a5 Hf) as (? & ? & _ & ?).
Qed.

(** ** Turn after turn *)

(** What other programs may do between two turns.  They may add files and directories to the
    source, modify files and delete files ([edited]).  They may not delete a directory of the
    source, nor turn a file into a directory or a directory into a file; they may not touch
    the backup, nor take the name in the restore area of a file that they delete; the source
    stays free of links and of names that are too long ([backup_ready]), everything is on
    one device, and no call fails.  What lies outside the three areas is free.  Without the
    first of these limits the service does not keep its promise: see [type_change_unseen]
    of PollSpec and [deleted_directory_scatters] below. *)
Record allowed (sn bn rn : ppath) (v : Z) (fs1 : fsmap) (a : syseba_app_t) (s : os) : Prop := Allowed {
  al_quiet : quiet s;
  al_backup : forall r, os_fs s !! (bn ++ r) = os_fs (app_os a) !! (bn ++ r);
  al_ready : backup_ready sn bn rn (os_fs s) (app_config a);
  al_root : is_dir_at (os_fs s) rn = true;
  al_device : one_device v (os_fs s);
  al_edited : edited sn fs1 (os_fs s);
  al_room : forall r, gone_from sn fs1 (os_fs s) r -> room sn (os_fs s) bn rn r;
  al_size : Z.of_nat (size fs1) + Z.of_nat (size (os_fs s)) <= U64_MAX;
}.

(** The source that the watcher has seen, its picture, and the application: a turn is such
    a change, a scan, and the workers until they have finished. *)
Inductive mirror_turn (unknown : cstr) (sn bn rn : ppath) (v : Z) :
    fsmap * syseba_snapshot_t * syseba_app_t -> fsmap * syseba_snapshot_t * syseba_app_t -> Prop :=
  | Mirror_turn fs1 previous a s current a4 a5 :
      allowed sn bn rn v fs1 a s ->
      poll_scan (fun _ => true) previous (with_os s a) = (current, a4) -> finished unknown a4 a5 ->
      mirror_turn unknown sn bn rn v (fs1, previous, a) (os_fs s, current, a5).

Section Turns.
Context (unknown : cstr) (sn bn rn : ppath) (v : Z).
Context (Halloc : forall h, @alloc_node syseba_event_t _ h <> None).
Context (Hmemory : buckets_allocated = true /\ forall s, entry_allocated s = true).
Context (Hsr : apart sn rn) (Hbr : apart bn rn).

Lemma turn_applies fs1 previous a s :
  settled sn bn fs1 previous a -> allowed sn bn rn v fs1 a s ->
  exists current a4,
    poll_scan (fun _ => true) previous (with_os s a) = (current, a4) /\
    (exists a5, finished unknown a4 a5) /\
    forall a5, finished unknown a4 a5 ->
      settled sn bn (os_fs s) current a5 /\
      (forall r, gone_from sn fs1 (os_fs s) r -> os_fs (app_os a5) !! (rn ++ r) = os_fs (app_os a) !! (bn ++ r)).
Proof.
  intros Hs [Hq Hb Hr Hroot Hd He Hroom Hz]. destruct Hmemory as [Hm1 Hm2].
  destruct (scan_applies unknown sn bn rn fs1 (os_fs s) previous v (with_os s a))
    as (current & a4 & E & Hone & Hfin); try done; [by apply settled_edit|].
  exists current, a4. split_and!; [done|by eexists|]. intros a5 Hf.
  destruct (Hfin a5 Hf) as (Hs5 & _ & _ & _ & Hg & _). split; [done|]. intros r Hgr.
  destruct (Hg r Hgr) as [(n & Hn & Hn') _]. by rewrite Hn', <- Hb, Hn.
Qed.
End Turns.

(** C3: as long as other programs only add files and directories to the
    source, modify its files and delete its files, the backup stays current.  From a
    state in which the backup is up to date with what the polling watcher has seen, every
    sequence of turns, each of them an allowed change of the host, a
    scan, and the work of any number of workers in any order, ends in such a state; and
    there, whatever allowed change comes next, a turn follows in which the workers finish,
    and after which the restore area has the backup of every file that was deleted.  Not
    [allowed]: a file that becomes a directory or a directory that becomes a file, the
    deletion of a directory, any change of the backup by others, a taken name in the restore
    area, links in the source, a failing call, several devices. *)
Theorem stays_current unknown sn bn rn v fs1 previous a fs' previous' a' :
  (forall h, @alloc_node syseba_event_t _ h <> None) ->
  buckets_allocated = true /\ (forall s, entry_allocated s = true) ->
  apart sn rn -> apart bn rn -> settled sn bn fs1 previous a ->
  rtc (mirror_turn unknown sn bn rn v) (fs1, previous, a) (fs', previous', a') ->
  settled sn bn fs' previous' a' /\
  forall s, allowed sn bn rn v fs' a' s ->
    (exists st, mirror_turn unknown sn bn rn v (fs', previous', a') st) /\
    forall fs'' current a'', mirror_turn unknown sn bn rn v (fs', previous', a') (fs'', current, a'') ->
      forall r, gone_from sn fs' fs'' r -> os_fs (app_os a'') !! (rn ++ r) = os_fs (app_os a') !! (bn ++ r).
Proof.
  intros Halloc Hm Hsr Hbr Hs Hsteps.
  assert (settled sn bn fs' previous' a') as Hs'.
  { remember (fs1, previous, a) as st eqn:E. remember (fs', previous', a') as st' eqn:E'.
    revert fs1 previous a Hs E. induction Hsteps as [|st st2 st' Hstep _ IH]; intros fs1 previous a Hs ->; [by simplify_eq|].
    inversion Hstep as [? ? ? s current a4 a5 Ha E Hf]; subst.
    destruct (turn_applies unknown sn bn rn v Halloc Hm Hsr Hbr fs1 previous a s Hs Ha) as (c & b & E2 & _ & Hfin).
    rewrite E in E2. injection E2 as <- <-. by eapply IH; [|apply Hfin|]. }
  split; [done|]. intros s Ha.
  pose proof (turn_applies unknown sn bn rn v Halloc Hm Hsr Hbr fs' previous' a') as Hturn. split.
  - destruct (Hturn s Hs' Ha) as (c & b & E & (a5 & Hf) & _). eexists. by econstructor.
  - intros fs'' current a'' Hstep r. inversion Hstep as [? ? ? s2 ? a4 ? Ha2 E Hf]; subst.
    destruct (Hturn s2 Hs' Ha2) as (c & b & E2 & _ & Hfin). rewrite E in E2. injection E2 as <- <-.
    by apply Hfin.
Qed.
End Claims.

(** ** An example *)

Definition edited_b (sn : ppath) (fs1 fs2 : fsmap) : bool :=
  check_keys (fun k n =>
    match strip_prefix sn k with
    | Some (_ :: _) =>
        negb (walkable n)
        || match fs2 !! k with
           | Some n' => walkable n' && eqb (is_dir n') (is_dir n)
           | None => negb (is_dir n)
           end
    | _ => true
    end) fs1.

Lemma edited_b_spec sn fs1 fs2 : edited_b sn fs1 fs2 = true -> edited sn fs1 fs2.
Proof.
  intros Hk r n He. pose proof He as (Hr & Hn & Hw).
  pose proof (check_keys_spec _ _ Hk (sn ++ r) n Hn) as P. cbv beta in P.
  rewrite strip_prefix_app, Hw in P. destruct r as [|y r]; [done|]. cbn [negb orb] in P.
  destruct (fs2 !! (sn ++ y :: r)) as [n'|] eqn:E; [left|right].
  - apply andb_true_iff in P as [Hw' Hd%eqb_prop]. by exists n'.
  - apply negb_true_iff in P. split; [done|]. split; [by exists n|]. intros (n' & _ & Hn' & _). congruence.
Qed.

Definition room_b (sn bn rn : ppath) (fs1 fs2 : fsmap) : bool :=
  check_keys (fun k n =>
    match strip_prefix sn k with
    | Some (y :: r) =>
        match fs2 !! k with
        | Some n2 => walkable n2
        | None =>
            match fs2 !! (rn ++ y :: r) with Some _ => false | None => true end
            && creatable_b fs2 (rn ++ removelast (y :: r))
            && area_b fs2 sn (y :: r) && area_b fs2 bn (y :: r) && area_b fs2 rn (y :: r)
        end
    | _ => true
    end) fs1.

Lemma room_b_spec sn bn rn fs1 fs2 r :
  room_b sn bn rn fs1 fs2 = true -> gone_from sn fs1 fs2 r -> room sn fs2 bn rn r.
Proof.
  intros Hk [(n & Hr & Hn & Hw) Hno]. pose proof (check_keys_spec _ _ Hk (sn ++ r) n Hn) as P. cbv beta in P.
  rewrite strip_prefix_app in P. destruct r as [|y r]; [done|].
  destruct (fs2 !! (sn ++ y :: r)) as [n2|] eqn:E; [exfalso; apply Hno; by exists n2|]. bool_hyps.
  constructor; [by destruct (fs2 !! (rn ++ y :: r))|by apply creatable_b_spec|].
  intros b [-> | [-> | ->]]; by apply area_b_spec.
Qed.

Definition same_below_b (b : ppath) (fs fs' : fsmap) : bool :=
  check_keys (fun k n => match strip_prefix b k with Some _ => bool_decide (fs' !! k = Some n) | None => true end) fs
  && check_keys (fun k n => match strip_prefix b k with Some _ => bool_decide (fs !! k = Some n) | None => true end) fs'.

Lemma same_below_b_spec b fs fs' r : same_below_b b fs fs' = true -> fs !! (b ++ r) = fs' !! (b ++ r).
Proof.
  intros [H1 H2]%andb_true_iff. destruct (fs !! (b ++ r)) as [n|] eqn:E.
  - pose proof (check_keys_spec _ _ H1 _ _ E) as P. cbv beta in P. rewrite strip_prefix_app in P.
    by apply bool_decide_eq_true in P.
  - destruct (fs' !! (b ++ r)) as [n|] eqn:E'; [|done]. pose proof (check_keys_spec _ _ H2 _ _ E') as P.
    cbv beta in P. rewrite strip_prefix_app in P. apply bool_decide_eq_true in P. congruence.
Qed.

(** A file was written in a new directory, another was changed, and one was deleted. *)
Definition before_fs : fsmap := list_to_map
  [ ([c!"data"], NDir root_meta);
    ([c!"data"; c!"changed.txt"], NReg example_meta (c!"short"));
    ([c!"data"; c!"same.txt"], NReg example_meta (c!"same"));
    ([c!"data"; c!"old"], NDir root_meta);
    ([c!"data"; c!"old"; c!"gone.txt"], NReg example_meta (c!"gone"));
    ([c!"backup"], NDir root_meta);
    ([c!"backup"; c!"changed.txt"], NReg example_meta (c!"short"));
    ([c!"backup"; c!"same.txt"], NReg example_meta (c!"same"));
    ([c!"backup"; c!"old"], NDir root_meta);
    ([c!"backup"; c!"old"; c!"gone.txt"], NReg example_meta (c!"gone"));
    ([c!"restore"], NDir root_meta) ].
Definition now_fs : fsmap := list_to_map
  [ ([c!"data"], NDir root_meta);
    ([c!"data"; c!"sub"], NDir root_meta);
    ([c!"data"; c!"sub"; c!"new.txt"], NReg example_meta (c!"new"));
    ([c!"data"; c!"changed.txt"], NReg example_meta (c!"longer"));
    ([c!"data"; c!"same.txt"], NReg example_meta (c!"same"));
    ([c!"data"; c!"old"], NDir root_meta);
    ([c!"backup"], NDir root_meta);
    ([c!"backup"; c!"changed.txt"], NReg example_meta (c!"short"));
    ([c!"backup"; c!"same.txt"], NReg example_meta (c!"same"));
    ([c!"backup"; c!"old"], NDir root_meta);
    ([c!"backup"; c!"old"; c!"gone.txt"], NReg example_meta (c!"gone"));
    ([c!"restore"], NDir root_meta) ].
Definition host_with (fs : fsmap) : os := Os fs E_OK (c!"/") 1000 0 7 10 [] [] None.

Example scan_applies_changes_witness :
  exists previous current a4,
    poll_scan (fun _ => true) previous (demo_app (host_with now_fs)) = (current, a4) /\
    finished [] a4 (one_worker [] (size before_fs + size now_fs) a4) /\
    forall a5, finished [] a4 a5 ->
      settled [c!"data"] [c!"backup"] now_fs current a5 /\ quiet (app_os a5) /\
      (forall r n, entry [c!"data"] now_fs r n -> saved [c!"backup"] now_fs (os_fs (app_os a5)) r n) /\
      (forall r, gone_from [c!"data"] before_fs now_fs r ->
         (exists n, now_fs !! ([c!"backup"] ++ r) = Some n /\
            os_fs (app_os a5) !! ([c!"restore"] ++ r) = Some n) /\
         os_fs (app_os a5) !! ([c!"backup"] ++ r) = None) /\
      (forall r, os_fs (app_os a5) !! ([c!"data"] ++ r) = now_fs !! ([c!"data"] ++ r)) /\
      (forall k, (forall r, gone_from [c!"data"] before_fs now_fs r ->
           k <> [c!"backup"] ++ r /\ k <> [c!"restore"] ++ r) ->
         as_left [c!"data"] [c!"backup"] [c!"restore"] now_fs (gone_from [c!"data"] before_fs now_fs)
           (os_fs (app_os a5)) k).
Proof.
  assert (walk_ok before_fs [c!"data"]) as Hw by (apply walk_b_spec; by vm_compute).
  assert (buckets_allocated = true /\ forall s, entry_allocated s = true) as Hm by done.
  destruct (build_pictures Hm [c!"data"] before_fs (host_with before_fs) Hw) as (previous & s' & _ & P & _); [done..|].
  exists previous.
  apply (scan_applies_changes [] [c!"data"] [c!"backup"] [c!"restore"] before_fs now_fs previous 0
           (demo_app (host_with now_fs))).
  - done.
  - done.
  - done.
  - constructor; [apply init_represents|done|done|done|done|]. apply up_to_date_b_spec. by vm_compute.
  - done.
  - reflexivity.
  - apply ready_b_spec; [by vm_compute|reflexivity|reflexivity|reflexivity|apply walk_b_spec; by vm_compute|].
    by split; intros [k [=]].
  - by split; intros [k [=]].
  - by split; intros [k [=]].
  - reflexivity.
  - apply device_b_spec. by vm_compute.
  - apply edited_b_spec. by vm_compute.
  - intros r. apply room_b_spec. by vm_compute.
  - by vm_compute.
Defined.

Lemma now_allowed : allowed [c!"data"] [c!"backup"] [c!"restore"] 0 before_fs (demo_app (host_with before_fs)) (host_with now_fs).
Proof.
  constructor; [done| | |done|apply device_b_spec; by vm_compute|apply edited_b_spec; by vm_compute| |by vm_compute].
  - intros r. apply (same_below_b_spec [c!"backup"] now_fs before_fs). by vm_compute.
  - apply ready_b_spec; [by vm_compute|reflexivity|reflexivity|reflexivity|apply walk_b_spec; by vm_compute|].
    by split; intros [k [=]].
  - intros r. apply room_b_spec. by vm_compute.
Qed.

(** One turn, and what it keeps. *)
Example stays_current_witness :
  exists previous current a5,
    mirror_turn [] [c!"data"] [c!"backup"] [c!"restore"] 0 (before_fs, previous, demo_app (host_with before_fs))
      (now_fs, current, a5) /\
    settled [c!"data"] [c!"backup"] now_fs current a5 /\
    forall s, allowed [c!"data"] [c!"backup"] [c!"restore"] 0 now_fs a5 s ->
      (exists st, mirror_turn [] [c!"data"] [c!"backup"] [c!"restore"] 0 (now_fs, current, a5) st) /\
      forall fs'' current' a'',
        mirror_turn [] [c!"data"] [c!"backup"] [c!"restore"] 0 (now_fs, current, a5) (fs'', current', a'') ->
        forall r, gone_from [c!"data"] now_fs fs'' r ->
          os_fs (app_os a'') !! ([c!"restore"] ++ r) = os_fs (app_os a5) !! ([c!"backup"] ++ r).
Proof.
  assert (walk_ok before_fs [c!"data"]) as Hw by (apply walk_b_spec; by vm_compute).
  assert (buckets_allocated = true /\ forall s, entry_allocated s = true) as Hm by done.
  assert (apart [c!"data"] [c!"restore"]) as Hsr by (by split; intros [k [=]]).
  assert (apart [c!"backup"] [c!"restore"]) as Hbr by (by split; intros [k [=]]).
  destruct (build_pictures Hm [c!"data"] before_fs (host_with before_fs) Hw) as (previous & s' & _ & P & _); [done..|].
  assert (settled [c!"data"] [c!"backup"] before_fs previous (demo_app (host_with before_fs))) as Hs.
  { constructor; [apply init_represents|done|done|done|done|]. apply up_to_date_b_spec. by vm_compute. }
  assert (forall h, @alloc_node syseba_event_t _ h <> None) as Hn by done.
  destruct (turn_applies [] [c!"data"] [c!"backup"] [c!"restore"] 0 Hn Hm Hsr Hbr before_fs previous
              (demo_app (host_with before_fs)) (host_with now_fs) Hs now_allowed)
    as (current & a4 & E & (a5 & Hf) & _).
  assert (mirror_turn [] [c!"data"] [c!"backup"] [c!"restore"] 0 (before_fs, previous, demo_app (host_with before_fs))
            (now_fs, current, a5)) as Ht by (eapply (Mirror_turn [] _ _ _ _ _ _ _ (host_with now_fs)); [apply now_allowed|exact E|exact Hf]).
  exists previous, current, a5. split; [exact Ht|].
  apply (stays_current [] [c!"data"] [c!"backup"] [c!"restore"] 0 before_fs previous (demo_app (host_with before_fs))
           now_fs current a5).
  - done.
  - done.
  - exact Hsr.
  - exact Hbr.
  - exact Hs.
  - by apply rtc_once.
Defined.

(** The same, run with one worker. *)
Example changes_run :
  let previous := snd (value (syseba_snapshot_build (c!"/data")) (host_with before_fs)) in
  let a := one_worker [] 9 (exec (poll_scan (fun _ => true) previous) (demo_app (host_with now_fs))) in
  gone_from [c!"data"] before_fs now_fs [c!"old"; c!"gone.txt"] /\
  os_fs (app_os a) !! [c!"restore"; c!"old"; c!"gone.txt"] = Some (NReg example_meta (c!"gone")) /\
  copied (app_stats a) = 1 /\ updated (app_stats a) = 1 /\ deleted (app_stats a) = 1 /\ errors (app_stats a) = 0.
Proof.
  split; [|by vm_compute]. split; [exists (NReg example_meta (c!"gone")); by vm_compute|].
  by intros (n & _ & Hn & _).
Qed.

(** ** A directory that is deleted *)

(** The theorem above is about files. When a directory is deleted, the order of the
    events is that of the snapshot's table, in which a directory may come between its
    files. The files that come before it are moved to their names in the restore area;
    then the directory finds its name taken, and moves, with the files that are left, to
    a name with a time stamp. So the files of one directory end in two. *)
Definition with_trip_fs : fsmap := list_to_map
  [ ([c!"data"], NDir root_meta);
    ([c!"data"; c!"trip"], NDir root_meta);
    ([c!"data"; c!"trip"; c!"1.jpg"], NReg example_meta (c!"one"));
    ([c!"data"; c!"trip"; c!"2.jpg"], NReg example_meta (c!"two"));
    ([c!"data"; c!"trip"; c!"3.jpg"], NReg example_meta (c!"three")) ].
Definition without_trip_fs : fsmap := list_to_map
  [ ([c!"data"], NDir root_meta);
    ([c!"backup"], NDir root_meta);
    ([c!"backup"; c!"trip"], NDir root_meta);
    ([c!"backup"; c!"trip"; c!"1.jpg"], NReg example_meta (c!"one"));
    ([c!"backup"; c!"trip"; c!"2.jpg"], NReg example_meta (c!"two"));
    ([c!"backup"; c!"trip"; c!"3.jpg"], NReg example_meta (c!"three"));
    ([c!"restore"], NDir root_meta) ].
Definition trip_deleted : syseba_app_t :=
  let previous := snd (value (syseba_snapshot_build (c!"/data")) (host_with with_trip_fs)) in
  one_worker [] 9 (exec (poll_scan (fun _ => true) previous) (demo_app (host_with without_trip_fs))).

Example deleted_directory_scatters :
  let fs := os_fs (app_os trip_deleted) in
  let backed_up (f : cstr) := without_trip_fs !! [c!"backup"; c!"trip"; f] in
  fs !! [c!"restore"; c!"trip"; c!"3.jpg"] = backed_up (c!"3.jpg") /\
  fs !! [c!"restore"; c!"trip.20240102-030405"; c!"1.jpg"] = backed_up (c!"1.jpg") /\
  fs !! [c!"restore"; c!"trip.20240102-030405"; c!"2.jpg"] = backed_up (c!"2.jpg") /\
  fs !! [c!"restore"; c!"trip"; c!"1.jpg"] = None /\ fs !! [c!"backup"; c!"trip"] = None /\
  deleted (app_stats trip_deleted) = 2 /\ errors (app_stats trip_deleted) = 0.
Proof. by vm_compute. Qed.
