(* ===== verification/Service.v ===== *)
(** * The Linux service (src/src/service_linux.c)

    The systemd unit, its installation, and the restart that the Web UI can ask
    for.  Lemmas are in ServiceFacts. *)

From S2P Require Import Prelude CString Paths Os Platform Fs Config AppState.

(** [getenv]. *)
Class Environment := getenv : cstr -> option cstr.

(** Whether [/usr/bin/systemctl] with these arguments ends with status 0. *)
Class Systemctl := systemctl : list cstr -> bool.

(** ** Quoting *)

Definition QUOTE : ascii := chr 34.
Definition PERCENT : ascii := chr 37.
Definition DOLLAR : ascii := chr 36.

Definition duplicates (c : ascii) : bool := ceq c PERCENT || ceq c DOLLAR.
Definition slash_escapes (c : ascii) : bool := ceq c BACKSLASH || ceq c QUOTE.

(** [used] bytes of the output are taken. *)
Fixpoint escape_loop (cursor : cstr) (used output_size : Z) : option cstr :=
  match cursor with
  | [] => Some []
  | c :: cursor' =>
      let width := if duplicates c || slash_escapes c then 2 else 1 in
      if (code c <? 32) || (code c =? 127) || (output_size <=? used + width) then None
      else
        match escape_loop cursor' (used + width) output_size with
        | None => None
        | Some rest =>
            Some ((if duplicates c then [c; c]
                   else if slash_escapes c then [BACKSLASH; c] else [c]) ++ rest)
        end
  end.

Definition syseba_systemd_escape (input : cstr) (output_size : Z) : option cstr :=
  if output_size =? 0 then None else escape_loop input 0 output_size.

(** ** The unit *)

Definition quoted (s : cstr) : cstr := QUOTE :: s ++ [QUOTE].
Definition line (s : cstr) : cstr := s ++ [NEWLINE].

Definition language_code (language : syseba_language_t) : cstr :=
  match language with SYSEBA_LANGUAGE_EN => c!"en" | SYSEBA_LANGUAGE_IT => c!"it" end.

(** The escaped paths that the unit names. *)
Record unit_paths := UnitPaths {
  up_executable : cstr;
  up_config : cstr;
  up_token : cstr;
  up_db : cstr;
  up_lock : cstr;
  up_writable : list cstr;
}.

Definition unit_head : cstr :=
  line (c!"[Unit]") ++ line (c!"Description=SySeBa - The Syncro Service Backup")
  ++ line (c!"Wants=network-online.target") ++ line (c!"After=network-online.target")
  ++ line [] ++ line (c!"[Service]") ++ line (c!"Type=simple").

Definition unit_exec (p : unit_paths) (web_port : Z) (language : cstr) : cstr :=
  line ((c!"ExecStart=") ++ quoted (up_executable p)
    ++ (c!" run --silent --web --web-host 0.0.0.0 --web-port ") ++ dec web_port
    ++ (c!" --config ") ++ quoted (up_config p)
    ++ (c!" --web-token-file ") ++ quoted (up_token p)
    ++ (c!" --db-path ") ++ quoted (up_db p)
    ++ (c!" --lockfile ") ++ quoted (up_lock p)
    ++ (c!" --lang ") ++ language).

Definition unit_middle : cstr :=
  line (c!"Restart=always") ++ line (c!"RestartSec=5") ++ line (c!"TimeoutStopSec=45")
  ++ line (c!"User=root") ++ line (c!"Group=root")
  ++ line (c!"StandardOutput=journal") ++ line (c!"StandardError=journal")
  ++ line (c!"SyslogIdentifier=syseba") ++ line (c!"NoNewPrivileges=true")
  ++ line (c!"CapabilityBoundingSet=CAP_DAC_OVERRIDE CAP_FOWNER")
  ++ line (c!"PrivateTmp=true") ++ line (c!"PrivateDevices=true")
  ++ line (c!"ProtectSystem=full").

(** The quoted words, separated by blanks. *)
Fixpoint quoted_words (l : list cstr) : cstr :=
  match l with
  | [] => []
  | [w] => quoted w
  | w :: rest => quoted w ++ (c!" ") ++ quoted_words rest
  end.

Definition unit_tail : cstr :=
  line (c!"ProtectProc=invisible") ++ line (c!"ProcSubset=pid")
  ++ line (c!"ProtectKernelTunables=true") ++ line (c!"ProtectKernelModules=true")
  ++ line (c!"ProtectControlGroups=true") ++ line (c!"ProtectKernelLogs=true")
  ++ line (c!"ProtectClock=true") ++ line (c!"ProtectHostname=true")
  ++ line (c!"RestrictSUIDSGID=true") ++ line (c!"RestrictRealtime=true")
  ++ line (c!"RestrictNamespaces=true")
  ++ line (c!"RestrictAddressFamilies=AF_UNIX AF_INET AF_INET6")
  ++ line (c!"LockPersonality=true") ++ line (c!"MemoryDenyWriteExecute=true")
  ++ line (c!"RemoveIPC=true")
  ++ line (c!"SystemCallFilter=~@mount @module @reboot @swap @raw-io @debug @cpu-emulation")
  ++ line (c!"SystemCallErrorNumber=EPERM") ++ line (c!"SystemCallArchitectures=native")
  ++ line (c!"UMask=0077") ++ line [] ++ line (c!"[Install]")
  ++ line (c!"WantedBy=multi-user.target").

Definition syseba_systemd_unit (p : unit_paths) (web_port : Z) (language : cstr) : cstr :=
  unit_head ++ unit_exec p web_port language ++ unit_middle
  ++ line ((c!"ReadWritePaths=") ++ quoted_words (up_writable p)) ++ unit_tail.

(** ** Writing it *)

Section Service.
Context `{Strerror} `{Environment} `{Systemctl}.

Definition syseba_write_atomic (path content : cstr) (mode : Z) : ST os (option cstr) :=
  let* mono := sys_monotonic in
  let temporary := path ++ (c!".tmp.") ++ dec (wrap64 mono) in
  let message (e : errno) := (c!"Unable to write ") ++ path ++ (c!": ") ++ strerror e in
  if negb (fits SYSEBA_PATH_MAX temporary) then ret (Some [])
  else
    let* file := syseba_open_exclusive_write temporary mode in
    match file with
    | None => let* e := get_errno in ret (Some (message e))
    | Some k =>
        let* written := write_file k content in
        let* moded := (if written then sys_chmod temporary mode else ret false) in
        let* replaced := (if moded then syseba_atomic_replace temporary path else ret false) in
        if replaced then ret None
        else
          sys_unlink temporary ;;;
          (let* e := get_errno in ret (Some (message e)))
    end.

(** The directories, until one cannot be made. *)
Fixpoint make_directories (l : list cstr) : ST os bool :=
  match l with
  | [] => ret true
  | d :: rest =>
      let* made := syseba_mkdirs d 488 in
      if made then make_directories rest else ret false
  end.

(** The parents of the configuration, the token, the database, the lock and the log. *)
Fixpoint parents_of (l : list cstr) : option (list cstr) :=
  match l with
  | [] => Some []
  | p :: rest =>
      match syseba_parent_dir p SYSEBA_PATH_MAX with
      | None => None
      | Some d => match parents_of rest with Some ds => Some (d :: ds) | None => None end
      end
  end.

Fixpoint escape_all (l : list cstr) : option (list cstr) :=
  match l with
  | [] => Some []
  | p :: rest =>
      match syseba_systemd_escape p (SYSEBA_PATH_MAX * 2) with
      | None => None
      | Some e => match escape_all rest with Some es => Some (e :: es) | None => None end
      end
  end.

Definition UNIT_SIZE : Z := SYSEBA_PATH_MAX * 20.
Definition unit_path : cstr := c!"/etc/systemd/system/syseba.service".

(** The unit for an executable, the options, the configuration and its five parents. *)
Definition service_unit (executable : cstr) (options : syseba_options_t)
    (loaded : syseba_config_t) (parents : list cstr) : option cstr :=
  match escape_all [executable; cfg_config_path loaded; op_token_path options;
                    op_db_path options; op_lock_path options],
        escape_all ([cfg_source loaded; cfg_backup loaded; cfg_restore loaded] ++ parents) with
  | Some [e; c; t; d; l], Some writable =>
      let unit := syseba_systemd_unit (UnitPaths e c t d l writable) (op_web_port options)
                    (language_code (op_language options)) in
      if fits UNIT_SIZE unit then Some unit else None
  | _, _ => None
  end.

(** The calls of [systemctl] that were made are part of the state. *)
#[local] Instance lens_service_os : Lens (list (list cstr) * os) os.
Proof. refine {| lget := snd; lset t s := (fst s, t) |}; [done|by intros []|done]. Defined.

Definition syseba_run_systemctl (arguments : list cstr) : ST (list (list cstr) * os) bool :=
  modify (fun '(calls, s) => (calls ++ [arguments], s)) ;;;
  ret (systemctl arguments).

(** [euid] is the effective user, [link] what [/proc/self/exe] points to. *)
Definition syseba_service_install (euid : Z) (link : option cstr) (options : syseba_options_t) :
    ST (list (list cstr) * os) (option failure) :=
  if negb (euid =? 0) then
    ret (Some (SYSEBA_ERR_PERMISSION, c!"service-install must be run as root"))
  else
    let* result := zoom (syseba_config_load (op_config_path options)) in
    match result with
    | inl (_, message) =>
        ret (Some (SYSEBA_ERR_INVALID,
                   match message with [] => c!"Unable to resolve service paths" | m => m end))
    | inr loaded =>
        match parents_of [cfg_config_path loaded; op_token_path options; op_db_path options;
                          op_lock_path options; cfg_log_file loaded] with
        | None => ret (Some (SYSEBA_ERR_INVALID, c!"Unable to resolve service paths"))
        | Some parents =>
            let* made := zoom (make_directories
              ([cfg_backup loaded; cfg_restore loaded] ++ drop 1 parents)) in
            if negb made then
              let* e := zoom get_errno in
              ret (Some (SYSEBA_ERR_PERMISSION,
                         (c!"Unable to create service runtime directories: ") ++ strerror e))
            else
              match link with
              | None | Some [] =>
                  ret (Some (SYSEBA_ERR, c!"Unable to resolve the current executable"))
              | Some link =>
                  let executable := truncate SYSEBA_PATH_MAX link in
                  match service_unit executable options loaded parents with
                  | None =>
                      ret (Some (SYSEBA_ERR_INVALID, c!"A service path is invalid or too long"))
                  | Some unit =>
                      let* written := zoom (syseba_write_atomic unit_path unit 420) in
                      match written with
                      | Some message => ret (Some (SYSEBA_ERR, message))
                      | None =>
                          let* reloaded := syseba_run_systemctl [c!"daemon-reload"] in
                          let* enabled :=
                            (if reloaded then
                               syseba_run_systemctl [c!"enable"; c!"--now"; c!"syseba.service"]
                             else ret false) in
                          if enabled then ret None
                          else
                            ret (Some (SYSEBA_ERR,
                                 c!"Unit written, but systemctl daemon-reload/enable --now failed"))
                      end
                  end
              end
        end
    end.

(** ** Restarting *)

Definition syseba_service_restart_available : ST os bool :=
  match getenv (c!"INVOCATION_ID") with
  | None | Some [] => ret false
  | Some _ => sys_access (c!"/usr/bin/systemctl")
  end.

Definition syseba_service_restart_command : cstr := c!"sudo systemctl restart syseba.service".

(** The child that [fork] makes restarts the service after 750 ms. *)
Definition syseba_service_request_restart (forked : bool) : ST os (option cstr) :=
  let* available := syseba_service_restart_available in
  if negb available then
    ret (Some ((c!"Automatic restart unavailable; run: ") ++ syseba_service_restart_command))
  else if negb forked then
    let* e := get_errno in
    ret (Some ((c!"Unable to schedule restart: ") ++ strerror e))
  else ret None.
End Service.
