(* ===== verification/ServiceFacts.v ===== *)
(** * Properties of the service unit

    The texts of the unit stand for the paths that were put in it, in the quoting that the
    manual of systemd describes.  systemd itself is a parameter. *)

From S2P Require Import Prelude CString Paths Os Platform Fs Config AppState Service.

(** ** The quoting of systemd

    From systemd.syntax(7), systemd.unit(5) and systemd.service(5): words are separated by
    blanks; between double quotes a word may hold blanks, and a backslash comes before a
    quote or a backslash; [%%] stands for a percent sign, and, in the arguments of a command,
    [$$] for a dollar sign. *)

Definition BLANK : ascii := chr 32.

Definition printable_char (c : ascii) : Prop := 32 <= code c /\ code c <> 127.

(** The text between the quotes, and what it stands for; [dollar]: [$] starts a variable. *)
Inductive stands (dollar : bool) : cstr -> cstr -> Prop :=
  | Stands_nil : stands dollar [] []
  | Stands_char c t w :
      printable_char c -> c ∉ [BACKSLASH; QUOTE; PERCENT] -> (dollar = true -> c <> DOLLAR) ->
      stands dollar t w -> stands dollar (c :: t) (c :: w)
  | Stands_escape c t w :
      c = BACKSLASH \/ c = QUOTE -> stands dollar t w -> stands dollar (BACKSLASH :: c :: t) (c :: w)
  | Stands_percent t w : stands dollar t w -> stands dollar (PERCENT :: PERCENT :: t) (PERCENT :: w)
  | Stands_dollar t w :
      dollar = true -> stands dollar t w -> stands dollar (DOLLAR :: DOLLAR :: t) (DOLLAR :: w).

(** Letters, digits, dots and dashes need no quotes. *)
Definition plain_char (c : ascii) : bool :=
  isdigit c || ((97 <=? code (tolower c)) && (code (tolower c) <=? 122)) || ceq c "."%char || ceq c "-"%char.

Inductive unit_word (dollar : bool) : cstr -> cstr -> Prop :=
  | Word_plain w : nonempty w = true -> forallb plain_char w = true -> unit_word dollar w w
  | Word_quoted e w : stands dollar e w -> unit_word dollar (quoted e) w.

Fixpoint blank_words (l : list cstr) : cstr :=
  match l with
  | [] => []
  | [t] => t
  | t :: rest => t ++ BLANK :: blank_words rest
  end.

(** The text of a list of words. *)
Definition unit_words (dollar : bool) (text : cstr) (ws : list cstr) : Prop :=
  exists ts, text = blank_words ts /\ Forall2 (unit_word dollar) ts ws.

Definition ascii_text (s : cstr) : Prop := Forall (fun c => code c < 128) s.

Lemma ascii_b_spec l : forallb (forallb (fun c => code c <? 128)) l = true -> Forall ascii_text l.
Proof.
  rewrite forallb_forall. intros H. apply Forall_forall. intros s Hs. apply Forall_forall. intros c Hc.
  apply list_elem_of_In in Hs, Hc. specialize (H s Hs). rewrite forallb_forall in H. apply Z.ltb_lt. by apply H.
Qed.

(** What systemd makes of the value of [ExecStart], the path of the program and its argument
    vector, and of the value of [ReadWritePaths], the words. *)
Class Systemd := {
  systemd_program : cstr -> option cstr;
  systemd_argv : cstr -> option (list cstr);
  systemd_paths : cstr -> option (list cstr);
}.

(** The program is an absolute path, and its path is not subject to the substitution of
    variables; the arguments are.  Nothing is asked of the first argument, nor of a line that
    is not ASCII. *)
Class SystemdLaws `{Systemd} : Prop := {
  systemd_program_ok t p q ts ws :
    unit_word false t p -> unit_word true t q -> absolute p = true -> Forall2 (unit_word true) ts ws ->
    ascii_text (blank_words (t :: ts)) -> systemd_program (blank_words (t :: ts)) = Some p;
  systemd_argv_ok t p q ts ws :
    unit_word false t p -> unit_word true t q -> absolute p = true -> Forall2 (unit_word true) ts ws ->
    ascii_text (blank_words (t :: ts)) ->
    exists name, systemd_argv (blank_words (t :: ts)) = Some (name :: ws);
  systemd_paths_ok text ws :
    unit_words false text ws -> Forall (fun w => absolute w = true) ws -> ascii_text text ->
    systemd_paths text = Some ws;
}.

(** ** The escaped paths *)

Definition printable (s : cstr) : Prop := Forall printable_char s.

Definition dollars_doubled (s : cstr) : cstr :=
  flat_map (fun c => if ceq c DOLLAR then [c; c] else [c]) s.

Lemma dollars_doubled_none s : DOLLAR ∉ s -> dollars_doubled s = s.
Proof.
  induction s as [|c s IH]; [done|]. rewrite not_elem_of_cons. intros [Hc Hs].
  cbn [dollars_doubled flat_map]. fold (dollars_doubled s). rewrite IH by done.
  by rewrite (proj2 (ceq_false _ _)) by congruence.
Qed.

Lemma dollars_doubled_length s : (length s <= length (dollars_doubled s))%nat.
Proof.
  induction s as [|c s IH]; [done|]. cbn [dollars_doubled flat_map]. fold (dollars_doubled s).
  rewrite length_app. destruct (ceq c DOLLAR); simpl; lia.
Qed.

Lemma dollars_doubled_some s : dollars_doubled s = s -> DOLLAR ∉ s.
Proof.
  induction s as [|c s IH]; intros E; [apply not_elem_of_nil|].
  cbn [dollars_doubled flat_map] in E. fold (dollars_doubled s) in E. destruct (ceq c DOLLAR) eqn:Ec; cbn [app] in E.
  - exfalso. injection E as E. apply (f_equal length) in E. pose proof (dollars_doubled_length s). simpl in E. lia.
  - injection E as E. apply ceq_false in Ec. apply not_elem_of_cons. split; [congruence|by apply IH].
Qed.

Lemma dollars_doubled_absolute s : absolute (dollars_doubled s) = absolute s.
Proof. destruct s as [|c s]; [done|]. unfold dollars_doubled. cbn [flat_map]. by destruct (ceq c DOLLAR). Qed.

(** An escaped path stands for the path; where a dollar sign is an ordinary character, for
    the path with its dollar signs doubled. *)
Lemma escape_stands s used size e :
  escape_loop s used size = Some e -> stands true e s /\ stands false e (dollars_doubled s).
Proof.
  revert used e. induction s as [|c s IH]; intros used e H; cbn [escape_loop] in H.
  { injection H as <-. split; constructor. }
  destruct (_ || _) eqn:E in H; [done|]. destruct (escape_loop s _ _) as [r|] eqn:Er; [|done].
  injection H as <-. destruct (IH _ _ Er) as [Ht Hf]. bool_hyps.
  assert (printable_char c) as Hc by (unfold printable_char; lia).
  cbn [dollars_doubled flat_map]. fold (dollars_doubled s). unfold duplicates, slash_escapes.
  destruct (ceq c PERCENT) eqn:Ep; [apply Ascii.eqb_eq in Ep as ->; split; by constructor|].
  destruct (ceq c DOLLAR) eqn:Ed; cbn [orb].
  { apply Ascii.eqb_eq in Ed as ->. split; [by constructor|].
    repeat (constructor; [by vm_compute|set_solver|done|]). done. }
  apply ceq_false in Ep, Ed. destruct (ceq c BACKSLASH) eqn:Eb; [|destruct (ceq c QUOTE) eqn:Eq]; cbn [orb app].
  - apply Ascii.eqb_eq in Eb as ->. split; by apply Stands_escape; auto.
  - apply Ascii.eqb_eq in Eq as ->. split; by apply Stands_escape; auto.
  - apply ceq_false in Eb, Eq. split; (constructor; [done|set_solver|done|done]).
Qed.

Lemma escape_loop_chars (P : ascii -> Prop) s used size e :
  P BACKSLASH -> Forall P s -> escape_loop s used size = Some e -> Forall P e.
Proof.
  intros Hb Hs. revert used e. induction Hs as [|c s Hc Hs IH]; intros used e H; cbn [escape_loop] in H;
    [by injection H as <-|].
  destruct (_ || _) in H; [done|]. destruct (escape_loop s _ _) as [r|] eqn:Er; [|done].
  injection H as <-. apply Forall_app. split; [|by eapply IH].
  destruct (duplicates c); [|destruct (slash_escapes c)]; by repeat constructor.
Qed.

Lemma escape_loop_printable s used size e : escape_loop s used size = Some e -> printable e.
Proof.
  intros H. assert (printable s) as Hs.
  { revert used e H. induction s as [|c s IH]; intros used e H; [by constructor|]. cbn [escape_loop] in H.
    destruct (_ || _) eqn:E in H; [done|]. destruct (escape_loop s _ _) as [r|] eqn:Er; [|done].
    bool_hyps. constructor; [unfold printable_char; lia|by eapply IH]. }
  by eapply escape_loop_chars; [by vm_compute|exact Hs|exact H].
Qed.

Lemma escape_all_words l es :
  escape_all l = Some es ->
  Forall2 (unit_word true) (map quoted es) l /\
  Forall2 (unit_word false) (map quoted es) (map dollars_doubled l) /\
  Forall printable es /\ (Forall ascii_text l -> Forall ascii_text es).
Proof.
  revert es. induction l as [|p l IH]; intros es H; cbn [escape_all] in H; [by injection H as <-|].
  destruct (syseba_systemd_escape p _) as [e|] eqn:Ep; [|done]. destruct (escape_all l) as [es'|]; [|done].
  injection H as <-. destruct (IH es' eq_refl) as (H1 & H2 & H3 & H4).
  unfold syseba_systemd_escape in Ep. destruct (_ =? 0); [done|].
  destruct (escape_stands _ _ _ _ Ep). cbn [map].
  split_and!; [by constructor; [constructor|]..|by constructor; [eapply escape_loop_printable|]|].
  intros Ha. apply Forall_cons in Ha as [Hp Ha]. constructor; [|by apply H4].
  by eapply (escape_loop_chars (fun c => code c < 128)); [by vm_compute|exact Hp|exact Ep].
Qed.

Lemma Forall_blank_words (P : ascii -> Prop) l : P BLANK -> Forall (Forall P) l -> Forall P (blank_words l).
Proof.
  intros Hb. induction 1 as [|t l Ht Hl IH]; [constructor|]. destruct l as [|t' l]; [done|].
  change (blank_words (t :: t' :: l)) with (t ++ BLANK :: blank_words (t' :: l)).
  apply Forall_app. split; [done|]. by constructor.
Qed.

Lemma Forall_quoted (P : ascii -> Prop) e : P QUOTE -> Forall P e -> Forall P (quoted e).
Proof. intros Hq He. unfold quoted. constructor; [done|]. apply Forall_app. by repeat constructor. Qed.

Lemma quoted_words_blank l : quoted_words l = blank_words (map quoted l).
Proof. induction l as [|w [|w' l] IH]; [done|done|]. cbn [quoted_words map blank_words] in *. by rewrite IH. Qed.

Lemma printable_no_newline s : printable s -> NEWLINE ∉ s.
Proof.
  intros Hs Hin. unfold printable in Hs. rewrite Forall_forall in Hs. destruct (Hs _ Hin) as [H _]. by vm_compute in H.
Qed.

(** A character that needs no quotes is a printable one. *)
Lemma plain_char_range c : plain_char c = true -> 32 <= code c < 127.
Proof.
  unfold plain_char, isdigit, tolower. intros H. pose proof (code_range c).
  destruct (ceq c "."%char) eqn:E1; [apply Ascii.eqb_eq in E1 as ->; by vm_compute|].
  destruct (ceq c "-"%char) eqn:E2; [apply Ascii.eqb_eq in E2 as ->; by vm_compute|].
  destruct ((65 <=? code c) && (code c <=? 90)) eqn:E; bool_hyps; [lia|]. rewrite !orb_false_r in H.
  apply orb_true_iff in H as [H|H]; bool_hyps; lia.
Qed.

Lemma plain_word_ok w :
  nonempty w && forallb plain_char w = true ->
  unit_word true w w /\ printable w /\ ascii_text w.
Proof.
  intros [Hn Hw]%andb_true_iff. split; [by constructor|].
  assert (forall c, c ∈ w -> 32 <= code c < 127) as Hc.
  { intros c Hin. apply plain_char_range. rewrite forallb_forall in Hw. by apply Hw, list_elem_of_In. }
  split; apply Forall_forall; intros c Hin; specialize (Hc c Hin); [split|]; lia.
Qed.

Lemma dec_plain n : 0 <= n -> nonempty (dec n) && forallb plain_char (dec n) = true.
Proof.
  intros Hn. apply andb_true_iff. split; [pose proof (dec_nonempty n); by destruct (dec n)|].
  apply forallb_forall. intros c Hin. apply list_elem_of_In in Hin.
  pose proof (dec_digits n Hn) as Hd. rewrite Forall_forall in Hd. unfold plain_char. by rewrite (Hd c Hin).
Qed.

(** ** The unit *)

(** The command that the unit has to start. *)
Definition service_arguments (options : syseba_options_t) (loaded : syseba_config_t) : list cstr :=
  [c!"run"; c!"--silent"; c!"--web"; c!"--web-host"; c!"0.0.0.0"; c!"--web-port";
   dec (op_web_port options); c!"--config"; cfg_config_path loaded;
   c!"--web-token-file"; op_token_path options; c!"--db-path"; op_db_path options;
   c!"--lockfile"; op_lock_path options; c!"--lang";
   language_code (op_language options)].
Definition service_argv (executable : cstr) (options : syseba_options_t) (loaded : syseba_config_t) :
    list cstr := executable :: service_arguments options loaded.

(** The paths that the command names. *)
Definition command_paths (executable : cstr) (options : syseba_options_t) (loaded : syseba_config_t) :
    list cstr :=
  [executable; cfg_config_path loaded; op_token_path options; op_db_path options; op_lock_path options].

(** The [ExecStart] line: its first word is the executable, and the others the arguments. *)
Lemma exec_words p executable options loaded :
  0 <= op_web_port options ->
  escape_all (command_paths executable options loaded)
    = Some [up_executable p; up_config p; up_token p; up_db p; up_lock p] ->
  exists t ts,
    unit_exec p (op_web_port options) (language_code (op_language options))
      = line ((c!"ExecStart=") ++ blank_words (t :: ts)) /\
    NEWLINE ∉ blank_words (t :: ts) /\
    unit_word true t executable /\ unit_word false t (dollars_doubled executable) /\
    Forall2 (unit_word true) ts (service_arguments options loaded) /\
    (Forall ascii_text (command_paths executable options loaded) -> ascii_text (blank_words (t :: ts))).
Proof.
  intros Hport He. set (language := language_code (op_language options)).
  destruct (escape_all_words _ _ He) as (R & R' & C & A).
  unfold command_paths in R, R'. cbn [map] in R, R'.
  repeat match goal with H : Forall2 _ (_ :: _) (_ :: _) |- _ => apply Forall2_cons in H as [? H] end.
  repeat match goal with H : Forall printable (_ :: _) |- _ => apply Forall_cons in H as [? H] end.
  exists (quoted (up_executable p)),
    [c!"run"; c!"--silent"; c!"--web"; c!"--web-host";
      c!"0.0.0.0"; c!"--web-port"; dec (op_web_port options); c!"--config"; quoted (up_config p);
      c!"--web-token-file"; quoted (up_token p); c!"--db-path"; quoted (up_db p);
      c!"--lockfile"; quoted (up_lock p); c!"--lang"; language].
  pose proof (plain_word_ok _ (dec_plain _ Hport)) as Hd.
  assert (nonempty language && forallb plain_char language = true) as Hl
    by (unfold language; by destruct (op_language options)).
  apply plain_word_ok in Hl.
  split_and!; [reflexivity| |done|done| |].
  - apply printable_no_newline, Forall_blank_words; [by vm_compute|].
    repeat (apply Forall_cons; split; [first [by apply Forall_quoted|apply Hd|apply Hl|by apply plain_word_ok]|]).
    by apply Forall_nil.
  - unfold service_arguments. fold language.
    repeat (apply Forall2_cons; split; [first [done|apply Hd|apply Hl|by apply plain_word_ok]|]).
    by apply Forall2_nil.
  - intros Ha. apply A in Ha. apply Forall_blank_words; [by vm_compute|].
    repeat match goal with H : Forall ascii_text (_ :: _) |- _ => apply Forall_cons in H as [? H] end.
    repeat (apply Forall_cons; split; [first [by apply Forall_quoted|apply Hd|apply Hl|by apply plain_word_ok]|]).
    by apply Forall_nil.
Qed.

(** The whole unit. *)
Lemma service_unit_words executable options loaded parents unit :
  0 <= op_web_port options ->
  service_unit executable options loaded parents = Some unit ->
  let dirs := [cfg_source loaded; cfg_backup loaded; cfg_restore loaded] ++ parents in
  exists t ts writable,
    unit = unit_head ++ line ((c!"ExecStart=") ++ blank_words (t :: ts)) ++ unit_middle
             ++ line ((c!"ReadWritePaths=") ++ writable) ++ unit_tail /\
    NEWLINE ∉ blank_words (t :: ts) /\ NEWLINE ∉ writable /\
    unit_word true t executable /\ unit_word false t (dollars_doubled executable) /\
    Forall2 (unit_word true) ts (service_arguments options loaded) /\
    unit_words false writable (map dollars_doubled dirs) /\
    (Forall ascii_text (command_paths executable options loaded) -> ascii_text (blank_words (t :: ts))) /\
    (Forall ascii_text dirs -> ascii_text writable).
Proof.
  intros Hport H dirs. unfold service_unit in H.
  destruct (escape_all _) as [[|e [|c [|t [|d [|l [|]]]]]]|] eqn:E1; try done; [].
  destruct (escape_all _) as [writable|] eqn:E2 in H; [|done].
  case_match; [|done]. injection H as <-.
  destruct (escape_all_words _ _ E2) as (_ & R2 & C2 & A2).
  destruct (exec_words (UnitPaths e c t d l writable) executable options loaded)
    as (t0 & ts & Hexec & Hn & Ht & Hf & Hts & Ha); [done..|].
  exists t0, ts, (blank_words (map quoted writable)). split_and!; try done.
  - unfold syseba_systemd_unit. by rewrite Hexec, quoted_words_blank.
  - apply printable_no_newline, Forall_blank_words; [by vm_compute|]. apply Forall_map.
    eapply Forall_impl; [exact C2|]. intros x Hx. by apply Forall_quoted.
  - by exists (map quoted writable).
  - intros Hd. apply Forall_blank_words; [by vm_compute|]. apply Forall_map.
    eapply Forall_impl; [by apply A2|]. intros x Hx. by apply Forall_quoted.
Qed.

(** ** A reader that has the documented behaviour *)

Inductive reading : Type := Between | Plain | Quoted | Closed.

Fixpoint read_words (dollar : bool) (state : reading) (word : cstr) (s : cstr) : option (list cstr) :=
  match s with
  | [] =>
      match state with
      | Between | Closed => Some []
      | Plain => Some [word]
      | Quoted => None
      end
  | c :: r =>
      match state with
      | Between =>
          if ceq c BLANK then read_words dollar Between [] r
          else if ceq c QUOTE then read_words dollar Quoted [] r
          else if plain_char c then read_words dollar Plain [c] r else None
      | Plain =>
          if ceq c BLANK then option_map (cons word) (read_words dollar Between [] r)
          else if plain_char c then read_words dollar Plain (word ++ [c]) r else None
      | Quoted =>
          if ceq c QUOTE then option_map (cons word) (read_words dollar Closed [] r)
          else if ceq c BACKSLASH || ceq c PERCENT || (dollar && ceq c DOLLAR) then
            match r with
            | d :: r' =>
                if (ceq c BACKSLASH && slash_escapes d) || (negb (ceq c BACKSLASH) && ceq d c)
                then read_words dollar Quoted (word ++ [d]) r' else None
            | [] => None
            end
          else read_words dollar Quoted (word ++ [c]) r
      | Closed => if ceq c BLANK then read_words dollar Between [] r else None
      end
  end.

#[local] Instance reader_systemd : Systemd := {|
  systemd_program s := match read_words false Between [] s with Some (p :: _) => Some p | _ => None end;
  systemd_argv := read_words true Between [];
  systemd_paths := read_words false Between [];
|}.

Lemma read_quoted dollar e w acc rest :
  stands dollar e w ->
  read_words dollar Quoted acc (e ++ QUOTE :: rest) =
    option_map (cons (acc ++ w)) (read_words dollar Closed [] rest).
Proof.
  intros H. revert acc. induction H as [|c t w Hp Hc Hd H IH|c t w Hc H IH|t w H IH|t w Hd H IH]; intros acc.
  - cbn [app]. by rewrite app_nil_r.
  - assert (c <> BACKSLASH /\ c <> QUOTE /\ c <> PERCENT) as (H1 & H2 & H3) by set_solver.
    cbn [app read_words]. rewrite !(proj2 (ceq_false _ _)) by done. cbn [orb].
    assert (dollar && ceq c DOLLAR = false) as ->.
    { destruct dollar; [|done]. by apply ceq_false, Hd. }
    by rewrite IH, <- app_assoc.
  - cbn [app read_words]. change (ceq BACKSLASH QUOTE) with false. change (ceq BACKSLASH BACKSLASH) with true.
    cbn [orb negb andb]. assert (slash_escapes c = true) as -> by (by destruct Hc as [-> | ->]).
    cbn [orb]. by rewrite IH, <- app_assoc.
  - cbn [app read_words]. change (ceq PERCENT QUOTE) with false. change (ceq PERCENT BACKSLASH) with false.
    change (ceq PERCENT PERCENT) with true. cbn [orb negb andb]. by rewrite IH, <- app_assoc.
  - cbn [app read_words]. change (ceq DOLLAR QUOTE) with false. change (ceq DOLLAR BACKSLASH) with false.
    change (ceq DOLLAR PERCENT) with false. change (ceq DOLLAR DOLLAR) with true. subst dollar.
    cbn [orb negb andb]. by rewrite IH, <- app_assoc.
Qed.

Lemma plain_not_special c : plain_char c = true -> ceq c BLANK = false /\ ceq c QUOTE = false.
Proof. intros H. split; apply ceq_false; intros ->; by vm_compute in H. Qed.

Lemma read_plain dollar acc w rest :
  forallb plain_char w = true ->
  read_words dollar Plain acc (w ++ BLANK :: rest) =
    option_map (cons (acc ++ w)) (read_words dollar Between [] rest) /\
  read_words dollar Plain acc w = Some [acc ++ w].
Proof.
  revert acc. induction w as [|c w IH]; intros acc H; [by rewrite app_nil_r|].
  cbn [forallb] in H. apply andb_true_iff in H as [Hc H]. destruct (IH (acc ++ [c]) H) as [E1 E2].
  destruct (plain_not_special c Hc) as [Hb _]. rewrite <- app_assoc in E1, E2. cbn [app read_words].
  by rewrite Hb, Hc.
Qed.

(** One word, alone or before others. *)
Definition reads_as (dollar : bool) (t w : cstr) : Prop :=
  read_words dollar Between [] t = Some [w] /\
  forall rest, read_words dollar Between [] (t ++ BLANK :: rest) =
    option_map (cons w) (read_words dollar Between [] rest).

Lemma unit_word_reads dollar t w : unit_word dollar t w -> reads_as dollar t w.
Proof.
  intros [w' Hn Hw|e w' He].
  - destruct w' as [|c w']; [done|]. cbn [forallb] in Hw. apply andb_true_iff in Hw as [Hc Hw].
    destruct (plain_not_special c Hc) as [Hb Hq].
    split; [|intros rest]; cbn [app read_words]; rewrite Hb, Hq, Hc.
    + by destruct (read_plain dollar [c] w' [] Hw) as [_ ->].
    + by destruct (read_plain dollar [c] w' rest Hw) as [-> _].
  - split; [|intros rest]; unfold quoted; cbn [app read_words]; change (ceq QUOTE BLANK) with false;
      change (ceq QUOTE QUOTE) with true; rewrite <- ?app_assoc; cbn [app]; by rewrite (read_quoted _ _ _ _ _ He).
Qed.

Lemma read_blank_words dollar ts ws :
  Forall2 (reads_as dollar) ts ws -> read_words dollar Between [] (blank_words ts) = Some ws.
Proof.
  induction 1 as [|t w ts ws [H1 H2] Hs IH]; [done|]. destruct ts as [|t' ts].
  - by inversion Hs; subst.
  - change (blank_words (t :: t' :: ts)) with (t ++ BLANK :: blank_words (t' :: ts)).
    by rewrite H2, IH.
Qed.

Lemma unit_words_read dollar ts ws :
  Forall2 (unit_word dollar) ts ws -> read_words dollar Between [] (blank_words ts) = Some ws.
Proof. intros H. apply read_blank_words. eapply Forall2_impl; [exact H|]. apply unit_word_reads. Qed.

(** A text with doubled dollar signs has a meaning without variables too. *)
Lemma unit_word_false t w : unit_word true t w -> exists w', unit_word false t w'.
Proof.
  intros [w' Hn Hw|e w' He]; [by exists w'; constructor|].
  assert (exists v, stands false e v) as [v Hv]; [|by exists v; constructor].
  induction He as [|c x u Hp Hc Hd H [v Hv]|c x u Hc H [v Hv]|x u H [v Hv]|x u _ H [v Hv]].
  - exists []. constructor.
  - exists (c :: v). by constructor.
  - exists (c :: v). by constructor.
  - exists (PERCENT :: v). by constructor.
  - exists (DOLLAR :: DOLLAR :: v). repeat (constructor; [by vm_compute|set_solver|done|]). done.
Qed.

Lemma unit_words_false ts ws : Forall2 (unit_word true) ts ws -> exists ws', Forall2 (unit_word false) ts ws'.
Proof.
  induction 1 as [|t w ts ws Hw _ [ws' IH]]; [by exists []|].
  apply unit_word_false in Hw as [w' Hw]. exists (w' :: ws'). by constructor.
Qed.

#[local] Instance reader_laws : SystemdLaws.
Proof.
  constructor.
  - intros t p q ts ws Hf _ _ Hts _. destruct (unit_words_false ts ws Hts) as [ws' Hts'].
    unfold systemd_program, reader_systemd.
    by rewrite (unit_words_read false (t :: ts) (p :: ws')) by (by constructor).
  - intros t p q ts ws _ Ht _ Hts _. exists q. apply (unit_words_read true (t :: ts) (q :: ws)). by constructor.
  - intros text ws (ts & -> & Hts) _ _. by apply unit_words_read.
Qed.
