(* ===== verification/ServiceSpec.v ===== *)
(** * The promises of the service unit *)

From S2P Require Import Prelude CString Paths Os Platform Fs Config AppState Service ServiceFacts Examples Demo.

(** C24: the paths that the service's unit holds cannot break out of their
    lines: the unit is the fixed text around one [ExecStart] and one [ReadWritePaths]
    line.  With absolute paths of ASCII characters, any systemd that keeps to its manual
    starts the program with exactly the options and the paths it was built from.  Two
    places do not read back: systemd substitutes nothing in the path of the program nor in
    [ReadWritePaths], so there every dollar sign is doubled, and the program is the
    installed executable, and the directories are those of the configuration, only when
    they hold no dollar sign. *)
Theorem unit_reads_back `{SystemdLaws} executable options loaded parents unit :
  0 <= op_web_port options ->
  let dirs := [cfg_source loaded; cfg_backup loaded; cfg_restore loaded] ++ parents in
  Forall ascii_text (command_paths executable options loaded) -> Forall ascii_text dirs ->
  absolute executable = true -> Forall (fun d => absolute d = true) dirs ->
  service_unit executable options loaded parents = Some unit ->
  exists command writable name,
    unit = unit_head ++ line ((c!"ExecStart=") ++ command) ++ unit_middle
             ++ line ((c!"ReadWritePaths=") ++ writable) ++ unit_tail /\
    NEWLINE ∉ command /\ NEWLINE ∉ writable /\
    systemd_program command = Some (dollars_doubled executable) /\
    systemd_argv command = Some (name :: service_arguments options loaded) /\
    systemd_paths writable = Some (map dollars_doubled dirs) /\
    (forall p, p ∈ executable :: dirs -> dollars_doubled p = p <-> DOLLAR ∉ p).
Proof.
  intros Hport dirs Ha Hda He Hd Hu.
  destruct (service_unit_words executable options loaded parents unit Hport Hu)
    as (t & ts & writable & E & Hn & Hnw & Ht & Hf & Hts & Hw & Hac & Haw).
  assert (absolute (dollars_doubled executable) = true) as He' by (by rewrite dollars_doubled_absolute).
  destruct (systemd_argv_ok t _ _ ts _ Hf Ht He' Hts (Hac Ha)) as [name Hargv].
  exists (blank_words (t :: ts)), writable, name. split_and!; [done..| |done| |].
  - by eapply systemd_program_ok; [| | | |apply Hac].
  - apply systemd_paths_ok; [done| |by apply Haw]. apply Forall_map. eapply Forall_impl; [exact Hd|].
    intros p Hp. cbn. by rewrite dollars_doubled_absolute.
  - intros p _. split; [apply dollars_doubled_some|apply dollars_doubled_none].
Qed.

(** A lock whose name holds a quote, a percent sign and a dollar sign. *)
Definition odd_options : syseba_options_t :=
  options_with_lock ((c!"/run/a b") ++ [QUOTE; PERCENT; DOLLAR; BACKSLASH]).
Definition odd_unit : cstr :=
  default [] (service_unit (c!"/opt/$a/syseba") odd_options demo_config [c!"/run"; c!"/run/100% $"]).

#[local] Existing Instance reader_systemd.
#[local] Existing Instance reader_laws.

Example unit_reads_back_witness :
  let dirs := [cfg_source demo_config; cfg_backup demo_config; cfg_restore demo_config]
                ++ [c!"/run"; c!"/run/100% $"] in
  exists command writable name,
    odd_unit = unit_head ++ line ((c!"ExecStart=") ++ command) ++ unit_middle
             ++ line ((c!"ReadWritePaths=") ++ writable) ++ unit_tail /\
    NEWLINE ∉ command /\ NEWLINE ∉ writable /\
    systemd_program command = Some (dollars_doubled (c!"/opt/$a/syseba")) /\
    systemd_argv command = Some (name :: service_arguments odd_options demo_config) /\
    systemd_paths writable = Some (map dollars_doubled dirs) /\
    (forall p, p ∈ (c!"/opt/$a/syseba") :: dirs -> dollars_doubled p = p <-> DOLLAR ∉ p).
Proof.
  apply (unit_reads_back (c!"/opt/$a/syseba") odd_options demo_config [c!"/run"; c!"/run/100% $"] odd_unit).
  - by vm_compute.
  - apply ascii_b_spec. by vm_compute.
  - apply ascii_b_spec. by vm_compute.
  - reflexivity.
  - by repeat constructor.
  - vm_compute. reflexivity.
Defined.

(** The program that this unit starts is not the installed one. *)
Example odd_program :
  dollars_doubled (c!"/opt/$a/syseba") = c!"/opt/$$a/syseba".
Proof. reflexivity. Qed.
