(* ===== verification/ServiceMac.v ===== *)
(** * The macOS service (src/src/service_macos.c)

    The property list of the LaunchDaemon, its installation, and the restart that the
    Web UI can ask for.  What it calls in the other components has no branch of its own
    on macOS.  Lemmas are in ServiceMacSpec. *)

From S2P Require Import Prelude CString Paths Os Platform Fs Config AppState Service.

(** Whether [/bin/launchctl] with these arguments ends with status 0. *)
Class Launchctl := launchctl : list cstr -> bool.

(** ** Escaping *)

Definition AMPERSAND : ascii := chr 38.
Definition APOSTROPHE : ascii := chr 39.
Definition LESS : ascii := chr 60.
Definition GREATER : ascii := chr 62.
Definition TABULATOR : ascii := chr 9.

Definition xml_replacement (c : ascii) : option cstr :=
  if ceq c AMPERSAND then Some (c!"&amp;")
  else if ceq c LESS then Some (c!"&lt;")
  else if ceq c GREATER then Some (c!"&gt;")
  else if ceq c QUOTE then Some (c!"&quot;")
  else if ceq c APOSTROPHE then Some (c!"&apos;")
  else None.

(** [used] bytes of the output are taken. *)
Fixpoint xml_escape_loop (cursor : cstr) (used output_size : Z) : option cstr :=
  match cursor with
  | [] => Some []
  | c :: cursor' =>
      if (code c <? 32) && negb (ceq c TABULATOR) then None
      else
        match xml_replacement c with
        | Some replacement =>
            if output_size <=? used + zlen replacement then None
            else option_map (app replacement)
                   (xml_escape_loop cursor' (used + zlen replacement) output_size)
        | None =>
            if output_size <=? used + 1 then None
            else option_map (cons c) (xml_escape_loop cursor' (used + 1) output_size)
        end
  end.

Definition syseba_xml_escape (input : cstr) (output_size : Z) : option cstr :=
  if output_size =? 0 then None else xml_escape_loop input 0 output_size.

(** ** The property list *)

Definition plist_key (name : cstr) : cstr := (c!"<key>") ++ name ++ (c!"</key>").
Definition plist_string (text : cstr) : cstr := (c!"<string>") ++ text ++ (c!"</string>").

Definition plist_head : cstr :=
  line ((c!"<?xml version=") ++ quoted (c!"1.0") ++ (c!" encoding=") ++ quoted (c!"UTF-8") ++ (c!"?>"))
  ++ line ((c!"<!DOCTYPE plist PUBLIC ") ++ quoted (c!"-//Apple//DTD PLIST 1.0//EN") ++ (c!" ")
       ++ quoted (c!"http://www.apple.com/DTDs/PropertyList-1.0.dtd") ++ (c!">"))
  ++ line ((c!"<plist version=") ++ quoted (c!"1.0") ++ (c!"><dict>"))
  ++ line (plist_key (c!"Label") ++ plist_string (c!"com.okno.syseba"))
  ++ line (plist_key (c!"ProgramArguments") ++ (c!"<array>")).

(** The paths are escaped already. *)
Definition plist_arguments (executable config token db lock : cstr) (web_port : Z) (language : cstr) : cstr :=
  line (plist_string executable ++ plist_string (c!"run") ++ plist_string (c!"--silent"))
  ++ line (plist_string (c!"--web") ++ plist_string (c!"--web-host") ++ plist_string (c!"0.0.0.0"))
  ++ line (plist_string (c!"--web-port") ++ plist_string (dec web_port))
  ++ line (plist_string (c!"--config") ++ plist_string config)
  ++ line (plist_string (c!"--web-token-file") ++ plist_string token)
  ++ line (plist_string (c!"--db-path") ++ plist_string db)
  ++ line (plist_string (c!"--lockfile") ++ plist_string lock)
  ++ line (plist_string (c!"--lang") ++ plist_string language)
  ++ line (c!"</array>").

Definition plist_tail : cstr :=
  line (plist_key (c!"RunAtLoad") ++ (c!"<true/>") ++ plist_key (c!"KeepAlive") ++ (c!"<true/>"))
  ++ line (plist_key (c!"ThrottleInterval") ++ (c!"<integer>5</integer>"))
  ++ line (plist_key (c!"ProcessType") ++ plist_string (c!"Background"))
  ++ line (plist_key (c!"StandardOutPath") ++ plist_string (c!"/usr/local/var/log/syseba/service.log"))
  ++ line (plist_key (c!"StandardErrorPath")
       ++ plist_string (c!"/usr/local/var/log/syseba/service-error.log"))
  ++ line (c!"</dict></plist>").

Definition PLIST_SIZE : Z := SYSEBA_PATH_MAX * 12.
Definition plist_path : cstr := c!"/Library/LaunchDaemons/com.okno.syseba.plist".

Fixpoint xml_escape_all (l : list cstr) : option (list cstr) :=
  match l with
  | [] => Some []
  | p :: rest =>
      match syseba_xml_escape p (SYSEBA_PATH_MAX * 2) with
      | None => None
      | Some e => match xml_escape_all rest with Some es => Some (e :: es) | None => None end
      end
  end.

(** The property list for an executable, the options and the configuration: nothing when
    a path cannot be escaped, [Some None] when it is too large. *)
Definition service_plist (executable : cstr) (options : syseba_options_t)
    (loaded : syseba_config_t) : option (option cstr) :=
  match xml_escape_all [executable; cfg_config_path loaded; op_token_path options;
                        op_db_path options; op_lock_path options] with
  | Some [e; c; t; d; l] =>
      let plist := plist_head
        ++ plist_arguments e c t d l (op_web_port options) (language_code (op_language options))
        ++ plist_tail in
      Some (if fits PLIST_SIZE plist then Some plist else None)
  | _ => None
  end.

(** ** Writing it *)

Section ServiceMac.
Context `{Strerror} `{Launchctl}.

Definition syseba_write_plist (path content : cstr) : ST os (option cstr) :=
  let* mono := sys_monotonic in
  let temporary := path ++ (c!".tmp.") ++ dec (wrap64 mono) in
  let message (e : errno) := (c!"Unable to write LaunchDaemon plist: ") ++ strerror e in
  if negb (fits SYSEBA_PATH_MAX temporary) then ret (Some [])
  else
    let* file := syseba_open_exclusive_write temporary 420 in
    match file with
    | None => let* e := get_errno in ret (Some (message e))
    | Some k =>
        let* written := write_file k content in
        let* moded := (if written then sys_chmod temporary 420 else ret false) in
        let* replaced := (if moded then syseba_atomic_replace temporary path else ret false) in
        if replaced then ret None
        else
          sys_unlink temporary ;;;
          (let* e := get_errno in ret (Some (message e)))
    end.

(** The calls of [launchctl] that were made are part of the state. *)
#[local] Instance lens_mac_os : Lens (list (list cstr) * os) os.
Proof. refine {| lget := snd; lset t s := (fst s, t) |}; [done|by intros []|done]. Defined.

Definition syseba_launchctl (action domain_or_target : cstr) (path : option cstr) :
    ST (list (list cstr) * os) bool :=
  let arguments := [action; domain_or_target] ++ option_list path in
  modify (fun '(calls, s) => (calls ++ [arguments], s)) ;;;
  ret (launchctl arguments).

Definition service_label : cstr := c!"com.okno.syseba".
Definition service_target : cstr := (c!"system/") ++ service_label.

(** [launchctl bootstrap], [enable] and [kickstart], until one fails. *)
Definition start_daemon : ST (list (list cstr) * os) bool :=
  let* bootstrapped := syseba_launchctl (c!"bootstrap") (c!"system") (Some plist_path) in
  let* enabled :=
    (if bootstrapped then syseba_launchctl (c!"enable") service_target None else ret false) in
  if enabled then syseba_launchctl (c!"kickstart") (c!"-k") (Some service_target) else ret false.

(** [euid] is the effective user, [executable] the path that [_NSGetExecutablePath] gives. *)
Definition syseba_mac_service_install (euid : Z) (executable : option cstr)
    (options : syseba_options_t) : ST (list (list cstr) * os) (option failure) :=
  if negb (euid =? 0) then
    ret (Some (SYSEBA_ERR_PERMISSION, c!"service-install must be run as root"))
  else
    let* result := zoom (syseba_config_load (op_config_path options)) in
    match result with
    | inl (_, message) => ret (Some (SYSEBA_ERR_INVALID, message))
    | inr loaded =>
        let* resolved :=
          (match executable with
           | None => ret None
           | Some executable => zoom (sys_realpath executable)
           end) in
        match resolved ≫= (fun executable => service_plist executable options loaded) with
        | None => ret (Some (SYSEBA_ERR_INVALID, c!"A LaunchDaemon path is invalid or too long"))
        | Some None => ret (Some (SYSEBA_ERR_INVALID, c!"LaunchDaemon plist is too large"))
        | Some (Some plist) =>
            let* made := zoom (syseba_mkdirs (c!"/usr/local/var/log/syseba") 488) in
            if negb made then ret (Some (SYSEBA_ERR, []))
            else
              let* written := zoom (syseba_write_plist plist_path plist) in
              match written with
              | Some message => ret (Some (SYSEBA_ERR, message))
              | None =>
                  syseba_launchctl (c!"bootout") service_target None ;;;
                  (let* started := start_daemon in
                   ret (if started then None
                        else Some (SYSEBA_ERR,
                               c!"Plist installed, but launchctl could not start SySeBa")))
              end
        end
    end.

(** ** Restarting *)

Definition syseba_mac_restart_available (euid : Z) : ST os bool :=
  if euid =? 0 then sys_access (c!"/bin/launchctl") else ret false.

Definition syseba_mac_restart_command : cstr := c!"sudo launchctl kickstart -k system/com.okno.syseba".

(** The child that [fork] makes restarts the service after 750 ms. *)
Definition syseba_mac_request_restart (euid : Z) (forked : bool) : ST os (option cstr) :=
  let* available := syseba_mac_restart_available euid in
  if negb available then ret (Some ((c!"Run: ") ++ syseba_mac_restart_command))
  else if negb forked then
    let* e := get_errno in
    ret (Some ((c!"Unable to schedule restart: ") ++ strerror e))
  else ret None.
End ServiceMac.
