(* ===== verification/Json.v ===== *)
(** * Documents and floating-point numbers

    What the program uses of cJSON (its values, and its parser and printer as
    parameters) and of the C type [double]. *)

From Stdlib Require Import QArith_base Qabs.
From S2P Require Import Prelude CString AppState.

(** ** Doubles

    A finite value is a rational.  Rounding is to the nearest, ties to even, with 53
    bits; the numbers here are far from overflow and from the subnormal range. *)

Definition round_half_even (n d : Z) : Z :=
  let q := n / d in
  let r := 2 * (n mod d) in
  if r <? d then q else if d <? r then q + 1 else if Z.even q then q else q + 1.

(** [n / d] scaled by a power of two. *)
Definition scale_num (n e : Z) : Z := if e <? 0 then n * 2 ^ (- e) else n.
Definition scale_den (d e : Z) : Z := if e <? 0 then d else d * 2 ^ e.

Definition to_double (q : Q) : Q :=
  let n := Z.abs (Qnum q) in
  let d := Zpos (Qden q) in
  if n =? 0 then 0%Q
  else
    let e := Z.log2 n - Z.log2 d - 52 in
    let e := if scale_num n e / scale_den d e <? 2 ^ 52 then e - 1 else e in
    let m := round_half_even (scale_num n e) (scale_den d e) in
    let m := if Qnum q <? 0 then - m else m in
    if e <? 0 then Qmake m (Z.to_pos (2 ^ (- e))) else inject_Z (m * 2 ^ e).

(** [(double)n], and the operations on finite doubles. *)
Definition d_of_Z (n : Z) : Q := to_double (inject_Z n).
Definition d_mul (a b : Q) : Q := to_double (Qmult a b).
Definition d_div (a b : Q) : Q := to_double (Qdiv a b).

Definition negative (d : double) : bool :=
  match d with DNan => false | DInf n => n | DFin q => Qnum q <? 0 end.

(** ** Documents *)

Inductive json : Type :=
  | JNull
  | JBool (b : bool)
  | JNumber (d : double)
  | JString (s : cstr)
  | JArray (items : list json)
  | JObject (fields : list (cstr * json)).

(** cJSON's parser and printer. *)
Class CJson := {
  cJSON_Parse : cstr -> option json;
  cJSON_PrintUnformatted : json -> option cstr;
}.

Definition JUnsigned (n : Z) : json := JNumber (DFin (d_of_Z n)).

Fixpoint field (fields : list (cstr * json)) (name : cstr) : option json :=
  match fields with
  | [] => None
  | (key, value) :: rest => if streq key name then Some value else field rest name
  end.

(** The first field of that name. *)
Definition cJSON_GetObjectItemCaseSensitive (j : json) (name : cstr) : option json :=
  match j with JObject fields => field fields name | _ => None end.

(** The first field of that name in any case: [cJSON_DetachItemFromObject] looks for it so. *)
Fixpoint field_any_case (fields : list (cstr * json)) (name : cstr) : option json :=
  match fields with
  | [] => None
  | (key, value) :: rest => if strcaseeq name key then Some value else field_any_case rest name
  end.
Definition cJSON_DetachItemFromObject (j : json) (name : cstr) : option json :=
  match j with JObject fields => field_any_case fields name | _ => None end.
