(* ===== verification/Status.v ===== *)
(** * The status document (src/src/app.c, second part)

    [syseba_app_status_json] and the difference between the active and the saved
    configuration.  *)

From Stdlib Require Import QArith_base.
From S2P Require Import Prelude CString Paths Os Platform Fs Config Queue AppState Log App Json Service.

(** What the host says of itself: [statvfs] of a path and the text of
    [/proc/self/status]. *)
Class Host := {
  statvfs : cstr -> option (Z * Z * Z);
  proc_self_status : option cstr;
}.

(** ** Platform (src/src/platform.c) *)

Definition used_percent (u : syseba_disk_usage_t) : Q :=
  if du_total u =? 0 then 0%Q
  else d_div (d_mul (d_of_Z (du_used u)) (inject_Z 100)) (d_of_Z (du_total u)).

(** [sscanf(line, "Name: %lu...", &value) == 1]. *)
Definition scan_field (name line : cstr) : option Z :=
  if starts_with name line then
    let parsed := strtoul (drop (length name) line) in
    match pu_end parsed with Some _ => Some (pu_value parsed) | None => None end
  else None.

Record metrics := Metrics {
  mt_cpu : double;
  mt_memory : double;
  mt_threads : Z;
}.
Definition no_metrics : metrics := Metrics (DFin (inject_Z (-1))) (DFin (inject_Z (-1))) 0.

Definition metrics_line (m : metrics) (line : cstr) : metrics :=
  let m := match scan_field (c!"VmRSS:") line with
           | Some value => Metrics (mt_cpu m) (DFin (d_div (d_of_Z value) (inject_Z 1024))) (mt_threads m)
           | None => m
           end in
  match scan_field (c!"Threads:") line with
  | Some value => Metrics (mt_cpu m) (mt_memory m) (wrap32 value)
  | None => m
  end.

(** [fgets] with a buffer of 256 bytes. *)
Fixpoint metrics_lines (fuel : nat) (m : metrics) (text : cstr) : metrics :=
  match fuel, text with
  | S fuel', _ :: _ =>
      let '(line, rest) := take_line 255 text in
      metrics_lines fuel' (metrics_line m line) rest
  | _, _ => m
  end.

Definition syseba_process_metrics (status : option cstr) : metrics :=
  match status with
  | None => no_metrics
  | Some text => metrics_lines (length text) no_metrics text
  end.

(** ** The document *)

Definition string_or_null (s : cstr) : json := match s with [] => JNull | _ => JString s end.
Definition number_or_null (d : double) : json := if negative d then JNull else JNumber d.

(** [syseba_json_add_config]: the object that is added. *)
Definition config_object (config : syseba_config_t) : json :=
  JObject
    [ (c!"source", JString (cfg_source config));
      (c!"backup", JString (cfg_backup config));
      (c!"restore", JString (cfg_restore config));
      (c!"log_file", JString (cfg_log_file config));
      (c!"threads", JUnsigned (cfg_threads config));
      (c!"config_path", JString (cfg_config_path config)) ].

Section Status.
Context `{Host} `{Strerror} `{Clock} `{Environment} `{CJson}.

Definition disk_object (path : cstr) : json :=
  let usage := syseba_disk_usage (statvfs path) in
  let number f := match usage with Some u => JNumber (DFin (f u)) | None => JUnsigned 0 end in
  JObject
    [ (c!"path", JString path);
      (c!"exists", JBool (match usage with Some u => du_exists u | None => false end));
      (c!"used_percent", number used_percent);
      (c!"total", number (fun u => d_of_Z (du_total u)));
      (c!"used", number (fun u => d_of_Z (du_used u)));
      (c!"free", number (fun u => d_of_Z (du_free_bytes u))) ].

(** A field whose saved value differs. *)
Definition string_change (key active saved : cstr) : list (cstr * json) :=
  if streq active saved then []
  else [(key, JObject [(c!"active", JString active); (c!"saved", JString saved)])].

Definition config_changes (active saved : syseba_config_t) : list (cstr * json) :=
  string_change (c!"source") (cfg_source active) (cfg_source saved)
  ++ string_change (c!"backup") (cfg_backup active) (cfg_backup saved)
  ++ string_change (c!"restore") (cfg_restore active) (cfg_restore saved)
  ++ string_change (c!"log_file") (cfg_log_file active) (cfg_log_file saved)
  ++ (if cfg_threads active =? cfg_threads saved then []
      else [(c!"threads", JObject [(c!"active", JUnsigned (cfg_threads active));
                                   (c!"saved", JUnsigned (cfg_threads saved))])]).

Definition set_restart_required (required : bool) : ST syseba_app_t unit :=
  modify (fun a =>
    let w := app_web a in
    with_web (WebState (ws_token w) (ws_token_source w) (ws_auth_enabled w) required) a).

(** [syseba_json_add_config_state]: whether a restart is required, and the object. *)
Definition config_state : ST syseba_app_t (bool * json) :=
  let* previous := gets (fun a => ws_restart_required (app_web a)) in
  let* active := gets app_config in
  let* loaded := zoom (syseba_config_load (cfg_config_path active)) in
  match loaded with
  | inl _ =>
      ret (previous,
           JObject [(c!"active", config_object active); (c!"saved", JNull);
                    (c!"changes", JObject []); (c!"restart_required", JBool previous)])
  | inr saved =>
      let changes := config_changes active saved in
      let required := match changes with [] => false | _ => true end in
      set_restart_required required ;;;
      ret (required,
           JObject [(c!"active", config_object active); (c!"saved", config_object saved);
                    (c!"changes", JObject changes); (c!"restart_required", JBool required)])
  end.

(** [initial_percent]; negative when it is not known. *)
Definition initial_percent (s : syseba_stats_t) (state : cstr) : double :=
  if 0 <? initial_total s then
    DFin (d_div (d_mul (d_of_Z (initial_done s)) (inject_Z 100)) (d_of_Z (initial_total s)))
  else if starts_with (c!"completed") state then DFin (inject_Z 100)
  else DFin (inject_Z (-1)).

Definition stats_object (s : syseba_stats_t) : json :=
  JObject
    [ (c!"queued_events", JUnsigned (queued_events s));
      (c!"copied", JUnsigned (copied s));
      (c!"updated", JUnsigned (updated s));
      (c!"deleted", JUnsigned (deleted s));
      (c!"restored", JUnsigned (restored s));
      (c!"skipped", JUnsigned (skipped s));
      (c!"errors", JUnsigned (errors s));
      (c!"initial_total", JUnsigned (initial_total s));
      (c!"initial_done", JUnsigned (initial_done s));
      (c!"initial_copied", JUnsigned (initial_copied s));
      (c!"initial_skipped", JUnsigned (initial_skipped s));
      (c!"initial_running", JBool (initial_running s)) ].

Definition initial_object (s : syseba_stats_t) (i : initial_status) (percent : double) : json :=
  JObject
    [ (c!"state", JString (is_state i));
      (c!"percent", number_or_null percent);
      (c!"total", JUnsigned (initial_total s));
      (c!"done", JUnsigned (initial_done s));
      (c!"started_at", string_or_null (is_started_at i));
      (c!"completed_at", string_or_null (is_completed_at i));
      (c!"error", string_or_null (is_error i)) ].

Definition process_object (m : metrics) (worker_count queue_size : Z) : json :=
  JObject
    [ (c!"cpu_percent", number_or_null (mt_cpu m));
      (c!"memory_mb", number_or_null (mt_memory m));
      (c!"threads", JUnsigned (if mt_threads m =? 0 then worker_count + 3 else mt_threads m));
      (c!"queue_size", JUnsigned queue_size) ].

Definition SYSEBA_APP_NAME : cstr := c!"SySeBa".
Definition SYSEBA_VERSION : cstr := c!"2.0.0".

(** The fields of the document, from a state [a] of the application. *)
Definition status_object (a : syseba_app_t) (state : bool * json) (lock_exists managed available : bool) :
    json :=
  let s := app_stats a in
  let i := app_initial a in
  let config := app_config a in
  let percent := initial_percent s (is_state i) in
  let m := syseba_process_metrics proc_self_status in
  let pid := JUnsigned (os_pid (app_os a)) in
  JObject
    [ (c!"app", JString SYSEBA_APP_NAME);
      (c!"version", JString SYSEBA_VERSION);
      (c!"running", JBool (app_running a));
      (c!"web_only", JBool (ao_web_only (app_options_ a)));
      (c!"pid", pid);
      (c!"lockfile", JString (ao_lock_path (app_options_ a)));
      (c!"db_path", JString (ao_db_path (app_options_ a)));
      (c!"uptime", JString (syseba_format_uptime
         (wrap64 (wrap64 (os_mono (app_os a)) - app_started_ns a) / 1000000000)));
      (c!"started_at", JString (app_started_at a));
      (c!"now", JString (truncate 32 (iso_now (os_time (app_os a)))));
      (c!"last_event_at", string_or_null (app_last_event_at a));
      (c!"config", config_object config);
      (c!"config_state", snd state);
      (c!"restart_required", JBool (fst state));
      (c!"disk", JObject [(c!"source", disk_object (cfg_source config));
                          (c!"backup", disk_object (cfg_backup config));
                          (c!"restore", disk_object (cfg_restore config))]);
      (c!"process", process_object m (default 0 (th_workers (app_threads a)))
                      (syseba_queue_size (app_event_queue a)));
      (c!"stats", stats_object s);
      (c!"initial_sync_percent", number_or_null percent);
      (c!"initial_sync", initial_object s i percent);
      (c!"recent_logs", JArray (map JString (recent_read 20 (app_recent a))));
      (c!"external_lock", JObject [(c!"exists", JBool lock_exists); (c!"pid", pid);
                                   (c!"running", JBool (app_running a))]);
      (c!"service", JObject [(c!"managed", JBool managed);
                             (c!"restart_available", JBool available);
                             (c!"name", JString (c!"syseba.service"));
                             (c!"restart_command", JString syseba_service_restart_command)]) ].

Definition syseba_app_status_json : ST syseba_app_t (option cstr) :=
  let* a := gets id in
  let* state := config_state in
  let* lock_exists := zoom (syseba_fs_exists (ao_lock_path (app_options_ a))) in
  let* managed := zoom syseba_service_restart_available in
  let* available := zoom syseba_service_restart_available in
  ret (cJSON_PrintUnformatted (status_object a state lock_exists managed available)).
End Status.
