(* ===== verification/Token.v ===== *)
(** * The access token of the Web UI (src/src/web.c, first part)

    Where the token comes from, and who is let in.  Lemmas are in TokenFacts. *)

From S2P Require Import Prelude CString Paths Os Platform Fs Config AppState Log App Service.

Definition SYSEBA_WEB_TOKEN_MIN : Z := 16.
Definition SYSEBA_TOKEN_MAX : Z := 256.

(** ** Comparing *)

(** [first[index]], or 0 past the end. *)
Definition byte_at (s : cstr) (index : nat) : Z :=
  match s !! index with Some c => code c | None => 0 end.

Fixpoint compare_loop (count index : nat) (first second : cstr) (difference : Z) : Z :=
  match count with
  | O => difference
  | S count' =>
      compare_loop count' (S index) first second
        (Z.lor difference (Z.lxor (byte_at first index) (byte_at second index)))
  end.

Definition syseba_constant_time_equal (first second : cstr) : bool :=
  let first_length := zlen first in
  let second_length := zlen second in
  let length := if second_length <? first_length then first_length else second_length in
  let difference := wrap32 (Z.lxor first_length second_length) in
  compare_loop (Z.to_nat length) 0 first second difference =? 0.

(** ** Requests *)

(** What civetweb knows of a request.  [rq_reads] are the pieces that [mg_read]
    delivers, [rq_header] is [mg_get_header]. *)
Record mg_request_info := Request {
  rq_method : cstr;
  rq_request_uri : cstr;
  rq_local_uri : option cstr;
  rq_query_string : option cstr;
  rq_content_length : Z;
  rq_header : cstr -> option cstr;
  rq_reads : list cstr;
}.

(** [strncasecmp(value, "Bearer ", 7) == 0]. *)
Definition is_bearer (value : cstr) : bool :=
  strcasecmp (take 7 value) (c!"Bearer ") =? 0.

Definition syseba_http_authorized (request : mg_request_info) (a : syseba_app_t) : bool :=
  let w := app_web a in
  if negb (ws_auth_enabled w) then true
  else
    match rq_header request (c!"X-SySeBa-Token") with
    | Some supplied => syseba_constant_time_equal supplied (ws_token w)
    | None => false
    end
    || match rq_header request (c!"Authorization") with
       | Some authorization =>
           (7 <? zlen authorization) && is_bearer authorization
           && syseba_constant_time_equal (drop 7 authorization) (ws_token w)
       | None => false
       end.

(** ** The text of a token *)

Definition syseba_trim_token (value : cstr) : cstr :=
  rev (drop_while isspace (rev (drop_while isspace value))).

Definition token_char (c : ascii) : bool := (33 <=? code c) && (code c <=? 126).

Definition syseba_web_token_valid (token : cstr) : bool :=
  let length := zlen token in
  negb ((length <? SYSEBA_WEB_TOKEN_MIN) || (SYSEBA_TOKEN_MAX <=? length))
  && forallb token_char token.

Definition syseba_web_host_is_loopback (host : cstr) : bool :=
  streq host (c!"127.0.0.1") || streq host (c!"::1") || streq host (c!"[::1]")
  || streq host (c!"localhost").

(** [snprintf(app->web_token, sizeof(app->web_token), "%s", token)], when it fits. *)
Definition valid_token (token : cstr) : option cstr :=
  if syseba_web_token_valid token && fits SYSEBA_TOKEN_MAX token then Some token else None.

(** ** The token file *)

Definition TOKEN_BUFFER : Z := SYSEBA_TOKEN_MAX + 32.

Definition syseba_web_read_token (path : cstr) : ST os (option cstr) :=
  let* opened := syseba_open_regular_read path in
  match opened with
  | None => ret None
  | Some (k, _) =>
      let* file := sys_stream k in
      let buffer := take_upto (TOKEN_BUFFER - 1) (sm_data file) in
      let full := zlen buffer =? TOKEN_BUFFER - 1 in
      if full || sm_failed file then set_errno EINVAL ;;; ret None
      else
        match valid_token (syseba_trim_token (until_nul buffer)) with
        | None => set_errno EINVAL ;;; ret None
        | Some token => ret (Some token)
        end
  end.

(** [%02x]. *)
Definition hex_digit (n : Z) : ascii := if n <? 10 then chr (48 + n) else chr (87 + n).
Definition hex2 (n : Z) : cstr := [hex_digit (n / 16); hex_digit (n mod 16)].

Definition syseba_set_private_permissions (path : cstr) : ST os bool := sys_chmod path 384.

Definition token_file (path token : cstr) : ST os bool :=
  match syseba_parent_dir path SYSEBA_PATH_MAX with
  | None => ret false
  | Some parent =>
      let* made := syseba_mkdirs parent 488 in
      if negb made then ret false
      else
        let* mono := sys_monotonic in
        let temporary := path ++ (c!".tmp.") ++ dec (wrap64 mono) in
        if negb (fits SYSEBA_PATH_MAX temporary) then ret false
        else
          let* file := syseba_open_exclusive_write temporary 384 in
          match file with
          | None => ret false
          | Some k =>
              let* written := write_file k (token ++ [NEWLINE]) in
              if negb written then sys_unlink temporary ;;; ret false
              else
                let* secured := syseba_set_private_permissions temporary in
                if negb secured then sys_unlink temporary ;;; ret false
                else
                  let* replaced := syseba_atomic_replace temporary path in
                  if negb replaced then sys_unlink temporary ;;; ret false
                  else syseba_set_private_permissions path
          end
  end.

(** The result says whether the file was written, the token is set before. *)
Definition syseba_web_create_token (device : random_device) (path : cstr) :
    ST os (option cstr * bool) :=
  let* random := syseba_random_bytes device 32 in
  match random with
  | None => ret (None, false)
  | Some random =>
      let token := flat_map hex2 random in
      let* written := token_file path token in
      ret (Some token, written)
  end.

(** ** Choosing the token *)

Section Load.
Context `{Strerror} `{Environment}.

Definition set_web (f : web_state -> web_state) : ST syseba_app_t unit :=
  modify (fun a => with_web (f (app_web a)) a).
Definition set_source (source : cstr) : ST syseba_app_t unit :=
  set_web (fun w => WebState (ws_token w) source (ws_auth_enabled w) (ws_restart_required w)).

Definition token_range (name : cstr) : cstr :=
  name ++ (c!" must contain 16-255 printable ASCII characters").

(** The token of the file, which is made when it does not exist. *)
Definition token_from_file (device : random_device) (path : cstr) :
    ST syseba_app_t (option failure) :=
  let* token := zoom (syseba_web_read_token path) in
  match token with
  | Some token =>
      set_web (fun w => WebState token (ws_token_source w) (ws_auth_enabled w)
                          (ws_restart_required w)) ;;;
      (let* secured := zoom (syseba_set_private_permissions path) in
       if secured then set_source (c!"file") ;;; ret None
       else
         let* e := zoom get_errno in
         ret (Some (SYSEBA_ERR_PERMISSION,
              (c!"Unable to secure web token ") ++ path ++ (c!": ") ++ strerror e)))
  | None =>
      let* e := zoom get_errno in
      let* created :=
        (if bool_decide (e = ENOENT) then
           let* result := zoom (syseba_web_create_token device path) in
           set_web (fun w => WebState (default (ws_token w) (fst result)) (ws_token_source w)
                               (ws_auth_enabled w) (ws_restart_required w)) ;;;
           ret (snd result)
         else ret false) in
      if created then set_source (c!"generated-file") ;;; ret None
      else
        let* e := zoom get_errno in
        ret (Some (SYSEBA_ERR,
             (c!"Unable to read/create web token ") ++ path ++ (c!": ") ++ strerror e))
  end.

(** The token of an argument or of the environment. *)
Definition token_from_text (name source text : cstr) : ST syseba_app_t (option failure) :=
  match valid_token text with
  | None => ret (Some (SYSEBA_ERR_INVALID, token_range name))
  | Some token =>
      set_web (fun w => WebState token source (ws_auth_enabled w) (ws_restart_required w)) ;;;
      ret None
  end.

Definition syseba_web_load_token (device : random_device) (options : syseba_options_t) :
    ST syseba_app_t (option failure) :=
  if op_no_web_auth options then
    if negb (syseba_web_host_is_loopback (op_web_host options)) then
      ret (Some (SYSEBA_ERR_INVALID, c!"--no-web-auth is permitted only on a loopback address"))
    else
      set_web (fun w => WebState (ws_token w) (c!"disabled") false (ws_restart_required w)) ;;;
      ret None
  else
    set_web (fun w => WebState (ws_token w) (ws_token_source w) true (ws_restart_required w)) ;;;
    match op_explicit_token options, getenv (c!"SYSEBA_WEB_TOKEN") with
    | _ :: _, _ => token_from_text (c!"Web token") (c!"argument") (op_explicit_token options)
    | [], Some (c :: r) => token_from_text (c!"SYSEBA_WEB_TOKEN") (c!"environment") (c :: r)
    | [], _ => token_from_file device (op_token_path options)
    end.
End Load.
