(* ===== verification/Web.v ===== *)
(** * The Web UI (src/src/web.c, second part)

    The handlers of the HTTP requests.  civetweb and cJSON are parameters; buffers and
    documents are always allocated.  Lemmas are in WebFacts. *)

From Stdlib Require Import QArith_base.
From S2P Require Import Prelude CString Paths Os Platform Fs Config FsTree Restore Queue AppState Log LogFacts App Json Service Status Token.

(** [mg_get_var]: the decoded value of a variable, unless it is absent or does not
    fit. *)
Class Civetweb := mg_get_var : cstr -> cstr -> Z -> option cstr.

(** The files of web/ that the build turns into arrays. *)
Class Assets := {
  syseba_asset_html : cstr;
  syseba_asset_js : cstr;
  syseba_asset_logo : cstr;
}.

(** A connection: what [mg_printf] and [mg_write] answer to the next writes ([true]
    when nothing is said), and the bytes that were written. *)
Record mg_connection := Connection {
  mc_writes : list bool;
  mc_output : cstr;
}.

#[export] Instance lens_conn_app : Lens (mg_connection * syseba_app_t) syseba_app_t.
Proof. refine {| lget := snd; lset t s := (fst s, t) |}; [done|by intros []|done]. Defined.
#[export] Instance lens_conn_os : Lens (mg_connection * syseba_app_t) os.
Proof.
  refine {| lget s := app_os (snd s); lset t s := (fst s, with_os t (snd s)) |};
    [done|by intros [? []]|done].
Defined.

Notation WEB := (ST (mg_connection * syseba_app_t)).

Definition mg_write (bytes : cstr) : WEB bool :=
  fun '(c, a) =>
    match mc_writes c with
    | false :: rest => (false, (Connection rest (mc_output c), a))
    | _ => (true, (Connection (drop 1 (mc_writes c)) (mc_output c ++ bytes), a))
    end.

(** ** Answers *)

(** A text whose double quotes are written as single ones. *)
Definition dq (s : cstr) : cstr := map (fun c => if ceq c "'"%char then QUOTE else c) s.
Definition CRLF : cstr := [RETURN; NEWLINE].

Definition syseba_http_reason (status : Z) : cstr :=
  if status =? 200 then c!"OK"
  else if status =? 400 then c!"Bad Request"
  else if status =? 401 then c!"Unauthorized"
  else if status =? 403 then c!"Forbidden"
  else if status =? 404 then c!"Not Found"
  else if status =? 409 then c!"Conflict"
  else if status =? 413 then c!"Payload Too Large"
  else if status =? 500 then c!"Internal Server Error"
  else if status =? 503 then c!"Service Unavailable"
  else c!"Error".

Definition http_head (status : Z) (content_type : cstr) (body_size : Z) (extra : cstr) : cstr :=
  (c!"HTTP/1.1 ") ++ dec status ++ (c!" ") ++ syseba_http_reason status ++ CRLF
  ++ (c!"Content-Type: ") ++ content_type ++ CRLF
  ++ (c!"Content-Length: ") ++ dec body_size ++ CRLF
  ++ (c!"Cache-Control: no-store") ++ CRLF
  ++ (c!"X-Content-Type-Options: nosniff") ++ CRLF
  ++ (c!"X-Frame-Options: DENY") ++ CRLF
  ++ (c!"Referrer-Policy: no-referrer") ++ CRLF
  ++ (c!"Content-Security-Policy: default-src 'self'; script-src 'self'; style-src 'self' 'unsafe-inline'; img-src 'self' data:; object-src 'none'; base-uri 'none'; frame-ancestors 'none'; form-action 'self'")
  ++ CRLF ++ extra ++ (c!"Connection: close") ++ CRLF ++ CRLF.

Definition syseba_http_send (status : Z) (content_type body extra : cstr) : WEB Z :=
  let* printed := mg_write (http_head status content_type (zlen body) extra) in
  if negb printed then ret (-1)
  else
    let* written := (if 0 <? zlen body then mg_write body else ret true) in
    ret (if written then status else -1).

Definition syseba_http_send_json_text (status : Z) (json extra : cstr) : WEB Z :=
  syseba_http_send status (c!"application/json; charset=utf-8") json extra.

Section Web.
Context `{DirOrder} `{IsoTime} `{Qsort} `{LocalStamp} `{Host} `{Strerror} `{Clock} `{Environment} `{CJson}.
Context `{Civetweb} `{Assets} `{!Allocator syseba_log_record_t}.
Context (unknown : cstr).

Definition syseba_http_send_json (status : Z) (json : json) (extra : cstr) : WEB Z :=
  match cJSON_PrintUnformatted json with
  | None =>
      syseba_http_send_json_text 500
        (dq (c!"{'ok':false,'code':'internal_error','error':'Unable to serialize response'}")) []
  | Some body => syseba_http_send_json_text status body extra
  end.

(** The buffer of an error message. *)
Definition ERROR_MAX : Z := 1024.

Definition syseba_http_error (status : Z) (code message : cstr) : WEB Z :=
  syseba_http_send_json status
    (JObject [(c!"ok", JBool false); (c!"code", JString code); (c!"error", JString message)]) [].

(** 0 lets the request in. *)
Definition syseba_http_require_auth (request : mg_request_info) : WEB Z :=
  let* a := gets snd in
  if syseba_http_authorized request a then ret 0
  else
    syseba_http_send_json 401
      (JObject [(c!"ok", JBool false);
                (c!"error", JString (syseba_tr (language_of a) (c!"Autenticazione richiesta.")
                                       (c!"Authentication required.")))])
      (dq (c!"WWW-Authenticate: Bearer realm='SySeBa'") ++ CRLF).

(** ** Queries *)

(** The value, and whether the fallback fits. *)
Definition syseba_query_value (request : mg_request_info) (name fallback : cstr) (size : Z) :
    cstr * bool :=
  let fall := (truncate size fallback, fits size fallback) in
  match rq_query_string request with
  | None => fall
  | Some query =>
      match mg_get_var query name size with None => fall | Some value => (value, true) end
  end.

Definition syseba_query_unsigned (request : mg_request_info) (name : cstr)
    (fallback maximum : Z) : Z :=
  let '(value, ok) := syseba_query_value request name [] 32 in
  if negb ok || negb (nonempty value) then fallback
  else
    let parsed := strtoul value in
    match pu_end parsed with
    | Some [] =>
        if pu_erange parsed || (pu_value parsed =? 0) then fallback
        else if maximum <? pu_value parsed then maximum else pu_value parsed
    | _ => fallback
    end.

(** ** Status, logs and configuration *)

Definition syseba_config_state_json : WEB (option json) :=
  let* status_text := zoom syseba_app_status_json in
  ret match status_text with
      | None => None
      | Some text =>
          match cJSON_Parse text with
          | None => None
          | Some status => cJSON_DetachItemFromObject status (c!"config_state")
          end
      end.

Definition syseba_http_status : WEB Z :=
  let* json := zoom syseba_app_status_json in
  match json with
  | None => syseba_http_error 500 (c!"internal_error") (c!"Unable to build status")
  | Some json => syseba_http_send_json_text 200 json []
  end.

Definition syseba_http_logs (request : mg_request_info) : WEB Z :=
  let requested := syseba_query_unsigned request (c!"lines") 200 2000 in
  let* config := gets (fun s => app_config (snd s)) in
  let* lines := zoom (syseba_log_tail (cfg_log_file config) requested) in
  syseba_http_send_json 200
    (JObject [(c!"lines", JArray (map JString (default [] lines)))]) [].

Definition syseba_http_config_get : WEB Z :=
  let* config := gets (fun s => app_config (snd s)) in
  let* loaded := zoom (syseba_config_load (cfg_config_path config)) in
  match loaded with
  | inl (_, error) => syseba_http_error 500 (c!"config_error") (truncate 512 error)
  | inr config => syseba_http_send_json 200 (config_object config) []
  end.

Definition SYSEBA_MAX_JSON_BODY : Z := 64 * 1024.

(** The loop on [mg_read], while [missing] bytes are expected. *)
Fixpoint read_body (reads : list cstr) (missing : Z) : option cstr :=
  if missing <=? 0 then Some []
  else
    match reads with
    | [] | [] :: _ => None
    | piece :: rest =>
        let piece := take_upto missing piece in
        match read_body rest (missing - zlen piece) with
        | None => None
        | Some body => Some (piece ++ body)
        end
    end.

(** The status and the message of a refusal, or the object. *)
Definition syseba_http_read_json (request : mg_request_info) : (Z * cstr) + json :=
  let length := rq_content_length request in
  if (length <? 0) || (SYSEBA_MAX_JSON_BODY <? length) then
    inl (if SYSEBA_MAX_JSON_BODY <? length then 413 else 400, c!"Invalid request body size")
  else
    match read_body (rq_reads request) length with
    | None => inl (400, c!"Incomplete request body")
    | Some body =>
        match cJSON_Parse body with
        | Some (JObject fields) => inr (JObject fields)
        | _ => inl (400, c!"Invalid JSON object")
        end
    end.

(** The new text of a path, [old] when the field is absent. *)
Definition syseba_json_copy_path (root : json) (name old : cstr) : cstr + cstr :=
  match cJSON_GetObjectItemCaseSensitive root name with
  | None => inr old
  | Some (JString (c :: r)) =>
      if fits SYSEBA_PATH_MAX (c :: r) then inr (c :: r) else inl ((c!"Invalid ") ++ name)
  | Some _ => inl ((c!"Invalid ") ++ name)
  end.

(** [strtol] base 10 and the text at its end pointer. *)
Definition strtol (s : cstr) : option (Z * cstr) :=
  let s1 := drop_while isspace s in
  let '(minus, s2) :=
    match s1 with
    | c :: r => if ceq c "-"%char then (true, r) else if ceq c "+"%char then (false, r) else (false, s1)
    | [] => (false, s1)
    end in
  let '(digits, rest) := span isdigit s2 in
  match digits with
  | [] => None
  | _ =>
      let v := digits_val digits in
      Some (if minus then Z.max (- v) (- 2 ^ 63) else Z.min v (2 ^ 63 - 1), rest)
  end.

(** [(long)value], 0 unless it is that number; out of range C leaves it open, and no
    result is accepted. *)
Definition whole_number (d : double) : Z :=
  match d with
  | DFin q =>
      let z := Z.quot (Qnum q) (Zpos (Qden q)) in
      if (z * Zpos (Qden q) =? Qnum q) && (- 2 ^ 63 <=? z) && (z <? 2 ^ 63) then z else 0
  | _ => 0
  end.

(** The field "threads": [None] when it is refused. *)
Definition json_threads (root : json) (old : Z) : option Z :=
  match cJSON_GetObjectItemCaseSensitive root (c!"threads") with
  | None => Some old
  | Some value =>
      let parsed :=
        match value with
        | JNumber d => whole_number d
        | JString text => match strtol text with Some (n, []) => n | _ => 0 end
        | _ => 0
        end in
      if (parsed <? 1) || (SYSEBA_MAX_THREADS <? parsed) then None else Some parsed
  end.

(** The four paths, until one is refused. *)
Definition json_config (root : json) (config : syseba_config_t) : cstr + syseba_config_t :=
  match syseba_json_copy_path root (c!"source") (cfg_source config) with
  | inl e => inl e
  | inr source =>
  match syseba_json_copy_path root (c!"backup") (cfg_backup config) with
  | inl e => inl e
  | inr backup =>
  match syseba_json_copy_path root (c!"restore") (cfg_restore config) with
  | inl e => inl e
  | inr restore =>
  match syseba_json_copy_path root (c!"log_file") (cfg_log_file config) with
  | inl e => inl e
  | inr log_file =>
      match json_threads root (cfg_threads config) with
      | None => inl (c!"threads must be between 1 and 64")
      | Some threads => inr (Config source backup restore log_file (cfg_config_path config) threads)
      end
  end end end end.

Definition config_differs (candidate active : syseba_config_t) : bool :=
  negb (streq (cfg_source candidate) (cfg_source active))
  || negb (streq (cfg_backup candidate) (cfg_backup active))
  || negb (streq (cfg_restore candidate) (cfg_restore active))
  || negb (streq (cfg_log_file candidate) (cfg_log_file active))
  || negb (cfg_threads candidate =? cfg_threads active).

(** The end of the handler, once the configuration is saved. *)
Definition post_answer (language : syseba_language_t) (candidate active : syseba_config_t) : WEB Z :=
  zoom (set_restart_required (config_differs candidate active)) ;;;
  zoom (syseba_log_emit (c!"INFO") (c!"CONFIG") (cfg_config_path active) [] []
          (syseba_tr language (c!"Configurazione aggiornata dalla Web UI")
             (c!"Configuration updated from Web UI"))) ;;;
  (let* state := syseba_config_state_json in
   match state with
   | None =>
       syseba_http_error 500 (c!"internal_error")
         (c!"Unable to build configuration response")
   | Some state =>
       let* required := gets (fun s => ws_restart_required (app_web (snd s))) in
       syseba_http_send_json 200
         (JObject
            [ (c!"ok", JBool true);
              (c!"restart_required", JBool required);
              (c!"config", config_object candidate);
              (c!"state", state);
              (c!"message", JString
                 (if required then
                    syseba_tr language
                      (c!"Configurazione salvata. Riavvia SySeBa per applicarla.")
                      (c!"Configuration saved. Restart SySeBa to apply it.")
                  else
                    syseba_tr language
                      (c!"Configurazione salvata e già attiva.")
                      (c!"Configuration saved and already active."))) ]) []
   end).

Definition syseba_http_config_post (request : mg_request_info) : WEB Z :=
  let* active := gets (fun s => app_config (snd s)) in
  let* language := gets (fun s => language_of (snd s)) in
  match syseba_http_read_json request with
  | inl (status, error) => syseba_http_error status (c!"invalid_request") error
  | inr input =>
      match json_config input active with
      | inl error => syseba_http_error 400 (c!"invalid_request") error
      | inr candidate =>
          let* normalized := zoom (syseba_config_normalize candidate) in
          match normalized with
          | inl (_, error) => syseba_http_error 400 (c!"config_error") (truncate ERROR_MAX error)
          | inr candidate =>
              let* saved := zoom (syseba_config_save candidate) in
              match saved with
              | Some (_, error) =>
                  let* e := zoom get_errno in
                  syseba_http_error (if bool_decide (e = EACCES) then 403 else 400)
                    (c!"config_error") (truncate ERROR_MAX error)
              | None =>
                  post_answer language candidate active
              end
          end
      end
  end.

(** ** The restore area *)

Definition size_units : list cstr := [c!"B"; c!"KB"; c!"MB"; c!"GB"; c!"TB"; c!"PB"].

Fixpoint human_unit (fuel : nat) (value : Q) (unit : nat) : Q * nat :=
  match fuel with
  | O => (value, unit)
  | S fuel' =>
      if (1024 * Zpos (Qden value) <=? Qnum value) && (unit + 1 <? 6)%nat
      then human_unit fuel' (d_div value (inject_Z 1024)) (S unit)
      else (value, unit)
  end.

(** [%.1f] of a double that is not negative. *)
Definition fixed1 (value : Q) : cstr :=
  let tenths := round_half_even (10 * Qnum value) (Zpos (Qden value)) in
  dec (tenths / 10) ++ (c!".") ++ dec (tenths mod 10).

Definition syseba_human_size (size : Z) : cstr :=
  let '(value, unit) := human_unit 6 (d_of_Z size) 0 in
  fixed1 value ++ (c!" ") ++ default [] (size_units !! unit).

(** The two fields on the size of an item. *)
Definition size_fields (directory : bool) (size : Z) : list (cstr * json) :=
  if directory then [(c!"size", JNull); (c!"size_human", JString (c!"-"))]
  else [(c!"size", JUnsigned size); (c!"size_human", JString (syseba_human_size size))].

Definition syseba_restore_item_json (item : syseba_restore_item_t) : json :=
  JObject
    ([ (c!"name", JString (ri_name item)); (c!"path", JString (ri_path item));
       (c!"is_dir", JBool (ri_is_directory item)) ]
     ++ size_fields (ri_is_directory item) (ri_size item)
     ++ [ (c!"mtime", JString (ri_mtime item));
          (c!"destination_exists", JBool (ri_destination_exists item)) ]).

Definition query (request : mg_request_info) (name fallback : cstr) (size : Z) : cstr :=
  fst (syseba_query_value request name fallback size).

(** The order that a request asks for. *)
Definition known_sort (sort : cstr) : cstr :=
  if negb (streq sort (c!"name")) && negb (streq sort (c!"mtime")) && negb (streq sort (c!"size"))
  then c!"name" else sort.
Definition known_direction (direction : cstr) : cstr :=
  if streq direction (c!"desc") then direction else c!"asc".

Definition listing_object (listing : syseba_restore_listing_t) (search sort direction : cstr) : json :=
  JObject
    [ (c!"path", JString (rl_path listing));
      (c!"is_file", JBool (rl_is_file listing));
      (c!"items", JArray (map syseba_restore_item_json (rl_items listing)));
      (c!"search", JString search);
      (c!"sort", JString sort);
      (c!"direction", JString direction);
      (c!"page", JUnsigned (rl_page listing));
      (c!"page_size", JUnsigned (rl_page_size listing));
      (c!"pages", JUnsigned (rl_pages listing));
      (c!"total", JUnsigned (rl_total listing));
      (c!"has_previous", JBool (rl_has_previous listing));
      (c!"has_next", JBool (rl_has_next listing)) ].

Definition syseba_http_restore_list (request : mg_request_info) : WEB Z :=
  let page := syseba_query_unsigned request (c!"page") 1 U32_MAX in
  let page_size := syseba_query_unsigned request (c!"page_size") SYSEBA_DEFAULT_RESTORE_PAGE
                     SYSEBA_MAX_RESTORE_PAGE in
  let path := query request (c!"path") [] SYSEBA_PATH_MAX in
  let search := query request (c!"search") [] 512 in
  let sort := known_sort (query request (c!"sort") (c!"name") 16) in
  let direction := known_direction (query request (c!"direction") (c!"asc") 8) in
  let* config := gets (fun s => app_config (snd s)) in
  let* result := zoom (syseba_restore_list unknown config (Some path) (Some search) page page_size
                         sort direction) in
  match result with
  | inl (code, error) =>
      if bool_decide (code = SYSEBA_ERR_NOT_FOUND)
      then syseba_http_error 404 (c!"not_found") (truncate ERROR_MAX error)
      else syseba_http_error 400 (c!"invalid_request") (truncate ERROR_MAX error)
  | inr listing => syseba_http_send_json 200 (listing_object listing search sort direction) []
  end.

Definition syseba_http_restore_info (request : mg_request_info) : WEB Z :=
  let relative := query request (c!"path") [] SYSEBA_PATH_MAX in
  let invalid := syseba_http_error 400 (c!"invalid_request") (c!"Invalid restore item path") in
  let* config := gets (fun s => app_config (snd s)) in
  if negb (nonempty relative) then invalid
  else
    let* source := zoom (syseba_safe_join (cfg_restore config) (Some relative) SYSEBA_PATH_MAX) in
    match source with None => invalid | Some source =>
    let* destination := zoom (syseba_safe_join (cfg_source config) (Some relative) SYSEBA_PATH_MAX) in
    match destination with None => invalid | Some destination =>
    let* information := zoom (syseba_fs_stat source) in
    match information with
    | None => syseba_http_error 404 (c!"not_found") (c!"Restore item not found")
    | Some i =>
        let* present := zoom (syseba_fs_exists destination) in
        syseba_http_send_json 200
          (JObject
             ([ (c!"name", JString (last_name source)); (c!"path", JString relative);
                (c!"is_dir", JBool (st_directory i)) ]
              ++ size_fields (st_directory i) (st_size i)
              ++ [ (c!"mtime", JString (truncate 32 (iso_from_time (Z.quot (st_mtime_ns i) 1000000000))));
                   (c!"destination", JString destination);
                   (c!"destination_exists", JBool present) ])) []
    end end end.

(** The application as [syseba_restore_item] sees it (src/src/fs.c). *)
#[export] Instance app_restore : RestoreApp syseba_app_t.
Proof.
  refine {| ra_host := lens_os;
            ra_config := app_config;
            ra_restored := syseba_stats_increment RESTORED;
            ra_log source target :=
              let* language := gets language_of in
              syseba_log_emit (c!"INFO") (c!"RESTORE") source target []
                (arrow_message (syseba_tr language (c!"Ripristinato dall'area restore")
                   (c!"Restored from restore area")) source target) |}.
  - done.
  - intros a b s. exact (ol_os _ _ (only_log_emit _ _ _ _ _ _ s)).
Defined.

Definition strategy_of (strategy : option json) : option (syseba_restore_strategy_t * cstr) :=
  let name := match strategy with Some (JString s) => s | _ => c!"fail" end in
  if streq name (c!"rename") then Some (SYSEBA_RESTORE_RENAME, c!"rename")
  else if streq name (c!"overwrite") then Some (SYSEBA_RESTORE_OVERWRITE, c!"overwrite")
  else if streq name (c!"fail") then Some (SYSEBA_RESTORE_FAIL, c!"fail")
  else None.

Definition syseba_http_restore_post (request : mg_request_info) : WEB Z :=
  match syseba_http_read_json request with
  | inl (status, error) => syseba_http_error status (c!"invalid_request") error
  | inr input =>
      match cJSON_GetObjectItemCaseSensitive input (c!"path") with
      | Some (JString (c :: r)) =>
          match strategy_of (cJSON_GetObjectItemCaseSensitive input (c!"strategy")) with
          | None => syseba_http_error 400 (c!"invalid_request") (c!"Invalid restore strategy")
          | Some (strategy, strategy_name) =>
              let* result := zoom (syseba_restore_item unknown (Some (c :: r)) strategy SYSEBA_PATH_MAX) in
              match result with
              | inl (code, error) =>
                  if bool_decide (code = SYSEBA_ERR_NOT_FOUND)
                  then syseba_http_error 404 (c!"not_found") (truncate ERROR_MAX error)
                  else if bool_decide (code = SYSEBA_ERR_EXISTS)
                  then syseba_http_error 409 (c!"destination_exists") (truncate ERROR_MAX error)
                  else syseba_http_error 400 (c!"invalid_request") (truncate ERROR_MAX error)
              | inr destination =>
                  let* language := gets (fun s => language_of (snd s)) in
                  syseba_http_send_json 200
                    (JObject
                       [ (c!"ok", JBool true);
                         (c!"restored_to", JString destination);
                         (c!"strategy", JString strategy_name);
                         (c!"message", JString (syseba_tr language
                            (c!"Elemento ripristinato correttamente.")
                            (c!"Item restored successfully."))) ]) []
              end
          end
      | _ => syseba_http_error 400 (c!"invalid_request") (c!"restore path is required")
      end
  end.

(** ** Downloads *)

Definition unsafe_name_char (c : ascii) : bool :=
  ceq c QUOTE || ceq c RETURN || ceq c NEWLINE || ceq c SLASH || ceq c BACKSLASH || (code c <? 32).

Definition syseba_safe_download_name (path : cstr) (size : Z) : cstr :=
  let name := match strrchr SLASH path with Some (_, n) => n | None => path end in
  let name := match name with [] => c!"download" | _ => name end in
  map (fun c => if unsafe_name_char c then "_"%char else c) (take (Z.to_nat (size - 1)) name).

(** The loop on [fread]: [true] when every piece is written. *)
Fixpoint send_pieces (fuel : nat) (data : cstr) : WEB bool :=
  match fuel with
  | O => ret true
  | S fuel' =>
      let piece := take_upto COPY_BUFFER data in
      let* written := (if 0 <? zlen piece then mg_write piece else ret true) in
      if negb written then ret false
      else if zlen piece <? COPY_BUFFER then ret true
      else send_pieces fuel' (drop (length piece) data)
  end.

Definition download_head (file_size : Z) (name : cstr) : cstr :=
  (c!"HTTP/1.1 200 OK") ++ CRLF
  ++ (c!"Content-Type: application/octet-stream") ++ CRLF
  ++ (c!"Content-Length: ") ++ dec file_size ++ CRLF
  ++ (c!"Cache-Control: no-store") ++ CRLF
  ++ (c!"X-Content-Type-Options: nosniff") ++ CRLF
  ++ truncate 1024 (dq (c!"Content-Disposition: attachment; filename='") ++ name ++ [QUOTE] ++ CRLF)
  ++ (c!"Connection: close") ++ CRLF ++ CRLF.

Definition syseba_http_download (request : mg_request_info) : WEB Z :=
  let relative := query request (c!"path") [] SYSEBA_PATH_MAX in
  let missing := syseba_http_error 404 (c!"not_found") (c!"File not found") in
  let* config := gets (fun s => app_config (snd s)) in
  if negb (nonempty relative) then missing
  else
    let* path := zoom (syseba_safe_join (cfg_restore config) (Some relative) SYSEBA_PATH_MAX) in
    match path with None => missing | Some path =>
    let* opened := zoom (syseba_open_regular_read path) in
    match opened with None => missing | Some (k, file_size) =>
    let* printed := mg_write (download_head file_size (syseba_safe_download_name path 512)) in
    if negb printed then ret 500
    else
      let* file := zoom (sys_stream k) in
      let* sent := send_pieces (S (length (sm_data file))) (sm_data file) in
      ret (if sent then 200 else 500)
    end end.

(** ** The rest *)

Definition syseba_http_restart (forked : bool) : WEB Z :=
  let* refused := zoom (syseba_service_request_restart forked) in
  match refused with
  | Some error => syseba_http_error 503 (c!"restart_unavailable") (truncate 512 error)
  | None =>
      let* language := gets (fun s => language_of (snd s)) in
      zoom (syseba_log_emit (c!"WARNING") (c!"SERVICE") [] [] []
              (syseba_tr language (c!"Riavvio del servizio richiesto dalla Web UI")
                 (c!"Service restart requested from Web UI"))) ;;;
      syseba_http_send_json 200
        (JObject [(c!"ok", JBool true);
                  (c!"message", JString (syseba_tr language (c!"Riavvio del servizio richiesto.")
                                           (c!"Service restart requested.")))]) []
  end.

(** [strstr]: the text before the marker and after it. *)
Fixpoint strstr (text marker : cstr) : option (cstr * cstr) :=
  if starts_with marker text then Some ([], drop (length marker) text)
  else
    match text with
    | [] => None
    | c :: r => option_map (fun '(a, b) => (c :: a, b)) (strstr r marker)
    end.

Definition syseba_http_index : WEB Z :=
  let* language := gets (fun s => language_of (snd s)) in
  let body :=
    match strstr syseba_asset_html (c!"__SYSEBA_LANG__") with
    | None => syseba_asset_html
    | Some (before, after) => before ++ language_code language ++ after
    end in
  syseba_http_send 200 (c!"text/html; charset=utf-8") body [].

(** ** The routes *)

Definition is_get (request : mg_request_info) : bool := streq (rq_method request) (c!"GET").
Definition is_post (request : mg_request_info) : bool := streq (rq_method request) (c!"POST").
Definition request_path (request : mg_request_info) : cstr :=
  default (rq_request_uri request) (rq_local_uri request).

Definition syseba_http_handler (forked : bool) (request : mg_request_info) : WEB Z :=
  let path := request_path request in
  let get := is_get request in
  let post := is_post request in
  if get && streq path (c!"/") then syseba_http_index
  else if get && streq path (c!"/webui.js") then
    syseba_http_send 200 (c!"application/javascript; charset=utf-8") syseba_asset_js []
  else if get && (streq path (c!"/logo") || streq path (c!"/favicon.ico")) then
    syseba_http_send 200 (c!"image/webp") syseba_asset_logo []
  else if get && streq path (c!"/api/auth") then
    let* required := gets (fun s => ws_auth_enabled (app_web (snd s))) in
    syseba_http_send_json 200 (JObject [(c!"required", JBool required)]) []
  else if negb get && negb post then
    syseba_http_error 400 (c!"invalid_method") (c!"Unsupported HTTP method")
  else
    let* unauthorized := syseba_http_require_auth request in
    if negb (unauthorized =? 0) then ret unauthorized
    else if get && streq path (c!"/api/status") then syseba_http_status
    else if get && streq path (c!"/api/logs") then syseba_http_logs request
    else if get && streq path (c!"/api/config") then syseba_http_config_get
    else if get && streq path (c!"/api/config/state") then
      let* state := syseba_config_state_json in
      match state with
      | None => syseba_http_error 500 (c!"internal_error") (c!"Unable to build configuration state")
      | Some state => syseba_http_send_json 200 state []
      end
    else if post && streq path (c!"/api/config") then syseba_http_config_post request
    else if get && streq path (c!"/api/restore") then syseba_http_restore_list request
    else if get && streq path (c!"/api/restore/info") then syseba_http_restore_info request
    else if post && streq path (c!"/api/restore") then syseba_http_restore_post request
    else if get && streq path (c!"/restore/download") then syseba_http_download request
    else if post && streq path (c!"/api/service/restart") then syseba_http_restart forked
    else
      let* language := gets (fun s => language_of (snd s)) in
      syseba_http_error 404 (c!"not_found")
        (syseba_tr language (c!"Risorsa non trovata.") (c!"Not found.")).

(** ** Starting and stopping *)

Definition syseba_web_start (listens : bool) : ST syseba_app_t (option failure) :=
  let* a := gets id in
  let o := app_options_ a in
  let w := app_web a in
  let listening := ao_web_host o ++ (c!":") ++ dec (ao_web_port o) in
  if negb (fits 320 listening) then ret (Some (SYSEBA_ERR_INVALID, c!"Invalid web listen address"))
  else if negb listens then ret (Some (SYSEBA_ERR, (c!"Unable to listen on ") ++ listening))
  else
    set_threads (fun t => Threads (th_workers t) (th_log t) (th_initial t) (th_watcher t) true) ;;;
    syseba_log_emit (c!"INFO") (c!"WEB") [] [] (ws_token_source w)
      (syseba_tr (language_of a) (c!"Web UI in ascolto su") (c!"Web UI listening on")
         ++ (c!" http://") ++ listening ++ (c!" (")
         ++ (if ws_auth_enabled w
             then syseba_tr (language_of a) (c!"autenticazione attiva") (c!"authentication enabled")
             else syseba_tr (language_of a) (c!"autenticazione disabilitata") (c!"authentication disabled"))
         ++ (c!")")) ;;;
    ret None.

Definition syseba_web_stop : ST syseba_app_t unit :=
  set_threads (fun t => Threads (th_workers t) (th_log t) (th_initial t) (th_watcher t) false).
End Web.
