(* ===== verification/RecoverSpec.v ===== *)
(** * The promises of a restore

    A file of the restore area comes back to the source, and so does one that was
    deleted there. *)

From S2P Require Import Prelude CString Paths Os OsFacts Platform Fs FsFacts CopyFacts Config ConfigFacts ConfigText FsTree FsTreeFacts Restore RestoreFacts Queue QueueFacts AppState Log LogFacts App PlainFacts AppFacts RecoverFacts Json Status Token Web Examples Demo.

Section Claims.
Context `{DirOrder} `{LocalStamp} `{Strerror} `{Clock}.
Context `{!Allocator syseba_event_t} `{!Allocator syseba_log_record_t}.
Context (unknown : cstr).

Lemma restore_app_item a sn rn r x y strategy m c :
  quiet (app_os a) -> restorable (app_config a) (app_os a) sn rn r x y strategy m c ->
  exists a' m',
    syseba_restore_item unknown (Some (item_path r x)) strategy SYSEBA_PATH_MAX a
      = (inr (render (sn ++ r ++ [y])), a') /\
    os_fs (app_os a') !! (sn ++ r ++ [y]) = Some (NReg m' c) /\ copied_meta m m' /\
    app_stats a' = increment RESTORED (app_stats a) /\
    (forall k, k <> sn ++ r ++ [y] -> only_new_dirs (sn ++ r) (app_os a) (app_os a') k).
Proof.
  intros Hq Hr. pose proof (rs_new _ _ _ _ _ _ _ _ _ _ Hr) as Hy.
  assert (r ++ [y] <> []) as Hrel by (by destruct r). pose proof (area_length _ _ _ Hrel Hy) as Hz.
  destruct (restore_item_runs unknown a sn rn r x y strategy m c SYSEBA_PATH_MAX)
    as (t & s' & m' & E & _ & Hf & Hm & _ & Hk); [done..|].
  assert (fits SYSEBA_PATH_MAX (render (sn ++ r ++ [y])) = true) as Hfit by (apply Z.ltb_lt; lia).
  rewrite Hfit in E. eexists _, m'. split; [exact E|].
  set (a1 := exec ra_restored (lset s' a)). unfold ra_log, app_restore. rewrite exec_gets.
  rewrite (ol_os _ _ (only_log_emit _ _ _ _ _ _ _)), stats_emit. by split_and!.
Qed.

(** What the deletion of [sn ++ r ++ [x]] changed: its backup is gone, [new] is a new
    file below [rn], with the directories on its way. *)
Definition moved_away (rn r : ppath) (old new : ppath) (s s' : os) : Prop :=
  os_fs s' !! old = None /\ os_fs s !! new = None /\
  (forall k, k <> old -> k <> new -> only_new_dirs (rn ++ r) s s' k).

Lemma moved_below sn rn bn r rel y s s' q :
  apart sn rn -> apart sn bn -> moved_away rn r (bn ++ rel) (rn ++ r ++ [y]) s s' ->
  os_fs s' !! (sn ++ q) = os_fs s !! (sn ++ q).
Proof.
  intros Hr Hb (_ & _ & Hk). destruct (Hk (sn ++ q)) as [E|(_ & [b E] & _)]; [| |done|].
  - intros E. apply (apart_below sn bn q rel); [done|by rewrite E].
  - intros E. apply (apart_below sn rn q (r ++ [y])); [done|by rewrite E].
  - exfalso. apply (apart_below sn rn q r); [done|]. rewrite E. by apply prefix_app_r.
Qed.

Lemma moved_links old new rn r s s' p m c :
  moved_away rn r old new s s' -> os_fs s' !! new = Some (NReg m c) ->
  no_links (os_fs s) p -> no_links (os_fs s') p.
Proof.
  intros (Hold & _ & Hk) Hnew Hl a b mm t -> E.
  destruct (decide (a = old)) as [->|H1']; [congruence|].
  destruct (decide (a = new)) as [->|H2']; [congruence|].
  destruct (Hk a H1' H2') as [E'|(_ & _ & mk & E')]; [|congruence]. rewrite E' in E. by eapply Hl.
Qed.

Lemma moved_area old new rn r s s' b p m c :
  moved_away rn r old new s s' -> os_fs s' !! new = Some (NReg m c) ->
  area (os_fs s) b p -> area (os_fs s') b p.
Proof. intros Hm Hn [Hnames Hl Hs]. constructor; [done| |done]. by eapply moved_links. Qed.

Lemma moved_creatable bn rn sn r rel y s s' m c :
  apart sn rn -> moved_away rn r (bn ++ rel) (rn ++ r ++ [y]) s s' ->
  os_fs s' !! (rn ++ r ++ [y]) = Some (NReg m c) ->
  creatable (os_fs s) (sn ++ r) -> creatable (os_fs s') (sn ++ r).
Proof.
  intros Hap (Hold & _ & Hk) Hnew Hc a b E.
  destruct (decide (a = [])) as [->|Ha]; [by left|].
  destruct (decide (a = bn ++ rel)) as [->|H1']; [by right|].
  destruct (decide (a = rn ++ r ++ [y])) as [->|H2'].
  { exfalso. apply (apart_below rn sn (r ++ [y]) r); [by destruct Hap|]. rewrite E. by apply prefix_app_r. }
  destruct (Hk a H1' H2') as [E'|(_ & _ & mk & E')].
  - unfold is_dir_at. rewrite E'. exact (Hc a b E).
  - left. unfold is_dir_at. rewrite E'. by destruct a.
Qed.

(** C9: on a quiet host, restoring a file of the restore area leaves in
    the source a file with the same bytes, mode bits and time, under its name, or, with the
    strategy "rename", under a marked name when that one is taken, and counts one restored
    item; an existing file is replaced only with the strategy "overwrite", and no other
    file changes but the directories made on the way. *)
Theorem restore_brings_back a sn rn r x y strategy m c :
  quiet (app_os a) -> restorable (app_config a) (app_os a) sn rn r x y strategy m c ->
  exists a' m',
    syseba_restore_item unknown (Some (item_path r x)) strategy SYSEBA_PATH_MAX a
      = (inr (render (sn ++ r ++ [y])), a') /\
    os_fs (app_os a') !! (sn ++ r ++ [y]) = Some (NReg m' c) /\ copied_meta m m' /\
    app_stats a' = increment RESTORED (app_stats a) /\
    (forall k, k <> sn ++ r ++ [y] -> only_new_dirs (sn ++ r) (app_os a) (app_os a') k).
Proof. apply restore_app_item. Qed.

(** C8: on a quiet host with one device, when the event of a
    deleted file has been handled, restoring the item that it left in the restore area,
    with any strategy, brings the file back to the source with the bytes, the mode bits
    and the time of its backup; it is at its own place when the restore area had nothing
    there. *)
Theorem deleted_file_comes_back ev a sn bn rn r x y strategy v m c :
  quiet (app_os a) -> areas (app_config a) (os_fs (app_os a)) sn bn rn (r ++ [x]) ->
  ev_path ev = render (sn ++ r ++ [x]) -> ev_kind ev = SYSEBA_EVENT_DELETE ->
  one_device v (os_fs (app_os a)) -> apart sn rn -> apart sn bn ->
  y = restored_name (os_time (app_os a)) (os_fs (app_os a) !! (rn ++ r ++ [x])) x ->
  area (os_fs (app_os a)) rn (r ++ [y]) -> area (os_fs (app_os a)) sn (r ++ [y]) ->
  creatable (os_fs (app_os a)) (rn ++ r) -> creatable (os_fs (app_os a)) (sn ++ r) ->
  os_fs (app_os a) !! (bn ++ r ++ [x]) = Some (NReg m c) ->
  os_fs (app_os a) !! (rn ++ r ++ [y]) = None -> os_fs (app_os a) !! (sn ++ r ++ [y]) = None ->
  (forall t, temp_name t -> os_fs (app_os a) !! (sn ++ r ++ [t]) = None) ->
  exists a1 a2 m',
    syseba_app_process_event unknown ev a = (SYSEBA_OK, a1) /\
    syseba_restore_item unknown (Some (item_path r y)) strategy SYSEBA_PATH_MAX a1
      = (inr (render (sn ++ r ++ [y])), a2) /\
    os_fs (app_os a2) !! (sn ++ r ++ [y]) = Some (NReg m' c) /\ copied_meta m m' /\
    (os_fs (app_os a) !! (rn ++ r ++ [x]) = None -> y = x).
Proof.
  intros Hq Ha Hp Hd Hv Hsr Hsb Ey Hyr Hys Hcr Hcs Hf Hfr Hfs Htemp.
  destruct (process_event_deletes unknown ev a sn bn rn r x (NReg m c) v)
    as (s' & a1 & E1 & He & Hnew & Hold & Hk & Hq' & Ht' & _); rewrite <- ?Ey; try done.
  rewrite <- Ey in Hnew, Hk. pose proof (effect_os _ _ _ _ He) as Eos.
  assert (moved_away rn r (bn ++ r ++ [x]) (rn ++ r ++ [y]) (app_os a) s') as Hmv by done.
  assert (forall q, os_fs s' !! (sn ++ q) = os_fs (app_os a) !! (sn ++ q)) as Hsame
    by (intros q; by eapply (moved_below sn rn bn)).
  destruct (restore_app_item a1 sn rn r y y strategy m c) as (a2 & m' & E2 & Hf2 & Hm & _).
  - by rewrite Eos.
  - rewrite (effect_config _ _ _ _ He), Eos. destruct Ha as [Hs _ Hr _ _ Has _ _]. constructor; try done.
    + destruct Hsr as [Hsr _]. destruct sn; [|done]. exfalso. apply Hsr, prefix_nil.
    + by apply (moved_area _ _ _ _ _ _ _ _ _ _ Hmv Hnew).
    + by apply (moved_area _ _ _ _ _ _ _ _ _ _ Hmv Hnew).
    + by rewrite Hsame, Hfs.
    + by apply (moved_area _ _ _ _ _ _ _ _ _ _ Hmv Hnew).
    + intros _. by rewrite Hsame.
    + by apply (moved_creatable _ _ _ _ _ _ _ _ _ _ Hsr Hmv Hnew).
    + intros t. rewrite Hsame. apply Htemp.
  - exists a1, a2, m'. split_and!; [done..|]. intros Hn. by rewrite Ey, Hn.
Qed.
End Claims.

(** /data/notes.txt and /restore/notes.txt exist: the restored file goes beside. *)
Definition two_notes : os :=
  with_fs (<[[c!"restore"; c!"notes.txt"] := NReg example_meta (c!"older")]> example_fs) (example_host []).

Example restore_brings_back_witness :
  exists a' m',
    syseba_restore_item [] (Some (c!"notes.txt")) SYSEBA_RESTORE_RENAME SYSEBA_PATH_MAX (demo_app two_notes)
      = (inr (c!"/data/notes.restored-20240102-030405.txt"), a') /\
    os_fs (app_os a') !! [c!"data"; c!"notes.restored-20240102-030405.txt"] = Some (NReg m' (c!"older")) /\
    copied_meta example_meta m' /\ app_stats a' = increment RESTORED stats_zero /\
    (forall k, k <> [c!"data"; c!"notes.restored-20240102-030405.txt"] ->
       only_new_dirs [c!"data"] two_notes (app_os a') k).
Proof.
  apply (restore_brings_back [] (demo_app two_notes) [c!"data"] [c!"restore"] [] (c!"notes.txt")
           (c!"notes.restored-20240102-030405.txt") SYSEBA_RESTORE_RENAME example_meta (c!"older")).
  - reflexivity.
  - constructor; [reflexivity|reflexivity|done|apply tree_b_spec; by vm_compute
      |apply area_b_spec; by vm_compute|apply area_b_spec; by vm_compute|by vm_compute|by vm_compute
      |apply area_b_spec; by vm_compute|by vm_compute|apply creatable_b_spec; by vm_compute|].
    intros t Ht. apply (short_names_b_spec _ [c!"data"]); [by vm_compute|done].
Defined.

Lemma apart_b a b : negb (bool_decide (a `prefix_of` b)) && negb (bool_decide (b `prefix_of` a)) = true -> apart a b.
Proof.
  intros [H1 H2]%andb_true_iff. apply negb_true_iff, bool_decide_eq_false in H1, H2. by split.
Qed.

(** /data/old.txt was deleted, and /restore/old.txt is taken. *)
Example deleted_file_comes_back_witness :
  exists a1 a2 m',
    syseba_app_process_event [] (demo_event SYSEBA_EVENT_DELETE (c!"/data/old.txt"))
      (demo_app (example_host [])) = (SYSEBA_OK, a1) /\
    syseba_restore_item [] (Some (c!"old.txt.20240102-030405")) SYSEBA_RESTORE_FAIL SYSEBA_PATH_MAX a1
      = (inr (c!"/data/old.txt.20240102-030405"), a2) /\
    os_fs (app_os a2) !! [c!"data"; c!"old.txt.20240102-030405"] = Some (NReg m' (c!"old")) /\
    copied_meta example_meta m' /\
    (example_fs !! [c!"restore"; c!"old.txt"] = None -> (c!"old.txt.20240102-030405") = c!"old.txt").
Proof.
  apply (deleted_file_comes_back [] (demo_event SYSEBA_EVENT_DELETE (c!"/data/old.txt"))
           (demo_app (example_host [])) [c!"data"] [c!"backup"] [c!"restore"] [] (c!"old.txt")
           (c!"old.txt.20240102-030405") SYSEBA_RESTORE_FAIL 0 example_meta (c!"old")).
  - reflexivity.
  - apply demo_areas; [done|by vm_compute..].
  - reflexivity.
  - reflexivity.
  - apply device_b_spec. by vm_compute.
  - apply apart_b. by vm_compute.
  - apply apart_b. by vm_compute.
  - by vm_compute.
  - apply area_b_spec. by vm_compute.
  - apply area_b_spec. by vm_compute.
  - apply creatable_b_spec. by vm_compute.
  - apply creatable_b_spec. by vm_compute.
  - by vm_compute.
  - by vm_compute.
  - by vm_compute.
  - intros t Ht. apply (short_names_b_spec example_fs [c!"data"]); [by vm_compute|done].
Defined.
