(* ===== verification/TokenFacts.v ===== *)
(** * Properties of the access token *)

From S2P Require Import Prelude CString Paths Os OsFacts Platform Fs FsFacts CopyFacts Config ConfigFacts ConfigText AtomicFacts AppState Log App Service Token.

(** ** The comparison *)

Lemma compare_loop_zero n i a b d :
  compare_loop n i a b d = 0 <->
  d = 0 /\ forall j, (i <= j < i + n)%nat -> byte_at a j = byte_at b j.
Proof.
  revert i d. induction n as [|n IH]; intros i d; cbn [compare_loop].
  - split; [|tauto]. intros ->. split; [done|]. intros; lia.
  - rewrite IH, Z.lor_eq_0_iff, Z.lxor_eq_0_iff. split.
    + intros ((-> & Hi) & Hj). split; [done|]. intros j Hr.
      destruct (decide (j = i)) as [->|]; [done|]. apply Hj. lia.
    + intros (-> & Hj). split; [split; [done|]|]; [apply Hj; lia|]. intros j Hr. apply Hj. lia.
Qed.

Lemma byte_at_eq a b : no_nul a -> no_nul b ->
  (forall j, (j < Nat.max (length a) (length b))%nat -> byte_at a j = byte_at b j) -> a = b.
Proof.
  intros Ha Hb H. assert (forall s j c, no_nul s -> s !! j = Some c -> code c <> 0) as Hn.
  { intros s j c Hs Hj. unfold no_nul in Hs. rewrite Forall_lookup in Hs. by eapply Hs. }
  apply list_eq. intros j. destruct (decide (j < Nat.max (length a) (length b))%nat) as [Hj|Hj].
  - specialize (H j Hj). unfold byte_at in H.
    destruct (a !! j) as [c|] eqn:Ea, (b !! j) as [d|] eqn:Eb; [|by apply Hn in Ea|by symmetry in H; apply Hn in Eb|done].
    f_equal. by apply code_inj.
  - rewrite !lookup_ge_None_2 by lia. done.
Qed.

Lemma constant_time_equal_spec a b :
  no_nul a -> no_nul b -> syseba_constant_time_equal a b = true <-> a = b.
Proof.
  intros Ha Hb. unfold syseba_constant_time_equal. rewrite Z.eqb_eq, compare_loop_zero.
  assert (Z.to_nat (if zlen b <? zlen a then zlen a else zlen b) = Nat.max (length a) (length b)) as ->.
  { unfold zlen. destruct (_ <? _) eqn:E; bool_hyps; lia. }
  split.
  - intros [_ H]. apply byte_at_eq; [done|done|]. intros j Hj. apply H. lia.
  - intros ->. split; [|done]. by rewrite Z.lxor_nilpotent.
Qed.

(** ** Who is let in *)

(** The token that a request carries. *)
Definition supplies (request : mg_request_info) (token : cstr) : Prop :=
  rq_header request (c!"X-SySeBa-Token") = Some token \/
  exists scheme, rq_header request (c!"Authorization") = Some (scheme ++ token) /\
    length scheme = 7%nat /\ is_bearer scheme = true /\ token <> [].

(** Header values are C strings. *)
Definition headers_ok (request : mg_request_info) : Prop :=
  forall name v, rq_header request name = Some v -> no_nul v.

Lemma authorized_spec request a :
  headers_ok request -> no_nul (ws_token (app_web a)) ->
  syseba_http_authorized request a = true <->
  ws_auth_enabled (app_web a) = false \/ supplies request (ws_token (app_web a)).
Proof.
  intros Hh Ht. unfold syseba_http_authorized. set (t := ws_token (app_web a)) in *.
  destruct (ws_auth_enabled (app_web a)); cbn [negb]; [|tauto].
  rewrite orb_true_iff. unfold supplies. split.
  - intros [H|H]; right.
    + left. destruct (rq_header request (c!"X-SySeBa-Token")) as [v|] eqn:E; [|done].
      apply constant_time_equal_spec in H as ->; [done|by eapply Hh|done].
    + right. destruct (rq_header request (c!"Authorization")) as [v|] eqn:E; [|done].
      bool_hyps. pose proof (Hh _ _ E) as Hv. unfold no_nul in Hv.
      match goal with H : syseba_constant_time_equal _ _ = true |- _ => rename H into Heq end.
      apply constant_time_equal_spec in Heq; [|by apply Forall_drop|done].
      exists (take 7 v). assert (7 < length v)%nat as Hl by (unfold zlen in *; lia).
      split; [by rewrite <- Heq, take_drop|].
      split; [rewrite length_take; lia|]. split.
      * unfold is_bearer in *. by rewrite take_take.
      * rewrite <- Heq. intros E0%(f_equal length). rewrite length_drop in E0. cbn in E0. lia.
  - intros [|[E|(s & E & Hs & Hb & Hn)]]; [done|left|right]; rewrite E.
    + by apply constant_time_equal_spec.
    + assert (drop 7 (s ++ t) = t) as -> by (rewrite <- Hs; apply drop_app_length).
      assert (take 7 (s ++ t) = s) as Et by (rewrite <- Hs; apply take_app_length).
      repeat (apply andb_true_iff; split).
      * apply Z.ltb_lt. rewrite zlen_app. unfold zlen at 1. rewrite Hs.
        assert (0 < zlen t); [|lia]. destruct t; [done|]. zlen_lia.
      * unfold is_bearer in *. rewrite Et. by rewrite take_ge in Hb by lia.
      * by apply constant_time_equal_spec.
Qed.

(** ** Generated tokens *)

Definition random_bytes (random : list Z) : Prop :=
  zlen random = 32 /\ Forall (fun n => 0 <= n < 256) random.

Lemma hex_digit_token n : 0 <= n < 16 -> token_char (hex_digit n) = true.
Proof.
  intros Hn. unfold hex_digit, token_char. destruct (n <? 10) eqn:E; bool_hyps; rewrite code_chr by lia;
    apply andb_true_iff; split; apply Z.leb_le; lia.
Qed.

Lemma hex_token random :
  Forall (fun n => 0 <= n < 256) random ->
  forallb token_char (flat_map hex2 random) = true /\
  length (flat_map hex2 random) = (2 * length random)%nat.
Proof.
  induction 1 as [|n l Hn Hl [IH1 IH2]]; [done|]. cbn [flat_map hex2 app forallb length]. rewrite IH1, IH2.
  rewrite !hex_digit_token; [split; [done|lia]|apply Z.mod_pos_bound; lia|].
  split; [apply Z.div_pos; lia|apply Z.div_lt_upper_bound; lia].
Qed.

Lemma random_token_valid random :
  random_bytes random -> valid_token (flat_map hex2 random) = Some (flat_map hex2 random).
Proof.
  intros [Hl Hr]. destruct (hex_token random Hr) as [H1 H2]. unfold valid_token, syseba_web_token_valid.
  assert (zlen (flat_map hex2 random) = 64) as Hz by (unfold zlen in *; lia).
  rewrite H1. unfold fits. by rewrite Hz.
Qed.

Lemma valid_token_Some t t' :
  valid_token t = Some t' -> t' = t /\ syseba_web_token_valid t = true.
Proof. unfold valid_token. case_if; [|done]. bool_hyps. by intros [= <-]. Qed.

(** A token has no blank at its ends, nor a NUL. *)
Lemma token_char_plain c : token_char c = true -> isspace c = false /\ c <> NUL.
Proof.
  unfold token_char, isspace. intros H. bool_hyps. split; [|by intros ->].
  repeat (apply orb_false_iff; split); try (apply andb_false_iff); rewrite ?Z.eqb_neq, ?Z.leb_gt; lia.
Qed.

Lemma token_trim t :
  syseba_web_token_valid t = true -> syseba_trim_token (until_nul (t ++ [NEWLINE])) = t.
Proof.
  intros H. unfold syseba_web_token_valid in H. bool_hyps.
  assert (forall c, c ∈ t -> isspace c = false /\ c <> NUL) as Hc.
  { intros c Hin. apply token_char_plain. rewrite forallb_forall in H0. by apply H0, list_elem_of_In. }
  rewrite until_nul_id.
  2: { rewrite not_elem_of_app, list_elem_of_singleton. split; [|done]. intros Hin. by apply Hc in Hin as [_ ?]. }
  assert (t <> []) as Hne by (by intros ->).
  unfold syseba_trim_token. destruct t as [|a t]; [done|].
  assert (drop_while isspace ((a :: t) ++ [NEWLINE]) = (a :: t) ++ [NEWLINE]) as ->.
  { cbn [app drop_while]. by rewrite (proj1 (Hc a ltac:(by left))). }
  rewrite rev_app_distr. cbn [app rev drop_while]. change (isspace NEWLINE) with true. cbv match.
  change (rev t ++ [a]) with (rev (a :: t)).
  destruct (rev (a :: t)) as [|b r] eqn:E; [by apply (f_equal (@rev _)) in E; rewrite rev_involutive in E|].
  assert (b ∈ a :: t) as Hb.
  { apply list_elem_of_In, in_rev. rewrite E. by left. }
  cbn [drop_while]. rewrite (proj1 (Hc b Hb)). by rewrite <- E, rev_involutive.
Qed.

(** ** The file of a token *)

Lemma read_token_quiet s p x m t :
  quiet s -> Forall path_name (p ++ [x]) -> dir_chain (os_fs s) p ->
  os_fs s !! (p ++ [x]) = Some (NReg m (t ++ [NEWLINE])) -> syseba_web_token_valid t = true ->
  syseba_web_read_token (render (p ++ [x])) s = (Some t, s).
Proof.
  intros Hq Hn Hd Hk Hv. unfold syseba_web_read_token.
  rewrite (bind_run _ _ _ _ _ (open_read_quiet s p x _ _ Hq Hn Hd Hk)).
  rewrite (bind_run _ _ _ _ _ (stream_quiet s _ _ _ Hq Hk)). cbn [sm_data sm_failed].
  pose proof Hv as Hv'. unfold syseba_web_token_valid in Hv'. bool_hyps.
  assert (zlen t <= 255) by (unfold SYSEBA_TOKEN_MAX in *; lia).
  assert (zlen (t ++ [NEWLINE]) <= 256) by (rewrite zlen_app; change (zlen [NEWLINE]) with 1; lia).
  assert (take_upto (TOKEN_BUFFER - 1) (t ++ [NEWLINE]) = t ++ [NEWLINE]) as ->.
  { unfold take_upto. rewrite (proj2 (Z.leb_le _ _)); [done|]. unfold TOKEN_BUFFER, SYSEBA_TOKEN_MAX. lia. }
  rewrite (proj2 (Z.eqb_neq _ _)) by (unfold TOKEN_BUFFER, SYSEBA_TOKEN_MAX; lia). cbn [orb].
  rewrite token_trim by done. unfold valid_token. rewrite Hv. unfold fits.
  rewrite (proj2 (Z.ltb_lt _ _)) by (unfold SYSEBA_TOKEN_MAX; lia). done.
Qed.

Lemma token_file_quiet s p x t :
  quiet s -> Forall path_name (p ++ [x]) -> creatable (os_fs s) p ->
  zlen (render (p ++ [x]) ++ tmp_suffix (os_mono s)) < SYSEBA_PATH_MAX ->
  os_fs s !! (p ++ [x ++ tmp_suffix (os_mono s)]) = None ->
  (forall mm, os_fs s !! (p ++ [x]) <> Some (NDir mm)) ->
  exists s' m, token_file (render (p ++ [x])) t s = (true, s') /\ same_host s s' /\
    dir_chain (os_fs s') p /\ os_fs s' !! (p ++ [x]) = Some (NReg m (t ++ [NEWLINE])) /\ m_mode m = 384.
Proof.
  intros Hq Hn Hc Hz Hfree Hnd. rewrite zlen_app in Hz. pose proof (zlen_nonneg (tmp_suffix (os_mono s))).
  destruct (prepare_quiet p x s) as (s1 & E1 & Hs1 & Hg & Hd1 & Hnew); [done|done|lia|done|].
  unfold syseba_prepare_destination in E1. unfold token_file.
  destruct (syseba_parent_dir _ _) as [parent|]; [|done]. rewrite (bind_run _ _ _ _ _ E1). cbn [negb].
  assert (os_mono s1 = os_mono s) as Hm by (by destruct Hs1 as (_ & _ & -> & _)).
  rewrite (bind_run _ _ _ (os_mono s) s1) by (unfold sys_monotonic, gets; by rewrite Hm).
  fold (tmp_suffix (os_mono s)).
  assert (fits SYSEBA_PATH_MAX (render (p ++ [x]) ++ tmp_suffix (os_mono s)) = true) as ->
    by (apply Z.ltb_lt; rewrite zlen_app; lia).
  cbn [negb]. rewrite render_snoc_app.
  assert (forall y, os_fs s1 !! (p ++ [y]) = os_fs s !! (p ++ [y])) as Hsame.
  { intros y. by apply made_same_entry. }
  rewrite <- Hsame in Hfree. rewrite <- Hm in Hfree |- *.
  assert (quiet s1) as Hq1 by (by eapply same_host_quiet).
  destruct (staged_quiet p x Hn s1 384 384 (t ++ [NEWLINE])) as (s2 & s3 & s4 & m & F1 & F2 & F3 & Hs4 & Hf4 & Hmode);
    [done|done|done|].
  rewrite (bind_run _ _ _ _ _ F1), (bind_run _ _ _ _ _ F2). cbn [negb].
  rewrite (bind_run _ _ _ _ _ F3). cbn [negb].
  destruct (replace_staged p x Hn s1 s4 m (t ++ [NEWLINE])) as (s5 & F5 & Hs5 & Hf5);
    [done|done|done|done|done|lia|intros mm; rewrite Hsame; apply Hnd|].
  rewrite (bind_run _ _ _ _ _ F5). cbn [negb].
  assert (dir_chain (os_fs s5) p) as Hd5 by (rewrite Hf5; by apply dir_chain_insert_file).
  destruct (chmod_quiet s5 p x m (t ++ [NEWLINE]) 384) as (m6 & E6 & Hm6);
    [by eapply same_host_quiet|done|done|rewrite Hf5; apply lookup_insert_eq|].
  unfold syseba_set_private_permissions. rewrite E6. eexists _, m6. split_and!; [reflexivity| | | |done].
  - transitivity s1; [done|]. by transitivity s5.
  - cbn [os_fs with_fs]. by apply dir_chain_insert_file.
  - cbn [os_fs with_fs]. apply lookup_insert_eq.
Qed.

(** ** What the start accepts *)

Section Load.
Context `{Strerror} `{Environment}.

(** The result of choosing the token. *)
Definition token_chosen (options : syseba_options_t) (w : web_state) : Prop :=
  if op_no_web_auth options
  then ws_auth_enabled w = false /\ syseba_web_host_is_loopback (op_web_host options) = true
  else ws_auth_enabled w = true /\ syseba_web_token_valid (ws_token w) = true.

Lemma read_token_valid path s t s' :
  syseba_web_read_token path s = (Some t, s') -> syseba_web_token_valid t = true.
Proof.
  unfold syseba_web_read_token, bind. destruct (syseba_open_regular_read path s) as [[[k z]|] s1]; [|done].
  destruct (sys_stream k s1) as [f s2]. case_if; [done|].
  destruct (valid_token _) as [t'|] eqn:Ev; [|done]. apply valid_token_Some in Ev as [-> Hv].
  unfold ret. by intros [= <- _].
Qed.

Definition token_strong (w : web_state) : Prop :=
  ws_auth_enabled w = true /\ syseba_web_token_valid (ws_token w) = true.

Lemma text_token_strong name source text a a' :
  ws_auth_enabled (app_web a) = true -> token_from_text name source text a = (None, a') ->
  token_strong (app_web a').
Proof.
  intros Ha. unfold token_from_text. destruct (valid_token text) as [t|] eqn:Ev; [|done].
  apply valid_token_Some in Ev as [-> Hv]. rewrite ret_exec. by intros [= <-].
Qed.

Lemma file_token_strong device path a a' :
  ws_auth_enabled (app_web a) = true -> token_from_file device path a = (None, a') ->
  token_strong (app_web a').
Proof.
  intros Ha. unfold token_from_file. unfold bind at 1, zoom at 1. cbn [lget lset lens_os].
  destruct (syseba_web_read_token path (app_os a)) as [[t|] s1] eqn:Et.
  - apply read_token_valid in Et. rewrite bind_unit. unfold bind at 1, zoom at 1. cbn [lget lset lens_os].
    destruct (syseba_set_private_permissions _ _) as [[] s2]; [|done]. rewrite ret_exec. by intros [= <-].
  - unfold bind at 1, zoom at 1, get_errno at 1, gets at 1. cbn [lget lset lens_os].
    destruct (bool_decide _); [|done]. unfold syseba_web_create_token.
    unfold bind at 1 2, zoom at 1, bind at 1. cbn [lget lset lens_os].
    destruct (syseba_random_bytes device 32 _) as [[r|] s2] eqn:Er; [|done]. unfold bind at 1.
    destruct (token_file _ _ _) as [[] s3]; cbn; [|done].
    apply random_bytes_full in Er; [|lia].
    intros [= <-]. split; [done|]. pose proof (random_token_valid r Er) as Hv.
    by apply valid_token_Some in Hv as [_ Hv].
Qed.

Lemma load_token_chosen device options a a' :
  syseba_web_load_token device options a = (None, a') -> token_chosen options (app_web a').
Proof.
  unfold syseba_web_load_token, token_chosen. destruct (op_no_web_auth options).
  { destruct (syseba_web_host_is_loopback _); cbn [negb]; [|done].
    rewrite ret_exec. intros [= <-]. by split. }
  rewrite bind_unit. set (a1 := exec _ a).
  assert (ws_auth_enabled (app_web a1) = true) as Ha by done.
  destruct (op_explicit_token options) as [|c r]; [|by apply text_token_strong].
  destruct (getenv _) as [[|c r]|]; [|by apply text_token_strong|]; by apply file_token_strong.
Qed.
End Load.
