(* ===== verification/WebFacts.v ===== *)
(** * Properties of the Web UI

    What a request without a token can see, and what a download sends. *)

From Stdlib Require Import QArith_base.
From S2P Require Import Prelude CString Paths Os OsFacts Platform Fs FsFacts CopyFacts Config ConfigFacts ConfigText FsTree FsTreeFacts Restore Queue AppState Log LogFacts App PlainFacts AppFacts Json Service Status Token AtomicFacts TokenFacts Web.

(** ** Answers that do not depend on the application *)

(** Two applications that [R] relates get the same answer, and stay as they are. *)
Definition blind (R : syseba_app_t -> syseba_app_t -> Prop) {A} (m : WEB A) : Prop :=
  forall c a1 a2, R a1 a2 ->
    exists r c', m (c, a1) = (r, (c', a1)) /\ m (c, a2) = (r, (c', a2)).

Section Blind.
Context (R : syseba_app_t -> syseba_app_t -> Prop).

Lemma blind_ret {A} (x : A) : blind R (ret x).
Proof. intros c a1 a2 _. by exists x, c. Qed.

Lemma blind_bind {A B} (m : WEB A) (k : A -> WEB B) :
  blind R m -> (forall x, blind R (k x)) -> blind R (bind m k).
Proof.
  intros Hm Hk c a1 a2 HR. destruct (Hm c a1 a2 HR) as (x & c1 & E1 & E2).
  destruct (Hk x c1 a1 a2 HR) as (r & c2 & F1 & F2). exists r, c2. unfold bind. by rewrite E1, E2.
Qed.

Lemma blind_if {A} (b : bool) (m1 m2 : WEB A) : blind R m1 -> blind R m2 -> blind R (if b then m1 else m2).
Proof. by destruct b. Qed.

Lemma blind_write bytes : blind R (mg_write bytes).
Proof.
  intros c a1 a2 _. unfold mg_write. destruct (mc_writes c) as [|[] rest]; by eexists _, _.
Qed.

(** What is read may only be something the two agree on. *)
Lemma blind_gets {A B} (f : mg_connection * syseba_app_t -> B) (k : B -> WEB A) :
  (forall c a1 a2, R a1 a2 -> f (c, a1) = f (c, a2)) -> (forall x, blind R (k x)) ->
  blind R (bind (gets f) k).
Proof.
  intros Hf Hk c a1 a2 HR. unfold bind, gets. rewrite (Hf c a1 a2 HR). by apply Hk.
Qed.

Lemma blind_send status content_type body extra : blind R (syseba_http_send status content_type body extra).
Proof.
  unfold syseba_http_send. apply blind_bind; [apply blind_write|]. intros printed.
  apply blind_if; [apply blind_ret|]. apply blind_bind; [|intros; apply blind_ret].
  apply blind_if; [apply blind_write|apply blind_ret].
Qed.

Context `{DirOrder} `{IsoTime} `{Qsort} `{LocalStamp} `{Host} `{Strerror} `{Clock} `{Environment} `{CJson}.
Context `{Civetweb} `{Assets} `{!Allocator syseba_log_record_t}.

Lemma blind_send_json status j extra : blind R (syseba_http_send_json status j extra).
Proof. unfold syseba_http_send_json. destruct (cJSON_PrintUnformatted j); apply blind_send. Qed.

Lemma blind_error status code message : blind R (syseba_http_error status code message).
Proof. apply blind_send_json. Qed.
End Blind.

(** The routes that need no token. *)
Definition public_path (path : cstr) : bool :=
  streq path (c!"/") || streq path (c!"/webui.js") || streq path (c!"/logo")
  || streq path (c!"/favicon.ico") || streq path (c!"/api/auth").

Section Handler.
Context `{DirOrder} `{IsoTime} `{Qsort} `{LocalStamp} `{Host} `{Strerror} `{Clock} `{Environment} `{CJson}.
Context `{Civetweb} `{Assets} `{!Allocator syseba_log_record_t}.
Context (unknown : cstr) (forked : bool) (request : mg_request_info).

(** Two applications of one language that both refuse the request. *)
Definition refuse (a1 a2 : syseba_app_t) : Prop :=
  language_of a1 = language_of a2 /\
  syseba_http_authorized request a1 = false /\ syseba_http_authorized request a2 = false.

Lemma refused_auth (a : syseba_app_t) :
  syseba_http_authorized request a = false -> ws_auth_enabled (app_web a) = true.
Proof. unfold syseba_http_authorized. by destruct (ws_auth_enabled _). Qed.

Lemma send_status status content_type body extra s :
  value (syseba_http_send status content_type body extra) s = status \/
  value (syseba_http_send status content_type body extra) s = -1.
Proof.
  unfold value, syseba_http_send, bind. destruct (mg_write _ s) as [[] s1]; cbn; [|by right].
  destruct ((if 0 <? zlen body then mg_write body else ret true) s1) as [[] s2]; cbn; auto.
Qed.

Lemma send_json_status status j extra s :
  value (syseba_http_send_json status j extra) s = status \/
  value (syseba_http_send_json status j extra) s = 500 \/
  value (syseba_http_send_json status j extra) s = -1.
Proof.
  unfold syseba_http_send_json, syseba_http_send_json_text. destruct (cJSON_PrintUnformatted j) as [body|].
  - destruct (send_status status (c!"application/json; charset=utf-8") body extra s); auto.
  - match goal with |- context [syseba_http_send 500 ?ct ?b ?e] => destruct (send_status 500 ct b e s) end; auto.
Qed.

Lemma refused_not_200 s :
  syseba_http_authorized request (snd s) = false ->
  value (syseba_http_require_auth request) s <> 200 /\ value (syseba_http_require_auth request) s <> 0.
Proof.
  intros Ha. unfold value, syseba_http_require_auth. rewrite bind_gets, Ha.
  match goal with |- context [syseba_http_send_json ?st ?j ?e] =>
    destruct (send_json_status st j e s) as [E|[E|E]] end; unfold value in E; by rewrite E.
Qed.

Lemma blind_require_auth : blind refuse (syseba_http_require_auth request).
Proof.
  intros c a1 a2 (Hl & Ha1 & Ha2). unfold syseba_http_require_auth. rewrite !bind_gets. cbn [snd].
  rewrite Ha1, Ha2, Hl. by apply blind_send_json with (R := fun _ _ => True).
Qed.

(** A request that is refused: the same answer whatever the application holds. *)
Lemma refused_blind : blind refuse (syseba_http_handler unknown forked request).
Proof.
  unfold syseba_http_handler. cbv zeta.
  apply blind_if; [|apply blind_if; [apply blind_send|apply blind_if; [apply blind_send|apply blind_if;
    [|apply blind_if; [apply blind_error|]]]]].
  - unfold syseba_http_index. apply blind_gets; [by intros c a1 a2 (? & _)|]. intros l. apply blind_send.
  - apply blind_gets; [|intros; apply blind_send_json].
    intros c a1 a2 (_ & Ha1%refused_auth & Ha2%refused_auth). cbn. congruence.
  - intros c a1 a2 HR. destruct (blind_require_auth c a1 a2 HR) as (r & c' & E1 & E2).
    exists r, c'. destruct HR as (_ & Ha1 & _).
    destruct (refused_not_200 (c, a1) Ha1) as [_ Hr]. unfold value in Hr. rewrite E1 in Hr. cbn in Hr.
    rewrite !(bind_run _ _ _ _ _ E1), !(bind_run _ _ _ _ _ E2). apply Z.eqb_neq in Hr. by rewrite Hr.
Qed.

Lemma refused_status c a :
  syseba_http_authorized request a = false -> public_path (request_path request) = false ->
  value (syseba_http_handler unknown forked request) (c, a) <> 200.
Proof.
  intros Ha Hp. unfold public_path in Hp. bool_hyps. unfold syseba_http_handler. cbv zeta.
  repeat match goal with H : streq (request_path request) _ = false |- _ => rewrite H; clear H end.
  rewrite !andb_false_r. cbn [orb]. rewrite ?andb_false_r.
  destruct (negb (is_get request) && negb (is_post request)).
  - unfold syseba_http_error. match goal with |- context [syseba_http_send_json ?st ?j ?e] =>
      destruct (send_json_status st j e (c, a)) as [E|[E|E]] end; by rewrite E.
  - destruct (refused_not_200 (c, a) Ha) as [H200 H0']. unfold value in *.
    destruct (syseba_http_require_auth request (c, a)) as [r s] eqn:E.
    rewrite (bind_run _ _ _ _ _ E). cbn [fst] in *. apply Z.eqb_neq in H0'. by rewrite H0'.
Qed.
End Handler.

(** ** Downloads *)

Lemma send_pieces_quiet fuel data out a :
  (length data < fuel)%nat ->
  send_pieces fuel data (Connection [] out, a) = (true, (Connection [] (out ++ data), a)).
Proof.
  revert data out. induction fuel as [|fuel IH]; intros data out Hl; [lia|]. cbn [send_pieces].
  assert (COPY_BUFFER = 1048576) as Hb by done.
  assert (exists rest, data = take_upto COPY_BUFFER data ++ rest /\
            (zlen (take_upto COPY_BUFFER data) <? COPY_BUFFER = true -> rest = []) /\
            (zlen (take_upto COPY_BUFFER data) <? COPY_BUFFER = false -> take_upto COPY_BUFFER data <> []))
    as (rest & E & Hshort & Hlong).
  { unfold take_upto. destruct (zlen data <=? COPY_BUFFER) eqn:E; bool_hyps.
    - exists []. rewrite app_nil_r. split_and!; [done|done|]. intros H%Z.ltb_ge ->. rewrite Hb in H. by vm_compute in H.
    - exists (drop (Z.to_nat COPY_BUFFER) data). rewrite take_drop. split; [done|].
      assert (zlen (take (Z.to_nat COPY_BUFFER) data) = COPY_BUFFER) as Hz.
      { unfold zlen in *. rewrite length_take. lia. }
      rewrite Hz, Z.ltb_irrefl. split; [done|]. intros _ E0. by rewrite E0 in Hz. }
  set (piece := take_upto COPY_BUFFER data) in *.
  assert ((if 0 <? zlen piece then mg_write piece else ret true) (Connection [] out, a)
            = (true, (Connection [] (out ++ piece), a))) as Hw.
  { destruct (0 <? zlen piece) eqn:E0; [done|]. bool_hyps. pose proof (zlen_nonneg piece).
    rewrite (zlen_0_inv piece) by lia. by rewrite app_nil_r. }
  rewrite (bind_run _ _ _ _ _ Hw). cbn [negb]. destruct (zlen piece <? COPY_BUFFER) eqn:Es.
  - rewrite E, (Hshort eq_refl), app_nil_r. done.
  - assert (drop (length piece) data = rest) as -> by (rewrite E; apply drop_app_length).
    rewrite IH; [by rewrite E, app_assoc|]. specialize (Hlong eq_refl).
    rewrite E, length_app in Hl. destruct piece; [done|]. cbn [length] in Hl. lia.
Qed.

Lemma download_name_safe path size :
  0 < size -> Forall (fun c => unsafe_name_char c = false) (syseba_safe_download_name path size) /\
  zlen (syseba_safe_download_name path size) < size.
Proof.
  intros Hs. unfold syseba_safe_download_name. split.
  - apply Forall_forall. intros c (x & <- & _)%list_elem_of_In%in_map_iff.
    destruct (unsafe_name_char x) eqn:E; [by vm_compute|done].
  - rewrite zlen_map. unfold zlen. rewrite length_take. lia.
Qed.

Lemma zoom_conn {A} (m : ST os A) c a r s :
  m (app_os a) = (r, s) -> zoom m (c, a) = (r, (c, with_os s a)).
Proof. intros E. unfold zoom. cbn. by rewrite E. Qed.

Section Download.
Context `{DirOrder} `{IsoTime} `{Qsort} `{LocalStamp} `{Host} `{Strerror} `{Clock} `{Environment} `{CJson}.
Context `{Civetweb} `{Assets} `{!Allocator syseba_log_record_t}.

Lemma download_quiet request a rn rel out m data :
  quiet (app_os a) -> tree_ok (os_fs (app_os a)) -> rel <> [] -> area (os_fs (app_os a)) rn rel ->
  cfg_restore (app_config a) = render rn ->
  query request (c!"path") [] SYSEBA_PATH_MAX = drop 1 (join_with SLASH rel) ->
  os_fs (app_os a) !! (rn ++ rel) = Some (NReg m data) ->
  exists s', same_world (app_os a) s' /\
    syseba_http_download request (Connection [] out, a) =
      (200, (Connection [] (out ++ download_head (zlen data)
                              (syseba_safe_download_name (render (rn ++ rel)) 512) ++ data),
             with_os s' a)).
Proof.
  intros Hq Ht Hr Ha Hc Hquery Hk. unfold syseba_http_download. cbv zeta. rewrite bind_gets. cbn [snd].
  rewrite Hquery, Hc. destruct (area_join (app_os a) rn rel Hq Ht Hr Ha) as (s1 & E1 & Hw1).
  assert (nonempty (drop 1 (join_with SLASH rel)) = true) as ->.
  { destruct rel as [|f rel]; [done|]. pose proof (ar_names _ _ _ Ha) as Hn.
    apply Forall_app in Hn as [_ Hn]. apply Forall_inv in Hn as [[Hn _] _]. by destruct f. }
  cbn [negb]. rewrite (bind_run _ _ _ _ _ (zoom_conn _ _ _ _ _ E1)).
  destruct (exists_last Hr) as (r & x & Erel).
  assert (rn ++ rel = (rn ++ r) ++ [x]) as Ek by (rewrite Erel; by rewrite app_assoc).
  destruct Hw1 as [Hh1 Hf1]. assert (quiet s1) as Hq1 by (by eapply same_host_quiet).
  rewrite Ek in Hk. rewrite <- Hf1 in Hk, Ht.
  assert (dir_chain (os_fs s1) (rn ++ r)) as Hd by (eapply tree_chain; [done|by eexists]).
  assert (Forall path_name ((rn ++ r) ++ [x])) as Hn by (rewrite <- Ek; apply Ha).
  rewrite Ek. rewrite (bind_run _ _ _ _ _ (zoom_conn _ _ (with_os s1 a) _ _ (open_read_quiet s1 _ _ _ _ Hq1 Hn Hd Hk))).
  set (head := download_head _ _).
  rewrite (bind_run _ _ _ true (Connection [] (out ++ head), with_os s1 (with_os s1 a))) by done. cbn [negb].
  rewrite (bind_run _ _ _ _ _ (zoom_conn _ _ (with_os s1 (with_os s1 a)) _ _ (stream_quiet s1 _ _ _ Hq1 Hk))).
  cbn [sm_data]. rewrite (bind_run _ _ _ _ _ (send_pieces_quiet _ _ _ _ (Nat.lt_succ_diag_r _))).
  exists s1. split; [done|]. by rewrite <- app_assoc.
Qed.
End Download.
