(* ===== verification/DemoWeb.v ===== *)
(** * A concrete Web UI

    What the witnesses of the Web UI's theorems take from outside: a sort, cJSON,
    civetweb, the environment, and a request. *)

From Stdlib Require Import QArith_base Sorting.Sorted.
From S2P Require Import Prelude CString Paths Os Config FsTree Restore AppState Log App Examples Demo Json Service Status Token Web.

#[export] Instance demo_iso : IsoTime := fun _ => c!"2024-01-02T03:04:05".

Section Sort.
Context {A : Type} (cmp : A -> A -> Z).

Fixpoint insert_sorted (x : A) (l : list A) : list A :=
  match l with
  | [] => [x]
  | y :: r => if cmp x y <=? 0 then x :: l else y :: insert_sorted x r
  end.

Lemma insert_sorted_perm x l : Permutation (insert_sorted x l) (x :: l).
Proof.
  induction l as [|y l IH]; [done|]. cbn. destruct (_ <=? _); [done|]. rewrite IH. apply Permutation_swap.
Qed.

Lemma insert_sorted_sorted x l :
  (forall a b, cmp a b <= 0 \/ cmp b a <= 0) ->
  (forall a b c, cmp a b <= 0 -> cmp b c <= 0 -> cmp a c <= 0) ->
  StronglySorted (fun a b => cmp a b <= 0) l -> StronglySorted (fun a b => cmp a b <= 0) (insert_sorted x l).
Proof.
  intros Ht Htr. induction 1 as [|y l Hl IH Hy]; cbn; [by repeat constructor|].
  destruct (cmp x y <=? 0) eqn:E; bool_hyps.
  - constructor; [by constructor|]. constructor; [done|]. eapply Forall_impl; [exact Hy|]. intros z. by apply Htr.
  - constructor; [done|]. rewrite insert_sorted_perm. constructor; [|done].
    destruct (Ht x y); [lia|done].
Qed.
End Sort.

#[export] Instance demo_qsort : Qsort.
Proof.
  refine {| qsort A cmp l := fold_right (insert_sorted cmp) [] l |}.
  - intros A cmp l. induction l as [|x l IH]; [done|]. cbn. by rewrite insert_sorted_perm, IH.
  - intros A cmp l Ht Htr. induction l as [|x l IH]; cbn; [constructor|]. by apply insert_sorted_sorted.
Defined.

#[export] Instance demo_cjson : CJson :=
  {| cJSON_Parse := fun _ => None; cJSON_PrintUnformatted := fun _ => Some (c!"{}") |}.
#[export] Instance demo_host_facts : Host := {| statvfs := fun _ => None; proc_self_status := None |}.
#[export] Instance demo_environment : Environment := fun _ => None.
#[export] Instance demo_assets : Assets :=
  {| syseba_asset_html := c!"<html lang=__SYSEBA_LANG__>"; syseba_asset_js := c!"js"; syseba_asset_logo := c!"logo" |}.
(** The value after [path=], not decoded. *)
#[export] Instance demo_civetweb : Civetweb :=
  fun query name size => if starts_with (name ++ (c!"=")) query
                         then Some (drop (length name + 1) query) else None.

Definition demo_request (path : cstr) (query : option cstr) (header : cstr -> option cstr) : mg_request_info :=
  Request (c!"GET") path None query 0 header [].
Definition secured_app (token : cstr) (host : os) : syseba_app_t :=
  with_web (WebState token (c!"argument") true false) (demo_app host).
Definition bearer (token : cstr) : cstr -> option cstr :=
  fun name => if streq name (c!"Authorization") then Some ((c!"Bearer ") ++ token) else None.

