(* ===== verification/WebSpec.v ===== *)
(** * The promises of the Web UI *)

From Stdlib Require Import QArith_base Sorting.Sorted.
From S2P Require Import Prelude CString Paths Os OsFacts Platform Fs FsFacts CopyFacts Config ConfigFacts ConfigText FsTree FsTreeFacts Restore RestoreFacts Queue AppState Log LogFacts App PlainFacts WalkFacts AppFacts Examples Demo Json Service Status Token AtomicFacts TokenFacts Web WebFacts DemoWeb.

Section Claims.
Context `{DirOrder} `{IsoTime} `{Qsort} `{LocalStamp} `{Host} `{Strerror} `{Clock} `{Environment} `{CJson}.
Context `{Civetweb} `{Assets} `{!Allocator syseba_log_record_t}.

(** C11: a request without the token changes nothing of the
    application and learns nothing of it: two applications of the same language that
    refuse it, whatever their configuration, token, log and files, send the same bytes,
    and the answer is 200 only on the five public paths. *)
Theorem unauthorized_learns_nothing unknown forked request c a1 a2 :
  syseba_http_authorized request a1 = false -> syseba_http_authorized request a2 = false ->
  language_of a1 = language_of a2 ->
  exists r c', syseba_http_handler unknown forked request (c, a1) = (r, (c', a1)) /\
    syseba_http_handler unknown forked request (c, a2) = (r, (c', a2)) /\
    (r = 200 -> public_path (request_path request) = true).
Proof.
  intros Ha1 Ha2 Hl. destruct (refused_blind unknown forked request c a1 a2) as (r & c' & E1 & E2); [done|].
  exists r, c'. split_and!; [done..|]. intros ->. destruct (public_path _) eqn:Ep; [done|].
  apply (refused_status unknown forked request c a1 Ha1) in Ep. unfold value in Ep. by rewrite E1 in Ep.
Qed.

(** C18: a request is let in exactly when authentication is off or one
    of its headers carries the token itself: the constant-time comparison is equality,
    and a bearer token needs its scheme. *)
Theorem authorized_exactly request a :
  headers_ok request -> no_nul (ws_token (app_web a)) ->
  syseba_http_authorized request a = true <->
  ws_auth_enabled (app_web a) = false \/ supplies request (ws_token (app_web a)).
Proof. apply authorized_spec. Qed.

(** C31: when choosing the token succeeds, either authentication is
    on with a token of 16 to 255 printable characters, or it is off, the options asked
    for that, and the server listens on a loopback address only. *)
Theorem start_has_strong_token device options a a' :
  syseba_web_load_token device options a = (None, a') -> token_chosen options (app_web a').
Proof. apply load_token_chosen. Qed.

(** On a quiet host whose random device gives 32 bytes, in whatever pieces and
    with whatever interruptions, a generated token is written with mode 0600, and reading
    its file gives it back. *)
Theorem token_persists reads p x s :
  gives 32 reads -> quiet s -> Forall path_name (p ++ [x]) -> creatable (os_fs s) p ->
  zlen (render (p ++ [x]) ++ tmp_suffix (os_mono s)) < SYSEBA_PATH_MAX ->
  os_fs s !! (p ++ [x ++ tmp_suffix (os_mono s)]) = None ->
  (forall mm, os_fs s !! (p ++ [x]) <> Some (NDir mm)) ->
  exists token s' m c, syseba_web_create_token (RandomOpened reads) (render (p ++ [x])) s = ((Some token, true), s') /\
    syseba_web_token_valid token = true /\
    os_fs s' !! (p ++ [x]) = Some (NReg m c) /\ m_mode m = 384 /\
    syseba_web_read_token (render (p ++ [x])) s' = (Some token, s').
Proof.
  intros Hg Hq Hn Hc Hz Hf Hd. destruct (random_bytes_succeed reads 32 s Hg) as (random & s1 & Er).
  pose proof Er as Hr. apply random_bytes_full in Hr; [|lia].
  destruct (random_bytes_errno (RandomOpened reads) 32 s) as [e He]. rewrite (exec_pair _ _ _ _ Er) in He. subst s1.
  set (token := flat_map hex2 random).
  destruct (valid_token_Some _ _ (random_token_valid random Hr)) as [_ Hv].
  destruct (token_file_quiet (with_errno e s) p x token) as (s' & m & E & Hs & Hch & Hk & Hm); [done..|].
  exists token, s', m, (token ++ [NEWLINE]). split_and!; [|done|done|done|].
  - unfold syseba_web_create_token. by rewrite (bind_run _ _ _ _ _ Er), (bind_run _ _ _ _ _ E).
  - eapply read_token_quiet; [by eapply same_host_quiet|done|done|done|done].
Qed.

(** C38: on a quiet host, a download of a file of the restore area
    sends its header and then the bytes of that file, and changes nothing; the name in
    the header holds no quote and no line break. *)
Theorem download_sends_file request a rn rel out m data :
  quiet (app_os a) -> tree_ok (os_fs (app_os a)) -> rel <> [] -> area (os_fs (app_os a)) rn rel ->
  cfg_restore (app_config a) = render rn ->
  query request (c!"path") [] SYSEBA_PATH_MAX = drop 1 (join_with SLASH rel) ->
  os_fs (app_os a) !! (rn ++ rel) = Some (NReg m data) ->
  exists name s', Forall (fun c => unsafe_name_char c = false) name /\ same_world (app_os a) s' /\
    syseba_http_download request (Connection [] out, a) =
      (200, (Connection [] (out ++ download_head (zlen data) name ++ data), with_os s' a)).
Proof.
  intros. destruct (download_quiet request a rn rel out m data) as (s' & Hw & E); [done..|].
  exists (syseba_safe_download_name (render (rn ++ rel)) 512), s'.
  split_and!; [by apply download_name_safe|done|done].
Qed.
End Claims.

(** ** Examples *)

Example unauthorized_learns_nothing_witness :
  let request := demo_request (c!"/api/config") None (fun _ => None) in
  let a1 := secured_app (c!"0123456789abcdef") (example_host []) in
  let a2 := secured_app (c!"another secret token") (example_host [EvFault EIO]) in
  exists r c', syseba_http_handler [] true request (Connection [] [], a1) = (r, (c', a1)) /\
    syseba_http_handler [] true request (Connection [] [], a2) = (r, (c', a2)) /\
    (r = 200 -> public_path (request_path request) = true).
Proof. apply unauthorized_learns_nothing; by vm_compute. Defined.

Example authorized_exactly_witness :
  let request := demo_request (c!"/api/config") None (bearer (c!"0123456789abcdef")) in
  let a := secured_app (c!"0123456789abcdef") (example_host []) in
  syseba_http_authorized request a = true <->
  ws_auth_enabled (app_web a) = false \/ supplies request (ws_token (app_web a)).
Proof.
  apply authorized_exactly.
  - intros name v. cbn [rq_header demo_request]. unfold bearer. destruct (streq _ _); [|done].
    intros [= <-]. by repeat constructor.
  - by repeat constructor.
Defined.

(** Two reads, with an interruption between them. *)
Definition demo_reads : list random_read :=
  [RandomBytes (map (fun n => chr (Z.of_nat n * 7)) (seq 0 20)); RandomError EINTR;
   RandomBytes (map (fun n => chr (Z.of_nat n * 11)) (seq 0 20))].

Example start_has_strong_token_witness :
  token_chosen demo_options (app_web (exec (syseba_web_load_token (RandomOpened demo_reads) demo_options)
                                        (demo_app (example_host [])))).
Proof.
  apply (start_has_strong_token (RandomOpened demo_reads) demo_options (demo_app (example_host []))).
  unfold exec. destruct (syseba_web_load_token _ _ _) as [r a'] eqn:E. cbn [snd].
  apply (f_equal fst) in E. vm_compute in E. by rewrite <- E.
Defined.

Example token_persists_witness :
  exists token s' m c, syseba_web_create_token (RandomOpened demo_reads) (render [c!"run"; c!"token"]) (example_host [])
      = ((Some token, true), s') /\
    syseba_web_token_valid token = true /\
    os_fs s' !! [c!"run"; c!"token"] = Some (NReg m c) /\ m_mode m = 384 /\
    syseba_web_read_token (render [c!"run"; c!"token"]) s' = (Some token, s').
Proof.
  apply (token_persists demo_reads [c!"run"] (c!"token") (example_host [])).
  - split; [repeat constructor; done|by vm_compute].
  - done.
  - by apply names_b_spec.
  - apply creatable_b_spec. by vm_compute.
  - by vm_compute.
  - by vm_compute.
  - intros mm Hk. by vm_compute in Hk.
Defined.

Example download_sends_file_witness :
  let request := demo_request (c!"/restore/download") (Some (c!"path=photos/a.jpg")) (fun _ => None) in
  let a := demo_app (example_host []) in
  exists name s', Forall (fun c => unsafe_name_char c = false) name /\ same_world (app_os a) s' /\
    syseba_http_download request (Connection [] [], a) =
      (200, (Connection [] ([] ++ download_head (zlen (c!"pixels")) name ++ (c!"pixels")), with_os s' a)).
Proof.
  apply (download_sends_file _ (demo_app (example_host [])) [c!"restore"] [c!"photos"; c!"a.jpg"] [] example_meta).
  - done.
  - apply tree_b_spec. by vm_compute.
  - done.
  - apply area_b_spec. by vm_compute.
  - by vm_compute.
  - by vm_compute.
  - by vm_compute.
Defined.
