(* ===== verification/SettingsSpec.v ===== *)
(** * The promise of the settings page

    A configuration that the Web UI accepts is in its file, and is the one that the
    program reads at its next start. *)

From Stdlib Require Import QArith_base.
From S2P Require Import Prelude CString Paths Os OsFacts Platform Fs FsFacts CopyFacts Config ConfigFacts AtomicFacts ConfigText ConfigSpec FsTree FsTreeFacts Restore Queue AppState Log LogFacts App PlainFacts AppFacts Examples Demo Json Service Status Token Web WebFacts DemoWeb.

(** ** Reading the configuration changes nothing *)

Lemma calm_validated c : keeps calm (validated c).
Proof. unfold validated. keeps_auto. Qed.
#[export] Hint Resolve calm_validated : keeps.
Lemma calm_config_load `{Strerror} path : keeps calm (syseba_config_load path).
Proof. unfold syseba_config_load. keeps_auto. Qed.

Lemma streq_sym a b : streq a b = streq b a.
Proof.
  destruct (streq a b) eqn:E; [apply streq_true in E as ->; symmetry; by apply streq_true|].
  symmetry. apply streq_false. apply streq_false in E. congruence.
Qed.

(** The list of changes of the status document says what the settings page says. *)
Lemma changes_differ active saved :
  match config_changes active saved with [] => false | _ => true end = config_differs saved active.
Proof.
  unfold config_changes, config_differs, string_change.
  rewrite (streq_sym (cfg_source saved)), (streq_sym (cfg_backup saved)), (streq_sym (cfg_restore saved)),
    (streq_sym (cfg_log_file saved)), (Z.eqb_sym (cfg_threads saved)).
  by destruct (streq _ _), (streq _ _), (streq _ _), (streq _ _), (_ =? _).
Qed.

(** ** Validation depends on the files only *)

Lemma steady_syscall {A} (fail : A) body :
  (forall s1 s2, same_world s1 s2 ->
     match body None s1, body None s2 with
     | inl _, inl _ => True
     | inr (x, _), inr (y, _) => x = y
     | _, _ => False
     end) -> steady same_world (syscall fail body).
Proof.
  intros Hb s1 s2 Hq Hq2 Hw. specialize (Hb s1 s2 Hw).
  unfold value. rewrite !syscall_quiet by done.
  destruct (body None s1) as [|[]], (body None s2) as [|[]]; done.
Qed.

Ltac steady_reader :=
  apply steady_syscall; intros s1 s2 Hw; rewrite ?(same_world_resolve s1 s2) by done;
  let Hh := fresh in let Hf := fresh in
  destruct Hw as [Hh Hf]; rewrite ?Hf; rewrite ?(proj1 (proj2 Hh)); repeat (case_match; simplify_eq); done.

Lemma steady_lstat p : steady same_world (sys_lstat p).
Proof. steady_reader. Qed.
Lemma steady_realpath p : steady same_world (sys_realpath p).
Proof. steady_reader. Qed.
Lemma steady_getcwd : steady same_world sys_getcwd.
Proof. steady_reader. Qed.

#[export] Hint Resolve steady_lstat steady_realpath steady_getcwd : steady.

Lemma steady_exists p : steady same_world (syseba_fs_exists p).
Proof. unfold syseba_fs_exists. steady_auto. Qed.
Lemma steady_is_directory p : steady same_world (syseba_fs_is_directory p).
Proof. unfold syseba_fs_is_directory. steady_auto. Qed.
Lemma steady_path_real p size : steady same_world (syseba_path_real_os p size).
Proof. unfold syseba_path_real_os. steady_auto. Qed.
#[export] Hint Resolve steady_exists steady_is_directory steady_path_real : steady.
Lemma steady_probe fuel p : steady same_world (probe_existing fuel p).
Proof. revert p. induction fuel as [|fuel IH]; intros p; cbn [probe_existing]; steady_auto. Qed.
#[export] Hint Resolve steady_probe : steady.
Lemma steady_resolve_links p size : steady same_world (syseba_path_resolve_links p size).
Proof. unfold syseba_path_resolve_links. steady_auto. Qed.
#[export] Hint Resolve steady_resolve_links : steady.
Lemma steady_is_within b p : steady same_world (syseba_path_is_within b p).
Proof. unfold syseba_path_is_within. steady_auto. Qed.
#[export] Hint Resolve steady_is_within : steady.
Lemma steady_validate c : steady same_world (syseba_config_validate c).
Proof. unfold syseba_config_validate, or_else. steady_auto. Qed.

Lemma json_config_path input active candidate :
  json_config input active = inr candidate -> cfg_config_path candidate = cfg_config_path active.
Proof. unfold json_config. intros H. repeat case_match; try done. by injection H as <-. Qed.

(** ** The status document *)

Section Status.
Context `{Host} `{Strerror} `{Clock} `{Environment} `{CJson}.

(** Only the host's [errno] and the flag of a needed restart may change. *)
Record looked (a a' : syseba_app_t) : Prop := Looked {
  lk_config : app_config a' = app_config a;
  lk_world : same_world (app_os a) (app_os a');
}.

Lemma calm_restart_available : keeps calm syseba_service_restart_available.
Proof. unfold syseba_service_restart_available. destruct (getenv _) as [[|]|]; keeps_auto. Qed.

Lemma zoom_calm {A} (m : ST os A) a :
  keeps calm m -> quiet (app_os a) ->
  exists r s, zoom (L := lens_os) m a = (r, with_os s a) /\ same_world (app_os a) s /\ quiet s.
Proof.
  intros Hm Hq. destruct (m (app_os a)) as [r s] eqn:E. exists r, s.
  split; [by apply zoom_os|]. by eapply calm_run.
Qed.

Lemma status_json_quiet a loaded t :
  quiet (app_os a) -> syseba_config_load (cfg_config_path (app_config a)) (app_os a) = (loaded, t) ->
  exists r a', syseba_app_status_json a = (r, a') /\ looked a a' /\
    ws_restart_required (app_web a') =
      match loaded with
      | inl _ => ws_restart_required (app_web a)
      | inr saved => config_differs saved (app_config a)
      end.
Proof.
  intros Hq El. unfold syseba_app_status_json. rewrite bind_gets. cbv beta.
  destruct (calm_run _ _ _ _ (calm_config_load _) El Hq) as [Hw Hqt].
  assert (exists state a1, config_state a = (state, a1) /\ app_config a1 = app_config a /\ app_os a1 = t /\
    ws_restart_required (app_web a1) =
      match loaded with inl _ => ws_restart_required (app_web a)
      | inr saved => config_differs saved (app_config a) end) as (state & a1 & Ec & Hc1 & Ho1 & Hr1).
  { unfold config_state. rewrite !bind_gets. cbv beta.
    erewrite bind_run by (apply zoom_os; exact El). cbv beta.
    destruct loaded as [e|saved]; [by eexists _, _|]. rewrite bind_unit, <- changes_differ.
    by eexists _, _. }
  rewrite (bind_run _ _ _ _ _ Ec). assert (quiet (app_os a1)) as Hq1 by (by rewrite Ho1).
  destruct (zoom_calm (syseba_fs_exists (ao_lock_path (app_options_ (id a)))) a1) as (r2 & s2 & E2 & Hw2 & Hq2);
    [auto with keeps|done|].
  rewrite (bind_run _ _ _ _ _ E2).
  destruct (zoom_calm syseba_service_restart_available (with_os s2 a1)) as (r3 & s3 & E3 & Hw3 & Hq3);
    [apply calm_restart_available|done|].
  rewrite (bind_run _ _ _ _ _ E3).
  destruct (zoom_calm syseba_service_restart_available (with_os s3 (with_os s2 a1))) as (r4 & s4 & E4 & Hw4 & _);
    [apply calm_restart_available|done|].
  rewrite (bind_run _ _ _ _ _ E4). eexists _, _. split; [reflexivity|]. split; [|done].
  constructor; [done|]. cbn in *. subst t. etransitivity; [exact Hw|]. etransitivity; [exact Hw2|].
  etransitivity; [exact Hw3|]. exact Hw4.
Qed.
End Status.

(** ** Answering *)

Definition same_app (s s' : mg_connection * syseba_app_t) : Prop := snd s' = snd s.
#[export] Instance same_app_preorder : PreOrder same_app.
Proof. split; [done|]. intros s1 s2 s3 H1 H2. unfold same_app in *. congruence. Qed.

Lemma write_same_app bytes : keeps same_app (mg_write bytes).
Proof. intros [c a]. unfold exec, mg_write. by destruct (mc_writes c) as [|[]]. Qed.
#[export] Hint Resolve write_same_app : keeps.

Lemma send_same_app status content_type body extra : keeps same_app (syseba_http_send status content_type body extra).
Proof. unfold syseba_http_send. keeps_auto. Qed.
#[export] Hint Resolve send_same_app : keeps.

Lemma send_json_same_app `{CJson} status j extra : keeps same_app (syseba_http_send_json status j extra).
Proof. unfold syseba_http_send_json, syseba_http_send_json_text. destruct (cJSON_PrintUnformatted j); apply send_same_app. Qed.

(** The answer leaves the application as it is. *)
Lemma same_app_run {A} (m : WEB A) c a :
  keeps same_app m -> exists r c', m (c, a) = (r, (c', a)).
Proof.
  intros Hm. specialize (Hm (c, a)). unfold same_app, exec in Hm. destruct (m (c, a)) as [r [c' a']].
  cbn in Hm. subst a'. by eexists _, _.
Qed.

Section Post.
Context `{Host} `{Strerror} `{Clock} `{Environment} `{CJson} `{!Allocator syseba_log_record_t}.

Lemma zoom_conn_os {A} (m : ST os A) c a r s :
  m (app_os a) = (r, s) -> zoom (L := lens_conn_os) m (c, a) = (r, (c, with_os s a)).
Proof. intros E. unfold zoom. cbn. by rewrite E. Qed.

Lemma zoom_conn_app {A} (m : ST syseba_app_t A) c a r a' :
  m a = (r, a') -> zoom (L := lens_conn_app) m (c, a) = (r, (c, a')).
Proof. intros E. unfold zoom. cbn. by rewrite E. Qed.

Lemma exec_conn_app {A} (m : ST syseba_app_t A) c a : exec (zoom (L := lens_conn_app) m) (c, a) = (c, exec m a).
Proof. unfold exec, zoom. cbn. by destruct (m a). Qed.

(** When the file holds the candidate, the flag says whether it differs from the active
    configuration. *)
Lemma post_answer_quiet language candidate c a loaded t :
  quiet (app_os a) -> cfg_config_path candidate = cfg_config_path (app_config a) ->
  syseba_config_load (cfg_config_path candidate) (app_os a) = (loaded, t) ->
  (forall saved, loaded = inr saved -> saved = candidate) ->
  exists r c' a', post_answer language candidate (app_config a) (c, a) = (r, (c', a')) /\ looked a a' /\
    ws_restart_required (app_web a') = config_differs candidate (app_config a).
Proof.
  intros Hq Hp El Hsaved. unfold post_answer. rewrite !bind_unit, !exec_conn_app.
  set (a1 := exec (set_restart_required (config_differs candidate (app_config a))) a).
  match goal with |- context [exec (syseba_log_emit ?l ?o ?p ?q ?u ?v) a1] =>
    pose proof (only_log_emit l o p q u v a1) as Hlog;
    set (a2 := exec (syseba_log_emit l o p q u v) a1) in * end.
  assert (app_os a2 = app_os a) as Ho2 by apply Hlog.
  assert (app_config a2 = app_config a) as Hc2 by apply Hlog.
  assert (ws_restart_required (app_web a2) = config_differs candidate (app_config a)) as Hr2.
  { by rewrite (ol_web _ _ Hlog). }
  destruct (status_json_quiet a2 loaded t) as (text & a3 & E3 & [Hc3 Hw3] & Hr3);
    [by rewrite Ho2|by rewrite Ho2, Hc2, <- Hp|].
  assert (ws_restart_required (app_web a3) = config_differs candidate (app_config a)) as Hreq.
  { rewrite Hr3. destruct loaded as [e|saved]; [done|]. by rewrite (Hsaved saved), Hc2. }
  assert (exists state, syseba_config_state_json (c, a2) = (state, (c, a3))) as [state E].
  { unfold syseba_config_state_json. rewrite (bind_run _ _ _ _ _ (zoom_conn_app _ c _ _ _ E3)).
    by eexists. }
  rewrite (bind_run _ _ _ _ _ E). assert (looked a a3) as Hl.
  { constructor; [by rewrite Hc3|]. by rewrite Ho2 in Hw3. }
  destruct state as [state|]; [rewrite bind_gets; cbv beta|unfold syseba_http_error];
    match goal with |- context [syseba_http_send_json ?s ?j ?e] =>
      destruct (same_app_run (syseba_http_send_json s j e) c a3) as (r & c' & Er); [apply send_json_same_app|] end;
    exists r, c', a3; by split_and!.
Qed.

(** C23: on a quiet host, when the fields of a request to
    [/api/config] make, with the active values of the others, a valid configuration, it
    replaces the file of the configuration, with the mode 0640, and no other file changes
    but the directories made on the way; the file reads back as that configuration, as the
    program reads it at its next start; the running configuration stays, and a restart is
    asked for exactly when the two differ.  The paths of the configuration are canonical,
    hold no line break or outer blank, and no symbolic link is on the way to them. *)
Theorem accepted_settings_persist request input candidate d f c a :
  quiet (app_os a) -> tree_ok (os_fs (app_os a)) -> syseba_http_read_json request = inr input ->
  json_config input (app_config a) = inr candidate ->
  storable_config candidate -> Forall canonical (config_values candidate) ->
  link_free (os_fs (app_os a)) candidate ->
  Forall path_name (d ++ [f]) -> cfg_config_path (app_config a) = render (d ++ [f]) ->
  zlen (render (d ++ [f]) ++ tmp_suffix (os_mono (app_os a))) < SYSEBA_PATH_MAX ->
  creatable (os_fs (app_os a)) d -> (forall mm, os_fs (app_os a) !! (d ++ [f]) <> Some (NDir mm)) ->
  os_fs (app_os a) !! (d ++ [f ++ tmp_suffix (os_mono (app_os a))]) = None ->
  value (syseba_config_validate candidate) (app_os a) = None ->
  exists r c' a' m, syseba_http_config_post request (c, a) = (r, (c', a')) /\
    os_fs (app_os a') !! (d ++ [f]) = Some (NReg m (config_text candidate)) /\ m_mode m = 416 /\
    (forall k, k <> d ++ [f] -> only_new_dirs d (app_os a) (app_os a') k) /\
    value (syseba_config_load (cfg_config_path (app_config a))) (app_os a') = inr candidate /\
    app_config a' = app_config a /\
    ws_restart_required (app_web a') = config_differs candidate (app_config a).
Proof.
  intros Hq Ht Ej Ec Hst Hcan Hlf Hn Hp Hz Hcr Hnd Hfree Hok.
  assert (cfg_config_path candidate = render (d ++ [f])) as Hpc.
  { rewrite <- Hp. by eapply json_config_path. }
  pose proof (zlen_nonneg (tmp_suffix (os_mono (app_os a)))).
  destruct (config_normalize_id candidate d f (app_os a)) as (s1 & E1 & Hw1); [done..|rewrite zlen_app in Hz; lia|done|done|].
  pose proof Hw1 as [Hh1 Hf1]. assert (os_mono s1 = os_mono (app_os a)) as Hm1 by apply Hh1.
  pose proof (same_world_quiet _ _ Hw1 Hq) as Hq1.
  destruct (config_save_quiet candidate d f s1) as (s2 & m & E2 & Hq2 & Hch & Hf2 & Hmode & Hk);
    rewrite ?Hm1, ?Hf1; try done.
  { rewrite <- Hok. symmetry. by apply steady_validate. }
  assert (forall s, quiet s -> os_fs s = os_fs s2 ->
    exists t, syseba_config_load (cfg_config_path candidate) s = (inr candidate, t) /\ same_world s t) as Hload.
  { intros s Hqs Hfs. rewrite zlen_app in Hz. apply (load_saved candidate d f m (app_os a)); try done; rewrite ?Hfs; try done; [lia|].
    intros k Hne. unfold only_new_dirs. rewrite Hfs, <- Hf1. by apply Hk. }
  set (a2 := with_os s2 (with_os s1 a)).
  destruct (Hload s2) as (t & El & _); [done..|].
  destruct (post_answer_quiet (language_of a) candidate c a2 (inr candidate) t) as (r & c' & a' & Ea & [Hca Hwa] & Hra).
  { done. }
  { cbn. by rewrite Hpc, Hp. }
  { exact El. }
  { by intros saved [= ->]. }
  exists r, c', a', m. pose proof Hwa as [Hha Hfa]. cbn in Hfa, Hha. rewrite Hfa. split_and!; try done.
  - unfold syseba_http_config_post. rewrite !bind_gets. cbn [snd]. rewrite Ej, Ec.
    rewrite (bind_run _ _ _ _ _ (zoom_conn_os _ c a _ _ E1)).
    rewrite (bind_run _ _ _ _ _ (zoom_conn_os _ c (with_os s1 a) _ _ E2)). exact Ea.
  - intros k Hne. unfold only_new_dirs. rewrite Hfa, <- Hf1. by apply Hk.
  - rewrite Hp, <- Hpc. destruct (Hload (app_os a')) as (u & Eu & _); [by eapply same_world_quiet|done|].
    unfold value. by rewrite Eu.
Qed.
End Post.

(** ** An example *)

(** A request for another backup directory and eight threads. *)
Definition settings_json : json := JObject [(c!"backup", JString (c!"/vault")); (c!"threads", JNumber (DFin 8))].
#[local] Instance settings_cjson : CJson :=
  {| cJSON_Parse := fun _ => Some settings_json; cJSON_PrintUnformatted := fun _ => Some (c!"{}") |}.
Definition settings_request : mg_request_info :=
  Request (c!"POST") (c!"/api/config") None None 2 (fun _ => None) [c!"{}"].
Definition new_settings : syseba_config_t :=
  Config (c!"/data") (c!"/vault") (c!"/restore") (c!"/log/syseba.log") (c!"/syseba.conf") 8.

Example accepted_settings_persist_witness :
  let a := demo_app (example_host []) in
  exists r c' a' m,
    syseba_http_config_post settings_request (Connection [] [], a) = (r, (c', a')) /\
    os_fs (app_os a') !! [c!"syseba.conf"] = Some (NReg m (config_text new_settings)) /\ m_mode m = 416 /\
    (forall k, k <> [c!"syseba.conf"] -> only_new_dirs [] (app_os a) (app_os a') k) /\
    value (syseba_config_load (cfg_config_path (app_config a))) (app_os a') = inr new_settings /\
    app_config a' = app_config a /\
    ws_restart_required (app_web a') = true.
Proof.
  apply (accepted_settings_persist settings_request settings_json new_settings []
           (c!"syseba.conf") (Connection [] []) (demo_app (example_host []))).
  - reflexivity.
  - apply tree_ok_b_spec. by vm_compute.
  - by vm_compute.
  - by vm_compute.
  - constructor; [|by vm_compute]. repeat constructor; by apply storable_b.
  - unfold config_values. rewrite !Forall_cons. split_and!; [..|by constructor].
    + exists [c!"data"]. split; [by apply names_b_spec|done].
    + exists [c!"vault"]. split; [by apply names_b_spec|done].
    + exists [c!"restore"]. split; [by apply names_b_spec|done].
    + exists [c!"log"; c!"syseba.log"]. split; [by apply names_b_spec|done].
    + exists [c!"syseba.conf"]. split; [by apply names_b_spec|done].
  - intros v names _ _ _. apply no_link_at_all. by vm_compute.
  - by apply names_b_spec.
  - done.
  - by vm_compute.
  - apply creatable_b_spec. by vm_compute.
  - intros mm E. by vm_compute in E.
  - by vm_compute.
  - by vm_compute.
Defined.
