(* ===== verification/Inotify.v ===== *)
(** * The inotify watcher (src/src/watcher_linux.c)

    A table of the watched directories, kept in step with the watches of the kernel,
    and the events that the kernel reports for them.  Lemmas are in InotifyFacts. *)

From S2P Require Import Prelude CString Paths Os Platform Fs Config FsTree Queue AppState Log App Snapshot.

(** The kernel's side, in a state of its own; [os] is the host when the call is made. *)
Class Inotify (I : Type) := {
  inotify_init1 : os -> errno + I;
  inotify_add_watch : os -> cstr -> I -> (errno + Z) * I;
  inotify_rm_watch : Z -> I -> I;
}.

(** ** The events of the kernel (sys/inotify.h) *)

Definition IN_ATTRIB : Z := 0x4.
Definition IN_CLOSE_WRITE : Z := 0x8.
Definition IN_MOVED_FROM : Z := 0x40.
Definition IN_MOVED_TO : Z := 0x80.
Definition IN_CREATE : Z := 0x100.
Definition IN_DELETE : Z := 0x200.
Definition IN_DELETE_SELF : Z := 0x400.
Definition IN_MOVE_SELF : Z := 0x800.
Definition IN_Q_OVERFLOW : Z := 0x4000.
Definition IN_IGNORED : Z := 0x8000.
Definition IN_ISDIR : Z := 0x40000000.

(** [struct inotify_event]; [len] is the length of [ie_name], the NULs of its end
    included. *)
Record inotify_event := InotifyEvent {
  ie_wd : Z;
  ie_mask : Z;
  ie_cookie : Z;
  ie_name : cstr;
}.

(** [(event->mask & bits) != 0] *)
Definition has (event : inotify_event) (bits : Z) : bool :=
  negb (Z.land (ie_mask event) bits =? 0).

(** A little-endian [uint32_t] at an offset, and an [int]. *)
Definition le32 (offset : nat) (bytes : cstr) : Z :=
  let byte i := match bytes !! (offset + i)%nat with Some c => code c | None => 0 end in
  byte 0%nat + 256 * byte 1%nat + 65536 * byte 2%nat + 16777216 * byte 3%nat.
Definition to_int (x : Z) : Z := if x <? 2 ^ 31 then x else x - 2 ^ 32.

Definition EVENT_SIZE : Z := 16.

(** The event at the cursor, and what follows it in the buffer. *)
Definition event_at (cursor : cstr) : inotify_event * cstr :=
  let len := le32 12 cursor in
  (InotifyEvent (to_int (le32 0 cursor)) (le32 4 cursor) (le32 8 cursor)
     (take (Z.to_nat len) (drop (Z.to_nat EVENT_SIZE) cursor)),
   drop (Z.to_nat (EVENT_SIZE + len)) cursor).

(** The events of a buffer; each takes at least 16 of its bytes. *)
Fixpoint buffer_events (fuel : nat) (cursor : cstr) : list inotify_event :=
  match fuel, cursor with
  | O, _ | _, [] => []
  | S fuel', _ =>
      let '(event, cursor') := event_at cursor in
      event :: buffer_events fuel' cursor'
  end.
Definition events_in (buffer : cstr) : list inotify_event :=
  buffer_events (length buffer) buffer.

(** ** The table *)

Record syseba_linux_watch_t := LinuxWatch {
  lw_descriptor : Z;
  lw_path : cstr;
}.

(** [count] is the length of [lw_watches]. *)
Record syseba_linux_watcher_t (I : Type) := LinuxWatcher {
  lw_inotify : I;
  lw_watches : list syseba_linux_watch_t;
  lw_capacity : Z;
}.
Arguments LinuxWatcher {I}.
Arguments lw_inotify {I}.
Arguments lw_watches {I}.
Arguments lw_capacity {I}.

Definition has_descriptor (descriptor : Z) (watch : syseba_linux_watch_t) : bool :=
  lw_descriptor watch =? descriptor.

(** The first watch of a descriptor, with its index. *)
Fixpoint watch_index (watches : list syseba_linux_watch_t) (descriptor : Z) :
    option (nat * syseba_linux_watch_t) :=
  match watches with
  | [] => None
  | watch :: rest =>
      if has_descriptor descriptor watch then Some (O, watch)
      else match watch_index rest descriptor with
           | Some (index, found) => Some (S index, found)
           | None => None
           end
  end.

Definition syseba_linux_watch_find (watches : list syseba_linux_watch_t) (descriptor : Z) :
    option syseba_linux_watch_t :=
  option_map snd (watch_index watches descriptor).

(** The last watch takes the place of the removed one. *)
Definition watches_without (watches : list syseba_linux_watch_t) (descriptor : Z) :
    list syseba_linux_watch_t :=
  match watch_index watches descriptor, last watches with
  | Some (index, _), Some moved => take (pred (length watches)) (<[index := moved]> watches)
  | _, _ => watches
  end.

Definition watch_of (descriptor : Z) (path : cstr) : syseba_linux_watch_t :=
  LinuxWatch descriptor (truncate SYSEBA_PATH_MAX path).

(** [capacity == 0 ? 64 : capacity * 2], when the array is full. *)
Definition grown_capacity (capacity count : Z) : Z :=
  if negb (count =? capacity) then capacity
  else if capacity =? 0 then 64 else wrap64 (capacity * 2).

Section Watcher.
Context {I : Type} `{Inotify I}.
Context `{DirOrder} `{SnapshotMemory} `{LocalStamp} `{Strerror} `{Clock}.
Context `{!Allocator syseba_event_t} `{!Allocator syseba_log_record_t}.
(** Whether [realloc] gives the array its new capacity, and whether the event that
    [syseba_app_enqueue] makes is allocated. *)
Context (reallocated : Z -> bool) (allocated : syseba_app_t -> bool).
(** What the workers do while a synchronization waits for them. *)
Context (workers : syseba_app_t -> syseba_app_t).

Notation watcher := (syseba_linux_watcher_t I).
Notation WATCH := (ST (watcher * syseba_app_t)).

#[local] Instance lens_watch : Lens (watcher * syseba_app_t) syseba_app_t.
Proof. refine {| lget := snd; lset t s := (fst s, t) |}; [done|by intros []|done]. Defined.
#[local] Instance lens_watch_os : Lens (watcher * syseba_app_t) os.
Proof.
  refine {| lget s := app_os (snd s); lset t s := (fst s, with_os t (snd s)) |};
    [done|by intros [? []]|done].
Defined.

Definition set_watcher (inotify : I) (watches : list syseba_linux_watch_t) (capacity : Z) :
    WATCH unit :=
  modify (fun '(_, a) => (LinuxWatcher inotify watches capacity, a)).

Definition syseba_linux_watch_add (path : cstr) : WATCH bool :=
  let* w := gets fst in
  let* s := gets (fun s => app_os (snd s)) in
  let watches := lw_watches w in
  match inotify_add_watch s path (lw_inotify w) with
  | (inl e, inotify) =>
      set_watcher inotify watches (lw_capacity w) ;;;
      zoom (set_errno e) ;;; ret false
  | (inr descriptor, inotify) =>
      match watch_index watches descriptor with
      | Some (index, _) =>
          set_watcher inotify (<[index := watch_of descriptor path]> watches) (lw_capacity w) ;;;
          ret true
      | None =>
          let capacity := grown_capacity (lw_capacity w) (zlen watches) in
          if negb (capacity =? lw_capacity w) && negb (reallocated capacity) then
            zoom (set_errno ENOMEM) ;;;
            set_watcher (inotify_rm_watch descriptor inotify) watches (lw_capacity w) ;;;
            ret false
          else
            set_watcher inotify (watches ++ [watch_of descriptor path]) capacity ;;;
            ret true
      end
  end.

Definition syseba_linux_watch_remove (descriptor : Z) : WATCH unit :=
  modify (fun '(w, a) =>
    (LinuxWatcher (lw_inotify w) (watches_without (lw_watches w) descriptor) (lw_capacity w), a)).

(** ** Watching the source *)

Definition syseba_linux_add_directory (path : cstr) (directory : bool) : WATCH bool :=
  if negb directory then ret true else syseba_linux_watch_add path.

(** The watcher, when the instance and every watch were made. *)
Definition syseba_linux_watch_initialize (root : cstr) : ST syseba_app_t (option watcher) :=
  fun a =>
    match inotify_init1 (app_os a) with
    | inl e => (None, with_os (with_errno e (app_os a)) a)
    | inr inotify =>
        let watched :=
          let* added := syseba_linux_watch_add root in
          if negb added then ret false
          else syseba_walk_files syseba_linux_add_directory root in
        let '(ok, (w, a)) := watched (LinuxWatcher inotify [] 0, a) in
        (if ok then Some w else None, a)
    end.

(** ** An event *)

(** [watch->path/event->name], or the path of the directory itself. *)
Definition event_path (watch : syseba_linux_watch_t) (event : inotify_event) : option cstr :=
  match until_nul (ie_name event) with
  | [] => Some (lw_path watch)
  | name =>
      let path := lw_path watch ++ SLASH :: name in
      if fits SYSEBA_PATH_MAX path then Some path else None
  end.

Definition enqueue_if (condition : bool) (kind : syseba_event_kind_t) (path : cstr)
    (directory : bool) : WATCH unit :=
  if condition then zoom (emit_change allocated kind path directory) else ret tt.

(** [IN_Q_OVERFLOW]: the kernel lost events. *)
Definition reconcile_overflow : ST syseba_app_t unit :=
  let* source := gets (fun a => cfg_source (app_config a)) in
  let* language := gets language_of in
  syseba_log_emit (c!"WARNING") (c!"WATCH") source [] (c!"IN_Q_OVERFLOW")
    (syseba_tr language (c!"Coda inotify satura; avvio riconciliazione")
       (c!"inotify queue overflow; reconciling")) ;;;
  syseba_app_initial_sync workers ;;;
  ret tt.

Definition syseba_linux_process_event (event : inotify_event) : WATCH unit :=
  let* w := gets fst in
  let watch := syseba_linux_watch_find (lw_watches w) (ie_wd event) in
  let directory := has event IN_ISDIR in
  if has event IN_Q_OVERFLOW then zoom reconcile_overflow
  else
    match watch with
    | None => ret tt
    | Some watch =>
        match event_path watch event with
        | None => ret tt
        | Some path =>
            if has event IN_IGNORED then syseba_linux_watch_remove (ie_wd event)
            else if has event (Z.lor IN_DELETE_SELF IN_MOVE_SELF) then
              syseba_linux_watch_remove (ie_wd event)
            else
              (if has event (Z.lor IN_CREATE IN_MOVED_TO) && directory
               then syseba_linux_watch_add path ;;; ret tt else ret tt) ;;;
              enqueue_if (has event (Z.lor IN_CREATE IN_MOVED_TO))
                SYSEBA_EVENT_CREATE path directory ;;;
              enqueue_if (has event (Z.lor IN_CLOSE_WRITE IN_ATTRIB) && negb directory)
                SYSEBA_EVENT_MODIFY path false ;;;
              enqueue_if (has event (Z.lor IN_DELETE IN_MOVED_FROM))
                SYSEBA_EVENT_DELETE path directory
        end
    end.

Fixpoint process_events (events : list inotify_event) : WATCH unit :=
  match events with
  | [] => ret tt
  | event :: rest => syseba_linux_process_event event ;;; process_events rest
  end.

(** ** The thread *)

(** What [poll] answers; with input, the buffers that the calls of [read] fill until
    one gives nothing. *)
Inductive poll_answer : Type :=
  | PollFailed (e : errno)
  | PollQuiet
  | PollInput (buffers : list cstr).

(** A turn: what the kernel and the other threads do during [poll], and its answer. *)
Record turn := Turn {
  tn_world : I * syseba_app_t -> I * syseba_app_t;
  tn_answer : poll_answer;
}.

Definition world_turns (f : I * syseba_app_t -> I * syseba_app_t) : WATCH unit :=
  modify (fun '(w, a) =>
    let '(inotify, a) := f (lw_inotify w, a) in
    (LinuxWatcher inotify (lw_watches w) (lw_capacity w), a)).

Fixpoint process_buffers (buffers : list cstr) : WATCH unit :=
  match buffers with
  | [] => ret tt
  | buffer :: rest => process_events (events_in buffer) ;;; process_buffers rest
  end.

(** The loop over the given turns: a stop or a failure of [poll] ends it. *)
Fixpoint native_loop (turns : list turn) : WATCH unit :=
  match turns with
  | [] => ret tt
  | t :: turns' =>
      let* stopping := zoom syseba_app_is_stopping in
      if stopping then ret tt
      else
        world_turns (tn_world t) ;;;
        match tn_answer t with
        | PollFailed e =>
            if bool_decide (e = EINTR) then native_loop turns' else ret tt
        | PollQuiet => native_loop turns'
        | PollInput buffers => process_buffers buffers ;;; native_loop turns'
        end
  end.

(** [polling] is [syseba_watcher_poll_main]. *)
Definition syseba_watcher_native_main (polling : ST syseba_app_t unit) (turns : list turn) :
    ST syseba_app_t unit :=
  let* source := gets (fun a => cfg_source (app_config a)) in
  let* initialized := syseba_linux_watch_initialize source in
  let* language := gets language_of in
  match initialized with
  | None =>
      let* e := zoom get_errno in
      syseba_log_emit (c!"WARNING") (c!"WATCH") source [] (strerror e)
        (syseba_tr language (c!"inotify non disponibile") (c!"inotify unavailable")
           ++ (c!"; ") ++ syseba_tr language (c!"uso il polling") (c!"using polling")) ;;;
      polling
  | Some w =>
      syseba_log_emit (c!"INFO") (c!"WATCH") source [] (c!"inotify")
        (syseba_tr language (c!"Watcher inotify attivo") (c!"inotify watcher active")
           ++ (c!" (") ++ dec (zlen (lw_watches w)) ++ (c!" ")
           ++ syseba_tr language (c!"directory") (c!"directories") ++ (c!")")) ;;;
      (fun a => (tt, snd (exec (native_loop turns) (w, a))))
  end.
End Watcher.
