(* ===== verification/InotifyFacts.v ===== *)
(** * Facts on the inotify watcher

    The decoding of the kernel's buffer, the table as a finite map, and what the
    watcher does on a quiet host. *)

From S2P Require Import Prelude CString Paths Os OsFacts Platform Fs FsFacts CopyFacts Config ConfigFacts ConfigText FsTree FsTreeFacts Restore Queue QueueFacts AppState Log LogFacts App PlainFacts WalkFacts AppFacts LifeFacts SyncFacts Snapshot SnapshotFacts PollFacts Inotify.

(** ** The format of the buffer (inotify(7)) *)

Definition le_bytes (x : Z) : cstr :=
  [chr (x mod 256); chr (x / 256 mod 256); chr (x / 65536 mod 256); chr (x / 16777216 mod 256)].
Definition event_bytes (event : inotify_event) : cstr :=
  le_bytes (ie_wd event mod 2 ^ 32) ++ le_bytes (ie_mask event) ++ le_bytes (ie_cookie event)
    ++ le_bytes (zlen (ie_name event)) ++ ie_name event.

(** The fields have their widths. *)
Definition event_ok (event : inotify_event) : Prop :=
  - 2 ^ 31 <= ie_wd event < 2 ^ 31 /\ 0 <= ie_mask event < 2 ^ 32 /\
  0 <= ie_cookie event < 2 ^ 32 /\ zlen (ie_name event) < 2 ^ 32.

Lemma code_byte x : code (chr (x mod 256)) = x mod 256.
Proof. apply code_chr. pose proof (Z.mod_pos_bound x 256). lia. Qed.

Lemma le_bytes_value x : 0 <= x < 2 ^ 32 ->
  x mod 256 + 256 * (x / 256 mod 256) + 65536 * (x / 65536 mod 256) + 16777216 * (x / 16777216 mod 256) = x.
Proof.
  intros Hx. change 65536 with (256 * 256). change 16777216 with (256 * (256 * 256)).
  rewrite <- !Z.div_div by lia. pose proof (Z.div_mod x 256). pose proof (Z.div_mod (x / 256) 256).
  pose proof (Z.div_mod (x / 256 / 256) 256). rewrite (Z.mod_small (x / 256 / 256 / 256)); [lia|].
  split; [by repeat apply Z.div_pos; lia|]. rewrite !Z.div_div by lia. apply Z.div_lt_upper_bound; lia.
Qed.

(** The integer whose bytes start at the offset. *)
Lemma le32_bytes x offset before after :
  0 <= x < 2 ^ 32 -> length before = offset -> le32 offset (before ++ le_bytes x ++ after) = x.
Proof.
  intros Hx <-. unfold le32.
  assert (forall l i, (before ++ l) !! (length before + i)%nat = l !! i) as Hl.
  { intros l i. rewrite lookup_app_r by lia. f_equal. lia. }
  rewrite !Hl. cbn [lookup list_lookup app le_bytes]. rewrite !code_byte. by apply le_bytes_value.
Qed.

Lemma to_int_mod x : - 2 ^ 31 <= x < 2 ^ 31 -> to_int (x mod 2 ^ 32) = x.
Proof.
  intros Hx. unfold to_int. destruct (Z.ltb_spec x 0).
  - rewrite <- (Z.mod_add x 1), Z.mod_small by lia. case_if; bool_hyps; lia.
  - rewrite Z.mod_small by lia. case_if; bool_hyps; lia.
Qed.

Lemma event_at_bytes event rest :
  event_ok event -> event_at (event_bytes event ++ rest) = (event, rest).
Proof.
  destruct event as [wd mask cookie name]. intros (Hw & Hm & Hc & Hn). cbn in Hw, Hm, Hc, Hn.
  pose proof (Z.mod_pos_bound wd (2 ^ 32)). pose proof (zlen_nonneg name).
  unfold event_at, event_bytes. cbn [ie_wd ie_mask ie_cookie ie_name].
  assert (forall x, length (le_bytes x) = 4%nat) as Hl by done.
  set (a := le_bytes (wd mod 2 ^ 32)). set (b := le_bytes mask). set (c := le_bytes cookie).
  set (d := le_bytes (zlen name)).
  assert (((a ++ b ++ c ++ d ++ name) ++ rest) = (a ++ b ++ c) ++ d ++ (name ++ rest)) as E
    by by rewrite <- !app_assoc.
  assert (le32 12 ((a ++ b ++ c ++ d ++ name) ++ rest) = zlen name) as El
    by (rewrite E; apply le32_bytes; [lia|done]).
  rewrite El. replace (Z.to_nat (EVENT_SIZE + zlen name)) with (16 + length name)%nat by (unfold EVENT_SIZE, zlen; lia).
  replace (Z.to_nat (zlen name)) with (length name) by (unfold zlen; lia).
  change (Z.to_nat EVENT_SIZE) with 16%nat. f_equal; [f_equal|].
  - rewrite <- !app_assoc. transitivity (to_int (wd mod 2 ^ 32)); [f_equal|by apply to_int_mod].
    apply (le32_bytes _ 0 []); [lia|done].
  - rewrite <- !app_assoc. apply le32_bytes; [lia|done].
  - rewrite <- !app_assoc, (app_assoc a b). apply le32_bytes; [lia|done].
  - rewrite E, (app_assoc (a ++ b ++ c)). rewrite drop_app_length' by done. apply take_app_length.
  - rewrite E, (app_assoc (a ++ b ++ c)), <- drop_drop, drop_app_length' by done. apply drop_app_length.
Qed.

Lemma event_bytes_length event : (16 <= length (event_bytes event))%nat.
Proof. unfold event_bytes. rewrite !length_app. cbn. lia. Qed.

(** Decoding a buffer gives the events that the kernel wrote. *)
Lemma events_in_bytes events :
  Forall event_ok events -> events_in (flat_map event_bytes events) = events.
Proof.
  intros Hok. unfold events_in.
  assert (forall fuel, (length (flat_map event_bytes events) <= fuel)%nat ->
    buffer_events fuel (flat_map event_bytes events) = events) as Hgen; [|by apply Hgen].
  induction Hok as [|event events He Hok IH]; intros fuel Hf; [by destruct fuel|].
  cbn [flat_map] in *. pose proof (event_bytes_length event). rewrite length_app in Hf.
  destruct fuel as [|fuel]; [lia|]. cbn [buffer_events]. rewrite event_at_bytes by done.
  destruct (event_bytes event ++ _) eqn:E; [|rewrite IH; [done|lia]].
  apply (f_equal length) in E. rewrite length_app in E. cbn in E. lia.
Qed.

(** ** The table as a finite map *)

Definition descriptors (watches : list syseba_linux_watch_t) : list Z := lw_descriptor <$> watches.
Definition pair_of (w : syseba_linux_watch_t) : Z * cstr := (lw_descriptor w, lw_path w).

(** The path of every watched descriptor. *)
Definition table (watches : list syseba_linux_watch_t) : gmap Z cstr :=
  list_to_map (pair_of <$> watches).

Lemma watch_index_Some ws d i w :
  watch_index ws d = Some (i, w) ->
  exists before after, ws = before ++ w :: after /\ length before = i /\ lw_descriptor w = d.
Proof.
  revert i. induction ws as [|x ws IH]; intros i E; [done|]. cbn [watch_index] in E.
  destruct (has_descriptor d x) eqn:Ex.
  - injection E as <- <-. unfold has_descriptor in Ex. bool_hyps. by exists [], ws.
  - destruct (watch_index ws d) as [[j y]|]; [|done]. injection E as <- <-.
    destruct (IH j eq_refl) as (before & after & -> & <- & Hd). by exists (x :: before), after.
Qed.

Lemma watch_index_None ws d : watch_index ws d = None <-> d ∉ descriptors ws.
Proof.
  induction ws as [|x ws IH]; cbn [watch_index descriptors fmap list_fmap].
  { split; [|done]. intros _ ?%not_elem_of_nil. done. }
  fold (descriptors ws). rewrite not_elem_of_cons, <- IH. unfold has_descriptor.
  destruct (Z.eqb_spec (lw_descriptor x) d) as [<-|Hne]; [naive_solver|].
  destruct (watch_index ws d) as [[j y]|]; naive_solver.
Qed.

Lemma watch_find_table ws d :
  syseba_linux_watch_find ws d = LinuxWatch d <$> table ws !! d.
Proof.
  unfold syseba_linux_watch_find, table.
  induction ws as [|[e p] ws IH]; cbn [watch_index fmap list_fmap list_to_map foldr]; [by rewrite lookup_empty|].
  unfold has_descriptor. cbn [lw_descriptor pair_of fst snd lw_path].
  destruct (Z.eqb_spec e d) as [->|Hne]; [by rewrite lookup_insert_eq|].
  rewrite lookup_insert_ne by done. change (foldr _ ∅ (pair_of <$> ws)) with (list_to_map (M := gmap Z cstr) (pair_of <$> ws)).
  rewrite <- IH. by destruct (watch_index ws d) as [[? ?]|].
Qed.

Lemma table_cons w ws : table (w :: ws) = <[lw_descriptor w := lw_path w]> (table ws).
Proof. done. Qed.

Lemma descriptors_app ws ws' : descriptors (ws ++ ws') = descriptors ws ++ descriptors ws'.
Proof. apply fmap_app. Qed.

(** Members of the array are the pairs of the map. *)
Lemma table_members ws d p :
  NoDup (descriptors ws) -> table ws !! d = Some p <-> LinuxWatch d p ∈ ws.
Proof.
  intros Hn. unfold table. rewrite <- elem_of_list_to_map.
  - rewrite list_elem_of_fmap. unfold pair_of. split.
    + intros ([e q] & [= -> ->] & Hin). done.
    + intros Hin. by exists (LinuxWatch d p).
  - rewrite <- list_fmap_compose. exact Hn.
Qed.

Lemma table_perm ws ws' : NoDup (descriptors ws) -> Permutation ws ws' -> table ws = table ws'.
Proof.
  intros Hn Hp. unfold table. apply list_to_map_proper; [|by rewrite Hp].
  rewrite <- list_fmap_compose. exact Hn.
Qed.

Lemma table_set ws d i w p :
  NoDup (descriptors ws) -> watch_index ws d = Some (i, w) ->
  let ws' := <[i := watch_of d p]> ws in
  descriptors ws' = descriptors ws /\ table ws' = <[d := truncate SYSEBA_PATH_MAX p]> (table ws).
Proof.
  intros Hn (before & after & -> & <- & <-)%watch_index_Some. rewrite insert_app_r_alt, Nat.sub_diag by done.
  cbn [insert list_insert]. split; [by rewrite !descriptors_app|].
  rewrite (table_perm (before ++ watch_of _ _ :: after) (watch_of (lw_descriptor w) p :: before ++ after)).
  - rewrite (table_perm (before ++ w :: after) (w :: before ++ after)), !table_cons; [|done|].
    + unfold watch_of. cbn [lw_descriptor lw_path]. by rewrite insert_insert_eq.
    + symmetry. apply Permutation_middle.
  - rewrite descriptors_app in *. exact Hn.
  - symmetry. apply Permutation_middle.
Qed.

Lemma table_append ws d p :
  NoDup (descriptors ws) -> watch_index ws d = None ->
  let ws' := ws ++ [watch_of d p] in
  NoDup (descriptors ws') /\ table ws' = <[d := truncate SYSEBA_PATH_MAX p]> (table ws).
Proof.
  intros Hn Hd%watch_index_None. cbv zeta.
  assert (Permutation (ws ++ [watch_of d p]) (watch_of d p :: ws)) as Hp by (symmetry; apply Permutation_cons_append).
  assert (NoDup (descriptors (ws ++ [watch_of d p]))) as Hn'.
  { unfold descriptors. rewrite Hp. apply NoDup_cons. by split. }
  split; [done|]. by rewrite (table_perm _ _ Hn' Hp).
Qed.

Lemma watches_without_perm ws d i w :
  watch_index ws d = Some (i, w) -> Permutation ws (w :: watches_without ws d).
Proof.
  intros E. unfold watches_without. rewrite E.
  apply watch_index_Some in E as (before & after & -> & <- & _).
  destruct after as [|m after _] using rev_ind.
  - rewrite last_snoc, insert_app_r_alt, Nat.sub_diag by done. cbn [insert list_insert].
    rewrite length_app. cbn [length]. replace (pred _) with (length before) by lia.
    rewrite take_app_length. symmetry. apply Permutation_cons_append.
  - replace (last (before ++ w :: after ++ [m])) with (Some m)
      by (rewrite app_comm_cons, app_assoc; symmetry; apply last_snoc).
    rewrite insert_app_r_alt, Nat.sub_diag by done. cbn [insert list_insert].
    rewrite app_comm_cons, app_assoc, length_app. cbn [length].
    replace (before ++ m :: after ++ [m]) with ((before ++ m :: after) ++ [m]) by (by rewrite <- app_assoc).
    rewrite take_app_length'; [|rewrite !length_app; cbn; lia].
    rewrite <- app_assoc. cbn [app]. rewrite <- Permutation_middle. apply perm_skip.
    apply Permutation_app_head. symmetry. apply Permutation_cons_append.
Qed.

Lemma table_without ws d :
  NoDup (descriptors ws) ->
  let ws' := watches_without ws d in NoDup (descriptors ws') /\ table ws' = delete d (table ws).
Proof.
  intros Hn ws'. destruct (watch_index ws d) as [[i w]|] eqn:E.
  - pose proof (watches_without_perm _ _ _ _ E) as Hp. fold ws' in Hp.
    apply watch_index_Some in E as (_ & _ & _ & _ & <-).
    assert (NoDup (descriptors (w :: ws'))) as Hn' by (unfold descriptors; by rewrite <- Hp).
    pose proof Hn' as [Hd Hn2]%NoDup_cons. split; [done|].
    rewrite (table_perm _ _ Hn Hp), table_cons, delete_insert_id; [done|].
    apply eq_None_not_Some. intros [p Hq]. apply table_members in Hq; [|done]. apply Hd.
    by apply (list_elem_of_fmap_2 lw_descriptor) in Hq.
  - assert (ws' = ws) as -> by (unfold ws', watches_without; by rewrite E).
    split; [done|]. rewrite delete_id; [done|]. apply watch_index_None in E.
    apply eq_None_not_Some. intros [p Hq]. apply table_members in Hq; [|done]. apply E.
    by apply (list_elem_of_fmap_2 lw_descriptor) in Hq.
Qed.

(** ** Operations on the table *)

Record watcher_ok {I} (w : syseba_linux_watcher_t I) : Prop := WatcherOk {
  wk_nodup : NoDup (descriptors (lw_watches w));
  wk_room : zlen (lw_watches w) <= lw_capacity w < 2 ^ 62;
}.

(** What inotify(7) says of a watch: it belongs to the directory itself, the device and
    the inode number; adding it again gives its descriptor; a call may fail, for want of
    memory or because the user has too many watches, and then changes nothing. *)
Class InotifyLaws (I : Type) `{Inotify I} := {
  ino_ok : I -> Prop;
  wd_of : I -> Z * Z -> option Z;
  init_ok s i : inotify_init1 s = inr i -> ino_ok i;
  wd_injective i x y d : ino_ok i -> wd_of i x = Some d -> wd_of i y = Some d -> x = y;
  add_watch_ok s i k m r i' :
    quiet s -> ino_ok i -> tree_ok (os_fs s) -> Forall path_name k -> no_links (os_fs s) k -> k <> [] ->
    os_fs s !! k = Some (NDir m) -> inotify_add_watch s (render k) i = (r, i') ->
    ino_ok i' /\ (forall x, x <> (m_dev m, m_ino m) -> wd_of i' x = wd_of i x) /\
    match r with
    | inr d =>
        wd_of i' (m_dev m, m_ino m) = Some d /\
        forall d0, wd_of i (m_dev m, m_ino m) = Some d0 -> d0 = d
    | inl _ => wd_of i' (m_dev m, m_ino m) = wd_of i (m_dev m, m_ino m)
    end;
}.

(** A kernel that has room for every watch. *)
Definition grants (I : Type) `{InotifyLaws I} : Prop :=
  forall s i k m, quiet s -> ino_ok i -> tree_ok (os_fs s) -> Forall path_name k -> no_links (os_fs s) k ->
    k <> [] -> os_fs s !! k = Some (NDir m) -> exists d, fst (inotify_add_watch s (render k) i) = inr d.

(** No directory has two places. *)
Definition distinct_directories (fs : fsmap) : Prop :=
  forall k k' m m', fs !! k = Some (NDir m) -> fs !! k' = Some (NDir m') ->
    (m_dev m, m_ino m) = (m_dev m', m_ino m') -> k = k'.

Section Watcher.
Context {I : Type} `{Inotify I}.
Context (reallocated : Z -> bool).

#[local] Existing Instance Inotify.lens_watch.
#[local] Existing Instance Inotify.lens_watch_os.

Notation watcher := (syseba_linux_watcher_t I).

Lemma grown_room capacity count :
  (forall c, reallocated c = true -> c < 2 ^ 62) -> 0 <= count <= capacity -> capacity < 2 ^ 62 ->
  negb (grown_capacity capacity count =? capacity) && negb (reallocated (grown_capacity capacity count)) = false ->
  count + 1 <= grown_capacity capacity count < 2 ^ 62.
Proof.
  intros Hr Hc Hb. unfold grown_capacity. destruct (Z.eqb_spec count capacity) as [->|Hne]; cbn [negb]; [|lia].
  case_if; bool_hyps; subst.
  - intros _. lia.
  - unfold wrap64. rewrite Z.mod_small by lia. destruct (Z.eqb_spec (capacity * 2) capacity); [lia|].
    cbn [negb andb]. intros Er%negb_false_iff. apply Hr in Er. lia.
Qed.

Lemma grown_small capacity count :
  capacity <= 64 + 2 * count -> 0 <= count <= capacity -> capacity < 2 ^ 62 ->
  grown_capacity capacity count <= 64 + 2 * count.
Proof.
  intros. unfold grown_capacity. destruct (Z.eqb_spec count capacity) as [->|Hne]; cbn [negb]; [|lia].
  case_if; bool_hyps; [lia|]. unfold wrap64. rewrite Z.mod_small; lia.
Qed.

(** Adding a watch: the kernel's answer decides what the table becomes. *)
Lemma watch_add_spec (w : watcher) path a :
  (forall c, reallocated c = true -> c < 2 ^ 62) -> watcher_ok w ->
  exists ok w' s', syseba_linux_watch_add reallocated path (w, a) = (ok, (w', with_os s' a)) /\
    same_world (app_os a) s' /\ watcher_ok w' /\
    table (lw_watches w') = (if ok then
        match inotify_add_watch (app_os a) path (lw_inotify w) with
        | (inr d, _) => <[d := truncate SYSEBA_PATH_MAX path]> (table (lw_watches w))
        | (inl _, _) => table (lw_watches w)
        end
      else table (lw_watches w)) /\
    (ok = true -> s' = app_os a /\ exists d, inotify_add_watch (app_os a) path (lw_inotify w) = (inr d, lw_inotify w')) /\
    (lw_capacity w <= 64 + 2 * zlen (lw_watches w) -> lw_capacity w' <= 64 + 2 * zlen (lw_watches w')) /\
    (forall d i, inotify_add_watch (app_os a) path (lw_inotify w) = (inr d, i) ->
       (forall c, c <= 64 + 2 * zlen (lw_watches w) -> reallocated c = true) ->
       lw_capacity w <= 64 + 2 * zlen (lw_watches w) -> ok = true).
Proof.
  intros Hr [Hn Hc]. assert (with_os (app_os a) a = a) as Ha by (by destruct a).
  assert (same_world (app_os a) (app_os a)) as Hrefl by reflexivity.
  unfold syseba_linux_watch_add. rewrite !bind_gets. cbn [fst snd].
  destruct (inotify_add_watch _ _ _) as [[e|d] i] eqn:E; rewrite ?bind_unit.
  - exists false, (LinuxWatcher i (lw_watches w) (lw_capacity w)), (with_errno e (app_os a)).
    split_and!; [done|apply same_world_errno|by constructor|done|done|done|]. intros d i' [=].
  - destruct (watch_index (lw_watches w) d) as [[j x]|] eqn:Ei.
    + rewrite bind_unit. destruct (table_set _ _ _ _ path Hn Ei) as [Hd Ht].
      exists true, (LinuxWatcher i (<[j := watch_of d path]> (lw_watches w)) (lw_capacity w)), (app_os a).
      rewrite Ha. split_and!; [done|done| |done|by intros; split; [|exists d]| |done].
      * constructor; cbn [lw_watches lw_capacity]; [by rewrite Hd|]. unfold zlen. by rewrite length_insert.
      * cbn [lw_watches lw_capacity]. unfold zlen. by rewrite length_insert.
    + cbv zeta. destruct (negb _ && negb _) eqn:Eg.
      * rewrite !bind_unit. exists false, (LinuxWatcher (inotify_rm_watch d i) (lw_watches w) (lw_capacity w)),
          (with_errno ENOMEM (app_os a)).
        split_and!; [done|apply same_world_errno|by constructor|done|done|done|]. intros d' i' _ Hall Hcap.
        apply grown_small in Hcap; [|split; [apply zlen_nonneg|lia]|lia]. rewrite Hall, andb_false_r in Eg by lia. done.
      * rewrite bind_unit. destruct (table_append _ _ path Hn Ei) as [Hn' Ht].
        apply grown_room in Eg; [|done|split; [apply zlen_nonneg|lia]|lia].
        exists true, (LinuxWatcher i (lw_watches w ++ [watch_of d path])
                        (grown_capacity (lw_capacity w) (zlen (lw_watches w)))), (app_os a).
        rewrite Ha. split_and!; [done|done| |done|by intros; split; [|exists d]| |done].
        -- constructor; cbn [lw_watches lw_capacity]; [done|]. rewrite zlen_app. exact Eg.
        -- cbn [lw_watches lw_capacity]. rewrite zlen_app. change (zlen [_]) with 1. intros Hcap.
           apply grown_small in Hcap; [lia|split; [apply zlen_nonneg|lia]|lia].
Qed.

Lemma watch_add_denied (w : watcher) path a e i :
  inotify_add_watch (app_os a) path (lw_inotify w) = (inl e, i) ->
  syseba_linux_watch_add reallocated path (w, a) =
    (false, (LinuxWatcher i (lw_watches w) (lw_capacity w), with_os (with_errno e (app_os a)) a)).
Proof. intros E. unfold syseba_linux_watch_add. rewrite !bind_gets. cbn [fst snd]. by rewrite E. Qed.

Lemma watch_remove_spec (w : watcher) d a :
  watcher_ok w ->
  exists w', syseba_linux_watch_remove d (w, a) = (tt, (w', a)) /\ watcher_ok w' /\
    table (lw_watches w') = delete d (table (lw_watches w)) /\ lw_inotify w' = lw_inotify w.
Proof.
  intros [Hn Hc]. destruct (table_without _ d Hn) as [Hn' Ht].
  eexists. split; [done|]. split_and!; [|done|done]. constructor; cbn [lw_watches lw_capacity]; [done|].
  split; [|lia]. etransitivity; [|apply Hc]. unfold watches_without.
  destruct (watch_index _ _) as [[i x]|]; [|done]. destruct (last _); [|done].
  unfold zlen. rewrite length_take, length_insert. lia.
Qed.
End Watcher.

(** ** Watching the whole source *)

Section Initialize.
Context {I : Type} `{InotifyLaws I} `{DirOrder}.
Context (reallocated : Z -> bool) (a0 : syseba_app_t) (sn : ppath) (fs : fsmap).
Context (Hwalk : walk_ok fs sn) (Hdistinct : distinct_directories fs).
Context (Hquiet : quiet (app_os a0)) (Hfs : os_fs (app_os a0) = fs).
Context (Hlimit : forall c, reallocated c = true -> c < 2 ^ 62).
Context (Hample : forall c, c <= 64 + 2 * Z.of_nat (size fs) -> reallocated c = true).

#[local] Existing Instance Inotify.lens_watch.
#[local] Existing Instance Inotify.lens_watch_os.
Notation watcher := (syseba_linux_watcher_t I).

Definition inode (m : meta) : Z * Z := (m_dev m, m_ino m).

(** The table holds the directories of [D], under the kernel's descriptors. *)
Record tracks (D : ppath -> Prop) (w : watcher) : Prop := Tracks {
  tk_ok : watcher_ok w;
  tk_ino : ino_ok (lw_inotify w);
  tk_sound : forall d p, table (lw_watches w) !! d = Some p ->
    exists k m, D k /\ fs !! k = Some (NDir m) /\ p = render k /\ wd_of (lw_inotify w) (inode m) = Some d;
  tk_complete : forall k m, D k -> fs !! k = Some (NDir m) ->
    exists d, wd_of (lw_inotify w) (inode m) = Some d /\ table (lw_watches w) !! d = Some (render k);
}.

Lemma tracks_ext D D' w : (forall k m, fs !! k = Some (NDir m) -> D k <-> D' k) -> tracks D w -> tracks D' w.
Proof.
  intros HD [Hk Hi Hs Hc]. constructor; [done|done| |].
  - intros d p (k & m & HDk & Hm & ?)%Hs. exists k, m. split_and!; try done; [by eapply HD|naive_solver..].
  - intros k m HDk Hm. eapply Hc; [by eapply HD|done].
Qed.

(** Different watches have different paths, so there are not more than directories. *)
Lemma tracks_size D w : tracks D w -> zlen (lw_watches w) <= Z.of_nat (size fs).
Proof.
  intros [[Hn _] Hi Hs _].
  assert (forall x, x ∈ lw_watches w -> table (lw_watches w) !! lw_descriptor x = Some (lw_path x)) as Hin.
  { intros [d p] Hx. by apply table_members. }
  assert (NoDup (lw_path <$> lw_watches w)) as Hnp.
  { apply NoDup_fmap_2_strong; [|by eapply NoDup_fmap_1]. intros [d p] [d' p'] Hx Hx' Ep. cbn in Ep. subst p'.
    apply Hin, Hs in Hx as (k & m & _ & Hk & Ek & Hd). apply Hin, Hs in Hx' as (k' & m' & _ & Hk' & Ek' & Hd').
    cbn in *. rewrite Ek in Ek'. apply render_inj in Ek' as <-; [|by eapply (wo_names _ _ Hwalk)..].
    rewrite Hk in Hk'. injection Hk' as <-. congruence. }
  assert (lw_path <$> lw_watches w ⊆+ (fun kn => render (fst kn)) <$> map_to_list fs) as Hsub.
  { apply NoDup_submseteq; [done|]. intros p (x & -> & Hx)%list_elem_of_fmap.
    apply Hin, Hs in Hx as (k & m & _ & Hk & -> & _). apply list_elem_of_fmap. exists (k, NDir m).
    split; [done|]. by apply elem_of_map_to_list. }
  apply submseteq_length in Hsub. rewrite !length_fmap, length_map_to_list in Hsub. unfold zlen. lia.
Qed.

(** The kernel keeps the descriptors it has given. *)
Definition extends (i i' : I) : Prop := forall x d, wd_of i x = Some d -> wd_of i' x = Some d.
Definition roomy (w : watcher) : Prop := lw_capacity w <= 64 + 2 * zlen (lw_watches w).

Lemma add_directory_tracks D k m w a :
  tracks D w -> roomy w -> quiet (app_os a) -> os_fs (app_os a) = fs ->
  Forall path_name k -> no_links fs k -> k <> [] -> zlen (render k) < SYSEBA_PATH_MAX ->
  fs !! k = Some (NDir m) ->
  exists ok w' s', syseba_linux_watch_add reallocated (render k) (w, a) = (ok, (w', with_os s' a)) /\
    same_world (app_os a) s' /\ (ok = true -> s' = app_os a) /\ (grants I -> ok = true) /\
    tracks (fun j => D j \/ ok = true /\ j = k) w' /\ roomy w' /\ extends (lw_inotify w) (lw_inotify w').
Proof.
  intros Ht0 Hcap Hq Hf Hk Hl Hne Hz Hm. pose proof (tracks_size D w Ht0) as Hsize.
  destruct Ht0 as [Hok Hi Hs Hc].
  destruct (inotify_add_watch (app_os a) (render k) (lw_inotify w)) as [r i'] eqn:E.
  destruct (add_watch_ok (app_os a) (lw_inotify w) k m r i') as (Hi' & Hother & Hr);
    [done|done|rewrite Hf; apply Hwalk|done|by rewrite Hf|done|by rewrite Hf|done|].
  destruct (watch_add_spec reallocated w (render k) a) as (ok & w' & s' & Er & Hws & Hok' & Ht & Htrue & Hcap' & Hall);
    [done..|].
  assert (grants I -> ok = true) as Hgr.
  { intros Hg. destruct (Hg (app_os a) (lw_inotify w) k m) as [d Hd];
      [done|done|rewrite Hf; apply Hwalk|done|by rewrite Hf|done|by rewrite Hf|].
    rewrite E in Hd. cbn in Hd. subst r. eapply Hall; [done| |done]; intros c Hcc; apply Hample; lia. }
  exists ok, w', s'. split; [done|]. split; [done|]. split; [intros Ho; by destruct (Htrue Ho)|]. split; [done|].
  rewrite E in Ht. destruct ok.
  - destruct Htrue as (_ & d & Ed); [done|]. rewrite E in Ed. injection Ed as -> ->.
    destruct Hr as [Hd Hsame]. rewrite truncate_fits in Ht by (unfold fits; by apply Z.ltb_lt).
    split; [|split; [by apply Hcap'|]].
    + constructor; [done|done| |].
      * intros d' p Hp. rewrite Ht in Hp. destruct (decide (d = d')) as [<-|Hdd].
        -- rewrite lookup_insert_eq in Hp. injection Hp as <-. exists k, m. split_and!; [by right|done|done|done].
        -- rewrite lookup_insert_ne in Hp by done. apply Hs in Hp as (j & mj & Hj & Hmj & -> & Hwj).
           exists j, mj. split_and!; [by left|done|done|]. rewrite Hother; [done|]. intros Ein.
           rewrite Ein in Hwj. apply Hsame in Hwj. congruence.
      * intros j mj Hj Hmj. rewrite Ht. destruct (decide (j = k)) as [->|Hjk].
        -- rewrite Hm in Hmj. injection Hmj as <-. exists d. split; [done|]. by rewrite lookup_insert_eq.
        -- destruct Hj as [Hj|[_ ?]]; [|done]. destruct (Hc _ _ Hj Hmj) as (dj & Hwj & Htj).
           assert (inode mj <> inode m) as Hin by (intros Ein; by apply Hjk, (Hdistinct _ _ _ _ Hmj Hm)).
           exists dj. rewrite Hother by done. split; [done|]. rewrite lookup_insert_ne; [done|]. intros <-.
           apply Hin. eapply wd_injective; [exact Hi'| |exact Hd]. by rewrite Hother.
    + intros x dx Hx. destruct (decide (x = inode m)) as [->|Hne'].
      * unfold inode in Hx |- *. by rewrite (Hsame _ Hx).
      * by rewrite Hother.
  - destruct r as [e|d].
    2: { assert (false = true) by (eapply Hall; [done| |done]; intros c Hcc; apply Hample; lia). done. }
    rewrite (watch_add_denied reallocated w (render k) a e i' E) in Er. injection Er as <- _.
    assert (forall x, wd_of i' x = wd_of (lw_inotify w) x) as Hwd.
    { intros x. destruct (decide (x = inode m)) as [->|Hx]; [exact Hr|by apply Hother]. }
    split; [|split; [done|by intros x d Hx; cbn; rewrite Hwd]].
    constructor; cbn [lw_inotify lw_watches]; [done|done| |].
    + intros d p (j & mj & ? & ? & -> & ?)%Hs. exists j, mj. split_and!; [by left|done|done|by rewrite Hwd].
    + intros j mj [Hj|[? _]] Hmj; [|done]. setoid_rewrite Hwd. by apply Hc.
Qed.

(** The walk so far. *)
Definition covered (D : ppath -> Prop) (s : watcher * syseba_app_t) : Prop :=
  tracks D (fst s) /\ roomy (fst s) /\
  exists t, snd s = with_os t a0 /\ same_world (app_os a0) t.

Lemma add_directory_covers D k m s :
  grants I -> covered D s -> Forall path_name k -> no_links fs k -> k <> [] -> zlen (render k) < SYSEBA_PATH_MAX ->
  fs !! k = Some (NDir m) ->
  exists s', syseba_linux_watch_add reallocated (render k) s = (true, s') /\
    covered (fun j => D j \/ j = k) s' /\ app_os (snd s') = app_os (snd s).
Proof.
  destruct s as [w a]. intros Hgr (Ht & Hcap & (t & Ea & Hw)) Hk Hl Hne Hz Hm. cbn [fst snd] in *.
  assert (app_os a = t) as Et by (by rewrite Ea).
  destruct (add_directory_tracks D k m w a) as (ok & w' & s' & E & _ & Hs' & Hok & Ht' & Hcap' & _); [done|done| | |done..|].
  - rewrite Et. by eapply same_world_quiet.
  - rewrite Et. destruct Hw as [_ ->]. done.
  - rewrite (Hok Hgr) in *. rewrite (Hs' eq_refl) in E.
    assert (with_os (app_os a) a = a) as Ha by (by destruct a). rewrite Ha in E.
    exists (w', a). split; [done|]. split; [|done]. split; [|split; [done|by exists t]].
    eapply tracks_ext; [|exact Ht']. intros j mj _. naive_solver.
Qed.

Lemma covered_errno D s e : covered D s -> covered D (lset (with_errno e (lget s)) s).
Proof.
  destruct s as [w a]. intros (Ht & Hc & (t & Ea & Hw)). cbn [fst snd] in *. split; [done|]. split; [done|].
  exists (with_errno e t). cbn [fst snd lset lget Inotify.lens_watch_os]. rewrite Ea. split; [by destruct a0|].
  etransitivity; [done|]. apply same_world_errno.
Qed.

Lemma add_entry_covers l k n s :
  grants I ->
  covered (fun j => j = sn \/ (j, true) ∈ l) s -> good fs True s -> Forall path_name k -> no_links fs k ->
  zlen (render k) < SYSEBA_PATH_MAX -> (exists c r, k = sn ++ c :: r) -> fs !! k = Some n ->
  exists s', syseba_linux_add_directory reallocated (render k) (is_dir n) s = (true, s') /\
    covered (fun j => j = sn \/ (j, true) ∈ l ++ [(k, is_dir n)]) s' /\ good fs True s'.
Proof.
  intros Hgr Hc Hg Hk Hl Hz (c & r & Ek) Hn. unfold syseba_linux_add_directory.
  assert (k <> []) as Hne by (rewrite Ek; by destruct sn).
  destruct n as [m data|m|m target|m]; cbn [is_dir negb].
  2: { destruct (add_directory_covers _ k m s Hgr Hc) as (s' & E & Hc' & Hos); [done..|].
    exists s'. split; [done|]. split.
    - destruct Hc' as (Ht & Hc'). split; [|done]. eapply tracks_ext; [|exact Ht]. intros j mj _.
      rewrite elem_of_app, list_elem_of_singleton. split; [intros [[?|?]| ->]|intros [?|[?|[= ->]]]]; naive_solver.
    - destruct Hg as [Hq Hf He]. constructor; cbn [lget Inotify.lens_watch_os] in *; by rewrite Hos. }
  all: exists s; split; [done|]; split; [|done]; destruct Hc as (Ht & Hc); (split; [|done]);
    (eapply tracks_ext; [|exact Ht]); intros j mj Hj; rewrite elem_of_app, list_elem_of_singleton; naive_solver.
Qed.

Lemma initialize_tracks i0 :
  grants I -> inotify_init1 (app_os a0) = inr i0 ->
  exists w s', syseba_linux_watch_initialize reallocated (render sn) a0 = (Some w, with_os s' a0) /\
    same_world (app_os a0) s' /\ tracks (fun k => k = sn \/ below sn k) w /\ roomy w.
Proof.
  intros Hgr Ei. unfold syseba_linux_watch_initialize. rewrite Ei.
  destruct (walk_root _ _ Hwalk) as (Hsn & (m & Hm) & _ & Hz).
  set (s0 := (LinuxWatcher i0 [] 0, a0)).
  assert (covered (fun _ => False) s0) as Hstart.
  { split; [|split].
    - constructor; cbn; [|by eapply init_ok| |done].
      + constructor; cbn; [constructor|unfold zlen; cbn; lia].
      + intros d p Hp. unfold table in Hp. cbn in Hp. by rewrite lookup_empty in Hp.
    - unfold roomy. cbn. unfold zlen. cbn. lia.
    - exists (app_os a0). cbn. split; [by destruct a0|reflexivity]. }
  destruct (add_directory_covers _ sn m s0 Hgr Hstart) as (s1 & E1 & Hroot & Hos);
    [done|apply Hwalk|apply Hwalk|done|done|].
  rewrite (bind_run _ _ _ _ _ E1). cbn [negb].
  assert (quiet (lget s1) /\ os_fs (lget s1) = fs) as [Hq1 Hf1].
  { cbn [lget Inotify.lens_watch_os]. by rewrite Hos. }
  destruct (walk_files_covers (syseba_linux_add_directory reallocated) fs sn
              (fun l => covered (fun j => j = sn \/ (j, true) ∈ l)) s1)
    as ([w' a'] & l & E & (Ht & Hroom & (t & Ea & Hw)) & _ & Hcov).
  - intros l s Hc. by apply covered_errno.
  - intros l k n s Hc Hg Hk Hl Hzk Hb Hn _. by apply add_entry_covers.
  - done.
  - destruct Hroot as (Ht & Hc). split; [|done]. eapply tracks_ext; [|exact Ht].
    intros j mj _. split; [intros [[]| ->]; by left|]. intros [->|[]%not_elem_of_nil]. by right.
  - done.
  - done.
  - rewrite E. cbn [fst snd] in *. exists w', t. split; [by rewrite Ea|]. split; [done|]. split; [|done].
    eapply tracks_ext; [|exact Ht]. intros j mj Hj. destruct Hcov as [_ Hcov].
    split; [intros [?|Hin]; [by left|right; by apply Hcov in Hin as [? _]]|].
    intros [?|Hb]; [by left|right]. apply Hcov. split; [done|]. by exists (NDir mj).
Qed.
End Initialize.

(** ** A directory that is renamed *)

Section Renamed.
Context {I : Type} `{InotifyLaws I} `{DirOrder} `{SnapshotMemory} `{LocalStamp} `{Strerror} `{Clock}.
Context `{!Allocator syseba_event_t} `{!Allocator syseba_log_record_t}.
Context (reallocated : Z -> bool) (workers : syseba_app_t -> syseba_app_t).
Notation process := (syseba_linux_process_event reallocated (fun _ => true) workers).

(** Events of a descriptor that is not in the table are ignored. *)
Lemma unwatched_events later d (w : syseba_linux_watcher_t I) a :
  table (lw_watches w) !! d = None -> Forall (fun e => ie_wd e = d /\ has e IN_Q_OVERFLOW = false) later ->
  process_events reallocated (fun _ => true) workers later (w, a) = (tt, (w, a)).
Proof.
  intros Ht. induction 1 as [|e later [Hd Ho] _ IH]; [done|]. cbn [process_events].
  rewrite (bind_run _ _ _ tt (w, a)); [done|]. unfold syseba_linux_process_event.
  rewrite bind_gets. cbn [fst]. by rewrite Ho, Hd, watch_find_table, Ht.
Qed.

Lemma enqueue_if_watcher b kind path d (w : syseba_linux_watcher_t I) a :
  exists a', enqueue_if (fun _ => true) b kind path d (w, a) = (tt, (w, a')).
Proof.
  unfold enqueue_if. destruct b; [|by exists a]. exists (exec (emit_change (fun _ => true) kind path d) a).
  unfold zoom, exec. cbn [lget Inotify.lens_watch snd fst lset].
  by destruct (emit_change _ _ _ _ a) as [[] a'].
Qed.

(** The kernel keeps the descriptor of a directory that is added once more. *)
Lemma add_again (w : syseba_linux_watcher_t I) a k m d :
  (forall c, reallocated c = true -> c < 2 ^ 62) -> watcher_ok w -> ino_ok (lw_inotify w) ->
  (forall c, c <= 64 + 2 * zlen (lw_watches w) -> reallocated c = true) ->
  lw_capacity w <= 64 + 2 * zlen (lw_watches w) ->
  quiet (app_os a) -> tree_ok (os_fs (app_os a)) -> Forall path_name k -> no_links (os_fs (app_os a)) k -> k <> [] ->
  os_fs (app_os a) !! k = Some (NDir m) -> wd_of (lw_inotify w) (inode m) = Some d ->
  exists ok w' a', syseba_linux_watch_add reallocated (render k) (w, a) = (ok, (w', a')) /\ watcher_ok w' /\
    wd_of (lw_inotify w') (inode m) = Some d /\
    forall d', d' <> d -> table (lw_watches w') !! d' = table (lw_watches w) !! d'.
Proof.
  intros Hl Hok Hi Hall Hcap Hq Ht Hk Hlk Hne Hm Hd.
  destruct (inotify_add_watch (app_os a) (render k) (lw_inotify w)) as [r i'] eqn:E.
  destruct (add_watch_ok (app_os a) (lw_inotify w) k m r i') as (_ & _ & Hr); [done..|].
  destruct r as [e|d0].
  - eexists false, _, _. rewrite (watch_add_denied reallocated w (render k) a e i' E). split; [done|].
    split; [by destruct Hok|]. split; [|done]. change (wd_of i' (m_dev m, m_ino m) = Some d). by rewrite Hr.
  - destruct Hr as [Hd0 Hsame]. apply Hsame in Hd as ->.
    destruct (watch_add_spec reallocated w (render k) a Hl Hok) as (ok & w' & s' & Er & _ & Hok' & Htab & Htrue & _ & Hany).
    assert (ok = true) as -> by (by eapply Hany).
    destruct Htrue as (_ & d' & Ed); [done|]. rewrite E in Ed, Htab. injection Ed as <- ->.
    exists true, w', (with_os s' a). split_and!; [done|done|done|]. intros d' Hne'. by rewrite Htab, lookup_insert_ne.
Qed.

Lemma renamed_unwatched (w : syseba_linux_watcher_t I) a parent x m p d cookie name :
  (forall c, reallocated c = true -> c < 2 ^ 62) -> watcher_ok w -> ino_ok (lw_inotify w) ->
  (forall c, c <= 64 + 2 * zlen (lw_watches w) -> reallocated c = true) ->
  lw_capacity w <= 64 + 2 * zlen (lw_watches w) ->
  quiet (app_os a) -> tree_ok (os_fs (app_os a)) -> parent <> [] ->
  Forall path_name (parent ++ [x]) -> no_links (os_fs (app_os a)) (parent ++ [x]) ->
  zlen (render (parent ++ [x])) < SYSEBA_PATH_MAX -> until_nul name = x ->
  os_fs (app_os a) !! (parent ++ [x]) = Some (NDir m) -> wd_of (lw_inotify w) (inode m) = Some d ->
  table (lw_watches w) !! p = Some (render parent) -> p <> d ->
  exists w' a', process_events reallocated (fun _ => true) workers
      [InotifyEvent p (Z.lor IN_MOVED_TO IN_ISDIR) cookie name; InotifyEvent d IN_MOVE_SELF 0 []] (w, a)
      = (tt, (w', a')) /\
    wd_of (lw_inotify w') (inode m) = Some d /\ table (lw_watches w') !! d = None.
Proof.
  intros Hl Hok Hi Hall Hcap Hq Ht Hp Hk Hlk Hz Hname Hm Hd Htab Hne.
  destruct (add_again w a (parent ++ [x]) m d) as (ok & w1 & a1 & E1 & Hok1 & Hd1 & _); [done..|by destruct parent|done|done|].
  cbn [process_events]. set (moved := InotifyEvent p _ cookie name).
  assert (exists a2, process moved (w, a) = (tt, (w1, a2))) as [a2 E2].
  { unfold syseba_linux_process_event. rewrite bind_gets. cbn [fst].
    change (has moved IN_Q_OVERFLOW) with false. cbn [ie_wd moved].
    rewrite watch_find_table, Htab. cbn [fmap option_fmap option_map].
    assert (event_path (LinuxWatch p (render parent)) moved = Some (render (parent ++ [x]))) as ->.
    { unfold event_path. cbn [ie_name moved lw_path]. rewrite Hname.
      apply Forall_app in Hk as [_ Hx]. apply Forall_inv in Hx as [[Hx _] _]. destruct x as [|c x]; [done|].
      cbv zeta. rewrite <- render_app_cons by done. unfold fits. by rewrite (proj2 (Z.ltb_lt _ _) Hz). }
    change (has moved IN_IGNORED) with false. change (has moved (Z.lor IN_DELETE_SELF IN_MOVE_SELF)) with false.
    change (has moved (Z.lor IN_CREATE IN_MOVED_TO)) with true. change (has moved IN_ISDIR) with true. cbn [andb].
    rewrite bind_unit. unfold exec. rewrite (bind_run _ _ _ _ _ E1). cbn [ret snd].
    destruct (enqueue_if_watcher true SYSEBA_EVENT_CREATE (render (parent ++ [x])) true w1 a1) as [a2 E2].
    rewrite (bind_run _ _ _ _ _ E2). by exists a2. }
  rewrite (bind_run _ _ _ _ _ E2). set (self := InotifyEvent d IN_MOVE_SELF 0 []).
  assert (exists w2, process self (w1, a2) = (tt, (w2, a2)) /\ lw_inotify w2 = lw_inotify w1 /\
    table (lw_watches w2) !! d = None) as (w2 & E3 & Hi2 & Ht2).
  { unfold syseba_linux_process_event. rewrite bind_gets. cbn [fst].
    change (has self IN_Q_OVERFLOW) with false. cbn [ie_wd self]. rewrite watch_find_table.
    destruct (table (lw_watches w1) !! d) as [path|] eqn:Ed; cbn [fmap option_fmap option_map]; [|by exists w1].
    change (event_path (LinuxWatch d path) self) with (Some path).
    change (has self IN_IGNORED) with false. change (has self (Z.lor IN_DELETE_SELF IN_MOVE_SELF)) with true.
    destruct (watch_remove_spec w1 d a2 Hok1) as (w2 & E & _ & Hw2 & Hi2). exists w2. split_and!; [exact E|done|].
    by rewrite Hw2, lookup_delete_eq. }
  rewrite (bind_run _ _ _ _ _ E3). exists w2, a2. split_and!; [done|by rewrite Hi2|done].
Qed.
End Renamed.

(** ** Reporting *)

Section Report.
Context {I : Type} `{InotifyLaws I} `{DirOrder} `{SnapshotMemory} `{LocalStamp} `{Strerror} `{Clock}.
Context `{!Allocator syseba_event_t} `{!Allocator syseba_log_record_t}.
Context (Halloc : forall h, @alloc_node syseba_event_t _ h <> None).
Context (reallocated : Z -> bool) (workers : syseba_app_t -> syseba_app_t).
Context (a0 : syseba_app_t) (sn : ppath) (fs : fsmap).
Context (Hsource : cfg_source (app_config a0) = render sn) (Hwalk : walk_ok fs sn).
Context (Hdistinct : distinct_directories fs).
Context (Hquiet : quiet (app_os a0)) (Hfs : os_fs (app_os a0) = fs).
Context (Hlimit : forall c, reallocated c = true -> c < 2 ^ 62).
Context (Hample : forall c, c <= 64 + 2 * Z.of_nat (size fs) -> reallocated c = true).

#[local] Existing Instance Inotify.lens_watch.
#[local] Existing Instance Inotify.lens_watch_os.

(** What an event is to make the workers do. *)
Definition event_changes (k : ppath) (e : inotify_event) : list change :=
  let directory := has e IN_ISDIR in
  (if has e (Z.lor IN_CREATE IN_MOVED_TO) then [(SYSEBA_EVENT_CREATE, render k, directory)] else [])
  ++ (if has e (Z.lor IN_CLOSE_WRITE IN_ATTRIB) && negb directory
      then [(SYSEBA_EVENT_MODIFY, render k, false)] else [])
  ++ (if has e (Z.lor IN_DELETE IN_MOVED_FROM) then [(SYSEBA_EVENT_DELETE, render k, directory)] else []).

Definition arrives (e : inotify_event) : bool := has e (Z.lor IN_CREATE IN_MOVED_TO) && has e IN_ISDIR.

(** An event that the kernel reports for the name [x] in the watched directory [k]. *)
Record kernel_event (D : ppath -> Prop) (i : I) (k : ppath) (x : cstr) (e : inotify_event) : Prop := KernelEvent {
  ke_dir : D k /\ (k = sn \/ below sn k);
  ke_wd : exists m, fs !! k = Some (NDir m) /\ wd_of i (inode m) = Some (ie_wd e);
  ke_name : until_nul (ie_name e) = x;
  ke_path : Forall path_name (k ++ [x]) /\ no_links fs (k ++ [x]) /\ zlen (render (k ++ [x])) < SYSEBA_PATH_MAX;
  ke_mask : has e IN_Q_OVERFLOW = false /\ has e IN_IGNORED = false /\
    has e (Z.lor IN_DELETE_SELF IN_MOVE_SELF) = false;
  ke_arrival : arrives e = true -> exists m, fs !! (k ++ [x]) = Some (NDir m);
}.

Lemma enqueue_if_run b kind k d l (w : syseba_linux_watcher_t I) a :
  watching a0 l a -> watched sn fs (render k) -> zlen l < U64_MAX ->
  exists a', enqueue_if (fun _ => true) b kind (render k) d (w, a) = (tt, (w, a')) /\
    watching a0 (l ++ map (change_event a0) (if b then [(kind, render k, d)] else [])) a'.
Proof.
  intros Hw Hk Hz. unfold enqueue_if. destruct b.
  - exists (exec (emit_change (fun _ => true) kind (render k) d) a). split; [|by eapply emit_watching].
    unfold zoom, exec. cbn [lget Inotify.lens_watch snd fst lset].
    by destruct (emit_change _ _ _ _ a) as [[] a'].
  - exists a. split; [done|]. by rewrite app_nil_r.
Qed.

Lemma process_event_reports l D (w : syseba_linux_watcher_t I) a e k x :
  tracks fs D w -> roomy w -> watching a0 l a -> zlen l + 3 <= U64_MAX ->
  kernel_event D (lw_inotify w) k x e ->
  exists ok w' a', syseba_linux_process_event reallocated (fun _ => true) workers e (w, a) = (tt, (w', a')) /\
    (ok = true -> arrives e = true) /\ (grants I -> arrives e = true -> ok = true) /\
    tracks fs (fun j => D j \/ ok = true /\ j = k ++ [x]) w' /\ roomy w' /\
    extends (lw_inotify w) (lw_inotify w') /\
    watching a0 (l ++ map (change_event a0) (event_changes (k ++ [x]) e)) a'.
Proof.
  intros Ht Hr Hw Hz [[HD Hin] (m & Hm & Hwd) Hx (Hk & Hl & Hlen) (Hm1 & Hm2 & Hm3) Harr].
  destruct (tk_complete _ _ _ Ht k m HD Hm) as (d & Hd & Htab). rewrite Hwd in Hd. injection Hd as <-.
  apply Forall_app in Hk as [Hkn Hxn]. pose proof (Forall_inv Hxn) as Hxp.
  assert (render (k ++ [x]) = render k ++ SLASH :: x) as Erender.
  { apply render_app_cons. destruct Hin as [->|(c & r & ->)]; [apply Hwalk|by destruct sn]. }
  assert (watched sn fs (render (k ++ [x]))) as Hwatched.
  { exists (k ++ [x]). split_and!; [done| |by apply Forall_app|done|done].
    destruct Hin as [->|(c & r & ->)]; [by exists x, []|]. exists c, (r ++ [x]). by rewrite <- app_assoc. }
  assert (quiet (app_os a) /\ os_fs (app_os a) = fs) as [Hqa Hfa].
  { destruct Hw as [_ _ Hws _ _]. split; [by eapply same_world_quiet|]. destruct Hws as [_ ->]. done. }
  unfold syseba_linux_process_event. rewrite bind_gets. cbn [fst].
  rewrite Hm1, watch_find_table, Htab. cbn [fmap option_fmap option_map].
  assert (event_path (LinuxWatch (ie_wd e) (render k)) e = Some (render (k ++ [x]))) as ->.
  { unfold event_path. rewrite Hx. cbn [lw_path].
    assert (x <> []) as Hne by (by destruct Hxp as [[? _] _]). destruct x as [|c x]; [done|].
    cbv zeta. rewrite <- Erender. unfold fits. by rewrite (proj2 (Z.ltb_lt _ _) Hlen). }
  rewrite Hm2, Hm3.
  (* a directory that arrives is watched, if the kernel has room *)
  assert (exists ok w' s', exec (if arrives e then syseba_linux_watch_add reallocated (render (k ++ [x])) ;;; ret tt
                           else ret tt) (w, a) = (w', with_os s' a) /\ same_world (app_os a) s' /\
    (ok = true -> arrives e = true) /\ (grants I -> arrives e = true -> ok = true) /\
    tracks fs (fun j => D j \/ ok = true /\ j = k ++ [x]) w' /\ roomy w' /\
    extends (lw_inotify w) (lw_inotify w')) as (ok & w' & s' & Ew & Hs' & Hok & Hgr & Ht' & Hr' & He').
  { destruct (arrives e) eqn:Ea.
    - destruct (Harr eq_refl) as [m' Hm'].
      destruct (add_directory_tracks reallocated sn fs Hwalk Hdistinct Hlimit Hample D (k ++ [x]) m' w a)
        as (ok & w' & s' & E & Hs' & _ & Hgr & Ht' & Hr' & He'); [done..|by apply Forall_app|done|by destruct k|done|done|].
      exists ok, w', s'. split_and!; [|done|done|by auto|done..].
      unfold exec. by rewrite (bind_run _ _ _ _ _ E).
    - exists false, w, (app_os a). split; [by destruct a|]. split_and!; [done|done|done| |done|by intros ? ?].
      eapply tracks_ext; [|exact Ht]. intros j mj _. naive_solver. }
  assert (watching a0 l (with_os s' a)) as Hw0 by (by apply watching_world).
  fold (arrives e). rewrite bind_unit, Ew. clear Hw. rename Hw0 into Hw. revert Hw. generalize (with_os s' a). intros b Hw.
  unfold event_changes. rewrite !map_app, !app_assoc.
  destruct (enqueue_if_run (has e (Z.lor IN_CREATE IN_MOVED_TO)) SYSEBA_EVENT_CREATE (k ++ [x]) (has e IN_ISDIR) l w' b)
    as (a1 & E1 & Hw1); [done|done|lia|]. rewrite (bind_run _ _ _ _ _ E1).
  set (b1 := has e (Z.lor IN_CREATE IN_MOVED_TO)) in *.
  assert (zlen (if b1 then [(SYSEBA_EVENT_CREATE, render (k ++ [x]), has e IN_ISDIR)] else []) <= 1) by by destruct b1.
  destruct (enqueue_if_run (has e (Z.lor IN_CLOSE_WRITE IN_ATTRIB) && negb (has e IN_ISDIR)) SYSEBA_EVENT_MODIFY
              (k ++ [x]) false _ w' a1 Hw1) as (a2 & E2 & Hw2); [done|zlen_lia|].
  rewrite (bind_run _ _ _ _ _ E2).
  set (b2 := has e (Z.lor IN_CLOSE_WRITE IN_ATTRIB) && negb (has e IN_ISDIR)) in *.
  assert (zlen (if b2 then [(SYSEBA_EVENT_MODIFY, render (k ++ [x]), false)] else []) <= 1) by by destruct b2.
  destruct (enqueue_if_run (has e (Z.lor IN_DELETE IN_MOVED_FROM)) SYSEBA_EVENT_DELETE (k ++ [x]) (has e IN_ISDIR)
              _ w' a2 Hw2) as (a3 & E3 & Hw3); [done|zlen_lia|].
  exists ok, w', a3. by split_and!.
Qed.

Lemma kernel_event_mono (D D' : ppath -> Prop) i i' k x e :
  (forall j, D j -> D' j) -> extends i i' -> kernel_event D i k x e -> kernel_event D' i' k x e.
Proof.
  intros HD He [[? ?] (m & ? & ?) ? ? ? ?]. constructor; [by split; [apply HD|]| |done..].
  exists m. split; [done|]. by apply He.
Qed.

(** Events with the directories and the names they are about. *)
Definition located : Type := ppath * cstr * inotify_event.
Definition ev_of (r : located) : inotify_event := snd r.
Definition place_of (r : located) : ppath := fst (fst r) ++ [snd (fst r)].
Definition reported_changes (rs : list located) : list change :=
  flat_map (fun r => event_changes (place_of r) (ev_of r)) rs.
Definition arrived (rs : list located) (j : ppath) : Prop :=
  exists r, r ∈ rs /\ arrives (ev_of r) = true /\ j = place_of r.

Lemma event_changes_length k e : zlen (event_changes k e) <= 3.
Proof. unfold event_changes. rewrite !zlen_app. repeat case_if; cbn; unfold zlen; cbn; lia. Qed.

Lemma process_events_report rs : forall l D (w : syseba_linux_watcher_t I) a,
  tracks fs D w -> roomy w -> watching a0 l a -> zlen l + 3 * zlen rs <= U64_MAX ->
  Forall (fun r => kernel_event D (lw_inotify w) (fst (fst r)) (snd (fst r)) (ev_of r)) rs ->
  exists w' a' (A : ppath -> Prop),
    process_events reallocated (fun _ => true) workers (map ev_of rs) (w, a) = (tt, (w', a')) /\
    (forall j, A j -> arrived rs j) /\ (grants I -> forall j, arrived rs j -> A j) /\
    tracks fs (fun j => D j \/ A j) w' /\ roomy w' /\
    watching a0 (l ++ map (change_event a0) (reported_changes rs)) a'.
Proof.
  induction rs as [|[[k x] e] rs IH]; intros l D w a Ht Hr Hw Hz Hrs.
  { exists w, a, (fun _ => False). cbn [reported_changes flat_map map]. rewrite app_nil_r. split_and!; [done|done| | |done|done].
    - intros _ j (r & Hin & _). by apply not_elem_of_nil in Hin.
    - eapply tracks_ext; [|exact Ht]. intros j mj _. naive_solver. }
  apply Forall_cons_1 in Hrs as [He Hrs]. cbn [fst snd ev_of] in He.
  destruct (process_event_reports l D w a e k x) as (ok & w1 & a1 & E1 & Hok & Hgr & Ht1 & Hr1 & Hx1 & Hw1);
    [done..|zlen_lia|done|].
  pose proof (event_changes_length (k ++ [x]) e).
  destruct (IH _ _ w1 a1 Ht1 Hr1 Hw1) as (w2 & a2 & A & E2 & HA & HgA & Ht2 & Hr2 & Hw2).
  - rewrite zlen_app, zlen_map. rewrite zlen_cons in Hz. lia.
  - eapply Forall_impl; [exact Hrs|]. intros r Hk. eapply kernel_event_mono; [|done|exact Hk]. by left.
  - exists w2, a2, (fun j => (ok = true /\ j = k ++ [x]) \/ A j). split_and!; [| | | |done|].
    + cbn [map process_events ev_of snd]. by rewrite (bind_run _ _ _ _ _ E1).
    + intros j [[Ho ->]|(r & Hin & Ha)%HA]; [|exists r; split; [by right|done]].
      exists (k, x, e). split_and!; [by left|by apply Hok|done].
    + intros Hg j (r & Hin & Ha & ->). apply elem_of_cons in Hin as [->|Hin]; [left; split; [by apply Hgr|done]|].
      right. apply HgA; [done|]. by exists r.
    + eapply tracks_ext; [|exact Ht2]. intros j mj _. naive_solver.
    + cbn [reported_changes flat_map]. unfold place_of at 1. cbn [fst snd ev_of]. by rewrite map_app, app_assoc.
Qed.
End Report.
