(* ===== verification/WatcherWin.v ===== *)
(** * The Windows watcher (src/src/watcher_windows.c)

    The decoding of the buffer that [ReadDirectoryChangesW] fills, the events that its
    records become, and the loop with its overlapped read.  What the file calls of the other
    components is their Windows build, which is not modelled: enqueuing, the synchronization
    and the polling watcher are arguments, and so are the conversions of texts.  The promise
    is at the end. *)

From S2P Require Import Prelude CString Paths Os Platform Fs Config Queue AppState Log Inotify InotifyFacts.

(** ** The records of the buffer (winnt.h) *)

Definition FILE_ACTION_ADDED : Z := 1.
Definition FILE_ACTION_REMOVED : Z := 2.
Definition FILE_ACTION_MODIFIED : Z := 3.
Definition FILE_ACTION_RENAMED_OLD_NAME : Z := 4.
Definition FILE_ACTION_RENAMED_NEW_NAME : Z := 5.
Definition FILE_ATTRIBUTE_DIRECTORY : Z := 16.

(** [FILE_NOTIFY_INFORMATION]; the name is [FileNameLength] bytes of UTF-16. *)
Record file_notification := FileNotification {
  fn_action : Z;
  fn_name : cstr;
}.

Definition NOTIFICATION_HEADER : nat := 12.

(** The record at an offset, and its [NextEntryOffset]. *)
Definition notification_at (offset : nat) (buffer : cstr) : file_notification * Z :=
  let record := drop offset buffer in
  (FileNotification (le32 4 record) (take (Z.to_nat (le32 8 record)) (drop NOTIFICATION_HEADER record)),
   le32 0 record).

(** [for (offset = 0; offset < bytes;)]: every turn goes at least one byte on. *)
Fixpoint notifications (fuel : nat) (offset : Z) (buffer : cstr) : list file_notification :=
  match fuel with
  | O => []
  | S fuel' =>
      if offset <? zlen buffer then
        let '(event, next) := notification_at (Z.to_nat offset) buffer in
        event :: (if next =? 0 then [] else notifications fuel' (wrap32 (offset + next)) buffer)
      else []
  end.
Definition notifications_in (buffer : cstr) : list file_notification :=
  notifications (length buffer) 0 buffer.

(** The conversions, with the size of a result before it is cut off, and the attributes of
    a path. *)
Class WindowsText := {
  MultiByteToWideChar : cstr -> option Z;
  WideCharToMultiByte : cstr -> option cstr;
}.
Class WindowsFiles := GetFileAttributes : syseba_app_t -> cstr -> option Z.

(** How a wait for the overlapped read ends. *)
Inductive overlapped_result : Type :=
  | OverlappedBytes (data : cstr)
  | OverlappedAborted
  | OverlappedFailed.
Inductive wait_result : Type :=
  | WAIT_TIMEOUT
  | WAIT_OBJECT_0 (result : overlapped_result)
  | WAIT_FAILED.

(** A turn of the loop: whether a read that is asked for is accepted, the end of the wait,
    and what the other threads do meanwhile. *)
Record watch_turn := WatchTurn {
  wt_accepted : bool;
  wt_wait : wait_result;
  wt_others : syseba_app_t -> syseba_app_t;
}.

Section Watcher.
Context `{WindowsText} `{WindowsFiles} `{Clock} `{!Allocator syseba_log_record_t}.
Context (syseba_app_enqueue : syseba_event_kind_t -> cstr -> bool -> ST syseba_app_t bool).
Context (syseba_app_initial_sync syseba_watcher_poll_main : ST syseba_app_t unit).

Definition syseba_utf8_to_wide (input : cstr) (output_count : Z) : bool :=
  match MultiByteToWideChar input with Some count => count <=? output_count | None => false end.

Definition syseba_wide_slice_to_utf8 (input : cstr) (output_size : Z) : option cstr :=
  match WideCharToMultiByte input with
  | Some output => if (0 <? zlen output) && (zlen output <=? output_size - 1) then Some output else None
  | None => None
  end.

Definition action_kind (action : Z) : option syseba_event_kind_t :=
  if (action =? FILE_ACTION_ADDED) || (action =? FILE_ACTION_RENAMED_NEW_NAME) then Some SYSEBA_EVENT_CREATE
  else if (action =? FILE_ACTION_REMOVED) || (action =? FILE_ACTION_RENAMED_OLD_NAME) then
    Some SYSEBA_EVENT_DELETE
  else if action =? FILE_ACTION_MODIFIED then Some SYSEBA_EVENT_MODIFY
  else None.

(** The path of a record: the name holds [FileNameLength / 2] units. *)
Definition notification_path (source : cstr) (event : file_notification) : option cstr :=
  let units := take (2 * (length (fn_name event) / 2)) (fn_name event) in
  match syseba_wide_slice_to_utf8 units SYSEBA_PATH_MAX with
  | None => None
  | Some relative =>
      let path := source ++ BACKSLASH :: relative in
      if fits SYSEBA_PATH_MAX path then Some path else None
  end.

Definition is_directory_path (path : cstr) (a : syseba_app_t) : bool :=
  match GetFileAttributes a path with
  | Some attributes => negb (Z.land attributes FILE_ATTRIBUTE_DIRECTORY =? 0)
  | None => false
  end.

Definition syseba_windows_dispatch (event : file_notification) : ST syseba_app_t unit :=
  let* source := gets (fun a => cfg_source (app_config a)) in
  match notification_path source event with
  | None => ret tt
  | Some path =>
      let* directory := gets (is_directory_path path) in
      match action_kind (fn_action event) with
      | None => ret tt
      | Some kind => syseba_app_enqueue kind path directory ;;; ret tt
      end
  end.

Fixpoint dispatch_all (events : list file_notification) : ST syseba_app_t unit :=
  match events with
  | [] => ret tt
  | event :: rest => syseba_windows_dispatch event ;;; dispatch_all rest
  end.

Definition watch_log (level additional : cstr) (italian english : cstr) : ST syseba_app_t unit :=
  let* source := gets (fun a => cfg_source (app_config a)) in
  let* language := gets language_of in
  syseba_log_emit level (c!"WATCH") source [] additional (syseba_tr language italian english).

(** What is done with a read that ended: nothing was read when too much had changed. *)
Definition overlapped_ended (data : cstr) : ST syseba_app_t unit :=
  if zlen data =? 0 then
    watch_log (c!"WARNING") (c!"buffer-overflow")
      (c!"Overflow del watcher Windows") (c!"Windows watcher overflow") ;;;
    syseba_app_initial_sync
  else dispatch_all (notifications_in data).

(** The turns of the loop; whether a read is pending at the end, and [None] while the loop
    goes on. *)
Fixpoint windows_loop (turns : list watch_turn) (pending : bool) : ST syseba_app_t (option bool) :=
  match turns with
  | [] => ret None
  | turn :: rest =>
      let* stopping := syseba_app_is_stopping in
      if stopping then ret (Some pending)
      else if negb pending && negb (wt_accepted turn) then ret (Some false)
      else
        modify (wt_others turn) ;;;
        match wt_wait turn with
        | WAIT_TIMEOUT => windows_loop rest true
        | WAIT_FAILED => ret (Some true)
        | WAIT_OBJECT_0 OverlappedAborted => ret (Some true)
        | WAIT_OBJECT_0 OverlappedFailed => windows_loop rest false
        | WAIT_OBJECT_0 (OverlappedBytes data) => overlapped_ended data ;;; windows_loop rest false
        end
  end.

(** [opened] and [event_created] are whether the directory and the event have handles. *)
Definition syseba_windows_native_main (opened event_created : bool) (turns : list watch_turn) :
    ST syseba_app_t unit :=
  let* source := gets (fun a => cfg_source (app_config a)) in
  if negb (syseba_utf8_to_wide source SYSEBA_PATH_MAX) then syseba_watcher_poll_main
  else if negb opened then
    watch_log (c!"WARNING") (c!"ReadDirectoryChangesW")
      (c!"Watcher Windows non disponibile; uso il polling") (c!"Windows watcher unavailable; using polling") ;;;
    syseba_watcher_poll_main
  else if negb event_created then syseba_watcher_poll_main
  else
    watch_log (c!"INFO") (c!"ReadDirectoryChangesW")
      (c!"Watcher Windows nativo attivo") (c!"Native Windows watcher active") ;;;
    windows_loop turns false ;;;
    ret tt.

(** ** What the records become *)

(** The event of a record, if it has one. *)
Definition notified (a : syseba_app_t) (event : file_notification) :
    option (syseba_event_kind_t * cstr * bool) :=
  match notification_path (cfg_source (app_config a)) event, action_kind (fn_action event) with
  | Some path, Some kind => Some (kind, path, is_directory_path path a)
  | _, _ => None
  end.

Lemma dispatch_notified event a :
  exec (syseba_windows_dispatch event) a =
    match notified a event with
    | Some (kind, path, directory) => exec (syseba_app_enqueue kind path directory) a
    | None => a
    end.
Proof.
  unfold syseba_windows_dispatch, notified. unfold exec at 1. rewrite bind_gets.
  destruct (notification_path _ _) as [path|]; [|done]. rewrite bind_gets.
  destruct (action_kind _) as [kind|]; [|done]. change (exec (syseba_app_enqueue kind path (is_directory_path path a) ;;; ret tt) a = exec (syseba_app_enqueue kind path (is_directory_path path a)) a).
  by rewrite exec_bind.
Qed.

(** An overflow synchronizes the whole source again, so that nothing is lost. *)
Lemma overflow_synchronizes a :
  exists a', exec (overlapped_ended []) a = exec syseba_app_initial_sync a'.
Proof. unfold overlapped_ended. change (zlen (@nil ascii) =? 0) with true. cbv iota. rewrite exec_bind. by eexists. Qed.
End Watcher.

(** ** The format of the buffer *)

(** A record takes a multiple of four bytes; the last one has no offset of a next. *)
Definition padding (name : cstr) : cstr := replicate (Z.to_nat (- zlen name mod 4)) NUL.
Definition record_size (event : file_notification) : Z :=
  12 + zlen (fn_name event) + zlen (padding (fn_name event)).
Definition record_bytes (last : bool) (event : file_notification) : cstr :=
  le_bytes (if last then 0 else record_size event) ++ le_bytes (fn_action event)
    ++ le_bytes (zlen (fn_name event)) ++ fn_name event ++ padding (fn_name event).
Fixpoint buffer_bytes (events : list file_notification) : cstr :=
  match events with
  | [] => []
  | [event] => record_bytes true event
  | event :: rest => record_bytes false event ++ buffer_bytes rest
  end.

Lemma record_bytes_length last event : zlen (record_bytes last event) = record_size event.
Proof. unfold record_bytes, record_size. rewrite !zlen_app. change (zlen (le_bytes ?x)) with 4. lia. Qed.

Lemma notification_at_bytes before last event rest :
  0 <= fn_action event < 2 ^ 32 -> record_size event < 2 ^ 32 ->
  notification_at (length before) (before ++ record_bytes last event ++ rest)
    = (event, if last then 0 else record_size event).
Proof.
  destruct event as [action name]. intros Ha Hs. unfold notification_at. rewrite drop_app_length.
  unfold record_bytes, record_size in *. cbn [fn_action fn_name] in *.
  pose proof (zlen_nonneg name). pose proof (zlen_nonneg (padding name)).
  set (next := if last then 0 else _). assert (0 <= next < 2 ^ 32) as Hn by (unfold next; destruct last; lia).
  rewrite <- !app_assoc. set (tail := padding name ++ rest).
  assert (le32 0 (le_bytes next ++ le_bytes action ++ le_bytes (zlen name) ++ name ++ tail) = next) as ->
    by (apply (le32_bytes _ 0 []); done).
  assert (le32 4 (le_bytes next ++ le_bytes action ++ le_bytes (zlen name) ++ name ++ tail) = action) as ->
    by (by apply le32_bytes).
  assert (le32 8 (le_bytes next ++ le_bytes action ++ le_bytes (zlen name) ++ name ++ tail) = zlen name) as ->.
  { rewrite (app_assoc (le_bytes next)). apply le32_bytes; [lia|done]. }
  f_equal. f_equal. change (drop NOTIFICATION_HEADER _) with (name ++ tail).
  unfold zlen. rewrite Nat2Z.id. apply take_app_length.
Qed.

(** Decoding a buffer gives the records that the system wrote, in order. *)
Lemma notifications_bytes events : forall fuel before,
  Forall (fun event => 0 <= fn_action event < 2 ^ 32) events ->
  zlen before + zlen (buffer_bytes events) < 2 ^ 32 -> (length (buffer_bytes events) <= fuel)%nat ->
  notifications fuel (zlen before) (before ++ buffer_bytes events) = events.
Proof.
  assert (forall event, 12 <= record_size event) as H12.
  { intros event. unfold record_size. pose proof (zlen_nonneg (fn_name event)).
    pose proof (zlen_nonneg (padding (fn_name event))). lia. }
  induction events as [|event events IH]; intros fuel before Ha Hz Hf.
  { destruct fuel; [done|]. cbn [notifications buffer_bytes]. rewrite app_nil_r.
    by rewrite (proj2 (Z.ltb_ge _ _) (Z.le_refl _)). }
  apply Forall_cons in Ha as [Hev Ha].
  assert (exists last rest, buffer_bytes (event :: events) = record_bytes last event ++ rest /\
    (if last then events = [] else rest = buffer_bytes events /\ events <> [])) as (last & rest & E & Hl).
  { destruct events as [|e' events]; [exists true, []; split; [by rewrite app_nil_r|done]|].
    by exists false, (buffer_bytes (e' :: events)). }
  rewrite E in *. rewrite zlen_app, record_bytes_length in Hz. rewrite length_app in Hf.
  pose proof (record_bytes_length last event) as Hlen. pose proof (H12 event). pose proof (zlen_nonneg before).
  pose proof (zlen_nonneg rest).
  destruct fuel as [|fuel]; [unfold zlen in Hlen; lia|]. cbn [notifications].
  assert (zlen before <? zlen (before ++ record_bytes last event ++ rest) = true) as ->.
  { apply Z.ltb_lt. rewrite !zlen_app. lia. }
  unfold zlen at 1. rewrite Nat2Z.id, notification_at_bytes by (done || lia).
  f_equal. destruct last; [by rewrite Hl|]. destruct Hl as [-> Hne].
  assert (record_size event =? 0 = false) as -> by (apply Z.eqb_neq; lia).
  unfold wrap32. rewrite Z.mod_small by lia. rewrite app_assoc.
  replace (zlen before + record_size event) with (zlen (before ++ record_bytes false event))
    by (rewrite zlen_app, record_bytes_length; done).
  apply IH; [done|rewrite zlen_app, record_bytes_length; lia|unfold zlen in Hlen; lia].
Qed.

Section Promise.
Context `{WindowsText} `{WindowsFiles} `{Clock} `{!Allocator syseba_log_record_t}.
Context (enqueue : syseba_event_kind_t -> cstr -> bool -> ST syseba_app_t bool) (sync : ST syseba_app_t unit).

(** The records that the system wrote to the buffer of a read are enqueued in their order,
    each with the kind of its action and the attributes of its path at that moment. *)
Theorem windows_reports_events events a :
  events <> [] -> Forall (fun event => 0 <= fn_action event < 2 ^ 32) events ->
  zlen (buffer_bytes events) < 2 ^ 32 ->
  exec (overlapped_ended enqueue sync (buffer_bytes events)) a =
    fold_left (fun a event =>
      match notified a event with
      | Some (kind, path, directory) => exec (enqueue kind path directory) a
      | None => a
      end) events a.
Proof.
  intros Hne Ha Hz. unfold overlapped_ended.
  assert (zlen (buffer_bytes events) =? 0 = false) as ->.
  { apply Z.eqb_neq. destruct events as [|event [|]]; [done| |]; cbn [buffer_bytes]; rewrite ?zlen_app, record_bytes_length;
      unfold record_size; pose proof (zlen_nonneg (fn_name event)); pose proof (zlen_nonneg (padding (fn_name event))).
    - lia.
    - match goal with |- context [zlen ?x] => pose proof (zlen_nonneg x) end. zlen_lia. }
  unfold notifications_in. pose proof (notifications_bytes events (length (buffer_bytes events)) [] Ha) as E.
  change (zlen (@nil ascii)) with 0 in E. cbn [app] in E. rewrite E by (done || lia).
  clear. revert a. induction events as [|event events IH]; intros a; [done|].
  cbn [dispatch_all fold_left]. rewrite exec_bind, IH. f_equal. apply dispatch_notified.
Qed.
End Promise.

(** ** An example *)

(** A file that is made and one of three letters that is removed, in ASCII. *)
Definition wide (s : cstr) : cstr := flat_map (fun c => [c; NUL]) s.
Example two_records :
  let events := [FileNotification FILE_ACTION_ADDED (wide (c!"a.txt"));
                 FileNotification FILE_ACTION_REMOVED (wide (c!"old"))] in
  zlen (buffer_bytes events) = 44 /\ notifications_in (buffer_bytes events) = events /\
  map (fun event => action_kind (fn_action event)) events = [Some SYSEBA_EVENT_CREATE; Some SYSEBA_EVENT_DELETE].
Proof. split_and!; vm_compute; reflexivity. Qed.
