(* ===== verification/InotifySpec.v ===== *)
(** * The promises of the inotify watcher *)

From S2P Require Import Prelude CString Paths Os OsFacts Platform Fs FsFacts CopyFacts Config ConfigFacts ConfigText ConfigSpec FsTree FsTreeFacts Restore Queue QueueFacts AppState Log LogFacts App PlainFacts WalkFacts AppFacts LifeFacts SyncFacts Examples Demo Snapshot SnapshotFacts PollFacts Inotify InotifyFacts.

Section Claims.
Context {I : Type} `{InotifyLaws I} `{DirOrder} `{SnapshotMemory} `{LocalStamp} `{Strerror} `{Clock}.
Context `{!Allocator syseba_event_t} `{!Allocator syseba_log_record_t}.

(** C29: the array of the watches, with its linear search, its
    growth and the last watch moved into the place of a removed one, implements a finite
    map from descriptors to paths: searching is its lookup, a watch that was added is an
    insertion under the kernel's descriptor (one that failed changes nothing), removing is
    a deletion, and no descriptor is there twice. *)
Theorem watch_table_refines_map reallocated (w : syseba_linux_watcher_t I) path d a :
  (forall c, reallocated c = true -> c < 2 ^ 62) -> watcher_ok w ->
  syseba_linux_watch_find (lw_watches w) d = LinuxWatch d <$> table (lw_watches w) !! d /\
  (exists ok w' s', syseba_linux_watch_add reallocated path (w, a) = (ok, (w', with_os s' a)) /\
     same_world (app_os a) s' /\ watcher_ok w' /\
     match ok, inotify_add_watch (app_os a) path (lw_inotify w) with
     | true, (inr e, _) =>
         table (lw_watches w') = <[e := truncate SYSEBA_PATH_MAX path]> (table (lw_watches w))
     | true, (inl _, _) => False
     | false, _ => table (lw_watches w') = table (lw_watches w)
     end) /\
  (exists w', syseba_linux_watch_remove d (w, a) = (tt, (w', a)) /\ watcher_ok w' /\
     table (lw_watches w') = delete d (table (lw_watches w))).
Proof.
  intros Hr Hk. split_and!.
  - apply watch_find_table.
  - destruct (watch_add_spec reallocated w path a) as (ok & w' & s' & E & Hw & Hk' & Ht & Htrue & _); [done..|].
    exists ok, w', s'. split_and!; [done|done|done|]. destruct ok; [|done].
    destruct Htrue as (_ & e & Ee); [done|]. by rewrite Ee in Ht |- *.
  - destruct (watch_remove_spec w d a) as (w' & E & Hk' & Ht & _); [done|]. by exists w'.
Qed.

(** On a quiet host whose kernel grants every watch, starting
    the inotify watcher succeeds and watches exactly the source and the directories under
    it: each has a descriptor, under which the table holds its path, and the table holds
    nothing else. *)
Theorem native_watches_source reallocated a sn i :
  walk_ok (os_fs (app_os a)) sn -> distinct_directories (os_fs (app_os a)) -> quiet (app_os a) ->
  (forall c, reallocated c = true -> c < 2 ^ 62) ->
  (forall c, c <= 64 + 2 * Z.of_nat (size (os_fs (app_os a))) -> reallocated c = true) ->
  grants I -> inotify_init1 (app_os a) = inr i ->
  let is_watched k m := (k = sn \/ below sn k) /\ os_fs (app_os a) !! k = Some (NDir m) in
  exists w s', syseba_linux_watch_initialize reallocated (render sn) a = (Some w, with_os s' a) /\
    same_world (app_os a) s' /\
    (forall k m, is_watched k m ->
       exists d, wd_of (lw_inotify w) (inode m) = Some d /\ table (lw_watches w) !! d = Some (render k)) /\
    (forall d p, table (lw_watches w) !! d = Some p ->
       exists k m, is_watched k m /\ p = render k /\ wd_of (lw_inotify w) (inode m) = Some d).
Proof.
  intros Hw Hd Hq Hl Ha Hg Hi is_watched.
  destruct (initialize_tracks reallocated a sn _ Hw Hd Hq eq_refl Hl Ha i Hg Hi) as (w & s' & E & Hs & [_ _ Hsound Hc] & _).
  exists w, s'. split_and!; [done|done| |].
  - intros k m [Hk Hm]. by apply Hc.
  - intros d p Hp. apply Hsound in Hp as (k & m & Hk & Hm & -> & Hwd). by exists k, m.
Qed.

(** C27: a buffer that the kernel fills with events about names in
    watched directories is decoded to those events, and each makes its changes known to
    the workers, in order, under the path of its directory and its name: CREATE for what
    is created or moved in, MODIFY for a file that is closed after writing or whose
    attributes change, DELETE for what is deleted or moved away.  The directories that
    arrive are watched from then on, all of them when the kernel has room for their
    watches. *)
Theorem native_reports_events reallocated workers a sn D (w : syseba_linux_watcher_t I) l rs :
  (forall h, @alloc_node syseba_event_t _ h <> None) ->
  cfg_source (app_config a) = render sn -> app_stop_requested a = false ->
  walk_ok (os_fs (app_os a)) sn -> distinct_directories (os_fs (app_os a)) -> quiet (app_os a) ->
  (forall c, reallocated c = true -> c < 2 ^ 62) ->
  (forall c, c <= 64 + 2 * Z.of_nat (size (os_fs (app_os a))) -> reallocated c = true) ->
  tracks (os_fs (app_os a)) D w -> roomy w ->
  represents (app_event_queue a) l -> q_closed (app_event_queue a) = false ->
  zlen l + 3 * zlen rs <= U64_MAX -> Forall event_ok (map ev_of rs) ->
  Forall (fun r => kernel_event sn (os_fs (app_os a)) D (lw_inotify w) (fst (fst r)) (snd (fst r)) (ev_of r)) rs ->
  exists w' a' (watched_now : ppath -> Prop), process_buffers reallocated (fun _ => true) workers
      [flat_map event_bytes (map ev_of rs)] (w, a) = (tt, (w', a')) /\
    represents (app_event_queue a') (l ++ map (change_event a) (reported_changes rs)) /\
    tracks (os_fs (app_os a)) (fun j => D j \/ watched_now j) w' /\
    (forall j, watched_now j -> arrived rs j) /\ (grants I -> forall j, arrived rs j -> watched_now j).
Proof.
  intros Halloc Hsrc Hst Hw Hd Hq Hl Ha Ht Hr Hrep Ho Hz Hev Hrs.
  destruct (process_events_report Halloc reallocated workers a sn _ Hsrc Hw Hd Hq eq_refl Hl Ha rs l D w a)
    as (w' & a' & A & E & HA & HgA & Ht' & _ & Hw'); [done|done|by constructor|done|done|].
  exists w', a', A. split_and!; [|apply Hw'|done..].
  cbn [process_buffers]. by rewrite events_in_bytes, (bind_run _ _ _ _ _ E).
Qed.
(** C28: when a directory of the source is renamed inside it, the watcher loses it.  The
    IN_MOVED_TO event adds the watch of the new name, for which the kernel has the
    descriptor that the directory already has; the IN_MOVE_SELF event of that descriptor,
    which follows, takes it out of the table.  The kernel goes on watching the directory,
    but whatever events of that descriptor arrive later leave the watcher and the
    application as they are: no change in the directory is reported any more. *)
Theorem renamed_directory_unwatched reallocated workers (w : syseba_linux_watcher_t I) a
    parent x m p d cookie name later :
  (forall c, reallocated c = true -> c < 2 ^ 62) -> watcher_ok w -> ino_ok (lw_inotify w) ->
  (forall c, c <= 64 + 2 * zlen (lw_watches w) -> reallocated c = true) -> roomy w ->
  quiet (app_os a) -> tree_ok (os_fs (app_os a)) -> parent <> [] ->
  Forall path_name (parent ++ [x]) -> no_links (os_fs (app_os a)) (parent ++ [x]) ->
  zlen (render (parent ++ [x])) < SYSEBA_PATH_MAX -> until_nul name = x ->
  os_fs (app_os a) !! (parent ++ [x]) = Some (NDir m) -> wd_of (lw_inotify w) (inode m) = Some d ->
  table (lw_watches w) !! p = Some (render parent) -> p <> d ->
  Forall (fun e => ie_wd e = d /\ has e IN_Q_OVERFLOW = false) later ->
  exists w' a', process_events reallocated (fun _ => true) workers
      [InotifyEvent p (Z.lor IN_MOVED_TO IN_ISDIR) cookie name; InotifyEvent d IN_MOVE_SELF 0 []] (w, a)
      = (tt, (w', a')) /\
    wd_of (lw_inotify w') (inode m) = Some d /\ syseba_linux_watch_find (lw_watches w') d = None /\
    process_events reallocated (fun _ => true) workers later (w', a') = (tt, (w', a')).
Proof.
  intros. destruct (renamed_unwatched reallocated workers w a parent x m p d cookie name)
    as (w' & a' & E & Hd & Ht); [done..|].
  exists w', a'. split_and!; [done|done|by rewrite watch_find_table, Ht|by eapply unwatched_events].
Qed.
End Claims.

(** ** A small kernel *)

(** The next descriptor, and the descriptor of every watched inode. *)
Record small_inotify := SmallInotify {
  si_next : Z;
  si_watches : gmap (Z * Z) Z;
}.
Definition small_start : small_inotify := SmallInotify 1 ∅.

Definition small_add (s : os) (path : cstr) (i : small_inotify) : (errno + Z) * small_inotify :=
  match resolve s false path with
  | Found k =>
      match os_fs s !! k with
      | Some (NDir m) =>
          match si_watches i !! inode m with
          | Some d => (inr d, i)
          | None =>
              (inr (si_next i), SmallInotify (si_next i + 1) (<[inode m := si_next i]> (si_watches i)))
          end
      | _ => (inl ENOTDIR, i)
      end
  | r => (inl (not_found r), i)
  end.

#[export] Instance small_kernel : Inotify small_inotify :=
  {| inotify_init1 := fun _ => inr small_start;
     inotify_add_watch := small_add;
     inotify_rm_watch := fun d i =>
       SmallInotify (si_next i) (filter (fun kv => snd kv <> d) (si_watches i)) |}.

Definition small_ok (i : small_inotify) : Prop :=
  (forall x d, si_watches i !! x = Some d -> d < si_next i) /\
  forall x y d, si_watches i !! x = Some d -> si_watches i !! y = Some d -> x = y.

Lemma small_add_ok s (i : small_inotify) k m :
  small_ok i -> tree_ok (os_fs s) -> Forall path_name k -> no_links (os_fs s) k -> k <> [] ->
  os_fs s !! k = Some (NDir m) ->
  exists d i', small_add s (render k) i = (inr d, i') /\ small_ok i' /\ si_watches i' !! inode m = Some d /\
    (forall d0, si_watches i !! inode m = Some d0 -> d0 = d) /\
    forall x, x <> inode m -> si_watches i' !! x = si_watches i !! x.
Proof.
  destruct i as [n g]. intros [Hlt Hinj] Ht Hk Hl Hne Hm. cbn [si_next si_watches] in *. unfold small_add.
  rewrite resolve_present, Hm by (done || by destruct k; [done|exists (NDir m)]).
  cbn [si_next si_watches]. destruct (g !! inode m) as [d|] eqn:E.
  - exists d, (SmallInotify n g). split_and!; [done|by split|done|by intros d0 [= ->]|done].
  - exists n, (SmallInotify (n + 1) (<[inode m := n]> g)). cbn [si_watches]. split_and!; [done| |by rewrite lookup_insert_eq|done|].
    + assert (forall x d, <[inode m := n]> g !! x = Some d -> x = inode m /\ d = n \/ g !! x = Some d /\ d < n) as Hx.
      { intros x d. destruct (decide (x = inode m)) as [->|Hxne].
        - rewrite lookup_insert_eq. intros [= <-]. by left.
        - rewrite lookup_insert_ne by done. intros Hd. right. split; [done|by eapply Hlt]. }
      split; cbn [si_next si_watches]; [intros x d [[_ ->]|[_ ?]]%Hx; lia|].
      intros x y d [[-> ->]|[H1 ?]]%Hx [[-> ?]|[H2 ?]]%Hx; [done|lia|lia|by eapply Hinj].
    + intros x Hx. by rewrite lookup_insert_ne.
Qed.

#[export] Instance small_laws : InotifyLaws small_inotify.
Proof.
  refine {| ino_ok := small_ok; wd_of := fun i x => si_watches i !! x |}.
  - intros s i [= <-].
    by split; [intros x d Hd|intros x y d Hd _]; cbn in Hd; rewrite lookup_empty in Hd.
  - intros i x y d [_ Hinj]. apply Hinj.
  - intros s i k m r i' _ Hi Ht Hk Hl Hne Hm E.
    destruct (small_add_ok s i k m Hi Ht Hk Hl Hne Hm) as (d & j & E' & Hj & Hd & Hsame & Hother).
    change (small_add s (render k) i = (r, i')) in E. rewrite E in E'. injection E' as -> ->. by split_and!.
Defined.

Lemma small_grants : grants small_inotify.
Proof.
  intros s i k m _ Hi Ht Hk Hl Hne Hm. destruct (small_add_ok s i k m Hi Ht Hk Hl Hne Hm) as (d & j & E & _).
  exists d. change (fst (small_add s (render k) i) = inr d). by rewrite E.
Qed.

(** ** A small source *)

Definition dir_meta (ino : Z) : meta := Meta 493 0 0 0 ino.
Definition nested_fs : fsmap := list_to_map
  [ ([c!"data"], NDir (dir_meta 1));
    ([c!"data"; c!"sub"], NDir (dir_meta 2));
    ([c!"data"; c!"sub"; c!"a.txt"], NReg example_meta (c!"hello")) ].
Definition host_of (fs : fsmap) : os := Os fs E_OK (c!"/") 1000 0 7 10 [] [] None.
Definition ample (capacity : Z) : bool := capacity <? 2 ^ 62.

Lemma ample_limit c : ample c = true -> c < 2 ^ 62.
Proof. apply Z.ltb_lt. Qed.
Lemma ample_small n c : n <= 1000 -> c <= 64 + 2 * n -> ample c = true.
Proof. intros. apply Z.ltb_lt. lia. Qed.

Definition distinct_b (fs : fsmap) : bool :=
  check_keys (fun k n => check_keys (fun k' n' =>
    match n, n' with
    | NDir m, NDir m' => negb (bool_decide (inode m = inode m')) || bool_decide (k = k')
    | _, _ => true
    end) fs) fs.

Lemma distinct_b_spec fs : distinct_b fs = true -> distinct_directories fs.
Proof.
  intros H k k' m m' Hk Hk' E. pose proof (check_keys_spec _ _ H _ _ Hk) as P. cbv beta in P.
  pose proof (check_keys_spec _ _ P _ _ Hk') as Q. cbv beta iota in Q.
  rewrite bool_decide_true in Q by exact E. by apply bool_decide_eq_true in Q.
Qed.

Example watch_table_refines_map_witness :
  let w := LinuxWatcher (SmallInotify 2 {[inode (dir_meta 1) := 1]}) [LinuxWatch 1 (c!"/data")] 64 in
  let a := demo_app (host_of nested_fs) in
  syseba_linux_watch_find (lw_watches w) 1 = LinuxWatch 1 <$> table (lw_watches w) !! 1 /\
  (exists ok w' s', syseba_linux_watch_add ample (c!"/data/sub") (w, a) = (ok, (w', with_os s' a)) /\
     same_world (app_os a) s' /\ watcher_ok w' /\
     match ok, inotify_add_watch (app_os a) (c!"/data/sub") (lw_inotify w) with
     | true, (inr e, _) =>
         table (lw_watches w') = <[e := truncate SYSEBA_PATH_MAX (c!"/data/sub")]> (table (lw_watches w))
     | true, (inl _, _) => False
     | false, _ => table (lw_watches w') = table (lw_watches w)
     end) /\
  (exists w', syseba_linux_watch_remove 1 (w, a) = (tt, (w', a)) /\ watcher_ok w' /\
     table (lw_watches w') = delete 1 (table (lw_watches w))).
Proof.
  intros w a. apply (watch_table_refines_map ample w (c!"/data/sub") 1 a).
  - apply ample_limit.
  - constructor; [by apply NoDup_singleton|by split; vm_compute].
Defined.

Example native_watches_source_witness :
  let a := demo_app (host_of nested_fs) in
  let is_watched k m := (k = [c!"data"] \/ below [c!"data"] k) /\ os_fs (app_os a) !! k = Some (NDir m) in
  exists (w : syseba_linux_watcher_t small_inotify) s',
    syseba_linux_watch_initialize ample (render [c!"data"]) a = (Some w, with_os s' a) /\
    same_world (app_os a) s' /\
    (forall k m, is_watched k m ->
       exists d, wd_of (lw_inotify w) (inode m) = Some d /\ table (lw_watches w) !! d = Some (render k)) /\
    (forall d p, table (lw_watches w) !! d = Some p ->
       exists k m, is_watched k m /\ p = render k /\ wd_of (lw_inotify w) (inode m) = Some d).
Proof.
  intros a. apply (native_watches_source ample a [c!"data"] small_start).
  - apply walk_b_spec. by vm_compute.
  - apply distinct_b_spec. by vm_compute.
  - done.
  - apply ample_limit.
  - intros c Hc. eapply ample_small; [|exact Hc]. by vm_compute.
  - apply small_grants.
  - done.
Defined.

(** The watcher of the small source, and events with their names padded. *)
Definition nested_watcher : syseba_linux_watcher_t small_inotify :=
  default (LinuxWatcher small_start [] 0)
    (value (syseba_linux_watch_initialize ample (render [c!"data"])) (demo_app (host_of nested_fs))).

Lemma nested_tracks :
  tracks nested_fs (fun k => k = [c!"data"] \/ below [c!"data"] k) nested_watcher /\ roomy nested_watcher.
Proof.
  destruct (initialize_tracks ample (demo_app (host_of nested_fs)) [c!"data"] nested_fs) with (i0 := small_start)
    as (w & s' & E & _ & Ht & Hr).
  - apply walk_b_spec. by vm_compute.
  - apply distinct_b_spec. by vm_compute.
  - done.
  - done.
  - apply ample_limit.
  - intros c Hc. eapply ample_small; [|exact Hc]. by vm_compute.
  - apply small_grants.
  - done.
  - unfold nested_watcher, value. rewrite E. exact (conj Ht Hr).
Qed.

Definition padded (name : cstr) : cstr := name ++ [NUL; NUL; NUL].
Definition written : located :=
  ([c!"data"; c!"sub"], c!"a.txt", InotifyEvent 2 IN_CLOSE_WRITE 0 (padded (c!"a.txt"))).
Definition made : located :=
  ([c!"data"], c!"sub", InotifyEvent 1 (Z.lor IN_CREATE IN_ISDIR) 0 (padded (c!"sub"))).

Example native_reports_events_witness :
  let a := demo_app (host_of nested_fs) in
  let D k := k = [c!"data"] \/ below [c!"data"] k in
  exists w' a' (watched_now : ppath -> Prop), process_buffers ample (fun _ => true) id
      [flat_map event_bytes (map ev_of [made; written])] (nested_watcher, a) = (tt, (w', a')) /\
    represents (app_event_queue a') ([] ++ map (change_event a) (reported_changes [made; written])) /\
    tracks (os_fs (app_os a)) (fun j => D j \/ watched_now j) w' /\
    (forall j, watched_now j -> arrived [made; written] j) /\
    (grants small_inotify -> forall j, arrived [made; written] j -> watched_now j).
Proof.
  intros a D. destruct nested_tracks as [Ht Hr].
  apply (native_reports_events ample id a [c!"data"] D nested_watcher [] [made; written]).
  - done.
  - done.
  - done.
  - apply walk_b_spec. by vm_compute.
  - apply distinct_b_spec. by vm_compute.
  - done.
  - apply ample_limit.
  - intros c Hc. eapply ample_small; [|exact Hc]. by vm_compute.
  - exact Ht.
  - exact Hr.
  - apply init_represents.
  - done.
  - by vm_compute.
  - repeat constructor; by vm_compute.
  - assert (forall k, no_links_b nested_fs k = true -> no_links nested_fs k) as Hl by apply no_links_b_spec.
    apply Forall_cons; split; [|apply Forall_cons; split; [|done]]; constructor.
    + split; by left.
    + exists (dir_meta 1). split; by vm_compute.
    + by vm_compute.
    + split_and!; [by apply names_b_spec|apply Hl; by vm_compute|by vm_compute].
    + by vm_compute.
    + intros _. exists (dir_meta 2). by vm_compute.
    + split; right; by exists (c!"sub"), [].
    + exists (dir_meta 2). split; by vm_compute.
    + by vm_compute.
    + split_and!; [by apply names_b_spec|apply Hl; by vm_compute|by vm_compute].
    + by vm_compute.
    + intros E. by vm_compute in E.
Defined.

(** ** The renaming of a directory *)

(** [/data/sub] is now [/data/new]. *)
Definition renamed_fs : fsmap := list_to_map
  [ ([c!"data"], NDir (dir_meta 1));
    ([c!"data"; c!"new"], NDir (dir_meta 2));
    ([c!"data"; c!"new"; c!"a.txt"], NReg example_meta (c!"changed")) ].

(** What the kernel reports for the renaming, and for a file that is written in the
    directory afterwards. *)
Definition renaming : list inotify_event :=
  [ InotifyEvent 1 (Z.lor IN_MOVED_FROM IN_ISDIR) 9 (padded (c!"sub"));
    InotifyEvent 1 (Z.lor IN_MOVED_TO IN_ISDIR) 9 (padded (c!"new"));
    InotifyEvent 2 IN_MOVE_SELF 0 [] ].
Definition writing : inotify_event := InotifyEvent 2 IN_CLOSE_WRITE 0 (padded (c!"a.txt")).

Definition after_events (events : list inotify_event) : list change * gmap Z cstr * option Z :=
  let '(w, a) := exec (process_buffers ample (fun _ => true) id [flat_map event_bytes events])
                   (nested_watcher, demo_app (host_of renamed_fs)) in
  (map (fun event => (ev_kind event, ev_path event, ev_is_directory event))
     (value syseba_queue_destroy (app_event_queue a)),
   table (lw_watches w), wd_of (lw_inotify w) (inode (dir_meta 2))).

(** The same host with its watcher: without the IN_MOVE_SELF event, what is written in the
    directory afterwards is reported. *)
Example renaming_run :
  after_events (renaming ++ [writing]) =
    ([(SYSEBA_EVENT_DELETE, c!"/data/sub", true); (SYSEBA_EVENT_CREATE, c!"/data/new", true)],
     {[1 := c!"/data"]}, Some 2) /\
  after_events (take 2 renaming ++ [writing]) =
    ([(SYSEBA_EVENT_DELETE, c!"/data/sub", true); (SYSEBA_EVENT_CREATE, c!"/data/new", true);
      (SYSEBA_EVENT_MODIFY, c!"/data/new/a.txt", false)],
     <[2 := c!"/data/new"]> {[1 := c!"/data"]}, Some 2).
Proof. split; vm_compute; reflexivity. Qed.

Example renamed_directory_unwatched_witness :
  let a := demo_app (host_of renamed_fs) in
  exists w' a', process_events ample (fun _ => true) id
      [InotifyEvent 1 (Z.lor IN_MOVED_TO IN_ISDIR) 9 (padded (c!"new")); InotifyEvent 2 IN_MOVE_SELF 0 []]
      (nested_watcher, a) = (tt, (w', a')) /\
    wd_of (lw_inotify w') (inode (dir_meta 2)) = Some 2 /\ syseba_linux_watch_find (lw_watches w') 2 = None /\
    process_events ample (fun _ => true) id [writing; writing] (w', a') = (tt, (w', a')).
Proof.
  intros a. destruct nested_tracks as [Ht Hr].
  apply (renamed_directory_unwatched ample id nested_watcher a [c!"data"] (c!"new") (dir_meta 2) 1 2 9
           (padded (c!"new")) [writing; writing]).
  - apply ample_limit.
  - apply Ht.
  - apply Ht.
  - intros c Hc. eapply (ample_small 2); [lia|]. etransitivity; [exact Hc|]. by vm_compute.
  - exact Hr.
  - done.
  - apply tree_ok_b_spec. by vm_compute.
  - done.
  - by apply names_b_spec.
  - apply no_links_b_spec. by vm_compute.
  - by vm_compute.
  - by vm_compute.
  - by vm_compute.
  - by vm_compute.
  - by vm_compute.
  - done.
  - by repeat constructor.
Defined.
