(* ===== verification/Strtod.v ===== *)
(** * Reading a floating-point number

    What the C library's [strtod] reads in the C locale: decimal and hexadecimal
    numbers, infinities and NaNs, rounded to the nearest double. *)

From Stdlib Require Import QArith_base Qabs.
From S2P Require Import Prelude CString AppState Json.

(** ** Rounding a rational to a double

    53 bits, an exponent of at least -1074 for the last of them, and infinity from the
    middle between the largest double and 2^1024 on. *)

Definition LAST_EXPONENT : Z := -1074.
Definition OVERFLOW : Z := 2 ^ 1024 - 2 ^ 970.

Definition round_double (negative : bool) (n d : Z) : double :=
  if n =? 0 then DFin 0
  else if OVERFLOW * d <=? n then DInf negative
  else
    let e := Z.log2 n - Z.log2 d - 52 in
    let e := if scale_num n e / scale_den d e <? 2 ^ 52 then e - 1 else e in
    let e := Z.max e LAST_EXPONENT in
    let m := round_half_even (scale_num n e) (scale_den d e) in
    let m := if negative then - m else m in
    DFin (if e <? 0 then Qmake m (Z.to_pos (2 ^ (- e))) else inject_Z (m * 2 ^ e)).

(** ** The text *)

Definition lower (s : cstr) : cstr := map tolower s.

(** [text] after [word], letters of either case. *)
Definition skip_word (word text : cstr) : option cstr :=
  if streq (lower (take (length word) text)) word then Some (drop (length word) text) else None.

Definition hex_val (c : ascii) : Z :=
  if isdigit c then code c - 48 else code (tolower c) - 87.
Definition isxdigit (c : ascii) : bool :=
  isdigit c || ((97 <=? code (tolower c)) && (code (tolower c) <=? 102)).
Definition value_in (base : Z) (digits : cstr) : Z :=
  fold_left (fun a c => base * a + hex_val c) digits 0.

(** Digits around at most one dot: the digits before and after it, and the rest;
    [None] without a digit. *)
Definition mantissa (digit : ascii -> bool) (s : cstr) : option (cstr * cstr * cstr) :=
  let '(whole, rest) := span digit s in
  let '(fraction, rest') :=
    match rest with
    | c :: r => if ceq c "."%char then span digit r else ([], rest)
    | [] => ([], rest)
    end in
  match whole, fraction with
  | [], [] => None
  | _, _ => Some (whole, fraction, rest')
  end.

(** An exponent after its letter, when digits follow: otherwise nothing is read. *)
Definition exponent (letter : ascii) (s : cstr) : Z * cstr :=
  match s with
  | c :: r =>
      if negb (ceq (tolower c) letter) then (0, s)
      else
        let '(negative, r') :=
          match r with
          | d :: r' => if ceq d "-"%char then (true, r') else if ceq d "+"%char then (false, r') else (false, r)
          | [] => (false, r)
          end in
        match span isdigit r' with
        | ([], _) => (0, s)
        | (digits, rest) => ((if negative then - digits_val digits else digits_val digits), rest)
        end
  | [] => (0, s)
  end.

(** [n * base^k] as a fraction. *)
Definition power_num (n base k : Z) : Z := if k <? 0 then n else n * base ^ k.
Definition power_den (base k : Z) : Z := if k <? 0 then base ^ (- k) else 1.

Definition read_number (negative hexadecimal : bool) (s : cstr) : option (double * cstr) :=
  match mantissa (if hexadecimal then isxdigit else isdigit) s with
  | None => None
  | Some (whole, fraction, rest) =>
      let '(e, rest') := exponent (if hexadecimal then "p"%char else "e"%char) rest in
      let base := if hexadecimal then 2 else 10 in
      let places := zlen fraction * (if hexadecimal then 4 else 1) in
      let n := value_in (if hexadecimal then 16 else 10) (whole ++ fraction) in
      let k := e - places in
      Some (round_double negative (power_num n base k) (power_den base k), rest')
  end.

(** [nan] may be followed by letters, digits and underscores in parentheses. *)
Definition skip_payload (s : cstr) : cstr :=
  match s with
  | c :: r =>
      if ceq c "("%char then
        let word c := isdigit c || ((97 <=? code (tolower c)) && (code (tolower c) <=? 122)) || ceq c "_"%char in
        match span word r with
        | (_, d :: rest) => if ceq d ")"%char then rest else s
        | _ => s
        end
      else s
  | [] => s
  end.

(** The number and the text at the end pointer; [None] when nothing was read. *)
Definition strtod (s : cstr) : option (double * cstr) :=
  let s1 := drop_while isspace s in
  let '(negative, s2) :=
    match s1 with
    | c :: r => if ceq c "-"%char then (true, r) else if ceq c "+"%char then (false, r) else (false, s1)
    | [] => (false, s1)
    end in
  match skip_word (c!"infinity") s2, skip_word (c!"inf") s2, skip_word (c!"nan") s2, skip_word (c!"0x") s2 with
  | Some rest, _, _, _ => Some (DInf negative, rest)
  | None, Some rest, _, _ => Some (DInf negative, rest)
  | None, None, Some rest, _ => Some (DNan, skip_payload rest)
  | None, None, None, Some digits =>
      match read_number negative true digits with
      | Some r => Some r
      | None => read_number negative false s2
      end
  | None, None, None, None => read_number negative false s2
  end.

(** ** Comparisons: false when one side is not a number *)

Definition double_le (a b : double) : bool :=
  match a, b with
  | DNan, _ | _, DNan => false
  | DInf true, _ | _, DInf false => true
  | DInf false, _ | _, DInf true => false
  | DFin p, DFin q => Qle_bool p q
  end.
Definition double_lt (a b : double) : bool :=
  match a, b with
  | DNan, _ | _, DNan => false
  | _, _ => negb (double_le b a)
  end.

Example strtod_reads :
  strtod (c!" 2.5e1x") = Some (DFin (Qmake 7036874417766400 281474976710656), c!"x") /\
  strtod (c!"0x1.8p1") = Some (DFin (Qmake 6755399441055744 2251799813685248), []) /\
  strtod (c!"0.2") = Some (DFin (Qmake 7205759403792794 36028797018963968), []) /\
  strtod (c!"-inf") = Some (DInf true, []) /\ strtod (c!"nan(1)") = Some (DNan, []) /\
  strtod (c!"1e400") = Some (DInf false, []) /\
  strtod (c!"4e-324") = Some (DFin (Qmake 1 (Z.to_pos (2 ^ 1074))), []) /\ strtod (c!".") = None.
Proof. vm_compute. repeat split. Qed.
