(* ===== verification/Options.v ===== *)
(** * The command line: options (src/src/cli.c)

    The defaults, the usage text and the parser of the arguments.  Lemmas are in
    OptionsFacts. *)

From Stdlib Require Import QArith_base.
From S2P Require Import Prelude CString Paths Os Config Restore AppState Status Token Json Strtod.

(** ** Assignments to the options *)

Definition put_command (x : cstr) (o : syseba_options_t) : syseba_options_t :=
  let 'Options _ cf lk db tk wh wp lg si we wo na ni js ow rn cd cr ln pa se pg ps so di et := o in
  Options x cf lk db tk wh wp lg si we wo na ni js ow rn cd cr ln pa se pg ps so di et.
Definition put_config_path (x : cstr) (o : syseba_options_t) : syseba_options_t :=
  let 'Options cm _ lk db tk wh wp lg si we wo na ni js ow rn cd cr ln pa se pg ps so di et := o in
  Options cm x lk db tk wh wp lg si we wo na ni js ow rn cd cr ln pa se pg ps so di et.
Definition put_lock_path (x : cstr) (o : syseba_options_t) : syseba_options_t :=
  let 'Options cm cf _ db tk wh wp lg si we wo na ni js ow rn cd cr ln pa se pg ps so di et := o in
  Options cm cf x db tk wh wp lg si we wo na ni js ow rn cd cr ln pa se pg ps so di et.
Definition put_db_path (x : cstr) (o : syseba_options_t) : syseba_options_t :=
  let 'Options cm cf lk _ tk wh wp lg si we wo na ni js ow rn cd cr ln pa se pg ps so di et := o in
  Options cm cf lk x tk wh wp lg si we wo na ni js ow rn cd cr ln pa se pg ps so di et.
Definition put_token_path (x : cstr) (o : syseba_options_t) : syseba_options_t :=
  let 'Options cm cf lk db _ wh wp lg si we wo na ni js ow rn cd cr ln pa se pg ps so di et := o in
  Options cm cf lk db x wh wp lg si we wo na ni js ow rn cd cr ln pa se pg ps so di et.
Definition put_web_host (x : cstr) (o : syseba_options_t) : syseba_options_t :=
  let 'Options cm cf lk db tk _ wp lg si we wo na ni js ow rn cd cr ln pa se pg ps so di et := o in
  Options cm cf lk db tk x wp lg si we wo na ni js ow rn cd cr ln pa se pg ps so di et.
Definition put_web_port (x : Z) (o : syseba_options_t) : syseba_options_t :=
  let 'Options cm cf lk db tk wh _ lg si we wo na ni js ow rn cd cr ln pa se pg ps so di et := o in
  Options cm cf lk db tk wh x lg si we wo na ni js ow rn cd cr ln pa se pg ps so di et.
Definition put_language (x : syseba_language_t) (o : syseba_options_t) : syseba_options_t :=
  let 'Options cm cf lk db tk wh wp _ si we wo na ni js ow rn cd cr ln pa se pg ps so di et := o in
  Options cm cf lk db tk wh wp x si we wo na ni js ow rn cd cr ln pa se pg ps so di et.
Definition put_silent (x : bool) (o : syseba_options_t) : syseba_options_t :=
  let 'Options cm cf lk db tk wh wp lg _ we wo na ni js ow rn cd cr ln pa se pg ps so di et := o in
  Options cm cf lk db tk wh wp lg x we wo na ni js ow rn cd cr ln pa se pg ps so di et.
Definition put_web (x : bool) (o : syseba_options_t) : syseba_options_t :=
  let 'Options cm cf lk db tk wh wp lg si _ wo na ni js ow rn cd cr ln pa se pg ps so di et := o in
  Options cm cf lk db tk wh wp lg si x wo na ni js ow rn cd cr ln pa se pg ps so di et.
Definition put_web_only (x : bool) (o : syseba_options_t) : syseba_options_t :=
  let 'Options cm cf lk db tk wh wp lg si we _ na ni js ow rn cd cr ln pa se pg ps so di et := o in
  Options cm cf lk db tk wh wp lg si we x na ni js ow rn cd cr ln pa se pg ps so di et.
Definition put_no_web_auth (x : bool) (o : syseba_options_t) : syseba_options_t :=
  let 'Options cm cf lk db tk wh wp lg si we wo _ ni js ow rn cd cr ln pa se pg ps so di et := o in
  Options cm cf lk db tk wh wp lg si we wo x ni js ow rn cd cr ln pa se pg ps so di et.
Definition put_no_initial_sync (x : bool) (o : syseba_options_t) : syseba_options_t :=
  let 'Options cm cf lk db tk wh wp lg si we wo na _ js ow rn cd cr ln pa se pg ps so di et := o in
  Options cm cf lk db tk wh wp lg si we wo na x js ow rn cd cr ln pa se pg ps so di et.
Definition put_output_json (x : bool) (o : syseba_options_t) : syseba_options_t :=
  let 'Options cm cf lk db tk wh wp lg si we wo na ni _ ow rn cd cr ln pa se pg ps so di et := o in
  Options cm cf lk db tk wh wp lg si we wo na ni x ow rn cd cr ln pa se pg ps so di et.
Definition put_overwrite (x : bool) (o : syseba_options_t) : syseba_options_t :=
  let 'Options cm cf lk db tk wh wp lg si we wo na ni js _ rn cd cr ln pa se pg ps so di et := o in
  Options cm cf lk db tk wh wp lg si we wo na ni js x rn cd cr ln pa se pg ps so di et.
Definition put_rename (x : bool) (o : syseba_options_t) : syseba_options_t :=
  let 'Options cm cf lk db tk wh wp lg si we wo na ni js ow _ cd cr ln pa se pg ps so di et := o in
  Options cm cf lk db tk wh wp lg si we wo na ni js ow x cd cr ln pa se pg ps so di et.
Definition put_create_daemon (x : bool) (o : syseba_options_t) : syseba_options_t :=
  let 'Options cm cf lk db tk wh wp lg si we wo na ni js ow rn _ cr ln pa se pg ps so di et := o in
  Options cm cf lk db tk wh wp lg si we wo na ni js ow rn x cr ln pa se pg ps so di et.
Definition put_console_refresh (x : double) (o : syseba_options_t) : syseba_options_t :=
  let 'Options cm cf lk db tk wh wp lg si we wo na ni js ow rn cd _ ln pa se pg ps so di et := o in
  Options cm cf lk db tk wh wp lg si we wo na ni js ow rn cd x ln pa se pg ps so di et.
Definition put_lines (x : Z) (o : syseba_options_t) : syseba_options_t :=
  let 'Options cm cf lk db tk wh wp lg si we wo na ni js ow rn cd cr _ pa se pg ps so di et := o in
  Options cm cf lk db tk wh wp lg si we wo na ni js ow rn cd cr x pa se pg ps so di et.
Definition put_path (x : cstr) (o : syseba_options_t) : syseba_options_t :=
  let 'Options cm cf lk db tk wh wp lg si we wo na ni js ow rn cd cr ln _ se pg ps so di et := o in
  Options cm cf lk db tk wh wp lg si we wo na ni js ow rn cd cr ln x se pg ps so di et.
Definition put_search (x : cstr) (o : syseba_options_t) : syseba_options_t :=
  let 'Options cm cf lk db tk wh wp lg si we wo na ni js ow rn cd cr ln pa _ pg ps so di et := o in
  Options cm cf lk db tk wh wp lg si we wo na ni js ow rn cd cr ln pa x pg ps so di et.
Definition put_page (x : Z) (o : syseba_options_t) : syseba_options_t :=
  let 'Options cm cf lk db tk wh wp lg si we wo na ni js ow rn cd cr ln pa se _ ps so di et := o in
  Options cm cf lk db tk wh wp lg si we wo na ni js ow rn cd cr ln pa se x ps so di et.
Definition put_page_size (x : Z) (o : syseba_options_t) : syseba_options_t :=
  let 'Options cm cf lk db tk wh wp lg si we wo na ni js ow rn cd cr ln pa se pg _ so di et := o in
  Options cm cf lk db tk wh wp lg si we wo na ni js ow rn cd cr ln pa se pg x so di et.
Definition put_sort (x : cstr) (o : syseba_options_t) : syseba_options_t :=
  let 'Options cm cf lk db tk wh wp lg si we wo na ni js ow rn cd cr ln pa se pg ps _ di et := o in
  Options cm cf lk db tk wh wp lg si we wo na ni js ow rn cd cr ln pa se pg ps x di et.
Definition put_direction (x : cstr) (o : syseba_options_t) : syseba_options_t :=
  let 'Options cm cf lk db tk wh wp lg si we wo na ni js ow rn cd cr ln pa se pg ps so _ et := o in
  Options cm cf lk db tk wh wp lg si we wo na ni js ow rn cd cr ln pa se pg ps so x et.
Definition put_explicit_token (x : cstr) (o : syseba_options_t) : syseba_options_t :=
  let 'Options cm cf lk db tk wh wp lg si we wo na ni js ow rn cd cr ln pa se pg ps so di _ := o in
  Options cm cf lk db tk wh wp lg si we wo na ni js ow rn cd cr ln pa se pg ps so di x.

(** ** Defaults *)

Definition SYSEBA_DEFAULT_LOCK : cstr := c!"/run/syseba/syseba.lock".
Definition SYSEBA_DEFAULT_DB : cstr := c!"/var/lib/syseba/syseba_logs.db".
Definition SYSEBA_DEFAULT_TOKEN : cstr := c!"/etc/syseba/syseba_web.token".
Definition SYSEBA_DEFAULT_WEB_HOST : cstr := c!"127.0.0.1".
Definition SYSEBA_DEFAULT_WEB_PORT : Z := 8765.

Definition syseba_options_defaults : syseba_options_t :=
  Options (c!"run") [] SYSEBA_DEFAULT_LOCK SYSEBA_DEFAULT_DB SYSEBA_DEFAULT_TOKEN
    SYSEBA_DEFAULT_WEB_HOST SYSEBA_DEFAULT_WEB_PORT SYSEBA_LANGUAGE_IT
    false false false false false false false false false
    (DFin 3) 100 [] [] 1 SYSEBA_DEFAULT_RESTORE_PAGE (c!"name") (c!"asc") [].

Definition commands : list cstr :=
  [c!"run"; c!"status"; c!"logs"; c!"config-check"; c!"restore-list"; c!"restore-copy";
   c!"restore-browser"; c!"service-install"].
Definition syseba_cli_command_valid (command : cstr) : bool := existsb (streq command) commands.

(** ** Values *)

(** The buffers of the options. *)
Definition WEB_HOST_MAX : Z := 256.
Definition SEARCH_MAX : Z := 512.

Definition syseba_option_copy (size : Z) (value : option cstr) (name : cstr) : cstr + cstr :=
  match value with
  | Some value =>
      if fits size value then inr value else inl ((c!"Invalid or too long value for ") ++ name)
  | None => inl ((c!"Invalid or too long value for ") ++ name)
  end.

(** The text after the equals sign, or else the next argument, which is then consumed.
    The message of a missing value is always replaced by the caller's. *)
Definition syseba_option_value (argument : cstr) (rest : list cstr) : option cstr * list cstr :=
  match strchr "="%char argument, rest with
  | Some (_, value), _ => (Some value, rest)
  | None, value :: rest' => (Some value, rest')
  | None, [] => (None, [])
  end.

Definition syseba_parse_unsigned (value : cstr) (minimum maximum : Z) : option Z :=
  let parsed := strtoul value in
  match pu_end parsed with
  | Some [] =>
      if pu_erange parsed || (pu_value parsed <? minimum) || (maximum <? pu_value parsed)
      then None else Some (pu_value parsed)
  | _ => None
  end.

(** ** Options *)

(** An option without a value; [--create-daemon] is a command as well. *)
Definition flag_option (argument : cstr) (o : syseba_options_t) : option syseba_options_t :=
  if streq argument (c!"--silent") then Some (put_silent true o)
  else if streq argument (c!"--web") then Some (put_web true o)
  else if streq argument (c!"--web-only") then Some (put_web_only true o)
  else if streq argument (c!"--no-web-auth") then Some (put_no_web_auth true o)
  else if streq argument (c!"--no-initial-sync") then Some (put_no_initial_sync true o)
  else if streq argument (c!"--json") then Some (put_output_json true o)
  else if streq argument (c!"--overwrite") then Some (put_overwrite true o)
  else if streq argument (c!"--rename") then Some (put_rename true o)
  else if streq argument (c!"--create-daemon") then
    Some (put_command (c!"service-install") (put_create_daemon true o))
  else None.

(** [value], when the test accepts it. *)
Definition accepted (value : option cstr) (test : cstr -> bool) : option cstr :=
  match value with Some v => if test v then Some v else None | None => None end.
Definition or_message {A} (message : cstr) (x : option A) : cstr + A :=
  match x with Some a => inr a | None => inl message end.
Definition fmap_sum {A B} (f : A -> B) (x : cstr + A) : cstr + B :=
  match x with inl e => inl e | inr a => inr (f a) end.

Definition number_option (value : option cstr) (minimum maximum : Z) (message : cstr) : cstr + Z :=
  or_message message (match value with Some v => syseba_parse_unsigned v minimum maximum | None => None end).

Definition refresh_option (value : option cstr) : cstr + double :=
  or_message (c!"Invalid --console-refresh")
    (match value with
     | Some v =>
         match strtod v with
         | Some (refresh, []) =>
             if double_le refresh (DFin 0) || double_lt (DFin 3600) refresh then None else Some refresh
         | _ => None
         end
     | None => None
     end).

Definition is_language (v : cstr) : bool := streq v (c!"it") || streq v (c!"en").
Definition is_sort (v : cstr) : bool := streq v (c!"name") || streq v (c!"mtime") || streq v (c!"size").
Definition is_direction (v : cstr) : bool := streq v (c!"asc") || streq v (c!"desc").

(** An option with a value is recognised by its first letters; [None] for another text.
    After a failure only the language of the options is used. *)

Definition text_option (size : Z) (name : cstr) (put : cstr -> syseba_options_t -> syseba_options_t)
    (value : option cstr) (o : syseba_options_t) : option (cstr + syseba_options_t) :=
  Some (fmap_sum (fun v => put v o) (syseba_option_copy size value name)).

(** The options of the service. *)
Definition service_option (argument : cstr) (value : option cstr) (o : syseba_options_t) :
    option (cstr + syseba_options_t) :=
  let names prefix := starts_with prefix argument in
  if names (c!"--config") then text_option SYSEBA_PATH_MAX (c!"--config") put_config_path value o
  else if names (c!"--lang") then
    Some (fmap_sum (fun v => put_language (if streq v (c!"en") then SYSEBA_LANGUAGE_EN else SYSEBA_LANGUAGE_IT) o)
            (or_message (c!"--lang must be it or en") (accepted value is_language)))
  else if names (c!"--web-host") then text_option WEB_HOST_MAX (c!"--web-host") put_web_host value o
  else if names (c!"--web-port") then
    Some (fmap_sum (fun port => put_web_port port o)
            (number_option value 1 65535 (c!"--web-port must be between 1 and 65535")))
  else if names (c!"--web-token-file") then
    text_option SYSEBA_PATH_MAX (c!"--web-token-file") put_token_path value o
  else if names (c!"--web-token") then text_option SYSEBA_TOKEN_MAX (c!"--web-token") put_explicit_token value o
  else if names (c!"--lockfile") then text_option SYSEBA_PATH_MAX (c!"--lockfile") put_lock_path value o
  else if names (c!"--db-path") then text_option SYSEBA_PATH_MAX (c!"--db-path") put_db_path value o
  else if names (c!"--console-refresh") then
    Some (fmap_sum (fun refresh => put_console_refresh refresh o) (refresh_option value))
  else None.

(** The options of the other commands. *)
Definition query_option (argument : cstr) (value : option cstr) (o : syseba_options_t) :
    option (cstr + syseba_options_t) :=
  let names prefix := starts_with prefix argument in
  if names (c!"--lines") then
    Some (fmap_sum (fun n => put_lines n o) (number_option value 1 2000 (c!"Invalid --lines")))
  else if names (c!"--path") then text_option SYSEBA_PATH_MAX (c!"--path") put_path value o
  else if names (c!"--search") then text_option SEARCH_MAX (c!"--search") put_search value o
  else if names (c!"--page-size") then
    Some (fmap_sum (fun n => put_page_size n o)
            (number_option value 1 SYSEBA_MAX_RESTORE_PAGE (c!"Invalid --page-size")))
  else if names (c!"--page") then
    Some (fmap_sum (fun n => put_page n o) (number_option value 1 U32_MAX (c!"Invalid --page")))
  else if names (c!"--sort") then
    Some (fmap_sum (fun v => put_sort v o) (or_message (c!"Invalid --sort") (accepted value is_sort)))
  else if names (c!"--direction") then
    Some (fmap_sum (fun v => put_direction v o)
            (or_message (c!"Invalid --direction") (accepted value is_direction)))
  else None.

Definition value_option (argument : cstr) (value : option cstr) (o : syseba_options_t) :
    option (cstr + syseba_options_t) :=
  match service_option argument value o with
  | Some result => Some result
  | None => query_option argument value o
  end.

(** ** The usage *)

(** A line: what the user writes, and its explanation in both languages. *)
Definition usage_commands : list (cstr * cstr * cstr) :=
  [ (c!"run               ", c!"avvia watcher, sincronizzazione e dashboard",
     c!"start watcher, synchronization, and dashboard");
    (c!"status            ", c!"mostra stato e utilizzo dischi", c!"show status and disk usage");
    (c!"logs              ", c!"mostra la coda finale del log", c!"show the log tail");
    (c!"config-check      ", c!"valida la configurazione", c!"validate configuration");
    (c!"restore-list      ", c!"elenca l'area restore", c!"list the restore area");
    (c!"restore-copy      ", c!"ripristina l'elemento indicato da --path",
     c!"restore the item selected by --path");
    (c!"restore-browser   ", c!"navigazione e scelta restore interattive",
     c!"interactive restore navigation and selection");
    (c!"service-install   ", c!"installa e abilita il servizio di sistema",
     c!"install and enable the system service") ].

Definition usage_options : list (cstr * cstr * cstr) :=
  [ (c!"--config PATH             ", c!"file di configurazione alternativo", c!"alternate configuration file");
    (c!"--lang it|en              ", c!"lingua CLI, console e Web UI", c!"CLI, console, and Web UI language");
    (c!"--silent                  ", c!"nessuna dashboard console", c!"disable the console dashboard");
    (c!"--web                     ", c!"avvia la Web UI insieme al watcher", c!"start the Web UI with the watcher");
    (c!"--web-only                ", c!"avvia solo la Web UI", c!"start only the Web UI");
    (c!"--web-host ADDRESS        ", c!"indirizzo di ascolto Web", c!"Web listen address");
    (c!"--web-port PORT           ", c!"porta Web (default 8765)", c!"Web port (default 8765)");
    (c!"--web-token TOKEN         ", c!"token Web esplicito", c!"explicit Web token");
    (c!"--web-token-file PATH     ", c!"file persistente del token Web", c!"persistent Web token file");
    (c!"--no-web-auth             ", c!"disabilita autenticazione (non sicuro)",
     c!"disable authentication (unsafe)");
    (c!"--no-initial-sync         ", c!"salta la sincronizzazione iniziale", c!"skip initial synchronization");
    (c!"--lockfile PATH           ", c!"file lock del processo", c!"process lock file");
    (c!"--db-path PATH            ", c!"database SQLite", c!"SQLite database");
    (c!"--console-refresh SEC     ", c!"refresh dashboard", c!"dashboard refresh");
    (c!"--lines N                 ", c!"righe di log (massimo 2000)", c!"log lines (maximum 2000)");
    (c!"--path RELATIVE           ", c!"percorso relativo nel restore", c!"relative path in restore");
    (c!"--search TEXT             ", c!"filtro nome", c!"name filter");
    (c!"--page N --page-size N    ", c!"paginazione restore", c!"restore pagination");
    (c!"--sort name|mtime|size    ", c!"campo di ordinamento", c!"sort field");
    (c!"--direction asc|desc      ", c!"direzione", c!"direction");
    (c!"--overwrite | --rename    ", c!"strategia in caso di conflitto", c!"conflict strategy");
    (c!"--json                    ", c!"output JSON", c!"JSON output");
    (c!"--version                 ", c!"mostra versione", c!"show version");
    (c!"--help                    ", c!"mostra questo aiuto", c!"show this help") ].

Definition usage_lines (language : syseba_language_t) (rows : list (cstr * cstr * cstr)) : cstr :=
  flat_map (fun '(what, italian, english) =>
    (c!"  ") ++ what ++ syseba_tr language italian english ++ [NEWLINE]) rows.
Definition heading (language : syseba_language_t) (italian english : cstr) : cstr :=
  syseba_tr language italian english ++ (c!":") ++ [NEWLINE].

Definition syseba_cli_usage (language : syseba_language_t) : cstr :=
  (c!"SySeBa ") ++ SYSEBA_VERSION ++ (c!" - The Syncro Service Backup") ++ [NEWLINE; NEWLINE]
  ++ heading language (c!"Uso") (c!"Usage") ++ (c!"  syseba [command] [options]") ++ [NEWLINE; NEWLINE]
  ++ heading language (c!"Comandi") (c!"Commands") ++ usage_lines language usage_commands ++ [NEWLINE]
  ++ heading language (c!"Opzioni") (c!"Options") ++ usage_lines language usage_options.

(** ** The parser *)

(** 1: the usage or the version was asked for; -1: an error, with the options read so
    far; 0: the options. *)
Inductive parse_result : Type :=
  | ParseUsage (language : syseba_language_t)
  | ParseVersion
  | ParseError (options : syseba_options_t) (message : cstr)
  | ParseDone (options : syseba_options_t).

Definition is_command (argument : cstr) : bool :=
  match argument with c :: _ => negb (ceq c "-"%char) | [] => true end.

Fixpoint cli_arguments (arguments : list cstr) (o : syseba_options_t) (command_set : bool) : parse_result :=
  match arguments with
  | [] =>
      if op_overwrite o && op_rename o then
        ParseError o (c!"--overwrite and --rename are mutually exclusive")
      else ParseDone o
  | argument :: rest =>
      if streq argument (c!"--help") || streq argument (c!"-h") then ParseUsage (op_language o)
      else if streq argument (c!"--version") || streq argument (c!"-V") then ParseVersion
      else if is_command argument then
        if command_set || negb (syseba_cli_command_valid argument) then
          ParseError o ((c!"Unknown command: ") ++ argument)
        else cli_arguments rest (put_command argument o) true
      else
        match flag_option argument o with
        | Some o' => cli_arguments rest o' (command_set || streq argument (c!"--create-daemon"))
        | None =>
            (* [syseba_option_value], see [cli_arguments_value] of OptionsFacts *)
            let use (value : option cstr) (continue : syseba_options_t -> parse_result) :=
              match value_option argument value o with
              | None => ParseError o ((c!"Unknown option: ") ++ argument)
              | Some (inl message) => ParseError o message
              | Some (inr o') => continue o'
              end in
            match strchr "="%char argument, rest with
            | Some (_, value), _ => use (Some value) (fun o' => cli_arguments rest o' command_set)
            | None, value :: rest' => use (Some value) (fun o' => cli_arguments rest' o' command_set)
            | None, [] => use None (fun o' => cli_arguments rest o' command_set)
            end
        end
  end.

(** [argv] with the name of the program. *)
Definition syseba_cli_parse (argv : list cstr) (o : syseba_options_t) : parse_result :=
  cli_arguments (drop 1 argv) o false.
