(* ===== verification/OptionsFacts.v ===== *)
(** * Facts on the options

    What the parser accepts, and how it reads the command of the service. *)

From Stdlib Require Import QArith_base.
From S2P Require Import Prelude CString Paths Os Platform Fs Config Restore AppState Service ServiceFacts Status Token Json Strtod Options.

(** ** The options that the parser gives *)

(** Every text fits its buffer, every number is in its range. *)
Record options_ok (o : syseba_options_t) : Prop := OptionsOk {
  oo_command : syseba_cli_command_valid (op_command o) = true;
  oo_config : fits SYSEBA_PATH_MAX (op_config_path o) = true;
  oo_lock : fits SYSEBA_PATH_MAX (op_lock_path o) = true;
  oo_db : fits SYSEBA_PATH_MAX (op_db_path o) = true;
  oo_token : fits SYSEBA_PATH_MAX (op_token_path o) = true;
  oo_host : fits WEB_HOST_MAX (op_web_host o) = true;
  oo_port : 1 <= op_web_port o <= 65535;
  oo_refresh : double_le (op_console_refresh o) (DFin 0) = false /\
    double_lt (DFin 3600) (op_console_refresh o) = false;
  oo_lines : 1 <= op_lines o <= 2000;
  oo_path : fits SYSEBA_PATH_MAX (op_path o) = true;
  oo_search : fits SEARCH_MAX (op_search o) = true;
  oo_page : 1 <= op_page o <= U32_MAX;
  oo_page_size : 1 <= op_page_size o <= SYSEBA_MAX_RESTORE_PAGE;
  oo_sort : is_sort (op_sort o) = true;
  oo_direction : is_direction (op_direction o) = true;
  oo_explicit : fits SYSEBA_TOKEN_MAX (op_explicit_token o) = true;
}.

Lemma defaults_ok : options_ok syseba_options_defaults.
Proof. constructor; by vm_compute. Qed.

Lemma option_copy_inr size value name v : syseba_option_copy size value name = inr v -> fits size v = true.
Proof. unfold syseba_option_copy. destruct value as [x|]; [|done]. case_if; [|done]. by intros [= <-]. Qed.

Lemma parse_unsigned_range v lo hi n : syseba_parse_unsigned v lo hi = Some n -> lo <= n <= hi.
Proof.
  unfold syseba_parse_unsigned. destruct (pu_end _) as [[|]|]; try done. case_if; [done|]. intros [= <-].
  bool_hyps. lia.
Qed.

Lemma number_option_inr value lo hi message n : number_option value lo hi message = inr n -> lo <= n <= hi.
Proof.
  unfold number_option, or_message. destruct value as [v|]; [|done].
  destruct (syseba_parse_unsigned v lo hi) eqn:E; [|done]. intros [= <-]. by eapply parse_unsigned_range.
Qed.

Lemma accepted_inr value test message v :
  or_message message (accepted value test) = inr v -> test v = true.
Proof. unfold accepted, or_message. destruct value as [x|]; [|done]. destruct (test x) eqn:E; [|done]. by intros [= <-]. Qed.

Lemma refresh_option_inr value d :
  refresh_option value = inr d -> double_le d (DFin 0) = false /\ double_lt (DFin 3600) d = false.
Proof.
  unfold refresh_option, or_message. destruct value as [v|]; [|done].
  destruct (strtod v) as [[x [|]]|]; try done. case_if; [done|]. intros [= <-]. by bool_hyps.
Qed.

Lemma fmap_sum_inr {A B} (f : A -> B) x b : fmap_sum f x = inr b -> exists a, x = inr a /\ b = f a.
Proof. destruct x as [e|a]; [done|]. intros [= <-]. by exists a. Qed.

Lemma flag_option_ok argument o o' : flag_option argument o = Some o' -> options_ok o -> options_ok o'.
Proof.
  intros H Ho. unfold flag_option in H. destruct o, Ho.
  repeat match type of H with (if ?b then _ else _) = _ => destruct b; [injection H as <-; by constructor|] end.
  done.
Qed.

Ltac option_cases H :=
  repeat match type of H with
  | (if ?b then _ else _) = _ => destruct b
  | text_option _ _ _ _ _ = _ => unfold text_option in H
  | Some _ = Some _ => injection H as H
  | None = Some _ => done
  | fmap_sum _ _ = inr _ => apply fmap_sum_inr in H as (? & H & ->)
  end;
  first [ apply option_copy_inr in H | apply number_option_inr in H | apply refresh_option_inr in H
        | pose proof (accepted_inr _ _ _ _ H) ]; by constructor.

Lemma service_option_ok argument value o o' :
  service_option argument value o = Some (inr o') -> options_ok o -> options_ok o'.
Proof. intros H Ho. unfold service_option in H. cbv zeta in H. destruct o, Ho. option_cases H. Qed.

Lemma query_option_ok argument value o o' :
  query_option argument value o = Some (inr o') -> options_ok o -> options_ok o'.
Proof. intros H Ho. unfold query_option in H. cbv zeta in H. destruct o, Ho. option_cases H. Qed.

Lemma value_option_ok argument value o o' :
  value_option argument value o = Some (inr o') -> options_ok o -> options_ok o'.
Proof.
  unfold value_option. destruct (service_option _ _ _) eqn:E; [intros [= ->]; by eapply service_option_ok|].
  apply query_option_ok.
Qed.

(** The equation of the loop for an option with a value. *)
Lemma cli_arguments_value argument rest o command_set :
  streq argument (c!"--help") || streq argument (c!"-h") = false ->
  streq argument (c!"--version") || streq argument (c!"-V") = false ->
  is_command argument = false -> flag_option argument o = None ->
  cli_arguments (argument :: rest) o command_set =
    let '(value, rest') := syseba_option_value argument rest in
    match value_option argument value o with
    | None => ParseError o ((c!"Unknown option: ") ++ argument)
    | Some (inl message) => ParseError o message
    | Some (inr o') => cli_arguments rest' o' command_set
    end.
Proof.
  intros H1 H2 H3 H4. cbn [cli_arguments]. rewrite H1, H2, H3, H4. unfold syseba_option_value.
  by destruct (strchr _ _) as [[]|], rest.
Qed.

Lemma cli_arguments_flag argument rest o o' command_set :
  streq argument (c!"--help") || streq argument (c!"-h") = false ->
  streq argument (c!"--version") || streq argument (c!"-V") = false ->
  is_command argument = false -> flag_option argument o = Some o' ->
  cli_arguments (argument :: rest) o command_set
    = cli_arguments rest o' (command_set || streq argument (c!"--create-daemon")).
Proof. intros H1 H2 H3 H4. cbn [cli_arguments]. by rewrite H1, H2, H3, H4. Qed.

Lemma cli_arguments_ok arguments : forall o command_set o',
  cli_arguments arguments o command_set = ParseDone o' -> options_ok o ->
  options_ok o' /\ (op_overwrite o' && op_rename o') = false.
Proof.
  induction arguments as [arguments IH] using (induction_ltof1 _ (@length cstr)). unfold ltof in IH.
  intros o command_set o' H Ho. destruct arguments as [|argument rest].
  { cbn [cli_arguments] in H. destruct (op_overwrite o && op_rename o) eqn:E; [done|]. by injection H as <-. }
  destruct (streq argument (c!"--help") || streq argument (c!"-h")) eqn:E1.
  { cbn [cli_arguments] in H. by rewrite E1 in H. }
  destruct (streq argument (c!"--version") || streq argument (c!"-V")) eqn:E2.
  { cbn [cli_arguments] in H. by rewrite E1, E2 in H. }
  destruct (is_command argument) eqn:E3.
  { cbn [cli_arguments] in H. rewrite E1, E2, E3 in H. destruct (command_set || _) eqn:E4; [done|]. bool_hyps.
    eapply IH in H; [done|cbn; lia|]. destruct o, Ho. by constructor. }
  destruct (flag_option argument o) as [o1|] eqn:E4.
  - erewrite cli_arguments_flag in H by done. eapply IH in H; [done|cbn; lia|]. by eapply flag_option_ok.
  - rewrite cli_arguments_value in H by done. destruct (syseba_option_value argument rest) as [value rest'] eqn:Er.
    destruct (value_option argument value o) as [[|o1]|] eqn:E5; try done.
    eapply IH in H; [done| |by eapply value_option_ok].
    unfold syseba_option_value in Er. destruct (strchr _ _) as [[]|], rest; injection Er as <- <-; cbn; lia.
Qed.

(** ** The command of the service *)

(** An option and its value as two arguments. *)
Lemma cli_value_step argument v rest o o' command_set :
  streq argument (c!"--help") || streq argument (c!"-h")
    || (streq argument (c!"--version") || streq argument (c!"-V")) || is_command argument = false ->
  strchr "="%char argument = None -> flag_option argument o = None ->
  value_option argument (Some v) o = Some (inr o') ->
  cli_arguments (argument :: v :: rest) o command_set = cli_arguments rest o' command_set.
Proof.
  intros H Heq Hf Hv. bool_hyps. rewrite cli_arguments_value by (try done; by apply orb_false_iff).
  unfold syseba_option_value. by rewrite Heq, Hv.
Qed.

(** What the unit tells the program: the command [run] without dashboard, the Web UI on every
    address, and the port, paths and language of the installation.  The line of the unit
    carries nothing else, so every other option has its default, whatever the installation
    was given: in particular [--web-host], which the unit fixes at 0.0.0.0. *)
Definition service_options (options : syseba_options_t) (loaded : syseba_config_t) : syseba_options_t :=
  put_language (op_language options)
    (put_lock_path (op_lock_path options)
      (put_db_path (op_db_path options)
        (put_token_path (op_token_path options)
          (put_config_path (cfg_config_path loaded)
            (put_web_port (op_web_port options)
              (put_web_host (c!"0.0.0.0")
                (put_web true (put_silent true (put_command (c!"run") syseba_options_defaults))))))))).

Lemma text_value size name put (value : cstr) (o : syseba_options_t) :
  fits size value = true ->
  Some (fmap_sum (fun v => put v o) (syseba_option_copy size (Some value) name)) = Some (inr (put value o))
    :> option (cstr + syseba_options_t).
Proof. intros H. unfold syseba_option_copy. by rewrite H. Qed.

Lemma port_value n (o : syseba_options_t) :
  1 <= n <= 65535 -> value_option (c!"--web-port") (Some (dec n)) o = Some (inr (put_web_port n o)).
Proof.
  intros Hn. change (value_option _ _ _) with (Some (fmap_sum (fun port => put_web_port port o)
    (number_option (Some (dec n)) 1 65535 (c!"--web-port must be between 1 and 65535")))).
  unfold number_option, syseba_parse_unsigned. rewrite strtoul_dec by (unfold U64_MAX; lia).
  cbn [pu_end pu_erange pu_value orb].
  destruct (Z.ltb_spec n 1), (Z.ltb_spec 65535 n); done || lia.
Qed.

Lemma service_argv_parses executable options loaded :
  options_ok options -> fits SYSEBA_PATH_MAX (cfg_config_path loaded) = true ->
  syseba_cli_parse (service_argv executable options loaded) syseba_options_defaults
    = ParseDone (service_options options loaded).
Proof.
  intros Ho Hc. unfold syseba_cli_parse, service_argv, service_arguments. cbn [drop].
  assert (forall rest o b, cli_arguments (c!"run" :: rest) o b
            = if b then ParseError o (c!"Unknown command: run") else cli_arguments rest (put_command (c!"run") o) true)
    as -> by (by intros rest o []).
  assert (forall rest o b, cli_arguments (c!"--silent" :: rest) o b = cli_arguments rest (put_silent true o) (b || false))
    as -> by done.
  assert (forall rest o b, cli_arguments (c!"--web" :: rest) o b = cli_arguments rest (put_web true o) (b || false))
    as -> by done.
  set (o1 := put_web true _).
  erewrite (cli_value_step (c!"--web-host")) by (done || by apply text_value).
  set (o2 := put_web_host _ o1).
  rewrite (cli_value_step (c!"--web-port") _ _ _ (put_web_port (op_web_port options) o2));
    [|done|done|done|by apply port_value, Ho].
  erewrite (cli_value_step (c!"--config")) by (done || by apply text_value).
  erewrite (cli_value_step (c!"--web-token-file")) by (done || apply text_value, Ho).
  erewrite (cli_value_step (c!"--db-path")) by (done || apply text_value, Ho).
  erewrite (cli_value_step (c!"--lockfile")) by (done || apply text_value, Ho).
  erewrite (cli_value_step (c!"--lang") _ _ _ (put_language (op_language options) _));
    [|done|done|done|by destruct (op_language options)].
  done.
Qed.
