(* ===== verification/ServiceWin.v ===== *)
(** * The Windows service (src/src/service_windows.c)

    The command line of the service, its installation by calls of the service control
    manager, and the states that the running service reports.  What the file calls of the
    other components is their Windows build, which is not modelled: the loaded configuration
    and the execution of the command line are arguments.  Lemmas are in ServiceWinSpec. *)

From S2P Require Import Prelude CString Paths Os Platform Fs Config AppState Service Options.

(** ** The command line *)

(** The characters of [strpbrk(path, set)]. *)
Definition command_breaks : cstr := [chr 13; NEWLINE; QUOTE].

Definition COMMAND_SIZE : Z := SYSEBA_PATH_MAX * 4.

Definition windows_command (executable : cstr) (options : syseba_options_t) (loaded : syseba_config_t) : cstr :=
  quoted executable ++ (c!" run --silent --web --web-host 0.0.0.0 ")
  ++ (c!"--web-port ") ++ dec (op_web_port options) ++ (c!" --config ") ++ quoted (cfg_config_path loaded)
  ++ (c!" --web-token-file ") ++ quoted (op_token_path options)
  ++ (c!" --db-path ") ++ quoted (op_db_path options)
  ++ (c!" --lockfile ") ++ quoted (op_lock_path options)
  ++ (c!" --lang ") ++ language_code (op_language options) ++ (c!" --windows-service").

(** [executable] is the path that [GetModuleFileNameA] gives, if it fits the buffer. *)
Definition service_command (executable : option cstr) (options : syseba_options_t) (loaded : syseba_config_t) :
    option cstr :=
  match executable with
  | None => None
  | Some executable =>
      if has_any command_breaks (cfg_config_path loaded) || has_any command_breaks (op_token_path options)
         || has_any command_breaks (op_db_path options) || has_any command_breaks (op_lock_path options)
      then None
      else
        let command := windows_command executable options loaded in
        if fits COMMAND_SIZE command then Some command else None
  end.

(** ** The service control manager *)

Inductive service_detail : Type := FailureActions | ServiceDescription | ServiceSidInfo.

Inductive scm_call : Type :=
  | OpenSCManager
  | CreateService (command : cstr)
  | OpenService
  | ChangeServiceConfig (command : cstr)
  | ChangeServiceConfig2 (detail : service_detail)
  | StartService
  | CloseManager
  | CloseService.

(** What the manager answers, from the calls so far: no error, or the one of [GetLastError]. *)
Class ServiceManager := service_manager : list (scm_call * bool) -> scm_call -> option Z.

Definition ERROR_SERVICE_EXISTS : Z := 1073.
Definition ERROR_SERVICE_ALREADY_RUNNING : Z := 1056.

(** The calls with their successes, and the last error, which a success leaves alone. *)
Record scm_state := ScmState {
  sc_calls : list (scm_call * bool);
  sc_last_error : Z;
}.

Section Install.
Context `{ServiceManager}.

Definition scm (call : scm_call) : ST scm_state bool :=
  fun s =>
    match service_manager (sc_calls s) call with
    | None => (true, ScmState (sc_calls s ++ [(call, true)]) (sc_last_error s))
    | Some code => (false, ScmState (sc_calls s ++ [(call, false)]) code)
    end.
Definition get_last_error : ST scm_state Z := gets sc_last_error.

(** The service is made, or the one that is there gets the new command: whether there is
    a handle of it. *)
Definition make_service (command : cstr) : ST scm_state bool :=
  let* created := scm (CreateService command) in
  let* e := get_last_error in
  if negb created && (e =? ERROR_SERVICE_EXISTS) then
    let* opened := scm OpenService in
    if negb opened then ret false
    else
      let* changed := scm (ChangeServiceConfig command) in
      if changed then ret true else scm CloseService ;;; ret false
  else ret created.

Definition start_made_service : ST scm_state (option failure) :=
  scm (ChangeServiceConfig2 FailureActions) ;;;
  scm (ChangeServiceConfig2 ServiceDescription) ;;;
  scm (ChangeServiceConfig2 ServiceSidInfo) ;;;
  (let* started := scm StartService in
   let* e := get_last_error in
   if negb started && negb (e =? ERROR_SERVICE_ALREADY_RUNNING) then
     scm CloseService ;;;
     scm CloseManager ;;;
     ret (Some (SYSEBA_ERR, (c!"Service installed but could not be started (") ++ dec e ++ (c!")")))
   else
     scm CloseService ;;;
     scm CloseManager ;;;
     ret None).

(** [loaded] is the result of [syseba_config_load]. *)
Definition syseba_windows_service_install (executable : option cstr) (options : syseba_options_t)
    (loaded : failure + syseba_config_t) : ST scm_state (option failure) :=
  match loaded with
  | inl (_, message) => ret (Some (SYSEBA_ERR_INVALID, message))
  | inr loaded =>
      match service_command executable options loaded with
      | None => ret (Some (SYSEBA_ERR, c!"Unable to build service command"))
      | Some command =>
          let* manager := scm OpenSCManager in
          if negb manager then
            let* e := get_last_error in
            ret (Some (SYSEBA_ERR_PERMISSION, (c!"OpenSCManager failed (") ++ dec e ++ (c!")")))
          else
            let* service := make_service command in
            if negb service then
              let* e := get_last_error in
              scm CloseManager ;;;
              ret (Some (SYSEBA_ERR, (c!"Unable to create/update service (") ++ dec e ++ (c!")")))
            else start_made_service
      end
  end.
End Install.

(** ** Restarting *)

Definition syseba_windows_restart_available : bool := false.
Definition syseba_windows_restart_command : cstr := c!"sc stop SySeBa && sc start SySeBa".
Definition syseba_windows_request_restart : syseba_result_t * cstr :=
  (SYSEBA_ERR, (c!"Use an elevated terminal: ") ++ syseba_windows_restart_command).

(** ** The running service *)

Inductive service_state : Type := SERVICE_START_PENDING | SERVICE_RUNNING | SERVICE_STOP_PENDING | SERVICE_STOPPED.
#[export] Instance service_state_eq_dec : EqDecision service_state.
Proof. solve_decision. Defined.

Definition SERVICE_CONTROL_STOP : Z := 1.
Definition SERVICE_CONTROL_SHUTDOWN : Z := 5.
Definition SERVICE_ACCEPT_STOP : Z := 1.
Definition SERVICE_ACCEPT_SHUTDOWN : Z := 4.
Definition NO_ERROR : Z := 0.
Definition ERROR_SERVICE_SPECIFIC_ERROR : Z := 1066.

Record service_status := ServiceStatus {
  dwCurrentState : service_state;
  dwWin32ExitCode : Z;
  dwWaitHint : Z;
  dwControlsAccepted : Z;
  dwCheckPoint : Z;
}.

(** The static variables of the file, and what the manager was told. *)
Record service_process := ServiceProcess {
  sp_registered : bool;
  sp_checkpoint : Z;
  sp_reported : list service_status;
  sp_options : syseba_options_t;
  sp_exit_code : Z;
  sp_stop_requested : bool;
}.

Definition service_process_start (options : syseba_options_t) : service_process :=
  ServiceProcess false 1 [] options 1 false.

Definition syseba_windows_report_service_status (state : service_state) (win32_exit_code wait_hint : Z) :
    ST service_process unit :=
  modify (fun p =>
    let pending := bool_decide (state = SERVICE_START_PENDING) || bool_decide (state = SERVICE_STOP_PENDING) in
    let status := ServiceStatus state win32_exit_code wait_hint
      (if bool_decide (state = SERVICE_RUNNING)
       then Z.lor SERVICE_ACCEPT_STOP SERVICE_ACCEPT_SHUTDOWN else 0)
      (if pending then sp_checkpoint p else 0) in
    ServiceProcess (sp_registered p)
      (if pending then wrap32 (sp_checkpoint p + 1) else sp_checkpoint p)
      (if sp_registered p then sp_reported p ++ [status] else sp_reported p)
      (sp_options p) (sp_exit_code p) (sp_stop_requested p)).

(** [syseba_cli_request_stop] sets the flag that the program polls. *)
Definition syseba_windows_service_control (control : Z) : ST service_process unit :=
  if (control =? SERVICE_CONTROL_STOP) || (control =? SERVICE_CONTROL_SHUTDOWN) then
    syseba_windows_report_service_status SERVICE_STOP_PENDING NO_ERROR 30000 ;;;
    modify (fun p => ServiceProcess (sp_registered p) (sp_checkpoint p) (sp_reported p) (sp_options p)
                       (sp_exit_code p) true)
  else ret tt.

Section Run.
(** [syseba_cli_execute] until it returns, with the controls that the manager sends while
    it runs. *)
Context (syseba_cli_execute : syseba_options_t -> ST service_process Z).

(** The options of the service have no dashboard and are not those of a service any more;
    [registered] is whether [RegisterServiceCtrlHandlerA] gives a handle. *)
Definition syseba_windows_service_main (registered : bool) : ST service_process unit :=
  let* options := gets sp_options in
  modify (fun p => ServiceProcess registered (sp_checkpoint p) (sp_reported p) (sp_options p)
                     (sp_exit_code p) (sp_stop_requested p)) ;;;
  if negb registered then ret tt
  else
    syseba_windows_report_service_status SERVICE_START_PENDING NO_ERROR 30000 ;;;
    (let options := put_silent true options in
     syseba_windows_report_service_status SERVICE_RUNNING NO_ERROR 0 ;;;
     (let* code := syseba_cli_execute options in
      modify (fun p => ServiceProcess (sp_registered p) (sp_checkpoint p) (sp_reported p) (sp_options p)
                         code (sp_stop_requested p)) ;;;
      syseba_windows_report_service_status SERVICE_STOPPED
        (if code =? 0 then NO_ERROR else ERROR_SERVICE_SPECIFIC_ERROR) 0)).

(** The dispatcher runs the service until it has stopped; [refused] is the error of a
    dispatcher that does not start.  The exit status, and the message on [stderr]. *)
Definition syseba_windows_service_dispatch (options : syseba_options_t) (refused : option Z)
    (registered : bool) : ST service_process (Z * cstr) :=
  modify (fun p => ServiceProcess (sp_registered p) (sp_checkpoint p) (sp_reported p) options
                     (sp_exit_code p) (sp_stop_requested p)) ;;;
  match refused with
  | Some code =>
      ret (1, (c!"SySeBa: StartServiceCtrlDispatcher failed (") ++ dec code ++ (c!")") ++ [NEWLINE])
  | None =>
      syseba_windows_service_main registered ;;;
      (let* code := gets sp_exit_code in
       ret (code, []))
  end.
End Run.
