(* ===== verification/ServiceWinSpec.v ===== *)
(** * The promises of the Windows service

    What the C runtime reads from the command line of the installed service; that an
    installation closes what it opens; and the order of the states that a service reports. *)

From S2P Require Import Prelude CString Paths Os Platform Fs Config AppState Service ServiceFacts Options OptionsFacts Examples Demo ServiceWin.

(** ** How a command line is read

    The C runtime of Windows splits a command line: the program's name goes to the closing
    quote; in the other words 2n backslashes before a quote stand for n and 2n+1 for n and
    the quote, other backslashes for themselves, and two quotes inside quotes for one. *)

Fixpoint crt_words (s : cstr) (in_quotes : bool) (slashes : nat) (word : option cstr) : list cstr :=
  match s with
  | [] => match word with Some w => [w ++ replicate slashes BACKSLASH] | None => [] end
  | c :: rest =>
      if ceq c BACKSLASH then crt_words rest in_quotes (S slashes) (Some (default [] word))
      else if ceq c QUOTE then
        let w := default [] word ++ replicate (Nat.div2 slashes) BACKSLASH in
        if Nat.odd slashes then crt_words rest in_quotes 0 (Some (w ++ [QUOTE]))
        else
          match in_quotes, rest with
          | true, d :: rest' =>
              if ceq d QUOTE then crt_words rest' true 0 (Some (w ++ [QUOTE]))
              else crt_words rest false 0 (Some w)
          | _, _ => crt_words rest (negb in_quotes) 0 (Some w)
          end
      else if negb in_quotes && (ceq c BLANK || ceq c (chr 9)) then
        match word with
        | Some w => (w ++ replicate slashes BACKSLASH) :: crt_words rest false 0 None
        | None => crt_words rest false 0 None
        end
      else crt_words rest in_quotes 0 (Some (default [] word ++ replicate slashes BACKSLASH ++ [c]))
  end.

(** The name of the program, and the rest of the line. *)
Fixpoint crt_program (s : cstr) (in_quotes : bool) : cstr * cstr :=
  match s with
  | [] => ([], [])
  | c :: rest =>
      if ceq c QUOTE then crt_program rest (negb in_quotes)
      else if negb in_quotes && (ceq c BLANK || ceq c (chr 9)) then ([], rest)
      else let '(name, rest') := crt_program rest in_quotes in (c :: name, rest')
  end.

Definition crt_argv (s : cstr) : list cstr :=
  let '(name, rest) := crt_program s false in name :: crt_words rest false 0 None.

(** ** Words are read back *)

Lemma program_quoted name rest :
  QUOTE ∉ name -> crt_program (quoted name ++ BLANK :: rest) false = (name, rest).
Proof.
  intros Hq. unfold quoted. cbn [app crt_program]. rewrite ceq_refl. cbn [negb].
  rewrite <- app_assoc. cbn [app]. induction name as [|c name IH].
  - cbn [app crt_program]. by rewrite ceq_refl.
  - apply not_elem_of_cons in Hq as [Hc Hq]. cbn [app crt_program].
    assert (ceq c QUOTE = false) as -> by (by apply ceq_false). cbn [negb andb]. by rewrite IH.
Qed.

(** A path that the line can quote: no quote in it, and no backslash at its end. *)
Definition quotable (s : cstr) : Prop := QUOTE ∉ s /\ last s <> Some BACKSLASH.

Lemma quotable_loop s : forall slashes w rest,
  QUOTE ∉ s -> (s = [] -> slashes = 0%nat) -> last s <> Some BACKSLASH ->
  crt_words (s ++ QUOTE :: BLANK :: rest) true slashes (Some w)
    = (w ++ replicate slashes BACKSLASH ++ s) :: crt_words rest false 0 None.
Proof.
  induction s as [|c s IH]; intros slashes w rest Hq He Hl.
  - rewrite He by done. cbn. by rewrite !app_nil_r.
  - apply not_elem_of_cons in Hq as [Hc Hq].
    assert (last s <> Some BACKSLASH) as Hl' by (destruct s; [done|exact Hl]).
    cbn [app crt_words]. destruct (ceq c BACKSLASH) eqn:Eb.
    + apply Ascii.eqb_eq in Eb as ->. cbn [default]. rewrite IH; [|done| |done].
      * cbn [replicate]. by rewrite replicate_cons_app, <- app_assoc.
      * intros ->. by destruct Hl.
    + assert (ceq c QUOTE = false) as -> by (by apply ceq_false). cbn [negb andb default].
      rewrite IH by done. cbn [replicate app]. by rewrite <- !app_assoc.
Qed.

Lemma words_quoted s rest :
  quotable s -> crt_words (quoted s ++ BLANK :: rest) false 0 None = s :: crt_words rest false 0 None.
Proof.
  intros [Hq Hl]. unfold quoted. cbn [app crt_words]. rewrite <- app_assoc. cbn.
  by rewrite quotable_loop.
Qed.

(** Words without a sign that has a meaning. *)
Definition bare (w : cstr) : Prop :=
  w <> [] /\ forallb (fun c => negb (ceq c QUOTE || ceq c BACKSLASH || ceq c BLANK || ceq c (chr 9))) w = true.

Lemma bare_loop w : forall word rest,
  forallb (fun c => negb (ceq c QUOTE || ceq c BACKSLASH || ceq c BLANK || ceq c (chr 9))) w = true ->
  crt_words (w ++ rest) false 0 (Some word) = crt_words rest false 0 (Some (word ++ w)).
Proof.
  induction w as [|c w IH]; intros word rest Hb; [by rewrite app_nil_r|].
  cbn [forallb] in Hb. bool_hyps. cbn [app crt_words].
  repeat match goal with E : ceq c _ = false |- _ => rewrite E; clear E end.
  cbn [negb andb orb default replicate app]. by rewrite IH, <- app_assoc.
Qed.

Lemma bare_start w rest : bare w -> crt_words (w ++ rest) false 0 None = crt_words rest false 0 (Some w).
Proof.
  intros [Hne Hb]. destruct w as [|c w]; [done|]. cbn [forallb] in Hb. bool_hyps. cbn [app crt_words].
  repeat match goal with E : ceq c _ = false |- _ => rewrite E; clear E end.
  cbn [negb andb orb default replicate app]. by apply bare_loop.
Qed.

Lemma words_bare w rest : bare w -> crt_words (w ++ BLANK :: rest) false 0 None = w :: crt_words rest false 0 None.
Proof. intros Hw. rewrite bare_start by done. cbn. by rewrite app_nil_r. Qed.

Lemma words_last w : bare w -> crt_words w false 0 None = [w].
Proof. intros Hw. rewrite <- (app_nil_r w) at 1. rewrite bare_start by done. cbn. by rewrite app_nil_r. Qed.

Lemma dec_bare n : 0 <= n -> bare (dec n).
Proof.
  intros Hn. split; [apply dec_nonempty|]. apply forallb_forall. intros c Hin. apply list_elem_of_In in Hin.
  pose proof (dec_digits n Hn) as Hd. rewrite Forall_forall in Hd. specialize (Hd c Hin).
  unfold isdigit in Hd. bool_hyps.
  apply negb_true_iff. rewrite !orb_false_iff. split_and!; apply ceq_false; intros ->; by vm_compute in *.
Qed.

(** ** The command of the service *)

(** The words that the service is started with. *)
Definition windows_argv (executable : cstr) (options : syseba_options_t) (loaded : syseba_config_t) : list cstr :=
  service_argv executable options loaded ++ [c!"--windows-service"].

(** The command, word by word. *)
Fixpoint blank_after (words : list cstr) (rest : cstr) : cstr :=
  match words with [] => rest | w :: words' => w ++ BLANK :: blank_after words' rest end.

Lemma windows_command_words executable options loaded :
  windows_command executable options loaded =
  quoted executable ++ BLANK :: blank_after
    [c!"run"; c!"--silent"; c!"--web"; c!"--web-host"; c!"0.0.0.0"; c!"--web-port"; dec (op_web_port options);
     c!"--config"; quoted (cfg_config_path loaded); c!"--web-token-file"; quoted (op_token_path options);
     c!"--db-path"; quoted (op_db_path options); c!"--lockfile"; quoted (op_lock_path options);
     c!"--lang"; language_code (op_language options)] (c!"--windows-service").
Proof. reflexivity. Qed.

(** A text that the runtime reads as the word [w]. *)
Definition word_reads (t w : cstr) : Prop :=
  forall rest, crt_words (t ++ BLANK :: rest) false 0 None = w :: crt_words rest false 0 None.

Lemma words_read ts ws rest :
  Forall2 word_reads ts ws -> crt_words (blank_after ts rest) false 0 None = ws ++ crt_words rest false 0 None.
Proof. induction 1 as [|t w ts ws Ht _ IH]; [done|]. cbn [blank_after app]. by rewrite Ht, IH. Qed.

Lemma bare_reads w : bare w -> word_reads w w.
Proof. intros Hw rest. by apply words_bare. Qed.

Lemma windows_quoted_reads s : quotable s -> word_reads (quoted s) s.
Proof. intros Hs rest. by apply words_quoted. Qed.

Lemma no_break_quote s : has_any command_breaks s = false -> QUOTE ∉ s.
Proof.
  intros H Hin. assert (has_any command_breaks s = true) as E; [|congruence].
  unfold has_any. apply existsb_exists. exists QUOTE. split; [by apply list_elem_of_In|by vm_compute].
Qed.

(** The Windows service starts with what it was installed with: when the paths have no
    backslash at their end, the C runtime reads the registered command line as the
    executable, the options and the paths of the installation and the word that makes the
    process a service; the program parses the words before it to the options of the
    installation. *)
Theorem windows_command_reads_back executable options loaded command :
  options_ok options -> fits SYSEBA_PATH_MAX (cfg_config_path loaded) = true -> QUOTE ∉ executable ->
  Forall (fun p => last p <> Some BACKSLASH)
    [cfg_config_path loaded; op_token_path options; op_db_path options; op_lock_path options] ->
  service_command (Some executable) options loaded = Some command ->
  crt_argv command = windows_argv executable options loaded /\
  syseba_cli_parse (service_argv executable options loaded) syseba_options_defaults
    = ParseDone (service_options options loaded).
Proof.
  intros Ho Hc Hq Hl H. split; [|by apply service_argv_parses].
  repeat (apply Forall_cons in Hl as [? Hl]). cbn [service_command] in H. cbv zeta in H.
  destruct (_ || _) eqn:E; [done|]. bool_hyps.
  repeat match goal with E : has_any command_breaks _ = false |- _ => apply no_break_quote in E end.
  destruct (fits COMMAND_SIZE _); [|done]. injection H as <-.
  rewrite windows_command_words. unfold crt_argv. rewrite program_quoted by done.
  rewrite words_read with (ws := drop 1 (service_argv executable options loaded)).
  - unfold windows_argv. cbn [drop service_argv app]. do 17 f_equal.
  - pose proof (oo_port _ Ho) as Hp. unfold service_argv. cbn [drop].
    assert (bare (language_code (op_language options))) by (by destruct (op_language options)).
    repeat (constructor; [first [ by apply windows_quoted_reads | apply bare_reads; first [done | apply dec_bare; lia] ]|]).
    constructor.
Qed.

(** ** A path that ends in a backslash *)

(** Such a path is accepted, but its last backslash makes the quote after it a character:
    what follows is read as a part of the path. *)
Definition slash_options : syseba_options_t := put_db_path ((c!"C:\db") ++ [BACKSLASH]) demo_options.

Theorem backslash_breaks_command :
  match service_command (Some (c!"C:\syseba.exe")) slash_options demo_config with
  | Some command => crt_argv command <> windows_argv (c!"C:\syseba.exe") slash_options demo_config /\
      length (crt_argv command) <> length (windows_argv (c!"C:\syseba.exe") slash_options demo_config)
  | None => False
  end.
Proof. vm_compute. split; intros E; discriminate E. Qed.

(** ** The handles of an installation *)

(** The handles of the manager and of the service that are open after a call; nothing when
    a call uses a handle that is not open, or opens one twice. *)
Definition handle_step (h : bool * bool) (c : scm_call * bool) : option (bool * bool) :=
  match c, h with
  | (OpenSCManager, ok), (false, false) => Some (ok, false)
  | (CreateService _, ok), (true, false) => Some (true, ok)
  | (OpenService, ok), (true, false) => Some (true, ok)
  | (ChangeServiceConfig _, _), (true, true) => Some h
  | (ChangeServiceConfig2 _, _), (true, true) => Some h
  | (StartService, _), (true, true) => Some h
  | (CloseService, _), (true, true) => Some (true, false)
  | (CloseManager, _), (true, false) => Some (false, false)
  | _, _ => None
  end.
Definition handles (calls : list (scm_call * bool)) : option (bool * bool) :=
  fold_left (fun h c => match h with Some h => handle_step h c | None => None end) calls (Some (false, false)).

Lemma handles_snoc calls c : handles (calls ++ [c]) = match handles calls with Some h => handle_step h c | None => None end.
Proof. unfold handles. by rewrite fold_left_app. Qed.

(** The command that the service has in the end, if it was given one. *)
Definition registered (calls : list (scm_call * bool)) : option cstr :=
  fold_left (fun r c => match c with
                        | (CreateService command, true) | (ChangeServiceConfig command, true) => Some command
                        | _ => r end) calls None.

Lemma registered_snoc calls c : registered (calls ++ [c]) =
  match c with
  | (CreateService command, true) | (ChangeServiceConfig command, true) => Some command
  | _ => registered calls
  end.
Proof. unfold registered. by rewrite fold_left_app. Qed.

Section Install.
Context `{ServiceManager}.

(** One call, for each of its answers. *)
Lemma scm_call_spec call s :
  exists ok e, scm call s = (ok, ScmState (sc_calls s ++ [(call, ok)]) e).
Proof. unfold scm. destruct (service_manager _ _); by do 2 eexists. Qed.

Ltac scm_step :=
  match goal with
  | |- context [bind (scm ?call) _ ?s] =>
      let ok := fresh "ok" in let e := fresh "e" in let E := fresh "E" in
      destruct (scm_call_spec call s) as (ok & e & E); rewrite (bind_run _ _ _ _ _ E); clear E;
      cbn [sc_calls sc_last_error]
  | |- context [bind get_last_error _ ?s] =>
      change (bind get_last_error ?k s) with (k (sc_last_error s) s); cbv beta; cbn [sc_last_error]
  end.

(** The state in the end, with the calls in order. *)
Ltac scm_done :=
  do 2 eexists; split; [reflexivity|]; cbn [sc_calls];
  rewrite ?handles_snoc, ?registered_snoc;
  repeat match goal with E : handles _ = _ |- _ => rewrite E end; cbn [handle_step].

Lemma start_made_service_run s :
  handles (sc_calls s) = Some (true, true) ->
  exists r s', start_made_service s = (r, s') /\ handles (sc_calls s') = Some (false, false) /\
    registered (sc_calls s') = registered (sc_calls s).
Proof.
  intros Hh. unfold start_made_service. do 4 scm_step. scm_step. destruct (_ && _); do 2 scm_step; by scm_done.
Qed.

(** A handle of the service is that of one with the command. *)
Lemma make_service_run command s :
  handles (sc_calls s) = Some (true, false) -> registered (sc_calls s) = None ->
  exists made s', make_service command s = (made, s') /\
    handles (sc_calls s') = Some (true, made) /\
    registered (sc_calls s') = if made then Some command else None.
Proof.
  intros Hh Hr. unfold make_service. do 2 scm_step. destruct ok; cbn [negb andb]; [by scm_done|].
  destruct (_ =? _); [|by scm_done]. scm_step. destruct ok; cbn [negb]; [|by scm_done].
  scm_step. destruct ok; [by scm_done|]. scm_step. by scm_done.
Qed.

(** Whatever the manager answers, an installation opens no handle twice, uses only open
    handles and closes every one; a success leaves the service with exactly the command of
    the executable, the options and the configuration, a new service or one that was there. *)
Theorem windows_install_closes executable options loaded :
  exists r s', syseba_windows_service_install executable options loaded (ScmState [] 0) = (r, s') /\
    handles (sc_calls s') = Some (false, false) /\
    (r = None -> exists config command, loaded = inr config /\
       service_command executable options config = Some command /\
       registered (sc_calls s') = Some command).
Proof.
  unfold syseba_windows_service_install. destruct loaded as [[code message]|config]; [by do 2 eexists|].
  destruct (service_command _ _ _) as [command|] eqn:Ec; [|by do 2 eexists].
  scm_step. destruct ok; cbn [negb]; [|scm_step; by scm_done].
  set (s1 := ScmState _ _).
  destruct (make_service_run command s1) as (made & s2 & E & Hh & Hr); [done..|].
  rewrite (bind_run _ _ _ _ _ E). destruct made; cbn [negb].
  - destruct (start_made_service_run s2 Hh) as (r & s3 & E3 & Hh3 & Hr3). exists r, s3. split_and!; [done..|].
    intros _. exists config, command. split_and!; [done..|congruence].
  - do 2 scm_step. by scm_done.
Qed.
End Install.

(** ** The life of a service *)

Definition stops (control : Z) : bool := (control =? SERVICE_CONTROL_STOP) || (control =? SERVICE_CONTROL_SHUTDOWN).

Fixpoint send_controls (controls : list Z) : ST service_process unit :=
  match controls with
  | [] => ret tt
  | control :: rest => syseba_windows_service_control control ;;; send_controls rest
  end.

(** A command line that gets controls while it runs and ends with a code.  In the code the
    handler runs on the thread of the dispatcher and shares the status and its checkpoint with
    the service's own thread without a lock; here every control is handled while the command
    line runs, one after the other, so that a report of the handler never falls into the last
    report of the service. *)
Definition controlled (controls : list Z) (code : syseba_options_t -> Z) (options : syseba_options_t) :
    ST service_process Z :=
  send_controls controls ;;; ret (code options).

Definition stop_pending (checkpoint : nat) : service_status :=
  ServiceStatus SERVICE_STOP_PENDING NO_ERROR 30000 0 (wrap32 (Z.of_nat checkpoint)).

Lemma send_controls_run controls n : forall reported options code requested,
  exec (send_controls controls) (ServiceProcess true (wrap32 (Z.of_nat n)) reported options code requested)
    = ServiceProcess true (wrap32 (Z.of_nat (n + length (List.filter stops controls))))
        (reported ++ map stop_pending (seq n (length (List.filter stops controls))))
        options code (requested || existsb stops controls).
Proof.
  revert n. induction controls as [|control rest IH]; intros n reported options code requested.
  - cbn. by rewrite Nat.add_0_r, app_nil_r, orb_false_r.
  - cbn [send_controls List.filter existsb]. rewrite exec_bind. unfold syseba_windows_service_control.
    fold (stops control). destruct (stops control); cbn [orb].
    + set (p := ServiceProcess _ _ _ _ _ _).
      assert (exec (syseba_windows_report_service_status SERVICE_STOP_PENDING NO_ERROR 30000 ;;;
        modify (fun p => ServiceProcess (sp_registered p) (sp_checkpoint p) (sp_reported p) (sp_options p)
                           (sp_exit_code p) true)) p
        = ServiceProcess true (wrap32 (Z.of_nat (S n))) (reported ++ [stop_pending n]) options code true) as ->.
      { unfold p, exec, bind, modify, syseba_windows_report_service_status. cbn. f_equal.
        unfold wrap32. rewrite Zplus_mod_idemp_l. f_equal. lia. }
      rewrite IH. cbn [length seq map]. rewrite <- app_assoc. cbn [app orb]. f_equal; [do 2 f_equal; lia|].
      by rewrite orb_true_r.
    + change (exec (ret tt) ?s) with s. by rewrite IH.
Qed.

(** C40: the life of a service that the dispatcher runs: whatever controls it gets while the
    command line runs, one after the other, it reports
    that it starts, that it runs, once for every stop or shutdown that it stops, with
    checkpoints that count up, and in the end that it has stopped; it accepts controls only
    while it runs; a stop is passed on to the program; and the exit status is the one of
    the command line, which runs without a dashboard. *)
Theorem service_life options controls code :
  let result := controlled controls code in
  let final := exec (syseba_windows_service_dispatch result options None true) (service_process_start options) in
  let exit := code (put_silent true options) in
  value (syseba_windows_service_dispatch result options None true) (service_process_start options) = (exit, []) /\
  sp_stop_requested final = existsb stops controls /\
  sp_reported final =
    [ServiceStatus SERVICE_START_PENDING NO_ERROR 30000 0 1;
     ServiceStatus SERVICE_RUNNING NO_ERROR 0 (Z.lor SERVICE_ACCEPT_STOP SERVICE_ACCEPT_SHUTDOWN) 0]
    ++ map stop_pending (seq 2 (length (List.filter stops controls)))
    ++ [ServiceStatus SERVICE_STOPPED (if exit =? 0 then NO_ERROR else ERROR_SERVICE_SPECIFIC_ERROR) 0 0 0].
Proof.
  cbv zeta. pose proof (send_controls_run controls 2
    [ServiceStatus SERVICE_START_PENDING NO_ERROR 30000 0 1;
     ServiceStatus SERVICE_RUNNING NO_ERROR 0 (Z.lor SERVICE_ACCEPT_STOP SERVICE_ACCEPT_SHUTDOWN) 0] options 1 false) as E.
  change (wrap32 (Z.of_nat 2)) with 2 in E. unfold exec in E.
  unfold value, exec, syseba_windows_service_dispatch, syseba_windows_service_main, controlled,
    service_process_start, syseba_windows_report_service_status, bind, modify, gets, ret. cbn.
  change (wrap32 (1 + 1)) with 2. cbn in E.
  destruct (send_controls controls _) as [[] final] eqn:Ef. cbn in E |- *. subst final. cbn.
  done.
Qed.
