(* ===== verification/Database.v ===== *)
(** * The database of the log (src/src/database.c, and the writer of src/src/log.c)

    The schema and its migration, the writer and the thread that feeds it.  Lemmas are
    in DatabaseFacts. *)

From S2P Require Import Prelude CString Paths Os Platform Fs Config Queue AppState Log.

(** SQLite.  [C] is a connection with its database.  An error of [sqlite3_exec] may
    come without a message; [table_info] are the names that [PRAGMA table_info(logs)]
    gives, a row after another. *)
Inductive step_result : Type := SQLITE_DONE | SQLITE_SCHEMA | SQLITE_OTHER.

Class Sqlite (C : Type) := {
  sqlite3_open_v2 : cstr -> os -> (option cstr + C) * os;
  sqlite3_exec : cstr -> C -> option (option cstr) * C;
  sqlite3_errmsg : C -> cstr;
  sqlite3_prepare_v2 : cstr -> C -> bool;
  table_info : C -> list (option cstr);
  sqlite3_bind_texts : list cstr -> C -> bool;
  sqlite3_step_insert : list cstr -> C -> step_result * C;
}.

Section Database.
Context {C : Type} `{Sqlite C} `{Strerror}.

(** The error, if any. *)
Definition syseba_database_exec (sql : cstr) : ST C (option cstr) :=
  fun c =>
    let '(failed, c) := sqlite3_exec sql c in
    (match failed with
     | None => None
     | Some None => Some (sqlite3_errmsg c)
     | Some (Some message) => Some message
     end, c).

Definition table_info_sql : cstr := c!"PRAGMA table_info(logs)".

Definition syseba_database_has_column (name : cstr) : ST C bool :=
  gets (fun c =>
    sqlite3_prepare_v2 table_info_sql c
    && existsb (fun column => match column with Some text => streq text name | None => false end)
         (table_info c)).

(** ** The schema *)

Definition add_column (definition : cstr) : cstr := (c!"ALTER TABLE logs ADD COLUMN ") ++ definition.

Definition columns : list (cstr * cstr) :=
  [ (c!"timestamp", add_column (c!"timestamp TEXT"));
    (c!"level", add_column (c!"level TEXT DEFAULT 'INFO'"));
    (c!"operation", add_column (c!"operation TEXT"));
    (c!"source_path", add_column (c!"source_path TEXT"));
    (c!"target_path", add_column (c!"target_path TEXT"));
    (c!"additional_info", add_column (c!"additional_info TEXT")) ].

Definition create_sql : cstr :=
  (c!"CREATE TABLE IF NOT EXISTS logs (id INTEGER PRIMARY KEY AUTOINCREMENT,timestamp TEXT,")
  ++ (c!"level TEXT DEFAULT 'INFO',operation TEXT,source_path TEXT,target_path TEXT,additional_info TEXT)").
Definition index_sql : cstr := c!"CREATE INDEX IF NOT EXISTS idx_logs_timestamp ON logs(timestamp)".
Definition begin_sql : cstr := c!"BEGIN IMMEDIATE".
Definition commit_sql : cstr := c!"COMMIT".
Definition rollback_sql : cstr := c!"ROLLBACK".

(** [(void)sqlite3_exec(database, "ROLLBACK", ...); return -1;] *)
Definition rolled_back (message : cstr) : ST C (option cstr) :=
  modify (fun c => snd (sqlite3_exec rollback_sql c)) ;;; ret (Some message).

Fixpoint add_columns (missing : list (cstr * cstr)) : ST C (option cstr) :=
  match missing with
  | [] => ret None
  | (name, sql) :: rest =>
      let* present := syseba_database_has_column name in
      let* failed := (if present then ret None else syseba_database_exec sql) in
      match failed with
      | Some message => ret (Some message)
      | None => add_columns rest
      end
  end.

Definition syseba_database_migrate : ST C (option cstr) :=
  let* failed := syseba_database_exec begin_sql in
  match failed with
  | Some message => ret (Some message)
  | None =>
      let* failed := syseba_database_exec create_sql in
      match failed with Some message => rolled_back message | None =>
      let* failed := add_columns columns in
      match failed with Some message => rolled_back message | None =>
      let* failed := syseba_database_exec index_sql in
      match failed with Some message => rolled_back message | None =>
      let* failed := syseba_database_exec commit_sql in
      match failed with Some message => rolled_back message | None => ret None
      end end end end
  end.

(** ** Opening *)

Definition pragmas : list cstr :=
  [c!"PRAGMA journal_mode=WAL"; c!"PRAGMA synchronous=NORMAL"; c!"PRAGMA foreign_keys=ON"].

(** Each of the statements, until one fails. *)
Fixpoint exec_all (statements : list cstr) : ST C (option cstr) :=
  match statements with
  | [] => ret None
  | sql :: rest =>
      let* failed := syseba_database_exec sql in
      match failed with Some message => ret (Some message) | None => exec_all rest end
  end.

Definition prepare_connection : ST C (option cstr) :=
  let* failed := exec_all pragmas in
  match failed with Some message => ret (Some message) | None => syseba_database_migrate end.

(** The connection, or the error. *)
Definition syseba_database_open (path : cstr) : ST os (cstr + C) :=
  let* made :=
    (match syseba_parent_dir path SYSEBA_PATH_MAX with
     | None => ret false
     | Some parent => syseba_mkdirs parent 488
     end) in
  if negb made then
    let* e := get_errno in
    ret (inl ((c!"Unable to create database directory: ") ++ strerror e))
  else
    let* present := syseba_fs_exists path in
    let* refused :=
      (if present then let* regular := syseba_fs_is_regular path in ret (negb regular) else ret false) in
    if refused then
      set_errno EINVAL ;;;
      ret (inl ((c!"Database path is not a regular file: ") ++ path))
    else
      let* opened := sqlite3_open_v2 path in
      match opened with
      | inl None => ret (inl (c!"Unable to open SQLite database"))
      | inl (Some message) => ret (inl message)
      | inr c =>
          match prepare_connection c with
          | (Some message, _) => ret (inl message)
          | (None, c) => ret (inr c)
          end
      end.

Definition syseba_database_initialize (path : cstr) : ST os (option cstr) :=
  let* opened := syseba_database_open path in
  ret (match opened with inl message => Some message | inr _ => None end).

(** ** Writing *)

(** An open writer: its connection, and whether it has its prepared statement. *)
Record syseba_database_writer_t := Writer {
  wr_connection : C;
  wr_insert : bool;
}.

Definition insert_sql : cstr :=
  (c!"INSERT INTO logs (timestamp, level, operation, source_path, target_path, additional_info) ")
  ++ (c!"VALUES (?, ?, ?, ?, ?, ?)").

Definition syseba_database_open_writer (allocated : bool) (path : cstr) :
    ST os (cstr + syseba_database_writer_t) :=
  if negb allocated then ret (inl (c!"Out of memory"))
  else
    let* opened := syseba_database_open path in
    ret (match opened with
         | inl message => inl message
         | inr c =>
             if sqlite3_prepare_v2 insert_sql c then inr (Writer c true) else inl (sqlite3_errmsg c)
         end).

Definition record_values (record : syseba_log_record_t) : list cstr :=
  [lr_timestamp record; lr_level record; lr_operation record; lr_source_path record;
   lr_target_path record; lr_additional_info record].

(** Whether the record was inserted; [None] when the schema has changed more than [tries]
    times in a row.  Binding fails without a statement. *)
Fixpoint syseba_database_write (tries : nat) (record : syseba_log_record_t) :
    ST syseba_database_writer_t (option bool) :=
  fun w =>
    let c := wr_connection w in
    let values := record_values record in
    if negb (wr_insert w && sqlite3_bind_texts values c) then (Some false, w)
    else
      match sqlite3_step_insert values c with
      | (SQLITE_DONE, c) => (Some true, Writer c true)
      | (SQLITE_OTHER, c) => (Some false, Writer c true)
      | (SQLITE_SCHEMA, c) =>
          match syseba_database_migrate c with
          | (Some _, c) => (Some false, Writer c false)
          | (None, c) =>
              if negb (sqlite3_prepare_v2 insert_sql c) then (Some false, Writer c false)
              else match tries with
                   | O => (None, Writer c true)
                   | S tries' => syseba_database_write tries' record (Writer c true)
                   end
          end
      end.

(** ** The thread of the log *)

(** What the thread holds: the file and the writer, when they are open, whether it has
    reported an error of the database, and what it wrote on [stderr]. *)
Record log_writer := LogWriter {
  lo_file : option ppath;
  lo_database : option syseba_database_writer_t;
  lo_reported : bool;
  lo_stderr : list cstr;
}.

Definition log_writer_open (allocated : bool) (log_file db_path : cstr) : ST os log_writer :=
  let* file := syseba_open_regular_append log_file 416 in
  let* e := get_errno in
  let file_error :=
    match file with
    | Some _ => []
    | None => [(c!"SySeBa: unable to open log file ") ++ log_file ++ (c!": ") ++ strerror e]
    end in
  let* opened := syseba_database_open_writer allocated db_path in
  ret (match opened with
       | inr w => LogWriter file (Some w) false file_error
       | inl message =>
           LogWriter file None true
             (file_error ++
              [(c!"SySeBa: SQLite logging unavailable; file logging continues: ") ++ truncate 512 message])
       end).

(** The database's part of a turn. *)
Definition log_database_turn (tries : nat) (record : syseba_log_record_t) (l : log_writer) : log_writer :=
  match lo_database l with
  | None => l
  | Some w =>
      let '(written, w') := syseba_database_write tries record w in
      let failed := negb (default false written) in
      if failed && negb (lo_reported l) then
        LogWriter (lo_file l) (Some w') true
          (lo_stderr l ++
           [c!"SySeBa: unable to write an event to SQLite; file logging continues"])
      else LogWriter (lo_file l) (Some w') (lo_reported l) (lo_stderr l)
  end.

(** A turn on a record: the file, then the database. *)
Definition log_writer_record (tries : nat) (log_file : cstr) (record : syseba_log_record_t) (l : log_writer) :
    ST os log_writer :=
  let* file := log_writer_turn (lo_file l) record in
  let* e := get_errno in
  let messages :=
    match lo_file l, file with
    | Some _, None => [(c!"SySeBa: unable to write log file ") ++ log_file ++ (c!": ") ++ strerror e]
    | _, _ => []
    end in
  ret (log_database_turn tries record
         (LogWriter file (lo_database l) (lo_reported l) (lo_stderr l ++ messages))).

(** The records that the thread takes, until the queue is closed and empty. *)
Fixpoint log_writer_records (tries : nat) (log_file : cstr) (records : list syseba_log_record_t)
    (l : log_writer) : ST os log_writer :=
  match records with
  | [] => ret l
  | record :: rest =>
      let* l := log_writer_record tries log_file record l in
      log_writer_records tries log_file rest l
  end.

Definition syseba_log_writer_main (allocated : bool) (tries : nat) (log_file db_path : cstr)
    (records : list syseba_log_record_t) : ST os log_writer :=
  let* l := log_writer_open allocated log_file db_path in
  log_writer_records tries log_file records l.
End Database.
