(* ===== verification/DatabaseFacts.v ===== *)
(** * Facts on the database

    What sqlite.org documents of transactions and of the statements of the migration,
    and what the migration does with them; what the thread of the log leaves in the log
    file, whatever the database does. *)

From S2P Require Import Prelude CString Paths Os OsFacts Platform Fs FsFacts CopyFacts Config ConfigFacts AtomicFacts Queue AppState Log LogFacts Database.

(** [contents] is the database as this connection sees it, [transaction] what it was when
    the open transaction began.  An error inside a transaction may roll it back. *)
Class SqliteLaws (C : Type) `{Sqlite C} := {
  sql_contents : Type;
  contents : C -> sql_contents;
  transaction : C -> option sql_contents;
  logs_columns : sql_contents -> option (list cstr);
  exec_begin c r c' : transaction c = None -> sqlite3_exec begin_sql c = (r, c') ->
    contents c' = contents c /\
    transaction c' = match r with None => Some (contents c) | Some _ => None end;
  exec_inside sql c b r c' :
    sql <> begin_sql -> sql <> commit_sql -> sql <> rollback_sql ->
    transaction c = Some b -> sqlite3_exec sql c = (r, c') ->
    transaction c' = Some b \/ r <> None /\ transaction c' = None /\ contents c' = b;
  exec_create c c' : sqlite3_exec create_sql c = (None, c') ->
    logs_columns (contents c') = Some (default ((c!"id") :: map fst columns) (logs_columns (contents c)));
  exec_add name sql c l c' : (name, sql) ∈ columns -> logs_columns (contents c) = Some l ->
    sqlite3_exec sql c = (None, c') -> logs_columns (contents c') = Some (l ++ [name]);
  exec_index c c' : sqlite3_exec index_sql c = (None, c') ->
    logs_columns (contents c') = logs_columns (contents c);
  exec_commit c b r c' : transaction c = Some b -> sqlite3_exec commit_sql c = (r, c') ->
    match r with
    | None => transaction c' = None /\ contents c' = contents c
    | Some _ => transaction c' = Some b \/ transaction c' = None /\ contents c' = b
    end;
  exec_rollback c : let c' := snd (sqlite3_exec rollback_sql c) in
    transaction c' = None /\ contents c' = default (contents c) (transaction c);
  table_info_columns c name : sqlite3_prepare_v2 table_info_sql c = true ->
    Some name ∈ table_info c -> exists l, logs_columns (contents c) = Some l /\ name ∈ l;
}.

Section Migrate.
Context {C : Type} `{SqliteLaws C}.

(** Inside the transaction that began with [b], or rolled back to [b] by an error. *)
Definition inside (b : sql_contents) (failed : option cstr) (c : C) : Prop :=
  transaction c = Some b \/ failed <> None /\ transaction c = None /\ contents c = b.

Lemma exec_keeps_inside sql b c r c' :
  sql <> begin_sql -> sql <> commit_sql -> sql <> rollback_sql ->
  transaction c = Some b -> syseba_database_exec sql c = (r, c') ->
  inside b r c' /\ (r = None -> sqlite3_exec sql c = (None, c')).
Proof.
  intros H1' H2' H3' Ht E. unfold syseba_database_exec in E. destruct (sqlite3_exec sql c) as [f c1] eqn:Es.
  injection E as <- <-. destruct (exec_inside _ _ _ _ _ H1' H2' H3' Ht Es) as [?|(Hf & ?)].
  - split; [by left|]. by destruct f as [[]|].
  - destruct f as [[]|]; [..|done]; (split; [by right|done]).
Qed.

Lemma rolled_back_inside b message c c' r :
  inside b (Some message) c -> rolled_back message c = (r, c') ->
  r = Some message /\ transaction c' = None /\ contents c' = b.
Proof.
  intros Hi E. unfold rolled_back, bind, modify, ret in E. injection E as <- <-.
  destruct (exec_rollback c) as [Ht Hc]. split_and!; [done|done|]. rewrite Hc.
  destruct Hi as [-> |(_ & -> & <-)]; done.
Qed.

Lemma add_columns_spec missing b : forall c r c' l,
  missing ⊆ columns -> transaction c = Some b -> logs_columns (contents c) = Some l ->
  add_columns missing c = (r, c') ->
  inside b r c' /\
  (r = None -> exists l', logs_columns (contents c') = Some l' /\ l `prefix_of` l' /\
     forall name, name ∈ map fst missing -> name ∈ l').
Proof.
  induction missing as [|[name sql] missing IH]; intros c r c' l Hsub Ht Hl E; cbn [add_columns] in E.
  { injection E as <- <-. split; [by left|]. intros _. exists l. split_and!; [done|done|].
    intros x Hx. by apply not_elem_of_nil in Hx. }
  unfold syseba_database_has_column in E. rewrite bind_gets in E.
  assert ((name, sql) ∈ columns) as Hin by (apply Hsub; by left).
  assert (missing ⊆ columns) as Hsub' by (intros x Hx; apply Hsub; by right).
  set (p := _ && _) in E. destruct p eqn:Ep.
  - unfold bind at 1, ret at 1 in E. destruct (IH _ _ _ _ Hsub' Ht Hl E) as [Hi Hr].
    split; [done|]. intros Hn. destruct (Hr Hn) as (l' & Hl' & Hp & Hall). exists l'. split_and!; [done|done|].
    unfold p in Ep. apply andb_true_iff in Ep as [Hprep Hex].
    apply existsb_exists in Hex as ([x|] & Hx & Hname); [|done]. apply streq_true in Hname as ->.
    apply list_elem_of_In in Hx. destruct (table_info_columns _ _ Hprep Hx) as (l0 & Hl0 & Hin0).
    rewrite Hl in Hl0. injection Hl0 as <-. cbn [map fst]. intros y [->|Hy]%elem_of_cons; [|by apply Hall].
    destruct Hp as [k ->]. apply elem_of_app. by left.
  - destruct (syseba_database_exec sql c) as [f c1] eqn:Ee. rewrite (bind_run _ _ _ _ _ Ee) in E.
    assert (sql <> begin_sql /\ sql <> commit_sql /\ sql <> rollback_sql) as (Hb & Hc & Hr).
    { unfold columns in Hin. repeat (apply elem_of_cons in Hin as [[= -> ->]|Hin]; [by vm_compute|]).
      by apply not_elem_of_nil in Hin. }
    destruct (exec_keeps_inside sql b c f c1 Hb Hc Hr Ht Ee) as [Hi Hok]. destruct f as [message|].
    { injection E as <- <-. by split. }
    destruct Hi as [Hi|(? & _)]; [|done]. pose proof (exec_add _ _ _ _ _ Hin Hl (Hok eq_refl)) as Hl1.
    destruct (IH _ _ _ _ Hsub' Hi Hl1 E) as [Hi' Hr']. split; [done|]. intros Hn.
    destruct (Hr' Hn) as (l' & Hl' & Hp & Hall). exists l'. split_and!; [done| |].
    + etransitivity; [|exact Hp]. by apply prefix_app_r.
    + cbn [map fst]. intros y [->|Hy]%elem_of_cons; [|by apply Hall]. destruct Hp as [k ->].
      apply elem_of_app. left. apply elem_of_app. right. by apply list_elem_of_singleton.
Qed.

Lemma migrate_spec c r c' :
  transaction c = None -> syseba_database_migrate c = (r, c') ->
  transaction c' = None /\
  match r with
  | None => exists l, logs_columns (contents c') = Some l /\
      (forall name, name ∈ map fst columns -> name ∈ l) /\
      forall l0, logs_columns (contents c) = Some l0 -> l0 `prefix_of` l
  | Some _ => contents c' = contents c
  end.
Proof.
  intros Ht E. unfold syseba_database_migrate in E. set (b := contents c).
  destruct (syseba_database_exec begin_sql c) as [f0 c0] eqn:E0. rewrite (bind_run _ _ _ _ _ E0) in E.
  unfold syseba_database_exec in E0. destruct (sqlite3_exec begin_sql c) as [g c0'] eqn:Eb. injection E0 as <- <-.
  destruct (exec_begin _ _ _ Ht Eb) as [Hc0 Ht0]. destruct g as [g|].
  { destruct g; injection E as <- <-; by split. }
  assert (forall m c1, inside b (Some m) c1 -> rolled_back m c1 = (r, c') ->
    transaction c' = None /\ match r with None => False | Some _ => contents c' = b end) as Hroll.
  { intros m c1 Hi Er. destruct (rolled_back_inside _ _ _ _ _ Hi Er) as (-> & ? & ?). done. }
  assert (forall m c1, inside b (Some m) c1 -> rolled_back m c1 = (r, c') ->
    transaction c' = None /\ match r with
      | None => exists l, logs_columns (contents c') = Some l /\ (forall name, name ∈ map fst columns -> name ∈ l) /\
          forall l0, logs_columns b = Some l0 -> l0 `prefix_of` l
      | Some _ => contents c' = b end) as Hfail.
  { intros m c1 Hi Er. destruct (Hroll m c1 Hi Er) as [? ?]. split; [done|]. by destruct r. }
  clear Hroll.
  destruct (syseba_database_exec create_sql c0') as [f1 c1] eqn:E1. rewrite (bind_run _ _ _ _ _ E1) in E.
  destruct (exec_keeps_inside create_sql b c0' f1 c1) as [Hi1 Hok1]; [by vm_compute..|done|done|].
  destruct f1 as [m|]; [by eapply Hfail|]. destruct Hi1 as [Hi1|(? & _)]; [|done].
  pose proof (exec_create _ _ (Hok1 eq_refl)) as Hl1. rewrite Hc0 in Hl1. set (l1 := default _ _) in Hl1.
  destruct (add_columns columns c1) as [f2 c2] eqn:E2. rewrite (bind_run _ _ _ _ _ E2) in E.
  destruct (add_columns_spec columns b c1 f2 c2 l1) as [Hi2 Hok2]; [done|done|done|done|].
  destruct f2 as [m|]; [by eapply Hfail|]. destruct Hi2 as [Hi2|(? & _)]; [|done].
  destruct (Hok2 eq_refl) as (l2 & Hl2 & Hp2 & Hall).
  destruct (syseba_database_exec index_sql c2) as [f3 c3] eqn:E3. rewrite (bind_run _ _ _ _ _ E3) in E.
  destruct (exec_keeps_inside index_sql b c2 f3 c3) as [Hi3 Hok3]; [by vm_compute..|done|done|].
  destruct f3 as [m|]; [by eapply Hfail|]. destruct Hi3 as [Hi3|(? & _)]; [|done].
  pose proof (exec_index _ _ (Hok3 eq_refl)) as Hl3. rewrite Hl2 in Hl3.
  destruct (syseba_database_exec commit_sql c3) as [f4 c4] eqn:E4. rewrite (bind_run _ _ _ _ _ E4) in E.
  unfold syseba_database_exec in E4. destruct (sqlite3_exec commit_sql c3) as [g c4'] eqn:Ec. injection E4 as <- <-.
  pose proof (exec_commit _ _ _ _ Hi3 Ec) as Hcommit. destruct g as [g|].
  { assert (forall m, inside b (Some m) c4') as Hi4 by (intros m; destruct Hcommit as [?|[? ?]]; [by left|by right]).
    destruct g as [m|]; by eapply Hfail. }
  injection E as <- <-. destruct Hcommit as [Ht4 Hc4]. split; [done|]. exists l2. rewrite Hc4, Hl3.
  split_and!; [done|done|]. intros l0 Hl0. unfold l1 in Hp2. unfold b in Hl0. by rewrite Hl0 in Hp2.
Qed.
End Migrate.

(** ** The thread of the log *)

(** On a quiet host the regular file [k] keeps its text, and the host stays quiet. *)
Definition text_kept (k : ppath) (s s' : os) : Prop :=
  quiet s -> quiet s' /\
  forall m text, os_fs s !! k = Some (NReg m text) -> os_fs s' !! k = Some (NReg m text).

#[export] Instance text_kept_preorder k : PreOrder (text_kept k).
Proof.
  split; [by intros s Hq|]. intros s1 s2 s3 H1 H2 Hq. destruct (H1 Hq) as [Hq2 K2].
  destruct (H2 Hq2) as [Hq3 K3]. split; [done|]. intros m text Hk. by apply K3, K2.
Qed.

Lemma fs_rel_text k Q s s' :
  (forall fs fs', Q fs fs' -> forall n, fs !! k = Some n -> fs' !! k = Some n) ->
  fs_rel Q s s' -> text_kept k s s'.
Proof.
  intros HQ [Hs Hf] Hq. split; [by eapply quiet_suffix|].
  intros m text. by apply HQ, Hf, quiet_unedited.
Qed.

Lemma keeps_text k {A} Q (m : ST os A) :
  (forall fs fs', Q fs fs' -> forall n, fs !! k = Some n -> fs' !! k = Some n) ->
  keeps (fs_rel Q) m -> keeps (text_kept k) m.
Proof. intros HQ. apply keeps_weaken. intros s s'. by apply fs_rel_text. Qed.

Lemma keeps_text_eq k {A} (m : ST os A) : keeps (fs_rel eq) m -> keeps (text_kept k) m.
Proof. apply keeps_text. by intros fs _ <-. Qed.

Lemma append_quiet s p x mode :
  quiet s -> Forall path_name (p ++ [x]) -> dir_chain (os_fs s) p ->
  match os_fs s !! (p ++ [x]) with
  | None => syseba_open_regular_append (render (p ++ [x])) mode s
      = (Some (p ++ [x]), create_file s (p ++ [x]) mode)
  | Some (NReg _ _) => syseba_open_regular_append (render (p ++ [x])) mode s = (Some (p ++ [x]), s)
  | Some _ => True
  end.
Proof.
  intros Hq Hn Hd. unfold syseba_open_regular_append.
  destruct (os_fs s !! (p ++ [x])) as [[m c|m|m t|m]|] eqn:Hk; [|done..|];
    unfold bind at 1, sys_open_creat;
    rewrite syscall_quiet, resolve_chain, Hk, ?node_at_snoc, ?Hk by done; cbv beta iota zeta;
    unfold bind at 1, sys_fstat; rewrite syscall_quiet, node_at_snoc by done.
  - rewrite Hk. cbv beta iota zeta. unfold bind at 1, sys_sync. by rewrite syscall_quiet.
  - cbn [os_fs create_file with_ino with_fs]. rewrite lookup_insert_eq. cbv beta iota zeta.
    unfold bind at 1, sys_sync. by rewrite syscall_quiet.
Qed.

Lemma writer_turn_quiet k m text record s :
  quiet s -> k <> [] -> os_fs s !! k = Some (NReg m text) ->
  exists s' m', log_writer_turn (Some k) record s = (Some k, s') /\ quiet s' /\
    os_fs s' = <[k := NReg m' (text ++ record_line record ++ [NEWLINE])]> (os_fs s).
Proof.
  intros Hq Hk0 Hk. unfold log_writer_turn.
  assert (node_at (os_fs s) k = Some (NReg m text)) as Hat by (by destruct k).
  unfold bind at 1, sys_fstat. rewrite syscall_quiet, Hat by done. cbv beta iota zeta.
  cbn [node_size].
  destruct (write_all_quiet s k m text (record_line record ++ [NEWLINE]) Hq Hk) as (s' & m' & E & Hs & Hf & _).
  assert (quiet s') as Hq' by (by eapply same_host_quiet).
  rewrite (bind_run _ _ _ _ _ E). cbv beta iota. unfold bind, sys_sync. rewrite syscall_quiet by done.
  exists s', m'. by split_and!.
Qed.

(** The connections of SQLite that touch the files of their database only. *)
Definition sqlite_apart {C} `{Sqlite C} (db_path : cstr) (k : ppath) : Prop :=
  keeps (text_kept k) (sqlite3_open_v2 db_path).

Section Writer.
Context {C : Type} `{Sqlite C} `{Strerror}.
Context (k : ppath) (Hk0 : k <> []).

Lemma database_open_keeps db_path :
  sqlite_apart db_path k -> keeps (text_kept k) (syseba_database_open db_path).
Proof.
  intros Ha. unfold syseba_database_open.
  apply keeps_bind; [typeclasses eauto| |intros made].
  { destruct (syseba_parent_dir _ _); [|by apply keeps_ret; typeclasses eauto].
    eapply keeps_text, mkdirs_grows. intros fs fs' Hg n. apply Hg. }
  destruct (negb made).
  { apply keeps_text_eq. keeps_auto. }
  apply keeps_bind; [typeclasses eauto|apply keeps_text_eq, exists_keeps; typeclasses eauto|intros present].
  apply keeps_bind; [typeclasses eauto| |intros refused].
  { apply keeps_text_eq. keeps_auto. }
  destruct refused; [apply keeps_text_eq; keeps_auto|].
  apply keeps_bind; [typeclasses eauto|exact Ha|intros opened].
  intros s. unfold exec. destruct opened as [[?|]|c]; [reflexivity..|].
  by destruct (prepare_connection c) as [[?|] ?].
Qed.

Lemma open_writer_keeps allocated db_path :
  sqlite_apart db_path k -> keeps (text_kept k) (syseba_database_open_writer allocated db_path).
Proof.
  intros Ha. unfold syseba_database_open_writer.
  destruct (negb allocated); [by apply keeps_ret; typeclasses eauto|].
  apply keeps_bind; [typeclasses eauto|by apply database_open_keeps|].
  intros opened. apply keeps_ret. typeclasses eauto.
Qed.

(** The writer has its file, and has at most reported one error of the database. *)
Definition writing (l : log_writer (C := C)) : Prop :=
  lo_file l = Some k /\ (length (lo_stderr l) <= if lo_reported l then 1 else 0)%nat.

Lemma database_turn_writing tries record l :
  writing l -> writing (log_database_turn tries record l).
Proof.
  intros [Hf Hl]. unfold log_database_turn. destruct (lo_database l) as [w|]; [|done].
  destruct (syseba_database_write tries record w) as [written w'].
  destruct (negb _); cbn [andb]; [|done]. destruct (lo_reported l); cbn [negb]; [done|].
  split; [done|]. cbn [lo_stderr lo_reported]. rewrite length_app. cbn [length]. lia.
Qed.

Lemma writer_record_quiet tries log_file record l s m text :
  writing l -> quiet s -> os_fs s !! k = Some (NReg m text) ->
  exists l' s' m', log_writer_record tries log_file record l s = (l', s') /\ writing l' /\ quiet s' /\
    os_fs s' = <[k := NReg m' (text ++ record_line record ++ [NEWLINE])]> (os_fs s).
Proof.
  intros Hl Hq Hk. unfold log_writer_record.
  destruct (writer_turn_quiet k m text record s Hq Hk0 Hk) as (s' & m' & E & Hq' & Hf).
  rewrite (proj1 Hl), (bind_run _ _ _ _ _ E). unfold bind, get_errno, gets, ret.
  eexists _, s', m'. split; [reflexivity|]. split; [|done]. rewrite app_nil_r.
  apply database_turn_writing. destruct Hl as [Hfile Hlen]. by split.
Qed.

Lemma writer_records_quiet tries log_file records : forall l s m text,
  writing l -> quiet s -> os_fs s !! k = Some (NReg m text) ->
  exists l' s' m', log_writer_records tries log_file records l s = (l', s') /\ writing l' /\ quiet s' /\
    os_fs s' !! k = Some (NReg m' (text ++ log_text (map record_line records))) /\
    forall j, j <> k -> os_fs s' !! j = os_fs s !! j.
Proof.
  induction records as [|record records IH]; intros l s m text Hl Hq Hk; cbn [log_writer_records].
  { exists l, s, m. rewrite app_nil_r. done. }
  destruct (writer_record_quiet tries log_file record l s m text Hl Hq Hk)
    as (l1 & s1 & m1 & E & Hl1 & Hq1 & Hf1).
  destruct (IH l1 s1 m1 (text ++ record_line record ++ [NEWLINE]) Hl1 Hq1)
    as (l' & s' & m' & E' & Hl' & Hq' & Hf' & Hj'); [by rewrite Hf1, lookup_insert_eq|].
  exists l', s', m'. split; [by rewrite (bind_run _ _ _ _ _ E)|]. split_and!; [done..| |].
  - rewrite Hf'. unfold log_text. cbn [map concat]. by rewrite !app_assoc.
  - intros j Hj. by rewrite Hj', Hf1, lookup_insert_ne.
Qed.
End Writer.

(** The file when the thread opens it: a regular file, or none yet. *)
Definition log_data (fs : fsmap) (k : ppath) (old : cstr) : Prop :=
  match fs !! k with Some (NReg _ text) => text = old | Some _ => False | None => old = [] end.

Lemma writer_open_quiet {C} `{Sqlite C} `{Strerror} allocated db_path p x old s :
  quiet s -> Forall path_name (p ++ [x]) -> dir_chain (os_fs s) p -> log_data (os_fs s) (p ++ [x]) old ->
  sqlite_apart db_path (p ++ [x]) ->
  exists l s' m, log_writer_open allocated (render (p ++ [x])) db_path s = (l, s') /\
    writing (p ++ [x]) l /\ quiet s' /\ os_fs s' !! (p ++ [x]) = Some (NReg m old).
Proof.
  intros Hq Hn Hd Hold Ha. unfold log_writer_open, log_data in *.
  assert (exists s1 m, syseba_open_regular_append (render (p ++ [x])) 416 s = (Some (p ++ [x]), s1) /\
    quiet s1 /\ os_fs s1 !! (p ++ [x]) = Some (NReg m old)) as (s1 & m & E1 & Hq1 & Hk1).
  { pose proof (append_quiet s p x 416 Hq Hn Hd) as E.
    destruct (os_fs s !! (p ++ [x])) as [[m c|m|m t|m]|] eqn:Hk; [|done..|].
    - subst c. by exists s, m.
    - subst old. eexists _, _. split; [exact E|]. split; [done|]. cbn. apply lookup_insert_eq. }
  rewrite (bind_run _ _ _ _ _ E1). unfold bind at 1, get_errno, gets. cbv beta iota zeta.
  pose proof (open_writer_keeps _ allocated _ Ha s1 Hq1) as [Hq2 Hk2].
  unfold bind, exec in *. destruct (syseba_database_open_writer allocated db_path s1) as [opened s2].
  eexists _, s2, m. split; [reflexivity|]. split; [|split; [done|by apply Hk2]].
  destruct opened; by split.
Qed.
