(* ===== verification/DatabaseSpec.v ===== *)
(** * The promises of the database and of the log's thread *)

From S2P Require Import Prelude CString Paths Os OsFacts Platform Fs CopyFacts Config ConfigFacts Queue AppState Log LogFacts Examples Demo Database DatabaseFacts.

Section Claims.
Context {C : Type} `{SqliteLaws C}.

(** C30: the migration of the log's schema leaves no transaction
    open, and either it succeeds, and then the table has its six columns after those it
    had before, or it fails and the database is what it was, wherever the statement that
    failed was. *)
Theorem migration_all_or_nothing c r c' :
  transaction c = None -> syseba_database_migrate c = (r, c') ->
  transaction c' = None /\
  match r with
  | None => exists l, logs_columns (contents c') = Some l /\
      (forall name, name ∈ map fst columns -> name ∈ l) /\
      forall l0, logs_columns (contents c) = Some l0 -> l0 `prefix_of` l
  | Some _ => contents c' = contents c
  end.
Proof. apply migrate_spec. Qed.
End Claims.

(** C20: on a quiet host, the log's thread appends the line of every
    record it takes to the log file, in order, after what the file held, and touches no
    other file once it is open, whatever the database does: with a database that cannot be
    opened, or that refuses every record, the thread only says so once on [stderr]. *)
Theorem log_lines_reach_file {C} `{Sqlite C} `{Strerror} allocated tries db_path records p x old s :
  quiet s -> Forall path_name (p ++ [x]) -> dir_chain (os_fs s) p -> log_data (os_fs s) (p ++ [x]) old ->
  sqlite_apart db_path (p ++ [x]) ->
  exists l s' m,
    syseba_log_writer_main allocated tries (render (p ++ [x])) db_path records s = (l, s') /\
    os_fs s' !! (p ++ [x]) = Some (NReg m (old ++ log_text (map record_line records))) /\
    (forall j, j <> p ++ [x] ->
       os_fs s' !! j = os_fs (exec (log_writer_open allocated (render (p ++ [x])) db_path) s) !! j) /\
    (length (lo_stderr l) <= 1)%nat.
Proof.
  intros Hq Hn Hd Hold Ha.
  destruct (writer_open_quiet allocated db_path p x old s) as (l0 & s0 & m0 & E0 & Hl0 & Hq0 & Hk0); [done..|].
  destruct (writer_records_quiet (p ++ [x])) with (tries := tries) (log_file := render (p ++ [x]))
    (records := records) (l := l0) (s := s0) (m := m0) (text := old)
    as (l & s' & m & E & [_ Hlen] & _ & Hk & Hj); [by destruct p|done..|].
  exists l, s', m. split_and!; [|done| |].
  - unfold syseba_log_writer_main. by rewrite (bind_run _ _ _ _ _ E0).
  - unfold exec. by rewrite E0.
  - destruct (lo_reported l); lia.
Qed.

(** ** A small database

    The columns of [logs], and what they were when the transaction began; [sd_full] makes
    the statements that add a column fail from some number of columns on. *)
Record small_db := SmallDb {
  sd_logs : option (list cstr);
  sd_begin : option (option (list cstr));
  sd_full : nat;
}.

Definition column_of (sql : cstr) : option cstr :=
  fst <$> find (fun column => streq (snd column) sql) columns.

Definition small_exec (sql : cstr) (c : small_db) : option (option cstr) * small_db :=
  let '(SmallDb logs began full) := c in
  let error := (Some None, c) in
  if streq sql begin_sql then
    match began with None => (None, SmallDb logs (Some logs) full) | Some _ => error end
  else if streq sql commit_sql then
    match began with Some _ => (None, SmallDb logs None full) | None => error end
  else if streq sql rollback_sql then
    match began with Some b => (None, SmallDb b None full) | None => error end
  else if streq sql create_sql then
    (None, SmallDb (Some (default ((c!"id") :: map fst columns) logs)) began full)
  else if streq sql index_sql then (None, c)
  else
    match column_of sql, logs with
    | Some name, Some l =>
        if bool_decide (name ∈ l) || (full <=? length l)%nat then (Some (Some (c!"cannot add")), c)
        else (None, SmallDb (Some (l ++ [name])) began full)
    | Some _, None => error
    | None, _ => (None, c)
    end.

#[export] Instance small_sqlite : Sqlite small_db :=
  {| sqlite3_open_v2 := fun _ s => (inr (SmallDb None None 100), s);
     sqlite3_exec := small_exec;
     sqlite3_errmsg := fun _ => c!"error";
     sqlite3_prepare_v2 := fun _ _ => true;
     table_info := fun c => Some <$> default [] (sd_logs c);
     sqlite3_bind_texts := fun _ _ => true;
     sqlite3_step_insert := fun _ c => (SQLITE_DONE, c) |}.

Lemma small_exec_inside sql logs b full r c' :
  sql <> begin_sql -> sql <> commit_sql -> sql <> rollback_sql ->
  small_exec sql (SmallDb logs (Some b) full) = (r, c') -> sd_begin c' = Some b.
Proof.
  intros H1 H2 H3 E. unfold small_exec in E. rewrite !(proj2 (streq_false _ _)) in E by done.
  destruct (streq sql create_sql); [by injection E as <- <-|].
  destruct (streq sql index_sql); [by injection E as <- <-|].
  repeat case_match; by simplify_eq.
Qed.

Lemma small_exec_add name sql l began full c' :
  (name, sql) ∈ columns -> small_exec sql (SmallDb (Some l) began full) = (None, c') ->
  sd_logs c' = Some (l ++ [name]).
Proof.
  intros Hin E.
  assert (column_of sql = Some name /\ streq sql begin_sql = false /\ streq sql commit_sql = false /\
    streq sql rollback_sql = false /\ streq sql create_sql = false /\ streq sql index_sql = false)
    as (Hc & H1 & H2 & H3 & H4 & H5).
  { unfold columns in Hin. repeat (apply elem_of_cons in Hin as [[= -> ->]|Hin]; [by vm_compute|]).
    by apply not_elem_of_nil in Hin. }
  unfold small_exec in E. rewrite H1, H2, H3, H4, H5, Hc in E. destruct (_ || _); [done|]. by injection E as <-.
Qed.

#[export] Instance small_sqlite_laws : SqliteLaws small_db.
Proof.
  refine {| contents := sd_logs; transaction := sd_begin; logs_columns := id |}.
  - intros [logs began full] r c' Ht E. cbn in Ht. subst began. vm_compute in E. by injection E as <- <-.
  - intros sql [logs began full] b r c' H1 H2 H3 Ht E. cbn in Ht. subst began. left. by eapply small_exec_inside.
  - intros [logs began full] c' E. vm_compute in E. by injection E as <-.
  - intros name sql [logs began full] l c' Hin Hl E. cbn in Hl. subst logs. by eapply small_exec_add.
  - intros [logs began full] c' E. vm_compute in E. by injection E as <-.
  - intros [logs began full] b r c' Ht E. cbn in Ht. subst began. vm_compute in E. by injection E as <- <-.
  - intros [logs [b|] full]; by vm_compute.
  - intros [logs began full] name _ Hin. cbn in Hin. destruct logs as [l|]; [|by apply not_elem_of_nil in Hin].
    exists l. split; [done|]. by apply list_elem_of_fmap in Hin as (x & [= ->] & ?).
Defined.

(** A table of an older version, in a database that has room for all the columns or not. *)
Definition old_db (full : nat) : small_db := SmallDb (Some [c!"id"; c!"timestamp"; c!"message"]) None full.

Example migration_all_or_nothing_witness :
  let '(r, c') := syseba_database_migrate (old_db 6) in
  sd_begin c' = None /\
  match r with
  | None => exists l, sd_logs c' = Some l /\ (forall name, name ∈ map fst columns -> name ∈ l) /\
      forall l0, sd_logs (old_db 6) = Some l0 -> l0 `prefix_of` l
  | Some _ => sd_logs c' = sd_logs (old_db 6)
  end.
Proof.
  destruct (syseba_database_migrate (old_db 6)) as [r c'] eqn:E.
  exact (migration_all_or_nothing (old_db 6) r c' eq_refl E).
Defined.

Example migration_both_ways :
  syseba_database_migrate (old_db 6) = (Some (c!"cannot add"), old_db 6) /\
  sd_logs (exec syseba_database_migrate (old_db 100)) =
    Some [c!"id"; c!"timestamp"; c!"message"; c!"level"; c!"operation"; c!"source_path"; c!"target_path";
          c!"additional_info"].
Proof. by vm_compute. Qed.

(** Two records, on a host whose log already has a line; the database has no file. *)
Definition two_records : list syseba_log_record_t :=
  map (fun message => make_record 0 (c!"INFO") (c!"CREATE") [] [] [] message) [c!"one"; c!"two"].
Definition log_host : os :=
  with_fs (<[[c!"backup"; c!"syseba.log"] := NReg example_meta (log_text [c!"zero"])]> example_fs)
    (example_host []).

Example log_lines_reach_file_witness :
  exists l s' m,
    syseba_log_writer_main (C := small_db) (H0 := demo_strerror) true 3 (c!"/backup/syseba.log")
      (c!"/backup/syseba.db") two_records log_host = (l, s') /\
    os_fs s' !! [c!"backup"; c!"syseba.log"] =
      Some (NReg m (log_text [c!"zero"] ++ log_text (map record_line two_records))) /\
    (forall j, j <> [c!"backup"; c!"syseba.log"] ->
       os_fs s' !! j =
         os_fs (exec (log_writer_open (C := small_db) (H0 := demo_strerror) true (c!"/backup/syseba.log")
                  (c!"/backup/syseba.db")) log_host) !! j) /\
    (length (lo_stderr l) <= 1)%nat.
Proof.
  apply (log_lines_reach_file (C := small_db) (H0 := demo_strerror) true 3 (c!"/backup/syseba.db")
           two_records [c!"backup"] (c!"syseba.log") (log_text [c!"zero"]) log_host).
  - reflexivity.
  - by apply names_b_spec.
  - intros a b E. destruct a as [|y [|z a]]; [done| |done]. injection E as <- _. by vm_compute.
  - by vm_compute.
  - intros s. reflexivity.
Defined.

(** Without memory for the database's writer, the file gets its lines all the same. *)
Example file_logging_continues :
  let '(l, s') := syseba_log_writer_main (C := small_db) (H0 := demo_strerror) false 3
                    (c!"/backup/syseba.log") (c!"/backup/syseba.db") two_records log_host in
  lo_stderr l = [c!"SySeBa: SQLite logging unavailable; file logging continues: Out of memory"] /\
  value (syseba_log_tail (c!"/backup/syseba.log") 2) s' =
    Some (map record_line two_records).
Proof. by vm_compute. Qed.
