(* ===== verification/Dashboard.v ===== *)
(** * The console dashboard (src/src/dashboard.c)

    Formatted printing, the screen that shows the state of the application, and the
    loop that draws it again. *)

From Stdlib Require Import QArith_base.
From S2P Require Import Prelude CString Paths Os Platform Config Queue AppState Log App Json Service Status Strtod.

(** ** printf *)

Definition spaces (n : nat) : cstr := replicate n " "%char.

(** [%-*s], [%*s] and [%-*.*s] with equal width and precision. *)
Definition pad_right (width : nat) (s : cstr) : cstr := s ++ spaces (width - length s).
Definition pad_left (width : nat) (s : cstr) : cstr := spaces (width - length s) ++ s.
Definition column (width : nat) (s : cstr) : cstr := pad_right width (take width s).

(** Digits with zeros in front of them. *)
Definition zeros_left (width : nat) (s : cstr) : cstr := replicate (width - length s) "0"%char ++ s.

(** [%.2f] of a finite number: the exact value, rounded half to even. *)
Definition fixed2 (value : Q) : cstr :=
  let n := round_half_even (100 * Z.abs (Qnum value)) (Zpos (Qden value)) in
  (if Qnum value <? 0 then c!"-" else []) ++ dec (n / 100) ++ (c!".") ++ zeros_left 2 (dec (n mod 100)).
Definition double2 (d : double) : cstr :=
  match d with DFin q => fixed2 q | DInf negative => if negative then c!"-inf" else c!"inf" | DNan => c!"nan" end.

Definition blank : cstr := c!" ".
Definition PERCENT_SIGN : cstr := [PERCENT].

(** ** Parts of the screen *)

Definition ESCAPE : ascii := chr 27.
Definition escape (s : cstr) : cstr := ESCAPE :: s.

Definition syseba_color (name : cstr) : cstr :=
  if streq name (c!"green") then escape (c!"[32m")
  else if streq name (c!"yellow") then escape (c!"[33m")
  else if streq name (c!"red") then escape (c!"[31m")
  else if streq name (c!"cyan") then escape (c!"[36m")
  else if streq name (c!"bold") then escape (c!"[1m")
  else if streq name (c!"dim") then escape (c!"[2m")
  else escape (c!"[0m").
Definition reset : cstr := syseba_color (c!"reset").

Definition syseba_console_clear : cstr := escape (c!"[2J") ++ escape (c!"[H").

Definition syseba_dashboard_rule (width : nat) (character : ascii) : cstr :=
  replicate width character ++ nl.

Definition clamp_percent (percent : Q) : Q :=
  if Qnum percent <? 0 then 0%Q else if Qle_bool percent 100 then percent else 100%Q.

(** The filled part of a bar: [(unsigned)((percent / 100.0) * (double)width)]. *)
Definition bar_filled (percent : Q) (width : nat) : nat :=
  let q := d_mul (d_div (clamp_percent percent) 100) (d_of_Z (Z.of_nat width)) in
  Z.to_nat (Qnum q / Zpos (Qden q)).

(** [output_size] is at least one. *)
Definition syseba_dashboard_bar (percent : Q) (width output_size : nat) : cstr :=
  let width := if (output_size <? width + 1)%nat then (output_size - 1)%nat else width in
  map (fun index => if (index <? bar_filled percent width)%nat then "#"%char else "-"%char) (seq 0 width).

Section Dashboard.
Context `{Host} `{Clock}.

Definition bar_width (width : nat) : nat :=
  if (96 <? width)%nat then 36 else if (72 <? width)%nat then 24 else 14.

Definition tone (percent : Q) : cstr :=
  if Qle_bool 90 percent then syseba_color (c!"red")
  else if Qle_bool 75 percent then syseba_color (c!"yellow")
  else syseba_color (c!"green").

Definition syseba_dashboard_disk (label path : cstr) (width : nat) : cstr :=
  match syseba_disk_usage (statvfs path) with
  | None =>
      let w := (if (31 <? width)%nat then width - 31 else 20)%nat in
      blank ++ pad_right 9 label ++ blank ++ column w path ++ (c!"  ") ++ syseba_color (c!"red")
      ++ (c!"NOT FOUND") ++ reset ++ nl
  | Some usage =>
      let bars := bar_width width in
      let w := (if (bars + 25 <? width)%nat then width - bars - 25 else 18)%nat in
      let percent := used_percent usage in
      blank ++ pad_right 9 label ++ blank ++ column w path ++ (c!"  ") ++ tone percent ++ (c!"[")
      ++ syseba_dashboard_bar percent bars 64 ++ (c!"]") ++ reset ++ blank
      ++ pad_left 6 (fixed2 percent) ++ PERCENT_SIGN ++ nl
  end.

Definition syseba_dashboard_uptime (a : syseba_app_t) : cstr :=
  let seconds := wrap64 (wrap64 (os_mono (app_os a)) - app_started_ns a) / 1000000000 in
  let days := seconds / 86400 in
  let clock := dec2 (seconds mod 86400 / 3600) ++ (c!":") ++ dec2 (seconds mod 3600 / 60) ++ (c!":")
                 ++ dec2 (seconds mod 60) in
  if 0 <? days then dec days ++ (c!"d ") ++ clock else clock.

(** A measure that may be missing. *)
Definition measure (d : double) (unit : cstr) : cstr := if negative d then c!"n/a" else double2 d ++ unit.

Definition counter_column (label : cstr) (n : Z) : cstr := pad_right 13 label ++ blank ++ pad_left 8 (dec n).
Definition three_counters (a b c : cstr * Z) : cstr :=
  blank ++ counter_column (fst a) (snd a) ++ (c!"   ") ++ counter_column (fst b) (snd b) ++ (c!"   ")
  ++ counter_column (fst c) (snd c) ++ nl.

Definition recent_block (language : syseba_language_t) (width : nat) (available : Z) (r : recent) : cstr :=
  let shown := Z.min (recent_count r) available in
  syseba_dashboard_rule width "-"%char
  ++ blank ++ syseba_color (c!"bold") ++ syseba_tr language (c!"Attivita recente") (c!"Recent activity") ++ reset ++ nl
  ++ flat_map (fun line => blank ++ column (width - 2) line ++ nl) (recent_read available r)
  ++ (if shown =? 0 then
        blank ++ syseba_tr language (c!"In attesa di eventi...") (c!"Waiting for events...") ++ nl
      else []).

(** The size of the terminal, [terminal_width] columns and [terminal_height] lines. *)
Definition syseba_dashboard_render (terminal_width terminal_height : nat) (a : syseba_app_t) : cstr :=
  let width := Nat.min 140 (Nat.max 64 terminal_width) in
  let compact := (terminal_height <? 27)%nat || (width <? 80)%nat in
  let s := app_stats a in
  let config := app_config a in
  let options := app_options_ a in
  let language := language_of a in
  let tr := syseba_tr language in
  let m := syseba_process_metrics proc_self_status in
  let percent := initial_percent s (is_state (app_initial a)) in
  let source := tr (c!"Sorgente") (c!"Source") in
  syseba_console_clear ++ syseba_color (c!"bold") ++ syseba_dashboard_rule width "="%char
  ++ (c!" SySeBa ") ++ pad_right (if (43 <? width)%nat then width - 43 else 1) (c!"The Syncro Service Backup")
  ++ blank ++ syseba_color (c!"green") ++ (c!"RUNNING") ++ reset ++ (c!"  PID ") ++ dec (wrap64 (os_pid (app_os a))) ++ nl
  ++ syseba_dashboard_rule width "="%char ++ reset
  ++ blank ++ pad_right 19 (truncate 32 (timestamp_now (os_time (app_os a)))) ++ blank
  ++ pad_right 18 (syseba_dashboard_uptime a) ++ (c!"  ") ++ pad_right 8 (c!"Version") ++ blank ++ SYSEBA_VERSION ++ nl
  ++ (if compact then []
      else blank ++ pad_right 9 source ++ blank ++ column (width - 12) (cfg_source config) ++ nl)
  ++ nl
  ++ syseba_dashboard_disk source (cfg_source config) width
  ++ syseba_dashboard_disk (c!"Backup") (cfg_backup config) width
  ++ syseba_dashboard_disk (c!"Restore") (cfg_restore config) width
  ++ nl
  ++ blank ++ syseba_color (c!"cyan") ++ pad_right 18 (tr (c!"Sincronizzazione") (c!"Synchronization")) ++ reset
  ++ blank ++ pad_right 22 (is_state (app_initial a))
  ++ (if negative percent then []
      else blank ++ pad_left 6 (double2 percent) ++ PERCENT_SIGN ++ (c!"  ") ++ dec (initial_done s) ++ (c!"/")
             ++ dec (initial_total s))
  ++ nl
  ++ syseba_dashboard_rule width "-"%char
  ++ three_counters (tr (c!"Copiati") (c!"Copied"), copied s) (tr (c!"Aggiornati") (c!"Updated"), updated s)
       (tr (c!"Eliminati") (c!"Deleted"), deleted s)
  ++ three_counters (tr (c!"Ripristinati") (c!"Restored"), restored s) (tr (c!"Saltati") (c!"Skipped"), skipped s)
       (tr (c!"Errori") (c!"Errors"), errors s)
  ++ (c!" CPU ") ++ pad_right 9 (measure (mt_cpu m) PERCENT_SIGN) ++ (c!"   RAM ")
  ++ pad_right 12 (measure (mt_memory m) (c!" MB")) ++ (c!"   Threads ") ++ pad_right 4 (dec (mt_threads m))
  ++ (c!"   Queue ") ++ pad_right 6 (dec (syseba_queue_size (app_event_queue a))) ++ nl
  ++ (if compact then []
      else recent_block language width (if (25 <? terminal_height)%nat then Z.of_nat terminal_height - 25 else 2)
             (app_recent a))
  ++ syseba_dashboard_rule width "-"%char
  ++ (c!" Log: ") ++ cfg_log_file config
  ++ (if ao_web_enabled options
      then (c!"   Web: http://") ++ ao_web_host options ++ (c!":") ++ dec (ao_web_port options) else [])
  ++ nl ++ blank
  ++ tr (c!"Ctrl+C per arrestare in modo ordinato") (c!"Ctrl+C for a graceful shutdown") ++ nl.

(** ** The loop *)

(** [(unsigned)(refresh_seconds * 1000.0)], at least 0.2 seconds; the conversion of a
    number that is not finite is undefined and has no value here. *)
Definition refresh_ms (refresh_seconds : double) : option Z :=
  match refresh_seconds with
  | DFin q =>
      let q := if Qle_bool (to_double (1 # 5)) q then q else to_double (1 # 5) in
      let ms := d_mul q 1000 in
      Some (Qnum ms / Zpos (Qden ms))
  | _ => None
  end.

(** What the other threads do during the sleeps, and whether a signal has asked for a
    stop; the argument is the time since the screen was drawn. *)
Context (others : Z -> syseba_app_t -> syseba_app_t) (stop_pending : syseba_app_t -> bool).

(** The wait between two screens: true when it ended without a stop. *)
Fixpoint dashboard_wait (fuel : nat) (refresh elapsed : Z) : ST syseba_app_t unit :=
  match fuel with
  | O => ret tt
  | S fuel' =>
      let* stopping := syseba_app_is_stopping in
      if negb stopping && (elapsed <? refresh) then
        let slice := if 100 <? refresh - elapsed then 100 else refresh - elapsed in
        let* pending := gets stop_pending in
        if pending then syseba_app_set_stopping
        else
          zoom (sys_sleep_ms slice) ;;;
          modify (others elapsed) ;;;
          dashboard_wait fuel' refresh (elapsed + slice)
      else ret tt
  end.

Definition wait_fuel (refresh : Z) : nat := S (Z.to_nat (refresh / 100 + 1)).

(** The screens that are drawn in at most [turns] turns, and whether the loop ended. *)
Fixpoint dashboard_loop (turns : nat) (width height : nat) (refresh : Z) (screens : list cstr) :
    ST syseba_app_t (bool * list cstr) :=
  match turns with
  | O => ret (false, screens)
  | S turns' =>
      let* stopping := syseba_app_is_stopping in
      if stopping then ret (true, screens)
      else
        let* pending := gets stop_pending in
        if pending then syseba_app_set_stopping ;;; ret (true, screens)
        else
          let* screen := gets (syseba_dashboard_render width height) in
          dashboard_wait (wait_fuel refresh) refresh 0 ;;;
          dashboard_loop turns' width height refresh (screens ++ [screen])
  end.

Definition hide_cursor : cstr := escape (c!"[?25l").
Definition show_cursor : cstr := escape (c!"[?25h") ++ escape (c!"[0m") ++ nl.

(** What it prints; [None] while it still runs, and for a refresh that is not finite. *)
Definition syseba_dashboard_run (terminal : bool) (turns width height : nat) (refresh_seconds : double) :
    ST syseba_app_t (option cstr) :=
  match refresh_ms refresh_seconds with
  | None => ret None
  | Some refresh =>
      let* run := dashboard_loop turns width height refresh [] in
      let '(ended, screens) := run in
      ret (if ended then
             Some ((if terminal then hide_cursor else []) ++ List.concat screens
                     ++ (if terminal then show_cursor else []))
           else None)
  end.
End Dashboard.
