(* ===== verification/Cli.v ===== *)
(** * The command line: commands (src/src/cli.c, src/src/main.c)

    What each command does and prints, and its exit status.  Lemmas are in CliSpec. *)

From Stdlib Require Import QArith_base.
From S2P Require Import Prelude CString Paths Os Platform Fs Config FsTree Restore Queue AppState Log App Json Service Status Token Web Database Strtod Options Dashboard.

(** [cJSON_Print]: the formatted text of a document. *)
Class CJsonPrint := cJSON_Print : json -> cstr.

(** The standard streams: what was written to two of them, what the third still
    delivers, and which are terminals. *)
Record console := Console {
  co_out : cstr;
  co_err : cstr;
  co_in : stream;
  co_in_terminal : bool;
  co_out_terminal : bool;
}.

(** The process runs with its streams and the host, or with an application, which holds
    the host. *)
#[export] Instance lens_console {S} : Lens (console * S) console.
Proof. refine {| lget := fst; lset t s := (t, snd s) |}; [done|by intros []|done]. Defined.
#[export] Instance lens_console_os : Lens (console * os) os.
Proof. refine {| lget := snd; lset t s := (fst s, t) |}; [done|by intros []|done]. Defined.
#[export] Instance lens_console_app : Lens (console * syseba_app_t) syseba_app_t.
Proof. refine {| lget := snd; lset t s := (fst s, t) |}; [done|by intros []|done]. Defined.

Definition print {S} (text : cstr) : ST (console * S) unit :=
  modify (fun '(c, s) =>
    (Console (co_out c ++ text) (co_err c) (co_in c) (co_in_terminal c) (co_out_terminal c), s)).
Definition eprint {S} (text : cstr) : ST (console * S) unit :=
  modify (fun '(c, s) =>
    (Console (co_out c) (co_err c ++ text) (co_in c) (co_in_terminal c) (co_out_terminal c), s)).
Definition puts {S} (text : cstr) : ST (console * S) unit := print (text ++ nl).

(** The buffer of an error: it keeps its text when a failure has no message. *)
Definition error_buffer (old message : cstr) : cstr :=
  match message with [] => old | _ => truncate ERROR_MAX message end.
Definition print_error {S} (message : cstr) : ST (console * S) unit :=
  eprint ((c!"Error: ") ++ error_buffer [] message ++ nl).

(** [fgets(buffer, size, stdin)] *)
Definition read_line {S} (size : Z) : ST (console * S) (option cstr) :=
  fun '(c, s) =>
    match fgets size (co_in c) with
    | None => (None, (c, s))
    | Some (line, rest) =>
        (Some line, (Console (co_out c) (co_err c) rest (co_in_terminal c) (co_out_terminal c), s))
    end.

(** A command that works on an application of its own, which is freed at the end. *)
Definition with_app {A} (config : syseba_config_t) (options : syseba_options_t)
    (m : ST (console * syseba_app_t) A) : ST (console * os) A :=
  fun '(c, s) =>
    let '(r, (c, a)) := m (c, syseba_app_init config options s) in
    (r, (c, app_os a)).

Section Cli.
Context `{DirOrder} `{IsoTime} `{Qsort} `{LocalStamp} `{Host} `{Strerror} `{Clock} `{Environment} `{Systemctl}.
Context `{CJson} `{CJsonPrint} `{!Allocator syseba_event_t} `{!Allocator syseba_log_record_t}.
Context {C : Type} `{Sqlite C}.
Context (unknown : cstr).

Notation CLI := (ST (console * os)).

Definition syseba_cli_load (input : syseba_options_t) :
    ST os (failure + (syseba_options_t * syseba_config_t)) :=
  let* found := syseba_config_find (getenv (c!"SYSEBA_CONFIG")) (Some (op_config_path input)) SYSEBA_PATH_MAX in
  match found with
  | None => ret (inl (SYSEBA_ERR_NOT_FOUND, c!"Configuration not found; use --config PATH"))
  | Some path =>
      let options := put_config_path path input in
      let* loaded := syseba_config_load path in
      ret (match loaded with inl e => inl e | inr config => inr (options, config) end)
  end.

(** ** status *)

(** [fscanf(lock, "%" SCNu64, &pid)], 0 when it does not match. *)
Definition scan_pid (text : cstr) : Z :=
  let parsed := strtoul text in
  match pu_end parsed with Some _ => pu_value parsed | None => 0 end.

Definition syseba_cli_print_disk (label path : cstr) : CLI unit :=
  print (match syseba_disk_usage (statvfs path) with
         | Some usage => pad_right 8 label ++ blank ++ path ++ (c!" [") ++ fixed2 (used_percent usage)
                           ++ PERCENT_SIGN ++ (c!"]") ++ nl
         | None => pad_right 8 label ++ blank ++ path ++ (c!" [not found]") ++ nl
         end).

Definition disk_item (path : cstr) : json :=
  let usage := syseba_disk_usage (statvfs path) in
  JObject
    [ (c!"path", JString path);
      (c!"exists", JBool (match usage with Some u => du_exists u | None => false end));
      (c!"used_percent", match usage with Some u => JNumber (DFin (used_percent u)) | None => JUnsigned 0 end) ].

Definition status_json (running : bool) (pid : Z) (config : syseba_config_t) : json :=
  JObject
    [ (c!"running", JBool running);
      (c!"pid", if 0 <? pid then JUnsigned pid else JNull);
      (c!"config", config_object config);
      (c!"disk", JObject [(c!"source", disk_item (cfg_source config));
                          (c!"backup", disk_item (cfg_backup config));
                          (c!"restore", disk_item (cfg_restore config))]) ].

Definition syseba_cli_status (options : syseba_options_t) (config : syseba_config_t) : CLI Z :=
  let* running := zoom (L := lens_console_os) (syseba_lock_is_held (op_lock_path options)) in
  let* pid := zoom (L := lens_console_os)
    (let* lock := syseba_open_regular_read (op_lock_path options) in
     match lock with
     | None => ret 0
     | Some (k, _) => let* file := sys_stream k in ret (scan_pid (sm_data file))
     end) in
  let tr := syseba_tr (op_language options) in
  (if op_output_json options then puts (cJSON_Print (status_json running pid config))
   else
     print ((c!"SySeBa: ") ++ (if running then tr (c!"ATTIVO") (c!"RUNNING") else tr (c!"FERMO") (c!"STOPPED"))
              ++ (if 0 <? pid then (c!" (PID ") ++ dec pid ++ (c!")") else []) ++ nl) ;;;
     syseba_cli_print_disk (tr (c!"Sorgente") (c!"Source")) (cfg_source config) ;;;
     syseba_cli_print_disk (c!"Backup") (cfg_backup config) ;;;
     syseba_cli_print_disk (c!"Restore") (cfg_restore config)) ;;;
  ret (if running then 0 else 3).

(** ** logs *)

Fixpoint puts_all {S} (lines : list cstr) : ST (console * S) unit :=
  match lines with
  | [] => ret tt
  | line :: rest => puts line ;;; puts_all rest
  end.

Definition syseba_cli_logs (options : syseba_options_t) (config : syseba_config_t) : CLI Z :=
  let* tail := zoom (L := lens_console_os) (syseba_log_tail (cfg_log_file config) (op_lines options)) in
  let lines := default [] tail in
  (if op_output_json options then puts (cJSON_Print (JObject [(c!"lines", JArray (map JString lines))]))
   else puts_all lines) ;;;
  ret 0.

(** ** restore-list *)

Definition cli_item_json (item : syseba_restore_item_t) : json :=
  JObject
    [ (c!"name", JString (ri_name item)); (c!"path", JString (ri_path item));
      (c!"is_dir", JBool (ri_is_directory item));
      (c!"size", if ri_is_directory item then JNull else JUnsigned (ri_size item));
      (c!"mtime", JString (ri_mtime item));
      (c!"destination_exists", JBool (ri_destination_exists item)) ].

Definition cli_listing_json (listing : syseba_restore_listing_t) : json :=
  JObject
    [ (c!"items", JArray (map cli_item_json (rl_items listing)));
      (c!"path", JString (rl_path listing)); (c!"is_file", JBool (rl_is_file listing));
      (c!"page", JUnsigned (rl_page listing)); (c!"pages", JUnsigned (rl_pages listing));
      (c!"page_size", JUnsigned (rl_page_size listing)); (c!"total", JUnsigned (rl_total listing));
      (c!"has_previous", JBool (rl_has_previous listing)); (c!"has_next", JBool (rl_has_next listing)) ].

Definition kind_of (item : syseba_restore_item_t) : cstr := if ri_is_directory item then c!"DIR" else c!"FILE".

Definition item_line (language : syseba_language_t) (item : syseba_restore_item_t) : cstr :=
  pad_right 4 (kind_of item) ++ blank ++ pad_left 12 (dec (ri_size item)) ++ (c!"  ") ++ ri_mtime item
  ++ (c!"  ") ++ ri_path item
  ++ (if ri_destination_exists item
      then syseba_tr language (c!" [destinazione esistente]") (c!" [destination exists]") else []) ++ nl.

Definition syseba_cli_restore_list (options : syseba_options_t) (config : syseba_config_t) : CLI Z :=
  with_app config options
    (let* listed := zoom (L := lens_console_app) (zoom (L := lens_os)
       (syseba_restore_list unknown config (Some (op_path options)) (Some (op_search options)) (op_page options)
          (op_page_size options) (op_sort options) (op_direction options))) in
     match listed with
     | inl (_, message) => print_error message ;;; ret 1
     | inr listing =>
         let tr := syseba_tr (op_language options) in
         (if op_output_json options then puts (cJSON_Print (cli_listing_json listing))
          else
            print ((match rl_path listing with [] => c!"/" | path => path end) ++ (c!" - ") ++ dec (rl_total listing)
                     ++ blank ++ tr (c!"elementi") (c!"items") ++ (c!" - ") ++ tr (c!"pagina") (c!"page") ++ blank
                     ++ dec (rl_page listing) ++ (c!"/") ++ dec (rl_pages listing) ++ nl) ;;;
            print (flat_map (item_line (op_language options)) (rl_items listing))) ;;;
         ret 0
     end).

(** ** restore-copy *)

Definition strategy_name (strategy : syseba_restore_strategy_t) : cstr :=
  match strategy with
  | SYSEBA_RESTORE_RENAME => c!"rename"
  | SYSEBA_RESTORE_OVERWRITE => c!"overwrite"
  | SYSEBA_RESTORE_FAIL => c!"fail"
  end.

Definition cli_strategy (options : syseba_options_t) : syseba_restore_strategy_t :=
  if op_rename options then SYSEBA_RESTORE_RENAME
  else if op_overwrite options then SYSEBA_RESTORE_OVERWRITE
  else SYSEBA_RESTORE_FAIL.

(** The log's directory and the database, whatever comes of them: the text that is left
    in the buffer of the error. *)
Definition prepare_log (options : syseba_options_t) (config : syseba_config_t) : ST os cstr :=
  let* made :=
    (match syseba_parent_dir (cfg_log_file config) SYSEBA_PATH_MAX with
     | Some parent => syseba_mkdirs parent 488
     | None => ret false
     end) in
  let* failed := syseba_database_initialize (op_db_path options) in
  ret (error_buffer [] (default [] failed)).

(** What the thread of the log does with its queue until it is stopped. *)
Context (log_thread : bool)
  (drain_log : syseba_queue_t syseba_log_record_t -> syseba_queue_t syseba_log_record_t).

Notation APP := (ST (console * syseba_app_t)).

Definition app_call {A} (m : ST syseba_app_t A) : APP A := zoom (L := lens_console_app) m.

(** The body between the start of the log and its end. *)
Definition with_log (options : syseba_options_t) (config : syseba_config_t) (body : cstr -> APP Z) : APP Z :=
  let* error := app_call (zoom (L := lens_os) (prepare_log options config)) in
  let* started := app_call (syseba_log_start log_thread) in
  if negb started then eprint ((c!"Error: unable to start logging") ++ nl) ;;; ret 1
  else body error.

Definition syseba_cli_restore_copy (options : syseba_options_t) (config : syseba_config_t) : CLI Z :=
  let tr := syseba_tr (op_language options) in
  match op_path options with
  | [] => eprint (tr (c!"restore-copy richiede --path") (c!"restore-copy requires --path") ++ nl) ;;; ret 2
  | path =>
      let strategy := cli_strategy options in
      with_app config options
        (with_log options config (fun error =>
           let* result := app_call (syseba_restore_item unknown (Some path) strategy SYSEBA_PATH_MAX) in
           app_call (syseba_log_stop drain_log) ;;;
           match result with
           | inl (_, message) => print_error (error_buffer error message) ;;; ret 1
           | inr destination =>
               puts (if op_output_json options then
                       cJSON_Print (JObject [(c!"ok", JBool true); (c!"restored_to", JString destination);
                                             (c!"strategy", JString (strategy_name strategy))])
                     else destination) ;;;
               ret 0
           end))
  end.

(** ** restore-browser *)

(** Where the user is: the directory, the page, and the buffer of the error. *)
Record browser := Browser {
  br_current : cstr;
  br_page : Z;
  br_error : cstr;
}.

Definition browser_screen (language : syseba_language_t) (listing : syseba_restore_listing_t) : cstr :=
  let tr := syseba_tr language in
  syseba_console_clear ++ (c!"SySeBa Restore Browser") ++ nl ++ (c!"======================") ++ nl
  ++ tr (c!"Percorso") (c!"Path") ++ (c!": /") ++ rl_path listing ++ nl
  ++ tr (c!"Pagina") (c!"Page") ++ blank ++ dec (rl_page listing) ++ (c!"/") ++ dec (rl_pages listing)
  ++ (c!" - ") ++ dec (rl_total listing) ++ blank ++ tr (c!"elementi") (c!"items") ++ nl ++ nl
  ++ List.concat (imap (fun index item =>
       pad_left 3 (dec (Z.of_nat index + 1)) ++ (c!". ") ++ pad_right 4 (kind_of item) ++ blank
       ++ pad_right 12 (dec (ri_size item)) ++ blank ++ ri_name item
       ++ (if ri_destination_exists item then tr (c!"  [conflitto]") (c!"  [conflict]") else []) ++ nl)
       (rl_items listing))
  ++ nl ++ tr (c!"Numero=apri/ripristina, u=su, n=pagina successiva, p=precedente, q=esci")
             (c!"Number=open/restore, u=up, n=next page, p=previous, q=quit") ++ nl ++ (c!"> ").

(** [input[strcspn(input, "\r\n")] = '\0'] *)
Definition chomp (line : cstr) : cstr := fst (span (fun c => negb (ceq c RETURN || ceq c NEWLINE)) line).

(** One directory up. *)
Definition parent_of (current : cstr) : cstr :=
  match strrchr SLASH current with Some (before, _) => before | None => [] end.

(** The strategy for an item, [None] when the user cancels, and whether the input ended. *)
Definition ask_strategy (language : syseba_language_t) (item : syseba_restore_item_t) :
    APP (option syseba_restore_strategy_t * bool) :=
  if negb (ri_destination_exists item) then ret (Some SYSEBA_RESTORE_FAIL, false)
  else
    let tr := syseba_tr language in
    print (tr (c!"La destinazione esiste") (c!"Destination exists") ++ (c!" [r=")
             ++ tr (c!"rinomina") (c!"rename") ++ (c!", o=") ++ tr (c!"sovrascrivi") (c!"overwrite")
             ++ (c!", c=") ++ tr (c!"annulla") (c!"cancel") ++ (c!"]: ")) ;;;
    (let* choice := read_line 32 in
     ret (match choice with
          | None => (Some SYSEBA_RESTORE_FAIL, true)
          | Some line =>
              match line with
              | c :: _ =>
                  if ceq (tolower c) "r"%char then (Some SYSEBA_RESTORE_RENAME, false)
                  else if ceq (tolower c) "o"%char then (Some SYSEBA_RESTORE_OVERWRITE, false)
                  else (None, false)
              | [] => (None, false)
              end
          end)).

(** Restoring the selected file: the text in the buffer of the error, and whether the
    browser is done. *)
Definition browser_restore (language : syseba_language_t) (item : syseba_restore_item_t) (error : cstr) :
    APP (cstr * bool) :=
  let tr := syseba_tr language in
  let* asked := ask_strategy language item in
  match asked with
  | (_, true) => ret (error, true)
  | (None, _) => ret (error, false)
  | (Some strategy, false) =>
      let* result := app_call (syseba_restore_item unknown (Some (ri_path item)) strategy SYSEBA_PATH_MAX) in
      let* error :=
        (match result with
         | inr destination =>
             print (tr (c!"Ripristinato in") (c!"Restored to") ++ (c!": ") ++ destination ++ nl) ;;; ret error
         | inl (_, message) =>
             let error := error_buffer error message in
             print ((c!"Error: ") ++ error ++ nl) ;;; ret error
         end) in
      print (tr (c!"Invio per continuare...") (c!"Press Enter to continue...")) ;;;
      (let* choice := read_line 32 in
       ret (error, match choice with None => true | Some _ => false end))
  end.

(** The item of a number that the user writes. *)
Definition selection (input : cstr) (listing : syseba_restore_listing_t) : option syseba_restore_item_t :=
  match syseba_parse_unsigned input 1 (zlen (rl_items listing)) with
  | Some n => rl_items listing !! Z.to_nat (n - 1)
  | None => None
  end.

(** What an input line does: where the user is then, and whether the browser is done. *)
Definition browser_input (language : syseba_language_t) (listing : syseba_restore_listing_t)
    (input : cstr) (b : browser) : APP (browser * bool) :=
  if streq input (c!"q") then ret (b, true)
  else if streq input (c!"u") then ret (Browser (parent_of (br_current b)) 1 (br_error b), false)
  else if streq input (c!"n") && rl_has_next listing then
    ret (Browser (br_current b) (wrap32 (br_page b + 1)) (br_error b), false)
  else if streq input (c!"p") && rl_has_previous listing then
    ret (Browser (br_current b) (wrap32 (br_page b - 1)) (br_error b), false)
  else
    match selection input listing with
    | None => ret (b, false)
    | Some item =>
        if ri_is_directory item then
          ret (Browser (truncate SYSEBA_PATH_MAX (ri_path item)) 1 (br_error b), false)
        else
          let* restored := browser_restore language item (br_error b) in
          ret (Browser (br_current b) (br_page b) (fst restored), snd restored)
    end.

(** The loop, at most [turns] screens: whether it ended. *)
Fixpoint browser_loop (turns : nat) (options : syseba_options_t) (config : syseba_config_t) (b : browser) :
    APP bool :=
  match turns with
  | O => ret false
  | S turns' =>
      let page_size := if 40 <? op_page_size options then 40 else op_page_size options in
      let* listed := app_call (zoom (L := lens_os)
        (syseba_restore_list unknown config (Some (br_current b)) (Some []) (br_page b) page_size
           (c!"name") (c!"asc"))) in
      match listed with
      | inl (_, message) => print_error (error_buffer (br_error b) message) ;;; ret true
      | inr listing =>
          print (browser_screen (op_language options) listing) ;;;
          (let* line := read_line 128 in
           match line with
           | None => ret true
           | Some line =>
               let* next := browser_input (op_language options) listing (chomp line) b in
               let '(b', finished) := next in
               if finished then ret true else browser_loop turns' options config b'
           end)
      end
  end.

(** Every turn reads a line of the input. *)
Definition browser_turns (c : console) : nat := S (length (sm_data (co_in c))).

Definition syseba_cli_restore_browser (options : syseba_options_t) (config : syseba_config_t) : CLI Z :=
  let tr := syseba_tr (op_language options) in
  let* c := gets fst in
  if negb (co_in_terminal c) || negb (co_out_terminal c) then
    eprint (tr (c!"restore-browser richiede un terminale interattivo")
              (c!"restore-browser requires an interactive terminal") ++ nl) ;;; ret 2
  else
    with_app config options
      (with_log options config (fun error =>
         browser_loop (browser_turns c) options config (Browser [] 1 error) ;;;
         app_call (syseba_log_stop drain_log) ;;;
         ret 0)).

(** ** run *)

(** What the services answer when the application starts and stops, the random device
    for a new token, the size of the terminal, and what happens while the program waits: the
    other threads work, and a signal may ask for a stop. *)
Record run_world := RunWorld {
  rw_answers : start_answers;
  rw_drain : syseba_app_t -> syseba_app_t;
  rw_random : random_device;
  rw_width : nat;
  rw_height : nat;
  rw_others : Z -> syseba_app_t -> syseba_app_t;
  rw_stop_pending : syseba_app_t -> bool;
}.

(** [while (!stopping) { if (stop pending) { stop; break; } sleep }], at most [turns]
    times: whether it ended. *)
Fixpoint silent_loop (turns : nat) (w : run_world) : ST syseba_app_t bool :=
  match turns with
  | O => ret false
  | S turns' =>
      let* stopping := syseba_app_is_stopping in
      if stopping then ret true
      else
        let* pending := gets (rw_stop_pending w) in
        if pending then syseba_app_set_stopping ;;; ret true
        else
          zoom (sys_sleep_ms 250) ;;;
          modify (rw_others w 0) ;;;
          silent_loop turns' w
  end.

Definition web_lines (options : syseba_options_t) (a : syseba_app_t) : cstr :=
  let tr := syseba_tr (op_language options) in
  if ao_web_enabled (app_options_ a) && negb (op_silent options) then
    tr (c!"Interfaccia Web") (c!"Web interface") ++ (c!": http://") ++ ao_web_host (app_options_ a) ++ (c!":")
    ++ dec (ao_web_port (app_options_ a)) ++ nl
    ++ (if ws_auth_enabled (app_web a)
           && (streq (ws_token_source (app_web a)) (c!"file")
               || streq (ws_token_source (app_web a)) (c!"generated-file"))
        then tr (c!"File token Web") (c!"Web token file") ++ (c!": ") ++ op_token_path options ++ nl else [])
  else [].

(** The exit status; [None] while the service runs. *)
Definition syseba_cli_run (w : run_world) (turns : nat) (options : syseba_options_t) (config : syseba_config_t) :
    CLI (option Z) :=
  with_app config options
    (let* a := gets snd in
     let* token :=
       (if ao_web_enabled (app_options_ a) then app_call (syseba_web_load_token (rw_random w) options)
        else ret None) in
     match token with
     | Some (_, message) => print_error message ;;; ret (Some 1)
     | None =>
         let* started := app_call (syseba_app_start (rw_answers w) (rw_drain w) drain_log) in
         match started with
         | Some (_, message) => print_error message ;;; ret (Some 1)
         | None =>
             let* pending := gets (fun s => rw_stop_pending w (snd s)) in
             (if pending then app_call syseba_app_set_stopping else ret tt) ;;;
             (let* a := gets snd in
              print (web_lines options a) ;;;
              (let* c := gets fst in
               let* ended :=
                 (if negb (op_silent options) && negb (op_web_only options) && co_out_terminal c then
                    let* shown := app_call (syseba_dashboard_run (rw_others w) (rw_stop_pending w) true turns
                                              (rw_width w) (rw_height w) (op_console_refresh options)) in
                    match shown with Some text => print text ;;; ret true | None => ret false end
                  else app_call (silent_loop turns w)) in
               if ended then app_call (syseba_app_stop (rw_drain w) drain_log) ;;; ret (Some 0)
               else ret None))
         end
     end).

(** ** The commands *)

Definition config_check (options : syseba_options_t) (config : syseba_config_t) : CLI Z :=
  (if op_output_json options then
     puts (cJSON_Print (JObject [(c!"ok", JBool true); (c!"errors", JArray []); (c!"warnings", JArray [])]))
   else
     puts (c!"OK") ;;;
     (let* backup := zoom (L := lens_console_os) (syseba_fs_exists (cfg_backup config)) in
      let* restore := zoom (L := lens_console_os) (syseba_fs_exists (cfg_restore config)) in
      let missing (present : bool) path :=
        if present then []
        else syseba_tr (op_language options) ((c!"Verr") ++ [chr 195; chr 160] ++ (c!" creata la directory"))
               (c!"Directory will be created") ++ (c!": ") ++ path ++ nl in
      print (missing backup (cfg_backup config) ++ missing restore (cfg_restore config)))) ;;;
  ret 0.

(** [euid] is the user, [link] the executable. *)
Definition service_install_command (euid : Z) (link : option cstr) (input : syseba_options_t) : CLI Z :=
  let* path :=
    (match op_config_path input with
     | [] =>
         let* found := zoom (L := lens_console_os)
           (syseba_config_find (getenv (c!"SYSEBA_CONFIG")) None SYSEBA_PATH_MAX) in
         ret (default SYSEBA_DEFAULT_CONFIG found)
     | path => ret path
     end) in
  let options := put_config_path path input in
  let* failed := zoom (L := lens_console_os)
    (fun s => let '(r, (_, s)) := syseba_service_install euid link options ([], s) in (r, s)) in
  match failed with
  | Some (_, message) => print_error message ;;; ret 1
  | None =>
      puts (syseba_tr (op_language options) (c!"Servizio SySeBa installato e abilitato.")
              (c!"SySeBa service installed and enabled.")) ;;;
      ret 0
  end.

Definition syseba_cli_execute (euid : Z) (link : option cstr) (w : run_world) (turns : nat)
    (input : syseba_options_t) : CLI (option Z) :=
  let status (m : CLI Z) : CLI (option Z) := let* s := m in ret (Some s) in
  if streq (op_command input) (c!"service-install") then status (service_install_command euid link input)
  else
    let* loaded := zoom (L := lens_console_os) (syseba_cli_load input) in
    match loaded with
    | inl (_, message) =>
        eprint (syseba_tr (op_language input) (c!"Errore") (c!"Error") ++ (c!": ") ++ error_buffer [] message ++ nl) ;;;
        ret (Some 2)
    | inr (options, config) =>
        let named name := streq (op_command options) name in
        if named (c!"status") then status (syseba_cli_status options config)
        else if named (c!"logs") then status (syseba_cli_logs options config)
        else if named (c!"config-check") then status (config_check options config)
        else if named (c!"restore-list") then status (syseba_cli_restore_list options config)
        else if named (c!"restore-browser") then status (syseba_cli_restore_browser options config)
        else if named (c!"restore-copy") then status (syseba_cli_restore_copy options config)
        else syseba_cli_run w turns options config
    end.

(** [main]: the exit status. *)
Definition cli_main (euid : Z) (link : option cstr) (w : run_world) (turns : nat) (argv : list cstr) :
    CLI (option Z) :=
  match syseba_cli_parse argv syseba_options_defaults with
  | ParseUsage language => print (syseba_cli_usage language) ;;; ret (Some 0)
  | ParseVersion => puts ((c!"SySeBa ") ++ SYSEBA_VERSION) ;;; ret (Some 0)
  | ParseError options message =>
      eprint (syseba_tr (op_language options) (c!"Errore") (c!"Error") ++ (c!": ") ++ error_buffer [] message ++ nl ++ nl) ;;;
      eprint (syseba_cli_usage (op_language options)) ;;;
      ret (Some 2)
  | ParseDone options => syseba_cli_execute euid link w turns options
  end.
End Cli.
