(* ===== verification/CliSpec.v ===== *)
(** * The promises of the command line *)

From Stdlib Require Import QArith_base.
From S2P Require Import Prelude CString Paths Os Platform Fs Config FsTree Restore Queue AppState Log App Examples Demo Json Service ServiceFacts Status Token Web Database Strtod Options OptionsFacts Dashboard Cli.

(** ** The restore browser ends *)

(** What is left of the input. *)
Definition input_left {S} (s : console * S) : nat := length (sm_data (co_in (fst s))).
Definition no_more_input {S} (s s' : console * S) : Prop := (input_left s' <= input_left s)%nat.

#[export] Instance no_more_input_preorder S : PreOrder (@no_more_input S).
Proof. split; unfold no_more_input; [intros s; lia|intros s1 s2 s3; lia]. Qed.

Lemma take_line_length n s : (length (fst (take_line n s)) + length (snd (take_line n s)) = length s)%nat.
Proof.
  revert s. induction n as [|n IH]; intros [|c s]; try done. cbn [take_line].
  destruct (ceq c NEWLINE); [done|]. specialize (IH s). destruct (take_line n s). cbn in *. lia.
Qed.

(** A line that was read is taken from the input. *)
Lemma fgets_consumes size f line f' :
  fgets size f = Some (line, f') -> (length (sm_data f') < length (sm_data f))%nat.
Proof.
  unfold fgets. pose proof (take_line_length (Z.to_nat (size - 1)) (sm_data f)) as Hl.
  destruct (take_line _ _) as [l rest]. cbn [fst snd] in Hl. destruct l as [|c l]; [done|].
  intros E. repeat case_match; simplify_eq; cbn in *; lia.
Qed.

Lemma read_line_consumes {S} size (s s' : console * S) line :
  read_line size s = (Some line, s') -> (input_left s' < input_left s)%nat.
Proof.
  unfold read_line. destruct s as [c a]. destruct (fgets size (co_in c)) as [[l f]|] eqn:E; [|done].
  intros [= <- <-]. by apply fgets_consumes in E.
Qed.

Lemma read_line_keeps {S} size : keeps (@no_more_input S) (read_line size).
Proof.
  intros s. unfold exec. destruct (read_line size s) as [[line|] s'] eqn:E.
  - apply read_line_consumes in E. unfold no_more_input. cbn. lia.
  - unfold read_line in E. destruct s as [c a]. destruct (fgets _ _) as [[]|]; [done|]. by injection E as <-.
Qed.

Lemma print_keeps {S} text : keeps (@no_more_input S) (print text).
Proof. intros [c s]. unfold no_more_input, input_left. cbn. lia. Qed.
Lemma eprint_keeps {S} text : keeps (@no_more_input S) (eprint text).
Proof. intros [c s]. unfold no_more_input, input_left. cbn. lia. Qed.

Lemma app_call_keeps {A} (m : ST syseba_app_t A) : keeps no_more_input (app_call m).
Proof. intros [c a]. unfold no_more_input, app_call, zoom, exec. cbn. by destruct (m a). Qed.

#[export] Hint Resolve read_line_keeps print_keeps eprint_keeps app_call_keeps : keeps.

Section Browser.
Context `{DirOrder} `{IsoTime} `{Qsort} `{LocalStamp} `{Strerror} `{Clock}.
Context `{!Allocator syseba_event_t} `{!Allocator syseba_log_record_t}.
Context (unknown : cstr).

Lemma ask_strategy_keeps language item : keeps no_more_input (ask_strategy language item).
Proof. unfold ask_strategy. keeps_auto. Qed.

Lemma browser_restore_keeps language item error :
  keeps no_more_input (browser_restore unknown language item error).
Proof.
  unfold browser_restore. apply keeps_bind; [typeclasses eauto|apply ask_strategy_keeps|].
  intros [[strategy|] []]; keeps_auto.
Qed.

Lemma browser_input_keeps language listing input b :
  keeps no_more_input (browser_input unknown language listing input b).
Proof.
  unfold browser_input. repeat case_if; try (apply keeps_ret; typeclasses eauto).
  destruct (selection _ _) as [item|]; [|apply keeps_ret; typeclasses eauto].
  case_if; [apply keeps_ret; typeclasses eauto|].
  apply keeps_bind; [typeclasses eauto|apply browser_restore_keeps|].
  intros. apply keeps_ret; typeclasses eauto.
Qed.

Lemma browser_loop_ends turns options config : forall b s,
  (input_left s < turns)%nat -> value (browser_loop unknown turns options config b) s = true.
Proof.
  induction turns as [|turns IH]; intros b s Hs; [lia|]. cbn [browser_loop]. unfold value, bind at 1.
  destruct (app_call _ s) as [[[code message]|listing] s1] eqn:E1.
  { unfold bind, ret. by destruct (print_error _ s1). }
  assert (no_more_input s s1) as Hk1.
  { apply (f_equal snd) in E1. cbn [snd] in E1. rewrite <- E1. apply app_call_keeps. }
  rewrite bind_unit. set (s2 := exec (print _) s1).
  assert (no_more_input s1 s2) as Hk2 by apply print_keeps.
  unfold bind at 1. destruct (read_line 128 s2) as [[line|] s3] eqn:E3; [|done].
  apply read_line_consumes in E3.
  unfold bind at 1. destruct (browser_input _ _ _ _ _ s3) as [[b' finished] s4] eqn:E4.
  pose proof (browser_input_keeps (op_language options) listing (chomp line) b s3) as Hk4.
  unfold exec in Hk4. rewrite E4 in Hk4. cbn [snd] in Hk4.
  destruct finished; [done|]. apply IH. unfold no_more_input in *. lia.
Qed.
End Browser.

(** ** Options and services *)

(** C39: whatever the arguments, options that the parser accepts name a
    known command, fit their buffers and are in their ranges, and never ask to overwrite
    and to rename at once.  (The refresh is not proved to be a number: [nan] passes both
    of its comparisons.) *)
Theorem parse_checks_options argv o :
  syseba_cli_parse argv syseba_options_defaults = ParseDone o ->
  options_ok o /\ (op_overwrite o && op_rename o) = false.
Proof. intros H. eapply cli_arguments_ok; [exact H|]. apply defaults_ok. Qed.

(** C25: the service starts with what the unit carries of its installation: the
    [ExecStart] line of the unit is the text of a command, which the
    program parses to the command [run] without dashboard, with the Web UI on every address
    (whatever the host asked for at the installation), and to the
    port, the paths, the configuration and the language of the installation; the other
    options have their defaults.  Any systemd that keeps to its manual hands over such a
    command when the executable is absolute and the paths are ASCII. *)
Theorem service_starts_as_installed `{SystemdLaws} executable options loaded parents unit :
  options_ok options -> fits SYSEBA_PATH_MAX (cfg_config_path loaded) = true ->
  service_unit executable options loaded parents = Some unit ->
  exists before command after argv,
    unit = before ++ line ((c!"ExecStart=") ++ command) ++ after /\ NEWLINE ∉ command /\
    unit_words true command argv /\
    syseba_cli_parse argv syseba_options_defaults = ParseDone (service_options options loaded) /\
    (absolute executable = true -> Forall ascii_text (command_paths executable options loaded) ->
     exists started, systemd_argv command = Some started /\
       syseba_cli_parse started syseba_options_defaults = ParseDone (service_options options loaded)).
Proof.
  intros Ho Hc Hu. pose proof (oo_port _ Ho) as Hp.
  destruct (service_unit_words executable options loaded parents unit)
    as (t & ts & writable & E & Hn & _ & Ht & Hf & Hts & _ & Hac & _); [lia|done|].
  exists unit_head, (blank_words (t :: ts)), (unit_middle ++ line ((c!"ReadWritePaths=") ++ writable) ++ unit_tail),
    (service_argv executable options loaded).
  split_and!; [exact E|done| |by apply service_argv_parses|].
  - exists (t :: ts). split; [done|]. by constructor.
  - intros He Ha. assert (absolute (dollars_doubled executable) = true) as He' by (by rewrite dollars_doubled_absolute).
    destruct (systemd_argv_ok t _ _ ts _ Hf Ht He' Hts (Hac Ha)) as [name Hargv].
    exists (service_argv name options loaded). split; [exact Hargv|by apply service_argv_parses].
Qed.

Section Browser.
Context `{DirOrder} `{IsoTime} `{Qsort} `{LocalStamp} `{Strerror} `{Clock}.
Context `{!Allocator syseba_event_t} `{!Allocator syseba_log_record_t}.

(** The restore browser ends on every finite input, whatever the host does
    and the user writes: a turn that does not end it reads a line. *)
Theorem browser_ends unknown options config b c a :
  value (browser_loop unknown (browser_turns c) options config b) (c, a) = true.
Proof. apply browser_loop_ends. unfold input_left, browser_turns. cbn. lia. Qed.
End Browser.

(** ** Examples *)

Definition example_argv : list cstr :=
  [c!"syseba"; c!"restore-list"; c!"--path=photos"; c!"--page-size"; c!"20"; c!"--sort"; c!"size"; c!"--json"].
Definition example_options : syseba_options_t :=
  match syseba_cli_parse example_argv syseba_options_defaults with
  | ParseDone o => o
  | _ => syseba_options_defaults
  end.

Example parse_checks_options_witness :
  options_ok example_options /\ (op_overwrite example_options && op_rename example_options) = false.
Proof. apply (parse_checks_options example_argv). by vm_compute. Defined.

#[local] Existing Instance reader_systemd.
#[local] Existing Instance reader_laws.

Example service_starts_as_installed_witness :
  let unit := default [] (service_unit (c!"/usr/bin/syseba") demo_options demo_config [c!"/run"]) in
  exists before command after argv,
    unit = before ++ line ((c!"ExecStart=") ++ command) ++ after /\ NEWLINE ∉ command /\
    unit_words true command argv /\
    syseba_cli_parse argv syseba_options_defaults = ParseDone (service_options demo_options demo_config) /\
    (absolute (c!"/usr/bin/syseba") = true ->
     Forall ascii_text (command_paths (c!"/usr/bin/syseba") demo_options demo_config) ->
     exists started, systemd_argv command = Some started /\
       syseba_cli_parse started syseba_options_defaults = ParseDone (service_options demo_options demo_config)).
Proof.
  apply (service_starts_as_installed (c!"/usr/bin/syseba") demo_options demo_config [c!"/run"]).
  - constructor; by vm_compute.
  - by vm_compute.
  - by vm_compute.
Defined.

(** A refresh that is not a number, a prefix that is not an option, and a number that
    wraps around are accepted. *)
Example odd_arguments :
  syseba_cli_parse [c!"syseba"; c!"--console-refresh=nan"; c!"--linesmore"; c!"-18446744073709551615"]
    syseba_options_defaults = ParseDone (put_lines 1 (put_console_refresh DNan syseba_options_defaults)).
Proof. by vm_compute. Qed.
