(* ===== verification/ServiceMacSpec.v ===== *)
(** * The promises of the macOS service

    What launchd reads from the property list, and that the program started by it is the
    one that was installed. *)

From S2P Require Import Prelude CString Paths Os Platform Fs Config AppState Service ServiceFacts ServiceMac Options OptionsFacts Examples Demo.

(** ** How a property list is read

    The text of an element goes to the next tag; an ampersand begins an entity, which a
    semicolon ends.  An array holds [string] elements, with line feeds between them. *)

Definition SEMICOLON : ascii := chr 59.

Definition xml_entity (name : cstr) : option ascii :=
  if streq name (c!"amp") then Some AMPERSAND
  else if streq name (c!"lt") then Some LESS
  else if streq name (c!"gt") then Some GREATER
  else if streq name (c!"quot") then Some QUOTE
  else if streq name (c!"apos") then Some APOSTROPHE
  else None.

(** The text before the next tag, and the rest; [entity] is the name read so far. *)
Fixpoint xml_text (entity : option cstr) (s : cstr) : option (cstr * cstr) :=
  match s with
  | [] => None
  | c :: rest =>
      match entity with
      | Some name =>
          if ceq c SEMICOLON then
            match xml_entity name with
            | Some d => option_map (fun tr => (d :: fst tr, snd tr)) (xml_text None rest)
            | None => None
            end
          else xml_text (Some (name ++ [c])) rest
      | None =>
          if ceq c LESS then Some ([], s)
          else if ceq c AMPERSAND then xml_text (Some []) rest
          else option_map (fun tr => (c :: fst tr, snd tr)) (xml_text None rest)
      end
  end.

(** What follows the tag, if it is there. *)
Definition after_tag (tag s : cstr) : option cstr :=
  if starts_with tag s then Some (drop (length tag) s) else None.

(** The strings of an array, up to its end, and the rest of the document. *)
Fixpoint read_array (fuel : nat) (s : cstr) : option (list cstr * cstr) :=
  match fuel with
  | O => None
  | S fuel' =>
      match s with
      | c :: rest =>
          if ceq c NEWLINE then read_array fuel' rest
          else
            match after_tag (c!"</array>") s, after_tag (c!"<string>") s with
            | Some rest, _ => Some ([], rest)
            | None, Some body =>
                match xml_text None body with
                | Some (text, rest) =>
                    match after_tag (c!"</string>") rest with
                    | Some rest => option_map (fun lr => (text :: fst lr, snd lr)) (read_array fuel' rest)
                    | None => None
                    end
                | None => None
                end
            | None, None => None
            end
      | [] => None
      end
  end.

Definition read_strings (s : cstr) : option (list cstr * cstr) := read_array (S (length s)) s.

(** ** Escaped text is read back *)

Lemma xml_text_replacement c replacement rest :
  xml_replacement c = Some replacement ->
  xml_text None (replacement ++ rest) = option_map (fun tr => (c :: fst tr, snd tr)) (xml_text None rest).
Proof.
  unfold xml_replacement. intros H.
  repeat (case_match; [match goal with E : ceq c _ = true |- _ => apply Ascii.eqb_eq in E as -> end;
    by injection H as <-|]). done.
Qed.

Lemma xml_text_plain c rest :
  xml_replacement c = None ->
  xml_text None (c :: rest) = option_map (fun tr => (c :: fst tr, snd tr)) (xml_text None rest).
Proof. unfold xml_replacement. intros H. cbn [xml_text]. repeat (case_match; try done). Qed.

Lemma xml_escape_reads s used size e rest :
  xml_escape_loop s used size = Some e ->
  xml_text None (e ++ LESS :: rest) = Some (s, LESS :: rest).
Proof.
  revert used e. induction s as [|c s IH]; intros used e H; cbn [xml_escape_loop] in H.
  - injection H as <-. cbn [app xml_text]. by rewrite ceq_refl.
  - destruct (_ && _); [done|]. destruct (xml_replacement c) as [replacement|] eqn:Ec;
      (destruct (size <=? _); [done|]); destruct (xml_escape_loop s _ _) as [e'|] eqn:Es;
      try done; injection H as <-.
    + rewrite <- app_assoc, (xml_text_replacement c), (IH _ _ Es) by done. done.
    + cbn [app]. rewrite xml_text_plain, (IH _ _ Es) by done. done.
Qed.

(** A text that launchd reads as [w]. *)
Definition xml_reads (t w : cstr) : Prop :=
  forall rest, xml_text None (t ++ LESS :: rest) = Some (w, LESS :: rest).

Lemma escaped_reads s size e : syseba_xml_escape s size = Some e -> xml_reads e s.
Proof.
  unfold syseba_xml_escape. destruct (size =? 0); [done|]. intros H rest. by eapply xml_escape_reads.
Qed.

(** Texts without a sign to escape are read as they are. *)
Lemma plain_xml_reads w : forallb (fun c => negb (ceq c LESS) && negb (ceq c AMPERSAND)) w = true -> xml_reads w w.
Proof.
  induction w as [|c w IH]; intros H rest.
  - cbn [app xml_text]. by rewrite ceq_refl.
  - cbn [forallb] in H. apply andb_true_iff in H as [Hc H]. bool_hyps. cbn [app xml_text].
    repeat match goal with E : ceq c _ = false |- _ => rewrite E; clear E end.
    by rewrite (IH H rest).
Qed.

(** ** Arrays *)

Definition array_reads (s : cstr) (l : list cstr) (rest : cstr) : Prop :=
  forall fuel, (length s < fuel)%nat -> read_array fuel s = Some (l, rest).

Lemma after_tag_app tag s : after_tag tag (tag ++ s) = Some s.
Proof.
  unfold after_tag. assert (starts_with tag (tag ++ s) = true) as ->
    by (apply starts_with_true; by apply prefix_app_r).
  by rewrite drop_app_length.
Qed.

Lemma array_newline s l rest : array_reads s l rest -> array_reads ([NEWLINE] ++ s) l rest.
Proof.
  intros Hs [|fuel] Hf; [by apply Nat.nlt_0_r in Hf|]. cbn [read_array app]. rewrite ceq_refl.
  apply Hs. cbn [length app] in Hf. lia.
Qed.

Lemma array_end rest : array_reads ((c!"</array>") ++ rest) [] rest.
Proof.
  intros [|fuel] Hf; [by apply Nat.nlt_0_r in Hf|]. cbn [read_array].
  assert (exists c s, (c!"</array>") ++ rest = c :: s /\ ceq c NEWLINE = false) as (c & s & E & Ec)
    by (eexists _, _; split; [reflexivity|by vm_compute]).
  rewrite E, Ec, <- E. by rewrite after_tag_app.
Qed.

Lemma array_string t w s l rest :
  xml_reads t w -> array_reads s l rest -> array_reads (plist_string t ++ s) (w :: l) rest.
Proof.
  intros Ht Hs [|fuel] Hf; [by apply Nat.nlt_0_r in Hf|]. unfold plist_string in *.
  rewrite <- !app_assoc in *. cbn [read_array].
  set (body := t ++ (c!"</string>") ++ s) in *.
  assert (exists c s', (c!"<string>") ++ body = c :: s' /\ ceq c NEWLINE = false) as (c & s' & E & Ec)
    by (eexists _, _; split; [reflexivity|by vm_compute]).
  rewrite E, Ec, <- E. rewrite after_tag_app.
  assert (after_tag (c!"</array>") ((c!"<string>") ++ body) = None) as -> by (by vm_compute).
  assert ((c!"</string>") ++ s = LESS :: drop 1 (c!"</string>") ++ s) as Etag by done.
  unfold body. rewrite Etag, Ht, <- Etag, after_tag_app.
  rewrite Hs; [done|]. unfold body in Hf. rewrite !length_app in Hf.
  change (length (c!"<string>")) with 8%nat in Hf. lia.
Qed.

(** Everything the program escapes is read back, the words of its options too. *)
Ltac read_plist :=
  repeat first
    [ apply array_end
    | apply array_newline
    | apply array_string; [first [eassumption | apply plain_xml_reads; by vm_compute]|] ].

Lemma dec_xml_reads n : 0 <= n -> xml_reads (dec n) (dec n).
Proof.
  intros Hn. apply plain_xml_reads, forallb_forall. intros c Hin. apply list_elem_of_In in Hin.
  pose proof (dec_digits n Hn) as Hd. rewrite Forall_forall in Hd. specialize (Hd c Hin).
  unfold isdigit in Hd. bool_hyps.
  apply andb_true_iff. split; apply negb_true_iff, ceq_false; intros ->; by vm_compute in *.
Qed.

Lemma xml_escape_all_reads l es : xml_escape_all l = Some es -> Forall2 xml_reads es l.
Proof.
  revert es. induction l as [|p l IH]; intros es H; cbn [xml_escape_all] in H; [by injection H as <-|].
  destruct (syseba_xml_escape p _) eqn:Ep; [|done]. destruct (xml_escape_all l) as [es'|]; [|done].
  injection H as <-. constructor; [by eapply escaped_reads|by apply IH].
Qed.

Lemma xml_escape_short s used size e : 0 <= used -> xml_escape_loop s used size = Some e ->
  s = [] \/ used + zlen e < size.
Proof.
  revert used e. induction s as [|c s IH]; intros used e Hu H; cbn [xml_escape_loop] in H; [by left|].
  right. destruct (_ && _); [done|]. destruct (xml_replacement c) as [replacement|].
  - pose proof (zlen_nonneg replacement). destruct (size <=? _) eqn:Es; [done|]. bool_hyps.
    destruct (xml_escape_loop s _ _) as [e'|] eqn:Ee; [|done]. injection H as <-. rewrite zlen_app.
    pose proof Ee as Ee'. apply IH in Ee' as [->|?]; [|lia|lia].
    cbn in Ee. injection Ee as <-. change (zlen (@nil ascii)) with 0. lia.
  - destruct (size <=? _) eqn:Es; [done|]. bool_hyps.
    destruct (xml_escape_loop s _ _) as [e'|] eqn:Ee; [|done]. injection H as <-.
    pose proof Ee as Ee'. apply IH in Ee' as [->|?]; [|zlen_lia|lia].
    cbn in Ee. injection Ee as <-. zlen_lia.
Qed.

Lemma xml_escape_fits s size e : syseba_xml_escape s size = Some e -> 0 < size -> zlen e < size.
Proof.
  unfold syseba_xml_escape. destruct (size =? 0); [done|]. intros H Hs.
  pose proof H as H'. apply xml_escape_short in H' as [->|?]; [|lia|lia]. by injection H as <-.
Qed.

Lemma xml_escape_all_fits l es : xml_escape_all l = Some es -> Forall (fun e => zlen e < SYSEBA_PATH_MAX * 2) es.
Proof.
  revert es. induction l as [|p l IH]; intros es H; cbn [xml_escape_all] in H; [by injection H as <-|].
  destruct (syseba_xml_escape p _) eqn:Ep; [|done]. destruct (xml_escape_all l) as [es'|]; [|done].
  injection H as <-. constructor; [|by apply IH]. apply (xml_escape_fits p); [done|by vm_compute].
Qed.

(** ** The property list *)

Lemma arguments_read e c t d l executable options loaded :
  0 <= op_web_port options ->
  xml_escape_all [executable; cfg_config_path loaded; op_token_path options; op_db_path options;
                  op_lock_path options] = Some [e; c; t; d; l] ->
  array_reads (plist_arguments e c t d l (op_web_port options) (language_code (op_language options))
                 ++ plist_tail)
    (service_argv executable options loaded) (NEWLINE :: plist_tail).
Proof.
  intros Hp He. pose proof (xml_escape_all_reads _ _ He) as R.
  repeat match goal with H : Forall2 _ (_ :: _) (_ :: _) |- _ => apply Forall2_cons in H as [? H] end.
  pose proof (dec_xml_reads _ Hp).
  assert (xml_reads (language_code (op_language options)) (language_code (op_language options)))
    by (destruct (op_language options); apply plain_xml_reads; by vm_compute).
  unfold plist_arguments, line, service_argv. rewrite <- !app_assoc. read_plist.
Qed.

Lemma escape_all_length l es : xml_escape_all l = Some es -> length es = length l.
Proof. intros H. apply xml_escape_all_reads, Forall2_length in H. done. Qed.

(** Its buffer is always large enough. *)
Lemma plist_fits e c t d l port language :
  Forall (fun e => zlen e < SYSEBA_PATH_MAX * 2) [e; c; t; d; l] ->
  zlen (dec port) <= 20 -> zlen language <= 2 ->
  fits PLIST_SIZE (plist_head ++ plist_arguments e c t d l port language ++ plist_tail) = true.
Proof.
  intros He Hd Hl. repeat (apply Forall_cons in He as [? He]). apply Z.ltb_lt.
  unfold plist_arguments, plist_string, line.
  rewrite !zlen_app. unfold PLIST_SIZE, SYSEBA_PATH_MAX in *.
  repeat match goal with |- context [zlen ?x] =>
    lazymatch x with e => fail | c => fail | t => fail | d => fail | l => fail | language => fail
    | dec port => fail | _ => let v := eval vm_compute in (zlen x) in change (zlen x) with v end end.
  lia.
Qed.

(** C26: when the paths of the macOS service can be escaped, its
    property list always fits its buffer and is the fixed text around one array; launchd
    reads in that array exactly the executable, the options and the paths of the
    installation, whatever signs they hold, and the rest of the document is the fixed
    text; the program parses these words to what the list carries of the installation: the
    Web UI on every address, the port, the paths and the language, with defaults for the
    other options. *)
Theorem daemon_starts_as_installed executable options loaded plist :
  options_ok options -> fits SYSEBA_PATH_MAX (cfg_config_path loaded) = true ->
  service_plist executable options loaded = Some plist ->
  exists body argv,
    plist = Some (plist_head ++ body) /\
    read_strings body = Some (argv, NEWLINE :: plist_tail) /\
    argv = service_argv executable options loaded /\
    syseba_cli_parse argv syseba_options_defaults = ParseDone (service_options options loaded).
Proof.
  intros Ho Hc H. pose proof (oo_port _ Ho) as Hp. unfold service_plist in H.
  destruct (xml_escape_all _) as [es|] eqn:Ee; [|done]. pose proof (escape_all_length _ _ Ee) as Hlen.
  destruct es as [|e [|c [|t [|d [|l [|]]]]]]; try done. cbv zeta in H.
  rewrite plist_fits in H; [|by eapply xml_escape_all_fits| |by destruct (op_language options)].
  2: { assert (op_web_port options = wrap64 (op_web_port options)) as ->
         by (rewrite wrap64_small; [done|unfold U64_MAX; lia]). apply dec_wrap64_length. }
  injection H as <-. eexists _, _. split; [reflexivity|]. split; [|split; [done|by apply service_argv_parses]].
  apply arguments_read; [lia|done|apply Nat.lt_succ_diag_r].
Qed.

(** A lock whose name has every sign that is escaped. *)
Definition mac_options : syseba_options_t :=
  options_with_lock ((c!"/run/a <b> & ") ++ [QUOTE; APOSTROPHE; AMPERSAND] ++ (c!"amp;")).
Definition mac_plist : option cstr := default None (service_plist (c!"/usr/local/bin/syseba") mac_options demo_config).

Example daemon_starts_as_installed_witness :
  exists body argv,
    mac_plist = Some (plist_head ++ body) /\
    read_strings body = Some (argv, NEWLINE :: plist_tail) /\
    argv = service_argv (c!"/usr/local/bin/syseba") mac_options demo_config /\
    syseba_cli_parse argv syseba_options_defaults = ParseDone (service_options mac_options demo_config).
Proof.
  apply (daemon_starts_as_installed (c!"/usr/local/bin/syseba") mac_options demo_config).
  - constructor; by vm_compute.
  - by vm_compute.
  - by vm_compute.
Defined.

(** A path with a line feed is refused. *)
Example control_refused : syseba_xml_escape ((c!"/run/a") ++ [NEWLINE]) 100 = None.
Proof. by vm_compute. Qed.
